(* ===== verification/_CoqProject ===== *)
-Q . S2P
Prelude.v
Mem.v
CString.v
MemOps.v
State.v
Console.v
Printf.v
Exceptions.v
I8259.v
Pcb.v
Rtc.v
Filesys.v
FilesysRead.v
FilesysDir.v
Keyboard.v
Terminal.v
Paging.v
Syscalls.v
Process.v
Exec.v
Trap.v
Support.v
Emulate.v
FileCalls.v
UserCalls.v
Programs.v
Output.v
Run.v
Syserr.v
Typing.v
Linkage.v
Boot.v
Kernel.v
Segments.v
Shell.v
Command.v
Startup.v
Lines.v
Grep.v
Blink.v
Pingpong.v
Sigtest.v
Fish.v
