(* ===== verification/Prelude.v ===== *)
(** * Verification of the student kernel and its user programs

    The repository is a small x86 operating system: a kernel (src/student-distrib)
    with a text console, a read-only file system, drivers for the keyboard, the
    real-time clock and the interrupt controllers, paging and ten system calls, and
    the programs that run on it (src/syscalls).  This development models the C code
    and the assembly the C code depends on as Rocq functions over one kernel state,
    and proves what the parts promise to each other and to a user.

    ** The parts and how they interact

    A program calls the library of Support.v and the wrappers of Trap.v, which enter
    the kernel through SYS_CALL_HANDLER.  The handlers of Syscalls.v work on the control
    block of the current process (Pcb.v) and call the driver behind a descriptor: the
    file system (Filesys.v), the terminal (Keyboard.v, which prints through Console.v)
    or the clock (Rtc.v, which unmasks lines through I8259.v).  Execute and halt move
    the program page (Paging.v).  The boot code (Boot.v) fills the tables, masks the
    lines, prints (Printf.v), switches paging on and mounts the file system.

    - Prelude: machine integers, notations, tactics, hints, lists and loops.
    - Mem: the memory, bytes and 32-bit words, equivalence and framing ([unchanged]).
    - CString: strlen, strncmp, strcpy, strncpy, strrev and itoa of lib.c.
    - MemOps: the inline assembly of memset, memset_word, memset_dword, memcpy and
      memmove of lib.c, instruction by instruction, with the direction flag.
    - State: the global variables ([kst], a record per C file), ports and layout.
    - Console: clear, scrolling, putc, puts, putc_terminal, deletec_terminal and
      the cursor of lib.c, with the terminal as an abstract machine ([term]).
    - Printf: printf of lib.c and the text a format stands for ([render]); Exceptions:
      the functions of exceptions_c.c that report an exception.
    - I8259, Pcb, Rtc: i8259.c, pcb.h and rtc_driver.c.
    - Filesys: every operation of filesys.c; FilesysRead: the contents of a file
      ([file_bytes]) and the reads; FilesysDir: the directory ([dir_names]), lookups,
      open, close and directory reads.
    - Keyboard: key_driver.c, its tables and the interrupt handler; Terminal: the
      line editor it implements ([editor]) and terminal_read and terminal_write.
    - Paging: paging_c.c and paging.S with the bit fields of paging_c.h, and the
      processor's walk of the tables ([translate]).
    - Syscalls: the ten handlers of sys_calls.c; Process and Exec: execute and halt;
      FileCalls: open, read and close through the calls; UserCalls: getargs, vidmap.
    - Trap: the linkage of exceptions.S and the wrappers of ece391syscall.S; Linkage: the
      registers of a program on the kernel stack.
    - Support: ece391support.c; Programs: cat, ls, shell, hello, counter and
      testprint; Output: what the programs print; Run: a command from the call of execute
      to the output of its program; Syserr: the error test program
      ece391syserr.c; Shell: a turn of the shell and of hello, from the keys on; Command: a
      command from the keys at the prompt to the output; Lines: the lines of a text; Grep: the
      program grep; Pingpong: the program pingpong; Sigtest: the program sigtest.
    - Emulate: ece391emulate.c, with which the programs run under Linux; the host is the
      class [Linux].
    - Typing: the descriptor table under the calls of a process.
    - Boot: set_idt_entry, the descriptors and entry of kernel.c; Segments: boot.S, the static
      tables of x86_desc.S and the layout of the task state; Kernel: the kernel after
      it has booted, as a step relation over interrupts, calls and programs ([kstep]); Startup:
      the loop at the end of entry, and the way from the boot to the prompt.
    - Blink and Fish: the program of src/fish, its list of blinking characters in assembly
      (blink.S, with the allocator of fish.c), and the program that fills it.

    ** State

    All arrays and structures that pointers reach (the file system image, the control
    blocks, the page tables, the key buffer, the video memory, a caller's buffer) are
    bytes of one memory, so that overlapping buffers alias; the scalars of a C file
    are the fields of its record in [kst].  The memory keeps the bytes of the program
    page per physical frame and the frame that the last load of CR3 selected, so that
    the page of another process is out of reach until it is selected again.  The
    addresses the linker and the compiler choose are the classes [Layout], [Traps] and
    [BootLayout] and the record [locals]; what a theorem needs of them (objects that do
    not overlap, alignment) is a named layout record with a concrete instance in the
    witness.  A port delivers a byte that depends on the I/O performed so far
    ([Ports]), so a theorem holds for every device.  Interrupts arrive where the code
    waits for them: a schedule lists the scan codes or clock ticks between two
    polls.

    ** What the theorems show

    - Files: the contents of a file is defined from the image alone; file_read delivers
      the next piece of it and moves the position (FilesysRead.file_read_correct); lookup
      is a search in the list of names (FilesysDir); open, close and directory reads
      do what their descriptors say; a whole session through the system calls
      delivers the file (FileCalls.file_session).
    - Processes: execute starts the program in its own page with the right control
      block, descriptors and entry point (Exec, Process), fails without effect on any
      process, and halt undoes it (Process.execute_halt_roundtrip); the arguments
      arrive (UserCalls.execute_passes_arguments).
    - Terminal: the key handler refines a line editor, the console refines an abstract
      screen, terminal_read returns the edited line, terminal_write prints its buffer.
    - Programs: cat prints the bytes of the file its argument names and ls the
      names of the directory, from the command line to the screen (Output); what is typed at
      the prompt is executed and cat, in a process of its own, prints the file
      (Command.typed_cat_prints); grep prints the
      lines that contain its argument (Grep.grep_prints_matches); pingpong plays for as
      long as one looks (Pingpong.pingpong_plays); the shell
      executes what was typed, hello greets (Shell); syserr passes all its tests (Syserr);
      sigtest ends in the page fault it provokes (Sigtest.sigtest_faults);
      fish puts its two pictures on a board (Fish), which its linked list and the screen
      implement (Blink.blink_refines).
    - The whole kernel: switched on, the machine comes up with the prompt of the shell
      (Startup.boot_starts_shell); whatever programs run, the state stays sound after boot
      (Kernel.kernel_invariant); calls keep the descriptor table well typed (Typing); a
      program finds its registers again after calls and interrupts (Linkage.linkage_restores).
    - Machine: the interrupt table, the masks, the clock, the page tables and the
      whole set-up (Boot.boot_ready); what the processor finds under every selector
      (Segments.segments_correct); the library routines against reference
      definitions (MemOps, CString, Printf, Support); the screen an exception leaves
      (Exceptions).
    - Emulation: under Linux a command line becomes an argument vector and the arguments of
      the program the same words again; names of the directory come as the kernel gives them
      (Emulate).
    - Behaviour that the code has and its comments do not tell: the buffers that
      dir_read and getargs overrun, the Enter that a second key press hides, what halt
      returns, the list of fish that becomes a cycle.  These are theorems too.

    ** Fuel and bounds

    Loops over a range are [for_range] and total.  The other loops take fuel that the
    definition itself supplies where the code bounds the loop: the number of bytes the
    memory holds for strings (a string without an end would be longer than the
    memory: [strlen] is proved to stop before), 1025 blocks for [skip_blocks] (an
    inode has 1023), [rd_turns] for read_data, 33 characters for a command word, eight
    bits for [rate_log2], the number of entries for the directory search, the modules and
    the bytes of the memory map in the boot report.  The loops the code does not bound
    return [None] when the fuel given runs out: getargs (any fuel above 1024 is
    enough when the line holds a space), the program loops (a file needs one turn per
    kilobyte and one more), reads of the terminal and the clock (a schedule that
    contains the event), the loops of blink.S (the list has at most 2000 nodes, so more than
    2000 is enough), the loops of fish (one turn per character of both pictures and two
    more), the loops of grep (one turn per character of a file and two more, one per entry
    of the directory), the loops of pingpong (81 turns; the rounds of its endless loop are
    the argument), the scans of the emulated execute (more than the length of the command) and
    the loop of its getargs (more than the number of arguments), and
    the loop at the end of entry (its first turn enters the shell).  Theorems state that the result is reached; that the loops of read_data end for
    every image is FilesysRead.read_data_terminates.

    ** Not modelled

    Interrupts at points where the kernel does not wait; page faults of accesses that the
    kernel itself makes (a store of a program goes through the page tables in Sigtest and
    Blink); the stack of the linkage of halt, beyond the words that Trap counts; pointer
    arithmetic beyond 32 bits (pointers are unbounded integers, accesses are bytes); tests.c
    and debug.h; the support files of src/fish, which repeat those of src/syscalls; under
    Linux, a fork that fails. *)

From Stdlib Require Export ZArith Lia.
From stdpp Require Export base tactics list gmap.
From Stdlib Require Strings.String Strings.Ascii.

Open Scope Z_scope.

(** ** Machine integers

    C integers are [Z] values; the conversions below write the wrap-around of
    each width out.  [u8], [u16] and [u32] are the unsigned conversions, [s8]
    and [s32] the signed ones ([int8_t] is a signed char in this build). *)

Definition u8 (x : Z) : Z := x mod 256.
Definition u16 (x : Z) : Z := x mod 65536.
Definition u32 (x : Z) : Z := x mod 4294967296.
Definition s8 (x : Z) : Z := (x + 128) mod 256 - 128.
Definition s32 (x : Z) : Z := (x + 2147483648) mod 4294967296 - 2147483648.

Declare Scope c_scope.
Delimit Scope c_scope with C.

(** C operators, at the precedences used in the model. *)
Notation "x '.&' y" := (Z.land x y) (at level 40, left associativity) : c_scope.
Notation "x '.|' y" := (Z.lor x y) (at level 50, left associativity) : c_scope.
Notation "x '.<<' y" := (Z.shiftl x y) (at level 38, left associativity) : c_scope.
Notation "x '.>>' y" := (Z.shiftr x y) (at level 38, left associativity) : c_scope.

(** ** Automation *)

Create HintDb cint.
Create Rewrite HintDb cint.

(** Arithmetic with division and remainder by constants. *)
Ltac zdm := Z.div_mod_to_equations; lia.

(** Turns the boolean comparisons of the code into propositions. *)
Ltac bool_to_prop :=
  repeat match goal with
  | H : (_ <? _) = true |- _ => apply Z.ltb_lt in H
  | H : (_ <? _) = false |- _ => apply Z.ltb_ge in H
  | H : (_ <=? _) = true |- _ => apply Z.leb_le in H
  | H : (_ <=? _) = false |- _ => apply Z.leb_gt in H
  | H : (_ =? _) = true |- _ => apply Z.eqb_eq in H
  | H : (_ =? _) = false |- _ => apply Z.eqb_neq in H
  | H : (_ && _)%bool = true |- _ => apply andb_true_iff in H as [? ?]
  | H : (_ || _)%bool = false |- _ => apply orb_false_iff in H as [? ?]
  | H : (_ && _)%bool = false |- _ => apply andb_false_iff in H
  | H : (_ || _)%bool = true |- _ => apply orb_true_iff in H
  | H : negb _ = true |- _ => apply negb_true_iff in H
  | H : negb _ = false |- _ => apply negb_false_iff in H
  end.

(** Splits the first [if] or comparison of the goal, recording the outcome. *)
Ltac split_if :=
  match goal with
  | |- context [if ?b then _ else _] =>
      let E := fresh "E" in destruct b eqn:E; bool_to_prop
  end.

(** Rewrites a comparison whose outcome [lia] decides. *)
Ltac zcase_true b := replace b with true by (symmetry; first [apply Z.ltb_lt | apply Z.leb_le | apply Z.eqb_eq]; lia).
Ltac zcase_false b := replace b with false by (symmetry; first [apply Z.ltb_ge | apply Z.leb_gt | apply Z.eqb_neq]; lia).

Ltac zdecide_step :=
  match goal with
  | |- context [?x <? ?y] => first [ zcase_true (x <? y) | zcase_false (x <? y) ]
  | |- context [?x <=? ?y] => first [ zcase_true (x <=? y) | zcase_false (x <=? y) ]
  | |- context [?x =? ?y] => first [ zcase_true (x =? y) | zcase_false (x =? y) ]
  end.
(** Decides every comparison of the goal that [lia] settles. *)
Ltac zdecide := repeat (zdecide_step; cbn [andb orb negb]).

(** ** Integer lemmas *)

Lemma u8_range x : 0 <= u8 x < 256.
Proof. unfold u8. zdm. Qed.

Lemma u8_small x : 0 <= x < 256 -> u8 x = x.
Proof. intros. unfold u8. now apply Z.mod_small. Qed.

Lemma u8_u8 x : u8 (u8 x) = u8 x.
Proof. apply u8_small, u8_range. Qed.

Lemma u32_range x : 0 <= u32 x < 4294967296.
Proof. unfold u32. zdm. Qed.

Lemma u32_small x : 0 <= x < 4294967296 -> u32 x = x.
Proof. intros. unfold u32. now apply Z.mod_small. Qed.

Lemma s8_u8 x : 0 <= x < 256 -> u8 (s8 x) = x.
Proof. unfold u8, s8. intros. zdm. Qed.

Lemma s8_inj x y : 0 <= x < 256 -> 0 <= y < 256 -> s8 x = s8 y -> x = y.
Proof. unfold s8. intros. zdm. Qed.

Lemma s8_zero x : 0 <= x < 256 -> s8 x = 0 <-> x = 0.
Proof. unfold s8. intros. split; intros; zdm. Qed.

Lemma s32_small x : -2147483648 <= x < 2147483648 -> s32 x = x.
Proof. intros. unfold s32. rewrite Z.mod_small; lia. Qed.

(** Bit-field algebra for constants: a value below [2^k] is fixed by a mask of
    [k] ones, and a shifted value has no bits under the shift. *)
Lemma land_ones_small x k : 0 <= k -> 0 <= x < 2 ^ k -> Z.land x (Z.ones k) = x.
Proof. intros. rewrite Z.land_ones by lia. now apply Z.mod_small. Qed.

Lemma land_shiftl_low x n mask :
  0 <= n -> 0 <= mask < 2 ^ n -> Z.land (Z.shiftl x n) mask = 0.
Proof.
  intros Hn Hm.
  replace mask with (Z.land (Z.ones n) mask).
  - rewrite Z.land_assoc, Z.land_ones, Z.shiftl_mul_pow2, Z_mod_mult by lia.
    apply Z.land_0_l.
  - rewrite Z.land_comm. now apply land_ones_small.
Qed.

(** A field above bit [n] and a value below it do not overlap. *)
Lemma lor_shiftl_add x y n :
  0 <= n -> 0 <= y < 2 ^ n -> Z.lor (Z.shiftl x n) y = x * 2 ^ n + y.
Proof.
  intros Hn Hy. pose proof (Z.add_lor_land (Z.shiftl x n) y) as E.
  rewrite land_shiftl_low, Z.add_0_r in E by done.
  rewrite E, Z.shiftl_mul_pow2 by lia. lia.
Qed.

Lemma land_1_odd x : Z.land x 1 = x mod 2.
Proof. change 1 with (Z.ones 1). now rewrite Z.land_ones. Qed.

#[export] Hint Resolve u8_range u32_range : cint.
#[export] Hint Rewrite u8_u8 land_1_odd : cint.

(** ** Counted loops

    [for_n n i f s] runs [f i], [f (i+1)], ..., [f (i+n-1)] on the state: a C
    [for] loop whose body does not leave it. *)
Fixpoint for_n {S : Type} (n : nat) (i : Z) (f : Z -> S -> S) (s : S) : S :=
  match n with
  | O => s
  | Datatypes.S n' => for_n n' (i + 1) f (f i s)
  end.

(** [for (i = lo; i < hi; i++)] *)
Definition for_range {S : Type} (lo hi : Z) (f : Z -> S -> S) (s : S) : S :=
  for_n (Z.to_nat (hi - lo)) lo f s.

Lemma for_n_ind {S : Type} (I : Z -> S -> Prop) (f : Z -> S -> S) n : forall i s,
  I i s ->
  (forall j s', i <= j < i + Z.of_nat n -> I j s' -> I (j + 1) (f j s')) ->
  I (i + Z.of_nat n) (for_n n i f s).
Proof.
  induction n as [|n IH]; intros i s Hi Hstep; cbn [for_n].
  - replace (i + Z.of_nat 0) with i by lia. exact Hi.
  - replace (i + Z.of_nat (Datatypes.S n)) with (i + 1 + Z.of_nat n) by lia.
    apply IH.
    + apply Hstep; [lia|exact Hi].
    + intros j s' Hj. apply Hstep. lia.
Qed.

(** The loop rule: an invariant indexed by the loop variable. *)
Lemma for_range_ind {S : Type} (I : Z -> S -> Prop) (f : Z -> S -> S) lo hi s :
  lo <= hi -> I lo s ->
  (forall j s', lo <= j < hi -> I j s' -> I (j + 1) (f j s')) ->
  I hi (for_range lo hi f s).
Proof.
  intros Hle Hlo Hstep. unfold for_range.
  assert (H : I (lo + Z.of_nat (Z.to_nat (hi - lo))) (for_n (Z.to_nat (hi - lo)) lo f s)).
  { apply for_n_ind; [exact Hlo|]. intros j s' Hj. apply Hstep. lia. }
  now replace (lo + Z.of_nat (Z.to_nat (hi - lo))) with hi in H by lia.
Qed.

(** ** Ranges of integers as lists *)

Definition zseq (lo : Z) (n : nat) : list Z := (fun k => lo + Z.of_nat k) <$> seq 0 n.

Lemma zseq_S lo n : zseq lo (S n) = lo :: zseq (lo + 1) n.
Proof.
  unfold zseq. cbn [seq fmap list_fmap]. f_equal; [lia|].
  rewrite <- seq_shift, <- list_fmap_compose. apply list_fmap_ext. intros; cbn. lia.
Qed.

Lemma length_zseq lo n : length (zseq lo n) = n.
Proof. unfold zseq. now rewrite length_fmap, length_seq. Qed.

Lemma zseq_lookup lo n k : (k < n)%nat -> zseq lo n !! k = Some (lo + Z.of_nat k).
Proof.
  intros H. unfold zseq. rewrite list_lookup_fmap, lookup_seq_lt by lia. cbn. f_equal.
Qed.

Lemma zseq_app lo a b : zseq lo (a + b) = zseq lo a ++ zseq (lo + Z.of_nat a) b.
Proof.
  revert lo. induction a as [|a IH]; intros lo.
  - cbn [Nat.add app]. change (zseq lo 0) with (@nil Z). cbn [app]. f_equal. lia.
  - cbn [Nat.add]. rewrite !zseq_S, IH. cbn [app]. do 3 f_equal. lia.
Qed.

(** ** String literals *)

(** The bytes of a string literal. *)
Definition codes (s : String.string) : list Z :=
  (fun a => Z.of_N (Ascii.N_of_ascii a)) <$> String.list_ascii_of_string s.
