(* ===== verification/Mem.v ===== *)
(** * The memory of the machine

    One byte-addressed store that every pointer of the kernel points into: the
    file system image, the process control blocks, the kernel's global arrays,
    the video memory and the buffers a caller passes.  Buffers that overlap
    really alias.

    The kernel maps its own memory one to one, and maps the 4 MB of virtual
    addresses starting at 128 MB (directory entry 32, the program page) to a
    physical frame that changes with the running process.  The store keeps the
    bytes of the program page per frame ([ubytes]) and the frame the page is
    translated to ([tlb], what the last load of CR3 put in the TLB); every other
    address is kernel memory ([kbytes]).

    An address that holds no byte reads as zero, so a store is a finite map
    that stands for a memory of any size.  Pointers are unbounded integers:
    pointer arithmetic that leaves the address space is undefined in C. *)

From S2P Require Import Prelude.

Record mem := Mem {
  kbytes : gmap Z Z;
  ubytes : gmap Z (gmap Z Z);
  tlb : Z
}.

Definition PROG_LO : Z := 0x8000000.
Definition PROG_HI : Z := 0x8400000.

(** The virtual addresses of the program page. *)
Definition in_window (a : Z) : bool := (PROG_LO <=? a) && (a <? PROG_HI).

(** The byte at [a] when the program page is translated to frame [p]. *)
Definition byte_at (m : mem) (p a : Z) : Z :=
  u8 (default 0 (if in_window a then default ∅ (ubytes m !! p) !! a
                 else kbytes m !! a)).

Definition load8 (m : mem) (a : Z) : Z := byte_at m (tlb m) a.

Definition store8 (m : mem) (a v : Z) : mem :=
  if in_window a
  then Mem (kbytes m)
           (<[tlb m := <[a := u8 v]> (default ∅ (ubytes m !! tlb m))]> (ubytes m))
           (tlb m)
  else Mem (<[a := u8 v]> (kbytes m)) (ubytes m) (tlb m).

(** 32-bit little-endian accesses. *)
Definition load32 (m : mem) (a : Z) : Z :=
  load8 m a + 256 * load8 m (a + 1) + 65536 * load8 m (a + 2)
  + 16777216 * load8 m (a + 3).

Definition store32 (m : mem) (a v : Z) : mem :=
  store8 (store8 (store8 (store8 m a v) (a + 1) (v / 256)) (a + 2) (v / 65536))
         (a + 3) (v / 16777216).

(** [n] bytes from [a]. *)
Definition bytes (m : mem) (a : Z) (n : nat) : list Z := load8 m <$> zseq a n.

(** Bytes of a list written from [a] on. *)
Fixpoint store_list (m : mem) (a : Z) (l : list Z) : mem :=
  match l with
  | [] => m
  | b :: l' => store_list (store8 m a b) (a + 1) l'
  end.

(** ** Equivalence: the same byte at every address of every frame *)

#[export] Instance mem_equiv : Equiv mem := fun m m' =>
  tlb m = tlb m' /\ forall p a, byte_at m p a = byte_at m' p a.

#[export] Instance mem_equivalence : Equivalence (≡@{mem}).
Proof.
  split.
  - split; reflexivity.
  - intros m m' [? H]. split; [congruence|]. intros. now rewrite H.
  - intros m1 m2 m3 [? H] [? H']. split; [congruence|]. intros. now rewrite H, H'.
Qed.

#[export] Instance load8_proper : Proper ((≡) ==> (=) ==> (=)) load8.
Proof. intros m m' [E H] a ? <-. unfold load8. now rewrite E, H. Qed.

#[export] Instance load32_proper : Proper ((≡) ==> (=) ==> (=)) load32.
Proof. intros m m' H a ? <-. unfold load32. now rewrite !H. Qed.

(** ** Laws of a single access *)

Lemma load8_range m a : 0 <= load8 m a < 256.
Proof. apply u8_range. Qed.
#[export] Hint Resolve load8_range : cint.

Lemma tlb_store8 m a v : tlb (store8 m a v) = tlb m.
Proof. unfold store8. now destruct (in_window a). Qed.

Lemma store8_u8 m a v w : u8 v = u8 w -> store8 m a v = store8 m a w.
Proof. intros E. unfold store8. now rewrite E. Qed.

Lemma byte_at_store8 m a v p b :
  byte_at (store8 m a v) p b =
  if (a =? b) && (negb (in_window a) || (p =? tlb m)) then u8 v else byte_at m p b.
Proof.
  unfold byte_at, store8.
  destruct (Z.eqb_spec a b) as [<-|Hab]; cbn [andb].
  - destruct (in_window a) eqn:W; cbn [negb orb kbytes ubytes tlb].
    + destruct (Z.eqb_spec p (tlb m)) as [->|Hp].
      * rewrite lookup_insert_eq. cbn. rewrite lookup_insert_eq. cbn. apply u8_u8.
      * now rewrite lookup_insert_ne by congruence.
    + rewrite lookup_insert_eq. cbn. apply u8_u8.
  - destruct (in_window a) eqn:W; cbn [kbytes ubytes tlb].
    + destruct (in_window b); [|reflexivity].
      destruct (decide (p = tlb m)) as [->|Hp].
      * rewrite lookup_insert_eq. cbn. now rewrite lookup_insert_ne by congruence.
      * now rewrite lookup_insert_ne by congruence.
    + destruct (in_window b); [reflexivity|].
      now rewrite lookup_insert_ne by congruence.
Qed.

Lemma load8_store8 m a v b :
  load8 (store8 m a v) b = if a =? b then u8 v else load8 m b.
Proof.
  unfold load8. rewrite tlb_store8, byte_at_store8, Z.eqb_refl, orb_true_r, andb_true_r.
  reflexivity.
Qed.

Lemma load8_store8_eq m a v : load8 (store8 m a v) a = u8 v.
Proof. now rewrite load8_store8, Z.eqb_refl. Qed.

Lemma load8_store8_ne m a v b : a <> b -> load8 (store8 m a v) b = load8 m b.
Proof. intros H. rewrite load8_store8. now apply Z.eqb_neq in H as ->. Qed.

#[export] Instance store8_proper : Proper ((≡) ==> (=) ==> (=) ==> (≡)) store8.
Proof.
  intros m m' [E H] a ? <- v ? <-. split.
  - now rewrite !tlb_store8.
  - intros p b. rewrite !byte_at_store8, E, H. reflexivity.
Qed.

#[export] Instance store32_proper : Proper ((≡) ==> (=) ==> (=) ==> (≡)) store32.
Proof. intros m m' H a ? <- v ? <-. unfold store32. now rewrite H. Qed.

Lemma load32_range m a : 0 <= load32 m a < 4294967296.
Proof.
  unfold load32.
  pose proof (load8_range m a). pose proof (load8_range m (a + 1)).
  pose proof (load8_range m (a + 2)). pose proof (load8_range m (a + 3)). lia.
Qed.
#[export] Hint Resolve load32_range : cint.

Lemma load8_store32 m a v b :
  load8 (store32 m a v) b =
  if (a <=? b) && (b <? a + 4) then u8 (v / 256 ^ (b - a)) else load8 m b.
Proof.
  unfold store32. rewrite !load8_store8.
  destruct (Z.eqb_spec (a + 3) b) as [<-|]; [zdecide; do 2 f_equal; now replace (a + 3 - a) with 3 by lia|].
  destruct (Z.eqb_spec (a + 2) b) as [<-|]; [zdecide; do 2 f_equal; now replace (a + 2 - a) with 2 by lia|].
  destruct (Z.eqb_spec (a + 1) b) as [<-|]; [zdecide; do 2 f_equal; now replace (a + 1 - a) with 1 by lia|].
  destruct (Z.eqb_spec a b) as [<-|].
  - zdecide. rewrite Z.sub_diag. cbn. now rewrite Z.div_1_r.
  - destruct (Z.leb_spec a b), (Z.ltb_spec b (a + 4)); cbn; (reflexivity || lia).
Qed.

Lemma load32_store32_eq m a v : load32 (store32 m a v) a = u32 v.
Proof.
  unfold load32, store32. rewrite !load8_store8, !Z.eqb_refl. zdecide.
  unfold u8, u32. zdm.
Qed.

Lemma load32_store32_ne m a v b :
  b + 4 <= a \/ a + 4 <= b -> load32 (store32 m a v) b = load32 m b.
Proof.
  intros H. unfold load32. rewrite !load8_store32.
  replace ((a <=? b) && (b <? a + 4)) with false by lia.
  replace ((a <=? b + 1) && (b + 1 <? a + 4)) with false by lia.
  replace ((a <=? b + 2) && (b + 2 <? a + 4)) with false by lia.
  replace ((a <=? b + 3) && (b + 3 <? a + 4)) with false by lia.
  reflexivity.
Qed.

Lemma load32_store8_ne m a v b :
  a < b \/ b + 4 <= a -> load32 (store8 m a v) b = load32 m b.
Proof. intros H. unfold load32. rewrite !load8_store8_ne by lia. reflexivity. Qed.

Lemma load8_store32_ne m a v b :
  b < a \/ a + 4 <= b -> load8 (store32 m a v) b = load8 m b.
Proof.
  intros H. rewrite load8_store32.
  now replace ((a <=? b) && (b <? a + 4)) with false by lia.
Qed.

(** ** Frames: what an operation leaves alone *)

Definition in_range (lo n a : Z) : Prop := lo <= a < lo + n.

(** [m'] differs from [m] at most on the addresses [P] of the current address
    space; frames of other processes are untouched. *)
Definition unchanged (P : Z -> Prop) (m m' : mem) : Prop :=
  tlb m' = tlb m /\
  forall p a, (in_window a = true /\ p <> tlb m) \/ ~ P a -> byte_at m' p a = byte_at m p a.

Lemma unchanged_refl P m : unchanged P m m.
Proof. split; reflexivity. Qed.

Lemma unchanged_trans P m1 m2 m3 :
  unchanged P m1 m2 -> unchanged P m2 m3 -> unchanged P m1 m3.
Proof.
  intros [E1 H1] [E2 H2]. split; [congruence|].
  intros p a Ha. rewrite H2, H1; [reflexivity|exact Ha|].
  destruct Ha as [[? ?]|?]; [left; split; [done|congruence]|right; done].
Qed.

Lemma unchanged_weaken (P Q : Z -> Prop) m m' :
  (forall a, P a -> Q a) -> unchanged P m m' -> unchanged Q m m'.
Proof. intros HPQ [E H]. split; [done|]. intros p a [?|?]; apply H; auto. Qed.

Lemma unchanged_store8 (P : Z -> Prop) m a v : P a -> unchanged P m (store8 m a v).
Proof.
  intros HP. split; [apply tlb_store8|]. intros p b Hb.
  rewrite byte_at_store8. destruct (Z.eqb_spec a b) as [<-|]; [|done].
  destruct Hb as [[W Hp]|Hb]; [|tauto].
  rewrite W. apply Z.eqb_neq in Hp as ->. done.
Qed.

Lemma unchanged_store32 (P : Z -> Prop) m a v :
  (forall b, in_range a 4 b -> P b) -> unchanged P m (store32 m a v).
Proof.
  intros HP. unfold store32.
  do 3 (eapply unchanged_trans; [|apply unchanged_store8, HP; unfold in_range; lia]).
  apply unchanged_store8, HP. unfold in_range; lia.
Qed.

Lemma unchanged_load8 P m m' a : unchanged P m m' -> ~ P a -> load8 m' a = load8 m a.
Proof. intros [E H] Ha. unfold load8. rewrite E. apply H. auto. Qed.

Lemma unchanged_load32 P m m' a :
  unchanged P m m' -> (forall b, in_range a 4 b -> ~ P b) -> load32 m' a = load32 m a.
Proof.
  intros H Ha. unfold load32.
  rewrite !(unchanged_load8 P m m') by (auto; apply Ha; unfold in_range; lia). done.
Qed.

Lemma unchanged_bytes P m m' a n :
  unchanged P m m' -> (forall b, in_range a (Z.of_nat n) b -> ~ P b) ->
  bytes m' a n = bytes m a n.
Proof.
  intros H Ha. unfold bytes. apply list_fmap_ext. intros i x Hx.
  apply lookup_lt_Some in Hx as Hi. rewrite length_zseq in Hi.
  rewrite zseq_lookup in Hx by lia. injection Hx as <-.
  eapply unchanged_load8; [done|]. apply Ha. unfold in_range. lia.
Qed.

(** A loop whose body stays inside [P] stays inside [P]. *)
Lemma unchanged_for_range (P : Z -> Prop) (f : Z -> mem -> mem) lo hi m :
  (forall i m', lo <= i < hi -> unchanged P m' (f i m')) ->
  unchanged P m (for_range lo hi f m).
Proof.
  intros Hf. destruct (Z.le_gt_cases lo hi) as [Hle|Hgt].
  - apply (for_range_ind (fun _ m' => unchanged P m m')); [done|apply unchanged_refl|].
    intros j m' Hj H. eapply unchanged_trans; [exact H|]. apply Hf. lia.
  - unfold for_range. replace (Z.to_nat (hi - lo)) with O by lia. apply unchanged_refl.
Qed.

#[export] Hint Resolve unchanged_refl unchanged_store8 : cint.

(** ** Lists of bytes *)

Lemma length_bytes m a n : length (bytes m a n) = n.
Proof. unfold bytes. now rewrite length_fmap, length_zseq. Qed.

Lemma bytes_S m a n : bytes m a (S n) = load8 m a :: bytes m (a + 1) n.
Proof. unfold bytes. now rewrite zseq_S. Qed.

Lemma bytes_app m a n k :
  bytes m a (n + k) = bytes m a n ++ bytes m (a + Z.of_nat n) k.
Proof. unfold bytes. now rewrite zseq_app, fmap_app. Qed.

Lemma bytes_lookup m a n k :
  (k < n)%nat -> bytes m a n !! k = Some (load8 m (a + Z.of_nat k)).
Proof. intros H. unfold bytes. now rewrite list_lookup_fmap, zseq_lookup. Qed.

Lemma unchanged_store_list l : forall m a,
  unchanged (in_range a (Z.of_nat (length l))) m (store_list m a l).
Proof.
  induction l as [|b l IH]; intros m a; cbn [store_list length].
  - apply unchanged_refl.
  - apply (unchanged_trans _ _ (store8 m a b)).
    + apply unchanged_store8. unfold in_range. lia.
    + eapply unchanged_weaken; [|apply IH]. unfold in_range. intros c. lia.
Qed.

Lemma bytes_store_list l : forall m a,
  Forall (fun b => 0 <= b < 256) l ->
  bytes (store_list m a l) a (length l) = l.
Proof.
  induction l as [|b l IH]; intros m a Hl; cbn [store_list length]; [done|].
  inversion_clear Hl. rewrite bytes_S. f_equal; [|now apply IH].
  erewrite unchanged_load8; [|apply unchanged_store_list|unfold in_range; lia].
  rewrite load8_store8_eq. now apply u8_small.
Qed.
