(* ===== verification/CString.v ===== *)
(** * The string functions of lib.c

    [strlen], [strncmp], [strcpy], [strncpy], [strrev] and [itoa] of
    src/student-distrib/lib.c, over the memory of Mem.v.  A character is read
    as the unsigned byte in memory; [int8_t] values are its signed conversion.

    The loops that stop at a NUL run on a fuel larger than the number of bytes
    the memory holds: such a loop meets an address that reads as zero before
    the fuel is gone ([strlen_spec]).  The loops that count run on their own
    bound. *)

From S2P Require Import Prelude Mem.

(** ** Definitions *)

(** The number of bytes held at kernel addresses and in the current frame of
    the program page. *)
Definition mem_size (m : mem) : nat :=
  (size (kbytes m) + size (default ∅ (ubytes m !! tlb m)))%nat.

(** [while (s[len] != '\0') len++;] *)
Fixpoint strlen_loop (fuel : nat) (m : mem) (s len : Z) : Z :=
  match fuel with
  | O => len
  | S f => if load8 m (s + len) =? 0 then len else strlen_loop f m s (len + 1)
  end.

Definition strlen (m : mem) (s : Z) : Z := strlen_loop (S (mem_size m)) m s 0.

Fixpoint strncmp_loop (fuel : nat) (m : mem) (s1 s2 i : Z) : Z :=
  match fuel with
  | O => 0
  | S f =>
      let c1 := s8 (load8 m (s1 + i)) in
      let c2 := s8 (load8 m (s2 + i)) in
      if negb (c1 =? c2) || (c1 =? 0) then c1 - c2
      else strncmp_loop f m s1 s2 (i + 1)
  end.

Definition strncmp (m : mem) (s1 s2 n : Z) : Z :=
  strncmp_loop (Z.to_nat (u32 n)) m s1 s2 0.

Fixpoint strcpy_loop (fuel : nat) (m : mem) (dest src i : Z) : option mem :=
  match fuel with
  | O => None
  | S f =>
      if load8 m (src + i) =? 0 then Some (store8 m (dest + i) 0)
      else strcpy_loop f (store8 m (dest + i) (load8 m (src + i))) dest src (i + 1)
  end.

(** [None] when the copy does not end: an overlapping destination can overwrite
    the NUL before the loop reaches it. *)
Definition strcpy (m : mem) (dest src : Z) : option mem :=
  strcpy_loop (S (mem_size m)) m dest src 0.

(** [while (src[i] != '\0' && i < n) { dest[i] = src[i]; i++; }], with the
    final [i]. *)
Fixpoint strncpy_copy (fuel : nat) (m : mem) (dest src i n : Z) : mem * Z :=
  match fuel with
  | O => (m, i)
  | S f =>
      if negb (load8 m (src + i) =? 0) && (i <? n)
      then strncpy_copy f (store8 m (dest + i) (load8 m (src + i))) dest src (i + 1) n
      else (m, i)
  end.

Definition strncpy (m : mem) (dest src n : Z) : mem :=
  let n := u32 n in
  let '(m1, i) := strncpy_copy (S (Z.to_nat n)) m dest src 0 n in
  for_range i n (fun j m' => store8 m' (dest + j) 0) m1.

(** [while (beg < end) { swap s[beg], s[end]; beg++; end--; }] *)
Fixpoint strrev_loop (fuel : nat) (m : mem) (s beg en : Z) : mem :=
  match fuel with
  | O => m
  | S f =>
      if beg <? en then
        let tmp := load8 m (s + en) in
        let m := store8 m (s + en) (load8 m (s + beg)) in
        let m := store8 m (s + beg) tmp in
        strrev_loop f m s (beg + 1) (en - 1)
      else m
  end.

Definition strrev (m : mem) (s : Z) : mem :=
  let n := strlen m s in strrev_loop (Z.to_nat n) m s 0 (n - 1).

(** The static table ["0123456789ABCDEFGHIJKLMNOPQRSTUVWXYZ"]; [None] beyond it. *)
Definition digit_lookup (i : Z) : option Z :=
  if (0 <=? i) && (i <? 10) then Some (48 + i)
  else if (10 <=? i) && (i <? 36) then Some (55 + i)
  else None.

(** [while (newval > 0) { *newbuf++ = lookup[newval % radix]; newval /= radix; }]
    [None]: the division faults, the table is left, or the loop does not end. *)
Fixpoint itoa_loop (fuel : nat) (m : mem) (newbuf newval radix : Z) : option (mem * Z) :=
  if newval =? 0 then Some (m, newbuf) else
  match fuel with
  | O => None
  | S f =>
      if radix =? 0 then None else
      match digit_lookup (newval mod radix) with
      | None => None
      | Some c => itoa_loop f (store8 m newbuf c) (newbuf + 1) (newval / radix) radix
      end
  end.

(** [radix] is an [int32_t] that the unsigned arithmetic converts. *)
Definition itoa (m : mem) (value buf radix : Z) : option mem :=
  let value := u32 value in
  if value =? 0 then Some (store8 (store8 m buf 48) (buf + 1) 0) else
  match itoa_loop 32 m buf value (u32 radix) with
  | None => None
  | Some (m1, newbuf) => Some (strrev (store8 m1 newbuf 0) buf)
  end.

(** ** Specification vocabulary *)

(** The NUL-terminated string at [s] has length [n]. *)
Definition is_cstr (m : mem) (s n : Z) : Prop :=
  0 <= n /\ load8 m (s + n) = 0 /\ forall i, 0 <= i < n -> load8 m (s + i) <> 0.

(** The characters at [a] up to a NUL, at most [n] of them. *)
Fixpoint cname (m : mem) (a : Z) (n : nat) : list Z :=
  match n with
  | O => []
  | S n' => if load8 m a =? 0 then [] else load8 m a :: cname m (a + 1) n'
  end.

(** The value of a digit string, most significant digit first. *)
Definition char_digit (c : Z) : Z := if c <? 58 then c - 48 else c - 55.
Definition digits_value (radix : Z) (l : list Z) : Z :=
  fold_left (fun acc c => acc * radix + char_digit c) l 0.

(** ** strlen *)

Lemma is_cstr_unique m s n n' : is_cstr m s n -> is_cstr m s n' -> n = n'.
Proof.
  intros (Hn & Hz & Hi) (Hn' & Hz' & Hi').
  destruct (Z.lt_trichotomy n n') as [H|[H|H]]; [|done|].
  - exfalso. apply (Hi' n); [lia|done].
  - exfalso. apply (Hi n'); [lia|done].
Qed.

Lemma strlen_loop_spec fuel : forall m s len,
  0 <= len -> (forall i, 0 <= i < len -> load8 m (s + i) <> 0) ->
  is_cstr m s (strlen_loop fuel m s len) \/
  forall i, 0 <= i < len + Z.of_nat fuel -> load8 m (s + i) <> 0.
Proof.
  induction fuel as [|f IH]; intros m s len Hlen Hnz; cbn [strlen_loop].
  - right. intros i Hi. apply Hnz. lia.
  - destruct (Z.eqb_spec (load8 m (s + len)) 0) as [E|E].
    + left. repeat split; [lia|done|done].
    + destruct (IH m s (len + 1)) as [H|H]; [lia| |by left|].
      * intros i Hi. destruct (decide (i = len)) as [->|]; [done|]. apply Hnz. lia.
      * right. intros i Hi. apply H. lia.
Qed.

(** The addresses that hold a byte. *)
Definition mapped (m : mem) : gset Z :=
  dom (kbytes m) ∪ dom (default ∅ (ubytes m !! tlb m)).

Lemma size_mapped m : (size (mapped m) <= mem_size m)%nat.
Proof.
  unfold mapped, mem_size. rewrite size_union_alt, !size_dom.
  apply Nat.add_le_mono_l.
  transitivity (size (dom (default ∅ (ubytes m !! tlb m)))).
  - apply subseteq_size. set_solver.
  - now rewrite size_dom.
Qed.

Lemma load8_mapped m a : load8 m a <> 0 -> a ∈ mapped m.
Proof.
  unfold load8, byte_at, mapped. rewrite elem_of_union, !elem_of_dom.
  destruct (in_window a).
  - destruct (default ∅ (ubytes m !! tlb m) !! a) eqn:E; [eauto|done].
  - destruct (kbytes m !! a) eqn:E; [eauto|done].
Qed.

Lemma NoDup_zseq lo n : NoDup (zseq lo n).
Proof.
  unfold zseq. apply NoDup_fmap_2; [|apply NoDup_seq]. intros x y H. lia.
Qed.

Lemma elem_of_zseq lo n a : a ∈ zseq lo n <-> lo <= a < lo + Z.of_nat n.
Proof.
  unfold zseq. rewrite list_elem_of_fmap. setoid_rewrite elem_of_seq. split.
  - intros (k & -> & ?). lia.
  - intros H. exists (Z.to_nat (a - lo)). lia.
Qed.

(** No run of non-zero bytes is longer than the memory. *)
Lemma nonzero_run_bound m s n :
  (forall i, 0 <= i < Z.of_nat n -> load8 m (s + i) <> 0) -> (n <= mem_size m)%nat.
Proof.
  intros H. transitivity (size (mapped m)); [|apply size_mapped].
  rewrite <- (length_zseq s n).
  rewrite <- (size_list_to_set (C:=gset Z)) by apply NoDup_zseq.
  apply subseteq_size. intros a Ha.
  apply elem_of_list_to_set, elem_of_zseq in Ha. apply load8_mapped.
  replace a with (s + (a - s)) by lia. apply H. lia.
Qed.

Lemma strlen_spec m s : is_cstr m s (strlen m s).
Proof.
  unfold strlen. destruct (strlen_loop_spec (S (mem_size m)) m s 0) as [H|H]; [lia|lia|done|].
  pose proof (nonzero_run_bound m s (S (mem_size m)) H). lia.
Qed.

Lemma strlen_eq m s n : is_cstr m s n -> strlen m s = n.
Proof. intros H. eapply is_cstr_unique; [apply strlen_spec|exact H]. Qed.

Lemma is_cstr_unchanged P m m' s n :
  unchanged P m m' -> (forall a, in_range s (n + 1) a -> ~ P a) ->
  is_cstr m s n -> is_cstr m' s n.
Proof.
  intros HU HP (Hn & Hz & Hi). split; [done|]. split.
  - rewrite (unchanged_load8 P m m'); [done|done|]. apply HP. unfold in_range. lia.
  - intros i Hi'. rewrite (unchanged_load8 P m m'); [by apply Hi|done|].
    apply HP. unfold in_range. lia.
Qed.

(** ** strncmp *)

Lemma strncmp_loop_cname n : forall m s1 s2 i,
  strncmp_loop n m s1 s2 i = 0 <-> cname m (s1 + i) n = cname m (s2 + i) n.
Proof.
  induction n as [|n IH]; intros m s1 s2 i; cbn [strncmp_loop cname]; [done|].
  pose proof (load8_range m (s1 + i)) as R1. pose proof (load8_range m (s2 + i)) as R2.
  replace (s1 + i + 1) with (s1 + (i + 1)) by lia.
  replace (s2 + i + 1) with (s2 + (i + 1)) by lia.
  set (a := load8 m (s1 + i)) in *. set (b := load8 m (s2 + i)) in *. clearbody a b.
  destruct (Z.eqb_spec (s8 a) (s8 b)) as [E|E]; cbn [negb orb].
  - apply s8_inj in E as ->; [|done|done].
    destruct (Z.eqb_spec (s8 b) 0) as [Z0|Z0].
    + apply s8_zero in Z0 as ->; [|done]. cbn. split; [done|lia].
    + destruct (Z.eqb_spec b 0) as [->|NZ]; [done|]. rewrite IH.
      split; [intros ->; done|]. now intros [= ?].
  - assert (a <> b) by congruence. split; [lia|].
    destruct (Z.eqb_spec a 0), (Z.eqb_spec b 0); intros; simplify_eq.
Qed.

(** Zero exactly when the strings agree on the first [n] characters, up to NUL. *)
Lemma strncmp_zero m s1 s2 n :
  0 <= n < 4294967296 ->
  strncmp m s1 s2 n = 0 <-> cname m s1 (Z.to_nat n) = cname m s2 (Z.to_nat n).
Proof.
  intros Hn. unfold strncmp. rewrite u32_small, strncmp_loop_cname by done.
  now rewrite !Z.add_0_r.
Qed.

Lemma strncmp_loop_diff n : forall m s1 s2 i k,
  i <= k < i + Z.of_nat n ->
  (forall j, i <= j < k -> load8 m (s1 + j) = load8 m (s2 + j) /\ load8 m (s1 + j) <> 0) ->
  load8 m (s1 + k) <> load8 m (s2 + k) ->
  strncmp_loop n m s1 s2 i = s8 (load8 m (s1 + k)) - s8 (load8 m (s2 + k)).
Proof.
  induction n as [|n IH]; intros m s1 s2 i k Hk Hpre Hdiff; [lia|]. cbn [strncmp_loop].
  destruct (decide (i = k)) as [->|Hik].
  - rewrite (proj2 (Z.eqb_neq _ _)); [done|].
    intros E. apply Hdiff, s8_inj; auto with cint.
  - destruct (Hpre i) as [E NZ]; [lia|].
    rewrite <- E at 1. rewrite Z.eqb_refl. cbn [negb orb].
    rewrite (proj2 (Z.eqb_neq _ _)); [|rewrite s8_zero; auto with cint].
    apply IH; [lia| |done]. intros j Hj. apply Hpre. lia.
Qed.

(** The sign is that of the first differing pair of signed characters. *)
Lemma strncmp_diff m s1 s2 n k :
  0 <= k < n -> n < 4294967296 ->
  (forall j, 0 <= j < k -> load8 m (s1 + j) = load8 m (s2 + j) /\ load8 m (s1 + j) <> 0) ->
  load8 m (s1 + k) <> load8 m (s2 + k) ->
  strncmp m s1 s2 n = s8 (load8 m (s1 + k)) - s8 (load8 m (s2 + k)).
Proof.
  intros. unfold strncmp. rewrite u32_small by lia. apply strncmp_loop_diff; [lia|done|done].
Qed.

(** ** Facts about [cname] *)

Lemma cname_length_le m n : forall a, (length (cname m a n) <= n)%nat.
Proof.
  induction n as [|n IH]; intros a; cbn [cname]; [done|].
  destruct (load8 m a =? 0); cbn; [lia|]. specialize (IH (a + 1)). lia.
Qed.

Lemma cname_range m n : forall a, Forall (fun b => 0 < b < 256) (cname m a n).
Proof.
  induction n as [|n IH]; intros a; cbn [cname]; [done|].
  destruct (Z.eqb_spec (load8 m a) 0); [done|]. constructor; [|apply IH].
  pose proof (load8_range m a). lia.
Qed.

Lemma cname_is_cstr m n : forall a k,
  is_cstr m a k -> cname m a n = bytes m a (Nat.min n (Z.to_nat k)).
Proof.
  induction n as [|n IH]; intros a k (Hk & Hz & Hi); cbn [cname Nat.min]; [done|].
  destruct (Z.eqb_spec (load8 m a) 0) as [E|E].
  - assert (k = 0) as ->; [|done].
    destruct (decide (k = 0)); [done|]. exfalso. apply (Hi 0); [lia|]. now rewrite Z.add_0_r.
  - assert (k <> 0) by (intros ->; rewrite Z.add_0_r in Hz; done).
    replace (Z.to_nat k) with (S (Z.to_nat (k - 1))) by lia.
    cbn [Nat.min]. rewrite bytes_S. f_equal. apply IH.
    split; [lia|]. split.
    + now replace (a + 1 + (k - 1)) with (a + k) by lia.
    + intros i Hi'. replace (a + 1 + i) with (a + (1 + i)) by lia. apply Hi. lia.
Qed.

Lemma cname_strlen m a n : cname m a n = bytes m a (Nat.min n (Z.to_nat (strlen m a))).
Proof. apply cname_is_cstr, strlen_spec. Qed.

(** [cname] only depends on the bytes it looks at. *)
Lemma cname_ext m m' n : forall a a',
  (forall i, 0 <= i < Z.of_nat n ->
     (forall j, 0 <= j < i -> load8 m (a + j) <> 0) ->
     load8 m (a + i) = load8 m' (a' + i)) ->
  cname m a n = cname m' a' n.
Proof.
  induction n as [|n IH]; intros a a' H; cbn [cname]; [done|].
  assert (E : load8 m a = load8 m' a').
  { specialize (H 0). rewrite !Z.add_0_r in H. apply H; [lia|]. intros; lia. }
  rewrite <- E. destruct (Z.eqb_spec (load8 m a) 0) as [|NZ]; [done|]. f_equal.
  apply IH. intros i Hi Hj.
  replace (a + 1 + i) with (a + (1 + i)) by lia.
  replace (a' + 1 + i) with (a' + (1 + i)) by lia.
  apply H; [lia|]. intros j Hj'. destruct (decide (j = 0)) as [->|]; [now rewrite Z.add_0_r|].
  replace (a + j) with (a + 1 + (j - 1)) by lia. apply Hj. lia.
Qed.

Lemma cname_unchanged P m m' a n :
  unchanged P m m' -> (forall b, in_range a (Z.of_nat n) b -> ~ P b) ->
  cname m' a n = cname m a n.
Proof.
  intros HU HP. symmetry. apply cname_ext. intros i Hi _. symmetry.
  eapply unchanged_load8; [done|]. apply HP. unfold in_range. lia.
Qed.

(** ** strncpy *)

(** Two address ranges do not overlap. *)
Definition disj (a n b k : Z) : Prop := a + n <= b \/ b + k <= a.

(** A loop that copies byte by byte between disjoint ranges. *)
Lemma copy_bytes_spec dest src n m :
  0 <= n -> disj dest n src n ->
  let m' := for_range 0 n (fun i m => store8 m (dest + i) (load8 m (src + i))) m in
  unchanged (in_range dest n) m m' /\ forall i, 0 <= i < n -> load8 m' (dest + i) = load8 m (src + i).
Proof.
  intros Hn Hd m'. unfold m'. apply (for_range_ind (fun k mk => unchanged (in_range dest n) m mk /\
    forall i, 0 <= i < k -> load8 mk (dest + i) = load8 m (src + i))); [lia| |].
  - split; [apply unchanged_refl|lia].
  - intros j mj Hj [U C]. split.
    + eapply unchanged_trans; [exact U|]. apply unchanged_store8. unfold in_range. lia.
    + intros i Hi. rewrite load8_store8. destruct (Z.eqb_spec (dest + j) (dest + i)) as [Ej|].
      * replace i with j by lia. rewrite u8_small by apply load8_range.
        eapply unchanged_load8; [exact U|]. unfold in_range, disj in *. lia.
      * apply C. lia.
Qed.

Lemma strncpy_copy_spec fuel : forall m dest src i n,
  0 <= i <= n -> n - i < Z.of_nat fuel -> disj dest n src n ->
  let l := cname m (src + i) (Z.to_nat (n - i)) in
  exists m', strncpy_copy fuel m dest src i n = (m', i + Z.of_nat (length l)) /\
    unchanged (in_range (dest + i) (Z.of_nat (length l))) m m' /\
    bytes m' (dest + i) (length l) = l.
Proof.
  induction fuel as [|f IH]; intros m dest src i n Hi Hf Hd; [lia|]. cbn [strncpy_copy].
  destruct (Z.ltb_spec i n) as [Hin|Hin].
  - replace (Z.to_nat (n - i)) with (S (Z.to_nat (n - (i + 1)))) by lia. cbn [cname].
    destruct (Z.eqb_spec (load8 m (src + i)) 0) as [E|E]; cbn [negb andb length].
    + exists m. rewrite Z.add_0_r. auto using unchanged_refl.
    + set (m1 := store8 m (dest + i) (load8 m (src + i))).
      assert (U1 : unchanged (in_range (dest + i) 1) m m1).
      { apply unchanged_store8. unfold in_range. lia. }
      destruct (IH m1 dest src (i + 1) n) as (m' & -> & HU & HB); [lia|lia|done|].
      rewrite Z.add_assoc in HU, HB.
      assert (EC : cname m1 (src + i + 1) (Z.to_nat (n - (i + 1))) =
                   cname m (src + i + 1) (Z.to_nat (n - (i + 1)))).
      { eapply cname_unchanged; [exact U1|]. unfold in_range, disj in *. intros. lia. }
      rewrite Z.add_assoc, EC in *. exists m'. split; [f_equal; lia|]. split.
      * eapply unchanged_trans; (eapply unchanged_weaken; [|eassumption]);
          unfold in_range; intros; lia.
      * rewrite bytes_S. f_equal; [|exact HB].
        rewrite (unchanged_load8 _ _ _ _ HU) by (unfold in_range; lia).
        unfold m1. rewrite load8_store8_eq. apply u8_small, load8_range.
  - replace (Z.to_nat (n - i)) with O by lia. cbn [cname length]. rewrite andb_false_r.
    exists m. rewrite Z.add_0_r. auto using unchanged_refl.
Qed.

Lemma zero_fill_spec m dest i n :
  i <= n ->
  let m' := for_range i n (fun j m' => store8 m' (dest + j) 0) m in
  unchanged (in_range (dest + i) (n - i)) m m' /\
  bytes m' (dest + i) (Z.to_nat (n - i)) = replicate (Z.to_nat (n - i)) 0.
Proof.
  intros Hin m'. split.
  - apply unchanged_for_range. intros j m1 Hj. apply unchanged_store8. unfold in_range. lia.
  - assert (H : forall j, i <= j < n -> load8 m' (dest + j) = 0).
    { subst m'.
      apply (for_range_ind (fun k m1 => forall j, i <= j < k -> load8 m1 (dest + j) = 0));
        [done|intros; lia|].
      intros k m1 Hk IH j Hj. rewrite load8_store8.
      destruct (Z.eqb_spec (dest + k) (dest + j)); [done|]. apply IH. lia. }
    apply list_eq. intros k. destruct (decide (k < Z.to_nat (n - i))%nat) as [Hk|Hk].
    + rewrite bytes_lookup, lookup_replicate_2 by done. f_equal.
      replace (dest + i + Z.of_nat k) with (dest + (i + Z.of_nat k)) by lia. apply H. lia.
    + rewrite !lookup_ge_None_2; [done|rewrite length_replicate; lia|rewrite length_bytes; lia].
Qed.

(** [strncpy] writes exactly [n] bytes: the source up to its NUL, then NULs. *)
Lemma strncpy_spec m dest src n :
  0 <= n < 4294967296 -> disj dest n src n ->
  let l := cname m src (Z.to_nat n) in
  unchanged (in_range dest n) m (strncpy m dest src n) /\
  bytes (strncpy m dest src n) dest (Z.to_nat n) =
    l ++ replicate (Z.to_nat n - length l) 0.
Proof.
  intros Hn Hd. cbv zeta. unfold strncpy. rewrite u32_small by lia.
  destruct (strncpy_copy_spec (S (Z.to_nat n)) m dest src 0 n) as (m1 & -> & HU & HB);
    [lia|lia|done|].
  rewrite !Z.add_0_r, Z.add_0_l, Z.sub_0_r in *.
  pose proof (cname_length_le m (Z.to_nat n) src) as Hlen.
  set (l := cname m src (Z.to_nat n)) in *. clearbody l.
  destruct (zero_fill_spec m1 dest (Z.of_nat (length l)) n) as [HU2 HB2]; [lia|].
  set (m2 := for_range _ _ _ _) in *. clearbody m2.
  split.
  - eapply unchanged_trans; (eapply unchanged_weaken; [|eassumption]); unfold in_range; intros; lia.
  - replace (Z.to_nat n) with (length l + (Z.to_nat n - length l))%nat at 1 by lia.
    rewrite bytes_app. f_equal.
    + rewrite <- HB at 2. eapply unchanged_bytes; [exact HU2|]. unfold in_range. intros. lia.
    + replace (Z.to_nat n - length l)%nat with (Z.to_nat (n - Z.of_nat (length l))) by lia.
      exact HB2.
Qed.

(** ** strcpy *)

Lemma strcpy_loop_spec fuel : forall m dest src i n,
  is_cstr m src n -> 0 <= i <= n -> n - i < Z.of_nat fuel -> disj dest (n + 1) src (n + 1) ->
  exists m', strcpy_loop fuel m dest src i = Some m' /\
    unchanged (in_range (dest + i) (n + 1 - i)) m m' /\
    bytes m' (dest + i) (Z.to_nat (n + 1 - i)) = bytes m (src + i) (Z.to_nat (n + 1 - i)).
Proof.
  induction fuel as [|f IH]; intros m dest src i n Hs Hi Hf Hd; [lia|]. cbn [strcpy_loop].
  destruct Hs as (Hn & Hz & Hnz) eqn:EHs.
  destruct (Z.eqb_spec (load8 m (src + i)) 0) as [E|E].
  - assert (i = n) as ->.
    { destruct (decide (i = n)); [done|]. exfalso. apply (Hnz i); [lia|done]. }
    eexists. split; [done|]. split; [apply unchanged_store8; unfold in_range; lia|].
    replace (Z.to_nat (n + 1 - n)) with 1%nat by lia. rewrite !bytes_S, load8_store8_eq, E. done.
  - assert (i <> n) by congruence.
    set (m1 := store8 m (dest + i) (load8 m (src + i))).
    assert (U1 : unchanged (in_range (dest + i) 1) m m1).
    { apply unchanged_store8. unfold in_range. lia. }
    destruct (IH m1 dest src (i + 1) n) as (m' & -> & HU & HB); [|lia|lia|done|].
    { eapply is_cstr_unchanged; [exact U1| |exact Hs]. unfold in_range, disj in *. intros. lia. }
    exists m'. split; [done|]. split.
    + eapply unchanged_trans; (eapply unchanged_weaken; [|eassumption]);
        unfold in_range; intros; lia.
    + replace (Z.to_nat (n + 1 - i)) with (S (Z.to_nat (n + 1 - (i + 1)))) by lia.
      rewrite !bytes_S, <- !Z.add_assoc, HB. f_equal.
      * rewrite (unchanged_load8 _ _ _ _ HU) by (unfold in_range; lia).
        unfold m1. rewrite load8_store8_eq. apply u8_small, load8_range.
      * eapply unchanged_bytes; [exact U1|]. unfold in_range, disj in *. intros. lia.
Qed.

(** A copy to a place that does not overlap the string ends, and copies the
    string with its NUL and nothing else. *)
Lemma strcpy_spec m dest src :
  let n := strlen m src in
  disj dest (n + 1) src (n + 1) ->
  exists m', strcpy m dest src = Some m' /\ unchanged (in_range dest (n + 1)) m m' /\
    bytes m' dest (Z.to_nat (n + 1)) = bytes m src (Z.to_nat (n + 1)).
Proof.
  intros n Hd. pose proof (strlen_spec m src) as Hs. fold n in Hs.
  pose proof Hs as (Hn & _ & Hnz).
  assert (Z.to_nat n <= mem_size m)%nat.
  { apply (nonzero_run_bound m src). intros i Hi. apply Hnz. lia. }
  destruct (strcpy_loop_spec (S (mem_size m)) m dest src 0 n) as (m' & E & HU & HB);
    [done|lia|lia|done|].
  exists m'. rewrite !Z.add_0_r, Z.sub_0_r in *. done.
Qed.

(** ** strrev *)

Lemma strrev_loop_spec fuel : forall m s beg en,
  en - beg < 2 * Z.of_nat fuel + 1 -> 
  let m' := strrev_loop fuel m s beg en in
  unchanged (fun a => beg <= a - s <= en) m m' /\
  forall j, beg <= j <= en -> load8 m' (s + j) = load8 m (s + (beg + en - j)).
Proof.
  induction fuel as [|f IH]; intros m s beg en Hf; cbn [strrev_loop].
  - split; [apply unchanged_refl|]. intros j Hj. do 2 f_equal. lia.
  - destruct (Z.ltb_spec beg en) as [Hlt|Hge].
    2: { split; [apply unchanged_refl|]. intros j Hj. do 2 f_equal. lia. }
    set (m1 := store8 (store8 m (s + en) (load8 m (s + beg))) (s + beg) (load8 m (s + en))).
    assert (U1 : unchanged (fun a => beg <= a - s <= en) m m1).
    { eapply unchanged_trans; apply unchanged_store8; lia. }
    destruct (IH m1 s (beg + 1) (en - 1)) as [HU HB]; [lia|].
    set (m' := strrev_loop f m1 s (beg + 1) (en - 1)) in *. clearbody m'.
    split.
    + eapply unchanged_trans; [exact U1|]. eapply unchanged_weaken; [|exact HU]. cbn. intros; lia.
    + intros j Hj. destruct (decide (j = beg)) as [->|]; [|destruct (decide (j = en)) as [->|]].
      * rewrite (unchanged_load8 _ _ _ _ HU) by lia. unfold m1. rewrite load8_store8_eq.
        rewrite u8_small by apply load8_range. f_equal. lia.
      * rewrite (unchanged_load8 _ _ _ _ HU) by lia. unfold m1.
        rewrite load8_store8_ne, load8_store8_eq by lia.
        rewrite u8_small by apply load8_range. f_equal. lia.
      * rewrite HB by lia. unfold m1. rewrite !load8_store8_ne by lia. do 2 f_equal. lia.
Qed.

(** [strrev] reverses the string in place and touches nothing else. *)
Lemma strrev_spec m s :
  let n := strlen m s in
  unchanged (in_range s n) m (strrev m s) /\
  bytes (strrev m s) s (Z.to_nat n) = reverse (bytes m s (Z.to_nat n)).
Proof.
  intros n. destruct (strlen_spec m s) as (Hn & _ & _). fold n in Hn.
  unfold strrev. fold n.
  destruct (strrev_loop_spec (Z.to_nat n) m s 0 (n - 1)) as [HU HB]; [lia|].
  set (m' := strrev_loop _ _ _ _ _) in *. clearbody m'. split.
  - eapply unchanged_weaken; [|exact HU]. unfold in_range. cbn. intros; lia.
  - apply list_eq. intros k. destruct (decide (k < Z.to_nat n)%nat) as [Hk|Hk].
    + rewrite bytes_lookup by done. rewrite reverse_lookup by (rewrite length_bytes; lia).
      rewrite length_bytes, bytes_lookup by lia. rewrite HB by lia. do 2 f_equal. lia.
    + rewrite !lookup_ge_None_2; [done| |]; rewrite ?length_reverse, length_bytes; lia.
Qed.

(** ** itoa *)

(** The digit characters of [v], least significant first. *)
Fixpoint digits_lsf (fuel : nat) (v radix : Z) : list Z :=
  match fuel with
  | O => []
  | S f => if v =? 0 then []
           else default 0 (digit_lookup (v mod radix)) :: digits_lsf f (v / radix) radix
  end.

Lemma digit_lookup_spec i :
  0 <= i < 36 -> exists c, digit_lookup i = Some c /\ 48 <= c < 91 /\ char_digit c = i.
Proof.
  intros Hi. unfold digit_lookup, char_digit.
  destruct (Z.ltb_spec i 10); zdecide.
  - exists (48 + i). zdecide. repeat split; lia.
  - exists (55 + i). zdecide. repeat split; lia.
Qed.

Lemma digits_lsf_chars fuel : forall v radix, 2 <= radix <= 36 -> 0 <= v ->
  Forall (fun c => 48 <= c < 91) (digits_lsf fuel v radix).
Proof.
  induction fuel as [|f IH]; intros v radix Hr Hv; cbn [digits_lsf]; [done|].
  destruct (v =? 0); [done|]. constructor.
  - destruct (digit_lookup_spec (v mod radix)) as (c & -> & Hc & _); [|done].
    pose proof (Z.mod_pos_bound v radix). lia.
  - apply IH; [done|]. apply Z.div_pos; lia.
Qed.

Lemma digits_lsf_length fuel : forall v radix, (length (digits_lsf fuel v radix) <= fuel)%nat.
Proof.
  induction fuel as [|f IH]; intros v radix; cbn [digits_lsf]; [done|].
  destruct (v =? 0); cbn; [lia|]. specialize (IH (v / radix) radix). lia.
Qed.

Lemma div_lt_pow2 v radix f :
  2 <= radix -> 0 <= v < 2 ^ Z.of_nat (S f) -> 0 <= v / radix < 2 ^ Z.of_nat f.
Proof.
  intros Hr Hv. split; [apply Z.div_pos; lia|].
  apply Z.div_lt_upper_bound; [lia|].
  rewrite Nat2Z.inj_succ, Z.pow_succ_r in Hv by lia.
  assert (0 < 2 ^ Z.of_nat f) by (apply Z.pow_pos_nonneg; lia). nia.
Qed.

Lemma digits_lsf_value fuel : forall v radix,
  2 <= radix <= 36 -> 0 <= v < 2 ^ Z.of_nat fuel ->
  digits_value radix (reverse (digits_lsf fuel v radix)) = v.
Proof.
  unfold digits_value.
  induction fuel as [|f IH]; intros v radix Hr Hv; cbn [digits_lsf].
  - cbn in *. lia.
  - destruct (Z.eqb_spec v 0) as [->|Hv0]; [done|].
    rewrite reverse_cons, fold_left_app, IH by auto using div_lt_pow2 with lia. cbn.
    destruct (digit_lookup_spec (v mod radix)) as (c & -> & _ & Hc).
    { pose proof (Z.mod_pos_bound v radix). lia. }
    cbn. rewrite Hc. pose proof (Z.div_mod v radix). lia.
Qed.

Lemma itoa_loop_spec fuel : forall m newbuf v radix,
  2 <= radix <= 36 -> 0 <= v < 2 ^ Z.of_nat fuel ->
  let l := digits_lsf fuel v radix in
  exists m', itoa_loop fuel m newbuf v radix = Some (m', newbuf + Z.of_nat (length l)) /\
    unchanged (in_range newbuf (Z.of_nat (length l))) m m' /\ bytes m' newbuf (length l) = l.
Proof.
  induction fuel as [|f IH]; intros m newbuf v radix Hr Hv; cbn [digits_lsf itoa_loop].
  - assert (v = 0) as -> by (cbn in Hv; lia). cbn.
    exists m. rewrite Z.add_0_r. auto using unchanged_refl.
  - destruct (Z.eqb_spec v 0) as [->|Hv0].
    { exists m. cbn. rewrite Z.add_0_r. auto using unchanged_refl. }
    zdecide.
    destruct (digit_lookup_spec (v mod radix)) as (c & Ec & Hc & _).
    { pose proof (Z.mod_pos_bound v radix). lia. }
    rewrite Ec. cbn [default id from_option].
    destruct (IH (store8 m newbuf c) (newbuf + 1) (v / radix) radix) as (m' & -> & HU & HB);
      [done|auto using div_lt_pow2 with lia|].
    exists m'. cbn [length]. split; [f_equal; f_equal; lia|]. split.
    + apply (unchanged_trans _ _ (store8 m newbuf c)).
      * apply unchanged_store8. unfold in_range. lia.
      * eapply unchanged_weaken; [|exact HU]. unfold in_range. intros; lia.
    + rewrite bytes_S, HB. f_equal.
      rewrite (unchanged_load8 _ _ _ _ HU) by (unfold in_range; lia).
      rewrite load8_store8_eq. apply u8_small. lia.
Qed.

(** A memory that holds the non-zero bytes [l] and then a NUL at [a]. *)
Lemma is_cstr_of_bytes m a l :
  bytes m a (length l) = l -> load8 m (a + Z.of_nat (length l)) = 0 ->
  Forall (fun c => c <> 0) l -> is_cstr m a (Z.of_nat (length l)).
Proof.
  intros HB HZ HF. split; [lia|]. split; [done|]. intros i Hi.
  rewrite Forall_lookup in HF. apply (HF (Z.to_nat i)).
  rewrite <- HB, bytes_lookup by lia. do 2 f_equal. lia.
Qed.

Section Itoa.
Context (m : mem) (value buf radix : Z).
Context (Hradix : 2 <= radix <= 36) (Hvalue : 0 < value < 4294967296).

Let ds := digits_lsf 32 value radix.

Lemma itoa_digits_nonempty : (1 <= length ds <= 32)%nat.
Proof using Hvalue.
  split; [|apply digits_lsf_length].
  unfold ds. cbn [digits_lsf]. zdecide. cbn. lia.
Qed.

(** The string written by [itoa]: the digits, most significant first. *)
Lemma itoa_string :
  exists m', itoa m value buf radix = Some m' /\
    bytes m' buf (length ds) = reverse ds /\ load8 m' (buf + Z.of_nat (length ds)) = 0 /\
    unchanged (in_range buf (Z.of_nat (length ds) + 1)) m m'.
Proof using Hradix Hvalue.
  unfold itoa. rewrite !u32_small by lia. zdecide.
  destruct (itoa_loop_spec 32 m buf value radix) as (m1 & -> & HU & HB);
    [done|cbn; lia|]. fold ds in HU, HB |- *.
  set (m2 := store8 m1 (buf + Z.of_nat (length ds)) 0).
  assert (U2 : unchanged (in_range (buf + Z.of_nat (length ds)) 1) m1 m2).
  { apply unchanged_store8. unfold in_range. lia. }
  assert (HB2 : bytes m2 buf (length ds) = ds).
  { rewrite <- HB at 2. eapply unchanged_bytes; [exact U2|]. unfold in_range. intros; lia. }
  assert (HZ : load8 m2 (buf + Z.of_nat (length ds)) = 0) by (unfold m2; apply load8_store8_eq).
  assert (HL : strlen m2 buf = Z.of_nat (length ds)).
  { apply strlen_eq, is_cstr_of_bytes; [done|done|].
    eapply Forall_impl; [apply digits_lsf_chars; lia|]. cbn. intros; lia. }
  destruct (strrev_spec m2 buf) as [HU3 HB3]. rewrite HL, Nat2Z.id, HB2 in HB3.
  rewrite HL in HU3.
  exists (strrev m2 buf). split; [done|]. split; [done|]. split.
  - rewrite (unchanged_load8 _ _ _ _ HU3) by (unfold in_range; lia). done.
  - apply (unchanged_trans _ _ m2); [apply (unchanged_trans _ _ m1)|];
      (eapply unchanged_weaken; [|eassumption]); unfold in_range; intros; lia.
Qed.
End Itoa.

(** C37 itoa terminates for every radix from 2 to 36, writes a NUL-terminated
    string of 1 to 32 characters and no other byte, and the string denotes the
    value converted. *)
Theorem itoa_roundtrip m value buf radix :
  2 <= radix <= 36 -> 0 <= value < 4294967296 ->
  exists m' k, itoa m value buf radix = Some m' /\ is_cstr m' buf k /\ 1 <= k <= 32 /\
    digits_value radix (bytes m' buf (Z.to_nat k)) = value /\
    unchanged (in_range buf (k + 1)) m m'.
Proof.
  intros Hr Hv. destruct (decide (value = 0)) as [->|].
  - exists (store8 (store8 m buf 48) (buf + 1) 0), 1.
    assert (B0 : load8 (store8 (store8 m buf 48) (buf + 1) 0) buf = 48).
    { rewrite load8_store8_ne, load8_store8_eq by lia. done. }
    split; [done|]. split; [|split; [lia|split]].
    + split; [lia|]. split; [apply load8_store8_eq|].
      intros i Hi. replace (buf + i) with buf by lia. lia.
    + change (Z.to_nat 1) with 1%nat. rewrite bytes_S, B0. cbn. lia.
    + apply (unchanged_trans _ _ (store8 m buf 48)); apply unchanged_store8; unfold in_range; lia.
  - assert (Hv' : 0 < value < 4294967296) by lia.
    destruct (itoa_string m value buf radix Hr Hv') as (m' & E & HB & HZ & HU).
    pose proof (itoa_digits_nonempty value radix Hv') as Hlen.
    exists m', (Z.of_nat (length (digits_lsf 32 value radix))).
    split; [done|]. split; [|split; [lia|split; [|done]]].
    + rewrite <- length_reverse. apply is_cstr_of_bytes; rewrite ?length_reverse; [done|done|].
      apply Forall_reverse. eapply Forall_impl; [apply digits_lsf_chars; lia|]. cbn. intros; lia.
    + rewrite Nat2Z.id, HB. apply digits_lsf_value; [done|cbn; lia].
Qed.

(** The witness prints 48879 in base 16: the characters are "BEEF". *)
Lemma itoa_roundtrip_witness :
  2 <= 16 <= 36 /\
  option_map (fun m => bytes m 1000 5) (itoa (Mem ∅ ∅ 0) 48879 1000 16)
    = Some [66; 69; 69; 70; 0] /\
  exists m' k, itoa (Mem ∅ ∅ 0) 48879 1000 16 = Some m' /\ is_cstr m' 1000 k /\ 1 <= k <= 32 /\
    digits_value 16 (bytes m' 1000 (Z.to_nat k)) = 48879 /\
    unchanged (in_range 1000 (k + 1)) (Mem ∅ ∅ 0) m'.
Proof.
  split; [lia|]. split; [vm_compute; reflexivity|].
  apply (itoa_roundtrip (Mem ∅ ∅ 0) 48879 1000 16); lia.
Defined.
