(* ===== verification/MemOps.v ===== *)
(** * The memory functions of lib.c

    [memset], [memset_word], [memset_dword], [memcpy] and [memmove] of
    src/student-distrib/lib.c are inline assembly.  Each loop of the assembly
    is a function on the registers it uses ([edi], [esi], [ecx], [edx]) and
    the memory; [rep] repeats [ecx] times in the direction of the direction
    flag.  The theorems compare the word-wise loops with byte-wise reference
    definitions, up to the equivalence of memories. *)

From S2P Require Import Prelude Mem CString.

Definition store16 (m : mem) (a v : Z) : mem := store8 (store8 m a v) (a + 1) (v / 256).

(** ** Definitions *)

(** [.memset_top]: byte stores until [ecx] is zero or [edi] is aligned. *)
Fixpoint memset_top (fuel : nat) (m : mem) (al edi ecx : Z) : mem * Z * Z :=
  match fuel with
  | O => (m, edi, ecx)
  | S f =>
      if ecx =? 0 then (m, edi, ecx)
      else if Z.land edi 3 =? 0 then (m, edi, ecx)
      else memset_top f (store8 m edi al) al (edi + 1) (ecx - 1)
  end.

(** [rep stosl], [rep stosw] and the byte loop [.memset_bottom]. *)
Fixpoint rep_stosl (ecx : nat) (m : mem) (eax edi : Z) : mem * Z :=
  match ecx with
  | O => (m, edi)
  | S k => rep_stosl k (store32 m edi eax) eax (edi + 4)
  end.

Fixpoint rep_stosw (ecx : nat) (m : mem) (eax edi : Z) : mem * Z :=
  match ecx with
  | O => (m, edi)
  | S k => rep_stosw k (store16 m edi eax) eax (edi + 2)
  end.

Fixpoint memset_bottom (edx : nat) (m : mem) (al edi : Z) : mem :=
  match edx with
  | O => m
  | S k => memset_bottom k (store8 m edi al) al (edi + 1)
  end.

Definition memset (m : mem) (s c n : Z) : mem :=
  let c := Z.land c 0xFF in
  let eax := Z.lor (Z.lor (Z.lor (Z.shiftl c 24) (Z.shiftl c 16)) (Z.shiftl c 8)) c in
  let '(m, edi, ecx) := memset_top (Z.to_nat n) m eax s n in
  if ecx =? 0 then m else
  let edx := Z.land ecx 3 in
  let '(m, edi) := rep_stosl (Z.to_nat (Z.shiftr ecx 2)) m eax edi in
  memset_bottom (Z.to_nat edx) m eax edi.

Definition memset_word (m : mem) (s c n : Z) : mem := fst (rep_stosw (Z.to_nat n) m c s).
Definition memset_dword (m : mem) (s c n : Z) : mem := fst (rep_stosl (Z.to_nat n) m c s).

Fixpoint memcpy_top (fuel : nat) (m : mem) (edi esi ecx : Z) : mem * Z * Z * Z :=
  match fuel with
  | O => (m, edi, esi, ecx)
  | S f =>
      if ecx =? 0 then (m, edi, esi, ecx)
      else if Z.land edi 3 =? 0 then (m, edi, esi, ecx)
      else memcpy_top f (store8 m edi (load8 m esi)) (edi + 1) (esi + 1) (ecx - 1)
  end.

Fixpoint rep_movsl (ecx : nat) (m : mem) (edi esi : Z) : mem * Z * Z :=
  match ecx with
  | O => (m, edi, esi)
  | S k => rep_movsl k (store32 m edi (load32 m esi)) (edi + 4) (esi + 4)
  end.

Fixpoint memcpy_bottom (edx : nat) (m : mem) (edi esi : Z) : mem :=
  match edx with
  | O => m
  | S k => memcpy_bottom k (store8 m edi (load8 m esi)) (edi + 1) (esi + 1)
  end.

Definition memcpy (m : mem) (dest src n : Z) : mem :=
  let '(m, edi, esi, ecx) := memcpy_top (Z.to_nat n) m dest src n in
  if ecx =? 0 then m else
  let edx := Z.land ecx 3 in
  let '(m, edi, esi) := rep_movsl (Z.to_nat (Z.shiftr ecx 2)) m edi esi in
  memcpy_bottom (Z.to_nat edx) m edi esi.

(** [rep movsb]; [df] is the direction flag. *)
Fixpoint rep_movsb (ecx : nat) (m : mem) (edi esi : Z) (df : bool) : mem :=
  match ecx with
  | O => m
  | S k =>
      let d := if df then -1 else 1 in
      rep_movsb k (store8 m edi (load8 m esi)) (edi + d) (esi + d) df
  end.

(** The result carries the direction flag the function leaves behind. *)
Definition memmove (m : mem) (dest src n : Z) : mem * bool :=
  if dest <=? src then (rep_movsb (Z.to_nat n) m dest src false, false)
  else (rep_movsb (Z.to_nat n) m (dest + n - 1) (src + n - 1) true, true).

(** ** Reference definitions *)

(** [n] bytes [c] from [s] on. *)
Definition fill_ref (m : mem) (s c n : Z) : mem :=
  for_range 0 n (fun i m' => store8 m' (s + i) c) m.

(** ** memset *)

Lemma fill_ref_byte m s c n p b :
  0 <= n ->
  byte_at (fill_ref m s c n) p b =
  if (s <=? b) && (b <? s + n) && (negb (in_window b) || (p =? tlb m)) then u8 c
  else byte_at m p b.
Proof.
  intros Hn. unfold fill_ref.
  apply (for_range_ind (fun k m' => tlb m' = tlb m /\ byte_at m' p b =
     if (s <=? b) && (b <? s + k) && (negb (in_window b) || (p =? tlb m))
     then u8 c else byte_at m p b)); [done| |].
  - split; [done|]. now replace ((s <=? b) && (b <? s + 0)) with false by lia.
  - intros j m' Hj [ET IH]. split; [now rewrite tlb_store8|].
    rewrite byte_at_store8, ET, IH.
    destruct (Z.eqb_spec (s + j) b) as [<-|]; cbn [andb].
    + replace ((s <=? s + j) && (s + j <? s + (j + 1))) with true by lia.
      replace ((s <=? s + j) && (s + j <? s + j)) with false by lia. done.
    + now replace ((s <=? b) && (b <? s + (j + 1))) with ((s <=? b) && (b <? s + j)) by lia.
Qed.

(** Filling in two steps. *)
Lemma fill_ref_app m s c a b :
  0 <= a -> 0 <= b -> fill_ref m s c (a + b) ≡ fill_ref (fill_ref m s c a) (s + a) c b.
Proof.
  intros Ha Hb.
  assert (T : forall m' s' k, tlb (fill_ref m' s' c k) = tlb m').
  { intros m' s' k. unfold fill_ref.
    apply (unchanged_for_range (fun _ => True) (fun i m'' => store8 m'' (s' + i) c)).
    intros. by apply unchanged_store8. }
  split; [now rewrite !T|].
  intros p x. rewrite !fill_ref_byte, T by lia.
  destruct (negb (in_window x) || (p =? tlb m)); rewrite ?andb_false_r, ?andb_true_r; [|done].
  destruct ((s <=? x) && (x <? s + (a + b))) eqn:E1,
           ((s + a <=? x) && (x <? s + a + b)) eqn:E2,
           ((s <=? x) && (x <? s + a)) eqn:E3; (reflexivity || lia).
Qed.

Lemma fill_ref_one m s c : fill_ref m s c 1 = store8 m s c.
Proof.
  change (fill_ref m s c 1) with (store8 m (s + 0) c). now rewrite Z.add_0_r.
Qed.

Lemma fill_ref_u8 m s v c n : u8 v = u8 c -> fill_ref m s v n = fill_ref m s c n.
Proof.
  intros E. unfold fill_ref, for_range. set (k := Z.to_nat (n - 0)). clearbody k.
  generalize 0. revert m. induction k as [|k IH]; intros m i; cbn [for_n]; [done|].
  now rewrite (store8_u8 _ _ v c), IH.
Qed.

#[export] Instance fill_ref_proper : Proper ((≡) ==> (=) ==> (=) ==> (=) ==> (≡)) fill_ref.
Proof.
  intros m m' H s ? <- c ? <- n ? <-. unfold fill_ref, for_range.
  set (k := Z.to_nat (n - 0)). clearbody k. generalize 0. revert m m' H.
  induction k as [|k IH]; intros m m' H i; cbn [for_n]; [done|]. apply IH. now rewrite H.
Qed.

Lemma memset_top_spec fuel : forall m al edi ecx,
  0 <= ecx <= Z.of_nat fuel ->
  exists k, 0 <= k <= ecx /\
    (let '(m', edi', ecx') := memset_top fuel m al edi ecx in
     m' ≡ fill_ref m edi al k /\ edi' = edi + k /\ ecx' = ecx - k /\
     (ecx' = 0 \/ Z.land edi' 3 = 0)).
Proof.
  induction fuel as [|f IH]; intros m al edi ecx H; cbn [memset_top].
  - exists 0. split; [lia|]. split; [done|]. split; [lia|]. split; [lia|]. left. lia.
  - destruct (Z.eqb_spec ecx 0) as [->|];
      [exists 0; split; [lia|]; split; [done|]; split; [lia|]; split; [lia|]; by left|].
    destruct (Z.eqb_spec (Z.land edi 3) 0);
      [exists 0; split; [lia|]; split; [done|]; split; [lia|]; split; [lia|]; by right|].
    destruct (IH (store8 m edi al) al (edi + 1) (ecx - 1)) as (k & Hk & Hr); [lia|].
    destruct (memset_top f _ _ _ _) as [[m' edi'] ecx']. destruct Hr as (E & -> & -> & Hd).
    exists (1 + k). split; [lia|]. split; [|split; [lia|split; [lia|]]].
    + rewrite E, fill_ref_app, fill_ref_one by lia. done.
    + replace (ecx - (1 + k)) with (ecx - 1 - k) by lia.
      replace (edi + (1 + k)) with (edi + 1 + k) by lia. done.
Qed.

(** A word of four equal bytes is four bytes. *)
Lemma store32_splat m a eax c :
  (forall k, 0 <= k < 4 -> u8 (eax / 256 ^ k) = u8 c) -> store32 m a eax ≡ fill_ref m a c 4.
Proof.
  intros H.
  change (fill_ref m a c 4)
    with (store8 (store8 (store8 (store8 m (a + 0) c) (a + 1) c) (a + 2) c) (a + 3) c).
  unfold store32.
  rewrite (store8_u8 m a eax c), (store8_u8 _ _ (eax / 256) c),
    (store8_u8 _ _ (eax / 65536) c), (store8_u8 _ _ (eax / 16777216) c).
  - now rewrite Z.add_0_r.
  - apply (H 3). lia.
  - apply (H 2). lia.
  - apply (H 1). lia.
  - rewrite <- (H 0) by lia. now rewrite Z.div_1_r.
Qed.

Lemma rep_stosl_spec k : forall m eax edi c,
  (forall j, 0 <= j < 4 -> u8 (eax / 256 ^ j) = u8 c) ->
  (rep_stosl k m eax edi).1 ≡ fill_ref m edi c (4 * Z.of_nat k) /\
  (rep_stosl k m eax edi).2 = edi + 4 * Z.of_nat k.
Proof.
  induction k as [|k IH]; intros m eax edi c H; cbn [rep_stosl fst snd].
  - split; [done|lia].
  - destruct (IH (store32 m edi eax) eax (edi + 4) c H) as [E ->]. split; [|lia].
    rewrite E, (store32_splat m edi eax c H).
    replace (4 * Z.of_nat (S k)) with (4 + 4 * Z.of_nat k) by lia.
    rewrite fill_ref_app by lia. done.
Qed.

Lemma memset_bottom_spec k : forall m al edi,
  memset_bottom k m al edi ≡ fill_ref m edi al (Z.of_nat k).
Proof.
  induction k as [|k IH]; intros m al edi; cbn [memset_bottom]; [done|].
  rewrite IH. replace (Z.of_nat (S k)) with (1 + Z.of_nat k) by lia.
  rewrite fill_ref_app, fill_ref_one by lia. done.
Qed.

Definition splat (c : Z) : Z :=
  Z.lor (Z.lor (Z.lor (Z.shiftl c 24) (Z.shiftl c 16)) (Z.shiftl c 8)) c.

Lemma splat_sum c : 0 <= c < 256 -> splat c = c * 16777216 + c * 65536 + c * 256 + c.
Proof.
  intros Hc. unfold splat.
  rewrite <- !Z.lor_assoc.
  rewrite (lor_shiftl_add c c 8), (lor_shiftl_add c _ 16), (lor_shiftl_add c _ 24)
    by (cbn; lia). cbn. lia.
Qed.

Lemma splat_bytes c j : 0 <= c < 256 -> 0 <= j < 4 -> u8 (splat c / 256 ^ j) = u8 c.
Proof.
  intros Hc Hj. rewrite splat_sum by done. unfold u8.
  assert (j = 0 \/ j = 1 \/ j = 2 \/ j = 3) as [->|[->|[->| ->]]] by lia; cbn; zdm.
Qed.

(** The word-wise memset writes the low byte of its argument to the [n]
    bytes from [s] on, exactly as a byte-wise loop does, for every alignment
    of the destination. *)
Theorem memset_correct m s c n :
  0 <= n -> memset m s c n ≡ fill_ref m s (u8 c) n.
Proof.
  intros Hn. unfold memset.
  assert (Ec : Z.land c 255 = u8 c) by (change 255 with (Z.ones 8); now rewrite Z.land_ones).
  rewrite Ec. change (Z.lor _ (u8 c)) with (splat (u8 c)).
  pose proof (u8_range c) as Rc. set (c8 := u8 c) in *. clearbody c8. clear c Ec.
  destruct (memset_top_spec (Z.to_nat n) m (splat c8) s n) as (k & Hk & Hr); [lia|].
  destruct (memset_top _ _ _ _ _) as [[m1 edi] ecx]. destruct Hr as (E & -> & -> & _).
  assert (F : forall m' a j, fill_ref m' a (splat c8) j = fill_ref m' a c8 j).
  { intros m' a j. apply fill_ref_u8.
    rewrite <- (Z.div_1_r (splat c8)). now apply (splat_bytes c8 0). }
  rewrite F in E.
  destruct (Z.eqb_spec (n - k) 0) as [Hz|Hz].
  { rewrite E. now replace k with n by lia. }
  change 3 with (Z.ones 2). rewrite Z.land_ones, Z.shiftr_div_pow2 by lia. cbn [Z.pow].
  set (q := (n - k) / 2 ^ 2). set (r := (n - k) mod 2 ^ 2).
  assert (Hqr : n - k = 4 * q + r /\ 0 <= r < 4 /\ 0 <= q) by (subst q r; cbn; zdm).
  destruct (rep_stosl_spec (Z.to_nat q) m1 (splat c8) (s + k) c8) as [E2 Ee].
  { intros j Hj. now apply splat_bytes. }
  destruct (rep_stosl _ _ _ _) as [m2 edi2]. cbn [fst snd] in *. subst edi2.
  rewrite memset_bottom_spec, F, E2, E.
  rewrite !Z2Nat.id by lia.
  replace n with (k + (4 * q + r)) by lia.
  rewrite (fill_ref_app m s c8 k (4 * q + r)), (fill_ref_app _ (s + k) c8 (4 * q) r) by lia.
  done.
Qed.

Lemma memset_correct_witness :
  0 <= 9 /\ memset (Mem ∅ ∅ 0) 1003 0x141 9 ≡ fill_ref (Mem ∅ ∅ 0) 1003 0x41 9.
Proof. split; [lia|]. apply (memset_correct (Mem ∅ ∅ 0) 1003 0x141 9). lia. Defined.

(** ** memcpy *)

(** [m'] is [m] with the [n] bytes at [src] copied to [dest]. *)
Definition copied (m m' : mem) (dest src n : Z) : Prop :=
  unchanged (in_range dest n) m m' /\
  forall i, 0 <= i < n -> load8 m' (dest + i) = load8 m (src + i).

Lemma copied_nil m dest src : copied m m dest src 0.
Proof. split; [apply unchanged_refl|]. intros; lia. Qed.

Lemma copied_app m m1 m2 dest src a b :
  0 <= a -> 0 <= b -> disj dest (a + b) src (a + b) ->
  copied m m1 dest src a -> copied m1 m2 (dest + a) (src + a) b ->
  copied m m2 dest src (a + b).
Proof.
  intros Ha Hb Hd [U1 C1] [U2 C2]. split.
  - eapply unchanged_trans; (eapply unchanged_weaken; [|eassumption]); unfold in_range; intros; lia.
  - intros i Hi. destruct (Z.lt_ge_cases i a) as [Hia|Hia].
    + rewrite (unchanged_load8 _ _ _ _ U2) by (unfold in_range; lia). apply C1. lia.
    + replace (dest + i) with (dest + a + (i - a)) by lia. rewrite C2 by lia.
      replace (src + a + (i - a)) with (src + i) by lia.
      apply (unchanged_load8 _ _ _ _ U1). unfold in_range, disj in *. lia.
Qed.

Lemma copied_byte m dest src : copied m (store8 m dest (load8 m src)) dest src 1.
Proof.
  split; [apply unchanged_store8; unfold in_range; lia|].
  intros i Hi. replace i with 0 by lia. rewrite !Z.add_0_r, load8_store8_eq.
  apply u8_small, load8_range.
Qed.

Lemma load32_byte m a i : 0 <= i < 4 -> u8 (load32 m a / 256 ^ i) = load8 m (a + i).
Proof.
  intros Hi. unfold load32, u8.
  pose proof (load8_range m a). pose proof (load8_range m (a + 1)).
  pose proof (load8_range m (a + 2)). pose proof (load8_range m (a + 3)).
  assert (i = 0 \/ i = 1 \/ i = 2 \/ i = 3) as [->|[->|[->| ->]]] by lia; cbn;
    rewrite ?Z.add_0_r; zdm.
Qed.

Lemma copied_dword m dest src : copied m (store32 m dest (load32 m src)) dest src 4.
Proof.
  split; [apply unchanged_store32; done|].
  intros i Hi. rewrite load8_store32. zdecide.
  replace (dest + i - dest) with i by lia. now apply load32_byte.
Qed.

Lemma memcpy_top_spec fuel : forall m edi esi ecx,
  0 <= ecx <= Z.of_nat fuel -> disj edi ecx esi ecx ->
  exists m' k, 0 <= k <= ecx /\ memcpy_top fuel m edi esi ecx = (m', edi + k, esi + k, ecx - k) /\
    copied m m' edi esi k.
Proof.
  induction fuel as [|f IH]; intros m edi esi ecx H Hd; cbn [memcpy_top].
  - exists m, 0. rewrite !Z.add_0_r, Z.sub_0_r. auto using copied_nil with lia.
  - destruct (Z.eqb_spec ecx 0) as [->|];
      [exists m, 0; rewrite !Z.add_0_r, Z.sub_0_r; auto using copied_nil with lia|].
    destruct (Z.eqb_spec (Z.land edi 3) 0);
      [exists m, 0; rewrite !Z.add_0_r, Z.sub_0_r; auto using copied_nil with lia|].
    destruct (IH (store8 m edi (load8 m esi)) (edi + 1) (esi + 1) (ecx - 1))
      as (m' & k & Hk & -> & HC); [lia|unfold disj in *; lia|].
    exists m', (1 + k). split; [lia|].
    rewrite !Z.add_assoc, Z.sub_add_distr. split; [done|].
    eapply copied_app; [lia|lia|unfold disj in *; lia|apply copied_byte|exact HC].
Qed.

Lemma rep_movsl_spec k : forall m edi esi,
  disj edi (4 * Z.of_nat k) esi (4 * Z.of_nat k) ->
  exists m', rep_movsl k m edi esi = (m', edi + 4 * Z.of_nat k, esi + 4 * Z.of_nat k) /\
    copied m m' edi esi (4 * Z.of_nat k).
Proof.
  induction k as [|k IH]; intros m edi esi Hd; cbn [rep_movsl].
  - exists m. change (4 * Z.of_nat 0) with 0. rewrite !Z.add_0_r. auto using copied_nil.
  - destruct (IH (store32 m edi (load32 m esi)) (edi + 4) (esi + 4)) as (m' & -> & HC);
      [unfold disj in *; lia|].
    exists m'. replace (4 * Z.of_nat (S k)) with (4 + 4 * Z.of_nat k) by lia.
    rewrite !Z.add_assoc. split; [done|].
    eapply copied_app; [lia|lia|unfold disj in *; lia|apply copied_dword|exact HC].
Qed.

Lemma memcpy_bottom_spec k : forall m edi esi,
  disj edi (Z.of_nat k) esi (Z.of_nat k) ->
  copied m (memcpy_bottom k m edi esi) edi esi (Z.of_nat k).
Proof.
  induction k as [|k IH]; intros m edi esi Hd; cbn [memcpy_bottom]; [apply copied_nil|].
  replace (Z.of_nat (S k)) with (1 + Z.of_nat k) by lia.
  eapply copied_app; [lia|lia|unfold disj in *; lia|apply copied_byte|].
  apply IH. unfold disj in *; lia.
Qed.

(** C35 memcpy copies [n] bytes between ranges that do not overlap, for every
    alignment, and changes no byte outside the destination. *)
Theorem memcpy_correct m dest src n :
  0 <= n -> disj dest n src n -> copied m (memcpy m dest src n) dest src n.
Proof.
  intros Hn Hd. unfold memcpy.
  destruct (memcpy_top_spec (Z.to_nat n) m dest src n) as (m1 & k & Hk & -> & C1); [lia|done|].
  destruct (Z.eqb_spec (n - k) 0) as [Hz|Hz]; [now replace n with k by lia|].
  change 3 with (Z.ones 2). rewrite Z.land_ones, Z.shiftr_div_pow2 by lia.
  set (q := (n - k) / 2 ^ 2). set (r := (n - k) mod 2 ^ 2).
  assert (Hqr : n - k = 4 * q + r /\ 0 <= r < 4 /\ 0 <= q) by (subst q r; cbn; zdm).
  destruct (rep_movsl_spec (Z.to_nat q) m1 (dest + k) (src + k)) as (m2 & -> & C2);
    [unfold disj in *; lia|].
  rewrite Z2Nat.id in * by lia.
  replace n with (k + (4 * q + r)) by lia.
  eapply copied_app; [lia|lia|unfold disj in *; lia|exact C1|].
  eapply copied_app; [lia|lia|unfold disj in *; lia|exact C2|].
  rewrite <- (Z2Nat.id r) at 2 by lia. apply memcpy_bottom_spec. unfold disj in *; lia.
Qed.

Lemma memcpy_correct_witness :
  0 <= 7 /\ disj 1001 7 2000 7 /\
  copied (store32 (Mem ∅ ∅ 0) 2000 0x64636261) 
         (memcpy (store32 (Mem ∅ ∅ 0) 2000 0x64636261) 1001 2000 7) 1001 2000 7.
Proof.
  split; [lia|]. split; [unfold disj; lia|].
  apply (memcpy_correct (store32 (Mem ∅ ∅ 0) 2000 0x64636261) 1001 2000 7);
    [lia|unfold disj; lia].
Defined.

(** ** memmove *)

Lemma rep_movsb_up k : forall m edi esi, edi <= esi ->
  copied m (rep_movsb k m edi esi false) edi esi (Z.of_nat k).
Proof.
  induction k as [|k IH]; intros m edi esi H; cbn [rep_movsb]; [apply copied_nil|].
  destruct (IH (store8 m edi (load8 m esi)) (edi + 1) (esi + 1)) as [U C]; [lia|]. split.
  - apply (unchanged_trans _ _ (store8 m edi (load8 m esi))).
    + apply unchanged_store8. unfold in_range. lia.
    + eapply unchanged_weaken; [|exact U]. unfold in_range; intros; lia.
  - intros i Hi. destruct (decide (i = 0)) as [->|].
    + rewrite (unchanged_load8 _ _ _ _ U) by (unfold in_range; lia).
      rewrite !Z.add_0_r, load8_store8_eq. apply u8_small, load8_range.
    + replace (edi + i) with (edi + 1 + (i - 1)) by lia. rewrite C by lia.
      rewrite load8_store8_ne by lia. f_equal. lia.
Qed.

Lemma rep_movsb_down k : forall m edi esi, esi < edi ->
  let m' := rep_movsb k m edi esi true in
  unchanged (fun a => edi - Z.of_nat k < a <= edi) m m' /\
  forall i, 0 <= i < Z.of_nat k -> load8 m' (edi - i) = load8 m (esi - i).
Proof.
  induction k as [|k IH]; intros m edi esi H; cbn [rep_movsb].
  - split; [apply unchanged_refl|]. intros; lia.
  - destruct (IH (store8 m edi (load8 m esi)) (edi + -1) (esi + -1)) as [U C]; [lia|]. split.
    + apply (unchanged_trans _ _ (store8 m edi (load8 m esi))).
      * apply unchanged_store8. lia.
      * eapply unchanged_weaken; [|exact U]. cbn; intros; lia.
    + intros i Hi. destruct (decide (i = 0)) as [->|].
      * rewrite (unchanged_load8 _ _ _ _ U) by lia.
        rewrite !Z.sub_0_r, load8_store8_eq. apply u8_small, load8_range.
      * replace (edi - i) with (edi + -1 - (i - 1)) by lia. rewrite C by lia.
        rewrite load8_store8_ne by lia. f_equal. lia.
Qed.

(** C36 memmove copies [n] bytes correctly for every overlap of source and
    destination, and changes nothing outside the destination; it returns with
    the direction flag set exactly when it copied downwards (nothing clears
    the flag after [std]). *)
Theorem memmove_correct m dest src n :
  0 <= n ->
  copied m (memmove m dest src n).1 dest src n /\
  (memmove m dest src n).2 = (src <? dest).
Proof.
  intros Hn. unfold memmove. destruct (Z.leb_spec dest src) as [H|H]; cbn [fst snd].
  - split; [|symmetry; apply Z.ltb_ge; lia].
    rewrite <- (Z2Nat.id n) at 2 by lia. now apply rep_movsb_up.
  - split; [|symmetry; apply Z.ltb_lt; lia].
    destruct (rep_movsb_down (Z.to_nat n) m (dest + n - 1) (src + n - 1)) as [U C]; [lia|].
    rewrite Z2Nat.id in * by lia. split.
    + eapply unchanged_weaken; [|exact U]. unfold in_range. cbn. intros; lia.
    + intros i Hi. replace (dest + i) with (dest + n - 1 - (n - 1 - i)) by lia.
      rewrite C by lia. f_equal. lia.
Qed.

Lemma memmove_correct_witness :
  0 <= 6 /\
  copied (store32 (Mem ∅ ∅ 0) 2000 0x64636261)
    (memmove (store32 (Mem ∅ ∅ 0) 2000 0x64636261) 2002 2000 6).1 2002 2000 6.
Proof.
  split; [lia|].
  destruct (memmove_correct (store32 (Mem ∅ ∅ 0) 2000 0x64636261) 2002 2000 6) as [Hw _]; [lia|].
  exact Hw.
Defined.
