(* ===== verification/State.v ===== *)
(** * The state of the kernel

    The global variables of the kernel, one record per C file that declares
    them, and the processor state the C code changes.  Arrays and structures
    that pointers reach live in the memory of Mem.v, at the addresses the
    linker chose ([Layout]); scalars that only their own file reads are record
    fields.

    Port input is an interface ([Ports]): the byte a port delivers is a
    function of the I/O performed so far, so a theorem about every instance
    covers every device behind the ports. *)

From S2P Require Import Prelude Mem CString.

(** One access to an I/O port, as [outb], [outw] and [inb] of lib.h perform it. *)
Inductive io_event :=
| OutB (data port : Z)
| OutW (data port : Z)
| InB (port value : Z).

Class Ports := port_in : list io_event -> Z -> Z.

(** lib.c: the cursor *)
Record console := mkConsole {
  screen_x : Z;
  screen_y : Z
}.

(** i8259.c: the interrupt masks written last *)
Record pic := mkPic {
  master_mask : Z;
  slave_mask : Z
}.

(** key_driver.h: [key_buf] itself is in memory *)
Record keyboard := mkKeyboard {
  key_buf_index : Z;
  enter_flag : Z;
  dict : Z;
  ctrl_mode : Z;
  caps_mode : Z;
  shift_mode : Z;
  mode_flag : Z
}.

(** filesys.c: [filesys_ptr] and the boot block *)
Record filesys := mkFilesys {
  filesys_ptr : Z;
  n_dir_entries : Z;
  bblock_N : Z;
  bblock_D : Z;
  bblock_reserved : Z
}.

(** the interrupt flag, the TSS stack pointer, the control registers *)
Record cpu := mkCpu {
  if_flag : bool;
  tss_esp0 : Z;
  cr0 : Z;
  cr3 : Z;
  cr4 : Z
}.

(** The whole kernel.  [k_io] is the I/O performed so far, newest first. *)
Record kst := mkKst {
  k_mem : mem;
  k_con : console;
  k_pic : pic;
  rtc_interrupt : Z;
  k_kbd : keyboard;
  k_fs : filesys;
  cur_pcb : Z;
  process_number : Z;
  k_cpu : cpu;
  k_io : list io_event
}.

(** ** Field updates *)

Definition set_k_mem (v : mem) (r : kst) : kst :=
  mkKst v (k_con r) (k_pic r) (rtc_interrupt r) (k_kbd r) (k_fs r) (cur_pcb r) (process_number r) (k_cpu r) (k_io r).
Definition set_k_con (v : console) (r : kst) : kst :=
  mkKst (k_mem r) v (k_pic r) (rtc_interrupt r) (k_kbd r) (k_fs r) (cur_pcb r) (process_number r) (k_cpu r) (k_io r).
Definition set_k_pic (v : pic) (r : kst) : kst :=
  mkKst (k_mem r) (k_con r) v (rtc_interrupt r) (k_kbd r) (k_fs r) (cur_pcb r) (process_number r) (k_cpu r) (k_io r).
Definition set_rtc_interrupt (v : Z) (r : kst) : kst :=
  mkKst (k_mem r) (k_con r) (k_pic r) v (k_kbd r) (k_fs r) (cur_pcb r) (process_number r) (k_cpu r) (k_io r).
Definition set_k_kbd (v : keyboard) (r : kst) : kst :=
  mkKst (k_mem r) (k_con r) (k_pic r) (rtc_interrupt r) v (k_fs r) (cur_pcb r) (process_number r) (k_cpu r) (k_io r).
Definition set_k_fs (v : filesys) (r : kst) : kst :=
  mkKst (k_mem r) (k_con r) (k_pic r) (rtc_interrupt r) (k_kbd r) v (cur_pcb r) (process_number r) (k_cpu r) (k_io r).
Definition set_cur_pcb (v : Z) (r : kst) : kst :=
  mkKst (k_mem r) (k_con r) (k_pic r) (rtc_interrupt r) (k_kbd r) (k_fs r) v (process_number r) (k_cpu r) (k_io r).
Definition set_process_number (v : Z) (r : kst) : kst :=
  mkKst (k_mem r) (k_con r) (k_pic r) (rtc_interrupt r) (k_kbd r) (k_fs r) (cur_pcb r) v (k_cpu r) (k_io r).
Definition set_k_cpu (v : cpu) (r : kst) : kst :=
  mkKst (k_mem r) (k_con r) (k_pic r) (rtc_interrupt r) (k_kbd r) (k_fs r) (cur_pcb r) (process_number r) v (k_io r).
Definition set_k_io (v : list io_event) (r : kst) : kst :=
  mkKst (k_mem r) (k_con r) (k_pic r) (rtc_interrupt r) (k_kbd r) (k_fs r) (cur_pcb r) (process_number r) (k_cpu r) v.

Definition set_screen_x (v : Z) (r : console) : console :=
  mkConsole v (screen_y r).
Definition set_screen_y (v : Z) (r : console) : console :=
  mkConsole (screen_x r) v.

Definition set_master_mask (v : Z) (r : pic) : pic :=
  mkPic v (slave_mask r).
Definition set_slave_mask (v : Z) (r : pic) : pic :=
  mkPic (master_mask r) v.

Definition set_key_buf_index (v : Z) (r : keyboard) : keyboard :=
  mkKeyboard v (enter_flag r) (dict r) (ctrl_mode r) (caps_mode r) (shift_mode r) (mode_flag r).
Definition set_enter_flag (v : Z) (r : keyboard) : keyboard :=
  mkKeyboard (key_buf_index r) v (dict r) (ctrl_mode r) (caps_mode r) (shift_mode r) (mode_flag r).
Definition set_dict (v : Z) (r : keyboard) : keyboard :=
  mkKeyboard (key_buf_index r) (enter_flag r) v (ctrl_mode r) (caps_mode r) (shift_mode r) (mode_flag r).
Definition set_ctrl_mode (v : Z) (r : keyboard) : keyboard :=
  mkKeyboard (key_buf_index r) (enter_flag r) (dict r) v (caps_mode r) (shift_mode r) (mode_flag r).
Definition set_caps_mode (v : Z) (r : keyboard) : keyboard :=
  mkKeyboard (key_buf_index r) (enter_flag r) (dict r) (ctrl_mode r) v (shift_mode r) (mode_flag r).
Definition set_shift_mode (v : Z) (r : keyboard) : keyboard :=
  mkKeyboard (key_buf_index r) (enter_flag r) (dict r) (ctrl_mode r) (caps_mode r) v (mode_flag r).
Definition set_mode_flag (v : Z) (r : keyboard) : keyboard :=
  mkKeyboard (key_buf_index r) (enter_flag r) (dict r) (ctrl_mode r) (caps_mode r) (shift_mode r) v.

Definition set_filesys_ptr (v : Z) (r : filesys) : filesys :=
  mkFilesys v (n_dir_entries r) (bblock_N r) (bblock_D r) (bblock_reserved r).
Definition set_n_dir_entries (v : Z) (r : filesys) : filesys :=
  mkFilesys (filesys_ptr r) v (bblock_N r) (bblock_D r) (bblock_reserved r).
Definition set_bblock_N (v : Z) (r : filesys) : filesys :=
  mkFilesys (filesys_ptr r) (n_dir_entries r) v (bblock_D r) (bblock_reserved r).
Definition set_bblock_D (v : Z) (r : filesys) : filesys :=
  mkFilesys (filesys_ptr r) (n_dir_entries r) (bblock_N r) v (bblock_reserved r).
Definition set_bblock_reserved (v : Z) (r : filesys) : filesys :=
  mkFilesys (filesys_ptr r) (n_dir_entries r) (bblock_N r) (bblock_D r) v.

Definition set_if_flag (v : bool) (r : cpu) : cpu :=
  mkCpu v (tss_esp0 r) (cr0 r) (cr3 r) (cr4 r).
Definition set_tss_esp0 (v : Z) (r : cpu) : cpu :=
  mkCpu (if_flag r) v (cr0 r) (cr3 r) (cr4 r).
Definition set_cr0 (v : Z) (r : cpu) : cpu :=
  mkCpu (if_flag r) (tss_esp0 r) v (cr3 r) (cr4 r).
Definition set_cr3 (v : Z) (r : cpu) : cpu :=
  mkCpu (if_flag r) (tss_esp0 r) (cr0 r) v (cr4 r).
Definition set_cr4 (v : Z) (r : cpu) : cpu :=
  mkCpu (if_flag r) (tss_esp0 r) (cr0 r) (cr3 r) v.

(** Updates of a component inside the kernel state. *)
Definition upd_mem (f : mem -> mem) (s : kst) : kst := set_k_mem (f (k_mem s)) s.
Definition upd_con (f : console -> console) (s : kst) : kst := set_k_con (f (k_con s)) s.
Definition upd_pic (f : pic -> pic) (s : kst) : kst := set_k_pic (f (k_pic s)) s.
Definition upd_kbd (f : keyboard -> keyboard) (s : kst) : kst := set_k_kbd (f (k_kbd s)) s.
Definition upd_cpu (f : cpu -> cpu) (s : kst) : kst := set_k_cpu (f (k_cpu s)) s.

(** ** Port and interrupt primitives of lib.h *)

Definition log_io (e : io_event) (s : kst) : kst := set_k_io (e :: k_io s) s.
Definition outb (data port : Z) (s : kst) : kst := log_io (OutB (u8 data) port) s.
Definition outw (data port : Z) (s : kst) : kst := log_io (OutW (u16 data) port) s.
Definition inb `{Ports} (port : Z) (s : kst) : Z * kst :=
  let v := u8 (port_in (k_io s) port) in (v, log_io (InB port v) s).
Definition cli (s : kst) : kst := upd_cpu (set_if_flag false) s.
Definition sti (s : kst) : kst := upd_cpu (set_if_flag true) s.

(** ** Addresses of the kernel's global objects *)

Class Layout := {
  filename_buf : Z;        (* filesys.c: int8_t filename_buf[32] *)
  open_dentry : Z;         (* filesys.c: dentry_t open_dentry *)
  read_dentry : Z;         (* filesys.c: dentry_t read_dentry *)
  key_buf : Z;             (* key_driver.h: char key_buf[128] *)
  page_directory : Z;      (* paging_c.c: the page directory and tables *)
  page_table_0 : Z;
  page_table_1 : Z;
  rtc_table : Z;           (* sys_calls.h: the four fd_ops_t tables *)
  dir_table : Z;
  file_table : Z;
  terminal_table : Z
}.

(** A region of memory: its address and size. *)
Definition region : Type := Z * Z.
Definition in_region (r : region) (a : Z) : Prop := in_range r.1 r.2 a.
Definition rdisj (r r' : region) : Prop := disj r.1 r.2 r'.1 r'.2.

(** An address lies in one of the regions. *)
Definition in_regions (rs : list region) (a : Z) : Prop := Exists (fun r => in_region r a) rs.

Lemma in_regions_app rs rs' a : in_regions (rs ++ rs') a <-> in_regions rs a \/ in_regions rs' a.
Proof. apply Exists_app. Qed.

(** Memory operations of a state step leave the other components alone. *)
Lemma upd_mem_mem f s : k_mem (upd_mem f s) = f (k_mem s).
Proof. reflexivity. Qed.

(** A layout for concrete runs. *)
Definition test_layout : Layout := {|
  filename_buf := 0x3000; open_dentry := 0x3100; read_dentry := 0x3200; key_buf := 0x3300;
  page_directory := 0x10000; page_table_0 := 0x11000; page_table_1 := 0x12000;
  rtc_table := 0x3400; dir_table := 0x3410; file_table := 0x3420; terminal_table := 0x3430 |}.
