(* ===== verification/Console.v ===== *)
(** * The console of lib.c

    The cursor ([screen_x], [screen_y]), the video memory at 0xB8000 and the
    operations that print on it: [clear], [set_screen], [set_cursor_pos],
    [vertical_scroll], [putc_terminal], [deletec_terminal], [putc] and [puts]
    of src/student-distrib/lib.c.  The theorems relate the byte-level updates
    to a screen of 25 rows of 80 characters. *)

From S2P Require Import Prelude Mem CString State.

Definition VIDEO : Z := 0xB8000.
Definition NUM_COLS : Z := 80.
Definition NUM_ROWS : Z := 25.
Definition ATTRIB : Z := 8.
Definition tab_size : Z := 3.

(** ** Operations *)

Definition clear_cell (i : Z) (m : mem) : mem :=
  store8 (store8 m (VIDEO + Z.shiftl i 1) 32) (VIDEO + Z.shiftl i 1 + 1) ATTRIB.

Definition clear (s : kst) : kst :=
  upd_mem (for_range 0 (NUM_ROWS * NUM_COLS) clear_cell) s.

Definition set_cursor_pos (s : kst) : kst :=
  let position := u16 (NUM_COLS * screen_y (k_con s) + screen_x (k_con s)) in
  let s := outw (Z.lor 0x000E (Z.land position 0xFF00)) 0x03D4 s in
  outw (Z.lor 0x000F (Z.land (Z.shiftl position 8) 0xFF00)) 0x03D4 s.

Definition set_screen (x y : Z) (s : kst) : kst :=
  set_cursor_pos (upd_con (fun c => set_screen_y y (set_screen_x x c)) s).

Definition scroll_cell (y x : Z) (m : mem) : mem :=
  let old := NUM_COLS * (y + 1) + x in
  let new1 := NUM_COLS * y + x in
  store8 m (VIDEO + Z.shiftl new1 1) (load8 m (VIDEO + Z.shiftl old 1)).

(** The two loops of [vertical_scroll]: rows move up, the bottom row is blanked. *)
Definition scroll_rows : mem -> mem :=
  for_range 0 (NUM_ROWS - 1) (fun y => for_range 0 NUM_COLS (scroll_cell y)).

Definition blank_bottom : mem -> mem :=
  for_range 0 NUM_COLS (fun x m =>
    let bottom := NUM_COLS * (NUM_ROWS - 1) + x in
    store8 m (VIDEO + Z.shiftl bottom 1) 32).

Definition vertical_scroll (s : kst) : kst :=
  set_screen 0 (NUM_ROWS - 1) (upd_mem blank_bottom (upd_mem scroll_rows s)).

(** Stores a character and its attribute under the cursor. *)
Definition put_cell (c : Z) (s : kst) : kst :=
  let at_ := VIDEO + Z.shiftl (NUM_COLS * screen_y (k_con s) + screen_x (k_con s)) 1 in
  upd_mem (fun m => store8 (store8 m at_ c) (at_ + 1) ATTRIB) s.

(** [screen_x++; screen_y = (screen_y + screen_x / 80) % 25; screen_x %= 80;] *)
Definition advance (c : console) : console :=
  let x := screen_x c + 1 in
  mkConsole (Z.rem x NUM_COLS) (Z.rem (screen_y c + Z.quot x NUM_COLS) NUM_ROWS).

Definition putc_terminal (c : Z) (s : kst) : kst :=
  let s :=
    if c =? 9 then upd_con (fun k => set_screen_x (screen_x k + tab_size) k) s
    else if (c =? 10) || (c =? 13) then
      let s := upd_con (fun k => mkConsole 0 (screen_y k + 1)) s in
      if NUM_ROWS - 1 <=? screen_y (k_con s) then vertical_scroll s else s
    else
      let s := put_cell c s in
      if (NUM_ROWS - 1 <=? screen_y (k_con s)) && (NUM_COLS - 1 <=? screen_x (k_con s))
      then vertical_scroll s
      else upd_con advance s in
  set_cursor_pos s.

Definition delete_cell (s : kst) : kst :=
  let x := screen_x (k_con s) in
  let y := screen_y (k_con s) in
  if 0 <? x then
    let s := upd_mem (fun m => store8 m (VIDEO + Z.shiftl (NUM_COLS * y + x - 1) 1) 32) s in
    set_screen (x - 1) y s
  else if x =? 0 then
    let s := upd_mem (fun m =>
               store8 m (VIDEO + Z.shiftl (NUM_COLS * (y - 1) + NUM_COLS - 1) 1) 32) s in
    set_screen (NUM_COLS - 1) (y - 1) s
  else s.

Definition deletec_terminal (c : Z) (s : kst) : kst :=
  let n := if c =? 9 then tab_size else 1 in
  for_range 0 n (fun _ => delete_cell) s.

Definition putc (c : Z) (s : kst) : kst :=
  let s :=
    if (c =? 10) || (c =? 13) then upd_con (fun k => mkConsole 0 (screen_y k + 1)) s
    else upd_con advance (put_cell c s) in
  set_cursor_pos s.

(** [while (s[index] != '\0') { putc(s[index]); index++; }], with the count. *)
Fixpoint puts_loop (fuel : nat) (p index : Z) (s : kst) : Z * kst :=
  match fuel with
  | O => (index, s)
  | S f =>
      let c := load8 (k_mem s) (p + index) in
      if c =? 0 then (index, s) else puts_loop f p (index + 1) (putc c s)
  end.

Definition puts (p : Z) (s : kst) : Z * kst := puts_loop (S (mem_size (k_mem s))) p 0 s.

(** [video_mem[i << 1]++] over the whole screen. *)
Definition test_interrupts (s : kst) : kst :=
  upd_mem (for_range 0 (NUM_ROWS * NUM_COLS) (fun i m =>
    store8 m (VIDEO + Z.shiftl i 1) (load8 m (VIDEO + Z.shiftl i 1) + 1))) s.

(** ** The screen as rows and columns *)

(** The character and the attribute shown at a row and column. *)
Definition cell (m : mem) (y x : Z) : Z := load8 m (VIDEO + 2 * (NUM_COLS * y + x)).
Definition attr (m : mem) (y x : Z) : Z := load8 m (VIDEO + 2 * (NUM_COLS * y + x) + 1).

(** The cursor is on the screen. *)
Definition on_screen (c : console) : Prop :=
  0 <= screen_x c < NUM_COLS /\ 0 <= screen_y c < NUM_ROWS.

#[export] Instance on_screen_dec c : Decision (on_screen c).
Proof. unfold on_screen. apply _. Defined.

(** The bytes of the 25 by 80 screen. *)
Definition screen_bytes : Z -> Prop := in_range VIDEO (2 * NUM_ROWS * NUM_COLS).

Lemma shiftl_1 x : Z.shiftl x 1 = 2 * x.
Proof. rewrite Z.shiftl_mul_pow2 by lia. lia. Qed.
#[export] Hint Rewrite shiftl_1 : cint.

Ltac screen_lia := unfold screen_bytes, in_range, NUM_ROWS, NUM_COLS, VIDEO in *; lia.

(** ** Scrolling *)

(** [m'] is [m] with the cells chosen by [P] replaced by [f] of their place;
    attributes and everything outside the screen are as in [m]. *)
Definition cells_set (P : Z -> Z -> Prop) (f : Z -> Z -> Z) (m m' : mem) : Prop :=
  unchanged screen_bytes m m' /\
  (forall y x, 0 <= x < NUM_COLS -> P y x -> cell m' y x = f y x) /\
  (forall y x, 0 <= x < NUM_COLS -> ~ P y x -> cell m' y x = cell m y x) /\
  (forall y x, attr m' y x = attr m y x).

Lemma cells_set_none P f m : (forall y x, ~ P y x) -> cells_set P f m m.
Proof.
  intros H. split; [apply unchanged_refl|]. split; [|done]. intros y x _ Hp. by apply H in Hp.
Qed.

(** One more cell. *)
Lemma cells_set_store (P Q : Z -> Z -> Prop) f m m' y x v :
  cells_set P f m m' -> 0 <= x < NUM_COLS -> 0 <= y < NUM_ROWS -> 0 <= v < 256 -> v = f y x ->
  (forall y' x', Q y' x' <-> P y' x' \/ (y' = y /\ x' = x)) ->
  cells_set Q f m (store8 m' (VIDEO + 2 * (NUM_COLS * y + x)) v).
Proof.
  unfold cells_set, cell, attr. intros (U & D & O & A) Hx Hy Hv Ef HQ. split; [|split; [|split]].
  - eapply unchanged_trans; [exact U|]. apply unchanged_store8. screen_lia.
  - intros y' x' Hx' HQ'. rewrite load8_store8.
    destruct (Z.eqb_spec (VIDEO + 2 * (NUM_COLS * y + x)) (VIDEO + 2 * (NUM_COLS * y' + x')))
      as [E|E].
    + assert (y' = y /\ x' = x) as [-> ->] by screen_lia. rewrite u8_small by done. done.
    + apply D; [done|]. apply HQ in HQ' as [?|[-> ->]]; done.
  - intros y' x' Hx' HQ'. rewrite HQ in HQ'.
    rewrite load8_store8_ne; [apply O; [done|]; tauto|].
    intros E. apply HQ'. right. screen_lia.
  - intros y' x'. rewrite load8_store8_ne by lia. apply A.
Qed.

Lemma scroll_row_spec y m :
  0 <= y < NUM_ROWS - 1 ->
  cells_set (fun y' _ => y' = y) (fun y' x => cell m (y' + 1) x) m
            (for_range 0 NUM_COLS (scroll_cell y) m).
Proof.
  intros Hy.
  assert (H : cells_set (fun y' x => y' = y /\ 0 <= x < NUM_COLS) (fun y' x => cell m (y' + 1) x) m
                (for_range 0 NUM_COLS (scroll_cell y) m)).
  { apply (for_range_ind (fun k m' => cells_set (fun y' x => y' = y /\ 0 <= x < k)
        (fun y' x => cell m (y' + 1) x) m m')); [screen_lia| |].
    - apply cells_set_none. lia.
    - intros j m1 Hj H. unfold scroll_cell. rewrite !shiftl_1.
      apply (cells_set_store (fun y' x => y' = y /\ 0 <= x < j)); [done|lia|screen_lia| | |].
      + apply load8_range.
      + destruct H as (_ & _ & O & _). apply O; [lia|]. lia.
      + lia. }
  destruct H as (U & D & O & A). split; [done|]. split; [|split; [|done]].
  - intros. by apply D.
  - intros. apply O; [done|]. lia.
Qed.

Lemma scroll_rows_spec m :
  cells_set (fun y _ => 0 <= y < NUM_ROWS - 1) (fun y x => cell m (y + 1) x) m (scroll_rows m).
Proof.
  apply (for_range_ind (fun k m' => cells_set (fun y _ => 0 <= y < k)
     (fun y x => cell m (y + 1) x) m m')); [screen_lia|apply cells_set_none; lia|].
  intros j m' Hj (U & D & O & A).
  destruct (scroll_row_spec j m') as (U' & D' & O' & A'); [done|].
  split; [|split; [|split]].
  - eapply unchanged_trans; [exact U|exact U'].
  - intros y x Hx Hy. destruct (decide (y = j)) as [->|].
    + rewrite D' by done. apply O; [done|lia].
    + rewrite O' by done. apply D; [done|lia].
  - intros y x Hx Hy. rewrite O' by lia. apply O; [done|lia].
  - intros y x. rewrite A'. apply A.
Qed.

Lemma blank_bottom_spec m :
  cells_set (fun y _ => y = NUM_ROWS - 1) (fun _ _ => 32) m (blank_bottom m).
Proof.
  assert (H : cells_set (fun y x => y = NUM_ROWS - 1 /\ 0 <= x < NUM_COLS) (fun _ _ => 32) m
                (blank_bottom m)).
  { apply (for_range_ind (fun k m' => cells_set (fun y x => y = NUM_ROWS - 1 /\ 0 <= x < k)
        (fun _ _ => 32) m m')); [screen_lia|apply cells_set_none; lia|].
    intros j m' Hj H. cbv zeta. rewrite shiftl_1.
    apply (cells_set_store (fun y x => y = NUM_ROWS - 1 /\ 0 <= x < j));
      [done|lia|screen_lia|lia|done|lia]. }
  destruct H as (U & D & O & A). split; [done|]. split; [|split; [|done]].
  - intros. by apply D.
  - intros. apply O; [done|]. lia.
Qed.

(** Every row moves up one place, the bottom row is blank, attributes stay. *)
Lemma vertical_scroll_mem s :
  cells_set (fun y _ => 0 <= y < NUM_ROWS)
    (fun y x => if y =? NUM_ROWS - 1 then 32 else cell (k_mem s) (y + 1) x)
    (k_mem s) (k_mem (vertical_scroll s)).
Proof.
  change (k_mem (vertical_scroll s)) with (blank_bottom (scroll_rows (k_mem s))).
  destruct (scroll_rows_spec (k_mem s)) as (U & D & O & A).
  destruct (blank_bottom_spec (scroll_rows (k_mem s))) as (U' & D' & O' & A').
  split; [|split; [|split]].
  - eapply unchanged_trans; [exact U|exact U'].
  - intros y x Hx Hy. destruct (Z.eqb_spec y (NUM_ROWS - 1)) as [->|].
    + by apply D'.
    + rewrite O' by done. apply D; [done|lia].
  - intros y x Hx Hy. rewrite O' by screen_lia. apply O; [done|lia].
  - intros y x. rewrite A'. apply A.
Qed.

Lemma vertical_scroll_con s : k_con (vertical_scroll s) = mkConsole 0 24.
Proof. reflexivity. Qed.

(** ** Clearing *)

(** [clear] blanks the 25 by 80 cells, gives them the attribute 8, and touches
    nothing else. *)
Lemma clear_spec s :
  unchanged screen_bytes (k_mem s) (k_mem (clear s)) /\
  (forall i, 0 <= i < 2000 -> load8 (k_mem (clear s)) (VIDEO + 2 * i) = 32 /\
                             load8 (k_mem (clear s)) (VIDEO + 2 * i + 1) = ATTRIB).
Proof.
  change (k_mem (clear s)) with (for_range 0 (NUM_ROWS * NUM_COLS) clear_cell (k_mem s)).
  apply (for_range_ind (fun k m' => unchanged screen_bytes (k_mem s) m' /\
     forall i, 0 <= i < k -> load8 m' (VIDEO + 2 * i) = 32 /\
                             load8 m' (VIDEO + 2 * i + 1) = ATTRIB)).
  - screen_lia.
  - split; [apply unchanged_refl|]. intros; lia.
  - intros j m' Hj [U D]. unfold clear_cell. rewrite shiftl_1. split.
    + eapply unchanged_trans; [exact U|].
      eapply unchanged_trans; apply unchanged_store8; screen_lia.
    + intros i Hi. destruct (decide (i = j)) as [->|].
      * rewrite load8_store8_ne, !load8_store8_eq by lia. done.
      * rewrite !load8_store8_ne by lia. apply D. lia.
Qed.

(** ** The terminal as an abstract machine *)

Record term := mkTerm { grid : Z -> Z -> Z; tx : Z; ty : Z }.

Definition grid_put (g : Z -> Z -> Z) (y x c : Z) : Z -> Z -> Z :=
  fun y' x' => if (y' =? y) && (x' =? x) then c else g y' x'.

Definition grid_scroll (g : Z -> Z -> Z) : Z -> Z -> Z :=
  fun y x => if y =? NUM_ROWS - 1 then 32 else g (y + 1) x.

(** A terminal that keeps its last row for typing: a line feed that reaches the
    last row, and a character in the last cell, scroll the screen. *)
Definition term_putc (c : Z) (t : term) : term :=
  if (c =? 10) || (c =? 13) then
    if ty t + 1 <? NUM_ROWS - 1 then mkTerm (grid t) 0 (ty t + 1)
    else mkTerm (grid_scroll (grid t)) 0 (NUM_ROWS - 1)
  else
    let g := grid_put (grid t) (ty t) (tx t) c in
    if tx t <? NUM_COLS - 1 then mkTerm g (tx t + 1) (ty t)
    else if ty t <? NUM_ROWS - 1 then mkTerm g 0 (ty t + 1)
    else mkTerm (grid_scroll g) 0 (NUM_ROWS - 1).

(** Terminals that show the same screen. *)
#[export] Instance term_equiv : Equiv term := fun t t' =>
  tx t = tx t' /\ ty t = ty t' /\
  forall y x, 0 <= y < NUM_ROWS -> 0 <= x < NUM_COLS -> grid t y x = grid t' y x.

#[export] Instance term_equivalence : Equivalence (≡@{term}).
Proof.
  split.
  - repeat split.
  - intros t t' (E1 & E2 & H). repeat split; [done|done|]. intros. by rewrite H.
  - intros t1 t2 t3 (E1 & E2 & H) (E1' & E2' & H').
    repeat split; [congruence|congruence|]. intros. by rewrite H, H'.
Qed.

(** The terminal a kernel state shows. *)
Definition shown (s : kst) : term :=
  mkTerm (cell (k_mem s)) (screen_x (k_con s)) (screen_y (k_con s)).

(** ** putc_terminal *)

Lemma shown_set_cursor_pos s : shown (set_cursor_pos s) = shown s.
Proof. reflexivity. Qed.

Lemma set_cursor_pos_mem s : k_mem (set_cursor_pos s) = k_mem s.
Proof. reflexivity. Qed.

Lemma put_cell_spec c s :
  on_screen (k_con s) -> 0 <= c < 256 ->
  unchanged screen_bytes (k_mem s) (k_mem (put_cell c s)) /\
  forall y x, 0 <= y < NUM_ROWS -> 0 <= x < NUM_COLS ->
    cell (k_mem (put_cell c s)) y x =
    grid_put (cell (k_mem s)) (screen_y (k_con s)) (screen_x (k_con s)) c y x.
Proof.
  intros [Hx Hy] Hc. unfold put_cell. rewrite upd_mem_mem, shiftl_1. split.
  - eapply unchanged_trans; apply unchanged_store8; screen_lia.
  - intros y x Hy' Hx'. unfold cell, grid_put. rewrite load8_store8_ne by lia.
    rewrite load8_store8, u8_small by done.
    destruct (Z.eqb_spec y (screen_y (k_con s))) as [->|];
      [destruct (Z.eqb_spec x (screen_x (k_con s))) as [->|]|]; cbn [andb].
    + now rewrite Z.eqb_refl.
    + now rewrite (proj2 (Z.eqb_neq _ _)) by screen_lia.
    + now rewrite (proj2 (Z.eqb_neq _ _)) by screen_lia.
Qed.

Lemma shown_scroll s t :
  shown s ≡ t ->
  shown (vertical_scroll s) ≡ mkTerm (grid_scroll (grid t)) 0 (NUM_ROWS - 1).
Proof.
  intros (_ & _ & Hg). repeat split. intros y x Hy Hx. cbn [shown grid].
  destruct (vertical_scroll_mem s) as (_ & D & _). rewrite D by lia.
  unfold grid_scroll. destruct (Z.eqb_spec y (NUM_ROWS - 1)); [done|].
  apply Hg; [screen_lia|done].
Qed.

Lemma advance_spec k :
  on_screen k -> ~ (NUM_ROWS - 1 <= screen_y k /\ NUM_COLS - 1 <= screen_x k) ->
  advance k = if screen_x k <? NUM_COLS - 1 then mkConsole (screen_x k + 1) (screen_y k)
              else mkConsole 0 (screen_y k + 1).
Proof.
  intros [Hx Hy] Hn. unfold advance, NUM_ROWS, NUM_COLS in *. split_if.
  - rewrite Z.rem_small, Z.quot_small, Z.add_0_r, Z.rem_small by lia. done.
  - replace (screen_x k + 1) with 80 by lia. change (Z.rem 80 80) with 0.
    change (Z.quot 80 80) with 1. rewrite Z.rem_small by lia. done.
Qed.

(** [s'] shows [t], has its cursor on the screen, and differs from [s] in the
    video memory only. *)
Definition shows (s s' : kst) (t : term) : Prop :=
  shown s' ≡ t /\ on_screen (k_con s') /\ unchanged screen_bytes (k_mem s) (k_mem s').

Lemma shows_cursor s s' t : shows s s' t -> shows s (set_cursor_pos s') t.
Proof. intros H. exact H. Qed.

Lemma shows_scroll s s' t :
  unchanged screen_bytes (k_mem s) (k_mem s') -> shown s' ≡ t ->
  shows s (vertical_scroll s') (mkTerm (grid_scroll (grid t)) 0 (NUM_ROWS - 1)).
Proof.
  intros U Ht. split; [by apply shown_scroll|]. split.
  - rewrite vertical_scroll_con. unfold on_screen. cbn. screen_lia.
  - eapply unchanged_trans; [exact U|]. apply (vertical_scroll_mem s').
Qed.

Lemma putc_terminal_newline s :
  on_screen (k_con s) -> shows s (putc_terminal 10 s) (term_putc 10 (shown s)).
Proof.
  intros [Hx Hy]. unfold putc_terminal, term_putc. cbn [Z.eqb Pos.eqb orb].
  change (ty (shown s)) with (screen_y (k_con s)).
  change (screen_y (k_con (upd_con ?f s))) with (screen_y (f (k_con s))). cbn [screen_y].
  destruct (Z.leb_spec (NUM_ROWS - 1) (screen_y (k_con s) + 1)).
  - rewrite (proj2 (Z.ltb_ge _ _)) by lia.
    apply shows_cursor, (shows_scroll s (upd_con _ s) (mkTerm (cell (k_mem s)) 0 (screen_y (k_con s) + 1)));
      [apply unchanged_refl|repeat split].
  - rewrite (proj2 (Z.ltb_lt _ _)) by lia. apply shows_cursor. split; [repeat split|]. split.
    + unfold on_screen. cbn. screen_lia.
    + apply unchanged_refl.
Qed.

Lemma putc_terminal_printable c s :
  on_screen (k_con s) -> 0 <= c < 256 -> c <> 9 -> c <> 10 -> c <> 13 ->
  shows s (putc_terminal c s) (term_putc c (shown s)).
Proof.
  intros Hos Hc H9 H10 H13. pose proof Hos as [Hx Hy].
  destruct (put_cell_spec c s Hos Hc) as [U G].
  unfold putc_terminal, term_putc. rewrite !(proj2 (Z.eqb_neq _ _)) by done. cbn [orb].
  change (k_con (put_cell c s)) with (k_con s).
  change (tx (shown s)) with (screen_x (k_con s)).
  change (ty (shown s)) with (screen_y (k_con s)).
  change (grid (shown s)) with (cell (k_mem s)).
  set (g := grid_put _ _ _ _).
  assert (Sh : forall k, shown (upd_con (fun _ => k) (put_cell c s)) ≡
                         mkTerm g (screen_x k) (screen_y k)).
  { intros k. repeat split. intros y x Hy' Hx'. by apply G. }
  split_if.
  - rewrite !(proj2 (Z.ltb_ge _ _)) by lia.
    apply shows_cursor, (shows_scroll s (put_cell c s) (mkTerm g (screen_x (k_con s)) (screen_y (k_con s))));
      [exact U|exact (Sh (k_con s))].
  - pose proof (advance_spec (k_con s) Hos ltac:(lia)) as Ha.
    apply shows_cursor. split; [|split; [|exact U]].
    + transitivity (mkTerm g (screen_x (advance (k_con s))) (screen_y (advance (k_con s))));
        [exact (Sh (advance (k_con s)))|].
      rewrite Ha. split_if; cbn; [done|]. rewrite (proj2 (Z.ltb_lt _ _)) by lia. done.
    + change (on_screen (advance (k_con s))). rewrite Ha.
      unfold on_screen. split_if; cbn; screen_lia.
Qed.

Lemma putc_terminal_cr s : putc_terminal 13 s = putc_terminal 10 s.
Proof. reflexivity. Qed.

(** C23 For every character other than a tab, printing on a screen whose cursor
    is on the screen is the abstract terminal's step, keeps the cursor on the
    screen and writes no byte outside the 25 by 80 video memory. *)
Theorem putc_terminal_refines c s :
  on_screen (k_con s) -> 0 <= c < 256 -> c <> 9 ->
  shown (putc_terminal c s) ≡ term_putc c (shown s) /\
  on_screen (k_con (putc_terminal c s)) /\
  unchanged screen_bytes (k_mem s) (k_mem (putc_terminal c s)).
Proof.
  intros Hos Hc H9. destruct (decide (c = 10)) as [->|]; [by apply putc_terminal_newline|].
  destruct (decide (c = 13)) as [->|]; [by apply (putc_terminal_newline s)|].
  by apply putc_terminal_printable.
Qed.

(** A state with a blank memory and the cursor at the given place. *)
Definition blank_state (x y : Z) : kst :=
  mkKst (Mem ∅ ∅ 0) (mkConsole x y) (mkPic 0 0) 0 (mkKeyboard 0 0 0 0 0 0 0)
        (mkFilesys 0 0 0 0 0) 0 0 (mkCpu true 0 0 0 0) [].

Lemma putc_terminal_refines_witness :
  on_screen (k_con (blank_state 79 24)) /\
  shown (putc_terminal 65 (blank_state 79 24)) ≡ term_putc 65 (shown (blank_state 79 24)) /\
  on_screen (k_con (putc_terminal 65 (blank_state 79 24))) /\
  unchanged screen_bytes (k_mem (blank_state 79 24)) (k_mem (putc_terminal 65 (blank_state 79 24))).
Proof.
  assert (H : on_screen (k_con (blank_state 79 24))) by (unfold on_screen; cbn; screen_lia).
  split; [exact H|]. apply (putc_terminal_refines 65 (blank_state 79 24)); [exact H|lia|lia].
Defined.

(** ** Printing text *)

#[export] Instance grid_term_putc_proper c : Proper ((≡) ==> (≡)) (term_putc c).
Proof.
  intros t t' (E1 & E2 & H). unfold term_putc. rewrite <- E1, <- E2.
  repeat split_if; repeat split; intros y x Hy Hx; cbn [grid]; unfold grid_scroll, grid_put;
    repeat split_if; try done; apply H; screen_lia.
Qed.

Definition print_chars (l : list Z) (s : kst) : kst :=
  fold_left (fun s' c => putc_terminal c s') l s.

(** A sequence of characters without tabs drives the abstract terminal. *)
Lemma print_chars_shows l : forall s,
  on_screen (k_con s) -> Forall (fun c => 0 <= c < 256 /\ c <> 9) l ->
  shows s (print_chars l s) (fold_left (fun t c => term_putc c t) l (shown s)).
Proof.
  induction l as [|c l IH]; intros s Hos Hl; cbn.
  - split; [done|]. split; [done|apply unchanged_refl].
  - inversion_clear Hl as [|? ? [Hc H9] Hl'].
    assert (Hp : shows s (putc_terminal c s) (term_putc c (shown s))).
    { destruct (decide (c = 10)) as [->|]; [by apply putc_terminal_newline|].
      destruct (decide (c = 13)) as [->|]; [by apply (putc_terminal_newline s)|].
      by apply putc_terminal_printable. }
    destruct Hp as (Ht & Ho & U). destruct (IH (putc_terminal c s)) as (Ht' & Ho' & U'); [done|done|].
    split; [|split; [done|by eapply unchanged_trans]].
    etransitivity; [exact Ht'|]. clear -Ht.
    revert Ht. generalize (shown (putc_terminal c s)) (term_putc c (shown s)).
    induction l as [|d l IHl]; intros t t' Ht; cbn; [done|]. apply IHl. now rewrite Ht.
Qed.

(** The abstract terminal shows a text that fits in the rest of its row. *)
Lemma term_puts_row l : forall t,
  Forall (fun c => c <> 10 /\ c <> 13) l ->
  0 <= tx t -> tx t + Z.of_nat (length l) < NUM_COLS ->
  let t' := fold_left (fun t c => term_putc c t) l t in
  tx t' = tx t + Z.of_nat (length l) /\ ty t' = ty t /\
  (forall k c, l !! k = Some c -> grid t' (ty t) (tx t + Z.of_nat k) = c) /\
  (forall y x, y <> ty t \/ x < tx t \/ tx t + Z.of_nat (length l) <= x ->
               grid t' y x = grid t y x).
Proof.
  induction l as [|c l IH]; intros t Hl H0 Hlt; cbn [fold_left length] in *.
  - repeat split; [lia|]. intros k c Hk. done.
  - inversion_clear Hl as [|? ? [H10 H13] Hl'].
    assert (E : term_putc c t = mkTerm (grid_put (grid t) (ty t) (tx t) c) (tx t + 1) (ty t)).
    { unfold term_putc. rewrite !(proj2 (Z.eqb_neq _ _)) by done. cbn [orb].
      now rewrite (proj2 (Z.ltb_lt _ _)) by lia. }
    rewrite E. destruct (IH (mkTerm (grid_put (grid t) (ty t) (tx t) c) (tx t + 1) (ty t)))
      as (Hx & Hy & Hin & Hout); cbn [tx ty grid] in *; [done|lia|lia|].
    split; [lia|]. split; [done|]. split.
    + intros [|k] c' Hk; cbn in Hk.
      * injection Hk as <-. rewrite Hout by lia. unfold grid_put.
        replace (tx t + Z.of_nat 0) with (tx t) by lia. now rewrite !Z.eqb_refl.
      * replace (tx t + Z.of_nat (S k)) with (tx t + 1 + Z.of_nat k) by lia. by apply Hin.
    + intros y1 x1 Hyx. rewrite Hout by lia. unfold grid_put.
      destruct (Z.eqb_spec y1 (ty t)), (Z.eqb_spec x1 (tx t)); cbn; (done || lia).
Qed.

(** A text of printable characters that fits in the current row appears in
    that row, at the cursor, with the cursor after it and every other cell of
    the screen unchanged. *)
Theorem print_chars_row l s :
  on_screen (k_con s) -> Forall (fun c => 0 <= c < 256 /\ c <> 9 /\ c <> 10 /\ c <> 13) l ->
  screen_x (k_con s) + Z.of_nat (length l) < NUM_COLS ->
  let s' := print_chars l s in
  let y := screen_y (k_con s) in
  let x := screen_x (k_con s) in
  k_con s' = mkConsole (x + Z.of_nat (length l)) y /\
  (forall k c, l !! k = Some c -> cell (k_mem s') y (x + Z.of_nat k) = c) /\
  (forall y' x', 0 <= y' < NUM_ROWS -> 0 <= x' < NUM_COLS ->
     y' <> y \/ x' < x \/ x + Z.of_nat (length l) <= x' ->
     cell (k_mem s') y' x' = cell (k_mem s) y' x').
Proof.
  intros Hos Hl Hfit s' y x. destruct (print_chars_shows l s) as ((Ex & Ey & Eg) & _ & _); [done| |].
  { eapply Forall_impl; [exact Hl|]. cbn. tauto. }
  destruct (term_puts_row l (shown s)) as (Hx & Hy & Hin & Hout); [| |exact Hfit|].
  { eapply Forall_impl; [exact Hl|]. cbn. tauto. }
  { apply Hos. }
  destruct Hos as [Hxr Hyr]. fold s' in Ex, Ey, Eg.
  split; [|split].
  - rewrite Hx in Ex. rewrite Hy in Ey. cbn in Ex, Ey.
    destruct (k_con s') as [x' y']. cbn in Ex, Ey. subst x' y'. done.
  - intros k c Hk. pose proof (lookup_lt_Some _ _ _ Hk).
    transitivity (grid (shown s') y (x + Z.of_nat k)); [done|].
    rewrite Eg by (subst x y; screen_lia). by apply Hin.
  - intros y' x' Hy' Hx' Hne. transitivity (grid (shown s') y' x'); [done|].
    rewrite Eg by done. by apply Hout.
Qed.

Lemma print_chars_row_witness :
  k_con (print_chars [72; 105] (blank_state 5 3)) = mkConsole 7 3 /\
  cell (k_mem (print_chars [72; 105] (blank_state 5 3))) 3 6 = 105.
Proof.
  destruct (print_chars_row [72; 105] (blank_state 5 3)) as (E & Hin & _).
  - unfold on_screen. cbn. screen_lia.
  - repeat (constructor; [lia|]). constructor.
  - cbn. screen_lia.
  - split; [exact E|]. exact (Hin 1%nat 105 eq_refl).
Defined.

(** ** Erasing *)

(** Typing a character (tabs included, line breaks excluded) and erasing it
    brings the cursor back, unless the character scrolled the screen. *)
Theorem delete_undoes_putc c s :
  on_screen (k_con s) -> c <> 10 -> c <> 13 ->
  screen_x (k_con s) < NUM_COLS - 1 \/ screen_y (k_con s) < NUM_ROWS - 1 ->
  k_con (deletec_terminal c (putc_terminal c s)) = k_con s.
Proof.
  intros Hos H10 H13 Hlast. pose proof Hos as [Hx Hy].
  unfold deletec_terminal, putc_terminal. rewrite !(proj2 (Z.eqb_neq c 10)), !(proj2 (Z.eqb_neq c 13)) by done.
  cbn [orb]. destruct (Z.eqb_spec c 9) as [->|H9].
  - unfold for_range. change (Z.to_nat (tab_size - 0)) with 3%nat. cbn [for_n].
    destruct (k_con s) as [x y] eqn:E. cbn in Hx, Hy, Hlast.
    unfold delete_cell, set_screen. cbn -[VIDEO NUM_COLS Z.shiftl store8]. rewrite E.
    unfold tab_size. cbn -[VIDEO NUM_COLS Z.shiftl store8].
    zdecide. cbn -[VIDEO NUM_COLS Z.shiftl store8]. zdecide.
    cbn -[VIDEO NUM_COLS Z.shiftl store8]. zdecide. cbn -[VIDEO NUM_COLS Z.shiftl store8].
    unfold set_screen_x, set_screen_y. cbn [screen_x screen_y]. f_equal; lia.
  - change (k_con (put_cell c s)) with (k_con s).
    rewrite (proj2 (andb_false_iff _ _)) by (rewrite !Z.leb_gt; lia).
    change (for_range 0 1 (fun _ => delete_cell) ?z) with (delete_cell z).
    pose proof (advance_spec (k_con s) Hos ltac:(lia)) as Ha.
    unfold delete_cell, set_screen. cbn -[VIDEO NUM_COLS Z.shiftl store8 advance].
    rewrite Ha. destruct (k_con s) as [x y]. cbn in Hx, Hy, Hlast. cbn [screen_x screen_y].
    destruct (Z.ltb_spec x (NUM_COLS - 1)); cbn [screen_x screen_y]; zdecide;
      unfold set_screen_x, set_screen_y; cbn -[VIDEO NUM_COLS Z.shiftl store8]; f_equal; screen_lia.
Qed.

Lemma delete_undoes_putc_witness :
  k_con (deletec_terminal 9 (putc_terminal 9 (blank_state 78 3))) = mkConsole 78 3.
Proof.
  apply (delete_undoes_putc 9 (blank_state 78 3)).
  - unfold on_screen. cbn. screen_lia.
  - lia.
  - lia.
  - cbn. screen_lia.
Defined.

(** ** Where the console leaves the screen *)

(** A tab moves the cursor by three columns without wrapping: near the end of
    the last row the next character is stored past the 4000 bytes of the
    screen. *)
Theorem tab_leaves_screen c s :
  screen_y (k_con s) = 24 -> 77 <= screen_x (k_con s) < 80 -> 32 <= c < 127 ->
  let s' := putc_terminal 9 s in
  ~ on_screen (k_con s') /\
  let a := VIDEO + 2 * (80 * 24 + (screen_x (k_con s) + 3)) in
  ~ screen_bytes a /\ k_mem (put_cell c s') = store8 (store8 (k_mem s) a c) (a + 1) ATTRIB /\
  k_mem (putc_terminal c s') = k_mem (vertical_scroll (put_cell c s')).
Proof.
  intros Hy Hx Hc s'.
  assert (Ec : k_con s' = mkConsole (screen_x (k_con s) + 3) 24).
  { rewrite <- Hy. reflexivity. }
  assert (Em : k_mem s' = k_mem s) by reflexivity.
  split; [rewrite Ec; unfold on_screen; cbn; screen_lia|].
  split; [screen_lia|]. split.
  - unfold put_cell. rewrite upd_mem_mem, Ec, Em, shiftl_1. cbn [screen_x screen_y].
    unfold NUM_COLS. done.
  - unfold putc_terminal at 1. rewrite !(proj2 (Z.eqb_neq _ _)) by lia. cbn [orb].
    change (k_con (put_cell c s')) with (k_con s'). rewrite Ec. cbn [screen_x screen_y].
    unfold NUM_ROWS, NUM_COLS. zdecide. now rewrite set_cursor_pos_mem.
Qed.

Lemma tab_leaves_screen_witness :
  ~ on_screen (k_con (putc_terminal 9 (blank_state 79 24))).
Proof. apply (tab_leaves_screen 65 (blank_state 79 24)); cbn; lia. Defined.

(** Erasing with the cursor in the top left corner stores a blank two bytes
    before the video memory and moves the cursor to row -1. *)
Theorem delete_at_origin c s :
  k_con s = mkConsole 0 0 -> c <> 9 ->
  let s' := deletec_terminal c s in
  k_mem s' = store8 (k_mem s) (VIDEO - 2) 32 /\ k_con s' = mkConsole 79 (-1) /\
  ~ screen_bytes (VIDEO - 2).
Proof.
  intros E H9. cbv zeta. unfold deletec_terminal. rewrite (proj2 (Z.eqb_neq _ _)) by done.
  change (for_range 0 1 (fun _ => delete_cell) s) with (delete_cell s).
  unfold delete_cell. rewrite E. cbn [screen_x screen_y]. split; [reflexivity|].
  split; [reflexivity|]. screen_lia.
Qed.

Lemma delete_at_origin_witness :
  k_con (deletec_terminal 65 (blank_state 0 0)) = mkConsole 79 (-1).
Proof. apply (delete_at_origin 65 (blank_state 0 0)); [reflexivity|lia]. Defined.
