(* ===== verification/Printf.v ===== *)
(** * printf, lib.c

    The format interpreter.  [esp] walks over the arguments on the stack, [conv_buf]
    is the local array the numbers are converted in, and every character goes through
    [putc].  The number conversions are those of [itoa], whose results for the bases
    10 and 16 always exist.

    [render] is the text a format and its arguments stand for. *)

From S2P Require Import Prelude Mem CString State Console.

(** ** Definitions *)

(** [itoa] where it is defined; it is for every radix from 2 to 36. *)
Definition itoa_into (m : mem) (value buf radix : Z) : mem :=
  match itoa m value buf radix with Some m' => m' | None => m end.

(** [while (i < 8) { conv_buf[i] = '0'; i++; }] *)
Definition zero_pad (conv_buf i : Z) (m : mem) : mem :=
  for_range i 8 (fun j m => store8 m (conv_buf + j) 48) m.

(** The case of one conversion character; the result says whether an argument was
    taken. *)
Definition printf_conv (c : Z) (alternate : bool) (conv_buf esp : Z) (s : kst) : bool * kst :=
  let arg := load32 (k_mem s) esp in
  if c =? 37 then (false, putc 37 s)
  else if c =? 120 then
    if negb alternate then
      let s := upd_mem (fun m => itoa_into m arg conv_buf 16) s in
      (true, snd (puts conv_buf s))
    else
      let s := upd_mem (fun m => itoa_into m arg (conv_buf + 8) 16) s in
      let starting_index := strlen (k_mem s) (conv_buf + 8) in
      let s := upd_mem (zero_pad conv_buf starting_index) s in
      (true, snd (puts (conv_buf + starting_index) s))
  else if c =? 117 then
    let s := upd_mem (fun m => itoa_into m arg conv_buf 10) s in
    (true, snd (puts conv_buf s))
  else if c =? 100 then
    let value := s32 arg in
    let s :=
      if value <? 0 then
        upd_mem (fun m => itoa_into (store8 m conv_buf 45) (u32 (- value)) (conv_buf + 1) 10) s
      else upd_mem (fun m => itoa_into m value conv_buf 10) s in
    (true, snd (puts conv_buf s))
  else if c =? 99 then (true, putc (u8 arg) s)
  else if c =? 115 then (true, snd (puts arg s))
  else (false, s).

(** The [goto format_char_switch] loop over [#]: the conversion character is the
    first other one. *)
Fixpoint skip_alternate (fuel : nat) (m : mem) (buf : Z) : Z :=
  match fuel with
  | O => buf
  | S f => if load8 m buf =? 35 then skip_alternate f m (buf + 1) else buf
  end.

(** The loop, with the final [buf].  A format that ends behind a [%] lets [buf] step
    over its NUL. *)
Fixpoint printf_loop (fuel : nat) (conv_buf buf esp : Z) (s : kst) : Z * kst :=
  match fuel with
  | O => (buf, s)
  | S f =>
      let c := load8 (k_mem s) buf in
      if c =? 0 then (buf, s)
      else if c =? 37 then
        let spec := skip_alternate (S (mem_size (k_mem s))) (k_mem s) (buf + 1) in
        let '(taken, s) := printf_conv (load8 (k_mem s) spec) (negb (spec =? buf + 1)) conv_buf esp s in
        printf_loop f conv_buf (spec + 1) (if taken then esp + 4 else esp) s
      else printf_loop f conv_buf (buf + 1) esp (putc c s)
  end.

Definition printf (conv_buf format esp : Z) (s : kst) : Z * kst :=
  let '(buf, s) := printf_loop (S (mem_size (k_mem s))) conv_buf format esp s in
  (buf - format, s).

(** ** The text of a format *)

(** A number in base [radix], most significant digit first. *)
Definition number (v radix : Z) : list Z :=
  if v =? 0 then [48] else reverse (digits_lsf 32 v radix).

(** The text of one conversion, and whether it takes an argument; [str] gives the
    string at an address. *)
Definition conv_text (str : Z -> list Z) (c : Z) (alternate : bool) (arg : Z) : bool * list Z :=
  if c =? 37 then (false, [37])
  else if c =? 120 then
    (true, if negb alternate then number arg 16
           else replicate (8 - length (number arg 16)) 48 ++ number arg 16)
  else if c =? 117 then (true, number arg 10)
  else if c =? 100 then
    (true, if s32 arg <? 0 then 45 :: number (u32 (- s32 arg)) 10 else number (s32 arg) 10)
  else if c =? 99 then (true, [u8 arg])
  else if c =? 115 then (true, str arg)
  else (false, []).

(** The text of a format: [mode] is set behind a [%], to whether a [#] was seen. *)
Fixpoint render (str : Z -> list Z) (mode : option bool) (fmt : list Z) (args : Z -> Z) (k : Z) : list Z :=
  match fmt with
  | [] => []
  | c :: rest =>
      match mode with
      | None => if c =? 37 then render str (Some false) rest args k else c :: render str None rest args k
      | Some alternate =>
          if c =? 35 then render str (Some true) rest args k
          else let '(taken, text) := conv_text str c alternate (args k) in
               text ++ render str None rest args (if taken then k + 1 else k)
      end
  end.

(** The format does not end behind a [%]. *)
Fixpoint complete (mode : bool) (fmt : list Z) : bool :=
  match fmt with
  | [] => negb mode
  | c :: rest => if mode then complete (c =? 35) rest else complete (c =? 37) rest
  end.

(** ** putc *)

Definition KERNEL_LO : Z := 0x400000.

(** The cursor has room for [n] more characters below the kernel's memory. *)
Definition tty (n : Z) (s : kst) : Prop :=
  0 <= screen_x (k_con s) < NUM_COLS /\ 0 <= screen_y (k_con s) /\ screen_y (k_con s) + n < 20000.

Lemma tty_weaken n k s : tty n s -> k <= n -> tty k s.
Proof. intros (Hx & Hy & Hn) Hk. split; [done|]. split; [done|]. lia. Qed.

Lemma tty_con n s s' : tty n s -> k_con s' = k_con s -> tty n s'.
Proof. unfold tty. intros Ht ->. exact Ht. Qed.

Definition low (a : Z) : Prop := a < KERNEL_LO.

Lemma advance_tty c :
  0 <= screen_x c < NUM_COLS -> 0 <= screen_y c ->
  0 <= screen_x (advance c) < NUM_COLS /\ 0 <= screen_y (advance c) <= screen_y c + 1.
Proof.
  unfold advance, NUM_COLS, NUM_ROWS. cbn [screen_x screen_y]. intros Hx Hy.
  rewrite Z.quot_div_nonneg, !Z.rem_mod_nonneg by zdm. zdm.
Qed.

Lemma putc_tty n c s :
  0 <= n -> tty (n + 1) s -> tty n (putc c s) /\ unchanged low (k_mem s) (k_mem (putc c s)).
Proof.
  intros Hn (Hx & Hy & Hr). unfold putc. destruct ((c =? 10) || (c =? 13)).
  - split; [|apply unchanged_refl]. unfold tty. cbn. unfold NUM_COLS in *. lia.
  - destruct (advance_tty (k_con s) Hx Hy) as [Ax Ay]. split.
    + split; [exact Ax|]. split; [apply Ay|]. cbn [k_con upd_con set_k_con put_cell upd_mem set_k_mem set_cursor_pos outw log_io set_k_io].
      lia.
    + eapply unchanged_trans; apply unchanged_store8; unfold low, VIDEO, KERNEL_LO, NUM_COLS in *;
        rewrite Z.shiftl_mul_pow2 by lia; lia.
Qed.

(** Characters printed one after the other. *)
Definition type_chars (l : list Z) (s : kst) : kst := fold_left (fun s c => putc c s) l s.

Lemma type_chars_app l1 l2 s : type_chars (l1 ++ l2) s = type_chars l2 (type_chars l1 s).
Proof. apply fold_left_app. Qed.

Lemma type_chars_tty l : forall n s,
  0 <= n -> tty (n + Z.of_nat (length l)) s ->
  tty n (type_chars l s) /\ unchanged low (k_mem s) (k_mem (type_chars l s)).
Proof.
  induction l as [|c l IH]; intros n s Hn Ht; cbn [length] in Ht.
  - rewrite Z.add_0_r in Ht. split; [exact Ht|apply unchanged_refl].
  - destruct (putc_tty (n + Z.of_nat (length l)) c s) as [T U]; [lia|eapply tty_weaken; [exact Ht|lia]|].
    destruct (IH n (putc c s) Hn T) as [T' U']. split; [exact T'|]. by eapply unchanged_trans.
Qed.

(** [puts] types the characters of its string, when that is above 4 MB. *)
Lemma puts_loop_spec fuel : forall p i s n,
  is_cstr (k_mem s) p n -> KERNEL_LO <= p -> 0 <= i <= n -> n - i < Z.of_nat fuel -> tty (n - i) s ->
  puts_loop fuel p i s = (n, type_chars (bytes (k_mem s) (p + i) (Z.to_nat (n - i))) s).
Proof.
  induction fuel as [|f IH]; intros p i s n Hs Hp Hi Hf Ht; [lia|]. cbn [puts_loop].
  pose proof Hs as (Hn & Hz & Hnz). destruct (decide (i = n)) as [->|Hne].
  - rewrite Hz, Z.sub_diag. reflexivity.
  - rewrite (proj2 (Z.eqb_neq _ _) (Hnz i ltac:(lia))).
    replace (Z.to_nat (n - i)) with (S (Z.to_nat (n - (i + 1)))) by lia. rewrite bytes_S.
    unfold type_chars. cbn [fold_left]. set (c := load8 (k_mem s) (p + i)).
    destruct (putc_tty (n - (i + 1)) c s) as [T U]; [lia|eapply tty_weaken; [exact Ht|lia]|].
    assert (Hoff : forall b, p <= b -> ~ low b) by (unfold low; lia).
    rewrite (IH p (i + 1) (putc c s) n).
    + unfold type_chars. rewrite <- Z.add_assoc. do 2 f_equal.
      eapply unchanged_bytes; [exact U|]. intros b Hb. apply Hoff. unfold in_range in Hb. lia.
    + eapply is_cstr_unchanged; [exact U| |exact Hs]. intros b Hb. apply Hoff. unfold in_range in Hb. lia.
    + exact Hp.
    + lia.
    + lia.
    + exact T.
Qed.

Lemma puts_types p s :
  KERNEL_LO <= p -> tty (strlen (k_mem s) p) s ->
  (puts p s).2 = type_chars (bytes (k_mem s) p (Z.to_nat (strlen (k_mem s) p))) s.
Proof.
  intros Hp Ht. destruct (strlen_spec (k_mem s) p) as (H0 & H1 & H2). unfold puts.
  assert (Hf : (Z.to_nat (strlen (k_mem s) p) <= mem_size (k_mem s))%nat)
    by (apply (nonzero_run_bound (k_mem s) p); intros i Hi; apply H2; lia).
  rewrite (puts_loop_spec _ p 0 s (strlen (k_mem s) p)); [|done|done|lia|lia|by rewrite Z.sub_0_r].
  cbn [snd]. now rewrite Z.add_0_r, Z.sub_0_r.
Qed.

(** ** Conversions *)

Lemma number_length v radix : 0 <= v < 4294967296 -> (1 <= length (number v radix) <= 32)%nat.
Proof.
  intros Hv. unfold number. destruct (Z.eqb_spec v 0) as [->|]; [cbn; lia|].
  rewrite length_reverse. apply (itoa_digits_nonempty v radix). lia.
Qed.

Lemma number_chars v radix : 2 <= radix <= 36 -> 0 <= v -> Forall (fun c => 48 <= c < 91) (number v radix).
Proof.
  intros Hr Hv. unfold number. destruct (v =? 0); [constructor; [lia|constructor]|].
  apply Forall_reverse, digits_lsf_chars; lia.
Qed.

(** The number is in the buffer as a string. *)
Lemma itoa_into_number m v buf radix :
  2 <= radix <= 36 -> 0 <= v < 4294967296 ->
  let m' := itoa_into m v buf radix in
  let n := Z.of_nat (length (number v radix)) in
  is_cstr m' buf n /\ bytes m' buf (length (number v radix)) = number v radix /\
  unchanged (in_range buf (n + 1)) m m'.
Proof.
  intros Hr Hv m' n.
  assert (K : bytes m' buf (length (number v radix)) = number v radix /\ load8 m' (buf + n) = 0 /\
              unchanged (in_range buf (n + 1)) m m').
  { unfold m', n, itoa_into, number. destruct (Z.eqb_spec v 0) as [->|Hne].
    - change (itoa m 0 buf radix) with (Some (store8 (store8 m buf 48) (buf + 1) 0)). cbn [length].
      split; [|split; [apply load8_store8_eq|]].
      + rewrite bytes_S, load8_store8_ne, load8_store8_eq by lia. reflexivity.
      + apply (unchanged_trans _ _ (store8 m buf 48)); apply unchanged_store8; unfold in_range; lia.
    - destruct (itoa_string m v buf radix Hr) as (m1 & -> & B & Hz & U); [lia|].
      rewrite length_reverse. done. }
  destruct K as (B & Hz & U). split; [|done].
  apply is_cstr_of_bytes; [exact B|exact Hz|].
  eapply Forall_impl; [apply number_chars; lia|]. cbn. lia.
Qed.

(** [s'] is [s] but for the bytes of the conversion buffer. *)
Definition tracks (cb : Z) (s s' : kst) : Prop :=
  s' = set_k_mem (k_mem s') s /\ unchanged (in_range cb 64) (k_mem s) (k_mem s').

Lemma unchanged_store8_both P m m' a v : unchanged P m m' -> unchanged P (store8 m a v) (store8 m' a v).
Proof.
  intros [E Hb]. split; [now rewrite !tlb_store8|]. intros p b H.
  rewrite !byte_at_store8, E. rewrite tlb_store8 in H. destruct (_ && _); [done|]. by apply Hb.
Qed.

Lemma putc_tracks cb c s s' : tracks cb s s' -> tracks cb (putc c s) (putc c s').
Proof.
  intros [E U]. rewrite E. unfold putc. destruct ((c =? 10) || (c =? 13)).
  - by split.
  - split; [reflexivity|]. by apply unchanged_store8_both, unchanged_store8_both.
Qed.

Lemma type_chars_tracks cb l : forall s s', tracks cb s s' -> tracks cb (type_chars l s) (type_chars l s').
Proof.
  induction l as [|c l IH]; intros s s' Ht; [done|]. apply IH. by apply putc_tracks.
Qed.

Lemma tracks_trans cb s1 s2 s3 : tracks cb s1 s2 -> tracks cb s2 s3 -> tracks cb s1 s3.
Proof.
  intros [E1 U1] [E2 U2]. split; [rewrite E2, E1; reflexivity|by eapply unchanged_trans].
Qed.

(** A string made in the conversion buffer is typed. *)
Lemma typed_buffer cb s p n l m' :
  KERNEL_LO <= cb -> cb <= p -> p + n < cb + 64 -> unchanged (in_range cb 64) (k_mem s) m' ->
  is_cstr m' p n -> bytes m' p (Z.to_nat n) = l -> tty n s ->
  exists s1, tracks cb s s1 /\ (puts p (set_k_mem m' s)).2 = type_chars l s1.
Proof.
  intros Hc Hp Hn U Hs B Ht. exists (set_k_mem m' s). split; [by split|].
  pose proof (strlen_eq _ _ _ Hs) as El.
  rewrite puts_types; cbn [k_mem set_k_mem]; rewrite ?El; [by rewrite B|lia|exact Ht].
Qed.

Lemma zero_pad_spec cb i m :
  0 <= i <= 8 -> unchanged (in_range (cb + i) (8 - i)) m (zero_pad cb i m) /\
  forall j, i <= j < 8 -> load8 (zero_pad cb i m) (cb + j) = 48.
Proof.
  intros Hi. unfold zero_pad.
  apply (for_range_ind (fun k mk => unchanged (in_range (cb + i) (k - i)) m mk /\
    forall j, i <= j < k -> load8 mk (cb + j) = 48)); [lia| |].
  - split; [apply unchanged_refl|lia].
  - intros k mk Hk [U B]. split.
    + eapply unchanged_trans; [eapply unchanged_weaken; [|exact U]|apply unchanged_store8]; unfold in_range; lia.
    + intros j Hj. destruct (decide (j = k)) as [->|]; [apply load8_store8_eq|].
      rewrite load8_store8_ne by lia. apply B. lia.
Qed.

(** The eight digits of [%#x]. *)
Lemma alternate_number cb v m :
  0 <= v < 4294967296 -> (length (number v 16) <= 8)%nat ->
  let m1 := itoa_into m v (cb + 8) 16 in
  let i := strlen m1 (cb + 8) in
  let m2 := zero_pad cb i m1 in
  let l := replicate (8 - length (number v 16)) 48 ++ number v 16 in
  i = Z.of_nat (length (number v 16)) /\ is_cstr m2 (cb + i) 8 /\ bytes m2 (cb + i) (Z.to_nat 8) = l /\
  unchanged (in_range cb 64) m m2.
Proof.
  intros Hv H8 m1 i m2 l. destruct (itoa_into_number m v (cb + 8) 16 ltac:(lia) Hv) as (Hs & B & U).
  pose proof (number_length v 16 Hv) as Hl. fold m1 in Hs, B, U.
  assert (Ei : i = Z.of_nat (length (number v 16))) by (by apply strlen_eq).
  destruct (zero_pad_spec cb i m1 ltac:(lia)) as [U2 Z2]. fold m2 in U2, Z2.
  set (k := length (number v 16)) in *.
  assert (B2 : bytes m2 (cb + i) (Z.to_nat 8) = l).
  { unfold l. replace (Z.to_nat 8) with ((8 - k) + k)%nat by lia. rewrite bytes_app. f_equal.
    - apply list_eq_same_length with (8 - k)%nat; [apply length_replicate|apply length_bytes|].
      intros j x y Hj Hx Hy. rewrite bytes_lookup in Hx by lia. injection Hx as <-.
      apply lookup_replicate in Hy as [-> _]. rewrite <- Z.add_assoc. apply Z2. lia.
    - replace (cb + i + Z.of_nat (8 - k)) with (cb + 8) by lia. transitivity (bytes m1 (cb + 8) k); [|exact B].
      eapply unchanged_bytes; [exact U2|]. unfold in_range. lia. }
  split; [exact Ei|]. split; [|split; [exact B2|]].
  - assert (Hll : length l = 8%nat) by (unfold l; rewrite length_app, length_replicate; lia).
    replace 8 with (Z.of_nat (length l)) by lia. apply is_cstr_of_bytes.
    + rewrite Hll. exact B2.
    + rewrite Hll. destruct Hs as (_ & Hz & _). replace (cb + i + Z.of_nat 8) with (cb + 8 + Z.of_nat k) by lia.
      rewrite (unchanged_load8 _ _ _ _ U2); [exact Hz|]. unfold in_range. lia.
    + unfold l. apply Forall_app. split; [apply Forall_replicate; lia|].
      eapply Forall_impl; [apply number_chars; lia|]. cbn. lia.
  - eapply unchanged_trans; (eapply unchanged_weaken; [|eassumption]); unfold in_range; lia.
Qed.

(** A number has no more digits than its bound allows. *)
Lemma digits_lsf_bound radix n : forall fuel v,
  2 <= radix -> 0 <= v < radix ^ Z.of_nat n -> (length (digits_lsf fuel v radix) <= n)%nat.
Proof.
  induction n as [|n IH]; intros fuel v Hr Hv.
  - replace v with 0 by (cbn in Hv; lia). destruct fuel; cbn; lia.
  - destruct fuel as [|f]; cbn [digits_lsf length]; [lia|]. destruct (v =? 0); cbn [length]; [lia|].
    apply le_n_S, IH; [done|]. split; [apply Z.div_pos; lia|].
    apply Z.div_lt_upper_bound; [lia|]. rewrite Nat2Z.inj_succ, Z.pow_succ_r in Hv by lia. lia.
Qed.

Lemma number_hex v : 0 <= v < 4294967296 -> (length (number v 16) <= 8)%nat.
Proof.
  intros Hv. unfold number. destruct (v =? 0); [cbn; lia|]. rewrite length_reverse.
  apply digits_lsf_bound; [lia|]. change (16 ^ Z.of_nat 8) with 4294967296. lia.
Qed.

Lemma typed_number cb v radix s :
  KERNEL_LO <= cb -> 2 <= radix <= 36 -> 0 <= v < 4294967296 -> tty (Z.of_nat (length (number v radix))) s ->
  exists s1, tracks cb s s1 /\
    (puts cb (upd_mem (fun m => itoa_into m v cb radix) s)).2 = type_chars (number v radix) s1.
Proof.
  intros Hc Hr Hv Ht. destruct (itoa_into_number (k_mem s) v cb radix Hr Hv) as (Hs & B & U).
  pose proof (number_length v radix Hv).
  eapply (typed_buffer cb s cb (Z.of_nat (length (number v radix)))); [lia|lia|lia| |exact Hs| |exact Ht].
  - eapply unchanged_weaken; [|exact U]. unfold in_range. lia.
  - rewrite Nat2Z.id. exact B.
Qed.

Lemma typed_negative cb v s :
  KERNEL_LO <= cb -> 0 <= v < 4294967296 -> tty (Z.of_nat (length (45 :: number v 10))) s ->
  exists s1, tracks cb s s1 /\
    (puts cb (upd_mem (fun m => itoa_into (store8 m cb 45) v (cb + 1) 10) s)).2 = type_chars (45 :: number v 10) s1.
Proof.
  intros Hc Hv Ht. set (m1 := store8 (k_mem s) cb 45).
  destruct (itoa_into_number m1 v (cb + 1) 10 ltac:(lia) Hv) as (Hs & B & U).
  pose proof (number_length v 10 Hv). set (n := length (number v 10)) in *.
  set (m2 := itoa_into m1 v (cb + 1) 10) in *.
  assert (E0 : load8 m2 cb = 45).
  { rewrite (unchanged_load8 _ _ _ _ U) by (unfold in_range; lia). apply load8_store8_eq. }
  eapply (typed_buffer cb s cb (Z.of_nat (S n)) _ m2); [lia|lia|lia| | | |exact Ht].
  - apply (unchanged_trans _ _ m1); [apply unchanged_store8; unfold in_range; lia|].
    eapply unchanged_weaken; [|exact U]. unfold in_range. lia.
  - destruct Hs as (_ & Hz & Hnz). split; [lia|]. split.
    + rewrite <- Hz. f_equal. lia.
    + intros i Hi. destruct (decide (i = 0)) as [->|]; [rewrite Z.add_0_r, E0; lia|].
      replace (cb + i) with (cb + 1 + (i - 1)) by lia. apply Hnz. lia.
  - rewrite Nat2Z.id, bytes_S, E0, B. reflexivity.
Qed.

Lemma printf_conv_spec str c alternate cb esp s :
  KERNEL_LO <= cb ->
  let arg := load32 (k_mem s) esp in
  let text := (conv_text str c alternate arg).2 in
  (c = 115 -> KERNEL_LO <= arg /\ str arg = bytes (k_mem s) arg (Z.to_nat (strlen (k_mem s) arg))) ->
  tty (Z.of_nat (length text)) s ->
  exists s1, tracks cb s s1 /\
    printf_conv c alternate cb esp s = ((conv_text str c alternate arg).1, type_chars text s1).
Proof.
  intros Hc arg text Hstr Ht. pose proof (load32_range (k_mem s) esp) as Ha. fold arg in Ha.
  assert (Self : tracks cb s s) by (split; [by destruct s|apply unchanged_refl]).
  unfold text in *. clear text. unfold printf_conv, conv_text in *. fold arg.
  destruct (c =? 37); [by exists s|].
  destruct (c =? 120).
  { cbn [fst snd] in *. destruct alternate; cbn [negb] in *.
    - destruct (alternate_number cb arg (k_mem s) Ha (number_hex arg Ha)) as (Ei & Hs & B & U).
      pose proof (number_length arg 16 Ha). pose proof (number_hex arg Ha).
      set (m1 := itoa_into (k_mem s) arg (cb + 8) 16) in *. set (i := strlen m1 (cb + 8)) in *.
      rewrite length_app, length_replicate in Ht.
      replace (Z.of_nat (8 - length (number arg 16) + length (number arg 16))) with 8 in Ht by lia.
      destruct (typed_buffer cb s (cb + i) 8 _ _ Hc ltac:(lia) ltac:(lia) U Hs B Ht) as (s1 & T & E).
      exists s1. split; [exact T|]. rewrite <- E. reflexivity.
    - destruct (typed_number cb arg 16 s Hc ltac:(lia) Ha Ht) as (s1 & T & E). exists s1. now rewrite E. }
  destruct (c =? 117).
  { destruct (typed_number cb arg 10 s Hc ltac:(lia) Ha Ht) as (s1 & T & E). exists s1. now rewrite E. }
  destruct (c =? 100).
  { assert (Hs : -2147483648 <= s32 arg < 2147483648) by (unfold s32; zdm).
    cbn [fst snd] in *. destruct (Z.ltb_spec (s32 arg) 0).
    - destruct (typed_negative cb (u32 (- s32 arg)) s Hc ltac:(apply u32_range) Ht) as (s1 & T & E).
      exists s1. now rewrite E.
    - destruct (typed_number cb (s32 arg) 10 s Hc ltac:(lia) ltac:(lia) Ht) as (s1 & T & E).
      exists s1. now rewrite E. }
  destruct (c =? 99); [by exists s|].
  destruct (Z.eqb_spec c 115) as [E|]; [|by exists s].
  destruct (Hstr E) as [Hlow Es]. exists s. split; [exact Self|]. cbn [fst snd] in *. rewrite Es in *.
  rewrite puts_types; [reflexivity|exact Hlow|]. rewrite length_bytes in Ht.
  destruct (strlen_spec (k_mem s) arg) as (? & _). now rewrite Z2Nat.id in Ht by lia.
Qed.

(** ** The loop *)

(** The characters [fmt] and a NUL are at [buf]. *)
Fixpoint text_at (m : mem) (buf : Z) (fmt : list Z) : Prop :=
  match fmt with
  | [] => load8 m buf = 0
  | c :: rest => c <> 0 /\ load8 m buf = c /\ text_at m (buf + 1) rest
  end.

Lemma text_at_cstr n : forall m a, is_cstr m a (Z.of_nat n) -> text_at m a (bytes m a n).
Proof.
  induction n as [|n IH]; intros m a (_ & Hz & Hnz).
  - now rewrite Z.add_0_r in Hz.
  - rewrite bytes_S. cbn [text_at]. split; [specialize (Hnz 0); rewrite Z.add_0_r in Hnz; apply Hnz; lia|].
    split; [done|]. apply IH. split; [lia|]. split.
    + rewrite <- Hz. f_equal. lia.
    + intros i Hi. replace (a + 1 + i) with (a + (i + 1)) by lia. apply Hnz. lia.
Qed.

Lemma text_at_app m l1 : forall buf l2,
  text_at m buf (l1 ++ l2) -> text_at m (buf + Z.of_nat (length l1)) l2.
Proof.
  induction l1 as [|c l1 IH]; intros buf l2 Ht; cbn [length app] in *.
  - now rewrite Z.add_0_r.
  - destruct Ht as (_ & _ & Ht). apply IH in Ht. now replace (buf + Z.of_nat (S (length l1)))
      with (buf + 1 + Z.of_nat (length l1)) by lia.
Qed.

(** The conversion behind a [%]: some [#] and a character. *)
Lemma complete_conv l :
  complete true l = true ->
  exists h c rest, l = replicate h 35 ++ c :: rest /\ c <> 35 /\ complete false rest = true.
Proof.
  induction l as [|c l IH]; intros Hc; [done|]. cbn [complete] in Hc.
  destruct (Z.eqb_spec c 35) as [->|Hne].
  - destruct (IH Hc) as (h & c & rest & -> & H1 & H2). by exists (S h), c, rest.
  - by exists O, c, l.
Qed.

Lemma render_conv str h c rest args k : c <> 35 -> forall alternate,
  render str (Some alternate) (replicate h 35 ++ c :: rest) args k =
  let r := conv_text str c (alternate || negb (h =? 0)%nat) (args k) in
  r.2 ++ render str None rest args (if r.1 then k + 1 else k).
Proof.
  intros Hc. induction h as [|h IH]; intros alternate; cbn [replicate app render].
  - rewrite (proj2 (Z.eqb_neq _ _) Hc), orb_false_r. by destruct (conv_text _ _ _ _).
  - cbn [Z.eqb Pos.eqb]. rewrite IH. cbn [Nat.eqb negb orb]. now rewrite orb_true_r.
Qed.

Lemma skip_alternate_spec m c rest h : forall fuel buf,
  c <> 35 -> text_at m buf (replicate h 35 ++ c :: rest) -> (h < fuel)%nat ->
  skip_alternate fuel m buf = buf + Z.of_nat h.
Proof.
  induction h as [|h IH]; intros fuel buf Hc Ht Hf; destruct fuel as [|f]; [lia| |lia|]; cbn [skip_alternate].
  - destruct Ht as (_ & -> & _). rewrite (proj2 (Z.eqb_neq _ _) Hc). lia.
  - destruct Ht as (_ & E & Ht). rewrite E. cbn [Z.eqb Pos.eqb].
    rewrite (IH f (buf + 1) Hc Ht) by lia. lia.
Qed.

Lemma text_at_fuel m l : forall buf, text_at m buf l -> (length l <= mem_size m)%nat.
Proof.
  intros buf Ht. apply (nonzero_run_bound m buf). revert buf Ht.
  induction l as [|c l IH]; intros buf Ht i Hi; cbn [length] in Hi; [lia|].
  destruct Ht as (Hc & E & Ht). destruct (decide (i = 0)) as [->|]; [rewrite Z.add_0_r; congruence|].
  replace (buf + i) with (buf + 1 + (i - 1)) by lia. apply (IH (buf + 1) Ht). lia.
Qed.

(** The addresses a format prints strings from. *)
Fixpoint string_args (mode : bool) (fmt : list Z) (args : Z -> Z) (k : Z) : list Z :=
  match fmt with
  | [] => []
  | c :: rest =>
      if negb mode then string_args (c =? 37) rest args k
      else if c =? 35 then string_args true rest args k
      else let taken := (conv_text (fun _ => []) c false 0).1 in
           (if c =? 115 then [args k] else []) ++ string_args false rest args (if taken then k + 1 else k)
  end.

Lemma conv_text_taken str str' c alt alt' arg arg' :
  (conv_text str c alt arg).1 = (conv_text str' c alt' arg').1.
Proof. unfold conv_text. repeat case_match; reflexivity. Qed.

Lemma string_args_conv h c rest args k : c <> 35 ->
  string_args true (replicate h 35 ++ c :: rest) args k =
  (if c =? 115 then [args k] else []) ++
  string_args false rest args (if (conv_text (fun _ => []) c false 0).1 then k + 1 else k).
Proof.
  intros Hc. induction h as [|h IH]; cbn [replicate app string_args negb].
  - now rewrite (proj2 (Z.eqb_neq _ _) Hc).
  - exact IH.
Qed.

Lemma text_at_unchanged P m m' l : forall buf,
  unchanged P m m' -> (forall a, in_range buf (Z.of_nat (length l) + 1) a -> ~ P a) ->
  text_at m buf l -> text_at m' buf l.
Proof.
  induction l as [|c l IH]; intros buf U HP Ht; cbn [text_at length] in *.
  - rewrite (unchanged_load8 _ _ _ _ U); [exact Ht|]. apply HP. unfold in_range. lia.
  - destruct Ht as (Hc & E & Ht). split; [done|]. split.
    + rewrite (unchanged_load8 _ _ _ _ U); [exact E|]. apply HP. unfold in_range. lia.
    + apply IH; [done| |done]. intros a Ha. apply HP. unfold in_range in *. lia.
Qed.

Section Loop.
Context (m0 : mem) (cb esp0 : Z) (Hcb : KERNEL_LO <= cb) (Hesp : cb + 64 <= esp0).

(** The arguments and the strings in the memory of the call. *)
Definition arg_at (k : Z) : Z := load32 m0 (esp0 + 4 * k).
Definition str_at (a : Z) : list Z := bytes m0 a (Z.to_nat (strlen m0 a)).

(** A string above 4 MB that the conversion buffer does not overlap. *)
Definition string_ok (a : Z) : Prop := KERNEL_LO <= a /\ disj cb 64 a (strlen m0 a + 1).

(** What printing changes. *)
Definition changed (a : Z) : Prop := low a \/ in_range cb 64 a.

Lemma kept_arg m k : 0 <= k -> unchanged changed m0 m -> load32 m (esp0 + 4 * k) = arg_at k.
Proof using Hcb Hesp.
  intros Hk U. eapply unchanged_load32; [exact U|]. unfold changed, low, in_range. lia.
Qed.

Lemma kept_string m a :
  string_ok a -> unchanged changed m0 m -> bytes m a (Z.to_nat (strlen m a)) = str_at a.
Proof using Hcb.
  intros [Ha Hd] U. destruct (strlen_spec m0 a) as (Hn & _).
  assert (Hoff : forall b, in_range a (strlen m0 a + 1) b -> ~ changed b)
    by (unfold changed, low, in_range, disj in *; lia).
  assert (E : strlen m a = strlen m0 a)
    by (apply strlen_eq; eapply is_cstr_unchanged; [exact U|exact Hoff|apply strlen_spec]).
  rewrite E. eapply unchanged_bytes; [exact U|]. intros b Hb. apply Hoff. unfold in_range in *. lia.
Qed.

(** One conversion, from a state whose memory is that of the call. *)
Lemma printf_conv_step c alternate k s ref :
  0 <= k -> tracks cb ref s -> unchanged changed m0 (k_mem s) -> (c = 115 -> string_ok (arg_at k)) ->
  let r := conv_text str_at c alternate (arg_at k) in
  tty (Z.of_nat (length r.2)) s ->
  exists s', printf_conv c alternate cb (esp0 + 4 * k) s = (r.1, s') /\
    tracks cb (type_chars r.2 ref) s' /\ unchanged changed m0 (k_mem s') /\
    forall n, 0 <= n -> tty (n + Z.of_nat (length r.2)) s -> tty n s'.
Proof using Hcb Hesp.
  intros Hk Ht U Hs r Hr.
  destruct (printf_conv_spec str_at c alternate cb (esp0 + 4 * k) s Hcb) as (s1 & T1 & E).
  - rewrite kept_arg by done. intros Ec. destruct (Hs Ec) as [Hlow Hd]. split; [exact Hlow|].
    symmetry. apply kept_string; [by apply Hs|done].
  - rewrite kept_arg by done. exact Hr.
  - rewrite kept_arg in E by done. fold r in E. exists (type_chars r.2 s1). split; [exact E|].
    assert (Hc1 : k_con s1 = k_con s) by (destruct T1 as [-> _]; reflexivity).
    split; [apply type_chars_tracks; by eapply tracks_trans|]. split.
    + destruct (type_chars_tty r.2 0 s1) as [_ U']; [lia|by eapply tty_con|].
      apply (unchanged_trans _ _ (k_mem s)); [exact U|]. apply (unchanged_trans _ _ (k_mem s1)).
      * destruct T1 as [_ U1]. eapply unchanged_weaken; [|exact U1]. by right.
      * eapply unchanged_weaken; [|exact U']. by left.
    + intros n Hn Htn. apply (type_chars_tty r.2 n s1); [done|]. by eapply tty_con.
Qed.

Lemma printf_loop_spec fuel : forall fmt buf k s ref,
  text_at m0 buf fmt -> KERNEL_LO <= buf -> disj cb 64 buf (Z.of_nat (length fmt) + 1) ->
  complete false fmt = true -> 0 <= k -> Forall string_ok (string_args false fmt arg_at k) ->
  let text := render str_at None fmt arg_at k in
  (length fmt < fuel)%nat -> tty (Z.of_nat (length text)) s ->
  tracks cb ref s -> unchanged changed m0 (k_mem s) ->
  exists s', printf_loop fuel cb buf (esp0 + 4 * k) s = (buf + Z.of_nat (length fmt), s') /\
    tracks cb (type_chars text ref) s'.
Proof using Hcb Hesp.
  induction fuel as [|f IH]; intros fmt buf k s ref Ht0 Hb Hd Hco Hk Hst text Hf Htty Htr U; [lia|].
  assert (Ht : text_at (k_mem s) buf fmt).
  { eapply text_at_unchanged; [exact U| |exact Ht0]. unfold changed, low, in_range, disj in *. lia. }
  cbn [printf_loop]. destruct fmt as [|c rest]; cbn [text_at] in Ht.
  { rewrite Ht. exists s. cbn [length Z.of_nat]. rewrite Z.add_0_r. by split. }
  destruct Ht as (Hc0 & -> & Ht), Ht0 as (_ & _ & Ht0). rewrite (proj2 (Z.eqb_neq _ _) Hc0).
  cbn [complete render string_args negb length] in *. destruct (Z.eqb_spec c 37) as [->|Hne].
  - destruct (complete_conv rest Hco) as (h & c & rest' & -> & Hc & Hco').
    rewrite string_args_conv in Hst by done. apply Forall_app in Hst as [Hst1 Hst2].
    rewrite length_app, length_replicate in *. cbn [length] in *.
    pose proof (text_at_fuel _ _ _ Ht) as Hfu. rewrite length_app, length_replicate in Hfu. cbn [length] in Hfu.
    rewrite (skip_alternate_spec _ c rest' h _ _ Hc Ht) by lia.
    apply text_at_app in Ht as Htc. rewrite length_replicate in Htc. destruct Htc as (_ & -> & Htr').
    apply text_at_app in Ht0. rewrite length_replicate in Ht0. destruct Ht0 as (_ & _ & Ht0).
    unfold text in *. clear text. rewrite render_conv in * by done. cbv zeta in *.
    replace (negb (buf + 1 + Z.of_nat h =? buf + 1)) with (false || negb (h =? 0)%nat)
      by (cbn; f_equal; destruct (Nat.eqb_spec h 0), (Z.eqb_spec (buf + 1 + Z.of_nat h) (buf + 1)); lia).
    set (alt := false || negb (h =? 0)%nat) in *.
    destruct (printf_conv_step c alt k s ref Hk Htr U) as (s1 & E1 & T1 & U1 & Ty1).
    { intros ->. by inversion_clear Hst1. }
    { rewrite length_app in Htty. eapply tty_weaken; [exact Htty|lia]. }
    set (r := conv_text str_at c alt (arg_at k)) in *. rewrite E1.
    rewrite (conv_text_taken _ str_at c _ alt _ (arg_at k)) in Hst2. fold r in Hst2.
    set (k' := if r.1 then k + 1 else k) in *.
    replace (if r.1 then esp0 + 4 * k + 4 else esp0 + 4 * k) with (esp0 + 4 * k')
      by (unfold k'; destruct r.1; lia).
    destruct (IH rest' (buf + 1 + Z.of_nat h + 1) k' s1 (type_chars r.2 ref)) as (s' & E' & T');
      [exact Ht0|lia|unfold disj in *; lia|exact Hco'|unfold k'; destruct r.1; lia|exact Hst2|lia| |exact T1|exact U1|].
    { apply Ty1; [lia|]. rewrite length_app in Htty. eapply tty_weaken; [exact Htty|lia]. }
    exists s'. rewrite type_chars_app. split; [rewrite E'; f_equal; lia|exact T'].
  - destruct (putc_tty (Z.of_nat (length (render str_at None rest arg_at k))) c s) as [T1 U1];
      [lia|eapply tty_weaken; [exact Htty|unfold text; cbn [length]; lia]|].
    destruct (IH rest (buf + 1) k (putc c s) (putc c ref)) as (s' & E' & T');
      [exact Ht0|lia|unfold disj in *; lia|exact Hco|exact Hk|exact Hst|lia|exact T1|by apply putc_tracks| |].
    { eapply unchanged_trans; [exact U|]. eapply unchanged_weaken; [|exact U1]. by left. }
    exists s'. split; [rewrite E'; f_equal; lia|exact T'].
Qed.
End Loop.

(** The whole call. *)
Lemma printf_spec conv_buf format esp s :
  let m := k_mem s in
  let n := strlen m format in
  let fmt := bytes m format (Z.to_nat n) in
  let text := render (str_at m) None fmt (arg_at m esp) 0 in
  KERNEL_LO <= conv_buf -> conv_buf + 64 <= esp -> KERNEL_LO <= format -> disj conv_buf 64 format (n + 1) ->
  complete false fmt = true -> Forall (string_ok m conv_buf) (string_args false fmt (arg_at m esp) 0) ->
  0 <= screen_x (k_con s) < NUM_COLS -> 0 <= screen_y (k_con s) ->
  screen_y (k_con s) + Z.of_nat (length text) < 20000 ->
  exists s', printf conv_buf format esp s = (n, s') /\
    s' = set_k_mem (k_mem s') (type_chars text s) /\
    unchanged (in_range conv_buf 64) (k_mem (type_chars text s)) (k_mem s').
Proof.
  intros m n fmt text Hc He Hf Hd Hco Hst Hx Hy Hroom.
  pose proof (strlen_spec m format) as Hs. fold n in Hs. pose proof Hs as (Hn & _).
  assert (Hlen : length fmt = Z.to_nat n) by apply length_bytes.
  assert (Ht : text_at m format fmt) by (apply text_at_cstr; rewrite Z2Nat.id by lia; exact Hs).
  unfold printf.
  destruct (printf_loop_spec m conv_buf esp Hc He (S (mem_size m)) fmt format 0 s s) as (s' & E & T);
    [exact Ht|exact Hf|rewrite Hlen, Z2Nat.id by lia; exact Hd|exact Hco|lia|exact Hst| |by split
    |split; [by destruct s|apply unchanged_refl]|apply unchanged_refl|].
  { pose proof (text_at_fuel _ _ _ Ht). lia. }
  rewrite Z.mul_0_r, Z.add_0_r in E. fold m. rewrite E. exists s'.
  split; [f_equal; lia|]. exact T.
Qed.

(** ** Theorem *)

(** C26 printf types exactly the text its format and arguments stand for: the
    characters of the format with every conversion replaced by its argument in
    decimal, signed decimal, hexadecimal, eight hexadecimal digits, as a character
    or as a string.  It returns the length of the format, and apart from what putc
    does for each character only the conversion buffer changes. *)
Theorem printf_correct conv_buf format esp s :
  let m := k_mem s in
  let n := strlen m format in
  let fmt := bytes m format (Z.to_nat n) in
  let text := render (str_at m) None fmt (arg_at m esp) 0 in
  KERNEL_LO <= conv_buf -> conv_buf + 64 <= esp -> KERNEL_LO <= format -> disj conv_buf 64 format (n + 1) ->
  complete false fmt = true -> Forall (string_ok m conv_buf) (string_args false fmt (arg_at m esp) 0) ->
  0 <= screen_x (k_con s) < NUM_COLS -> 0 <= screen_y (k_con s) ->
  screen_y (k_con s) + Z.of_nat (length text) < 20000 ->
  exists s', printf conv_buf format esp s = (n, s') /\
    s' = set_k_mem (k_mem s') (type_chars text s) /\
    unchanged (in_range conv_buf 64) (k_mem (type_chars text s)) (k_mem s').
Proof. exact (printf_spec conv_buf format esp s). Qed.

(** The format "%#x %d" with the arguments 0xBEEF and -7 on the stack. *)
Definition printf_state : kst :=
  let m := Mem ∅ ∅ 0 in
  let m := store_list m 0x500000 [37; 35; 120; 32; 37; 100] in
  let m := store32 m 0x7FF000 0xBEEF in
  let m := store32 m 0x7FF004 (u32 (-7)) in
  mkKst m (mkConsole 0 0) (mkPic 0 0) 0 (mkKeyboard 0 0 0 0 0 0 0) (mkFilesys 0 0 0 0 0) 0 0
    (mkCpu true 0 0 0 0) [].

Lemma printf_state_text :
  let m := k_mem printf_state in
  strlen m 0x500000 = 6 /\ bytes m 0x500000 6 = [37; 35; 120; 32; 37; 100] /\
  render (str_at m) None [37; 35; 120; 32; 37; 100] (arg_at m 0x7FF000) 0 =
    [48; 48; 48; 48; 66; 69; 69; 70; 32; 45; 55].
Proof. split; [vm_compute; reflexivity|]. split; vm_compute; reflexivity. Qed.

(** It types "0000BEEF -7". *)
Lemma printf_correct_witness :
  exists s', printf 0x7FE000 0x500000 0x7FF000 printf_state = (6, s') /\
    k_con s' = k_con (type_chars [48; 48; 48; 48; 66; 69; 69; 70; 32; 45; 55] printf_state).
Proof.
  destruct printf_state_text as (En & Ef & Et).
  pose proof (printf_correct 0x7FE000 0x500000 0x7FF000 printf_state) as Hw. cbv zeta in Hw.
  rewrite En in Hw. change (Z.to_nat 6) with 6%nat in Hw. rewrite Ef, Et in Hw.
  destruct Hw as (s' & E & Es & _).
  - unfold KERNEL_LO. lia.
  - lia.
  - unfold KERNEL_LO. lia.
  - unfold disj. lia.
  - reflexivity.
  - cbn. constructor.
  - unfold NUM_COLS. cbn. lia.
  - cbn. lia.
  - cbn. lia.
  - exists s'. split; [exact E|]. revert Es. generalize (type_chars [48; 48; 48; 48; 66; 69; 69; 70; 32; 45; 55] printf_state).
    intros t Es. rewrite Es. reflexivity.
Defined.
