(* ===== verification/Exceptions.v ===== *)
(** * The exception printers, exceptions_c.c

    One function per exception: it blanks the screen, prints a line and stays in a loop.
    The theorem says what is on the screen then.  (The entries of the interrupt table lead
    to the linkage of Trap.v, which halts the process instead.) *)

From S2P Require Import Prelude Mem CString State Console Printf.
Import String.StringSyntax.
#[local] Open Scope string_scope.
#[local] Open Scope Z_scope.

(** ** The functions *)

Inductive exception :=
| Divide | NonMaskable | Breakpoint | Overflow | BoundRange | InvalidOpcode | NoDevice | DoubleFault | InvalidTss
| SegmentMissing | StackSegment | GeneralProtection | PageFault | FloatError | AlignCheck | MachineCheck
| FloatException | SystemCall.

(** The state in which a function loops. *)
Inductive never_returns := Loops (s : kst).

(** The format strings, without their final newline. *)
Definition text_of (e : exception) : String.string :=
  match e with
  | Divide => "Divide by Zero Error!" | NonMaskable => "NMI Interrupt" | Breakpoint => "BREAKPOINT"
  | Overflow => "OVERFLOW ERROR" | BoundRange => "BOUND_RANGE ERROR" | InvalidOpcode => "INVALID_OPCODE ERROR"
  | NoDevice => "DEVICE_NOT_AVAILABLE ERROR" | DoubleFault => "DOUBLE_FAULT ERROR" | InvalidTss => "INVALID_TSS ERROR"
  | SegmentMissing => "SEGMENT_MISSING ERROR" | StackSegment => "STACK_SEG_FAULT ERROR"
  | GeneralProtection => "GENERAL_PROT ERROR" | PageFault => "PAGE_FAULT ERROR" | FloatError => "FLOATING POINT ERROR"
  | AlignCheck => "ALIGN_CHECK ERROR" | MachineCheck => "MACHINE_CHECK ERROR"
  | FloatException => "FLOATING POINT EXCEPTION ERROR" | SystemCall => "SYSTEM CALL"
  end.

Definition exception_text (e : exception) : list Z := codes (text_of e) ++ [10].

Section Printers.
(** The addresses of the strings, and of the frame of printf. *)
Context (text_addr : exception -> Z) (conv_buf args : Z).

Definition print_exception (e : exception) (s : kst) : never_returns :=
  let s := clear s in
  let '(_, s) := printf conv_buf (text_addr e) args s in
  Loops s.

Definition divide_err : kst -> never_returns := print_exception Divide.
Definition nmi : kst -> never_returns := print_exception NonMaskable.
Definition breakpoint : kst -> never_returns := print_exception Breakpoint.
Definition overflow : kst -> never_returns := print_exception Overflow.
Definition b_range : kst -> never_returns := print_exception BoundRange.
Definition inv_op : kst -> never_returns := print_exception InvalidOpcode.
Definition dev_not_avail : kst -> never_returns := print_exception NoDevice.
Definition db_fault : kst -> never_returns := print_exception DoubleFault.
Definition inv_tss : kst -> never_returns := print_exception InvalidTss.
Definition seg_miss : kst -> never_returns := print_exception SegmentMissing.
Definition stack_seg : kst -> never_returns := print_exception StackSegment.
Definition gen_prot : kst -> never_returns := print_exception GeneralProtection.
Definition page_fault : kst -> never_returns := print_exception PageFault.
Definition float_err : kst -> never_returns := print_exception FloatError.
Definition align_chk : kst -> never_returns := print_exception AlignCheck.
Definition machine_chk : kst -> never_returns := print_exception MachineCheck.
Definition float_ex : kst -> never_returns := print_exception FloatException.
Definition sys_call_handle (call_number arg1 arg2 arg3 : Z) : kst -> never_returns := print_exception SystemCall.

Definition printer (e : exception) : kst -> never_returns :=
  match e with
  | Divide => divide_err | NonMaskable => nmi | Breakpoint => breakpoint | Overflow => overflow | BoundRange => b_range
  | InvalidOpcode => inv_op | NoDevice => dev_not_avail | DoubleFault => db_fault | InvalidTss => inv_tss
  | SegmentMissing => seg_miss | StackSegment => stack_seg | GeneralProtection => gen_prot | PageFault => page_fault
  | FloatError => float_err | AlignCheck => align_chk | MachineCheck => machine_chk | FloatException => float_ex
  | SystemCall => sys_call_handle 0 0 0 0
  end.

(** ** A line on the screen *)

(** In front of the last column putc and putc_terminal do the same. *)
Lemma putc_terminal_same c s :
  c <> 9 -> c <> 10 -> c <> 13 -> screen_x (k_con s) < NUM_COLS - 1 -> putc c s = putc_terminal c s.
Proof using Type.
  intros H1 H2 H3 Hx. unfold putc, putc_terminal. cbv zeta.
  rewrite (proj2 (Z.eqb_neq c 9) H1), (proj2 (Z.eqb_neq c 10) H2), (proj2 (Z.eqb_neq c 13) H3). cbn [orb].
  change (k_con (put_cell c s)) with (k_con s). by rewrite (proj2 (Z.leb_gt (NUM_COLS - 1) (screen_x (k_con s))) Hx), andb_false_r.
Qed.

Lemma type_chars_row l : forall s,
  on_screen (k_con s) -> Forall (fun c => 0 <= c < 256 /\ c <> 9 /\ c <> 10 /\ c <> 13) l ->
  screen_x (k_con s) + Z.of_nat (length l) < NUM_COLS -> type_chars l s = print_chars l s.
Proof using Type.
  induction l as [|c l IH]; intros s Hos Hl Hx; [done|]. apply Forall_cons in Hl as [(Hc & C9 & C10 & C13) Hr].
  cbn [length] in Hx. unfold type_chars, print_chars. cbn [fold_left]. rewrite (putc_terminal_same c s C9 C10 C13) by lia.
  assert (Hone : Forall (fun c => 0 <= c < 256 /\ c <> 9 /\ c <> 10 /\ c <> 13) [c]) by (constructor; [exact (conj Hc (conj C9 (conj C10 C13)))|constructor]).
  destruct (print_chars_row [c] s Hos Hone ltac:(cbn [length]; lia)) as (Ec & _).
  change (print_chars [c] s) with (putc_terminal c s) in Ec. cbn [length] in Ec.
  apply (IH (putc_terminal c s)); [|exact Hr|]; rewrite Ec; unfold on_screen in *; cbn [screen_x screen_y]; lia.
Qed.

Lemma exception_chars e :
  Forall (fun c => 0 <= c < 256 /\ c <> 9 /\ c <> 10 /\ c <> 13) (codes (text_of e)) /\ complete false (exception_text e) = true /\
  (length (codes (text_of e)) <= 30)%nat /\ Forall (fun c => c <> 0) (exception_text e) /\ ~ 37 ∈ exception_text e.
Proof using Type.
  destruct e; repeat (split; [apply (bool_decide_unpack _); vm_compute; exact I|]); apply (bool_decide_unpack _); vm_compute; exact I.
Qed.

Lemma string_args_none fmt arg k : ~ 37 ∈ fmt -> string_args false fmt arg k = [].
Proof using Type.
  induction fmt as [|c fmt IH]; intros Hn; [done|]. cbn [string_args negb].
  rewrite not_elem_of_cons in Hn. destruct Hn as [Hc Hn]. rewrite (proj2 (Z.eqb_neq c 37)) by congruence. by apply IH.
Qed.

(** Text without a conversion is typed as it is. *)
Lemma render_plain str arg fmt k : ~ 37 ∈ fmt -> render str None fmt arg k = fmt.
Proof using Type.
  induction fmt as [|c fmt IH]; intros Hn; [done|]. cbn [render].
  rewrite not_elem_of_cons in Hn. destruct Hn as [Hc Hn]. rewrite (proj2 (Z.eqb_neq c 37)) by congruence. by rewrite IH.
Qed.

(** ** Theorem *)

(** Whatever exception it is, its function never returns, and in the end the screen is
    blank but for the line of the exception, which starts at the place where the cursor was:
    [clear] does not move the cursor.  The text fits in the row when the cursor is in front
    of column 50. *)
Theorem exception_screen e s :
  KERNEL_LO <= conv_buf -> conv_buf + 64 <= args -> KERNEL_LO <= text_addr e ->
  disj conv_buf 64 (text_addr e) (Z.of_nat (length (exception_text e)) + 1) ->
  bytes (k_mem s) (text_addr e) (length (exception_text e)) = exception_text e ->
  load8 (k_mem s) (text_addr e + Z.of_nat (length (exception_text e))) = 0 ->
  on_screen (k_con s) -> screen_x (k_con s) < 50 ->
  exists s', printer e s = Loops s' /\
    k_con s' = mkConsole 0 (screen_y (k_con s) + 1) /\
    forall y x, 0 <= y < NUM_ROWS -> 0 <= x < NUM_COLS ->
      cell (k_mem s') y x =
        if y =? screen_y (k_con s) then
          (if x <? screen_x (k_con s) then 32 else default 32 (codes (text_of e) !! Z.to_nat (x - screen_x (k_con s)))) else 32.
Proof using Type.
  intros Hc Harg Hlo Hd Hb Hz Hos Hx. pose proof Hos as [Hx0 Hy]. destruct (exception_chars e) as (Hch & Hcomp & Hlen & Hnz & Hpc).
  assert (Ep : printer e s = print_exception e s) by (by destruct e).
  destruct (clear_spec s) as [Uc Cc]. set (s0 := clear s) in *. assert (Econ : k_con s0 = k_con s) by done.
  assert (Hoff : forall b, KERNEL_LO <= b -> ~ screen_bytes b)
    by (unfold screen_bytes, in_range, VIDEO, NUM_ROWS, NUM_COLS, KERNEL_LO; lia).
  assert (Hstr : is_cstr (k_mem s0) (text_addr e) (Z.of_nat (length (exception_text e)))).
  { apply is_cstr_of_bytes; [|rewrite (unchanged_load8 _ _ _ _ Uc); [exact Hz|apply Hoff; lia]|exact Hnz].
    rewrite <- Hb at 2. eapply unchanged_bytes; [exact Uc|]. intros b Hr. apply Hoff. unfold in_range in Hr. lia. }
  assert (Hb0 : bytes (k_mem s0) (text_addr e) (length (exception_text e)) = exception_text e).
  { rewrite <- Hb at 2. eapply unchanged_bytes; [exact Uc|]. intros b Hr. apply Hoff. unfold in_range in Hr. lia. }
  pose proof (printf_spec conv_buf (text_addr e) args s0) as P. cbv zeta in P.
  rewrite (strlen_eq _ _ _ Hstr), Nat2Z.id, Hb0, (render_plain _ _ _ _ Hpc) in P.
  assert (Hcl : length (exception_text e) = S (length (codes (text_of e)))) by (unfold exception_text; rewrite length_app; cbn; lia).
  destruct P as (s1 & E1 & E2 & U2); try assumption; try (rewrite Econ; unfold NUM_COLS, NUM_ROWS in *; lia).
  { rewrite (string_args_none _ _ _ Hpc). constructor. }
  rewrite Ep. unfold print_exception. fold s0. rewrite E1. exists s1. split; [done|].
  unfold exception_text in E2, U2. rewrite type_chars_app, (type_chars_row (codes (text_of e)) s0) in E2, U2 by (first [by rewrite Econ|exact Hch|rewrite Econ; unfold NUM_COLS; lia]).
  destruct (print_chars_row (codes (text_of e)) s0) as (C1 & C2 & C3); [by rewrite Econ|exact Hch|rewrite Econ; unfold NUM_COLS; lia|].
  set (s2 := print_chars (codes (text_of e)) s0) in *. rewrite Econ in C1, C2, C3.
  assert (Ec1 : k_con s1 = k_con (putc 10 s2)) by (rewrite E2; reflexivity).
  split; [rewrite Ec1; change (k_con (putc 10 s2)) with (mkConsole 0 (screen_y (k_con s2) + 1)); by rewrite C1|].
  intros y x Hy' Hx'. assert (Ecell : forall y x, 0 <= y < NUM_ROWS -> 0 <= x < NUM_COLS -> cell (k_mem s1) y x = cell (k_mem s2) y x).
  { intros y1 x1 H1 H2. unfold cell. change (k_mem (type_chars [10] s2)) with (k_mem s2) in U2. apply (unchanged_load8 _ _ _ _ U2).
    unfold in_range, VIDEO, NUM_ROWS, NUM_COLS, KERNEL_LO in *. lia. }
  assert (Eblank : forall y x, 0 <= y < NUM_ROWS -> 0 <= x < NUM_COLS -> cell (k_mem s0) y x = 32).
  { intros y1 x1 H1 H2. unfold cell. apply Cc. unfold NUM_ROWS, NUM_COLS in *. lia. }
  rewrite Ecell by assumption. destruct (Z.eqb_spec y (screen_y (k_con s))) as [->|Hne]; [|rewrite C3, Eblank by (first [assumption|by left]); done].
  destruct (Z.ltb_spec x (screen_x (k_con s))) as [Hlt|Hge]; [rewrite C3, Eblank by (first [assumption|right; by left]); done|].
  destruct (codes (text_of e) !! Z.to_nat (x - screen_x (k_con s))) as [c|] eqn:El; cbn [default from_option id].
  - rewrite <- (C2 _ _ El). f_equal. lia.
  - apply lookup_ge_None in El. rewrite C3, Eblank by (first [assumption|right; right; lia]). done.
Qed.
End Printers.

(** A page fault with the cursor in row 3. *)
Definition fault_state : kst :=
  mkKst (store_list (Mem ∅ ∅ 0) 0x500000 (exception_text PageFault)) (mkConsole 7 3) (mkPic 0 0) 0 (mkKeyboard 0 0 0 0 0 0 0)
    (mkFilesys 0 0 0 0 0) 0 0 (mkCpu true 0 0 0 0) [].

Lemma exception_screen_witness :
  exists s', printer (fun _ => 0x500000) 0x7FE000 0x7FF000 PageFault fault_state = Loops s' /\
    k_con s' = mkConsole 0 4 /\ cell (k_mem s') 3 7 = 80 /\ cell (k_mem s') 3 6 = 32.
Proof.
  destruct (exception_screen (fun _ => 0x500000) 0x7FE000 0x7FF000 PageFault fault_state) as (s' & E & C & D);
    [unfold KERNEL_LO; lia|lia|unfold KERNEL_LO; lia|right; vm_compute; congruence|vm_compute; reflexivity|vm_compute; reflexivity|
     unfold on_screen, NUM_COLS, NUM_ROWS; cbn; lia|cbn; lia|].
  exists s'. split; [exact E|]. clear E. change (screen_y (k_con fault_state)) with 3 in *. change (screen_x (k_con fault_state)) with 7 in *.
  split; [exact C|]. rewrite !D by (unfold NUM_ROWS, NUM_COLS; lia). split; reflexivity.
Defined.
