(* ===== verification/I8259.v ===== *)
(** * The interrupt controller driver, i8259.c

    The driver keeps the mask bytes it wrote last ([master_mask], [slave_mask])
    and rewrites them to enable or disable a line.  Line [i] is bit [i] of the
    master mask below 8 and bit [i - 8] of the slave mask from 8 to 15. *)

From S2P Require Import Prelude Mem State.

Definition MASTER_8259_PORT : Z := 0x20.
Definition SLAVE_8259_PORT : Z := 0xA0.
Definition ICW1 : Z := 0x11.
Definition ICW2_MASTER : Z := 0x20.
Definition ICW2_SLAVE : Z := 0x28.
Definition ICW3_MASTER : Z := 0x04.
Definition ICW3_SLAVE : Z := 0x02.
Definition ICW4 : Z := 0x01.
Definition EOI : Z := 0x20.

(** ** Operations *)

Definition i8259_init (s : kst) : kst :=
  let s := outb ICW1 MASTER_8259_PORT s in
  let s := outb ICW2_MASTER (MASTER_8259_PORT + 1) s in
  let s := outb ICW3_MASTER (MASTER_8259_PORT + 1) s in
  let s := outb ICW4 (MASTER_8259_PORT + 1) s in
  let s := outb ICW1 SLAVE_8259_PORT s in
  let s := outb ICW2_SLAVE (SLAVE_8259_PORT + 1) s in
  let s := outb ICW3_SLAVE (SLAVE_8259_PORT + 1) s in
  outb ICW4 (SLAVE_8259_PORT + 1) s.

Definition enable_irq (irq_num : Z) (s : kst) : kst :=
  if irq_num <? 8 then
    let value := u8 (Z.land (master_mask (k_pic s)) (Z.lnot (Z.shiftl 1 irq_num))) in
    outb value (MASTER_8259_PORT + 1) (upd_pic (set_master_mask value) s)
  else
    let irq_num := irq_num - 8 in
    let value := u8 (Z.land (slave_mask (k_pic s)) (Z.lnot (Z.shiftl 1 irq_num))) in
    outb value (SLAVE_8259_PORT + 1) (upd_pic (set_slave_mask value) s).

Definition disable_irq (irq_num : Z) (s : kst) : kst :=
  if irq_num <? 8 then
    let value := u8 (Z.lor (master_mask (k_pic s)) (Z.shiftl 1 irq_num)) in
    outb value (MASTER_8259_PORT + 1) (upd_pic (set_master_mask value) s)
  else
    let irq_num := irq_num - 8 in
    let value := u8 (Z.lor (slave_mask (k_pic s)) (Z.shiftl 1 irq_num)) in
    outb value (SLAVE_8259_PORT + 1) (upd_pic (set_slave_mask value) s).

Definition send_eoi (irq_num : Z) (s : kst) : kst :=
  let s := if 8 <=? irq_num then outb EOI SLAVE_8259_PORT s else s in
  outb EOI MASTER_8259_PORT s.

(** ** Masked lines *)

(** Line [i] is masked in the bytes the driver wrote last. *)
Definition masked (s : kst) (i : Z) : bool :=
  if i <? 8 then Z.testbit (master_mask (k_pic s)) i
  else Z.testbit (slave_mask (k_pic s)) (i - 8).

(** The byte written last to a port. *)
Fixpoint last_out (port : Z) (log : list io_event) : option Z :=
  match log with
  | [] => None
  | OutB v p :: log' => if p =? port then Some v else last_out port log'
  | _ :: log' => last_out port log'
  end.

(** What the driver remembers is what the controllers were told. *)
Definition pic_synced (s : kst) : Prop :=
  last_out (MASTER_8259_PORT + 1) (k_io s) = Some (master_mask (k_pic s)) /\
  last_out (SLAVE_8259_PORT + 1) (k_io s) = Some (slave_mask (k_pic s)).

#[export] Instance pic_synced_dec s : Decision (pic_synced s).
Proof. unfold pic_synced. apply _. Defined.

Lemma testbit_u8 x i : 0 <= i < 8 -> Z.testbit (u8 x) i = Z.testbit x i.
Proof. intros. unfold u8. change 256 with (2 ^ 8). apply Z.mod_pow2_bits_low. lia. Qed.

Lemma testbit_bit n i : 0 <= n -> 0 <= i -> Z.testbit (Z.shiftl 1 n) i = (i =? n).
Proof.
  intros Hn Hi. rewrite Z.shiftl_spec by done. destruct (Z.eqb_spec i n) as [->|].
  - rewrite Z.sub_diag. done.
  - destruct (Z.lt_ge_cases i n); [apply Z.testbit_neg_r; lia|].
    apply (Z.bits_above_log2 1); cbn; lia.
Qed.

Lemma testbit_clear x n i :
  0 <= n -> 0 <= i ->
  Z.testbit (Z.land x (Z.lnot (Z.shiftl 1 n))) i = if i =? n then false else Z.testbit x i.
Proof.
  intros Hn Hi. rewrite Z.land_spec, Z.lnot_spec, testbit_bit by done.
  destruct (i =? n); cbn; [apply andb_false_r|apply andb_true_r].
Qed.

Lemma testbit_set x n i :
  0 <= n -> 0 <= i ->
  Z.testbit (Z.lor x (Z.shiftl 1 n)) i = if i =? n then true else Z.testbit x i.
Proof.
  intros Hn Hi. rewrite Z.lor_spec, testbit_bit by done.
  destruct (i =? n); [apply orb_true_r|apply orb_false_r].
Qed.

Lemma masked_enable i j s :
  0 <= i < 16 -> 0 <= j < 16 ->
  masked (enable_irq i s) j = if j =? i then false else masked s j.
Proof.
  intros Hi Hj. unfold masked, enable_irq.
  destruct (Z.ltb_spec i 8), (Z.ltb_spec j 8); cbn;
    rewrite ?testbit_u8, ?testbit_clear by lia;
    rewrite ?(proj2 (Z.eqb_neq j i)) by lia; try done.
  replace (j - 8 =? i - 8) with (j =? i) by lia. done.
Qed.

Lemma masked_disable i j s :
  0 <= i < 16 -> 0 <= j < 16 ->
  masked (disable_irq i s) j = if j =? i then true else masked s j.
Proof.
  intros Hi Hj. unfold masked, disable_irq.
  destruct (Z.ltb_spec i 8), (Z.ltb_spec j 8); cbn;
    rewrite ?testbit_u8, ?testbit_set by lia;
    rewrite ?(proj2 (Z.eqb_neq j i)) by lia; try done.
  replace (j - 8 =? i - 8) with (j =? i) by lia. done.
Qed.

Lemma pic_synced_enable i s : pic_synced s -> pic_synced (enable_irq i s).
Proof.
  intros [Hm Hs]. unfold pic_synced, enable_irq.
  destruct (i <? 8); cbn; rewrite u8_u8; done.
Qed.

Lemma pic_synced_disable i s : pic_synced s -> pic_synced (disable_irq i s).
Proof.
  intros [Hm Hs]. unfold pic_synced, disable_irq.
  destruct (i <? 8); cbn; rewrite u8_u8; done.
Qed.

(** Enabling a line clears its mask bit and disabling sets it, every other
    of the sixteen lines keeps its state, and the mask registers of both
    controllers hold what the driver believes they hold. *)
Theorem irq_mask_correct i s :
  0 <= i < 16 -> pic_synced s ->
  (forall j, 0 <= j < 16 -> masked (enable_irq i s) j = (negb (j =? i) && masked s j)%bool) /\
  (forall j, 0 <= j < 16 -> masked (disable_irq i s) j = ((j =? i) || masked s j)%bool) /\
  pic_synced (enable_irq i s) /\ pic_synced (disable_irq i s).
Proof.
  intros Hi Hs. split; [|split; [|split]].
  - intros j Hj. rewrite masked_enable by done. by destruct (j =? i).
  - intros j Hj. rewrite masked_disable by done. by destruct (j =? i).
  - by apply pic_synced_enable.
  - by apply pic_synced_disable.
Qed.

(** Both controllers told to mask every line. *)
Definition masked_state : kst :=
  mkKst (Mem ∅ ∅ 0) (mkConsole 0 0) (mkPic 0xFF 0xFF) 0 (mkKeyboard 0 0 0 0 0 0 0)
        (mkFilesys 0 0 0 0 0) 0 0 (mkCpu true 0 0 0 0)
        [OutB 0xFF (MASTER_8259_PORT + 1); OutB 0xFF (SLAVE_8259_PORT + 1)].

Lemma irq_mask_correct_witness :
  masked (enable_irq 8 masked_state) 8 = false /\ masked (enable_irq 8 masked_state) 9 = true.
Proof.
  destruct (irq_mask_correct 8 masked_state) as (Hw & _); [lia|split; reflexivity|].
  split; [rewrite (Hw 8) by lia|rewrite (Hw 9) by lia]; reflexivity.
Defined.

(** The masking loop of [entry] (kernel.c) over the sixteen lines. *)
Definition mask_all_irqs (s : kst) : kst := for_range 0 16 disable_irq s.

(** The masking loop of the boot code leaves every line masked and the driver
    in step with the controllers, whatever the masks were. *)
Lemma mask_all_irqs_spec s :
  pic_synced (mask_all_irqs s) /\
  forall j, 0 <= j < 16 -> masked (mask_all_irqs s) j = true.
Proof.
  split.
  - assert (H : (0 < 16 -> last_out (MASTER_8259_PORT + 1) (k_io (mask_all_irqs s))
                          = Some (master_mask (k_pic (mask_all_irqs s)))) /\
               (8 < 16 -> last_out (SLAVE_8259_PORT + 1) (k_io (mask_all_irqs s))
                          = Some (slave_mask (k_pic (mask_all_irqs s))))).
    { apply (for_range_ind (fun k z =>
        (0 < k -> last_out (MASTER_8259_PORT + 1) (k_io z) = Some (master_mask (k_pic z))) /\
        (8 < k -> last_out (SLAVE_8259_PORT + 1) (k_io z) = Some (slave_mask (k_pic z)))));
        [lia|lia|].
      intros j z Hj [Hm Hs]. unfold disable_irq.
      destruct (Z.ltb_spec j 8); cbn; rewrite u8_u8; split; intros;
        first [lia|done|apply Hm; lia]. }
    split; apply H; lia.
  - intros j Hj. unfold mask_all_irqs.
    apply (for_range_ind (fun k z => j < k -> masked z j = true)); [lia|lia| |lia].
    intros i z Hi IH Hlt. rewrite masked_disable by lia.
    destruct (Z.eqb_spec j i); [done|]. apply IH. lia.
Qed.
