(* ===== verification/Pcb.v ===== *)
(** * Process control blocks and file descriptors, pcb.h

    A [pcb_t] is a structure in memory.  [file_array] holds eight descriptors
    of 16 bytes (operations table, inode, file position, flags), followed by
    the parent pointer at 128, the command line at 132, the saved page base at
    1156, the saved [esp0] at 1160 and the saved [ebp] at 1164. *)

From S2P Require Import Prelude Mem State.

Definition FD_OPS : Z := 0.
Definition FD_INODE : Z := 4.
Definition FD_POS : Z := 8.
Definition FD_FLAGS : Z := 12.
Definition PCB_OLD_PCB : Z := 128.
Definition PCB_INPUT : Z := 132.
Definition PCB_OLD_PHYS : Z := 1156.
Definition PCB_OLD_ESP0 : Z := 1160.
Definition PCB_OLD_EBP : Z := 1164.
Definition PCB_SIZE : Z := 1168.

(** [pcb->file_array[fd].field] *)
Definition fd_field (pcb fd off : Z) : Z := pcb + 16 * fd + off.
Definition fd_get (m : mem) (pcb fd off : Z) : Z := load32 m (fd_field pcb fd off).
Definition fd_set (m : mem) (pcb fd off v : Z) : mem := store32 m (fd_field pcb fd off) v.

(** [for (i = 2; i < 8; i++) if (file_array[i].flags % 2 == 0) break;] *)
Fixpoint find_fd_loop (fuel : nat) (m : mem) (pcb i : Z) : Z :=
  match fuel with
  | O => i
  | S f => if fd_get m pcb i FD_FLAGS mod 2 =? 0 then i else find_fd_loop f m pcb (i + 1)
  end.
Definition find_fd (m : mem) (pcb : Z) : Z := find_fd_loop 6 m pcb 2.

(** The descriptor is in use. *)
Definition fd_used (m : mem) (pcb fd : Z) : bool := negb (fd_get m pcb fd FD_FLAGS mod 2 =? 0).

(** The bytes of a control block, and of one of its descriptors. *)
Definition pcb_region (pcb : Z) : region := (pcb, PCB_SIZE).
Definition fd_region (pcb fd : Z) : region := (pcb + 16 * fd, 16).

Lemma find_fd_loop_spec fuel : forall m pcb i,
  let r := find_fd_loop fuel m pcb i in
  i <= r <= i + Z.of_nat fuel /\
  (r < i + Z.of_nat fuel -> fd_used m pcb r = false) /\
  (forall j, i <= j < r -> fd_used m pcb j = true).
Proof.
  induction fuel as [|f IH]; intros m pcb i; cbn [find_fd_loop].
  - split; [lia|]. split; [lia|]. intros; lia.
  - unfold fd_used in *. destruct (Z.eqb_spec (fd_get m pcb i FD_FLAGS mod 2) 0) as [E|E].
    + split; [lia|]. split; [now rewrite E|]. intros; lia.
    + destruct (IH m pcb (i + 1)) as (R & F & U). split; [lia|]. split.
      * intros. apply F. lia.
      * intros j Hj. destruct (decide (j = i)) as [->|]; [|apply U; lia].
        now apply Z.eqb_neq in E as ->.
Qed.

(** The lowest free descriptor from 2 on, 8 when all are in use. *)
Lemma find_fd_spec m pcb :
  2 <= find_fd m pcb <= 8 /\
  (find_fd m pcb < 8 -> fd_used m pcb (find_fd m pcb) = false) /\
  (forall j, 2 <= j < find_fd m pcb -> fd_used m pcb j = true).
Proof. apply (find_fd_loop_spec 6 m pcb 2). Qed.

(** A descriptor table operation only looks at the control block. *)
Lemma fd_get_unchanged P m m' pcb fd off :
  unchanged P m m' -> 0 <= off -> off + 4 <= 16 ->
  (forall a, in_region (fd_region pcb fd) a -> ~ P a) ->
  fd_get m' pcb fd off = fd_get m pcb fd off.
Proof.
  intros U H0 H16 HP. unfold fd_get. eapply unchanged_load32; [exact U|].
  intros b Hb. apply HP. unfold in_region, fd_region, in_range, fd_field in *. cbn. lia.
Qed.

Lemma fd_get_set_eq m pcb fd off v : fd_get (fd_set m pcb fd off v) pcb fd off = u32 v.
Proof. apply load32_store32_eq. Qed.

Lemma fd_get_set_ne m pcb fd off v fd' off' :
  0 <= off <= 12 -> 0 <= off' <= 12 -> off mod 4 = 0 -> off' mod 4 = 0 ->
  fd <> fd' \/ off <> off' ->
  fd_get (fd_set m pcb fd off v) pcb fd' off' = fd_get m pcb fd' off'.
Proof.
  intros H1 H2 H3 H4 H5. unfold fd_get, fd_set, fd_field. apply load32_store32_ne. zdm.
Qed.

Lemma unchanged_fd_set m pcb fd off v :
  0 <= off -> off + 4 <= 16 -> unchanged (in_region (fd_region pcb fd)) m (fd_set m pcb fd off v).
Proof.
  intros. apply unchanged_store32. unfold in_region, fd_region, in_range, fd_field. cbn. lia.
Qed.

(** Reads of a field after writes to fields of descriptors. *)
Ltac fd_simpl :=
  repeat first
    [ rewrite fd_get_set_eq
    | rewrite fd_get_set_ne by
        (unfold FD_OPS, FD_INODE, FD_POS, FD_FLAGS in *; first [reflexivity | lia]) ].

(** Writes to one descriptor stay inside it. *)
Ltac fd_frame :=
  repeat (eapply unchanged_trans;
          [|apply unchanged_fd_set; unfold FD_OPS, FD_INODE, FD_POS, FD_FLAGS; lia]);
  apply unchanged_refl.
