(* ===== verification/Rtc.v ===== *)
(** * The real-time clock driver, rtc_driver.c

    [rtc_open] and [rtc_write] program register A of the clock through the
    index and data ports 0x70 and 0x71; what a port delivers is the instance of
    [Ports].  [rtc_read] spins until the interrupt handler has set
    [rtc_interrupt]: the turns of its loop are driven by a schedule that says,
    for the window in which interrupts are enabled, whether a clock interrupt
    arrives. *)

From S2P Require Import Prelude Mem State I8259 Pcb.

Definition RTC_REGC : Z := 0x8C.
Definition RTC_REGB : Z := 0x8B.
Definition RTC_REGA : Z := 0x8A.
Definition RTC_PORT : Z := 0x70.
Definition RTC_6_BIT : Z := 0x40.
Definition top_4 : Z := 0xF0.
Definition bot_4 : Z := 0x0F.
Definition init_rate : Z := 0x0F.
Definition max_rate : Z := 16.

Section Driver.
Context `{Ports}.

Definition rtc_init (s : kst) : kst :=
  let s := outb RTC_REGB RTC_PORT s in
  let '(prev, s) := inb (RTC_PORT + 1) s in
  let prev := s8 prev in
  let s := outb RTC_REGB RTC_PORT s in
  outb (Z.lor prev RTC_6_BIT) (RTC_PORT + 1) s.

(** Marks descriptor [fd] as an open clock file. *)
Definition rtc_fd_init (pcb fd : Z) (m : mem) : mem :=
  let m := fd_set m pcb fd FD_INODE 0 in
  let m := fd_set m pcb fd FD_POS 0 in
  let m := fd_set m pcb fd FD_FLAGS 1 in
  let m := fd_set m pcb fd FD_FLAGS (Z.lor (fd_get m pcb fd FD_FLAGS) (Z.shiftl 0 1)) in
  fd_set m pcb fd FD_FLAGS (Z.lor (fd_get m pcb fd FD_FLAGS) (Z.shiftl 1 8)).

Definition rtc_open (filename : Z) (s : kst) : Z * kst :=
  let rate := init_rate in
  let s := cli s in
  let s := outb RTC_REGA RTC_PORT s in
  let '(prev, s) := inb (RTC_PORT + 1) s in
  let prev := s8 prev in
  let s := outb RTC_REGA RTC_PORT s in
  let s := outb (Z.lor (Z.land prev top_4) rate) (RTC_PORT + 1) s in
  let s := enable_irq 2 s in
  let s := enable_irq 8 s in
  let s := set_rtc_interrupt 0 s in
  let i := find_fd (k_mem s) (cur_pcb s) in
  let file_idx := if i <? 8 then i else -1 in
  if file_idx =? -1 then (-1, s) else
  let s := upd_mem (rtc_fd_init (cur_pcb s) file_idx) s in
  (0, sti s).

Definition rtc_close (fd : Z) (s : kst) : Z * kst :=
  if (fd <=? 1) || (8 <=? fd) then (-1, s) else
  let flags := fd_get (k_mem s) (cur_pcb s) fd FD_FLAGS in
  if negb (Z.shiftr (Z.land flags 0x6) 1 =? 0) then (-1, s) else
  if flags mod 2 =? 0 then (-1, s) else
  (0, upd_mem (fun m => fd_set m (cur_pcb s) fd FD_FLAGS 0) s).

(** [while (input_rate >>= 1) input_base++;] for a rate of 8 bits. *)
Fixpoint rate_log2 (fuel : nat) (input_rate input_base : Z) : Z :=
  match fuel with
  | O => input_base
  | S f =>
      let input_rate := Z.shiftr input_rate 1 in
      if input_rate =? 0 then input_base else rate_log2 f input_rate (input_base + 1)
  end.

Definition rtc_write (fd buf nbytes : Z) (s : kst) : Z * kst :=
  let rate := load8 (k_mem s) buf in
  let input_rate := rate in
  if negb (Z.land input_rate (u32 (input_rate - 1)) =? 0) then (-1, s) else
  let input_base := rate_log2 8 input_rate 0 in
  if (input_base <? 2) || (10 <? input_base) then (-1, s) else
  let s := cli s in
  let s := outb RTC_REGA RTC_PORT s in
  let '(prev, s) := inb (Z.lor RTC_PORT 1) s in
  let prev := s8 prev in
  let s := outb RTC_REGA RTC_PORT s in
  let s := outb (Z.lor (Z.land prev top_4) (Z.land (max_rate - input_base) bot_4))
                (Z.lor RTC_PORT 1) s in
  (0, sti s).

Definition rtc_handler (s : kst) : kst :=
  let s := cli s in
  let s := set_rtc_interrupt 1 s in
  let s := outb RTC_REGC RTC_PORT s in
  let '(_, s) := inb (RTC_PORT + 1) s in
  let s := send_eoi 8 s in
  sti s.

(** One element of the schedule per turn of the loop: whether a clock interrupt
    is delivered between the [sti] of the turn and the [cli] of the next one.
    [None]: the loop still spins when the schedule ends. *)
Fixpoint rtc_read (sched : list bool) (s : kst) : option (Z * kst) :=
  let s := cli s in
  if negb (rtc_interrupt s =? 0) then Some (0, set_rtc_interrupt 0 s) else
  match sched with
  | [] => None
  | tick :: sched' =>
      let s := sti s in
      rtc_read sched' (if tick then rtc_handler s else s)
  end.

(** ** Frequencies *)

(** The rate the low four bits [r] of register A select. *)
Definition rtc_hz (r : Z) : Z := Z.shiftr 32768 (r - 1).

(** The part of [rtc_write] that looks at the rate byte. *)
Definition rate_accepted (rate : Z) : bool :=
  (Z.land rate (u32 (rate - 1)) =? 0) &&
  negb ((rate_log2 8 rate 0 <? 2) || (10 <? rate_log2 8 rate 0)).

Lemma rate_table :
  forallb (fun rate => Bool.eqb (rate_accepted rate)
    (existsb (Z.eqb rate) [4; 8; 16; 32; 64; 128])) (zseq 0 256) = true.
Proof using Type. vm_compute. reflexivity. Qed.

Lemma rate_accepted_iff rate :
  0 <= rate < 256 -> rate_accepted rate = true <-> rate ∈ [4; 8; 16; 32; 64; 128].
Proof using Type.
  intros Hr. pose proof rate_table as T. rewrite forallb_forall in T.
  specialize (T rate). rewrite <- list_elem_of_In in T.
  assert (E : rate_accepted rate = existsb (Z.eqb rate) [4; 8; 16; 32; 64; 128]).
  { apply Bool.eqb_prop, T. unfold zseq. apply list_elem_of_fmap.
    exists (Z.to_nat rate). split; [lia|]. apply elem_of_seq. lia. }
  rewrite E, existsb_exists. setoid_rewrite list_elem_of_In. split.
  - intros (x & Hx & Hxr). apply Z.eqb_eq in Hxr as ->. done.
  - intros Hx. exists rate. now rewrite Z.eqb_refl.
Qed.

(** The byte [rtc_write] stores keeps the upper half of register A. *)
Lemma reg_a_fields prev low :
  0 <= prev < 256 -> 0 <= low < 16 ->
  let v := u8 (Z.lor (Z.land (s8 prev) top_4) low) in
  Z.land v top_4 = Z.land prev top_4 /\ Z.land v bot_4 = low.
Proof using Type.
  intros Hp Hl v.
  assert (E : forall x, u8 x = Z.land x (Z.ones 8)) by (intros; now rewrite Z.land_ones).
  assert (Es : Z.land (s8 prev) (Z.ones 8) = prev) by (rewrite <- E; by apply s8_u8).
  assert (El : Z.land low (Z.ones 4) = low) by (apply land_ones_small; cbn; lia).
  unfold v. rewrite E, !Z.land_lor_distr_l. split.
  - rewrite <- !Z.land_assoc. change (Z.land (Z.ones 8) top_4) with top_4.
    change (Z.land top_4 top_4) with top_4. rewrite <- El, <- Z.land_assoc.
    change (Z.land (Z.ones 4) top_4) with 0. rewrite Z.land_0_r, Z.lor_0_r.
    rewrite <- Es at 2. rewrite <- Z.land_assoc. done.
  - rewrite <- !Z.land_assoc. change (Z.land (Z.ones 8) bot_4) with (Z.ones 4).
    change (Z.land top_4 (Z.ones 4)) with 0. rewrite Z.land_0_r, Z.lor_0_l. exact El.
Qed.

(** rtc_write looks at the first byte of the buffer only.  It accepts 4, 8,
    16, 32, 64 and 128, and then register A keeps its upper four bits and its
    lower four select exactly the frequency asked for; any other byte is
    refused and nothing changes. *)
Theorem rtc_write_correct fd buf nbytes s :
  let rate := load8 (k_mem s) buf in
  (rate ∈ [4; 8; 16; 32; 64; 128] ->
     exists prev v s', rtc_write fd buf nbytes s = (0, s') /\
       k_io s' = OutB v 0x71 :: OutB RTC_REGA RTC_PORT :: InB 0x71 prev
                 :: OutB RTC_REGA RTC_PORT :: k_io s /\
       Z.land v top_4 = Z.land prev top_4 /\ rtc_hz (Z.land v bot_4) = rate /\
       if_flag (k_cpu s') = true /\ k_mem s' = k_mem s) /\
  (rate ∉ [4; 8; 16; 32; 64; 128] -> rtc_write fd buf nbytes s = (-1, s)).
Proof using Type.
  intros rate. pose proof (load8_range (k_mem s) buf) as Hr. fold rate in Hr.
  pose proof (rate_accepted_iff rate Hr) as HA. unfold rate_accepted in HA.
  unfold rtc_write. fold rate.
  destruct (Z.land rate (u32 (rate - 1)) =? 0) eqn:E1; cbn [negb andb] in *.
  2: { split; [intros Hin; apply HA in Hin; done|done]. }
  destruct ((rate_log2 8 rate 0 <? 2) || (10 <? rate_log2 8 rate 0)) eqn:E2; cbn [negb] in *.
  { split; [intros Hin; apply HA in Hin; done|done]. }
  split; [|intros Hin; exfalso; by apply Hin, HA].
  intros Hin. set (k := rate_log2 8 rate 0) in *.
  assert (Hk : 2 <= k <= 7 /\ rtc_hz (16 - k) = rate).
  { clear -Hin. subst k. set_unfold in Hin.
    destruct Hin as [->|[->|[->|[->|[->|[->|[]]]]]]]; vm_compute; intuition congruence. }
  destruct Hk as [Hk Hhz].
  set (prev := u8 (port_in (OutB RTC_REGA RTC_PORT :: k_io s) 0x71)).
  assert (El : Z.land (max_rate - k) bot_4 = 16 - k).
  { change bot_4 with (Z.ones 4). unfold max_rate. apply land_ones_small; [lia|]. change (2 ^ 4) with 16. lia. }
  destruct (reg_a_fields prev (16 - k)) as [Ht Hb]; [apply u8_range|lia|].
  eexists prev, _, _. split; [reflexivity|]. split; [reflexivity|].
  change (u8 (port_in _ _)) with prev. rewrite El.
  split; [exact Ht|]. split; [|done]. now rewrite Hb.
Qed.

(** ** Opening and closing *)

Lemma rtc_fd_init_spec pcb fd m :
  let m' := rtc_fd_init pcb fd m in
  fd_get m' pcb fd FD_FLAGS = 0x101 /\ fd_get m' pcb fd FD_INODE = 0 /\
  fd_get m' pcb fd FD_POS = 0 /\ fd_get m' pcb fd FD_OPS = fd_get m pcb fd FD_OPS /\
  unchanged (in_region (fd_region pcb fd)) m m'.
Proof using Type.
  unfold rtc_fd_init. cbv zeta.
  do 4 (split; [fd_simpl; reflexivity|]).
  fd_frame.
Qed.

(** rtc_open takes the lowest free descriptor, marks it used with type 0,
    touches no other byte of memory, programs 2 Hz and unmasks lines 2 and 8.
    When no descriptor is free it returns -1 with memory unchanged, but it has
    already programmed the clock and returns with interrupts disabled. *)
Theorem rtc_open_correct filename s :
  let '(r, s') := rtc_open filename s in
  let fd := find_fd (k_mem s) (cur_pcb s) in
  (exists v rest, Z.land v bot_4 = init_rate /\ rtc_hz init_rate = 2 /\
     k_io s' = rest ++ (OutB v 0x71 :: OutB RTC_REGA RTC_PORT
               :: InB 0x71 (u8 (port_in (OutB RTC_REGA RTC_PORT :: k_io s) 0x71))
               :: OutB RTC_REGA RTC_PORT :: k_io s)) /\
  masked s' 2 = false /\ masked s' 8 = false /\ rtc_interrupt s' = 0 /\
  (fd < 8 -> r = 0 /\ if_flag (k_cpu s') = true /\
     fd_get (k_mem s') (cur_pcb s) fd FD_FLAGS = 0x101 /\
     fd_get (k_mem s') (cur_pcb s) fd FD_INODE = 0 /\
     fd_get (k_mem s') (cur_pcb s) fd FD_POS = 0 /\
     unchanged (in_region (fd_region (cur_pcb s) fd)) (k_mem s) (k_mem s')) /\
  (8 <= fd -> r = -1 /\ if_flag (k_cpu s') = false /\ k_mem s' = k_mem s).
Proof using Type.
  unfold rtc_open. cbn [fst snd inb].
  set (s1 := outb RTC_REGA RTC_PORT (cli s)).
  set (prev := u8 (port_in (k_io s1) (RTC_PORT + 1))).
  set (s2 := outb _ (RTC_PORT + 1) _).
  set (s3 := set_rtc_interrupt 0 (enable_irq 8 (enable_irq 2 s2))).
  change (k_mem s3) with (k_mem s). change (cur_pcb s3) with (cur_pcb s).
  pose proof (find_fd_spec (k_mem s) (cur_pcb s)) as (Hfd & _).
  destruct (rtc_fd_init_spec (cur_pcb s) (find_fd (k_mem s) (cur_pcb s)) (k_mem s))
    as (F1 & F2 & F3 & _ & F4).
  assert (Hio : exists v rest, Z.land v bot_4 = init_rate /\ rtc_hz init_rate = 2 /\
    k_io s3 = rest ++ (OutB v 0x71 :: OutB RTC_REGA RTC_PORT :: InB 0x71 prev
               :: OutB RTC_REGA RTC_PORT :: k_io s)).
  { exists (u8 (Z.lor (Z.land (s8 prev) top_4) init_rate)).
    exists [OutB (u8 (Z.land (slave_mask (k_pic (enable_irq 2 s2))) (Z.lnot (Z.shiftl 1 (8 - 8)))))
                 (SLAVE_8259_PORT + 1);
            OutB (u8 (Z.land (master_mask (k_pic s2)) (Z.lnot (Z.shiftl 1 2))))
                 (MASTER_8259_PORT + 1)].
    split; [apply reg_a_fields; [apply u8_range|unfold init_rate; lia]|].
    split; [reflexivity|]. cbn. rewrite !u8_u8. reflexivity. }
  assert (M2 : masked (enable_irq 8 (enable_irq 2 s2)) 2 = false)
    by (now rewrite !masked_enable by lia).
  assert (M8 : masked (enable_irq 8 (enable_irq 2 s2)) 8 = false)
    by (now rewrite !masked_enable by lia).
  destruct (Z.ltb_spec (find_fd (k_mem s) (cur_pcb s)) 8).
  - zdecide. repeat split_and!; try done; lia.
  - cbn [Z.eqb]. repeat split_and!; try done; lia.
Qed.

(** With a free descriptor the memory only changes in that descriptor. *)
Lemma rtc_open_state filename s :
  let fd := find_fd (k_mem s) (cur_pcb s) in
  exists s', rtc_open filename s = (if fd <? 8 then 0 else -1, s') /\
    k_mem s' = (if fd <? 8 then rtc_fd_init (cur_pcb s) fd (k_mem s) else k_mem s) /\
    cur_pcb s' = cur_pcb s /\ k_fs s' = k_fs s.
Proof using Type.
  intros fd. pose proof (find_fd_spec (k_mem s) (cur_pcb s)) as (Hfd & _). fold fd in Hfd.
  unfold rtc_open. cbn [inb].
  match goal with |- context [find_fd (k_mem ?x) (cur_pcb ?x)] => set (s3 := x) end.
  change (find_fd (k_mem s3) (cur_pcb s3)) with fd.
  destruct (Z.ltb_spec fd 8); [|eexists; split; [reflexivity|done]].
  replace (fd =? -1) with false by lia. eexists. split; [reflexivity|done].
Qed.

(** Closing the descriptor rtc_open returned frees it, and closing it again,
    or closing any descriptor below 2 or above 7, fails and changes nothing. *)
Theorem rtc_open_close filename s s' :
  rtc_open filename s = (0, s') ->
  let fd := find_fd (k_mem s) (cur_pcb s) in
  exists s'', rtc_close fd s' = (0, s'') /\
    fd_used (k_mem s'') (cur_pcb s) fd = false /\
    rtc_close fd s'' = (-1, s'') /\
    (forall j, j < 2 \/ 8 <= j -> rtc_close j s'' = (-1, s'')).
Proof using Type.
  intros Ho fd. pose proof (find_fd_spec (k_mem s) (cur_pcb s)) as (Hfd & _).
  assert (E : k_mem s' = rtc_fd_init (cur_pcb s) fd (k_mem s) /\ cur_pcb s' = cur_pcb s /\ fd < 8).
  { destruct (rtc_open_state filename s) as (s1 & E1 & Em & Ep & _). fold fd in E1, Em.
    rewrite E1 in Ho. destruct (Z.ltb_spec fd 8); [|discriminate].
    injection Ho as <-. done. }
  destruct E as (Em & Ep & Hlt). fold fd in Hfd.
  destruct (rtc_fd_init_spec (cur_pcb s) fd (k_mem s)) as (F1 & _).
  exists (upd_mem (fun m => fd_set m (cur_pcb s) fd FD_FLAGS 0) s').
  unfold rtc_close, fd_used. rewrite Ep, Em, F1. zdecide. cbn [k_mem cur_pcb upd_mem set_k_mem].
  rewrite Em, Ep, fd_get_set_eq. repeat split_and!; [reflexivity..|].
  intros j Hj. now replace ((j <=? 1) || (8 <=? j)) with true by lia.
Qed.

Lemma rtc_read_pending sched s :
  rtc_interrupt s <> 0 -> rtc_read sched s = Some (0, set_rtc_interrupt 0 (cli s)).
Proof using Type.
  intros Hi. apply Z.eqb_neq in Hi.
  assert (E : (rtc_interrupt (cli s) =? 0) = false) by exact Hi.
  destruct sched; cbn [rtc_read]; now rewrite E.
Qed.

Lemma rtc_read_idle tick sched s :
  rtc_interrupt s = 0 ->
  rtc_read [] s = None /\
  rtc_read (tick :: sched) s =
    rtc_read sched (if tick then rtc_handler (sti (cli s)) else sti (cli s)).
Proof using Type.
  intros Hi. assert (E : (rtc_interrupt (cli s) =? 0) = true) by (now apply Z.eqb_eq).
  cbn [rtc_read]. rewrite E. done.
Qed.

(** C38 rtc_read returns 0 exactly when a clock interrupt has been handled: at
    once if one is pending, otherwise in the turn after the first one arrives,
    consuming it; without an interrupt it spins however long one waits.  It
    returns with interrupts disabled. *)
Theorem rtc_read_waits s n rest :
  (rtc_interrupt s <> 0 ->
     rtc_read rest s = Some (0, set_rtc_interrupt 0 (cli s))) /\
  (rtc_interrupt s = 0 ->
     rtc_read (repeat false n) s = None /\
     exists s', rtc_read (repeat false n ++ (true :: rest)) s = Some (0, s') /\
       rtc_interrupt s' = 0 /\ if_flag (k_cpu s') = false /\ k_mem s' = k_mem s).
Proof using Type.
  split; [apply rtc_read_pending|].
  revert s. induction n as [|n IH]; intros s Hi; cbn [repeat app].
  - destruct (rtc_read_idle true rest s Hi) as [-> ->]. split; [done|].
    rewrite rtc_read_pending by done. eexists. done.
  - rewrite !(proj2 (rtc_read_idle false _ s Hi)). apply (IH (sti (cli s))), Hi.
Qed.
End Driver.

(** A bus on which every port reads 0x26, as register A does after reset. *)
Definition test_ports : Ports := fun _ _ => 0x26.

(** A kernel with the rate 32 in a buffer at 64 and a control block at 1024. *)
Definition rtc_test_state : kst :=
  mkKst (store8 (Mem ∅ ∅ 0) 64 32) (mkConsole 0 0) (mkPic 0xFF 0xFF) 0
    (mkKeyboard 0 0 0 0 0 0 0) (mkFilesys 0 0 0 0 0) 1024 1 (mkCpu true 0 0 0 0) [].

Lemma rtc_write_correct_witness :
  exists s', @rtc_write test_ports 2 64 4 rtc_test_state = (0, s') /\
    if_flag (k_cpu s') = true.
Proof.
  destruct (@rtc_write_correct test_ports 2 64 4 rtc_test_state) as [H _].
  destruct H as (prev & v & s' & E & _ & _ & _ & I & _); [vm_compute; set_solver|].
  exists s'. split; [exact E|exact I].
Defined.

Lemma rtc_open_close_witness :
  exists s' s'', @rtc_open test_ports 0 rtc_test_state = (0, s') /\
    rtc_close 2 s' = (0, s'').
Proof.
  destruct (@rtc_open test_ports 0 rtc_test_state) as [r s'] eqn:E.
  assert (r = 0) as -> by (vm_compute in E; congruence).
  destruct (@rtc_open_close test_ports 0 rtc_test_state s' E) as (s'' & Hc & _).
  exists s', s''. split; [reflexivity|].
  replace 2 with (find_fd (k_mem rtc_test_state) (cur_pcb rtc_test_state)) by reflexivity.
  exact Hc.
Defined.

Lemma rtc_read_waits_witness :
  exists s', @rtc_read test_ports [false; false; true] rtc_test_state = Some (0, s').
Proof.
  destruct (@rtc_read_waits test_ports rtc_test_state 2 []) as [_ H].
  destruct H as [_ (s' & E & _)]; [reflexivity|]. exists s'. exact E.
Defined.
