(* ===== verification/Filesys.v ===== *)
(** * The read-only file system, filesys.c

    The image is in memory at [filesys_ptr]: one boot block (three counters,
    then directory entries of 64 bytes), [bblock_N] inode blocks and [bblock_D]
    data blocks of 4 KB each.  An inode block holds the length of a file and the
    numbers of its data blocks.  The operations work on the memory of the
    kernel; [fs] is the mounted file system and [pcb] the current process. *)

From S2P Require Import Prelude Mem CString State Pcb.

Definition FOUR_KB : Z := 0x1000.
Definition NAME_LEN : Z := 32.
Definition RES_LEN : Z := 24.
Definition DENTRY_SIZE : Z := 64.
Definition RTC_FILE : Z := 0.
Definition DIR_FILE : Z := 1.
Definition REG_FILE : Z := 2.
Definition FN_OFFSET : Z := 8.
Definition FT_OFFSET : Z := 9.
Definition USE_MASK : Z := 0x1.
Definition TYPE_MASK : Z := 0x6.
Definition I_IDX_MASK : Z := 0xFFF00.
Definition I_IDX_CLEAR : Z := 0xFFF000FF.
Definition TYPE_SHIFT : Z := 1.
Definition I_IDX_SHIFT : Z := 8.

(** [dentry_t]: the name at 0, then these fields *)
Definition DE_FILETYPE : Z := 32.
Definition DE_INODE : Z := 36.
Definition DE_RESERVED : Z := 40.

(** ** Operations *)

(** The two loops of [init_filesys]: an empty directory entry. *)
Definition clear_dentry (dentry : Z) (m : mem) : mem :=
  let m := for_range 0 NAME_LEN (fun idx m =>
    let m := store8 m (dentry + idx) 0 in
    if idx <? RES_LEN then store8 m (dentry + DE_RESERVED + idx) 0 else m) m in
  let m := store32 m (dentry + DE_FILETYPE) 0 in
  store32 m (dentry + DE_INODE) 0.

Section Ops.
Context `{Layout}.

Definition init_filesys (ptr : Z) (s : kst) : kst :=
  let m := k_mem s in
  let s := set_k_fs (mkFilesys ptr (load32 m ptr) (load32 m (ptr + 4))
                               (load32 m (ptr + 8)) 0) s in
  let s := upd_mem (clear_dentry open_dentry) s in
  upd_mem (clear_dentry read_dentry) s.

(** [*(filesys_ptr + (FOUR_KB/4)*(inode + 1) + idx)] *)
Definition inode_word (fs : filesys) (m : mem) (inode idx : Z) : Z :=
  load32 m (filesys_ptr fs + 4 * u32 (FOUR_KB / 4 * (inode + 1)) + 4 * idx).

(** [filesys_ptr + (FOUR_KB/4)*(bblock.N + dnode_num + 1)] *)
Definition block_ptr (fs : filesys) (dnode_num : Z) : Z :=
  filesys_ptr fs + 4 * u32 (FOUR_KB / 4 * (bblock_N fs + dnode_num + 1)).

Definition get_file_size (fs : filesys) (dentry : Z) (m : mem) : Z :=
  if dentry =? 0 then -1 else
  if negb (load32 m (dentry + DE_FILETYPE) =? REG_FILE) then 0 else
  s32 (inode_word fs m (load32 m (dentry + DE_INODE)) 0).

(** Directory entry number [i], counting the counters of the boot block as
    entry 0. *)
Definition entry (fs : filesys) (i : Z) : Z := filesys_ptr fs + DENTRY_SIZE * i.

(** The search loop; [None] when it ran through the directory. *)
Fixpoint find_entry (fuel : nat) (fs : filesys) (fname dir_it : Z) (m : mem)
    : option (Z * Z) * mem :=
  match fuel with
  | O => (None, m)
  | S f =>
      if dir_it <=? n_dir_entries fs then
        let str_length := strlen m (entry fs dir_it) in
        let m := strncpy m filename_buf (entry fs dir_it) str_length in
        let m := if str_length <? NAME_LEN then store8 m (filename_buf + str_length) 0 else m in
        if strncmp m fname filename_buf NAME_LEN =? 0
        then (Some (dir_it, str_length), m)
        else find_entry f fs fname (dir_it + 1) m
      else (None, m)
  end.

(** Zero padding of a name, the type and the inode number: the common end of
    the two lookups. *)
Definition fill_dentry (src dentry str_length : Z) (m : mem) : mem :=
  let m := for_range str_length NAME_LEN (fun i m => store8 m (dentry + i) 0) m in
  let m := store32 m (dentry + DE_FILETYPE) (load32 m (src + 4 * FN_OFFSET)) in
  if load32 m (dentry + DE_FILETYPE) =? REG_FILE
  then store32 m (dentry + DE_INODE) (load32 m (src + 4 * FT_OFFSET))
  else store32 m (dentry + DE_INODE) 0.

Definition read_dentry_by_name (fs : filesys) (fname dentry : Z) (m : mem) : Z * mem :=
  if (fname =? 0) || (dentry =? 0) || (filesys_ptr fs =? 0) then (-1, m) else
  if NAME_LEN <? strlen m fname then (-1, m) else
  match find_entry (S (Z.to_nat (n_dir_entries fs))) fs fname 1 m with
  | (None, m) => (-1, m)
  | (Some (dir_it, str_length), m) =>
      let m := strncpy m open_dentry filename_buf str_length in
      (0, fill_dentry (entry fs dir_it) dentry str_length m)
  end.

Definition read_dentry_by_index (fs : filesys) (index dentry : Z) (m : mem) : Z * mem :=
  if dentry =? 0 then (-1, m) else
  if (index <? 0) || (n_dir_entries fs <=? index) then (-1, m) else
  let src := entry fs (index + 1) in
  let str_length := strlen m src in
  let m := strncpy m dentry src str_length in
  (0, fill_dentry src dentry str_length m).

(** The position of [read_data] in a file: [inode_idx], [dnode_num] and
    [byte_ptr]. *)
Record cursor := mkCursor { rd_idx : Z; rd_dnode : Z; rd_byte : Z }.

(** [inode_idx++], then the number and the address of that block; [None] at the
    end of the inode. *)
Definition next_block (fs : filesys) (m : mem) (inode : Z) (c : cursor) : option cursor :=
  let inode_idx := rd_idx c + 1 in
  if FOUR_KB / 4 <=? inode_idx then None else
  let dnode_num := inode_word fs m inode inode_idx in
  Some (mkCursor inode_idx dnode_num (block_ptr fs dnode_num)).

(** [while (dnode_num < 0 || dnode_num >= bblock.D)] *)
Fixpoint skip_blocks (fuel : nat) (fs : filesys) (m : mem) (inode : Z) (c : cursor)
    : option cursor :=
  match fuel with
  | O => None
  | S f =>
      if (rd_dnode c <? 0) || (bblock_D fs <=? rd_dnode c) then
        match next_block fs m inode c with
        | None => None
        | Some c => skip_blocks f fs m inode c
        end
      else Some c
  end.

(** One turn of the copy loop up to the copy itself. *)
Definition locate (fs : filesys) (m : mem) (inode offset : Z) (c : cursor) : option cursor :=
  match (if negb (offset =? 0) && (offset mod FOUR_KB =? 0)
         then next_block fs m inode c else Some c) with
  | None => None
  | Some c => skip_blocks 1025 fs m inode c
  end.

(** How the copy loop ends: by a [return it] inside it, or at [length]. *)
Inductive rd_result :=
| RdShort (it : Z) (m : mem)
| RdFull (it inode_idx : Z) (m : mem).

Fixpoint rd_loop (fuel : nat) (fs : filesys) (inode buf length file_size it offset : Z)
    (c : cursor) (m : mem) : rd_result :=
  match fuel with
  | O => RdFull it (rd_idx c) m
  | S f =>
      if it <? length then
        if file_size <=? offset then RdShort it (store8 m (buf + it) 0) else
        match locate fs m inode offset c with
        | None => RdShort it (store8 m (buf + it) 0)
        | Some c =>
            let m := store8 m (buf + it) (load8 m (rd_byte c)) in
            rd_loop f fs inode buf length file_size (u32 (it + 1)) (u32 (offset + 1))
              (mkCursor (rd_idx c) (rd_dnode c) (rd_byte c + 1)) m
        end
      else RdFull it (rd_idx c) m
  end.

(** Turns of the copy loop: it ends at [length] or at the end of the file. *)
Definition rd_turns (length file_size offset : Z) : nat :=
  S (Z.to_nat (Z.min length (file_size - offset + 1))).

Definition read_data (fs : filesys) (pcb inode offset buf length fd : Z) (m : mem) : Z * mem :=
  if buf =? 0 then (-1, m) else
  if (inode <? 0) || (bblock_N fs <=? inode) then (-1, m) else
  let file_size := inode_word fs m inode 0 in
  if file_size <=? offset then (0, m) else
  let inode_idx := if negb (fd =? -1)
    then Z.shiftr (Z.land (fd_get m pcb fd FD_FLAGS) I_IDX_MASK) I_IDX_SHIFT
    else 0 in
  if FOUR_KB / 4 <=? inode_idx then (0, m) else
  let dnode_num := inode_word fs m inode inode_idx in
  let byte_ptr := block_ptr fs dnode_num + offset mod FOUR_KB in
  match rd_loop (rd_turns length file_size offset) fs inode buf length file_size 0 offset
                (mkCursor inode_idx dnode_num byte_ptr) m with
  | RdShort it m => (s32 it, m)
  | RdFull it inode_idx m =>
      let m := if it <? length then store8 m (buf + it) 0 else m in
      let m := if negb (fd =? -1) then
          let m := fd_set m pcb fd FD_FLAGS (Z.land (fd_get m pcb fd FD_FLAGS) I_IDX_CLEAR) in
          fd_set m pcb fd FD_FLAGS
            (Z.lor (fd_get m pcb fd FD_FLAGS) (Z.shiftl inode_idx I_IDX_SHIFT))
        else m in
      (s32 length, m)
  end.

Definition file_read (fs : filesys) (pcb fd buf nbytes : Z) (m : mem) : Z * mem :=
  if buf =? 0 then (-1, m) else
  let flags := fd_get m pcb fd FD_FLAGS in
  if (Z.land flags USE_MASK =? 0)
     || negb (Z.shiftr (Z.land flags TYPE_MASK) TYPE_SHIFT =? REG_FILE) then (-1, m) else
  let '(ret_val, m) := read_data fs pcb (fd_get m pcb fd FD_INODE)
                         (fd_get m pcb fd FD_POS) buf (u32 nbytes) fd m in
  (ret_val, fd_set m pcb fd FD_POS (fd_get m pcb fd FD_POS + ret_val)).

Definition file_write (fd buf nbytes : Z) (m : mem) : Z * mem := (-1, m).

(** The descriptor set-up at the end of [file_open]. *)
Definition file_fd_init (pcb fd : Z) (m : mem) : mem :=
  let m := fd_set m pcb fd FD_INODE (load32 m (open_dentry + DE_INODE)) in
  let m := fd_set m pcb fd FD_POS 0 in
  let m := fd_set m pcb fd FD_FLAGS 1 in
  let m := fd_set m pcb fd FD_FLAGS
             (Z.lor (fd_get m pcb fd FD_FLAGS) (Z.shiftl REG_FILE TYPE_SHIFT)) in
  fd_set m pcb fd FD_FLAGS (Z.lor (fd_get m pcb fd FD_FLAGS) (Z.shiftl 1 I_IDX_SHIFT)).

Definition file_open (fs : filesys) (pcb filename : Z) (m : mem) : Z * mem :=
  let i := find_fd m pcb in
  if 8 <=? i then (-1, m) else
  let '(r, m) := read_dentry_by_name fs filename open_dentry m in
  if r =? -1 then (-1, m) else
  if negb (load32 m (open_dentry + DE_FILETYPE) =? REG_FILE) then (-1, m) else
  (0, file_fd_init pcb i m).

(** The loop at the end of [file_close]. *)
Definition clear_names (m : mem) : mem :=
  for_range 0 32 (fun i m => store8 (store8 m (open_dentry + i) 0) (read_dentry + i) 0) m.

Definition file_close (pcb fd : Z) (m : mem) : Z * mem :=
  if (fd <=? 1) || (8 <=? fd) then (-1, m) else
  let flags := fd_get m pcb fd FD_FLAGS in
  if negb (Z.shiftr (Z.land flags TYPE_MASK) TYPE_SHIFT =? REG_FILE) then (-1, m) else
  if flags mod 2 =? 0 then (-1, m) else
  (0, clear_names (fd_set m pcb fd FD_FLAGS 0)).

(** [while ((cnt < nbytes) && (dr_buf_idx < NAME_LEN))]; [cnt] and [dr_buf_idx]
    move together. *)
Fixpoint dr_copy (fuel : nat) (buf nbytes cnt : Z) (m : mem) : Z * mem :=
  match fuel with
  | O => (cnt, m)
  | S f =>
      if (cnt <? nbytes) && (cnt <? NAME_LEN) then
        if load8 m (read_dentry + cnt) =? 0 then (cnt, m)
        else dr_copy f buf nbytes (cnt + 1) (store8 m (buf + cnt) (load8 m (read_dentry + cnt)))
      else (cnt, m)
  end.

Definition dir_read (fs : filesys) (pcb fd buf nbytes : Z) (m : mem) : Z * mem :=
  if buf =? 0 then (-1, m) else
  if (fd <=? 1) || (8 <=? fd) then (-1, m) else
  let flags := fd_get m pcb fd FD_FLAGS in
  if (Z.land flags USE_MASK =? 0) || (Z.shiftr flags 1 mod 2 =? 0) then (-1, m) else
  if n_dir_entries fs <=? fd_get m pcb fd FD_POS then (0, m) else
  let '(r, m) := read_dentry_by_index fs (fd_get m pcb fd FD_POS) read_dentry m in
  if r =? -1 then (-1, m) else
  let '(cnt, m) := dr_copy 33 buf nbytes 0 m in
  let m := if (NAME_LEN <=? cnt) || (load8 m (read_dentry + cnt) =? 0)
           then store8 m (buf + cnt) 0 else m in
  (cnt, fd_set m pcb fd FD_POS (fd_get m pcb fd FD_POS + 1)).

Definition dir_write (fd buf nbytes : Z) (m : mem) : Z * mem := (-1, m).

(** The descriptor set-up at the end of [dir_open]. *)
Definition dir_fd_init (pcb fd : Z) (m : mem) : mem :=
  let m := fd_set m pcb fd FD_INODE (load32 m (open_dentry + DE_INODE)) in
  let m := fd_set m pcb fd FD_POS 0 in
  let m := fd_set m pcb fd FD_FLAGS 1 in
  fd_set m pcb fd FD_FLAGS (Z.lor (fd_get m pcb fd FD_FLAGS) (Z.shiftl DIR_FILE 1)).

Definition dir_open (fs : filesys) (pcb filename : Z) (m : mem) : Z * mem :=
  if filename =? 0 then (-1, m) else
  let i := find_fd m pcb in
  let file_idx := if i <? 8 then i else -1 in
  if file_idx =? -1 then (-1, m) else
  let '(r, m) := read_dentry_by_name fs filename open_dentry m in
  if r =? -1 then (-1, m) else
  if negb (load32 m (open_dentry + DE_FILETYPE) =? DIR_FILE) then (-1, m) else
  (0, dir_fd_init pcb file_idx m).

Definition dir_close (pcb fd : Z) (m : mem) : Z * mem :=
  if (fd <=? 1) || (8 <=? fd) then (-1, m) else
  let flags := fd_get m pcb fd FD_FLAGS in
  if negb (Z.shiftr (Z.land flags TYPE_MASK) TYPE_SHIFT =? DIR_FILE) then (-1, m) else
  if flags mod 2 =? 0 then (-1, m) else
  (0, fd_set m pcb fd FD_FLAGS 0).
End Ops.
