(* ===== verification/FilesysRead.v ===== *)
(** * Reading regular files

    The contents of a file, as the image defines them, and the proof that
    [read_data] and [file_read] deliver them: the two-level position the code
    keeps (a byte offset in the descriptor, an inode index in its flags) refines
    an offset into a list of bytes. *)

From S2P Require Import Prelude Mem CString State Pcb Filesys.

(** ** The contents of a file *)

Definition file_size (fs : filesys) (m : mem) (inode : Z) : Z := inode_word fs m inode 0.

(** Where byte [o] of the file is. *)
Definition file_addr (fs : filesys) (m : mem) (inode o : Z) : Z :=
  block_ptr fs (inode_word fs m inode (1 + o / FOUR_KB)) + o mod FOUR_KB.

Definition file_byte (fs : filesys) (m : mem) (inode o : Z) : Z :=
  load8 m (file_addr fs m inode o).

(** [n] bytes of the file from offset [o], and all of it. *)
Definition file_slice (fs : filesys) (m : mem) (inode o : Z) (n : nat) : list Z :=
  file_byte fs m inode <$> zseq o n.
Definition file_bytes (fs : filesys) (m : mem) (inode : Z) : list Z :=
  file_slice fs m inode 0 (Z.to_nat (file_size fs m inode)).

(** The image, and an image whose counters fit the address space. *)
Definition image (fs : filesys) : region :=
  (filesys_ptr fs, FOUR_KB * (1 + bblock_N fs + bblock_D fs)).
Definition image_ok (fs : filesys) : Prop :=
  0 <= bblock_N fs /\ 0 <= bblock_D fs /\
  FOUR_KB * (1 + bblock_N fs + bblock_D fs) <= 4294967296.

(** A file whose blocks are all in the image. *)
Definition file_ok (fs : filesys) (m : mem) (inode : Z) : Prop :=
  image_ok fs /\ 0 <= inode < bblock_N fs /\
  file_size fs m inode <= 1023 * FOUR_KB /\
  forall o, 0 <= o < file_size fs m inode ->
    inode_word fs m inode (1 + o / FOUR_KB) < bblock_D fs.

(** The inode index the code keeps for offset [o]: it only moves to the next
    block when the first byte of it is read. *)
Definition idx_of (o : Z) : Z := if o =? 0 then 1 else (o - 1) / FOUR_KB + 1.

(** The cursor on byte [o]. *)
Definition cur_at (fs : filesys) (m : mem) (inode o : Z) : cursor :=
  let d := inode_word fs m inode (1 + o / FOUR_KB) in
  mkCursor (1 + o / FOUR_KB) d (block_ptr fs d + o mod FOUR_KB).

Lemma file_slice_S fs m inode o n :
  file_slice fs m inode o (S n) = file_byte fs m inode o :: file_slice fs m inode (o + 1) n.
Proof. unfold file_slice. now rewrite zseq_S. Qed.

Lemma file_slice_app fs m inode o a b :
  file_slice fs m inode o (a + b) =
  file_slice fs m inode o a ++ file_slice fs m inode (o + Z.of_nat a) b.
Proof. unfold file_slice. now rewrite zseq_app, fmap_app. Qed.

Lemma length_file_slice fs m inode o n : length (file_slice fs m inode o n) = n.
Proof. unfold file_slice. now rewrite length_fmap, length_zseq. Qed.

(** ** The image is read-only *)

(** Two memories with the same bytes in the image hold the same files, whatever
    frame the program page is translated to. *)
Definition image_agree (fs : filesys) (m m' : mem) : Prop :=
  forall a, in_region (image fs) a -> load8 m' a = load8 m a.

Section Agree.
Context (fs : filesys) (m m' : mem) (HA : image_agree fs m m') (Hi : image_ok fs).

Lemma inode_word_agree inode idx :
  0 <= inode < bblock_N fs -> 0 <= idx < 1024 ->
  inode_word fs m' inode idx = inode_word fs m inode idx.
Proof using HA Hi.
  destruct Hi as (H0 & H1 & H2). unfold image_ok, FOUR_KB in *. intros Hn Hx.
  unfold inode_word, FOUR_KB. change (4096 / 4) with 1024.
  rewrite u32_small by lia. unfold load32.
  rewrite !HA; [done|unfold in_region, image, in_range, FOUR_KB; cbn; lia..].
Qed.

Lemma block_byte_agree d o :
  0 <= d < bblock_D fs -> 0 <= o < FOUR_KB ->
  load8 m' (block_ptr fs d + o) = load8 m (block_ptr fs d + o).
Proof using HA Hi.
  destruct Hi as (H0 & H1 & H2). unfold image_ok, FOUR_KB in *. intros Hn Hx.
  unfold block_ptr, FOUR_KB. change (4096 / 4) with 1024.
  rewrite u32_small by lia. apply HA. unfold in_region, image, in_range, FOUR_KB. cbn. lia.
Qed.

Lemma file_size_agree inode :
  0 <= inode < bblock_N fs -> file_size fs m' inode = file_size fs m inode.
Proof using HA Hi. intros. apply inode_word_agree; lia. Qed.

Lemma file_ok_word inode o :
  file_ok fs m inode -> 0 <= o < file_size fs m inode ->
  0 <= o / FOUR_KB < 1023 /\ 0 <= inode_word fs m inode (1 + o / FOUR_KB) < bblock_D fs /\
  0 <= o mod FOUR_KB < FOUR_KB.
Proof using Type.
  intros (_ & _ & Hs & Hb) Ho. pose proof (load32_range m (filesys_ptr fs +
    4 * u32 (FOUR_KB / 4 * (inode + 1)) + 4 * (1 + o / FOUR_KB))) as Hr.
  specialize (Hb o Ho). unfold inode_word in *. unfold FOUR_KB in *.
  split; [zdm|]. split; [lia|]. zdm.
Qed.

Lemma file_byte_agree inode o :
  file_ok fs m inode -> 0 <= o < file_size fs m inode ->
  file_byte fs m' inode o = file_byte fs m inode o.
Proof using HA Hi.
  intros Hf Ho. destruct (file_ok_word inode o Hf Ho) as (H1 & H2 & H3).
  unfold file_byte, file_addr. rewrite inode_word_agree by (apply Hf || lia).
  now apply block_byte_agree.
Qed.

Lemma file_slice_agree inode o n :
  file_ok fs m inode -> 0 <= o -> o + Z.of_nat n <= file_size fs m inode ->
  file_slice fs m' inode o n = file_slice fs m inode o n.
Proof using HA Hi.
  intros Hf Ho Hn. unfold file_slice. apply list_fmap_ext. intros i x Hx.
  apply lookup_lt_Some in Hx as Hl. rewrite length_zseq in Hl.
  rewrite zseq_lookup in Hx by done. injection Hx as <-.
  apply file_byte_agree; [done|lia].
Qed.

Lemma file_bytes_agree inode :
  file_ok fs m inode -> file_bytes fs m' inode = file_bytes fs m inode.
Proof using HA Hi.
  intros Hf. unfold file_bytes. rewrite file_size_agree by apply Hf.
  assert (0 <= file_size fs m inode) by apply load32_range. apply file_slice_agree; [done|lia|lia].
Qed.

Lemma file_ok_agree inode : file_ok fs m inode -> file_ok fs m' inode.
Proof using HA Hi.
  intros Hf. pose proof Hf as (H0 & H1 & H2 & H3). unfold file_ok.
  rewrite file_size_agree by done. split; [done|]. split; [done|]. split; [done|].
  intros o Ho. destruct (file_ok_word inode o Hf Ho) as (? & _).
  rewrite inode_word_agree by (done || lia). by apply H3.
Qed.
End Agree.

Section Image.
Context (fs : filesys) (P : Z -> Prop) (m m' : mem).
Context (HU : unchanged P m m') (HP : forall a, P a -> ~ in_region (image fs) a).
Context (Hi : image_ok fs).

Lemma unchanged_agree : image_agree fs m m'.
Proof using HU HP. intros a Ha. eapply unchanged_load8; [exact HU|]. intros Pa. by apply (HP a). Qed.

Lemma inode_word_unchanged inode idx :
  0 <= inode < bblock_N fs -> 0 <= idx < 1024 ->
  inode_word fs m' inode idx = inode_word fs m inode idx.
Proof using HU HP Hi. apply inode_word_agree; [exact unchanged_agree|exact Hi]. Qed.

Lemma file_size_unchanged inode :
  0 <= inode < bblock_N fs -> file_size fs m' inode = file_size fs m inode.
Proof using HU HP Hi. apply file_size_agree; [exact unchanged_agree|exact Hi]. Qed.

Lemma cur_at_unchanged inode o :
  file_ok fs m inode -> 0 <= o < file_size fs m inode ->
  cur_at fs m' inode o = cur_at fs m inode o.
Proof using HU HP Hi.
  intros Hf Ho. destruct (file_ok_word fs m inode o Hf Ho) as (H1 & _).
  unfold cur_at. rewrite inode_word_unchanged; [done|apply Hf|lia].
Qed.

Lemma file_byte_unchanged inode o :
  file_ok fs m inode -> 0 <= o < file_size fs m inode ->
  file_byte fs m' inode o = file_byte fs m inode o.
Proof using HU HP Hi. apply file_byte_agree; [exact unchanged_agree|exact Hi]. Qed.

Lemma file_slice_unchanged inode o n :
  file_ok fs m inode -> 0 <= o -> o + Z.of_nat n <= file_size fs m inode ->
  file_slice fs m' inode o n = file_slice fs m inode o n.
Proof using HU HP Hi. apply file_slice_agree; [exact unchanged_agree|exact Hi]. Qed.

Lemma file_ok_unchanged inode : file_ok fs m inode -> file_ok fs m' inode.
Proof using HU HP Hi. apply file_ok_agree; [exact unchanged_agree|exact Hi]. Qed.
End Image.

(** ** Finding the next byte *)

Lemma skip_blocks_valid f fs m inode c :
  0 <= rd_dnode c < bblock_D fs -> skip_blocks (S f) fs m inode c = Some c.
Proof.
  intros Hc. cbn [skip_blocks].
  now replace ((rd_dnode c <? 0) || (bblock_D fs <=? rd_dnode c)) with false by lia.
Qed.

(** An invalid block number followed by a valid one. *)
Lemma skip_blocks_next f fs m inode c c' :
  bblock_D fs <= rd_dnode c -> next_block fs m inode c = Some c' ->
  0 <= rd_dnode c' < bblock_D fs -> skip_blocks (S (S f)) fs m inode c = Some c'.
Proof.
  intros Hc Hn Hc'. rewrite <- (skip_blocks_valid f fs m inode c' Hc').
  remember (S f) as g. cbn [skip_blocks]. rewrite Hn.
  now replace ((rd_dnode c <? 0) || (bblock_D fs <=? rd_dnode c)) with true by lia.
Qed.

(** A cursor that [locate] moves onto byte [o]: the right inode index, and, away
    from a block boundary, the right byte. *)
Definition ready (fs : filesys) (m : mem) (inode o : Z) (c : cursor) : Prop :=
  rd_idx c = idx_of o /\
  (o = 0 \/ o mod FOUR_KB <> 0 -> c = cur_at fs m inode o).

Lemma locate_ready fs m inode o c :
  file_ok fs m inode -> 0 <= o < file_size fs m inode -> ready fs m inode o c ->
  locate fs m inode o c = Some (cur_at fs m inode o).
Proof.
  intros Hf Ho [Hidx Hc]. destruct (file_ok_word fs m inode o Hf Ho) as (H1 & H2 & H3).
  unfold locate. destruct (decide (o = 0 \/ o mod FOUR_KB <> 0)) as [Hin|Hin].
  - rewrite (Hc Hin).
    replace (negb (o =? 0) && (o mod FOUR_KB =? 0)) with false by lia.
    now apply skip_blocks_valid.
  - replace (negb (o =? 0) && (o mod FOUR_KB =? 0)) with true by lia.
    assert (E : next_block fs m inode c = Some (cur_at fs m inode o)).
    { unfold next_block. rewrite Hidx.
      assert (Ei : idx_of o + 1 = 1 + o / FOUR_KB).
      { unfold idx_of, FOUR_KB in *. zdecide. zdm. }
      rewrite Ei. unfold FOUR_KB at 1. change (4096 / 4) with 1024. zdecide.
      unfold cur_at. replace (o mod FOUR_KB) with 0 by lia. now rewrite Z.add_0_r. }
    rewrite E. now apply skip_blocks_valid.
Qed.

Lemma ready_next fs m inode o :
  0 <= o ->
  ready fs m inode (o + 1)
    (mkCursor (rd_idx (cur_at fs m inode o)) (rd_dnode (cur_at fs m inode o))
              (rd_byte (cur_at fs m inode o) + 1)).
Proof.
  intros Ho. split; cbn [rd_idx rd_dnode rd_byte cur_at].
  - unfold idx_of. zdecide. replace (o + 1 - 1) with o by lia. lia.
  - intros Hc. unfold cur_at.
    replace ((o + 1) / FOUR_KB) with (o / FOUR_KB) by (unfold FOUR_KB in *; zdm).
    f_equal. replace ((o + 1) mod FOUR_KB) with (o mod FOUR_KB + 1) by (unfold FOUR_KB in *; zdm).
    lia.
Qed.

(** ** The copy loop *)

Section Copy.
Context (fs : filesys) (inode buf length : Z) (m0 : mem).
Context (Hf : file_ok fs m0 inode) (Hlen : 0 <= length < 4294967296).
Context (Hbuf : rdisj (buf, length) (image fs)).

Let size := file_size fs m0 inode.

Lemma buf_off_image a : in_range buf length a -> ~ in_region (image fs) a.
Proof using Hbuf.
  clear size Hf Hlen. unfold rdisj, disj in Hbuf. unfold in_region, in_range. cbn in *. lia.
Qed.

(** The loop from turn [it] on: it delivers the rest of the file or of the
    buffer, whichever ends first. *)
Lemma rd_loop_spec fuel : forall it o c m,
  unchanged (in_range buf length) m0 m ->
  0 <= it <= length -> 0 <= o <= size -> Z.min (length - it) (size - o + 1) < Z.of_nat fuel ->
  (it < length -> o < size -> locate fs m inode o c = Some (cur_at fs m0 inode o)) ->
  let n := Z.min (length - it) (size - o) in
  exists m',
    rd_loop fuel fs inode buf length size it o c m =
      (if length - it <=? size - o
       then RdFull length (if it =? length then rd_idx c else idx_of (o + n)) m'
       else RdShort (it + n) m') /\
    unchanged (in_range buf length) m m' /\
    (forall a, in_range buf it a -> load8 m' a = load8 m a) /\
    bytes m' (buf + it) (Z.to_nat n) = file_slice fs m0 inode o (Z.to_nat n).
Proof using Hf Hlen Hbuf.
  assert (Hsz : size < 4294967296) by (apply load32_range).
  induction fuel as [|f IH]; intros it o c m HU Hit Ho Hfuel Hloc n; [lia|]. cbn [rd_loop].
  destruct (Z.ltb_spec it length) as [Hlt|Hge].
  2: { exists m. replace n with 0 by lia. zdecide. assert (it = length) as -> by lia.
       split; [done|]. split; [apply unchanged_refl|]. done. }
  destruct (Z.leb_spec size o) as [Hend|Hin].
  { exists (store8 m (buf + it) 0). replace n with 0 by lia. zdecide.
    rewrite Z.add_0_r. split; [done|]. split.
    - apply unchanged_store8. unfold in_range. lia.
    - split; [|done]. intros a Ha. apply load8_store8_ne. unfold in_range in Ha. lia. }
  rewrite Hloc by done. set (m1 := store8 m (buf + it) _).
  assert (U1 : unchanged (in_range buf length) m m1)
    by (apply unchanged_store8; unfold in_range; lia).
  assert (HU1 : unchanged (in_range buf length) m0 m1) by (by eapply unchanged_trans).
  rewrite !u32_small by lia.
  destruct (IH (it + 1) (o + 1)
    (mkCursor (rd_idx (cur_at fs m0 inode o)) (rd_dnode (cur_at fs m0 inode o))
              (rd_byte (cur_at fs m0 inode o) + 1)) m1) as (m' & E & U' & K & B); [done|lia..| |].
  { intros _ Hlt'.
    assert (Ec : forall x, 0 <= x < size -> cur_at fs m1 inode x = cur_at fs m0 inode x)
      by (intros; apply (cur_at_unchanged fs _ m0 m1 HU1 buf_off_image); (apply Hf || done)).
    rewrite <- !Ec by lia. apply locate_ready.
    - eapply file_ok_unchanged; [exact HU1|exact buf_off_image|apply Hf|done].
    - rewrite (file_size_unchanged fs _ m0 m1 HU1 buf_off_image) by apply Hf. unfold size in *. lia.
    - apply ready_next. lia. }
  exists m'. split; [|split; [by eapply unchanged_trans|split]].
  - rewrite E. replace (length - (it + 1) <=? size - (o + 1)) with (length - it <=? size - o) by lia.
    replace (it =? length) with false by lia.
    destruct (length - it <=? size - o) eqn:Ecmp; [|f_equal; lia].
    destruct (Z.eqb_spec (it + 1) length); [|do 2 f_equal; lia].
    bool_to_prop. f_equal. unfold n. cbn [rd_idx cur_at].
    replace (Z.min (length - it) (size - o)) with 1 by lia.
    unfold idx_of. zdecide. replace (o + 1 - 1) with o by lia. lia.
  - intros a Ha. rewrite K by (unfold in_range in *; lia).
    unfold m1. apply load8_store8_ne. unfold in_range in Ha. lia.
  - replace (Z.to_nat n) with (S (Z.to_nat (Z.min (length - (it + 1)) (size - (o + 1))))) by lia.
    rewrite bytes_S, file_slice_S. replace (buf + it + 1) with (buf + (it + 1)) by lia.
    rewrite B. f_equal. rewrite K by (unfold in_range; lia). unfold m1.
    rewrite load8_store8_eq. rewrite u8_small by apply load8_range.
    change (load8 m (rd_byte (cur_at fs m0 inode o))) with
      (load8 m (file_addr fs m0 inode o)).
    transitivity (file_byte fs m inode o).
    + unfold file_byte, file_addr.
      destruct (file_ok_word fs m0 inode o Hf) as (? & _); [unfold size in *; lia|].
      rewrite (inode_word_unchanged fs _ m0 m HU buf_off_image) by (apply Hf || lia). done.
    + apply (file_byte_unchanged fs _ m0 m HU buf_off_image); [apply Hf|done|]. unfold size in *. lia.
Qed.
End Copy.

(** ** The fields of the descriptor flags *)

Definition fd_idx (flags : Z) : Z := Z.shiftr (Z.land flags I_IDX_MASK) I_IDX_SHIFT.
Definition fd_type (flags : Z) : Z := Z.shiftr (Z.land flags TYPE_MASK) TYPE_SHIFT.
Definition set_idx (flags idx : Z) : Z :=
  Z.lor (u32 (Z.land flags I_IDX_CLEAR)) (Z.shiftl idx I_IDX_SHIFT).

Lemma u32_land x : u32 x = Z.land x (Z.ones 32).
Proof. now rewrite Z.land_ones. Qed.

(** A mask inside 32 bits sees through the conversion to 32 bits. *)
Lemma land_u32 x mask : Z.land (Z.ones 32) mask = mask -> Z.land (u32 x) mask = Z.land x mask.
Proof. intros E. now rewrite u32_land, <- Z.land_assoc, E. Qed.

(** Storing an index replaces the index field and keeps the other fields. *)
Lemma set_idx_fields flags idx :
  0 <= idx < 4096 ->
  let f := u32 (set_idx flags idx) in
  fd_idx f = idx /\ fd_type f = fd_type flags /\ Z.land f USE_MASK = Z.land flags USE_MASK.
Proof.
  intros Hi. unfold fd_idx, fd_type, set_idx. cbv zeta.
  assert (K : forall mask, Z.land (Z.ones 32) mask = mask ->
    Z.land (u32 (Z.lor (u32 (Z.land flags I_IDX_CLEAR)) (Z.shiftl idx I_IDX_SHIFT))) mask
    = Z.lor (Z.land flags (Z.land I_IDX_CLEAR mask)) (Z.land (Z.shiftl idx I_IDX_SHIFT) mask)).
  { intros mask Hm. rewrite land_u32, Z.land_lor_distr_l, land_u32, Z.land_assoc by done. done. }
  rewrite !K by reflexivity.
  change (Z.land I_IDX_CLEAR I_IDX_MASK) with 0.
  change (Z.land I_IDX_CLEAR TYPE_MASK) with TYPE_MASK.
  change (Z.land I_IDX_CLEAR USE_MASK) with USE_MASK.
  rewrite Z.land_0_r, Z.lor_0_l. split; [|split].
  - change I_IDX_MASK with (Z.shiftl (Z.ones 12) I_IDX_SHIFT).
    rewrite <- Z.shiftl_land, land_ones_small, Z.shiftr_shiftl_l, Z.sub_diag by (unfold I_IDX_SHIFT; lia).
    apply Z.shiftl_0_r.
  - rewrite (land_shiftl_low idx I_IDX_SHIFT TYPE_MASK), Z.lor_0_r by (unfold I_IDX_SHIFT, TYPE_MASK; lia).
    done.
  - rewrite (land_shiftl_low idx I_IDX_SHIFT USE_MASK), Z.lor_0_r by (unfold I_IDX_SHIFT, USE_MASK; lia).
    done.
Qed.

(** ** Open files *)

(** Descriptor [fd] is open on the regular file [inode] at offset [pos], and its
    inode index agrees with the offset. *)
Definition open_file (fs : filesys) (m : mem) (pcb fd inode pos : Z) : Prop :=
  let flags := fd_get m pcb fd FD_FLAGS in
  fd_get m pcb fd FD_INODE = inode /\ fd_get m pcb fd FD_POS = pos /\
  0 <= pos <= file_size fs m inode /\
  Z.land flags USE_MASK <> 0 /\ fd_type flags = REG_FILE /\
  (pos < file_size fs m inode -> fd_idx flags = idx_of pos).

Lemma idx_of_range o : 0 <= o <= 1023 * FOUR_KB -> 1 <= idx_of o <= 1023.
Proof. intros Ho. unfold idx_of, FOUR_KB in *. destruct (Z.eqb_spec o 0); [lia|]. zdm. Qed.

Section Read.
Context (fs : filesys) (pcb fd inode pos buf length : Z) (m : mem).
Context (Hf : file_ok fs m inode) (Hopen : open_file fs m pcb fd inode pos).
Context (Hbuf0 : buf <> 0) (Hlen : 0 <= length < 2147483648) (Hfd : fd <> -1).
Context (Hbuf : rdisj (buf, length) (image fs)).
Context (Hbfd : rdisj (buf, length) (fd_region pcb fd)).
Context (Hifd : rdisj (fd_region pcb fd) (image fs)).

(** What a read may write: the buffer and the descriptor. *)
Definition read_frame (a : Z) : Prop :=
  in_range buf length a \/ in_region (fd_region pcb fd) a.

Lemma read_frame_off_image a : read_frame a -> ~ in_region (image fs) a.
Proof using Hbuf Hifd.
  clear - Hbuf Hifd. unfold read_frame, rdisj, disj, in_region, in_range in *. cbn in *. lia.
Qed.

Lemma fd_region_off_buf a : in_region (fd_region pcb fd) a -> ~ in_range buf length a.
Proof using Hbfd.
  clear - Hbfd. unfold rdisj, disj, in_region, in_range in *. cbn in *. lia.
Qed.

Let size := file_size fs m inode.
Let n := Z.min length (size - pos).

(** The first cursor of [read_data] when the descriptor keeps the position. *)
Lemma locate_first :
  pos < size ->
  let d := inode_word fs m inode (idx_of pos) in
  locate fs m inode pos (mkCursor (idx_of pos) d (block_ptr fs d + pos mod FOUR_KB))
  = Some (cur_at fs m inode pos).
Proof using Hf Hopen.
  intros Hlt d. apply locate_ready; [done|split; [apply Hopen|exact Hlt]|].
  split; [done|]. intros Hc. subst d. unfold cur_at.
  assert (E : idx_of pos = 1 + pos / FOUR_KB).
  { destruct Hopen as (_ & _ & Hp & _). unfold idx_of, FOUR_KB in *. clear - Hc Hp.
    destruct (Z.eqb_spec pos 0) as [->|]; [done|]. zdm. }
  now rewrite E.
Qed.

Lemma read_data_open :
  exists m',
    read_data fs pcb inode pos buf length fd m = (n, m') /\
    bytes m' buf (Z.to_nat n) = file_slice fs m inode pos (Z.to_nat n) /\
    unchanged read_frame m m' /\
    fd_get m' pcb fd FD_POS = pos /\ fd_get m' pcb fd FD_INODE = inode /\
    (let flags := fd_get m' pcb fd FD_FLAGS in
     fd_type flags = REG_FILE /\ Z.land flags USE_MASK <> 0 /\
     (pos + n < size -> fd_idx flags = idx_of (pos + n))).
Proof using Hf Hopen Hbuf0 Hlen Hfd Hbuf Hbfd Hifd.
  destruct Hopen as (Ei & Ep & Hp & Hu & Ht & Hidx). pose proof Hf as (_ & Hin & Hs & _).
  fold size in Hp, Hs, Hidx. pose proof (load32_range m) as R.
  unfold read_data. zdecide. fold (file_size fs m inode). fold size.
  destruct (Z.leb_spec size pos) as [Hend|Hlt].
  { exists m. replace n with 0 by lia. split; [done|]. split; [done|].
    split; [apply unchanged_refl|]. split; [done|]. split; [done|].
    split; [done|]. split; [done|]. lia. }
  fold (fd_idx (fd_get m pcb fd FD_FLAGS)). rewrite Hidx by done.
  pose proof (idx_of_range pos) as Hr. change (FOUR_KB / 4) with 1024. zdecide.
  destruct (rd_loop_spec fs inode buf length m Hf) with (fuel := rd_turns length size pos)
    (it := 0) (o := pos) (m := m)
    (c := mkCursor (idx_of pos) (inode_word fs m inode (idx_of pos))
           (block_ptr fs (inode_word fs m inode (idx_of pos)) + pos mod FOUR_KB))
    as (m' & E & U & _ & B); [lia|done|apply unchanged_refl|lia|done|unfold rd_turns; fold size; lia| |].
  { intros _ _. by apply locate_first. }
  fold size in E, B. rewrite Z.sub_0_r in *. rewrite Z.add_0_l in E. rewrite Z.add_0_r in B.
  fold n in E, B. rewrite E. clear E.
  assert (Uf : unchanged read_frame m m') by (eapply unchanged_weaken; [|exact U]; by left).
  assert (G : forall off, 0 <= off <= 12 -> fd_get m' pcb fd off = fd_get m pcb fd off).
  { intros off Ho. eapply fd_get_unchanged; [exact U|lia|lia|apply fd_region_off_buf]. }
  destruct (Z.leb_spec length (size - pos)) as [Hfull|Hshort].
  - replace n with length in * by lia.
    set (idx := if 0 =? length then _ else _).
    assert (Hx : idx = idx_of (pos + length)).
    { unfold idx. destruct (Z.eqb_spec 0 length) as [E0|]; [|done].
      cbn [rd_idx]. now rewrite <- E0, Z.add_0_r. }
    rewrite Z.ltb_irrefl. cbn [negb]. rewrite s32_small by lia.
    rewrite fd_get_set_eq. fold (set_idx (fd_get m' pcb fd FD_FLAGS) idx).
    pose proof (idx_of_range (pos + length)) as Hr2.
    destruct (set_idx_fields (fd_get m' pcb fd FD_FLAGS) idx) as (F1 & F2 & F3); [lia|].
    eexists. split; [reflexivity|].
    set (m2 := fd_set m' pcb fd FD_FLAGS _). set (m3 := fd_set m2 pcb fd FD_FLAGS _).
    assert (U3 : unchanged (in_region (fd_region pcb fd)) m' m3) by (unfold m3, m2; fd_frame).
    split; [|split; [|split; [|split]]].
    + erewrite unchanged_bytes; [exact B|exact U3|].
      intros b Hb Hr3. apply fd_region_off_buf in Hr3. unfold in_range in *. lia.
    + eapply unchanged_trans; [exact Uf|]. eapply unchanged_weaken; [|exact U3]. by right.
    + unfold m3, m2. fd_simpl. rewrite G by (unfold FD_POS; lia). done.
    + unfold m3, m2. fd_simpl. rewrite G by (unfold FD_INODE; lia). done.
    + unfold m3, m2. rewrite fd_get_set_eq, F2, F3, F1.
      rewrite G by (unfold FD_FLAGS; lia). rewrite Hx. done.
  - replace n with (size - pos) in * by lia. rewrite s32_small by (unfold FOUR_KB in *; lia).
    exists m'. rewrite !G by (unfold FD_POS, FD_INODE, FD_FLAGS; lia).
    split; [done|]. split; [done|]. split; [done|]. split; [done|]. split; [done|].
    split; [done|]. split; [done|]. lia.
Qed.

(** One read: the count, the bytes, the new position, nothing else touched. *)
Lemma file_read_spec :
  exists m',
    file_read fs pcb fd buf length m = (n, m') /\
    bytes m' buf (Z.to_nat n) = file_slice fs m inode pos (Z.to_nat n) /\
    unchanged read_frame m m' /\ file_ok fs m' inode /\
    file_size fs m' inode = size /\ file_bytes fs m' inode = file_bytes fs m inode /\
    open_file fs m' pcb fd inode (pos + n).
Proof using Hf Hopen Hbuf0 Hlen Hfd Hbuf Hbfd Hifd.
  destruct read_data_open as (m1 & E & B & U & P1 & I1 & T1 & U1 & X1).
  destruct Hopen as (Ei & Ep & Hp & Hu & Ht & Hidx). pose proof Hf as (Him & Hin & Hs & _).
  fold size in Hp, Hs. unfold file_read. zdecide.
  fold (fd_type (fd_get m pcb fd FD_FLAGS)). rewrite Ht, Ei, Ep.
  replace ((Z.land (fd_get m pcb fd FD_FLAGS) USE_MASK =? 0) || negb (REG_FILE =? REG_FILE))
    with false by lia.
  rewrite u32_small, E, P1 by lia. eexists. split; [reflexivity|].
  set (m2 := fd_set m1 pcb fd FD_POS (pos + n)).
  assert (U2 : unchanged (in_region (fd_region pcb fd)) m1 m2) by (unfold m2; fd_frame).
  assert (U3 : unchanged read_frame m m2).
  { eapply unchanged_trans; [exact U|]. eapply unchanged_weaken; [|exact U2]. by right. }
  assert (S2 : file_size fs m2 inode = size)
    by (by apply (file_size_unchanged fs _ m m2 U3 read_frame_off_image)).
  split; [|split; [done|split; [|split; [done|split]]]].
  - erewrite unchanged_bytes; [exact B|exact U2|].
    intros b Hb Hr. apply fd_region_off_buf in Hr. unfold in_range in *. lia.
  - eapply file_ok_unchanged; [exact U3|apply read_frame_off_image|done|done].
  - unfold file_bytes. rewrite S2. fold size.
    apply (file_slice_unchanged fs _ m m2 U3 read_frame_off_image); [done|done|lia|].
    unfold size in *. lia.
  - unfold open_file. rewrite S2. unfold m2. fd_simpl.
    rewrite u32_small by (unfold FOUR_KB in *; lia).
    split; [done|]. split; [done|]. split; [lia|]. done.
Qed.
End Read.

Lemma file_slice_take_drop fs m inode pos n :
  0 <= pos -> 0 <= n -> pos + n <= file_size fs m inode ->
  file_slice fs m inode pos (Z.to_nat n) =
  take (Z.to_nat n) (drop (Z.to_nat pos) (file_bytes fs m inode)).
Proof.
  intros Hp Hn Hs. unfold file_bytes.
  replace (Z.to_nat (file_size fs m inode)) with
    (Z.to_nat pos + (Z.to_nat n + Z.to_nat (file_size fs m inode - pos - n)))%nat by lia.
  rewrite file_slice_app, drop_app_length' by (now rewrite length_file_slice).
  rewrite file_slice_app, take_app_length' by (now rewrite length_file_slice).
  f_equal. lia.
Qed.

(** ** The loops end *)

(** Past the blocks an inode can have, more fuel changes nothing; what is found is a
    block of the image. *)
Lemma skip_blocks_ends fs inode m fuel : forall c,
  1024 - rd_idx c < Z.of_nat fuel -> (0 < fuel)%nat ->
  (forall fuel', (fuel <= fuel')%nat -> skip_blocks fuel' fs m inode c = skip_blocks fuel fs m inode c) /\
  match skip_blocks fuel fs m inode c with
  | Some c' => 0 <= rd_dnode c' < bblock_D fs /\ rd_idx c <= rd_idx c' /\ (c' = c \/ rd_idx c' < 1024)
  | None => True
  end.
Proof.
  induction fuel as [|f IH]; intros c Hf H0; [lia|].
  assert (K : forall g, skip_blocks (S g) fs m inode c =
    if (rd_dnode c <? 0) || (bblock_D fs <=? rd_dnode c)
    then match next_block fs m inode c with None => None | Some c => skip_blocks g fs m inode c end else Some c) by done.
  rewrite K. destruct ((rd_dnode c <? 0) || (bblock_D fs <=? rd_dnode c)) eqn:Ev.
  - unfold next_block in *. destruct (Z.leb_spec (FOUR_KB / 4) (rd_idx c + 1)) as [Hge|Hlt].
    + split; [|done]. intros [|g] Hg; [lia|]. by rewrite K.
    + change (FOUR_KB / 4) with 1024 in Hlt. set (c1 := mkCursor _ _ _) in *.
      destruct (IH c1) as [IH1 IH2]; [cbn [rd_idx c1]; lia|lia|]. split.
      * intros [|g] Hg; [lia|]. rewrite K. apply IH1. lia.
      * destruct (skip_blocks f fs m inode c1) as [c'|]; [|done]. destruct IH2 as (I1 & I2 & I3). cbn [rd_idx c1] in I2.
        split; [exact I1|]. split; [lia|right]. destruct I3 as [->|]; [cbn [rd_idx c1]; lia|done].
  - split; [intros [|g] Hg; [lia|by rewrite K]|]. bool_to_prop. split; [lia|]. split; [lia|by left].
Qed.

Lemma rd_loop_ends fs inode buf length size fuel : forall it o c m,
  0 <= it <= length -> length < 4294967296 -> 0 <= o <= size -> size < 4294967296 ->
  Z.min (length - it) (size - o + 1) < Z.of_nat fuel ->
  let r := rd_loop fuel fs inode buf length size it o c m in
  (forall fuel', (fuel <= fuel')%nat -> rd_loop fuel' fs inode buf length size it o c m = r) /\
  match r with
  | RdShort n _ => it <= n <= it + (size - o) /\ n < length
  | RdFull n _ _ => n = length /\ length - it <= size - o
  end.
Proof.
  induction fuel as [|f IH]; intros it o c m Hit Hl Ho Hs Hf r; [lia|]. unfold r. clear r.
  set (next := fun g c1 => rd_loop g fs inode buf length size (u32 (it + 1)) (u32 (o + 1))
    (mkCursor (rd_idx c1) (rd_dnode c1) (rd_byte c1 + 1)) (store8 m (buf + it) (load8 m (rd_byte c1)))).
  assert (K : forall g, rd_loop (S g) fs inode buf length size it o c m =
    if it <? length then
      if size <=? o then RdShort it (store8 m (buf + it) 0) else
      match locate fs m inode o c with None => RdShort it (store8 m (buf + it) 0) | Some c1 => next g c1 end
    else RdFull it (rd_idx c) m) by done.
  rewrite K. destruct (Z.ltb_spec it length) as [Hlt|Hge].
  2: { split; [intros [|g] Hg; [lia|by rewrite K]|]. split; lia. }
  destruct (Z.leb_spec size o) as [He|Hin]; [split; [intros [|g] Hg; [lia|by rewrite K]|]; lia|].
  destruct (locate fs m inode o c) as [c1|]; [|split; [intros [|g] Hg; [lia|by rewrite K]|]; lia].
  unfold next in *. rewrite !u32_small in * by lia.
  destruct (IH (it + 1) (o + 1) (mkCursor (rd_idx c1) (rd_dnode c1) (rd_byte c1 + 1))
    (store8 m (buf + it) (load8 m (rd_byte c1))) ltac:(lia) Hl ltac:(lia) Hs ltac:(lia)) as [IH1 IH2]. split.
  - intros [|g] Hg; [lia|]. rewrite K. apply IH1. lia.
  - destruct (rd_loop f _ _ _ _ _ _ _ _ _); lia.
Qed.

(** ** A small image

    One inode and eight data blocks at 0x400000.  The file has five bytes in
    block 3; block 5 holds other bytes.  A control block at 0x1000 has the file
    open as descriptor 2. *)
Definition small_fs : filesys := mkFilesys 0x400000 0 1 8 0.

Definition small_mem : mem :=
  let m := Mem ∅ ∅ 0 in
  let m := store32 m 0x401000 5 in
  let m := store32 m 0x401004 3 in
  let m := store_list m 0x405000 [72; 101; 108; 108; 111] in
  let m := store_list m 0x407000 [1; 2; 3; 4; 5] in
  let m := fd_set m 0x1000 2 FD_INODE 0 in
  let m := fd_set m 0x1000 2 FD_POS 0 in
  fd_set m 0x1000 2 FD_FLAGS 0x105.

Lemma small_file_ok : file_ok small_fs small_mem 0.
Proof.
  assert (E : file_size small_fs small_mem 0 = 5) by (vm_compute; reflexivity).
  unfold file_ok, image_ok. rewrite E. split; [vm_compute; intuition congruence|].
  split; [vm_compute; intuition congruence|]. split; [vm_compute; congruence|].
  intros o Ho. replace (o / FOUR_KB) with 0 by (unfold FOUR_KB; zdm). vm_compute. reflexivity.
Qed.

Lemma small_open : open_file small_fs small_mem 0x1000 2 0 0.
Proof. vm_compute. intuition congruence. Qed.



(** ** Reads without a descriptor

    [sys_execute_c] passes -1 for the descriptor, and [read_data] then starts at
    inode index 0, which is the length of the file and not a block number.  The
    loop that skips invalid block numbers usually steps over it. *)

Lemma read_data_exec fs pcb inode buf length m :
  file_ok fs m inode -> bblock_D fs <= file_size fs m inode ->
  buf <> 0 -> 0 <= length < 2147483648 -> rdisj (buf, length) (image fs) ->
  let n := Z.min length (file_size fs m inode) in
  exists m', read_data fs pcb inode 0 buf length (-1) m = (n, m') /\
    bytes m' buf (Z.to_nat n) = file_slice fs m inode 0 (Z.to_nat n) /\
    unchanged (in_range buf length) m m'.
Proof.
  intros Hf HD Hb Hl Hd n. pose proof Hf as (_ & Hin & Hs & _).
  pose proof (load32_range m) as R.
  unfold read_data. zdecide. fold (file_size fs m inode).
  assert (Hsz : 0 <= file_size fs m inode) by apply R.
  destruct (Z.leb_spec (file_size fs m inode) 0) as [Hend|Hlt].
  { exists m. replace n with 0 by lia. split; [done|]. split; [done|]. apply unchanged_refl. }
  change (FOUR_KB / 4 <=? 0) with false. cbv iota.
  destruct (rd_loop_spec fs inode buf length m Hf) with (fuel := rd_turns length (file_size fs m inode) 0)
    (it := 0) (o := 0) (m := m)
    (c := mkCursor 0 (file_size fs m inode)
           (block_ptr fs (file_size fs m inode) + 0 mod FOUR_KB))
    as (m' & E & U & _ & B); try (done || lia).
  { unfold rd_turns. lia. }
  { intros _ _. destruct (file_ok_word fs m inode 0 Hf) as (_ & H2 & _); [lia|].
    change (1 + 0 / FOUR_KB) with 1 in H2. change (0 mod FOUR_KB) with 0.
    unfold locate. cbn [Z.eqb negb andb].
    apply skip_blocks_next; [exact HD| |exact H2].
    unfold next_block, cur_at. cbn [rd_idx]. change (FOUR_KB / 4 <=? 0 + 1) with false. cbv iota.
    change (0 + 1) with 1. change (0 / FOUR_KB) with 0. change (0 mod FOUR_KB) with 0.
    now rewrite !Z.add_0_r. }
  rewrite !Z.sub_0_r in *. rewrite Z.add_0_l in E. rewrite Z.add_0_r in B.
  fold n in E, B. rewrite E. exists m'.
  destruct (Z.leb_spec length (file_size fs m inode)) as [Hfull|Hshort].
  - rewrite Z.ltb_irrefl. cbn [negb Z.eqb]. rewrite s32_small by lia.
    replace n with length in * by lia. done.
  - rewrite s32_small by (unfold FOUR_KB in *; lia). done.
Qed.

(** A program is read completely and exactly without a descriptor when its
    length is at least the number of data blocks of the image. *)
Theorem read_data_exec_correct fs pcb inode buf length m :
  file_ok fs m inode -> bblock_D fs <= file_size fs m inode <= length ->
  buf <> 0 -> 0 <= length < 2147483648 -> rdisj (buf, length) (image fs) ->
  exists m', read_data fs pcb inode 0 buf length (-1) m = (file_size fs m inode, m') /\
    bytes m' buf (Z.to_nat (file_size fs m inode)) = file_bytes fs m inode /\
    unchanged (in_range buf length) m m'.
Proof.
  intros Hf [HD Hl] Hb Hlen Hd.
  destruct (read_data_exec fs pcb inode buf length m Hf HD Hb Hlen Hd) as (m' & E & B & U).
  rewrite Z.min_r in E, B by done. exists m'. done.
Qed.

(** An image of the same file with four data blocks. *)
Definition exec_fs : filesys := mkFilesys 0x400000 0 1 4 0.

Lemma read_data_exec_correct_witness :
  exists m', read_data exec_fs 0 0 0 0x2000 64 (-1) small_mem = (5, m') /\
    bytes m' 0x2000 5 = [72; 101; 108; 108; 111].
Proof.
  destruct (read_data_exec_correct exec_fs 0 0 0x2000 64 small_mem) as (m' & E & B & _).
  - assert (E : file_size exec_fs small_mem 0 = 5) by (vm_compute; reflexivity).
    unfold file_ok, image_ok. rewrite E. split; [vm_compute; intuition congruence|].
    split; [vm_compute; intuition congruence|]. split; [vm_compute; congruence|].
    intros o Ho. replace (o / FOUR_KB) with 0 by (unfold FOUR_KB; zdm). vm_compute. reflexivity.
  - vm_compute. intuition congruence.
  - lia.
  - lia.
  - vm_compute. intuition congruence.
  - exists m'. split; [exact E|exact B].
Defined.

(** When the length of a file is itself a valid block number, a read without a
    descriptor delivers that block instead of the file: the file "Hello" of five
    bytes comes out as the contents of data block 5. *)
Theorem read_data_exec_small_file :
  file_bytes small_fs small_mem 0 = [72; 101; 108; 108; 111] /\
  let '(r, m') := read_data small_fs 0 0 0 0x2000 64 (-1) small_mem in
  r = 5 /\ bytes m' 0x2000 5 = [1; 2; 3; 4; 5].
Proof. vm_compute. intuition congruence. Qed.

(** C15 The loops of read_data end whatever the image and the inode hold (block numbers out
    of range, chains without an end, a buffer inside the image).  The search for a block
    of the image stops before 1025 blocks, and what it finds is a block of the image; the
    copy loop stops after at most one turn for each byte asked for or left in the file:
    either every byte asked for is delivered, which takes a file with as many left, or
    fewer.  More turns than [rd_turns] never change the result. *)
Theorem read_data_terminates fs inode buf length size offset c m :
  0 <= length < 4294967296 -> 0 <= offset <= size -> size < 4294967296 -> 0 <= rd_idx c ->
  (forall fuel, (1025 <= fuel)%nat -> skip_blocks fuel fs m inode c = skip_blocks 1025 fs m inode c) /\
  (forall c', skip_blocks 1025 fs m inode c = Some c' -> 0 <= rd_dnode c' < bblock_D fs) /\
  (forall fuel, (rd_turns length size offset <= fuel)%nat ->
     rd_loop fuel fs inode buf length size 0 offset c m =
     rd_loop (rd_turns length size offset) fs inode buf length size 0 offset c m) /\
  match rd_loop (rd_turns length size offset) fs inode buf length size 0 offset c m with
  | RdShort n _ => 0 <= n <= size - offset /\ n < length
  | RdFull n _ _ => n = length /\ length <= size - offset
  end.
Proof.
  intros Hl Ho Hs Hc. destruct (skip_blocks_ends fs inode m 1025 c) as [S1 S2]; [lia|lia|].
  split; [exact S1|]. split; [intros c' E; rewrite E in S2; apply S2|].
  destruct (rd_loop_ends fs inode buf length size (rd_turns length size offset) 0 offset c m) as [R1 R2];
    [lia|lia|lia|lia|unfold rd_turns; lia|].
  split; [exact R1|]. destruct (rd_loop _ _ _ _ _ _ _ _ _ _); lia.
Qed.

(** An empty image: the file claims 100 bytes and has no block. *)
Lemma read_data_terminates_witness :
  exists m', rd_loop (rd_turns 10 100 0) (mkFilesys 0 0 1 0 0) 0 0x2000 10 100 0 0 (mkCursor 0 7 0) (Mem ∅ ∅ 0) = RdShort 0 m'.
Proof.
  destruct (read_data_terminates (mkFilesys 0 0 1 0 0) 0 0x2000 10 100 0 (mkCursor 0 7 0) (Mem ∅ ∅ 0)
    ltac:(lia) ltac:(lia) ltac:(lia) ltac:(cbn; lia)) as (_ & _ & R & _).
  rewrite <- (R 20%nat) by (vm_compute; lia). eexists. vm_compute. reflexivity.
Defined.
