(* ===== verification/FilesysDir.v ===== *)
(** * Directory lookups, listings and the life of a descriptor

    The directory is a list of names.  Looking a name up is [list_find] on that
    list, the n-th read of the directory delivers its n-th name, and the open
    operations put what the lookup found into the lowest free descriptor. *)

From S2P Require Import Prelude Mem CString State Pcb Filesys FilesysRead.

#[local] Arguments strlen : simpl never.
#[local] Arguments strncpy : simpl never.

(** ** Copies of names *)

Lemma cname_unchanged_strlen P m m' a n :
  unchanged P m m' -> (forall b, in_range a (strlen m a + 1) b -> ~ P b) ->
  cname m' a n = cname m a n.
Proof.
  intros U HP. symmetry. apply cname_ext. intros i Hi Hnz. symmetry.
  eapply unchanged_load8; [exact U|]. apply HP.
  destruct (strlen_spec m a) as (Hl & Hz & _).
  destruct (Z.le_gt_cases i (strlen m a)); [unfold in_range; lia|].
  exfalso. apply (Hnz (strlen m a)); [lia|exact Hz].
Qed.

Lemma bytes_eq_load8 m m' a a' n i :
  bytes m a n = bytes m' a' n -> 0 <= i < Z.of_nat n -> load8 m (a + i) = load8 m' (a' + i).
Proof.
  intros E Hi. apply (f_equal (lookup (Z.to_nat i))) in E.
  rewrite !bytes_lookup in E by lia. injection E as E. now rewrite Z2Nat.id in E by lia.
Qed.

Lemma bytes_ext m m' a a' n :
  (forall i, 0 <= i < Z.of_nat n -> load8 m (a + i) = load8 m' (a' + i)) ->
  bytes m a n = bytes m' a' n.
Proof.
  intros H. apply list_eq_same_length with (n := n); [apply length_bytes..|].
  intros k x y Hk. rewrite !bytes_lookup by done. intros [= <-] [= <-]. apply H. lia.
Qed.

(** [strncpy] of a whole string without its NUL. *)
Lemma strncpy_strlen m dest src :
  let L := strlen m src in
  L < 4294967296 -> disj dest L src L ->
  unchanged (in_range dest L) m (strncpy m dest src L) /\
  bytes (strncpy m dest src L) dest (Z.to_nat L) = bytes m src (Z.to_nat L).
Proof.
  intros L HL Hd. destruct (strlen_spec m src) as (H0 & _). fold L in H0.
  destruct (strncpy_spec m dest src L) as (U & B); [lia|done|]. split; [done|].
  rewrite B, cname_strlen. fold L. rewrite Nat.min_id, length_bytes, Nat.sub_diag.
  apply app_nil_r.
Qed.

(** A name of which the bytes before its end were copied and which then ends. *)
Lemma cname_copied m m' a a' n :
  let L := strlen m a in
  (forall i, 0 <= i < Z.min L (Z.of_nat n) -> load8 m' (a' + i) = load8 m (a + i)) ->
  (L < Z.of_nat n -> load8 m' (a' + L) = 0) ->
  cname m' a' n = cname m a n.
Proof.
  intros L Hc Hz. symmetry. apply cname_ext. intros i Hi Hnz.
  destruct (strlen_spec m a) as (H0 & Hend & _). fold L in H0, Hend.
  destruct (Z.lt_total i L) as [Hlt|[->|Hgt]].
  - symmetry. apply Hc. lia.
  - rewrite Hz by lia. done.
  - exfalso. apply (Hnz L); [lia|done].
Qed.

Lemma zero_range_spec d lo hi m :
  lo <= hi ->
  let m' := for_range lo hi (fun i m => store8 m (d + i) 0) m in
  unchanged (in_range (d + lo) (hi - lo)) m m' /\
  forall i, lo <= i < hi -> load8 m' (d + i) = 0.
Proof.
  intros Hle m'. split.
  - apply unchanged_for_range. intros i mi Hi. apply unchanged_store8. unfold in_range. lia.
  - intros i Hi. unfold m'.
    apply (for_range_ind (fun k mk => i < k -> load8 mk (d + i) = 0)); [done|lia| |lia].
    intros j mj Hj IH Hij. rewrite load8_store8. destruct (Z.eqb_spec (d + j) (d + i)); [done|].
    apply IH. lia.
Qed.

(** The end of both lookups: padding, type and inode number. *)
Lemma fill_dentry_spec src d L m :
  0 <= L <= 33 -> disj d 40 src 64 ->
  let m' := fill_dentry src d L m in
  let t := load32 m (src + DE_FILETYPE) in
  unchanged (in_range d 40) m m' /\
  (forall i, 0 <= i < Z.min L 32 -> load8 m' (d + i) = load8 m (d + i)) /\
  (forall i, L <= i < 32 -> load8 m' (d + i) = 0) /\
  load32 m' (d + DE_FILETYPE) = t /\
  load32 m' (d + DE_INODE) = (if t =? REG_FILE then load32 m (src + DE_INODE) else 0).
Proof.
  intros HL Hd m' t. unfold disj in Hd.
  set (m1 := for_range L 32 (fun i m => store8 m (d + i) 0) m).
  assert (K1 : unchanged (in_range (d + L) (32 - L)) m m1 /\
               forall i, L <= i < 32 -> load8 m1 (d + i) = 0).
  { destruct (Z.le_gt_cases L 32); [by apply zero_range_spec|].
    unfold m1, for_range. replace (Z.to_nat (32 - L)) with O by lia.
    split; [apply unchanged_refl|lia]. }
  destruct K1 as (U1 & Z1).
  assert (E : m' = store32 (store32 m1 (d + DE_FILETYPE) (load32 m1 (src + 32))) (d + DE_INODE)
                (if load32 m1 (src + 32) =? REG_FILE then load32 m1 (src + 36) else 0)).
  { unfold m', fill_dentry, NAME_LEN. fold m1.
    change (4 * FN_OFFSET) with 32. change (4 * FT_OFFSET) with 36.
    rewrite load32_store32_eq, u32_small by apply load32_range.
    destruct (load32 m1 (src + 32) =? REG_FILE); [|done].
    f_equal. apply load32_store32_ne. unfold DE_FILETYPE. lia. }
  assert (S1 : forall o, 0 <= o <= 60 -> load32 m1 (src + o) = load32 m (src + o)).
  { intros o Ho. eapply unchanged_load32; [exact U1|]. unfold in_range. lia. }
  rewrite !S1 in E by lia. rewrite E. fold t.
  assert (Hm : forall i v w, 0 <= i < 32 ->
    load8 (store32 (store32 m1 (d + DE_FILETYPE) v) (d + DE_INODE) w) (d + i) = load8 m1 (d + i)).
  { intros i v w Hi. unfold DE_FILETYPE, DE_INODE. rewrite !load8_store32_ne by lia. done. }
  split; [|split; [|split; [|split]]].
  - apply (unchanged_trans _ _ m1).
    + eapply unchanged_weaken; [|exact U1]. unfold in_range. lia.
    + eapply unchanged_trans; apply unchanged_store32; unfold in_range, DE_FILETYPE, DE_INODE; lia.
  - intros i Hi. rewrite Hm by lia. eapply unchanged_load8; [exact U1|]. unfold in_range. lia.
  - intros i Hi. rewrite Hm by lia. by apply Z1.
  - rewrite load32_store32_ne by (unfold DE_FILETYPE, DE_INODE; lia).
    rewrite load32_store32_eq. apply u32_small, load32_range.
  - rewrite load32_store32_eq. apply u32_small. destruct (t =? REG_FILE); [apply load32_range|lia].
Qed.

(** ** Looking a name up *)

(** The name of directory entry [i], and the names from entry [i] on. *)
Definition entry_name (fs : filesys) (m : mem) (i : Z) : list Z := cname m (entry fs i) 32.
Definition names_from (fs : filesys) (m : mem) (i : Z) (n : nat) : list (list Z) :=
  entry_name fs m <$> zseq i n.
Definition dir_names (fs : filesys) (m : mem) : list (list Z) :=
  names_from fs m 1 (Z.to_nat (n_dir_entries fs)).

Definition boot_region (fs : filesys) : region := (filesys_ptr fs, FOUR_KB).

(** A directory of at most 63 entries whose types fit a byte, as a boot block of
    4 KB and the three file types imply. *)
Definition dir_ok (fs : filesys) (m : mem) : Prop :=
  filesys_ptr fs <> 0 /\ 0 <= n_dir_entries fs <= 63 /\
  forall i, 1 <= i <= n_dir_entries fs -> load32 m (entry fs i + DE_FILETYPE) < 256.

(** A name of 32 characters has no NUL, and its length counts the type byte. *)
Lemma strlen_entry fs m i :
  dir_ok fs m -> 1 <= i <= n_dir_entries fs -> 0 <= strlen m (entry fs i) <= 33.
Proof.
  intros (_ & _ & Ht) Hi. specialize (Ht i Hi). destruct (strlen_spec m (entry fs i)) as (H0 & _ & Hnz).
  split; [done|]. destruct (Z.le_gt_cases (strlen m (entry fs i)) 33); [done|].
  exfalso. apply (Hnz 33); [lia|]. unfold load32, DE_FILETYPE in Ht.
  pose proof (load8_range m (entry fs i + 32)). pose proof (load8_range m (entry fs i + 32 + 1)).
  pose proof (load8_range m (entry fs i + 32 + 2)). pose proof (load8_range m (entry fs i + 32 + 3)).
  replace (entry fs i + 33) with (entry fs i + 32 + 1) by lia. lia.
Qed.

Lemma entry_in_boot fs m i a :
  dir_ok fs m -> 1 <= i <= n_dir_entries fs -> in_range (entry fs i) 64 a ->
  in_region (boot_region fs) a.
Proof.
  intros (_ & Hn & _) Hi. unfold in_range, in_region, boot_region, entry, DENTRY_SIZE, FOUR_KB, in_range.
  cbn. lia.
Qed.

Section Lookup.
Context `{Layout} (fs : filesys) (m0 : mem).
Context (Hdir : dir_ok fs m0).

(** [filename_buf] has 32 bytes, but the copy of a 32-character name takes 33. *)
Definition scratch : region := (filename_buf, 33).

Context (Hsb : rdisj scratch (boot_region fs)).

Lemma scratch_off_boot a : in_region (boot_region fs) a -> ~ in_region scratch a.
Proof using Hsb.
  clear Hdir. unfold rdisj, disj, in_region, in_range in *. cbn in *. lia.
Qed.

Lemma strlen_entry_scratch m i :
  unchanged (in_region scratch) m0 m -> 1 <= i <= n_dir_entries fs ->
  strlen m (entry fs i) = strlen m0 (entry fs i) /\
  entry_name fs m i = entry_name fs m0 i.
Proof using Hdir Hsb.
  intros U Hi. pose proof (strlen_entry fs m0 i Hdir Hi) as HL.
  assert (K : forall b, in_range (entry fs i) (strlen m0 (entry fs i) + 1) b -> ~ in_region scratch b).
  { intros b Hb. apply scratch_off_boot. eapply entry_in_boot; [exact Hdir|exact Hi|].
    unfold in_range in *. lia. }
  split.
  - apply strlen_eq. eapply is_cstr_unchanged; [exact U|exact K|apply strlen_spec].
  - eapply cname_unchanged_strlen; [exact U|exact K].
Qed.

(** One turn of the search: the name of the entry is in [filename_buf]. *)
Lemma copy_entry_name m i :
  unchanged (in_region scratch) m0 m -> 1 <= i <= n_dir_entries fs ->
  let L := strlen m (entry fs i) in
  let m1 := strncpy m filename_buf (entry fs i) L in
  let m2 := if L <? NAME_LEN then store8 m1 (filename_buf + L) 0 else m1 in
  unchanged (in_region scratch) m m2 /\
  cname m2 filename_buf 32 = entry_name fs m0 i /\
  bytes m2 filename_buf (Z.to_nat L) = bytes m0 (entry fs i) (Z.to_nat L).
Proof using Hdir Hsb.
  intros U Hi L m1 m2. destruct (strlen_entry_scratch m i U Hi) as [EL EN].
  pose proof (strlen_entry fs m0 i Hdir Hi) as HL. rewrite <- EL in HL. fold L in HL.
  assert (Hb : forall a, in_range (entry fs i) 64 a -> ~ in_region scratch a)
    by (intros a Ha; eapply scratch_off_boot, entry_in_boot; eauto).
  destruct (strncpy_strlen m filename_buf (entry fs i)) as (U1 & B1); fold L; [lia| |].
  { unfold disj. destruct (Hdir) as (_ & Hn & _). unfold rdisj, disj, boot_region, FOUR_KB, entry,
      DENTRY_SIZE in *. cbn in *. lia. }
  fold L m1 in U1, B1.
  assert (U1' : unchanged (in_region scratch) m m1).
  { eapply unchanged_weaken; [|exact U1]. unfold in_region, in_range, scratch. cbn. lia. }
  assert (U2 : unchanged (in_range (filename_buf + L) 1) m1 m2).
  { unfold m2. destruct (L <? NAME_LEN); [|apply unchanged_refl].
    apply unchanged_store8. unfold in_range. lia. }
  assert (K : forall k, 0 <= k < L -> load8 m2 (filename_buf + k) = load8 m (entry fs i + k)).
  { intros k Hk. transitivity (load8 m1 (filename_buf + k)).
    - eapply unchanged_load8; [exact U2|]. unfold in_range. lia.
    - eapply bytes_eq_load8; [exact B1|lia]. }
  split; [|split].
  - eapply unchanged_trans; [exact U1'|].
    unfold m2. destruct (Z.ltb_spec L NAME_LEN); [|apply unchanged_refl].
    apply unchanged_store8. unfold in_region, in_range, scratch, NAME_LEN in *. cbn. lia.
  - rewrite <- EN. apply cname_copied; fold L.
    + intros k Hk. apply K. lia.
    + intros HL32. unfold m2. replace (L <? NAME_LEN) with true by (unfold NAME_LEN; lia).
      apply load8_store8_eq.
  - apply bytes_ext. intros k Hk. rewrite K by lia.
    eapply unchanged_load8; [exact U|]. apply Hb. unfold in_range. lia.
Qed.

Context (fname : Z) (Hfname : rdisj (fname, strlen m0 fname + 1) scratch).

Definition target : list Z := cname m0 fname 32.

Lemma target_scratch m : unchanged (in_region scratch) m0 m -> cname m fname 32 = target.
Proof using Hfname.
  intros U. eapply cname_unchanged_strlen; [exact U|].
  clear -Hfname. unfold rdisj, disj, in_region, in_range in *. cbn in *. lia.
Qed.

(** The search loop is [list_find] on the names. *)
Lemma find_entry_spec fuel : forall i m,
  unchanged (in_region scratch) m0 m ->
  1 <= i <= n_dir_entries fs + 1 -> n_dir_entries fs + 1 - i < Z.of_nat fuel ->
  exists m', unchanged (in_region scratch) m0 m' /\
    match list_find (eq target) (names_from fs m0 i (Z.to_nat (n_dir_entries fs + 1 - i))) with
    | None => find_entry fuel fs fname i m = (None, m')
    | Some (k, _) =>
        let j := i + Z.of_nat k in
        let L := strlen m0 (entry fs j) in
        find_entry fuel fs fname i m = (Some (j, L), m') /\
        bytes m' filename_buf (Z.to_nat L) = bytes m0 (entry fs j) (Z.to_nat L)
    end.
Proof using Hdir Hsb Hfname.
  induction fuel as [|f IH]; intros i m U Hi Hf; [lia|]. cbn [find_entry].
  destruct (Z.leb_spec i (n_dir_entries fs)) as [Hle|Hgt].
  2: { replace (Z.to_nat _) with O by lia. exists m. done. }
  replace (Z.to_nat (n_dir_entries fs + 1 - i))
    with (S (Z.to_nat (n_dir_entries fs + 1 - (i + 1)))) by lia.
  unfold names_from. rewrite zseq_S. cbn [fmap list_fmap list_find].
  fold (names_from fs m0 (i + 1) (Z.to_nat (n_dir_entries fs + 1 - (i + 1)))).
  destruct (copy_entry_name m i U ltac:(lia)) as (U2 & N2 & B2).
  destruct (strlen_entry_scratch m i U ltac:(lia)) as [EL _].
  set (m2 := if _ <? NAME_LEN then _ else _) in *.
  assert (U02 : unchanged (in_region scratch) m0 m2) by (by eapply unchanged_trans).
  assert (Hcmp : strncmp m2 fname filename_buf NAME_LEN = 0 <-> target = entry_name fs m0 i).
  { rewrite strncmp_zero by (unfold NAME_LEN; lia). change (Z.to_nat NAME_LEN) with 32%nat.
    now rewrite target_scratch, N2. }
  destruct (decide (target = entry_name fs m0 i)) as [Heq|Hne].
  - replace (strncmp m2 fname filename_buf NAME_LEN =? 0) with true by (symmetry; apply Z.eqb_eq; tauto).
    exists m2. split; [done|]. cbn zeta. rewrite Z.add_0_r, EL in *. done.
  - replace (strncmp m2 fname filename_buf NAME_LEN =? 0) with false
      by (symmetry; apply Z.eqb_neq; tauto).
    destruct (IH (i + 1) m2) as (m' & U' & E'); [done|lia|lia|]. exists m'. split; [done|].
    destruct (list_find _ _) as [[k x]|]; cbn; [|done].
    replace (i + Z.of_nat (S k)) with (i + 1 + Z.of_nat k) by lia. done.
Qed.
End Lookup.

(** What the image says about entry [i]. *)
Definition entry_type (fs : filesys) (m : mem) (i : Z) : Z := load32 m (entry fs i + DE_FILETYPE).
Definition entry_inode (fs : filesys) (m : mem) (i : Z) : Z :=
  if entry_type fs m i =? REG_FILE then load32 m (entry fs i + DE_INODE) else 0.

Definition dentry_region (d : Z) : region := (d, 40).

Section ByName.
Context `{Layout} (fs : filesys) (fname dentry : Z) (m : mem).
Context (Hdir : dir_ok fs m) (Hf0 : fname <> 0) (Hd0 : dentry <> 0) (Hlen : strlen m fname <= 32).
Context (Hsb : rdisj scratch (boot_region fs)).
Context (Hfs : rdisj (fname, strlen m fname + 1) scratch).
Context (Hob : rdisj (dentry_region open_dentry) (boot_region fs)).
Context (Hdb : rdisj (dentry_region dentry) (boot_region fs)).
Context (Hso : rdisj scratch (dentry_region open_dentry)).

Definition lookup_frame (a : Z) : Prop :=
  in_region scratch a \/ in_region (dentry_region open_dentry) a \/ in_region (dentry_region dentry) a.

(** What a successful lookup of entry [i] leaves in memory. *)
Definition dentry_filled (i : Z) (m' : mem) : Prop :=
  unchanged lookup_frame m m' /\
  load32 m' (dentry + DE_FILETYPE) = entry_type fs m i /\
  load32 m' (dentry + DE_INODE) = entry_inode fs m i /\
  (dentry = open_dentry -> cname m' open_dentry 32 = entry_name fs m i) /\
  (rdisj (dentry_region dentry) (dentry_region open_dentry) ->
   rdisj (dentry_region dentry) scratch ->
   bytes m' dentry (length (entry_name fs m i)) = bytes m dentry (length (entry_name fs m i))).

Lemma fill_found i m1 :
  1 <= i <= n_dir_entries fs -> unchanged (in_region scratch) m m1 ->
  let L := strlen m (entry fs i) in
  bytes m1 filename_buf (Z.to_nat L) = bytes m (entry fs i) (Z.to_nat L) ->
  dentry_filled i (fill_dentry (entry fs i) dentry L (strncpy m1 open_dentry filename_buf L)).
Proof using Hdir Hsb Hob Hdb Hso.
  clear Hf0 Hd0 Hlen Hfs. intros Hi U1 L B1.
  pose proof (strlen_entry fs m i Hdir Hi) as HL. fold L in HL.
  assert (Hboot : forall a, in_range (entry fs i) 64 a -> in_region (boot_region fs) a)
    by (intros a; by eapply entry_in_boot).
  pose proof (Hboot (entry fs i)) as Hlo. pose proof (Hboot (entry fs i + 63)) as Hhi.
  unfold rdisj, disj, in_region, in_range, scratch, dentry_region, boot_region in *. cbn in *.
  destruct (strncpy_spec m1 open_dentry filename_buf L) as (U2 & B2); [lia|unfold disj; lia|].
  set (m2 := strncpy m1 open_dentry filename_buf L) in *.
  assert (K2 : forall k, 0 <= k < L -> load8 m2 (open_dentry + k) = load8 m (entry fs i + k)).
  { intros k Hk. destruct (strlen_spec m (entry fs i)) as (_ & _ & Hnz). fold L in Hnz.
    assert (K1 : forall j, 0 <= j < L -> load8 m1 (filename_buf + j) = load8 m (entry fs i + j))
      by (intros j Hj; eapply bytes_eq_load8; [exact B1|lia]).
    assert (EL : Nat.min (Z.to_nat L) (Z.to_nat (strlen m1 filename_buf)) = Z.to_nat L).
    { apply Nat.min_l. destruct (strlen_spec m1 filename_buf) as (_ & Hz & _).
      destruct (Z.le_gt_cases L (strlen m1 filename_buf)); [lia|]. exfalso.
      pose proof (proj1 (strlen_spec m1 filename_buf)).
      rewrite K1 in Hz by lia. apply (Hnz (strlen m1 filename_buf)); [lia|done]. }
    rewrite cname_strlen, EL, length_bytes, Nat.sub_diag, app_nil_r in B2.
    rewrite <- K1 by done. eapply bytes_eq_load8; [exact B2|lia]. }
  assert (Hsrc : forall o, 0 <= o <= 60 -> load32 m2 (entry fs i + o) = load32 m (entry fs i + o)).
  { intros o Ho. transitivity (load32 m1 (entry fs i + o)).
    - eapply unchanged_load32; [exact U2|]. unfold in_range. lia.
    - eapply unchanged_load32; [exact U1|]. unfold in_range. cbn. lia. }
  destruct (fill_dentry_spec (entry fs i) dentry L m2) as (U3 & K3 & Z3 & T3 & I3);
    [lia|unfold disj; lia|].
  set (m3 := fill_dentry (entry fs i) dentry L m2) in *.
  assert (Hname : length (entry_name fs m i) = Nat.min 32 (Z.to_nat L))
    by (unfold entry_name; now rewrite cname_strlen, length_bytes).
  rewrite (Hsrc DE_FILETYPE) in T3, I3 by (unfold DE_FILETYPE; lia).
  rewrite (Hsrc DE_INODE) in I3 by (unfold DE_INODE; lia).
  split; [|split; [done|split; [|split]]].
  - apply (unchanged_trans _ _ m1); [eapply unchanged_weaken; [|exact U1]; by left|].
    apply (unchanged_trans _ _ m2).
    + eapply unchanged_weaken; [|exact U2]. intros a Ha. right; left.
      unfold in_region, in_range, dentry_region in *. cbn. lia.
    + eapply unchanged_weaken; [|exact U3]. by right; right.
  - rewrite I3. unfold entry_inode, entry_type. reflexivity.
  - intros Ed. rewrite Ed in *. unfold entry_name. apply cname_copied; fold L.
    + intros k Hk. rewrite K3 by lia. apply K2. lia.
    + intros Hlt. apply Z3. lia.
  - intros Hdo Hds. rewrite Hname. apply bytes_ext. intros k Hk. rewrite K3 by lia.
    unfold rdisj, disj in Hdo, Hds. cbn in Hdo, Hds. transitivity (load8 m1 (dentry + k)).
    + eapply unchanged_load8; [exact U2|]. unfold in_range. lia.
    + eapply unchanged_load8; [exact U1|]. cbn. lia.
Qed.

Lemma read_dentry_by_name_spec :
  match list_find (eq (cname m fname 32)) (dir_names fs m) with
  | None => exists m', read_dentry_by_name fs fname dentry m = (-1, m') /\
      unchanged (in_region scratch) m m'
  | Some (k, _) => exists m', read_dentry_by_name fs fname dentry m = (0, m') /\
      dentry_filled (1 + Z.of_nat k) m'
  end.
Proof using Hdir Hf0 Hd0 Hlen Hsb Hfs Hob Hdb Hso.
  pose proof Hdir as (Hp & Hn & _).
  unfold read_dentry_by_name.
  replace ((fname =? 0) || (dentry =? 0) || (filesys_ptr fs =? 0)) with false by lia.
  replace (NAME_LEN <? strlen m fname) with false by (unfold NAME_LEN; lia).
  destruct (find_entry_spec fs m Hdir Hsb fname Hfs (S (Z.to_nat (n_dir_entries fs))) 1 m)
    as (m1 & U1 & E1); [apply unchanged_refl|lia|lia|].
  replace (n_dir_entries fs + 1 - 1) with (n_dir_entries fs) in E1 by lia.
  unfold dir_names, target in *.
  destruct (list_find _ _) as [[k x]|] eqn:Efind; [|rewrite E1; by eauto].
  destruct E1 as (-> & B1). eexists. split; [reflexivity|].
  apply fill_found; [|done|done].
  apply list_find_Some in Efind as (Hk & _). apply lookup_lt_Some in Hk.
  unfold names_from in Hk. rewrite length_fmap, length_zseq in Hk. lia.
Qed.
End ByName.

(** The search finds an entry of the directory. *)
Lemma found_index fs m (Hdir : dir_ok fs m) name i x :
  list_find (eq name) (dir_names fs m) = Some (i, x) -> 1 <= 1 + Z.of_nat i <= n_dir_entries fs.
Proof.
  intros E. apply list_find_Some in E as (Hk & _). apply lookup_lt_Some in Hk.
  unfold dir_names, names_from in Hk. rewrite length_fmap, length_zseq in Hk.
  destruct Hdir as (_ & Hn & _). lia.
Qed.

(** ** Looking an entry up by its number *)

Lemma read_dentry_by_index_spec fs index dentry m :
  dir_ok fs m -> dentry <> 0 -> 0 <= index < n_dir_entries fs ->
  rdisj (dentry_region dentry) (boot_region fs) ->
  exists m', read_dentry_by_index fs index dentry m = (0, m') /\
    unchanged (in_region (dentry_region dentry)) m m' /\
    cname m' dentry 32 = entry_name fs m (index + 1) /\
    load32 m' (dentry + DE_FILETYPE) = entry_type fs m (index + 1) /\
    load32 m' (dentry + DE_INODE) = entry_inode fs m (index + 1).
Proof.
  intros Hdir Hd Hi Hb. set (i := index + 1).
  assert (Hi' : 1 <= i <= n_dir_entries fs) by lia.
  pose proof (strlen_entry fs m i Hdir Hi') as HL.
  assert (Hboot : forall a, in_range (entry fs i) 64 a -> in_region (boot_region fs) a)
    by (intros a; by eapply entry_in_boot).
  pose proof (Hboot (entry fs i)) as Hlo. pose proof (Hboot (entry fs i + 63)) as Hhi.
  unfold read_dentry_by_index. zdecide. fold i.
  replace ((index <? 0) || (n_dir_entries fs <=? index)) with false by lia.
  set (L := strlen m (entry fs i)) in *.
  unfold rdisj, disj, in_region, in_range, dentry_region, boot_region in *. cbn [fst snd] in *.
  destruct (strncpy_strlen m dentry (entry fs i)) as (U1 & B1); fold L; [lia|unfold disj; lia|].
  fold L in U1, B1. set (m1 := strncpy m dentry (entry fs i) L) in *.
  destruct (fill_dentry_spec (entry fs i) dentry L m1) as (U3 & K3 & Z3 & T3 & I3);
    [lia|unfold disj; lia|].
  set (m3 := fill_dentry (entry fs i) dentry L m1) in *.
  assert (Hsrc : forall o, 0 <= o <= 60 -> load32 m1 (entry fs i + o) = load32 m (entry fs i + o)).
  { intros o Ho. eapply unchanged_load32; [exact U1|]. unfold in_range. lia. }
  rewrite (Hsrc DE_FILETYPE) in T3, I3 by (unfold DE_FILETYPE; lia).
  rewrite (Hsrc DE_INODE) in I3 by (unfold DE_INODE; lia).
  exists m3. split; [done|]. split; [|split; [|split; [done|done]]].
  - apply (unchanged_trans _ _ m1).
    + eapply unchanged_weaken; [|exact U1]. unfold in_range. cbn. lia.
    + eapply unchanged_weaken; [|exact U3]. done.
  - apply cname_copied; fold L.
    + intros k Hk. rewrite K3 by lia. eapply bytes_eq_load8; [exact B1|lia].
    + intros Hlt. apply Z3. lia.
Qed.

(** ** Listing a directory *)

(** The copy of the name out of [read_dentry]. *)
Lemma dr_copy_spec `{Layout} buf nbytes fuel : forall cnt m,
  disj buf nbytes read_dentry 32 -> 0 <= cnt <= 32 -> cnt <= nbytes -> 32 - cnt < Z.of_nat fuel ->
  let l := cname m (read_dentry + cnt) (Z.to_nat (Z.min nbytes 32 - cnt)) in
  exists m', dr_copy fuel buf nbytes cnt m = (cnt + Z.of_nat (length l), m') /\
    unchanged (in_range (buf + cnt) (Z.of_nat (length l))) m m' /\
    bytes m' (buf + cnt) (length l) = l.
Proof.
  induction fuel as [|f IH]; intros cnt m Hd Hc Hn Hf; [lia|]. cbn [dr_copy].
  destruct (Z.ltb_spec cnt nbytes) as [H1|H1]; cbn [andb].
  2: { replace (Z.to_nat _) with O by lia. exists m. cbn. rewrite Z.add_0_r.
       split; [done|]. split; [apply unchanged_refl|done]. }
  destruct (Z.ltb_spec cnt NAME_LEN) as [H2|H2]; unfold NAME_LEN in *.
  2: { replace (Z.to_nat _) with O by lia. exists m. cbn. rewrite Z.add_0_r.
       split; [done|]. split; [apply unchanged_refl|done]. }
  replace (Z.to_nat (Z.min nbytes 32 - cnt)) with (S (Z.to_nat (Z.min nbytes 32 - (cnt + 1)))) by lia.
  cbn [cname]. destruct (Z.eqb_spec (load8 m (read_dentry + cnt)) 0) as [E|E].
  { exists m. cbn. rewrite Z.add_0_r. split; [done|]. split; [apply unchanged_refl|done]. }
  set (m1 := store8 m (buf + cnt) (load8 m (read_dentry + cnt))).
  destruct (IH (cnt + 1) m1) as (m' & E' & U & B); [done|lia..|].
  assert (El : cname m1 (read_dentry + (cnt + 1)) (Z.to_nat (Z.min nbytes 32 - (cnt + 1)))
             = cname m (read_dentry + cnt + 1) (Z.to_nat (Z.min nbytes 32 - (cnt + 1)))).
  { replace (read_dentry + (cnt + 1)) with (read_dentry + cnt + 1) by lia.
    eapply cname_unchanged; [apply (unchanged_store8 (in_range buf nbytes)); unfold in_range; lia|].
    unfold in_range, disj in *. lia. }
  rewrite El in *. set (l := cname m (read_dentry + cnt + 1) _) in *.
  exists m'. cbn [length]. split; [rewrite E'; f_equal; lia|]. split.
  - apply (unchanged_trans _ _ m1); [apply unchanged_store8; unfold in_range; lia|].
    eapply unchanged_weaken; [|exact U]. unfold in_range. lia.
  - rewrite bytes_S. replace (buf + cnt + 1) with (buf + (cnt + 1)) by lia. rewrite B. f_equal.
    erewrite unchanged_load8; [|exact U|unfold in_range; lia].
    unfold m1. rewrite load8_store8_eq. apply u8_small, load8_range.
Qed.

(** Descriptor [fd] is open on the directory at entry [pos]. *)
Definition open_dir (fs : filesys) (m : mem) (pcb fd pos : Z) : Prop :=
  let flags := fd_get m pcb fd FD_FLAGS in
  Z.land flags USE_MASK <> 0 /\ Z.shiftr flags 1 mod 2 <> 0 /\
  fd_get m pcb fd FD_POS = pos /\ 0 <= pos <= n_dir_entries fs.

Lemma cname_take m a n k : cname m a (Nat.min k n) = take k (cname m a n).
Proof.
  revert a k. induction n as [|n IH]; intros a k; cbn [cname].
  - rewrite Nat.min_0_r. now destruct k.
  - destruct k as [|k]; cbn [Nat.min cname take]; [done|].
    destruct (load8 m a =? 0); [done|]. cbn. now rewrite IH.
Qed.

Section DirRead.
Context `{Layout} (fs : filesys) (pcb fd buf nbytes pos : Z) (m : mem).
Context (Hdir : dir_ok fs m) (Hopen : open_dir fs m pcb fd pos).
Context (Hb0 : buf <> 0) (Hfd : 2 <= fd <= 7) (Hn : 0 <= nbytes) (Hr0 : read_dentry <> 0).
Context (Hrb : rdisj (dentry_region read_dentry) (boot_region fs)).
Context (Hbr : rdisj (buf, nbytes + 1) (dentry_region read_dentry)).
Context (Hbf : rdisj (buf, nbytes + 1) (fd_region pcb fd)).
Context (Hfr : rdisj (fd_region pcb fd) (dentry_region read_dentry)).

(** What a directory read may write; [slack] is 1 when the name fills the
    buffer, for the NUL behind it. *)
Definition dir_frame (slack a : Z) : Prop :=
  in_range buf (nbytes + slack) a \/ in_region (dentry_region read_dentry) a \/
  in_region (fd_region pcb fd) a.

Lemma dir_read_spec :
  pos < n_dir_entries fs ->
  let name := entry_name fs m (pos + 1) in
  let cnt := length (take (Z.to_nat nbytes) name) in
  exists m', dir_read fs pcb fd buf nbytes m = (Z.of_nat cnt, m') /\
    bytes m' buf cnt = take (Z.to_nat nbytes) name /\
    (cnt = length name -> load8 m' (buf + Z.of_nat cnt) = 0) /\
    open_dir fs m' pcb fd (pos + 1) /\
    unchanged (dir_frame (if Z.of_nat (length name) =? nbytes then 1 else 0)) m m' /\
    fd_get m' pcb fd FD_OPS = fd_get m pcb fd FD_OPS.
Proof using Hdir Hopen Hb0 Hfd Hn Hr0 Hrb Hbr Hbf Hfr.
  intros Hpos name cnt. destruct Hopen as (Hu & Ht & Ep & Hp). pose proof Hdir as (_ & Hn63 & _).
  unfold dir_read. zdecide.
  replace ((fd <=? 1) || (8 <=? fd)) with false by lia.
  replace ((Z.land (fd_get m pcb fd FD_FLAGS) USE_MASK =? 0)
           || (Z.shiftr (fd_get m pcb fd FD_FLAGS) 1 mod 2 =? 0)) with false by lia.
  rewrite Ep. zdecide.
  destruct (read_dentry_by_index_spec fs pos read_dentry m) as (m1 & -> & U1 & N1 & _); try (done || lia).
  cbn [Z.eqb]. fold name in N1.
  assert (Hd : disj buf nbytes read_dentry 32).
  { unfold rdisj, disj, dentry_region in *. cbn [fst snd] in *. lia. }
  destruct (dr_copy_spec buf nbytes 33 0 m1) as (m2 & E2 & U2 & B2); [done|lia..|].
  rewrite !Z.add_0_r, Z.sub_0_r in *. rewrite Z.add_0_l in E2.
  replace (Z.to_nat (Z.min nbytes 32)) with (Nat.min (Z.to_nat nbytes) 32) in * by lia.
  rewrite cname_take, N1 in *. fold cnt in E2, U2, B2. rewrite E2.
  assert (Hname : (length name <= 32)%nat) by apply cname_length_le.
  assert (Hcnt : cnt = Nat.min (Z.to_nat nbytes) (length name)) by apply length_take.
  assert (Hread : forall i, 0 <= i < 32 -> load8 m2 (read_dentry + i) = load8 m1 (read_dentry + i)).
  { intros i Hi. eapply unchanged_load8; [exact U2|]. unfold in_range, disj in *. lia. }
  (* the terminator is written exactly when the whole name was copied *)
  assert (Hterm : ((NAME_LEN <=? Z.of_nat cnt) || (load8 m2 (read_dentry + Z.of_nat cnt) =? 0))
                  = bool_decide (cnt = length name)).
  { unfold NAME_LEN. destruct (Z.leb_spec 32 (Z.of_nat cnt)) as [Hc|Hc]; cbn [orb].
    - symmetry. apply bool_decide_eq_true. lia.
    - rewrite Hread by lia. rewrite cname_strlen in N1.
      pose proof (strlen_spec m1 read_dentry) as (S0 & Sz & Snz).
      assert (El : length name = Nat.min 32 (Z.to_nat (strlen m1 read_dentry)))
        by (now rewrite <- N1, length_bytes).
      destruct (bool_decide_reflect (cnt = length name)) as [Eq|Ne].
      + apply Z.eqb_eq. replace (Z.of_nat cnt) with (strlen m1 read_dentry) by lia. done.
      + apply Z.eqb_neq. apply Snz. lia. }
  rewrite Hterm. set (m3 := if bool_decide _ then _ else _).
  set (slack := if Z.of_nat (length name) =? nbytes then 1 else 0).
  assert (Hs : 0 <= slack <= 1) by (unfold slack; destruct (_ =? nbytes); lia).
  assert (U3 : unchanged (in_range (buf + Z.of_nat cnt) 1) m2 m3 /\
               unchanged (in_range buf (nbytes + slack)) m2 m3 /\
               (cnt = length name -> load8 m3 (buf + Z.of_nat cnt) = 0)).
  { unfold m3. destruct (bool_decide_reflect (cnt = length name)) as [Eq|Ne].
    - split; [apply unchanged_store8; unfold in_range; lia|]. split.
      + apply unchanged_store8. unfold in_range, slack.
        destruct (Z.eqb_spec (Z.of_nat (length name)) nbytes); lia.
      + intros _. apply load8_store8_eq.
    - split; [apply unchanged_refl|]. split; [apply unchanged_refl|]. done. }
  destruct U3 as (U3 & U3' & Z3).
  assert (G : forall off, 0 <= off <= 12 -> fd_get m3 pcb fd off = fd_get m pcb fd off).
  { intros off Ho. transitivity (fd_get m2 pcb fd off); [|transitivity (fd_get m1 pcb fd off)].
    - eapply fd_get_unchanged; [exact U3'|lia|lia|].
      unfold rdisj, disj, in_region, in_range, fd_region in *. cbn [fst snd] in *. lia.
    - eapply fd_get_unchanged; [exact U2|lia|lia|].
      unfold rdisj, disj, in_region, in_range, fd_region in *. cbn [fst snd] in *. lia.
    - eapply fd_get_unchanged; [exact U1|lia|lia|].
      unfold rdisj, disj, in_region, in_range, fd_region, dentry_region in *. cbn [fst snd] in *. lia. }
  rewrite G, Ep by (unfold FD_POS; lia). eexists. split; [reflexivity|].
  set (m4 := fd_set m3 pcb fd FD_POS (pos + 1)).
  assert (U4 : unchanged (in_region (fd_region pcb fd)) m3 m4) by (unfold m4; fd_frame).
  assert (Hoff : forall a, in_range buf (nbytes + 1) a -> ~ in_region (fd_region pcb fd) a).
  { unfold rdisj, disj, in_region, in_range, fd_region in *. cbn [fst snd] in *. lia. }
  split; [|split; [|split; [|split]]].
  - transitivity (bytes m3 buf cnt); [|transitivity (bytes m2 buf cnt); [|exact B2]].
    + eapply unchanged_bytes; [exact U4|]. intros b Hb. apply Hoff. unfold in_range in *. lia.
    + eapply unchanged_bytes; [exact U3|]. unfold in_range. lia.
  - intros Eq. erewrite unchanged_load8; [by apply Z3|exact U4|]. apply Hoff. unfold in_range. lia.
  - unfold open_dir, m4. fd_simpl. rewrite !G by (unfold FD_FLAGS; lia).
    split; [done|]. split; [done|]. split; [apply u32_small; lia|lia].
  - apply (unchanged_trans _ _ m1); [eapply unchanged_weaken; [|exact U1]; right; by left|].
    apply (unchanged_trans _ _ m2).
    { eapply unchanged_weaken; [|exact U2]. intros a Ha. left. unfold in_range in *. lia. }
    apply (unchanged_trans _ _ m3); [eapply unchanged_weaken; [|exact U3']; by left|].
    eapply unchanged_weaken; [|exact U4]. by right; right.
  - unfold m4. fd_simpl. apply G. unfold FD_OPS. lia.
Qed.
End DirRead.

(** ** The directory is read-only *)

Section DirFrame.
Context (fs : filesys) (P : Z -> Prop) (m m' : mem).
Context (Hdir : dir_ok fs m) (HU : unchanged P m m').
Context (HP : forall a, P a -> ~ in_region (boot_region fs) a).

Lemma entry_load32_unchanged i o :
  1 <= i <= n_dir_entries fs -> 0 <= o <= 60 ->
  load32 m' (entry fs i + o) = load32 m (entry fs i + o).
Proof using Hdir HU HP.
  intros Hi Ho. eapply unchanged_load32; [exact HU|]. intros b Hb Hp. apply (HP b Hp).
  eapply entry_in_boot; [exact Hdir|exact Hi|]. unfold in_range in *. lia.
Qed.

Lemma entry_name_unchanged i :
  1 <= i <= n_dir_entries fs -> entry_name fs m' i = entry_name fs m i.
Proof using Hdir HU HP.
  intros Hi. eapply cname_unchanged; [exact HU|]. intros b Hb Hp. apply (HP b Hp).
  eapply entry_in_boot; [exact Hdir|exact Hi|]. unfold in_range in *. lia.
Qed.

Lemma names_from_unchanged i n :
  1 <= i -> i + Z.of_nat n <= n_dir_entries fs + 1 -> names_from fs m' i n = names_from fs m i n.
Proof using Hdir HU HP.
  intros Hi Hn. unfold names_from. apply list_fmap_ext. intros k x Hx.
  apply lookup_lt_Some in Hx as Hl. rewrite length_zseq in Hl.
  rewrite zseq_lookup in Hx by done. injection Hx as <-. apply entry_name_unchanged. lia.
Qed.

Lemma dir_ok_unchanged : dir_ok fs m'.
Proof using Hdir HU HP.
  pose proof Hdir as (Hp & Hn & Ht). split; [done|]. split; [done|]. intros i Hi.
  rewrite entry_load32_unchanged by (unfold DE_FILETYPE; lia). by apply Ht.
Qed.
End DirFrame.

Section Listing.
Context `{Layout} (fs : filesys) (pcb fd buf : Z).
Context (Hb0 : buf <> 0) (Hfd : 2 <= fd <= 7) (Hr0 : read_dentry <> 0).
Context (Hrb : rdisj (dentry_region read_dentry) (boot_region fs)).
Context (Hbr : rdisj (buf, 33) (dentry_region read_dentry)).
Context (Hbf : rdisj (buf, 33) (fd_region pcb fd)).
Context (Hfr : rdisj (fd_region pcb fd) (dentry_region read_dentry)).
Context (Hbb : rdisj (buf, 33) (boot_region fs)).
Context (Hfb : rdisj (fd_region pcb fd) (boot_region fs)).

(** Reads of 32 bytes until one returns 0, and the names they deliver. *)
Fixpoint list_dir (fuel : nat) (m : mem) : option (list (list Z)) :=
  match fuel with
  | O => None
  | S f =>
      let '(cnt, m) := dir_read fs pcb fd buf 32 m in
      if cnt <=? 0 then Some [] else
      match list_dir f m with
      | None => None
      | Some l => Some (bytes m buf (Z.to_nat cnt) :: l)
      end
  end.

Lemma list_dir_spec fuel : forall pos m,
  dir_ok fs m -> open_dir fs m pcb fd pos ->
  let names := names_from fs m (pos + 1) (Z.to_nat (n_dir_entries fs - pos)) in
  Forall (fun name => name <> []) names ->
  n_dir_entries fs - pos < Z.of_nat fuel -> list_dir fuel m = Some names.
Proof using Hb0 Hfd Hr0 Hrb Hbr Hbf Hfr Hbb Hfb.
  induction fuel as [|f IH]; intros pos m Hdir Ho names Hne Hf;
    pose proof Ho as (Hu & Ht & Ep & Hp); [lia|].
  cbn [list_dir]. destruct (decide (pos < n_dir_entries fs)) as [Hlt|Hge].
  2: { unfold dir_read. zdecide. replace ((fd <=? 1) || (8 <=? fd)) with false by lia.
       replace ((Z.land (fd_get m pcb fd FD_FLAGS) USE_MASK =? 0)
           || (Z.shiftr (fd_get m pcb fd FD_FLAGS) 1 mod 2 =? 0)) with false by lia.
       rewrite ?Ep. zdecide. unfold names. now replace (Z.to_nat _) with O by lia. }
  destruct (dir_read_spec fs pcb fd buf 32 pos m) as (m' & E & B & _ & O' & U & _); try (done || lia).
  set (name := entry_name fs m (pos + 1)) in *.
  assert (Hl : (length name <= 32)%nat) by apply cname_length_le.
  change (Z.to_nat 32) with 32%nat in *. rewrite (take_ge name) in E, B by lia.
  assert (En : names = name :: names_from fs m (pos + 1 + 1) (Z.to_nat (n_dir_entries fs - (pos + 1)))).
  { unfold names. replace (Z.to_nat (n_dir_entries fs - pos))
      with (S (Z.to_nat (n_dir_entries fs - (pos + 1)))) by lia.
    unfold names_from. now rewrite zseq_S. }
  rewrite En in Hne |- *. inversion_clear Hne as [|? ? Hn1 Hn2].
  assert (Hpos : length name <> 0%nat) by (intros Hz; by apply length_zero_iff_nil in Hz).
  rewrite E. replace (Z.of_nat (length name) <=? 0) with false by lia.
  rewrite Nat2Z.id, B.
  assert (Hoff : forall a, dir_frame pcb fd buf 32
    (if Z.of_nat (length name) =? 32 then 1 else 0) a -> ~ in_region (boot_region fs) a).
  { intros a Ha. unfold dir_frame, rdisj, disj, in_region, in_range in *. cbn [fst snd] in *.
    destruct (_ =? 32); lia. }
  pose proof (names_from_unchanged fs _ m m' Hdir U Hoff (pos + 1 + 1)
    (Z.to_nat (n_dir_entries fs - (pos + 1))) ltac:(lia) ltac:(lia)) as Erest.
  specialize (IH (pos + 1) m' (dir_ok_unchanged fs _ m m' Hdir U Hoff) O'). cbv zeta in IH.
  rewrite Erest in IH. rewrite (IH Hn2) by lia. reflexivity.
Qed.
End Listing.

(** ** Opening *)

(** The linker keeps the objects of filesys.c, the image and the control block of
    the process apart. *)
Record fs_layout `{Layout} (fs : filesys) (pcb : Z) : Prop := {
  fl_image : image_ok fs;
  fl_open0 : open_dentry <> 0;
  fl_scratch : rdisj scratch (image fs);
  fl_open : rdisj (dentry_region open_dentry) (image fs);
  fl_so : rdisj scratch (dentry_region open_dentry);
  fl_pcb_image : rdisj (pcb_region pcb) (image fs);
  fl_pcb_scratch : rdisj (pcb_region pcb) scratch;
  fl_pcb_open : rdisj (pcb_region pcb) (dentry_region open_dentry)
}.

Lemma rdisj_boot r fs : image_ok fs -> rdisj r (image fs) -> rdisj r (boot_region fs).
Proof.
  intros (H0 & H1 & _) Hr. unfold rdisj, disj, image, boot_region, FOUR_KB in *.
  cbn [fst snd] in *. lia.
Qed.

Section Open.
Context `{Layout} (fs : filesys) (pcb fname : Z) (m : mem).
Context (HL : fs_layout fs pcb) (Hdir : dir_ok fs m) (Hf0 : fname <> 0) (Hlen : strlen m fname <= 32).
Context (Hfs : rdisj (fname, strlen m fname + 1) scratch).

(** What a lookup into [open_dentry] may write. *)
Definition open_frame (a : Z) : Prop :=
  in_region scratch a \/ in_region (dentry_region open_dentry) a.

Lemma open_frame_off_image a : open_frame a -> ~ in_region (image fs) a.
Proof using HL.
  destruct HL as [_ _ H1 H2 _ _ _ _]. unfold open_frame, rdisj, disj, in_region, in_range in *.
  clear -H1 H2. lia.
Qed.

Lemma open_frame_off_fd fd a :
  0 <= fd < 8 -> in_region (fd_region pcb fd) a -> ~ open_frame a.
Proof using HL.
  intros Hfd. destruct HL as [_ _ _ _ _ _ H1 H2].
  unfold open_frame, rdisj, disj, in_region, in_range, fd_region, pcb_region, PCB_SIZE in *.
  cbn [fst snd] in *. clear -Hfd H1 H2. lia.
Qed.

(** The lookup every open operation starts with. *)
Lemma open_lookup :
  match list_find (eq (cname m fname 32)) (dir_names fs m) with
  | None => exists m', read_dentry_by_name fs fname open_dentry m = (-1, m') /\
      unchanged open_frame m m'
  | Some (k, _) => exists m', read_dentry_by_name fs fname open_dentry m = (0, m') /\
      unchanged open_frame m m' /\
      load32 m' (open_dentry + DE_FILETYPE) = entry_type fs m (1 + Z.of_nat k) /\
      load32 m' (open_dentry + DE_INODE) = entry_inode fs m (1 + Z.of_nat k)
  end.
Proof using HL Hdir Hf0 Hlen Hfs.
  destruct HL as [Hi Ho H1 H2 H3 _ _ _].
  pose proof (read_dentry_by_name_spec fs fname open_dentry m Hdir Hf0 Ho Hlen
    (rdisj_boot _ _ Hi H1) Hfs (rdisj_boot _ _ Hi H2) (rdisj_boot _ _ Hi H2) H3) as E.
  destruct (list_find _ _) as [[k x]|].
  - destruct E as (m' & -> & U & T & I & _). exists m'. split; [reflexivity|]. split; [|done].
    eapply unchanged_weaken; [|exact U]. unfold lookup_frame, open_frame. tauto.
  - destruct E as (m' & -> & U). exists m'. split; [reflexivity|].
    eapply unchanged_weaken; [|exact U]. by left.
Qed.

(** The descriptor after a successful open, and what the open left alone. *)
Definition opened (fd flags inode : Z) (m' : mem) : Prop :=
  fd_get m' pcb fd FD_FLAGS = flags /\ fd_get m' pcb fd FD_INODE = inode /\
  fd_get m' pcb fd FD_POS = 0 /\ fd_get m' pcb fd FD_OPS = fd_get m pcb fd FD_OPS /\
  unchanged (fun a => open_frame a \/ in_region (fd_region pcb fd) a) m m'.

Lemma file_fd_init_spec fd m1 :
  let m' := file_fd_init pcb fd m1 in
  fd_get m' pcb fd FD_FLAGS = 0x105 /\
  fd_get m' pcb fd FD_INODE = load32 m1 (open_dentry + DE_INODE) /\
  fd_get m' pcb fd FD_POS = 0 /\ fd_get m' pcb fd FD_OPS = fd_get m1 pcb fd FD_OPS /\
  unchanged (in_region (fd_region pcb fd)) m1 m'.
Proof using Type.
  unfold file_fd_init. cbv zeta.
  split; [fd_simpl; reflexivity|]. split; [fd_simpl; apply u32_small, load32_range|].
  split; [fd_simpl; reflexivity|]. split; [fd_simpl; reflexivity|]. fd_frame.
Qed.

Lemma dir_fd_init_spec fd m1 :
  let m' := dir_fd_init pcb fd m1 in
  fd_get m' pcb fd FD_FLAGS = 0x3 /\
  fd_get m' pcb fd FD_INODE = load32 m1 (open_dentry + DE_INODE) /\
  fd_get m' pcb fd FD_POS = 0 /\ fd_get m' pcb fd FD_OPS = fd_get m1 pcb fd FD_OPS /\
  unchanged (in_region (fd_region pcb fd)) m1 m'.
Proof using Type.
  unfold dir_fd_init. cbv zeta.
  split; [fd_simpl; reflexivity|]. split; [fd_simpl; apply u32_small, load32_range|].
  split; [fd_simpl; reflexivity|]. split; [fd_simpl; reflexivity|]. fd_frame.
Qed.

Lemma opened_intro fd flags m1 m2 :
  0 <= fd < 8 -> unchanged open_frame m m1 ->
  fd_get m2 pcb fd FD_FLAGS = flags -> fd_get m2 pcb fd FD_INODE = load32 m1 (open_dentry + DE_INODE) ->
  fd_get m2 pcb fd FD_POS = 0 -> fd_get m2 pcb fd FD_OPS = fd_get m1 pcb fd FD_OPS ->
  unchanged (in_region (fd_region pcb fd)) m1 m2 ->
  opened fd flags (load32 m1 (open_dentry + DE_INODE)) m2.
Proof using HL.
  intros Hfd U1 F I P O U2. split; [done|]. split; [done|]. split; [done|]. split.
  { rewrite O. eapply fd_get_unchanged; [exact U1|unfold FD_OPS; lia..|].
    intros a. by apply open_frame_off_fd. }
  apply (unchanged_trans _ _ m1); (eapply unchanged_weaken; [|eassumption]); tauto.
Qed.

(** The outcome of an open that accepts entries of type [ty]. *)
Definition open_outcome (ty flags : Z) (res : Z * mem) : Prop :=
  let fd := find_fd m pcb in
  if decide (8 <= fd) then res = (-1, m) else
  match list_find (eq (cname m fname 32)) (dir_names fs m) with
  | Some (k, _) =>
      if decide (entry_type fs m (1 + Z.of_nat k) = ty)
      then exists m', res = (0, m') /\ opened fd flags (entry_inode fs m (1 + Z.of_nat k)) m'
      else exists m', res = (-1, m') /\ unchanged open_frame m m'
  | None => exists m', res = (-1, m') /\ unchanged open_frame m m'
  end.

Lemma file_open_spec : open_outcome REG_FILE 0x105 (file_open fs pcb fname m).
Proof using HL Hdir Hf0 Hlen Hfs.
  unfold open_outcome, file_open. pose proof open_lookup as E.
  pose proof (find_fd_spec m pcb) as (Hr & _).
  destruct (decide (8 <= find_fd m pcb)) as [Hfull|Hfree]; [now zdecide|].
  replace (8 <=? find_fd m pcb) with false by lia.
  destruct (list_find _ _) as [[k x]|].
  - destruct E as (m1 & -> & U & T & I). cbn [Z.eqb]. rewrite T.
    destruct (decide (entry_type fs m (1 + Z.of_nat k) = REG_FILE)) as [->|Hne].
    + cbn [Z.eqb negb REG_FILE]. eexists. split; [reflexivity|]. rewrite <- I.
      destruct (file_fd_init_spec (find_fd m pcb) m1) as (F1 & F2 & F3 & F4 & F5).
      apply opened_intro; (done || lia).
    + rewrite (proj2 (Z.eqb_neq _ _) Hne). eauto.
  - destruct E as (m1 & -> & U). cbn [Z.eqb]. eauto.
Qed.

Lemma dir_open_spec : open_outcome DIR_FILE 0x3 (dir_open fs pcb fname m).
Proof using HL Hdir Hf0 Hlen Hfs.
  unfold open_outcome, dir_open. pose proof open_lookup as E. zdecide.
  pose proof (find_fd_spec m pcb) as (Hr & _).
  destruct (decide (8 <= find_fd m pcb)) as [Hfull|Hfree].
  { replace (find_fd m pcb <? 8) with false by lia. done. }
  replace (find_fd m pcb <? 8) with true by lia. zdecide.
  destruct (list_find _ _) as [[k x]|].
  - destruct E as (m1 & -> & U & T & I). cbn [Z.eqb]. rewrite T.
    destruct (decide (entry_type fs m (1 + Z.of_nat k) = DIR_FILE)) as [->|Hne].
    + cbn [Z.eqb negb DIR_FILE]. eexists. split; [reflexivity|]. rewrite <- I.
      destruct (dir_fd_init_spec (find_fd m pcb) m1) as (F1 & F2 & F3 & F4 & F5).
      apply opened_intro; (done || lia).
    + rewrite (proj2 (Z.eqb_neq _ _) Hne). eauto.
  - destruct E as (m1 & -> & U). cbn [Z.eqb]. eauto.
Qed.
End Open.

(** ** A small directory

    Two entries, the directory "." and the regular file "frame" of FilesysRead,
    and a control block at 0x1000 with all descriptors free. *)
Definition test_fs : filesys := mkFilesys 0x400000 2 1 8 0.

Definition name_dot : list Z := [46].
Definition name_frame : list Z := [102; 114; 97; 109; 101].

Definition test_image : mem :=
  let m := Mem ∅ ∅ 0 in
  let m := store32 m 0x401000 5 in
  let m := store32 m 0x401004 3 in
  let m := store_list m 0x405000 [72; 101; 108; 108; 111] in
  let m := store_list m 0x400040 name_dot in
  let m := store32 m 0x400060 DIR_FILE in
  let m := store_list m 0x400080 name_frame in
  let m := store32 m 0x4000A0 REG_FILE in
  store_list m 0x2000 name_frame.

(** Facts about the concrete layout and memory. *)
Ltac test_sep := vm_compute; intuition congruence.

Lemma test_dir_ok : dir_ok test_fs test_image.
Proof.
  split; [vm_compute; congruence|]. split; [vm_compute; intuition congruence|].
  intros i Hi. cbn in Hi. assert (i = 1 \/ i = 2) as [-> | ->] by lia; vm_compute; reflexivity.
Qed.

Lemma test_fs_layout : @fs_layout test_layout test_fs 0x1000.
Proof. split; vm_compute; intuition congruence. Qed.

(** ** Theorems *)

(** C33 Looking a name up searches the directory in order: it fails without
    touching the destination exactly when the arguments are unusable or no entry
    has the name, and otherwise the destination gets the type and the inode number
    (0 unless the entry is a regular file) of the first entry with the name.  The
    name itself is written to the global open_dentry, whatever the destination. *)
Theorem read_dentry_by_name_correct `{Layout} fs fname dentry m :
  dir_ok fs m ->
  rdisj scratch (boot_region fs) -> rdisj (fname, strlen m fname + 1) scratch ->
  rdisj (dentry_region open_dentry) (boot_region fs) ->
  rdisj (dentry_region dentry) (boot_region fs) ->
  rdisj scratch (dentry_region open_dentry) ->
  let res := read_dentry_by_name fs fname dentry m in
  if decide (fname = 0 \/ dentry = 0 \/ 32 < strlen m fname) then res = (-1, m) else
  match list_find (eq (cname m fname 32)) (dir_names fs m) with
  | None => exists m', res = (-1, m') /\ unchanged (in_region scratch) m m'
  | Some (k, _) => exists m', res = (0, m') /\ dentry_filled fs dentry m (1 + Z.of_nat k) m'
  end.
Proof.
  intros Hdir H1 H2 H3 H4 H5 res. destruct (decide _) as [Hbad|Hgood].
  - unfold res, read_dentry_by_name.
    destruct ((fname =? 0) || (dentry =? 0) || (filesys_ptr fs =? 0)) eqn:E; [done|].
    replace (NAME_LEN <? strlen m fname) with true; [done|].
    unfold NAME_LEN. symmetry. apply Z.ltb_lt. lia.
  - apply read_dentry_by_name_spec; try done; lia.
Qed.

Lemma read_dentry_by_name_correct_witness :
  exists m', @read_dentry_by_name test_layout test_fs 0x2000 0x2100 test_image = (0, m') /\
    load32 m' (0x2100 + DE_FILETYPE) = REG_FILE.
Proof.
  pose proof (@read_dentry_by_name_correct test_layout test_fs 0x2000 0x2100 test_image test_dir_ok)
    as Hw.
  assert (S : strlen test_image 0x2000 = 5) by (vm_compute; reflexivity). rewrite S in Hw.
  destruct Hw as (m' & E & _ & T & _); try (vm_compute; intuition congruence).
  exists m'. split; [exact E|]. rewrite T. vm_compute. reflexivity.
Defined.

(** Looking entry number [index] up fills the destination with an exact copy
    of its name, its type and its inode number and touches nothing else; an index
    outside the directory or a null destination is refused. *)
Theorem read_dentry_by_index_correct fs index dentry m :
  dir_ok fs m -> rdisj (dentry_region dentry) (boot_region fs) ->
  let res := read_dentry_by_index fs index dentry m in
  if decide (dentry <> 0 /\ 0 <= index < n_dir_entries fs) then
    exists m', res = (0, m') /\ unchanged (in_region (dentry_region dentry)) m m' /\
      cname m' dentry 32 = entry_name fs m (index + 1) /\
      load32 m' (dentry + DE_FILETYPE) = entry_type fs m (index + 1) /\
      load32 m' (dentry + DE_INODE) = entry_inode fs m (index + 1)
  else res = (-1, m).
Proof.
  intros Hdir Hd res. destruct (decide _) as [[H0 Hi]|Hbad].
  - by apply read_dentry_by_index_spec.
  - unfold res, read_dentry_by_index. destruct (Z.eqb_spec dentry 0); [done|].
    now replace ((index <? 0) || (n_dir_entries fs <=? index)) with true by lia.
Qed.

Lemma read_dentry_by_index_correct_witness :
  exists m', read_dentry_by_index test_fs 1 0x2100 test_image = (0, m') /\
    cname m' 0x2100 32 = name_frame.
Proof.
  pose proof (read_dentry_by_index_correct test_fs 1 0x2100 test_image test_dir_ok) as Hw.
  destruct Hw as (m' & E & _ & N & _); [vm_compute; intuition congruence|].
  exists m'. split; [exact E|]. rewrite N. vm_compute. reflexivity.
Defined.

(** A loop that reads a directory 32 bytes at a time until a read returns 0
    delivers the names of all entries, in order and complete, provided no entry
    has an empty name. *)
Theorem list_dir_correct `{Layout} fs pcb fd buf fuel m :
  buf <> 0 -> 2 <= fd <= 7 -> read_dentry <> 0 ->
  rdisj (dentry_region read_dentry) (boot_region fs) ->
  rdisj (buf, 33) (dentry_region read_dentry) -> rdisj (buf, 33) (fd_region pcb fd) ->
  rdisj (fd_region pcb fd) (dentry_region read_dentry) ->
  rdisj (buf, 33) (boot_region fs) -> rdisj (fd_region pcb fd) (boot_region fs) ->
  dir_ok fs m -> open_dir fs m pcb fd 0 ->
  Forall (fun name => name <> []) (dir_names fs m) ->
  n_dir_entries fs < Z.of_nat fuel ->
  list_dir fs pcb fd buf fuel m = Some (dir_names fs m).
Proof.
  intros. unfold dir_names in *. replace (n_dir_entries fs) with (n_dir_entries fs - 0) in * by lia.
  change 1 with (0 + 1) in *. apply list_dir_spec; try done; lia.
Qed.

(** The test image with "." open as descriptor 2. *)
Definition test_opened : mem := fd_set test_image 0x1000 2 FD_FLAGS 3.

Lemma test_opened_dir_ok : dir_ok test_fs test_opened.
Proof.
  split; [vm_compute; congruence|]. split; [vm_compute; intuition congruence|].
  intros i Hi. cbn in Hi. assert (i = 1 \/ i = 2) as [-> | ->] by lia; vm_compute; reflexivity.
Qed.

Lemma list_dir_correct_witness :
  @list_dir test_layout test_fs 0x1000 2 0x2100 3 test_opened = Some [name_dot; name_frame].
Proof.
  assert (En : dir_names test_fs test_opened = [name_dot; name_frame]) by (vm_compute; reflexivity).
  rewrite <- En. apply (@list_dir_correct test_layout); [lia|lia|test_sep..|exact test_opened_dir_ok| | |].
  - test_sep.
  - rewrite En. repeat constructor; discriminate.
  - reflexivity.
Defined.

(** When the name of the next entry has exactly as many characters as the
    caller asked for, reading the directory also writes the byte behind the
    caller's buffer. *)
Theorem dir_read_writes_past_buffer `{Layout} fs pcb fd buf nbytes pos m :
  dir_ok fs m -> open_dir fs m pcb fd pos -> pos < n_dir_entries fs ->
  buf <> 0 -> 2 <= fd <= 7 -> read_dentry <> 0 ->
  rdisj (dentry_region read_dentry) (boot_region fs) ->
  rdisj (buf, nbytes + 1) (dentry_region read_dentry) ->
  rdisj (buf, nbytes + 1) (fd_region pcb fd) ->
  rdisj (fd_region pcb fd) (dentry_region read_dentry) ->
  nbytes = Z.of_nat (length (entry_name fs m (pos + 1))) ->
  exists m', dir_read fs pcb fd buf nbytes m = (nbytes, m') /\
    bytes m' buf (Z.to_nat nbytes) = entry_name fs m (pos + 1) /\
    load8 m' (buf + nbytes) = 0.
Proof.
  intros Hdir Ho Hpos Hb Hfd Hr H1 H2 H3 H4 En.
  destruct (dir_read_spec fs pcb fd buf nbytes pos m) as (m' & E & B & T & _); try (done || lia).
  rewrite take_ge in E, B, T by lia. exists m'. rewrite E, En, Nat2Z.id.
  split; [reflexivity|]. split; [exact B|]. by apply T.
Qed.

Lemma dir_read_writes_past_buffer_witness :
  exists m', @dir_read test_layout test_fs 0x1000 2 0x2100 1 test_opened = (1, m') /\
    load8 m' 0x2101 = 0.
Proof.
  destruct (@dir_read_writes_past_buffer test_layout test_fs 0x1000 2 0x2100 1 0 test_opened)
    as (m' & E & _ & Z1); [exact test_opened_dir_ok|test_sep|reflexivity|lia|lia|test_sep..|].
  exists m'. split; [exact E|exact Z1].
Defined.

(** file_open and dir_open take the lowest free descriptor and put the inode
    of the entry with that name into it, at position 0, marked used with the type
    of the operation; they fail, with every descriptor as it was, when none is
    free, no entry has the name, or its type differs.  A regular file that is well
    formed is then ready to be read from its first byte. *)
Theorem open_correct `{Layout} fs pcb fname m :
  fs_layout fs pcb -> dir_ok fs m -> fname <> 0 -> strlen m fname <= 32 ->
  rdisj (fname, strlen m fname + 1) scratch ->
  open_outcome fs pcb fname m REG_FILE 0x105 (file_open fs pcb fname m) /\
  open_outcome fs pcb fname m DIR_FILE 0x3 (dir_open fs pcb fname m) /\
  (forall fd inode m', 0 <= fd < 8 -> file_ok fs m inode ->
     opened pcb m fd 0x105 inode m' -> open_file fs m' pcb fd inode 0) /\
  (forall fd flags inode j m', 0 <= j < 8 -> j <> fd -> opened pcb m fd flags inode m' ->
     fd_used m' pcb j = fd_used m pcb j).
Proof.
  intros HL Hdir Hf Hlen Hfs.
  split; [by apply file_open_spec|]. split; [by apply dir_open_spec|]. split.
  - intros fd inode m' Hfd Hok (F & I & P & _ & U). unfold open_file. rewrite F, I, P.
    assert (Hoff : forall a, open_frame a \/ in_region (fd_region pcb fd) a -> ~ in_region (image fs) a).
    { intros a [Ha|Ha]; [by eapply open_frame_off_image|]. destruct HL as [_ _ _ _ _ K _ _].
      unfold rdisj, disj, in_region, in_range, fd_region, pcb_region, PCB_SIZE in *.
      cbn [fst snd] in *. lia. }
    rewrite (file_size_unchanged fs _ m m' U Hoff) by apply Hok.
    assert (0 <= file_size fs m inode) by apply load32_range.
    split; [done|]. split; [done|]. split; [lia|]. done.
  - intros fd flags inode j m' Hj Hne (_ & _ & _ & _ & U).
    unfold fd_used. erewrite fd_get_unchanged; [reflexivity|exact U|unfold FD_FLAGS; lia..|].
    intros a Ha [Hb|Hb]; [by eapply open_frame_off_fd|].
    unfold in_region, in_range, fd_region in *. cbn [fst snd] in *. lia.
Qed.

Lemma open_correct_witness :
  exists m', @file_open test_layout test_fs 0x1000 0x2000 test_image = (0, m') /\
    fd_get m' 0x1000 2 FD_FLAGS = 0x105.
Proof.
  destruct (@open_correct test_layout test_fs 0x1000 0x2000 test_image test_fs_layout test_dir_ok)
    as (Hw & _); [lia|vm_compute; congruence|vm_compute; intuition congruence|].
  assert (E : find_fd test_image 0x1000 = 2) by (vm_compute; reflexivity).
  unfold open_outcome in Hw. rewrite E in Hw. rewrite decide_False in Hw by lia.
  assert (Ef : list_find (eq (cname test_image 0x2000 32)) (dir_names test_fs test_image)
    = Some (1%nat, name_frame)) by (vm_compute; reflexivity).
  rewrite Ef in Hw. rewrite decide_True in Hw by (vm_compute; reflexivity).
  destruct Hw as (m' & Er & F & _).
  exists m'. split; [exact Er|exact F].
Defined.

(** ** Closing *)

Section Close.
Context `{Layout} (pcb fd : Z) (m : mem).
Context (H1 : rdisj (pcb_region pcb) (dentry_region open_dentry)).
Context (H2 : rdisj (pcb_region pcb) (dentry_region read_dentry)).

(** Which descriptors are in use once [fd] has been released. *)
Definition released (m' : mem) : Prop :=
  forall j, 0 <= j < 8 -> fd_used m' pcb j = if j =? fd then false else fd_used m pcb j.

Lemma released_intro m' :
  unchanged (fun a => in_region (dentry_region open_dentry) a \/
                      in_region (dentry_region read_dentry) a) (fd_set m pcb fd FD_FLAGS 0) m' ->
  released m'.
Proof using H1 H2.
  intros U j Hj. unfold fd_used. erewrite fd_get_unchanged; [|exact U|unfold FD_FLAGS; lia..|].
  - destruct (Z.eqb_spec j fd) as [->|]; [now rewrite fd_get_set_eq|].
    rewrite fd_get_set_ne; [done|unfold FD_FLAGS; lia..|reflexivity|reflexivity|lia].
  - unfold rdisj, disj, in_region, in_range, fd_region, pcb_region, PCB_SIZE in *.
    cbn [fst snd] in *. lia.
Qed.

(** A close that accepts descriptors of type [ty]. *)
Definition close_outcome (ty : Z) (res : Z * mem) : Prop :=
  let flags := fd_get m pcb fd FD_FLAGS in
  if decide (2 <= fd <= 7 /\ fd_type flags = ty /\ flags mod 2 = 1)
  then exists m', res = (0, m') /\ released m' else res = (-1, m).

Lemma file_close_spec : close_outcome REG_FILE (file_close pcb fd m).
Proof using H1 H2.
  unfold close_outcome, file_close. set (flags := fd_get m pcb fd FD_FLAGS). fold (fd_type flags).
  assert (Hbit : flags mod 2 = 0 \/ flags mod 2 = 1) by zdm.
  destruct (decide _) as [(Hfd & -> & Hb)|Hbad].
  - replace ((fd <=? 1) || (8 <=? fd)) with false by lia. rewrite Hb. cbn [Z.eqb negb].
    eexists. split; [reflexivity|]. apply released_intro, unchanged_for_range. intros i mi Hi.
    eapply unchanged_trans; apply unchanged_store8; [left|right];
      unfold in_region, in_range, dentry_region; cbn [fst snd]; lia.
  - destruct ((fd <=? 1) || (8 <=? fd)) eqn:E1; [done|].
    destruct (Z.eqb_spec (fd_type flags) REG_FILE); [|done].
    cbn [negb]. now replace (flags mod 2 =? 0) with true by lia.
Qed.

Lemma dir_close_spec : close_outcome DIR_FILE (dir_close pcb fd m).
Proof using H1 H2.
  unfold close_outcome, dir_close. set (flags := fd_get m pcb fd FD_FLAGS). fold (fd_type flags).
  assert (Hbit : flags mod 2 = 0 \/ flags mod 2 = 1) by zdm.
  destruct (decide _) as [(Hfd & -> & Hb)|Hbad].
  - replace ((fd <=? 1) || (8 <=? fd)) with false by lia. rewrite Hb. cbn [Z.eqb negb].
    eexists. split; [reflexivity|]. apply released_intro, unchanged_refl.
  - destruct ((fd <=? 1) || (8 <=? fd)) eqn:E1; [done|].
    destruct (Z.eqb_spec (fd_type flags) DIR_FILE); [|done].
    cbn [negb]. now replace (flags mod 2 =? 0) with true by lia.
Qed.
End Close.

(** Closing a descriptor from 2 to 7 that is in use and has the type of the
    operation frees it and keeps every other descriptor; anything else is refused
    and nothing changes. *)
Theorem close_correct `{Layout} pcb fd m :
  rdisj (pcb_region pcb) (dentry_region open_dentry) ->
  rdisj (pcb_region pcb) (dentry_region read_dentry) ->
  close_outcome pcb fd m REG_FILE (file_close pcb fd m) /\
  close_outcome pcb fd m DIR_FILE (dir_close pcb fd m).
Proof. intros H1 H2. split; [by apply file_close_spec|by apply dir_close_spec]. Qed.

Lemma close_correct_witness :
  exists m', dir_close 0x1000 2 test_opened = (0, m') /\ fd_used m' 0x1000 2 = false.
Proof.
  destruct (@close_correct test_layout 0x1000 2 test_opened) as (_ & Hw);
    [vm_compute; intuition congruence..|].
  unfold close_outcome in Hw.
  assert (E : fd_get test_opened 0x1000 2 FD_FLAGS = 3) by (vm_compute; reflexivity).
  rewrite E in Hw. rewrite decide_True in Hw by (split; [lia|split; reflexivity]).
  destruct Hw as (m' & Er & U). exists m'. split; [exact Er|]. exact (U 2 ltac:(lia)).
Defined.
