(* ===== verification/Keyboard.v ===== *)
(** * The keyboard driver and the terminal, key_driver.c

    The interrupt handler turns scan codes into characters and edits the line in
    [key_buf]; [terminal_read] polls [enter_flag] until the handler has seen
    Enter, and [terminal_write] prints.  The polling loop is driven by a
    schedule: for each turn, the scan codes whose interrupts are served before
    the next test of the flag. *)

From S2P Require Import Prelude Mem CString State Console I8259 Pcb.

Definition LSHIFT_PRESSED : Z := 0x2A.
Definition LSHIFT_RELEASED : Z := 0xAA.
Definition RSHIFT_PRESSED : Z := 0x36.
Definition RSHIFT_RELEASED : Z := 0xB6.
Definition CTRL_PRESSED : Z := 0x1D.
Definition CTRL_RELEASED : Z := 0x9D.
Definition CAPS_PRESSED : Z := 0x3A.
Definition KEY_BUF_SIZE : Z := 128.
Definition STDIN : Z := 0.
Definition STDOUT : Z := 1.
Definition KEY_PORT : Z := 0x60.

(** The three rows of [key_array] up to the last initialiser; the rest of a row
    of 128 characters is zero. *)
Definition key_row_normal : list Z :=
  [0; 27; 49; 50; 51; 52; 53; 54; 55; 56; 57; 48; 45; 61; 8; 9;
   113; 119; 101; 114; 116; 121; 117; 105; 111; 112; 91; 93; 10; 0;
   97; 115; 100; 102; 103; 104; 106; 107; 108; 59; 39; 96; 0;
   92; 122; 120; 99; 118; 98; 110; 109; 44; 46; 47; 0; 42; 0; 32; 0;
   0; 0; 0; 0; 0; 0; 0; 0; 0; 0; 0; 0; 0; 0; 0; 45; 0; 0; 0; 43].
Definition key_row_shift : list Z :=
  [0; 27; 33; 64; 35; 36; 37; 94; 38; 42; 40; 41; 95; 43; 8; 9;
   81; 87; 69; 82; 84; 89; 85; 73; 79; 80; 123; 125; 10; 0;
   65; 83; 68; 70; 71; 72; 74; 75; 76; 58; 39; 126; 0;
   92; 90; 88; 67; 86; 66; 78; 77; 60; 62; 63; 0; 42; 0; 32; 0;
   0; 0; 0; 0; 0; 0; 0; 0; 0; 0; 0; 0; 0; 0; 0; 45; 0; 0; 0; 43].
Definition key_row_caps : list Z :=
  [0; 27; 49; 50; 51; 52; 53; 54; 55; 56; 57; 48; 45; 61; 8; 9;
   81; 87; 69; 82; 84; 89; 85; 73; 79; 80; 91; 93; 10; 0;
   65; 83; 68; 70; 71; 72; 74; 75; 76; 59; 39; 96; 0;
   92; 90; 88; 67; 86; 66; 78; 77; 44; 46; 47; 0; 42; 0; 32; 0;
   0; 0; 0; 0; 0; 0; 0; 0; 0; 0; 0; 0; 0; 0; 0; 45; 0; 0; 0; 43].

Definition pad_row (l : list Z) : list Z := l ++ replicate (128 - length l) 0.

(** [key_array[dict][input]]: rows are adjacent, so a release code (128 and up)
    reads from the next row. *)
Definition key_array : list Z :=
  pad_row key_row_normal ++ pad_row key_row_shift ++ pad_row key_row_caps.
Definition key_symbol (d input : Z) : Z := nth (Z.to_nat (128 * d + input)) key_array 0.

Section Driver.
Context `{Ports} `{Layout}.

Definition key_open (s : kst) : kst := enable_irq 1 s.

Definition keyboard_environment (s : kst) : kst :=
  let s := key_open s in
  upd_kbd (fun k => set_ctrl_mode 0 (set_shift_mode 0 (set_caps_mode 0 (set_dict 0 k)))) s.

Definition add_to_buffer (symbol : Z) (s : kst) : kst :=
  let idx := key_buf_index (k_kbd s) in
  if idx <? KEY_BUF_SIZE then
    let s := upd_mem (fun m => store8 m (key_buf + idx) symbol) s in
    upd_kbd (set_key_buf_index (idx + 1)) s
  else s.

Definition process_to_buffer (input : Z) (s : kst) : kst :=
  let symbol := key_symbol (dict (k_kbd s)) input in
  if negb (ctrl_mode (k_kbd s) =? 0) then
    if (symbol =? 108) || (symbol =? 76) then set_screen 0 0 (clear s) else s
  else if key_buf_index (k_kbd s) <? KEY_BUF_SIZE then
    add_to_buffer symbol (putc_terminal symbol s)
  else s.

(** The first half of the handler: the modifier keys and the row of
    [key_array]. *)
Definition key_modes (input : Z) (k : keyboard) : keyboard :=
  let k := set_mode_flag 0 (set_enter_flag 0 k) in
  let k :=
    if (input =? RSHIFT_PRESSED) || (input =? LSHIFT_PRESSED)
    then set_mode_flag 1 (set_shift_mode 1 k)
    else if (input =? RSHIFT_RELEASED) || (input =? LSHIFT_RELEASED)
    then set_mode_flag 1 (set_shift_mode 0 k)
    else k in
  let k :=
    if input =? CAPS_PRESSED
    then set_mode_flag 1 (set_caps_mode (Z.lnot (caps_mode k)) k)
    else k in
  let k :=
    if input =? CTRL_PRESSED then set_mode_flag 1 (set_ctrl_mode 1 k)
    else if input =? CTRL_RELEASED then set_mode_flag 1 (set_ctrl_mode 0 k)
    else k in
  let sh := negb (shift_mode k =? 0) in
  let ca := negb (caps_mode k =? 0) in
  if sh && ca then set_dict 0 k
  else if sh && negb (Z.lnot (caps_mode k) =? 0) then set_dict 1 k
  else if negb (Z.lnot (shift_mode k) =? 0) && ca then set_dict 2 k
  else set_dict 0 k.

(** Backspace: erases the last character on the screen and in the buffer. *)
Definition key_backspace (s : kst) : kst :=
  let idx := key_buf_index (k_kbd s) in
  if 0 <? idx then
    let s := deletec_terminal (load8 (k_mem s) (key_buf + (idx - 1))) s in
    let s := upd_mem (fun m => store8 m (key_buf + idx) 0) s in
    upd_kbd (set_key_buf_index (idx - 1)) s
  else s.

(** The handler once the scan code has been read from the port. *)
Definition key_event (input : Z) (s : kst) : kst :=
  let symbol := key_symbol (dict (k_kbd s)) input in
  let s := upd_kbd (key_modes input) s in
  let s :=
    if (0x80 <=? input) || negb (mode_flag (k_kbd s) =? 0) then sti (send_eoi 1 s)
    else if symbol =? 8 then key_backspace s
    else
      let s := if symbol =? 10 then upd_kbd (set_enter_flag 1) s else s in
      process_to_buffer input s in
  sti (send_eoi 1 s).

Definition key_handler (s : kst) : kst :=
  let s := cli s in
  let '(input, s) := inb KEY_PORT s in
  key_event input s.

(** An interrupt that delivers the scan code [input]. *)
Definition key_press (input : Z) (s : kst) : kst :=
  key_event input (log_io (InB KEY_PORT input) (cli s)).

Definition clear_key_buffer (s : kst) : kst :=
  let s := upd_mem (for_range 0 KEY_BUF_SIZE (fun i m => store8 m (key_buf + i) 0)) s in
  upd_kbd (set_key_buf_index 0) s.

Definition terminal_open (filename : Z) (s : kst) : Z * kst := (0, keyboard_environment s).

Definition terminal_close (fd : Z) (s : kst) : Z * kst :=
  if (fd <? 0) || (1 <? fd) then (-1, s) else
  if fd_get (k_mem s) (cur_pcb s) fd FD_FLAGS mod 2 =? 0 then (-1, s) else
  (0, upd_mem (fun m => fd_set m (cur_pcb s) fd FD_FLAGS 0) s).

(** The copy of the line and the reset behind the polling loop. *)
Definition take_line (buf : Z) (s : kst) : Z * kst :=
  let n := key_buf_index (k_kbd s) in
  let s := upd_mem (for_range 0 n (fun i m => store8 m (buf + i) (load8 m (key_buf + i)))) s in
  let s := upd_kbd (set_enter_flag 0) s in
  (n, clear_key_buffer s).

(** [while (1) if (enter_flag == 1) ...]; [None]: still waiting when the schedule
    ends. *)
Fixpoint wait_enter (sched : list (list Z)) (buf : Z) (s : kst) : option (Z * kst) :=
  if enter_flag (k_kbd s) =? 1 then Some (take_line buf s) else
  match sched with
  | [] => None
  | keys :: sched' => wait_enter sched' buf (fold_left (fun s k => key_press k s) keys s)
  end.

Definition terminal_read (sched : list (list Z)) (fd buf nbytes : Z) (s : kst)
    : option (Z * kst) :=
  if negb (fd =? STDIN) then Some (-1, s) else
  wait_enter sched buf (clear_key_buffer s).

Fixpoint write_loop (fuel : nat) (inbuf nbytes index : Z) (s : kst) : Z * kst :=
  match fuel with
  | O => (index, s)
  | S f =>
      if index <? nbytes then
        write_loop f inbuf nbytes (index + 1)
          (putc_terminal (load8 (k_mem s) (inbuf + index)) s)
      else (index, s)
  end.

Definition terminal_write (fd buf nbytes : Z) (s : kst) : Z * kst :=
  if negb (fd =? STDOUT) then (-1, s) else
  let s := cli s in
  let '(index, s) := write_loop (S (Z.to_nat nbytes)) buf nbytes 0 s in
  (index, sti s).

(** [key_handler] is [key_press] of what the port delivers. *)
Lemma key_handler_press s :
  key_handler s = key_press (u8 (port_in (k_io s) KEY_PORT)) s.
Proof using Type. reflexivity. Qed.
End Driver.
