(* ===== verification/Terminal.v ===== *)
(** * The terminal as a line editor

    The handler of key_driver.c, seen from the reader: a line that keys extend
    and shorten, two modifiers, and whether the last key was Enter.  The handler
    refines this editor, and [terminal_read] returns the line. *)

From S2P Require Import Prelude Mem CString State Console I8259 Pcb Keyboard.

(** ** The editor *)

Record editor := mkEd {
  ed_shift : bool;
  ed_caps : bool;
  ed_line : list Z;
  ed_entered : bool
}.

(** The row of [key_array] the modifiers select. *)
Definition ed_dict (e : editor) : Z :=
  if ed_shift e && ed_caps e then 0 else if ed_shift e then 1 else if ed_caps e then 2 else 0.

Definition ed_modes (input : Z) (e : editor) : editor :=
  mkEd (if (input =? RSHIFT_PRESSED) || (input =? LSHIFT_PRESSED) then true
        else if (input =? RSHIFT_RELEASED) || (input =? LSHIFT_RELEASED) then false
        else ed_shift e)
       (if input =? CAPS_PRESSED then negb (ed_caps e) else ed_caps e)
       (ed_line e) false.

Definition is_mode (input : Z) : bool :=
  existsb (Z.eqb input) [RSHIFT_PRESSED; LSHIFT_PRESSED; RSHIFT_RELEASED; LSHIFT_RELEASED;
                         CAPS_PRESSED; CTRL_PRESSED; CTRL_RELEASED].

Definition ed_key (input : Z) (e : editor) : editor :=
  let e := ed_modes input e in
  if (0x80 <=? input) || is_mode input then e else
  let c := key_symbol (ed_dict e) input in
  if c =? 8 then mkEd (ed_shift e) (ed_caps e) (removelast (ed_line e)) false
  else mkEd (ed_shift e) (ed_caps e)
            (if (length (ed_line e) <? 128)%nat then ed_line e ++ [c] else ed_line e) (c =? 10).

Definition ed_keys (keys : list Z) (e : editor) : editor :=
  fold_left (fun e k => ed_key k e) keys e.

(** Scan codes other than Control and Tab. *)
Definition plain (input : Z) : Prop :=
  0 <= input < 256 /\ input <> CTRL_PRESSED /\ input <> 0x0F.

(** ** Effects on the cursor *)

(** Cells between the top left corner and the cursor. *)
Definition cursor_pos (c : console) : Z := NUM_COLS * screen_y c + screen_x c.

Lemma putc_terminal_kbd c s : k_kbd (putc_terminal c s) = k_kbd s.
Proof.
  unfold putc_terminal. destruct (c =? 9); [reflexivity|].
  destruct ((c =? 10) || (c =? 13)).
  - destruct (NUM_ROWS - 1 <=? _); reflexivity.
  - destruct ((NUM_ROWS - 1 <=? _) && _); reflexivity.
Qed.

Lemma putc_terminal_shows c s :
  on_screen (k_con s) -> 0 <= c < 256 -> c <> 9 ->
  shows s (putc_terminal c s) (term_putc c (shown s)).
Proof.
  intros Hos Hc H9. destruct (decide (c = 10)) as [->|]; [by apply putc_terminal_newline|].
  destruct (decide (c = 13)) as [->|]; [by apply (putc_terminal_newline s)|].
  by apply putc_terminal_printable.
Qed.

(** A character moves the cursor forward, or the screen scrolls and the cursor is
    in the last row. *)
Lemma putc_terminal_pos c s :
  on_screen (k_con s) -> 0 <= c < 256 -> c <> 9 ->
  cursor_pos (k_con s) < cursor_pos (k_con (putc_terminal c s)) \/
  1920 <= cursor_pos (k_con (putc_terminal c s)).
Proof.
  intros Hos Hc H9. destruct (putc_terminal_shows c s Hos Hc H9) as ((Ex & Ey & _) & _).
  cbn [shown tx ty] in Ex, Ey. unfold cursor_pos. rewrite Ex, Ey.
  destruct Hos as [Hx Hy]. unfold term_putc, NUM_COLS, NUM_ROWS in *. cbn [shown tx ty grid].
  repeat split_if; cbn [tx ty]; lia.
Qed.

(** Erasing one cell moves the cursor back by one. *)
Lemma delete_cell_spec s :
  on_screen (k_con s) -> 0 < cursor_pos (k_con s) ->
  on_screen (k_con (delete_cell s)) /\
  cursor_pos (k_con (delete_cell s)) = cursor_pos (k_con s) - 1 /\
  unchanged screen_bytes (k_mem s) (k_mem (delete_cell s)) /\
  k_kbd (delete_cell s) = k_kbd s.
Proof.
  intros [Hx Hy] Hp. unfold delete_cell, cursor_pos, on_screen, NUM_COLS, NUM_ROWS in *.
  destruct (Z.ltb_spec 0 (screen_x (k_con s))) as [H|H].
  - cbn -[store8 Z.shiftl VIDEO]. split; [lia|]. split; [lia|]. split; [|done].
    apply unchanged_store8. rewrite shiftl_1. screen_lia.
  - replace (screen_x (k_con s)) with 0 in * by lia. cbn -[store8 Z.shiftl VIDEO Z.sub].
    split; [lia|]. split; [lia|]. split; [|done].
    apply unchanged_store8. rewrite shiftl_1. screen_lia.
Qed.

(** ** The handler refines the editor *)

(** The driver's variables agree with the editor. *)
Definition kbd_agrees (k : keyboard) (e : editor) : Prop :=
  shift_mode k = (if ed_shift e then 1 else 0) /\
  caps_mode k = (if ed_caps e then -1 else 0) /\
  ctrl_mode k = 0 /\ dict k = ed_dict e /\
  enter_flag k = (if ed_entered e then 1 else 0).

Lemma key_modes_spec input k e :
  kbd_agrees k e -> input <> CTRL_PRESSED ->
  kbd_agrees (key_modes input k) (ed_modes input e) /\
  key_buf_index (key_modes input k) = key_buf_index k /\
  mode_flag (key_modes input k) = (if is_mode input then 1 else 0).
Proof.
  intros (Hs & Hc & Hct & _) Hne. destruct k as [bi ef di ct ca sh mf], e as [es ec el ee].
  cbn [shift_mode caps_mode ctrl_mode ed_shift ed_caps] in *. subst sh ca ct.
  unfold kbd_agrees, key_modes, ed_modes, is_mode, ed_dict. cbn [existsb].
  apply Z.eqb_neq in Hne. rewrite Hne.
  destruct (Z.eqb_spec input RSHIFT_PRESSED) as [->|];
    [|destruct (Z.eqb_spec input LSHIFT_PRESSED) as [->|];
      [|destruct (Z.eqb_spec input RSHIFT_RELEASED) as [->|];
        [|destruct (Z.eqb_spec input LSHIFT_RELEASED) as [->|];
          [|destruct (Z.eqb_spec input CAPS_PRESSED) as [->|];
            [|destruct (Z.eqb_spec input CTRL_RELEASED) as [->|]]]]]];
    destruct es, ec; cbn; done.
Qed.

(** Every character of the table fits a byte, and only the Tab key gives a tab. *)
Lemma key_symbol_table :
  forallb (fun d => forallb (fun i =>
    (0 <=? key_symbol d i) && (key_symbol d i <? 256) &&
    ((i =? 0x0F) || negb (key_symbol d i =? 9))) (zseq 0 128)) [0; 1; 2] = true.
Proof. vm_compute. reflexivity. Qed.

Lemma key_symbol_plain e input :
  0 <= input < 128 -> input <> 0x0F ->
  0 <= key_symbol (ed_dict e) input < 256 /\ key_symbol (ed_dict e) input <> 9.
Proof.
  intros Hi Hne. pose proof key_symbol_table as T. rewrite forallb_forall in T.
  assert (Hd : In (ed_dict e) [0; 1; 2]).
  { unfold ed_dict. destruct (ed_shift e), (ed_caps e); cbn; tauto. }
  specialize (T _ Hd). rewrite forallb_forall in T. specialize (T input).
  rewrite <- list_elem_of_In, elem_of_zseq in T. specialize (T ltac:(lia)).
  apply Z.eqb_neq in Hne. rewrite Hne in T. cbn [orb] in T. bool_to_prop. lia.
Qed.

Section Refine.
Context `{Ports} `{Layout}.

(** The bytes of the line buffer, with the byte behind it that a backspace in a
    full buffer clears. *)
Definition line_region : region := (key_buf, 129).

Definition kbd_frame (a : Z) : Prop := in_region line_region a \/ screen_bytes a.

Record edits (s : kst) (e : editor) : Prop := {
  ed_kbd : kbd_agrees (k_kbd s) e;
  ed_index : key_buf_index (k_kbd s) = Z.of_nat (length (ed_line e));
  ed_max : (length (ed_line e) <= 128)%nat;
  ed_bytes : bytes (k_mem s) key_buf (length (ed_line e)) = ed_line e;
  ed_no_tab : Forall (fun c => c <> 9) (ed_line e);
  ed_cursor : on_screen (k_con s);
  ed_room : Z.of_nat (length (ed_line e)) <= cursor_pos (k_con s)
}.

Context (Hsep : forall a, in_region line_region a -> ~ screen_bytes a).

Lemma line_bytes_screen m m' n :
  unchanged screen_bytes m m' -> (n <= 128)%nat -> bytes m' key_buf n = bytes m key_buf n.
Proof using Hsep.
  intros U Hn. eapply unchanged_bytes; [exact U|]. intros b Hb. apply Hsep.
  unfold in_region, in_range, line_region in *. cbn [fst snd]. lia.
Qed.

Lemma key_backspace_spec s e :
  edits s e -> ed_entered e = false ->
  edits (key_backspace s) (mkEd (ed_shift e) (ed_caps e) (removelast (ed_line e)) false) /\
  unchanged kbd_frame (k_mem s) (k_mem (key_backspace s)).
Proof using Hsep.
  intros [Hk Hi Hm Hb Ht Hos Hr] He. destruct e as [es ec l ee]. cbn in He. subst ee.
  cbn [ed_shift ed_caps ed_line] in *. unfold key_backspace. rewrite Hi.
  destruct l as [|c0 l0] using rev_ind; [split; [by split|apply unchanged_refl]|]. clear IHl0.
  rewrite removelast_last. rewrite length_app in *. cbn [length] in *.
  replace (0 <? Z.of_nat (length l0 + 1)) with true by (symmetry; apply Z.ltb_lt; lia).
  assert (Hlast : load8 (k_mem s) (key_buf + (Z.of_nat (length l0 + 1) - 1)) = c0 /\
                  bytes (k_mem s) key_buf (length l0) = l0).
  { rewrite bytes_app in Hb. apply app_inj_1 in Hb as [Hb1 Hb2]; [|apply length_bytes].
    split; [|done]. rewrite bytes_S in Hb2. injection Hb2 as <-. f_equal. lia. }
  destruct Hlast as [-> Hb'].
  apply Forall_app in Ht as [Ht Htc]. inversion_clear Htc as [|? ? H9 _].
  unfold deletec_terminal. apply Z.eqb_neq in H9. rewrite H9.
  change (for_range 0 1 (fun _ => delete_cell) s) with (delete_cell s).
  destruct (delete_cell_spec s Hos) as (Ho' & Hp' & U & Ek); [lia|].
  set (s1 := delete_cell s) in *. set (a := key_buf + Z.of_nat (length l0 + 1)).
  assert (U1 : unchanged (in_range a 1) (k_mem s1) (store8 (k_mem s1) a 0))
    by (apply unchanged_store8; unfold in_range; lia).
  split.
  - split; cbn [ed_line k_mem k_kbd k_con upd_mem upd_kbd set_k_mem set_k_kbd]; rewrite ?Ek.
    + exact Hk.
    + cbn [key_buf_index set_key_buf_index]. lia.
    + lia.
    + rewrite (unchanged_bytes _ _ _ _ _ U1) by (unfold in_range, a; lia).
      rewrite (line_bytes_screen (k_mem s)) by (done || lia). done.
    + done.
    + exact Ho'.
    + change (Z.of_nat (length l0) <= cursor_pos (k_con s1)). lia.
  - apply (unchanged_trans _ _ (k_mem s1)).
    + eapply unchanged_weaken; [|exact U]. by right.
    + apply unchanged_store8. left. unfold in_region, in_range, line_region, a. cbn [fst snd]. lia.
Qed.

Lemma process_to_buffer_spec input s e :
  edits s e -> key_symbol (ed_dict e) input <> 9 -> 0 <= key_symbol (ed_dict e) input < 256 ->
  let c := key_symbol (ed_dict e) input in
  edits (process_to_buffer input s)
    (mkEd (ed_shift e) (ed_caps e)
       (if (length (ed_line e) <? 128)%nat then ed_line e ++ [c] else ed_line e) (ed_entered e)) /\
  unchanged kbd_frame (k_mem s) (k_mem (process_to_buffer input s)).
Proof using Hsep.
  intros E H9 Hc c. pose proof E as [Hk Hi Hm Hb Ht Hos Hr]. pose proof Hk as (_ & _ & Hct & Hd & _).
  unfold process_to_buffer. rewrite Hct, Hd. cbn [Z.eqb negb]. fold c in H9, Hc |- *. rewrite Hi.
  unfold KEY_BUF_SIZE.
  destruct (Nat.ltb_spec (length (ed_line e)) 128) as [Hlt|Hge].
  2: { replace (Z.of_nat (length (ed_line e)) <? 128) with false by lia.
       split; [destruct e; exact E|apply unchanged_refl]. }
  replace (Z.of_nat (length (ed_line e)) <? 128) with true by lia.
  destruct (putc_terminal_shows c s Hos Hc H9) as (_ & Ho' & U).
  pose proof (putc_terminal_pos c s Hos Hc H9) as Hp.
  pose proof (putc_terminal_kbd c s) as Ek.
  set (s1 := putc_terminal c s) in *. clearbody s1.
  unfold add_to_buffer. rewrite Ek, Hi. unfold KEY_BUF_SIZE.
  replace (Z.of_nat (length (ed_line e)) <? 128) with true by lia.
  set (a := key_buf + Z.of_nat (length (ed_line e))).
  assert (U1 : unchanged (in_range a 1) (k_mem s1) (store8 (k_mem s1) a c))
    by (apply unchanged_store8; unfold in_range; lia).
  split.
  - split; cbn [ed_line ed_shift ed_caps ed_entered]; rewrite ?length_app; cbn [length].
    + cbn [k_kbd upd_mem upd_kbd set_k_mem set_k_kbd]. rewrite Ek. exact Hk.
    + cbn. lia.
    + lia.
    + rewrite bytes_app. cbn [k_mem upd_mem upd_kbd set_k_mem set_k_kbd].
      rewrite (unchanged_bytes _ _ _ _ _ U1) by (unfold in_range, a; lia).
      rewrite (line_bytes_screen (k_mem s)), Hb by (done || lia). f_equal.
      rewrite bytes_S. fold a. rewrite load8_store8_eq, u8_small by done. done.
    + apply Forall_app. split; [done|]. by constructor.
    + exact Ho'.
    + change (Z.of_nat (length (ed_line e) + 1) <= cursor_pos (k_con s1)). lia.
  - apply (unchanged_trans _ _ (k_mem s1)).
    + eapply unchanged_weaken; [|exact U]. by right.
    + apply unchanged_store8. left. unfold in_region, in_range, line_region, a. cbn [fst snd]. lia.
Qed.

(** One interrupt is one step of the editor; memory changes only in the line
    buffer and on the screen. *)
Lemma key_press_spec input s e :
  edits s e -> plain input ->
  edits (key_press input s) (ed_key input e) /\
  unchanged kbd_frame (k_mem s) (k_mem (key_press input s)).
Proof using Hsep.
  intros E (Hin & Hctrl & Htab). pose proof E as [Hk Hi Hm Hb Ht Hos Hr].
  destruct (key_modes_spec input (k_kbd s) e Hk Hctrl) as (Hk' & Hi' & Hf).
  unfold key_press, key_event. set (s0 := log_io _ (cli s)).
  change (k_kbd s0) with (k_kbd s).
  set (s1 := upd_kbd (key_modes input) s0).
  assert (E1 : edits s1 (ed_modes input e)).
  { split; try done. change (key_buf_index (key_modes input (k_kbd s)) =
      Z.of_nat (length (ed_line e))). congruence. }
  assert (Heoi : forall z e', edits z e' -> edits (sti (send_eoi 1 z)) e')
    by (intros z e' [? ? ? ? ? ? ?]; split; done).
  change (mode_flag (k_kbd s1)) with (mode_flag (key_modes input (k_kbd s))). rewrite Hf.
  replace (negb ((if is_mode input then 1 else 0) =? 0)) with (is_mode input)
    by (destruct (is_mode input); done).
  unfold ed_key. destruct ((128 <=? input) || is_mode input) eqn:Emode.
  { split; [apply Heoi, Heoi, E1|apply unchanged_refl]. }
  assert (Hd : dict (k_kbd s) = ed_dict (ed_modes input e)).
  { destruct Hk as (_ & _ & _ & -> & _). apply orb_false_iff in Emode as [_ Em].
    unfold is_mode in Em. cbn [existsb] in Em. bool_to_prop.
    unfold ed_dict, ed_modes. cbn [ed_shift ed_caps].
    now rewrite !(proj2 (Z.eqb_neq _ _)) by done. }
  rewrite Hd. destruct (key_symbol_plain (ed_modes input e) input) as [Hc H9];
    [apply orb_false_iff in Emode as [Em _]; bool_to_prop; lia|done|].
  destruct (Z.eqb_spec (key_symbol (ed_dict (ed_modes input e)) input) 8) as [E8|E8].
  - destruct (key_backspace_spec s1 (ed_modes input e) E1 eq_refl) as [B U].
    split; [apply Heoi, B|exact U].
  - set (c := key_symbol (ed_dict (ed_modes input e)) input) in *.
    set (e2 := mkEd (ed_shift (ed_modes input e)) (ed_caps (ed_modes input e))
                    (ed_line (ed_modes input e)) (c =? 10)).
    assert (E2 : edits (if c =? 10 then upd_kbd (set_enter_flag 1) s1 else s1) e2).
    { unfold e2. destruct E1 as [K1 ? ? ? ? ? ?]. destruct (c =? 10); split; try done.
      destruct K1 as (? & ? & ? & ? & ?). done. }
    destruct (process_to_buffer_spec input _ e2 E2 H9 Hc) as [B U].
    split; [apply Heoi, B|].
    destruct (c =? 10); exact U.
Qed.

Lemma key_presses_spec keys : forall s e,
  edits s e -> Forall plain keys ->
  let s' := fold_left (fun s k => key_press k s) keys s in
  edits s' (ed_keys keys e) /\ unchanged kbd_frame (k_mem s) (k_mem s').
Proof using Hsep.
  induction keys as [|k keys IH]; intros s e E Hp; cbn [fold_left ed_keys].
  - split; [done|apply unchanged_refl].
  - inversion_clear Hp as [|? ? Hk Hks]. destruct (key_press_spec k s e E Hk) as [E1 U1].
    destruct (IH (key_press k s) (ed_key k e) E1 Hks) as [E2 U2].
    split; [exact E2|by eapply unchanged_trans].
Qed.

(** ** Reading a line *)

Lemma clear_key_buffer_spec s e :
  edits s e ->
  edits (clear_key_buffer s) (mkEd (ed_shift e) (ed_caps e) [] (ed_entered e)) /\
  unchanged (in_region line_region) (k_mem s) (k_mem (clear_key_buffer s)).
Proof using Type.
  intros [Hk Hi Hm Hb Ht Hos Hr]. split.
  - split; cbn [ed_line length]; [exact Hk|reflexivity|lia|reflexivity|constructor|exact Hos|].
    change (Z.of_nat 0 <= cursor_pos (k_con s)). lia.
  - unfold clear_key_buffer. cbn [k_mem upd_kbd set_k_kbd]. rewrite upd_mem_mem.
    apply unchanged_for_range. intros i m Hi'. apply unchanged_store8.
    unfold in_region, in_range, line_region, KEY_BUF_SIZE in *. cbn [fst snd]. lia.
Qed.

(** The copy loop of [terminal_read]. *)
Lemma copy_line_spec buf n m :
  disj buf (Z.of_nat n) key_buf (Z.of_nat n) ->
  let m' := for_range 0 (Z.of_nat n) (fun i m => store8 m (buf + i) (load8 m (key_buf + i))) m in
  unchanged (in_range buf (Z.of_nat n)) m m' /\ bytes m' buf n = bytes m key_buf n.
Proof using Type.
  intros Hd m'. destruct (copy_bytes_spec buf key_buf (Z.of_nat n) m ltac:(lia) Hd) as [U C]. split; [done|].
  apply list_eq_same_length with (n := n); [apply length_bytes..|].
  intros k x y Hk. rewrite !bytes_lookup by done. intros [= <-] [= <-]. apply C. lia.
Qed.

Context (buf : Z).
Context (Hbl : rdisj (buf, 128) line_region) (Hbs : rdisj (buf, 128) (VIDEO, 2 * NUM_ROWS * NUM_COLS)).

(** What a read of the terminal may write. *)
Definition term_read_frame (a : Z) : Prop := kbd_frame a \/ in_range buf 128 a.

Lemma take_line_spec s e :
  edits s e ->
  exists s', take_line buf s = (Z.of_nat (length (ed_line e)), s') /\
    bytes (k_mem s') buf (length (ed_line e)) = ed_line e /\
    edits s' (mkEd (ed_shift e) (ed_caps e) [] false) /\
    unchanged term_read_frame (k_mem s) (k_mem s').
Proof using Hsep Hbl.
  intros E. pose proof E as [Hk Hi Hm Hb Ht Hos Hr]. unfold take_line. rewrite Hi.
  set (n := length (ed_line e)) in *.
  assert (Hd : disj buf (Z.of_nat n) key_buf (Z.of_nat n)).
  { unfold rdisj, disj, line_region in *. cbn [fst snd] in *. lia. }
  destruct (copy_line_spec buf n (k_mem s) Hd) as [U B].
  set (m1 := for_range 0 (Z.of_nat n) _ (k_mem s)) in *.
  set (s1 := upd_kbd (set_enter_flag 0) (upd_mem _ s)).
  assert (E1 : edits s1 (mkEd (ed_shift e) (ed_caps e) (ed_line e) false)).
  { split; cbn [ed_line]; try done.
    - destruct Hk as (? & ? & ? & ? & ?). done.
    - change (k_mem s1) with m1. erewrite unchanged_bytes; [exact Hb|exact U|].
      unfold in_range, disj in *. lia. }
  destruct (clear_key_buffer_spec s1 _ E1) as [E2 U2].
  exists (clear_key_buffer s1). split; [done|]. split; [|split; [exact E2|]].
  - rewrite (unchanged_bytes _ _ _ _ _ U2); [rewrite <- Hb; exact B|].
    unfold rdisj, disj, in_region, in_range, line_region in *. cbn [fst snd] in *. lia.
  - apply (unchanged_trans _ _ m1).
    + eapply unchanged_weaken; [|exact U]. intros a Ha. right. unfold in_range in *. lia.
    + eapply unchanged_weaken; [|exact U2]. intros a Ha. left. by left.
Qed.

(** The editor under the polling loop: it stops at the first poll that finds the
    last key was Enter. *)
Fixpoint await (sched : list (list Z)) (e : editor) : option editor :=
  if ed_entered e then Some e else
  match sched with
  | [] => None
  | keys :: sched' => await sched' (ed_keys keys e)
  end.

Lemma wait_enter_spec sched : forall s e,
  edits s e -> Forall (Forall plain) sched ->
  match await sched e with
  | None => wait_enter sched buf s = None
  | Some e' => exists s', wait_enter sched buf s = Some (Z.of_nat (length (ed_line e')), s') /\
      bytes (k_mem s') buf (length (ed_line e')) = ed_line e' /\
      edits s' (mkEd (ed_shift e') (ed_caps e') [] false) /\
      unchanged term_read_frame (k_mem s) (k_mem s')
  end.
Proof using Hsep Hbl Hbs.
  induction sched as [|keys sched IH]; intros s e E Hp;
    pose proof (ed_kbd s e E) as (_ & _ & _ & _ & He); cbn [await wait_enter]; rewrite He;
    destruct (ed_entered e) eqn:Eent; cbn [Z.eqb Pos.eqb];
    try (destruct (take_line_spec s e E) as (s' & -> & ?); by eauto); [done|].
  inversion_clear Hp as [|? ? Hk Hks]. destruct (key_presses_spec keys s e E Hk) as [E1 U1].
  specialize (IH _ _ E1 Hks). destruct (await sched (ed_keys keys e)) as [e'|]; [|done].
  destruct IH as (s' & -> & B & E2 & U2). exists s'. split; [done|]. split; [done|].
  split; [done|]. eapply unchanged_trans; [|exact U2].
  eapply unchanged_weaken; [|exact U1]. by left.
Qed.
End Refine.

(** ** Writing *)

Lemma write_loop_spec fuel : forall index nbytes inbuf s,
  0 <= index <= nbytes -> nbytes - index < Z.of_nat fuel -> on_screen (k_con s) ->
  (forall a, in_range inbuf nbytes a -> ~ screen_bytes a) ->
  let l := bytes (k_mem s) (inbuf + index) (Z.to_nat (nbytes - index)) in
  Forall (fun c => c <> 9) l ->
  write_loop fuel inbuf nbytes index s = (nbytes, print_chars l s).
Proof.
  induction fuel as [|f IH]; intros index nbytes inbuf s Hi Hf Hos Hd l Hl; [lia|].
  cbn [write_loop]. destruct (Z.ltb_spec index nbytes) as [Hlt|Hge].
  2: { unfold l. replace (Z.to_nat (nbytes - index)) with O by lia.
       replace index with nbytes by lia. reflexivity. }
  unfold l in *. replace (Z.to_nat (nbytes - index)) with (S (Z.to_nat (nbytes - (index + 1)))) in * by lia.
  rewrite bytes_S in *. inversion_clear Hl as [|? ? H9 Hl'].
  destruct (putc_terminal_shows (load8 (k_mem s) (inbuf + index)) s Hos) as (_ & Ho' & U);
    [apply load8_range|done|].
  unfold print_chars. cbn [fold_left].
  set (s1 := putc_terminal (load8 (k_mem s) (inbuf + index)) s) in *. clearbody s1.
  assert (Eb : bytes (k_mem s1) (inbuf + (index + 1)) (Z.to_nat (nbytes - (index + 1)))
             = bytes (k_mem s) (inbuf + index + 1) (Z.to_nat (nbytes - (index + 1)))).
  { replace (inbuf + (index + 1)) with (inbuf + index + 1) by lia.
    eapply unchanged_bytes; [exact U|]. intros b Hb. apply Hd. unfold in_range in *. lia. }
  specialize (IH (index + 1) nbytes inbuf s1). cbv zeta in IH. rewrite Eb in IH.
  apply IH; [lia|lia|exact Ho'|exact Hd|exact Hl'].
Qed.

(** ** A concrete terminal *)

#[local] Existing Instance test_layout.
Definition quiet_ports : Ports := fun _ _ => 0.
#[local] Existing Instance quiet_ports.

Lemma test_line_sep a : in_region line_region a -> ~ screen_bytes a.
Proof.
  unfold in_region, in_range, line_region, screen_bytes, in_range, VIDEO, NUM_ROWS, NUM_COLS.
  cbn [fst snd key_buf test_layout]. lia.
Qed.

Lemma test_edits : edits (blank_state 0 20) (mkEd false false [] false).
Proof.
  split; cbn [ed_line length]; [by repeat split|reflexivity|lia|reflexivity|constructor| |].
  - unfold on_screen, NUM_ROWS, NUM_COLS. cbn. lia.
  - unfold cursor_pos, NUM_COLS. cbn. lia.
Qed.

(** ** Theorems *)

(** C10 The keyboard interrupt handler is one step of a line editor for every scan
    code except Control and Tab: modifiers switch the character table, a key
    appends its character while the line has fewer than 128, backspace removes
    the last one, and Enter is noted.  The line buffer, its index, the modifier
    variables and the table in use stay in agreement with the editor, the cursor
    stays on the screen, and no other memory changes. *)
Theorem key_press_refines `{Ports} `{Layout} input s e :
  (forall a, in_region line_region a -> ~ screen_bytes a) ->
  edits s e -> plain input ->
  edits (key_press input s) (ed_key input e) /\
  unchanged kbd_frame (k_mem s) (k_mem (key_press input s)).
Proof. intros Hsep. by apply key_press_spec. Qed.

Lemma key_press_refines_witness :
  edits (key_press 0x1E (blank_state 0 20)) (mkEd false false [97] false).
Proof.
  apply (key_press_refines 0x1E (blank_state 0 20) (mkEd false false [] false) test_line_sep test_edits).
  unfold plain, CTRL_PRESSED. lia.
Defined.

(** C25 terminal_read on standard input returns exactly when a poll finds that the
    last key was Enter (also one pressed before the call), and then delivers the
    edited line with its length, whatever the size the caller asked for; the
    buffer is then empty again.  As long as no poll sees Enter it waits. *)
Theorem terminal_read_correct `{Ports} `{Layout} sched buf nbytes s e :
  (forall a, in_region line_region a -> ~ screen_bytes a) ->
  rdisj (buf, 128) line_region -> rdisj (buf, 128) (VIDEO, 2 * NUM_ROWS * NUM_COLS) ->
  edits s e -> Forall (Forall plain) sched ->
  match await sched (mkEd (ed_shift e) (ed_caps e) [] (ed_entered e)) with
  | None => terminal_read sched STDIN buf nbytes s = None
  | Some e' => exists s',
      terminal_read sched STDIN buf nbytes s = Some (Z.of_nat (length (ed_line e')), s') /\
      bytes (k_mem s') buf (length (ed_line e')) = ed_line e' /\
      edits s' (mkEd (ed_shift e') (ed_caps e') [] false) /\
      unchanged (term_read_frame buf) (k_mem s) (k_mem s')
  end.
Proof.
  intros Hsep H1 H2 E Hp. unfold terminal_read. change (negb (STDIN =? STDIN)) with false. cbv iota.
  destruct (clear_key_buffer_spec s e E) as [E1 U1].
  pose proof (wait_enter_spec Hsep buf H1 H2 sched _ _ E1 Hp) as W.
  destruct (await sched _) as [e'|]; [|exact W].
  destruct W as (s' & Er & B & E2 & U2). exists s'. split; [exact Er|]. split; [exact B|].
  split; [exact E2|]. eapply unchanged_trans; [|exact U2].
  eapply unchanged_weaken; [|exact U1]. intros a Ha. left. by left.
Qed.

(** The keys l, s, backspace, s, Enter over three turns of the loop. *)
Lemma terminal_read_correct_witness :
  exists s', terminal_read [[0x26; 0xA6]; [0x1F; 0x0E; 0x1F]; [0x1C]] STDIN 0x2000 128 (blank_state 0 20)
    = Some (3, s') /\ bytes (k_mem s') 0x2000 3 = [108; 115; 10].
Proof.
  pose proof (terminal_read_correct [[0x26; 0xA6]; [0x1F; 0x0E; 0x1F]; [0x1C]] 0x2000 128
    (blank_state 0 20) (mkEd false false [] false) test_line_sep) as Hw.
  assert (Ea : await [[0x26; 0xA6]; [0x1F; 0x0E; 0x1F]; [0x1C]] (mkEd false false [] false)
    = Some (mkEd false false [108; 115; 10] true)) by (vm_compute; reflexivity).
  cbn [ed_shift ed_caps ed_entered] in Hw. rewrite Ea in Hw.
  destruct Hw as (s' & E & B & _).
  - unfold rdisj, disj, line_region. cbn. lia.
  - unfold rdisj, disj. cbn. unfold VIDEO. lia.
  - exact test_edits.
  - repeat constructor; unfold CTRL_PRESSED; lia.
  - exists s'. split; [exact E|exact B].
Defined.

(** A press of Enter is lost when the next interrupt comes before the poll: the
    handler resets enter_flag on every scan code, also on the release of the Enter
    key itself, so with both served between two polls the read keeps waiting. *)
Theorem enter_lost_before_poll `{Ports} `{Layout} buf nbytes s e :
  (forall a, in_region line_region a -> ~ screen_bytes a) ->
  rdisj (buf, 128) line_region -> rdisj (buf, 128) (VIDEO, 2 * NUM_ROWS * NUM_COLS) ->
  edits s e -> ed_entered e = false ->
  terminal_read [[0x1C; 0x9C]] STDIN buf nbytes s = None.
Proof.
  intros Hsep H1 H2 E He. unfold terminal_read. change (negb (STDIN =? STDIN)) with false. cbv iota.
  destruct (clear_key_buffer_spec s e E) as [E1 U1].
  pose proof (wait_enter_spec Hsep buf H1 H2 [[0x1C; 0x9C]] _ _ E1) as W.
  rewrite He in W. cbn in W. destruct (ed_shift e), (ed_caps e); apply W;
    repeat constructor; unfold CTRL_PRESSED; lia.
Qed.

Lemma enter_lost_before_poll_witness :
  terminal_read [[0x1C; 0x9C]] STDIN 0x2000 128 (blank_state 0 20) = None.
Proof.
  apply (enter_lost_before_poll 0x2000 128 (blank_state 0 20) (mkEd false false [] false) test_line_sep).
  - unfold rdisj, disj, line_region. cbn. lia.
  - unfold rdisj, disj. cbn. unfold VIDEO. lia.
  - exact test_edits.
  - reflexivity.
Defined.

(** terminal_write on standard output prints exactly the bytes of the buffer in
    order, returns their number and leaves interrupts enabled; on any other
    descriptor it fails. *)
Theorem terminal_write_correct fd buf nbytes s :
  0 <= nbytes -> on_screen (k_con s) ->
  (forall a, in_range buf nbytes a -> ~ screen_bytes a) ->
  Forall (fun c => c <> 9) (bytes (k_mem s) buf (Z.to_nat nbytes)) ->
  terminal_write fd buf nbytes s =
  if fd =? STDOUT then (nbytes, sti (print_chars (bytes (k_mem s) buf (Z.to_nat nbytes)) (cli s)))
  else (-1, s).
Proof.
  intros Hn Hos Hd Hl. unfold terminal_write. destruct (fd =? STDOUT); [|done]. cbn [negb].
  pose proof (write_loop_spec (S (Z.to_nat nbytes)) 0 nbytes buf (cli s)) as W. cbv zeta in W.
  rewrite Z.add_0_r, Z.sub_0_r in W. change (k_mem (cli s)) with (k_mem s) in W.
  rewrite W; [reflexivity|lia|lia|exact Hos|exact Hd|exact Hl].
Qed.

Lemma terminal_write_correct_witness :
  (terminal_write 1 0x2000 2 (upd_mem (fun m => store_list m 0x2000 [72; 105]) (blank_state 0 3))).1 = 2.
Proof.
  rewrite (terminal_write_correct 1 0x2000 2
    (upd_mem (fun m => store_list m 0x2000 [72; 105]) (blank_state 0 3))); [reflexivity|lia| | |].
  - unfold on_screen, NUM_ROWS, NUM_COLS. cbn. lia.
  - unfold in_range, screen_bytes, VIDEO, in_range. lia.
  - vm_compute. repeat constructor; discriminate.
Defined.

(** The 26 letter keys: their scan codes with the lower-case character. *)
Definition letter_keys : list (Z * Z) :=
  [(0x1E,97);(0x30,98);(0x2E,99);(0x20,100);(0x12,101);(0x21,102);(0x22,103);(0x23,104);(0x17,105);
   (0x24,106);(0x25,107);(0x26,108);(0x32,109);(0x31,110);(0x18,111);(0x19,112);(0x10,113);(0x13,114);
   (0x1F,115);(0x14,116);(0x16,117);(0x2F,118);(0x11,119);(0x2D,120);(0x15,121);(0x2C,122)].

(** Letters are typed in upper case exactly when one of shift and caps lock is
    in effect, and digits are replaced by their symbols only with shift alone:
    with caps lock on, shift no longer reaches them. *)
Theorem letter_case e key :
  (forall sc c, (sc, c) ∈ letter_keys ->
     key_symbol (ed_dict e) sc = if xorb (ed_shift e) (ed_caps e) then c - 32 else c) /\
  (2 <= key <= 11 ->
     key_symbol (ed_dict e) key =
     key_symbol (if ed_shift e && negb (ed_caps e) then 1 else 0) key).
Proof.
  split.
  - intros sc c Hin. unfold ed_dict.
    assert (T : forallb (fun p => (key_symbol 0 p.1 =? p.2) && (key_symbol 1 p.1 =? p.2 - 32)
      && (key_symbol 2 p.1 =? p.2 - 32)) letter_keys = true) by (vm_compute; reflexivity).
    rewrite forallb_forall in T. rewrite list_elem_of_In in Hin. specialize (T _ Hin).
    cbn [fst snd] in T. bool_to_prop. destruct (ed_shift e), (ed_caps e); cbn; done.
  - intros Hk. unfold ed_dict. destruct (ed_shift e), (ed_caps e); cbn [andb negb]; try done.
    assert (T : forallb (fun k => key_symbol 2 k =? key_symbol 0 k) (zseq 2 10) = true)
      by (vm_compute; reflexivity).
    rewrite forallb_forall in T. specialize (T key). rewrite <- list_elem_of_In, elem_of_zseq in T.
    apply Z.eqb_eq, T. lia.
Qed.

Lemma letter_case_witness : key_symbol (ed_dict (mkEd true true [] false)) 2 = 49.
Proof. apply (letter_case (mkEd true true [] false) 2). lia. Defined.

