(* ===== verification/Paging.v ===== *)
(** * Paging, paging_c.c and paging.S

    The page directory and the two page tables are words in memory, written and
    read through the bit-field structures of paging_c.h.  [translate] is the walk
    the processor performs for a virtual address.  Loading CR3 flushes the TLB,
    which fixes the frame the program page is translated to ([tlb] of Mem.v). *)

From S2P Require Import Prelude Mem CString State.

Definition FOUR_MB : Z := 0x400000.
Definition EIGHT_KB : Z := 0x2000.
Definition EIGHT_MB : Z := 0x800000.
Definition VID_ADDR : Z := 0xB8000.
Definition TWENTY_MSB : Z := 0xFFFFF000.
Definition KER_ADDR : Z := FOUR_MB.
Definition TEN_MSB : Z := 0xFFC00000.
Definition PRO_ADDR : Z := 32.
Definition USER_VMEM : Z := 33.

(** ** The bit-field structures *)

(** A value stored in a bit-field of width [w] at bit [off], and read back. *)
Definition put_field (w off v : Z) : Z := Z.shiftl (v mod 2 ^ w) off.
Definition get_field (w off x : Z) : Z := Z.shiftr x off mod 2 ^ w.
(** Assignment to one field of a word. *)
Definition set_field (w off v x : Z) : Z :=
  x - put_field w off (get_field w off x) + put_field w off v.

Record pd_entry_smallPage := mkSmall {
  sp_present : Z; sp_rw_enable : Z; sp_user_super : Z; sp_write_through : Z;
  sp_cache_disabled : Z; sp_accessed : Z; sp_reserved : Z; sp_page_size : Z;
  sp_global_page : Z; sp_available : Z; sp_page_table_base_addr : Z }.

Record pd_entry_bigPage := mkBig {
  bp_present : Z; bp_rw_enable : Z; bp_user_super : Z; bp_write_through : Z;
  bp_cache_disabled : Z; bp_accessed : Z; bp_dirty : Z; bp_page_size : Z;
  bp_global_page : Z; bp_available : Z; bp_pat_idx : Z; bp_reserved : Z;
  bp_page_base_addr : Z }.

Record pt_entry := mkPte {
  pt_present : Z; pt_rw_enable : Z; pt_user_super : Z; pt_write_through : Z;
  pt_cache_disabled : Z; pt_accessed : Z; pt_dirty : Z; pt_pat_idx : Z;
  pt_global_page : Z; pt_available : Z; pt_page_base_addr : Z }.

Definition word_of_small (e : pd_entry_smallPage) : Z :=
  put_field 1 0 (sp_present e) + put_field 1 1 (sp_rw_enable e) + put_field 1 2 (sp_user_super e)
  + put_field 1 3 (sp_write_through e) + put_field 1 4 (sp_cache_disabled e)
  + put_field 1 5 (sp_accessed e) + put_field 1 6 (sp_reserved e) + put_field 1 7 (sp_page_size e)
  + put_field 1 8 (sp_global_page e) + put_field 3 9 (sp_available e)
  + put_field 20 12 (sp_page_table_base_addr e).

Definition word_of_big (e : pd_entry_bigPage) : Z :=
  put_field 1 0 (bp_present e) + put_field 1 1 (bp_rw_enable e) + put_field 1 2 (bp_user_super e)
  + put_field 1 3 (bp_write_through e) + put_field 1 4 (bp_cache_disabled e)
  + put_field 1 5 (bp_accessed e) + put_field 1 6 (bp_dirty e) + put_field 1 7 (bp_page_size e)
  + put_field 1 8 (bp_global_page e) + put_field 3 9 (bp_available e)
  + put_field 1 12 (bp_pat_idx e) + put_field 9 13 (bp_reserved e)
  + put_field 10 22 (bp_page_base_addr e).

Definition word_of_pte (e : pt_entry) : Z :=
  put_field 1 0 (pt_present e) + put_field 1 1 (pt_rw_enable e) + put_field 1 2 (pt_user_super e)
  + put_field 1 3 (pt_write_through e) + put_field 1 4 (pt_cache_disabled e)
  + put_field 1 5 (pt_accessed e) + put_field 1 6 (pt_dirty e) + put_field 1 7 (pt_pat_idx e)
  + put_field 1 8 (pt_global_page e) + put_field 3 9 (pt_available e)
  + put_field 20 12 (pt_page_base_addr e).

(** The fields the code reads from a word in memory. *)
Definition PG_PRESENT (x : Z) : Z := get_field 1 0 x.
Definition PG_TABLE (x : Z) : Z := get_field 20 12 x.
Definition PG_BIG_BASE (x : Z) : Z := get_field 10 22 x.

(** ** paging.S *)

Definition set_tlb (p : Z) (m : mem) : mem := Mem (kbytes m) (ubytes m) p.

Definition ret_dir_ptr (s : kst) : Z := Z.land (cr3 (k_cpu s)) 0xFFFFF000.

Definition lpdt (dir : Z) (s : kst) : kst :=
  let v := Z.lor (Z.land dir 0xFFFFF000) (Z.land (cr3 (k_cpu s)) 0xFFF) in
  let s := upd_cpu (set_cr3 v) s in
  upd_mem (fun m => set_tlb (PG_BIG_BASE (load32 m (ret_dir_ptr s + 4 * PRO_ADDR))) m) s.

Definition enablePaging (s : kst) : kst :=
  upd_cpu (fun c => set_cr0 (Z.lor (cr0 c) 0x80000000) c) s.
Definition enablePSE (s : kst) : kst :=
  upd_cpu (fun c => set_cr4 (Z.lor (cr4 c) 0x10) c) s.
Definition enablePGE (s : kst) : kst :=
  upd_cpu (fun c => set_cr4 (Z.lor (cr4 c) 0x80) c) s.

(** ** paging_c.c *)

Section Paging.
Context `{Layout}.

Definition vid_mem : pt_entry :=
  mkPte 1 1 0 0 0 0 0 0 0 0 (Z.shiftr (Z.land TWENTY_MSB VID_ADDR) 12).
Definition pt_0 : pd_entry_smallPage :=
  mkSmall 1 1 0 0 0 0 0 0 0 0 (Z.shiftr (Z.land TWENTY_MSB page_table_0) 12).
Definition kernel_page : pd_entry_bigPage :=
  mkBig 1 1 0 0 1 0 0 1 1 0 0 0 (Z.shiftr (Z.land TEN_MSB KER_ADDR) 22).
Definition program_page : pd_entry_bigPage :=
  mkBig 1 1 1 0 1 0 0 1 0 0 0 0 0.
Definition program_vmem : pt_entry :=
  mkPte 1 1 1 0 0 0 0 0 0 0 (Z.shiftr (Z.land TWENTY_MSB VID_ADDR) 12).
Definition pt_vmem : pd_entry_smallPage :=
  mkSmall 1 1 1 0 0 0 0 0 0 0 (Z.shiftr (Z.land TWENTY_MSB page_table_1) 12).

(** The stores of [init_paging], in order. *)
Definition init_tables (m : mem) : mem :=
  let m := for_range 0 1024 (fun it m => store32 m (page_directory + 4 * it) 0) m in
  let m := for_range 0 1024 (fun it m => store32 m (page_table_0 + 4 * it) 0) m in
  let vid_idx := Z.shiftr (Z.land TWENTY_MSB VID_ADDR) 12 in
  let m := store32 m (page_table_0 + 4 * vid_idx) (word_of_pte vid_mem) in
  let m := store32 m (page_directory + 4 * 0) (word_of_small pt_0) in
  let m := store32 m (page_directory + 4 * 1) (word_of_big kernel_page) in
  let m := store32 m (page_directory + 4 * PRO_ADDR) (word_of_big program_page) in
  let m := store32 m (page_table_1 + 4 * vid_idx) (word_of_pte program_vmem) in
  let m := store32 m (page_directory + 4 * USER_VMEM) (word_of_small pt_vmem) in
  store32 m (page_directory + 4 * 0) (word_of_small pt_0).

Definition init_paging (s : kst) : kst :=
  let s := upd_mem init_tables s in
  let s := lpdt page_directory s in
  enablePaging (enablePGE (enablePSE s)).

(** The address of the entry, 0 for [NULL]. *)
Definition get_pageTable_entry (dir_idx table_idx : Z) (s : kst) : Z :=
  if (dir_idx <? 0) || (1024 <=? dir_idx) then 0 else
  if (table_idx <? 0) || (1024 <=? table_idx) then 0 else
  let dir_entry := load32 (k_mem s) (ret_dir_ptr s + 4 * dir_idx) in
  if Z.land (PG_PRESENT dir_entry) 1 =? 0 then 0 else
  let table_addr := u32 (Z.shiftl (PG_TABLE dir_entry) 12) in
  let pt_entry := table_addr + 4 * table_idx in
  if Z.land (PG_PRESENT (load32 (k_mem s) pt_entry)) 1 =? 0 then 0 else pt_entry.

Definition get_bigPage (dir_idx : Z) (s : kst) : Z :=
  if (dir_idx <? 0) || (1024 <=? dir_idx) then 0 else
  let dir_entry := load32 (k_mem s) (ret_dir_ptr s + 4 * dir_idx) in
  if Z.land (PG_PRESENT dir_entry) 1 =? 0 then 0 else ret_dir_ptr s + 4 * dir_idx.
End Paging.

(** ** The walk of the processor *)

(** A translation: the physical address and whether user code may use it. *)
Definition translate (m : mem) (dir va : Z) : option (Z * bool) :=
  let pde := load32 m (dir + 4 * Z.shiftr va 22) in
  if negb (Z.testbit pde 0) then None else
  if Z.testbit pde 7 then Some (Z.land pde 0xFFC00000 + va mod 0x400000, Z.testbit pde 2) else
  let pte := load32 m (Z.land pde 0xFFFFF000 + 4 * (Z.shiftr va 12 mod 1024)) in
  if negb (Z.testbit pte 0) then None else
  Some (Z.land pte 0xFFFFF000 + va mod 4096, Z.testbit pde 2 && Z.testbit pte 2).

(** ** Words made of a page number and flags *)

(** Evaluates the flag fields of a word. *)
Ltac eval_fields :=
  repeat match goal with
  | |- context [put_field ?w ?o ?v] =>
      let r := eval vm_compute in (put_field w o v) in change (put_field w o v) with r
  end.

Lemma land_base k r : 0 <= k < 2 ^ 20 -> 0 <= r < 4096 -> Z.land (4096 * k + r) 0xFFFFF000 = 4096 * k.
Proof.
  intros Hk Hr. replace (4096 * k + r) with (Z.lor (Z.shiftl k 12) r)
    by (rewrite lor_shiftl_add by lia; change (2 ^ 12) with 4096; lia).
  change 0xFFFFF000 with (Z.shiftl (Z.ones 20) 12).
  rewrite Z.land_lor_distr_l, <- Z.shiftl_land, land_ones_small by lia.
  rewrite (Z.land_comm r), land_shiftl_low, Z.lor_0_r by lia.
  rewrite Z.shiftl_mul_pow2 by lia. change (2 ^ 12) with 4096. lia.
Qed.

Lemma testbit_flags k r b : 0 <= b < 12 -> Z.testbit (4096 * k + r) b = Z.testbit r b.
Proof.
  intros Hb. rewrite <- (Z.mod_pow2_bits_low (4096 * k + r) 12 b) by lia.
  rewrite <- (Z.mod_pow2_bits_low r 12 b) by lia. f_equal. change (2 ^ 12) with 4096.
  replace (4096 * k + r) with (r + k * 4096) by lia. apply Z_mod_plus_full.
Qed.

Lemma put_base p k :
  p = 4096 * k -> 0 <= k < 2 ^ 20 -> put_field 20 12 (Z.shiftr (Z.land TWENTY_MSB p) 12) = p.
Proof.
  intros -> Hk. rewrite Z.land_comm. replace (4096 * k) with (4096 * k + 0) at 1 by lia.
  change TWENTY_MSB with 0xFFFFF000. rewrite land_base by lia. unfold put_field.
  rewrite Z.shiftr_div_pow2, Z.shiftl_mul_pow2 by lia. change (2 ^ 12) with 4096.
  rewrite (Z.mul_comm 4096), Z.div_mul, Z.mod_small by lia. reflexivity.
Qed.

Lemma load32_set_tlb p m a : 0 <= a -> a + 4 <= PROG_LO -> load32 (set_tlb p m) a = load32 m a.
Proof.
  intros H0 H1. unfold load32, load8, byte_at.
  assert (W : forall b, a <= b < a + 4 -> in_window b = false).
  { intros b Hb. unfold in_window. apply andb_false_iff. left. apply Z.leb_gt. lia. }
  rewrite !W by lia. reflexivity.
Qed.

(** ** What [init_paging] builds *)

Section Init.
Context `{Layout} (kd k0 k1 : Z).

(** The three tables are different pages of kernel memory. *)
Record paging_layout : Prop := {
  pl_dir : page_directory = 4096 * kd /\ 0 <= kd < 0x8000;
  pl_t0 : page_table_0 = 4096 * k0 /\ 0 <= k0 < 0x8000;
  pl_t1 : page_table_1 = 4096 * k1 /\ 0 <= k1 < 0x8000;
  pl_ne : kd <> k0 /\ kd <> k1 /\ k0 <> k1
}.

Context (PL : paging_layout).

Lemma zero_table base m :
  let m' := for_range 0 1024 (fun it m => store32 m (base + 4 * it) 0) m in
  unchanged (in_range base 4096) m m' /\
  forall j, 0 <= j < 1024 -> load32 m' (base + 4 * j) = 0.
Proof using Type.
  intros m'. split.
  - apply unchanged_for_range. intros i mi Hi. apply unchanged_store32. unfold in_range. lia.
  - intros j Hj. unfold m'.
    apply (for_range_ind (fun k mk => j < k -> load32 mk (base + 4 * j) = 0)); [lia|lia| |lia].
    intros i mi Hi IH Hlt. destruct (decide (i = j)) as [->|].
    + rewrite load32_store32_eq. reflexivity.
    + rewrite load32_store32_ne by lia. apply IH. lia.
Qed.

Lemma word_pt_0 : word_of_small pt_0 = page_table_0 + 3.
Proof using PL.
  destruct PL as [_ [E Hk] _ _]. unfold word_of_small, pt_0. cbn -[put_field Z.shiftr Z.land].
  rewrite (put_base _ k0 E) by lia. eval_fields. lia.
Qed.

Lemma word_pt_vmem : word_of_small pt_vmem = page_table_1 + 7.
Proof using PL.
  destruct PL as [_ _ [E Hk] _]. unfold word_of_small, pt_vmem. cbn -[put_field Z.shiftr Z.land].
  rewrite (put_base _ k1 E) by lia. eval_fields. lia.
Qed.

(** The entries of the three tables after [init_tables]. *)
Lemma init_tables_spec m :
  let m' := init_tables m in
  (forall i, 0 <= i < 1024 -> load32 m' (page_directory + 4 * i) =
     if i =? 0 then page_table_0 + 3 else if i =? 1 then 0x400193
     else if i =? 32 then 0x97 else if i =? 33 then page_table_1 + 7 else 0) /\
  (forall j, 0 <= j < 1024 -> load32 m' (page_table_0 + 4 * j) =
     if j =? 0xB8 then 0xB8003 else 0) /\
  (forall j, 0 <= j < 1024 -> load32 m' (page_table_1 + 4 * j) =
     if j =? 0xB8 then 0xB8007 else load32 m (page_table_1 + 4 * j)).
Proof using PL.
  pose proof PL as [[Ed Hd] [E0 H0] [E1 H1] (N1 & N2 & N3)].
  unfold init_tables. rewrite word_pt_0, word_pt_vmem.
  change (word_of_pte vid_mem) with 0xB8003. change (word_of_pte program_vmem) with 0xB8007.
  change (word_of_big kernel_page) with 0x400193. change (word_of_big program_page) with 0x97.
  change (Z.shiftr (Z.land TWENTY_MSB VID_ADDR) 12) with 0xB8.
  unfold PRO_ADDR, USER_VMEM. cbv zeta.
  destruct (zero_table page_directory m) as [Ud Zd]. set (m1 := for_range 0 1024 _ m) in *.
  destruct (zero_table page_table_0 m1) as [U0 Z0]. set (m2 := for_range 0 1024 _ m1) in *.
  assert (Zd2 : forall i, 0 <= i < 1024 -> load32 m2 (page_directory + 4 * i) = 0).
  { intros i Hi. rewrite <- (Zd i Hi). eapply unchanged_load32; [exact U0|]. unfold in_range. lia. }
  assert (K2 : forall i, 0 <= i < 1024 -> load32 m2 (page_table_1 + 4 * i) = load32 m (page_table_1 + 4 * i)).
  { intros i Hi. transitivity (load32 m1 (page_table_1 + 4 * i)).
    - eapply unchanged_load32; [exact U0|]. unfold in_range. lia.
    - eapply unchanged_load32; [exact Ud|]. unfold in_range. lia. }
  clearbody m2. split; [|split].
  - intros i Hi. rewrite Ed, E0, E1 in *.
    destruct (Z.eqb_spec i 0) as [->|]; [rewrite load32_store32_eq, u32_small by lia; done|].
    rewrite load32_store32_ne by lia.
    destruct (Z.eqb_spec i 1) as [->|].
    { do 3 (rewrite load32_store32_ne by lia). rewrite load32_store32_eq. done. }
    destruct (Z.eqb_spec i 32) as [->|].
    { do 2 (rewrite load32_store32_ne by lia). rewrite load32_store32_eq. done. }
    destruct (Z.eqb_spec i 33) as [->|].
    { rewrite load32_store32_eq, u32_small by lia. done. }
    do 6 (rewrite load32_store32_ne by lia). by apply Zd2.
  - intros j Hj. do 6 (rewrite load32_store32_ne by lia).
    destruct (Z.eqb_spec j 0xB8) as [->|].
    + rewrite load32_store32_eq. done.
    + rewrite load32_store32_ne by lia. by apply Z0.
  - intros j Hj. do 2 (rewrite load32_store32_ne by lia).
    destruct (Z.eqb_spec j 0xB8) as [->|].
    + rewrite load32_store32_eq. done.
    + do 5 (rewrite load32_store32_ne by lia). by apply K2.
Qed.

Lemma ret_dir_ptr_lpdt s : ret_dir_ptr (lpdt page_directory s) = page_directory.
Proof using PL.
  destruct PL as [[E Hk] _ _ _]. unfold ret_dir_ptr, lpdt.
  cbn [k_cpu upd_mem set_k_mem upd_cpu set_k_cpu set_cr3 cr3].
  rewrite Z.land_lor_distr_l, <- !Z.land_assoc. change (Z.land 0xFFF 0xFFFFF000) with 0.
  change (Z.land 0xFFFFF000 0xFFFFF000) with 0xFFFFF000. rewrite Z.land_0_r, Z.lor_0_r, E.
  replace (4096 * kd) with (4096 * kd + 0) at 1 by lia. apply land_base; lia.
Qed.
End Init.

(** ** The address space after [init_paging] *)

(** What the kernel means to map: the video page and the kernel page one to one
    for itself, and for programs the program page and a second view of the video
    page. *)
Definition intended_map (va : Z) : option (Z * bool) :=
  if (0xB8000 <=? va) && (va <? 0xB9000) then Some (va, false)
  else if (0x400000 <=? va) && (va <? 0x800000) then Some (va, false)
  else if (0x8000000 <=? va) && (va <? 0x8400000) then Some (va - 0x8000000, true)
  else if (0x84B8000 <=? va) && (va <? 0x84B9000) then Some (va - 0x8400000, true)
  else None.

(** The walk in memory whose three tables hold what [init_tables] wrote. *)
Section Walk.
Context (dir t0 t1 k0 k1 : Z) (m : mem).
Context (E0 : t0 = 4096 * k0) (H0 : 0 <= k0 < 0x8000) (E1 : t1 = 4096 * k1) (H1 : 0 <= k1 < 0x8000).
Context (Hd : forall i, 0 <= i < 1024 -> load32 m (dir + 4 * i) =
  if i =? 0 then t0 + 3 else if i =? 1 then 0x400193
  else if i =? 32 then 0x97 else if i =? 33 then t1 + 7 else 0).
Context (Ht0 : forall j, 0 <= j < 1024 -> load32 m (t0 + 4 * j) = if j =? 0xB8 then 0xB8003 else 0).
Context (Ht1 : forall j, 0 <= j < 1024 -> load32 m (t1 + 4 * j) = if j =? 0xB8 then 0xB8007 else 0).

Lemma translate_built va : 0 <= va < 4294967296 -> translate m dir va = intended_map va.
Proof using E0 H0 E1 H1 Hd Ht0 Ht1.
  intros Hva. unfold translate.
  rewrite !Z.shiftr_div_pow2 by lia. change (2 ^ 22) with 4194304. change (2 ^ 12) with 4096.
  set (i := va / 4194304). set (j := va / 4096 mod 1024).
  assert (Hi : 0 <= i < 1024 /\ va = 4194304 * i + va mod 4194304 /\ 0 <= va mod 4194304 < 4194304)
    by (unfold i; zdm).
  assert (Hj : 0 <= j < 1024 /\ va mod 4194304 = 4096 * j + va mod 4096 /\ 0 <= va mod 4096 < 4096)
    by (unfold j; zdm).
  clearbody i j. destruct Hi as (Hi & Ev & Hr), Hj as (Hj & Ej & Hr'). rewrite Hd by done.
  unfold intended_map.
  destruct (Z.eqb_spec i 0) as [->|Ni0].
  { rewrite E0, !testbit_flags, land_base by lia. cbn [Z.testbit Pos.testbit negb].
    change (Z.testbit 3 0) with true. change (Z.testbit 3 7) with false. cbn [negb].
    rewrite <- E0, Ht0 by done. destruct (Z.eqb_spec j 0xB8) as [->|].
    - change (Z.testbit 0xB8003 0) with true. change (Z.land 0xB8003 0xFFFFF000) with 0xB8000.
      change (Z.testbit 3 2) with false. cbn [negb andb].
      replace ((0xB8000 <=? va) && (va <? 0xB9000)) with true by lia. do 2 f_equal. lia.
    - change (Z.testbit 0 0) with false. cbn [negb]. zdecide.
      replace ((0xB8000 <=? va) && (va <? 0xB9000)) with false by lia. done. }
  replace ((0xB8000 <=? va) && (va <? 0xB9000)) with false by lia.
  destruct (Z.eqb_spec i 1) as [->|Ni1].
  { change (Z.testbit 0x400193 0) with true. change (Z.testbit 0x400193 7) with true.
    change (Z.testbit 0x400193 2) with false. change (Z.land 0x400193 0xFFC00000) with 0x400000.
    cbn [negb]. replace ((0x400000 <=? va) && (va <? 0x800000)) with true by lia. do 2 f_equal. lia. }
  replace ((0x400000 <=? va) && (va <? 0x800000)) with false by lia.
  destruct (Z.eqb_spec i 32) as [->|Ni32].
  { change (Z.testbit 0x97 0) with true. change (Z.testbit 0x97 7) with true.
    change (Z.testbit 0x97 2) with true. change (Z.land 0x97 0xFFC00000) with 0. cbn [negb].
    replace ((0x8000000 <=? va) && (va <? 0x8400000)) with true by lia. do 2 f_equal. lia. }
  replace ((0x8000000 <=? va) && (va <? 0x8400000)) with false by lia.
  destruct (Z.eqb_spec i 33) as [->|Ni33].
  - rewrite E1, !testbit_flags, land_base by lia.
    change (Z.testbit 7 0) with true. change (Z.testbit 7 7) with false.
    change (Z.testbit 7 2) with true. cbn [negb].
    rewrite <- E1, Ht1 by done. destruct (Z.eqb_spec j 0xB8) as [->|].
    + change (Z.testbit 0xB8007 0) with true. change (Z.land 0xB8007 0xFFFFF000) with 0xB8000.
      change (Z.testbit 0xB8007 2) with true. cbn [negb andb].
      replace ((0x84B8000 <=? va) && (va <? 0x84B9000)) with true by lia. do 2 f_equal. lia.
    + change (Z.testbit 0 0) with false. cbn [negb].
      replace ((0x84B8000 <=? va) && (va <? 0x84B9000)) with false by lia. done.
  - change (Z.testbit 0 0) with false. cbn [negb].
    replace ((0x84B8000 <=? va) && (va <? 0x84B9000)) with false by lia. done.
Qed.
End Walk.

(** The three tables hold what [init_tables] writes, the rest of the second page
    table zero. *)
Record tables_built `{Layout} (m : mem) : Prop := {
  tb_dir : forall i, 0 <= i < 1024 -> load32 m (page_directory + 4 * i) =
    if i =? 0 then page_table_0 + 3 else if i =? 1 then 0x400193
    else if i =? 32 then 0x97 else if i =? 33 then page_table_1 + 7 else 0;
  tb_t0 : forall j, 0 <= j < 1024 -> load32 m (page_table_0 + 4 * j) = if j =? 0xB8 then 0xB8003 else 0;
  tb_t1 : forall j, 0 <= j < 1024 -> load32 m (page_table_1 + 4 * j) = if j =? 0xB8 then 0xB8007 else 0
}.

Section Built.
Context `{Layout} (kd k0 k1 : Z) (PL : paging_layout kd k0 k1).

(** Addresses of the tables. *)
Definition in_tables (a : Z) : Prop :=
  in_range page_directory 4096 a \/ in_range page_table_0 4096 a \/ in_range page_table_1 4096 a.

Lemma tables_built_translate m va :
  tables_built m -> 0 <= va < 4294967296 -> translate m page_directory va = intended_map va.
Proof using PL.
  intros [Td T0 T1] Hva. pose proof PL as [_ [E0 H0] [E1 H1] _].
  by apply (translate_built page_directory page_table_0 page_table_1 k0 k1).
Qed.

Lemma tables_built_unchanged P m m' :
  unchanged P m m' -> (forall a, in_tables a -> ~ P a) -> tables_built m -> tables_built m'.
Proof using Type.
  intros U HP [Td T0 T1]. split; intros i Hi;
    (erewrite unchanged_load32; [by auto|exact U|]); intros b Hb; apply HP; unfold in_tables, in_range in *; lia.
Qed.

Lemma store_tables m m' t i v :
  (t = page_directory \/ t = page_table_0 \/ t = page_table_1) -> 0 <= i < 1024 ->
  unchanged in_tables m m' -> unchanged in_tables m (store32 m' (t + 4 * i) v).
Proof using Type.
  intros Ht Hi U. eapply unchanged_trans; [exact U|]. apply unchanged_store32. intros b Hb.
  unfold in_tables, in_range in *. destruct Ht as [-> | [-> | ->]]; lia.
Qed.

Lemma init_tables_frame m : unchanged in_tables m (init_tables m).
Proof using Type.
  unfold init_tables. change (Z.shiftr (Z.land TWENTY_MSB VID_ADDR) 12) with 0xB8.
  do 7 (apply store_tables; [by auto|unfold PRO_ADDR, USER_VMEM; lia|]).
  eapply unchanged_trans; apply unchanged_for_range; intros i mi Hi;
    (apply store_tables; [by auto|lia|apply unchanged_refl]).
Qed.

Lemma init_paging_load32 s a :
  0 <= a -> a + 4 <= PROG_LO -> (forall b, in_range a 4 b -> ~ in_tables b) ->
  load32 (k_mem (init_paging s)) a = load32 (k_mem s) a.
Proof using Type.
  intros Ha Hb Hd. transitivity (load32 (init_tables (k_mem s)) a).
  - by apply (load32_set_tlb _ (init_tables (k_mem s))).
  - eapply unchanged_load32; [apply init_tables_frame|exact Hd].
Qed.

Lemma init_paging_built s :
  (forall j, 0 <= j < 1024 -> load32 (k_mem s) (page_table_1 + 4 * j) = 0) ->
  tables_built (k_mem (init_paging s)).
Proof using PL.
  intros Hz. pose proof PL as [[Ed Hkd] [E0 H0] [E1 H1] _].
  destruct (init_tables_spec kd k0 k1 PL (k_mem s)) as (Td & T0 & T1).
  assert (Hl : forall t k i, t = 4096 * k -> 0 <= k < 0x8000 -> 0 <= i < 1024 ->
    load32 (k_mem (init_paging s)) (t + 4 * i) = load32 (init_tables (k_mem s)) (t + 4 * i)).
  { intros t k i -> Hk Hi. apply (load32_set_tlb _ (init_tables (k_mem s))); [lia|].
    change PROG_LO with (4096 * 0x8000). lia. }
  split.
  - intros i Hi. rewrite (Hl _ kd) by done. by apply Td.
  - intros j Hj. rewrite (Hl _ k0) by done. by apply T0.
  - intros j Hj. rewrite (Hl _ k1) by done. rewrite T1 by done. destruct (j =? 0xB8); [done|]. by apply Hz.
Qed.

Lemma init_paging_regs s :
  ret_dir_ptr (init_paging s) = page_directory /\
  Z.testbit (cr0 (k_cpu (init_paging s))) 31 = true /\ Z.testbit (cr4 (k_cpu (init_paging s))) 4 = true /\
  Z.testbit (cr4 (k_cpu (init_paging s))) 7 = true.
Proof using PL.
  split; [exact (ret_dir_ptr_lpdt kd k0 k1 PL (upd_mem init_tables s))|].
  unfold init_paging, enablePaging, enablePGE, enablePSE.
  cbn -[Z.testbit Z.lor lpdt upd_mem init_tables]. rewrite !Z.lor_spec.
  change (Z.testbit 0x80000000 31) with true. change (Z.testbit 0x10 4) with true.
  change (Z.testbit 0x80 7) with true. rewrite !orb_true_r. done.
Qed.
End Built.

(** C30 After init_paging the processor translates every 32-bit address as
    intended: the video page and the 4 MB kernel page one to one and for the
    kernel only, the program page at 128 MB and the video page at 132 MB + 0xB8000
    for programs, and nothing else; paging, 4 MB pages and global pages are
    switched on and CR3 holds the directory. *)
Theorem init_paging_correct `{Layout} kd k0 k1 s :
  paging_layout kd k0 k1 ->
  (forall j, 0 <= j < 1024 -> load32 (k_mem s) (page_table_1 + 4 * j) = 0) ->
  let s' := init_paging s in
  ret_dir_ptr s' = page_directory /\
  (forall va, 0 <= va < 4294967296 -> translate (k_mem s') (ret_dir_ptr s') va = intended_map va) /\
  Z.testbit (cr0 (k_cpu s')) 31 = true /\ Z.testbit (cr4 (k_cpu s')) 4 = true /\
  Z.testbit (cr4 (k_cpu s')) 7 = true.
Proof.
  intros PL Hz s'. destruct (init_paging_regs kd k0 k1 PL s) as (Ed & Hregs).
  split; [exact Ed|]. split; [|exact Hregs]. intros va Hva. unfold s'. rewrite Ed.
  eapply tables_built_translate; [exact PL|by eapply init_paging_built|exact Hva].
Qed.

Lemma test_paging_layout : @paging_layout test_layout 16 17 18.
Proof. split; cbn; lia. Qed.

Lemma init_paging_correct_witness :
  translate (k_mem (@init_paging test_layout (mkKst (Mem ∅ ∅ 0) (mkConsole 0 0) (mkPic 0 0) 0
      (mkKeyboard 0 0 0 0 0 0 0) (mkFilesys 0 0 0 0 0) 0 0 (mkCpu false 0 0 0 0) [])))
    0x10000 0x84B8002 = Some (0xB8002, true).
Proof.
  destruct (@init_paging_correct test_layout 16 17 18 (mkKst (Mem ∅ ∅ 0) (mkConsole 0 0) (mkPic 0 0) 0
      (mkKeyboard 0 0 0 0 0 0 0) (mkFilesys 0 0 0 0 0) 0 0 (mkCpu false 0 0 0 0) [])) as (Ed & Hm & _).
  - exact test_paging_layout.
  - intros j Hj. cbn [k_mem]. unfold load32, load8, byte_at. cbn [kbytes ubytes tlb].
    rewrite !lookup_empty. cbn [default]. rewrite !lookup_empty.
    destruct (in_window _), (in_window _), (in_window _), (in_window _); reflexivity.
  - rewrite Ed in Hm. exact (Hm 0x84B8002 ltac:(lia)).
Defined.

(** ** Looking entries up and changing the program page *)

Lemma land_1_present x : Z.land (PG_PRESENT x) 1 = x mod 2.
Proof.
  unfold PG_PRESENT, get_field. rewrite land_1_odd, Z.shiftr_0_r. apply Z.mod_mod. lia.
Qed.

(** get_bigPage and get_pageTable_entry return the address of the entry exactly
    when both indices are in range and the entries on the way are present, and
    NULL otherwise; a present small-page entry they return is the one the
    processor would use. *)
Theorem page_lookup_correct i j s :
  let dir := ret_dir_ptr s in
  let pde := load32 (k_mem s) (dir + 4 * i) in
  get_bigPage i s = (if decide (0 <= i < 1024 /\ pde mod 2 = 1) then dir + 4 * i else 0) /\
  (0 <= j < 1024 -> get_pageTable_entry i j s <> 0 -> Z.testbit pde 7 = false ->
   exists f, translate (k_mem s) dir (4194304 * i + 4096 * j) = Some (f, Z.testbit pde 2 &&
       Z.testbit (load32 (k_mem s) (get_pageTable_entry i j s)) 2) /\
     f = Z.land (load32 (k_mem s) (get_pageTable_entry i j s)) 0xFFFFF000).
Proof.
  intros dir pde. assert (Hb : pde mod 2 = 0 \/ pde mod 2 = 1) by zdm. split.
  - unfold get_bigPage. fold dir. fold pde. rewrite land_1_present.
    destruct (decide _) as [[Hi Hp]|Hn].
    + replace ((i <? 0) || (1024 <=? i)) with false by lia. now rewrite Hp.
    + destruct ((i <? 0) || (1024 <=? i)) eqn:E; [done|].
      now replace (pde mod 2 =? 0) with true by lia.
  - intros Hj. unfold get_pageTable_entry. fold dir. fold pde. rewrite !land_1_present.
    destruct ((i <? 0) || (1024 <=? i)) eqn:Ei; [done|].
    replace ((j <? 0) || (1024 <=? j)) with false by lia.
    destruct (Z.eqb_spec (pde mod 2) 0) as [Ep|Ep]; [done|].
    assert (Et : u32 (Z.shiftl (PG_TABLE pde) 12) = Z.land pde 0xFFFFF000).
    { pose proof (load32_range (k_mem s) (dir + 4 * i)) as Hr. fold pde in Hr.
      unfold PG_TABLE, get_field. rewrite Z.shiftr_div_pow2, Z.shiftl_mul_pow2 by lia.
      change (2 ^ 12) with 4096. change (2 ^ 20) with 1048576.
      assert (Hq : 0 <= pde / 4096 < 1048576) by zdm.
      rewrite (Z.mod_small (pde / 4096)), u32_small by lia.
      replace pde with (4096 * (pde / 4096) + pde mod 4096) at 2 by zdm.
      rewrite land_base by (change (2 ^ 20) with 1048576; zdm). lia. }
    rewrite Et. set (e := Z.land pde 0xFFFFF000 + 4 * j).
    destruct (Z.eqb_spec (load32 (k_mem s) e mod 2) 0) as [Eq|Eq]; [done|].
    intros _ H7. eexists. split; [|reflexivity].
    unfold translate. rewrite !Z.shiftr_div_pow2 by lia.
    change (2 ^ 22) with 4194304. change (2 ^ 12) with 4096.
    replace ((4194304 * i + 4096 * j) / 4194304) with i by (apply orb_false_iff in Ei; zdm).
    replace ((4194304 * i + 4096 * j) / 4096 mod 1024) with j by zdm.
    replace ((4194304 * i + 4096 * j) mod 4096) with 0 by zdm.
    fold pde. rewrite H7. fold e.
    assert (Hodd : forall x, x mod 2 <> 0 -> Z.testbit x 0 = true).
    { intros x Hx. rewrite Z.bit0_odd, Z.odd_spec. exists (x / 2). zdm. }
    rewrite !Hodd by done. cbn [negb]. now rewrite Z.add_0_r.
Qed.

Lemma page_lookup_correct_witness :
  exists f b, translate (store32 (store32 (Mem ∅ ∅ 0) 0x10004 0x12007) 0x12008 0x55007)
    0x10000 (4194304 * 1 + 4096 * 2) = Some (f, b).
Proof.
  destruct (page_lookup_correct 1 2 (mkKst (store32 (store32 (Mem ∅ ∅ 0) 0x10004 0x12007) 0x12008 0x55007)
    (mkConsole 0 0) (mkPic 0 0) 0 (mkKeyboard 0 0 0 0 0 0 0) (mkFilesys 0 0 0 0 0) 0 0
    (mkCpu false 0 0 0x10000 0) [])) as [_ Hw].
  destruct Hw as (f & E & _); [lia|vm_compute; congruence|vm_compute; reflexivity|].
  exists f, true. exact E.
Defined.

(** Assigning the base of a 4 MB page changes the base and keeps the flags. *)
Lemma set_big_base v x :
  0 <= v < 1024 -> 0 <= x < 4294967296 ->
  let y := set_field 10 22 v x in
  0 <= y < 4294967296 /\ PG_BIG_BASE y = v /\ y mod 4194304 = x mod 4194304 /\ set_field 10 22 (PG_BIG_BASE x) y = x.
Proof.
  intros Hv Hx. unfold PG_BIG_BASE, set_field, get_field, put_field. cbv zeta.
  rewrite !Z.shiftr_div_pow2, !Z.shiftl_mul_pow2 by lia.
  change (2 ^ 22) with 4194304. change (2 ^ 10) with 1024.
  rewrite !(Z.mod_mod _ 1024) by lia. rewrite (Z.mod_small v) by lia.
  assert (Hq : 0 <= x / 4194304 < 1024) by zdm. rewrite (Z.mod_small (x / 4194304)) by lia.
  assert (E : x - x / 4194304 * 4194304 = x mod 4194304) by zdm. rewrite E.
  assert (Hm : 0 <= x mod 4194304 < 4194304) by zdm. set (r := x mod 4194304) in *.
  assert (Ey : (r + v * 4194304) / 4194304 = v) by zdm. rewrite Ey, (Z.mod_small v) by lia.
  split; [lia|]. split; [done|]. split; [zdm|]. unfold r. zdm.
Qed.
