(* ===== verification/Syscalls.v ===== *)
(** * System calls, sys_calls.c

    The ten handlers behind the jump table of exceptions.S.  A descriptor's
    operations pointer selects one of the four tables of sys_calls.h; a pointer
    to anything else is a wild jump, and a read that is still waiting when its
    schedule ends has no result: both are [None].

    Local arrays and structures of a handler are on the kernel stack; [locals]
    gives their addresses.  A successful [sys_execute_c] does not return but
    enters the program, so its result says which. *)

From S2P Require Import Prelude Mem CString State Console I8259 Pcb Rtc Filesys Keyboard Paging.

Definition PRO_IDX : Z := 32.
Definition EIGHT_MASK : Z := 0xFFC00000.
Definition EIGHT_S : Z := 22.
Definition USER_PROG : Z := 0x8048000.
Definition TERMINAL_FILE_FLAGS : Z := 0x7.
Definition FD_SIZE : Z := 7.
Definition USER_CS : Z := 0x23.
Definition USER_DS : Z := 0x2B.
Definition KERNEL_DS : Z := 0x18.

(** [int8_t elf_text[4]] *)
Definition elf_text : list Z := [0x7F; 69; 76; 70].

(** The interrupts a blocking call sees: scan codes and clock ticks. *)
Record schedule := mkSched { sc_keys : list (list Z); sc_ticks : list bool }.

(** Addresses of the local objects of the handlers, and of [elf_text]. *)
Record locals := mkLocals {
  l_file_name : Z;      (* uint8_t file_name[33] *)
  l_dentry : Z;         (* dentry_t dentry *)
  l_header : Z;         (* uint8_t header[32] *)
  l_new_pcb : Z;        (* pcb_t new_pcb *)
  l_elf_text : Z;       (* int8_t elf_text[4], a global *)
  l_ebp : Z             (* the frame pointer of sys_execute_c *)
}.

(** Runs a file-system operation on the memory of the kernel. *)
Definition on_mem (f : mem -> Z * mem) (s : kst) : Z * kst :=
  let '(r, m) := f (k_mem s) in (r, set_k_mem m s).

Section Calls.
Context `{Ports} `{Layout}.

(** ** The operation tables *)

Inductive ops := RtcOps | DirOps | FileOps | TermOps.

Definition ops_at (ptr : Z) : option ops :=
  if ptr =? rtc_table then Some RtcOps
  else if ptr =? dir_table then Some DirOps
  else if ptr =? file_table then Some FileOps
  else if ptr =? terminal_table then Some TermOps
  else None.

Definition open_ptr (o : ops) (filename : Z) (s : kst) : Z * kst :=
  match o with
  | RtcOps => rtc_open filename s
  | DirOps => on_mem (dir_open (k_fs s) (cur_pcb s) filename) s
  | FileOps => on_mem (file_open (k_fs s) (cur_pcb s) filename) s
  | TermOps => terminal_open filename s
  end.

Definition close_ptr (o : ops) (fd : Z) (s : kst) : Z * kst :=
  match o with
  | RtcOps => rtc_close fd s
  | DirOps => on_mem (dir_close (cur_pcb s) fd) s
  | FileOps => on_mem (file_close (cur_pcb s) fd) s
  | TermOps => terminal_close fd s
  end.

Definition read_ptr (o : ops) (sc : schedule) (fd buf nbytes : Z) (s : kst) : option (Z * kst) :=
  match o with
  | RtcOps => rtc_read (sc_ticks sc) s
  | DirOps => Some (on_mem (dir_read (k_fs s) (cur_pcb s) fd buf nbytes) s)
  | FileOps => Some (on_mem (file_read (k_fs s) (cur_pcb s) fd buf nbytes) s)
  | TermOps => terminal_read (sc_keys sc) fd buf nbytes s
  end.

Definition write_ptr (o : ops) (fd buf nbytes : Z) (s : kst) : Z * kst :=
  match o with
  | RtcOps => rtc_write fd buf nbytes s
  | DirOps => on_mem (dir_write fd buf nbytes) s
  | FileOps => on_mem (file_write fd buf nbytes) s
  | TermOps => terminal_write fd buf nbytes s
  end.

(** [(cur_pcb->file_array)[fd].file_op_ptr] *)
Definition fd_ops (fd : Z) (s : kst) : option ops :=
  ops_at (fd_get (k_mem s) (cur_pcb s) fd FD_OPS).

Definition fd_open (fd : Z) (s : kst) : bool := fd_used (k_mem s) (cur_pcb s) fd.

(** ** Halt *)

(** The loop that closes every descriptor in use. *)
Fixpoint close_all (fuel : nat) (fd : Z) (s : kst) : option kst :=
  match fuel with
  | O => Some s
  | S f =>
      if fd_open fd s then
        match fd_ops fd s with
        | None => None
        | Some o => close_all f (fd + 1) (snd (close_ptr o fd s))
        end
      else close_all f (fd + 1) s
  end.

(** [program_page->page_base_addr = base; lpdt(ret_dir_ptr());] *)
Definition switch_page (page base : Z) (s : kst) : kst :=
  let s := upd_mem (fun m => store32 m page (set_field 10 22 base (load32 m page))) s in
  lpdt (ret_dir_ptr s) s.

(** The result is the value returned, the frame pointer it is returned through
    and the state. *)
Definition sys_halt_c (status : Z) (s : kst) : option (Z * Z * kst) :=
  if process_number s <=? 0 then Some (-1, 0, s) else
  let s := set_process_number (u32 (process_number s - 1)) s in
  let page := get_bigPage PRO_IDX s in
  if page =? 0 then Some (-1, 0, s) else
  match close_all 8 0 s with
  | None => None
  | Some s =>
      let pcb := cur_pcb s in
      let s := upd_cpu (set_tss_esp0 (load32 (k_mem s) (pcb + PCB_OLD_ESP0))) s in
      let s := switch_page page (load32 (k_mem s) (pcb + PCB_OLD_PHYS)) s in
      let ebp := load32 (k_mem s) (pcb + PCB_OLD_EBP) in
      let s := set_cur_pcb (load32 (k_mem s) (pcb + PCB_OLD_PCB)) s in
      Some (Z.land 0xFF (u8 status), ebp, s)
  end.

(** ** Execute *)

(** The loop that copies the first word of the command; the final [idx]. *)
Fixpoint copy_word (fuel : nat) (file_name command idx : Z) (m : mem) : Z * mem :=
  match fuel with
  | O => (idx, m)
  | S f =>
      let c := load8 m (command + idx) in
      if (c =? 32) || (c =? 0) || (c =? 10) then (idx, m)
      else copy_word f file_name command (idx + 1) (store8 m (file_name + idx) c)
  end.

(** How [sys_execute_c] ends. *)
Inductive exec_result :=
| ExecFail (s : kst)                            (* returns -1 *)
| ExecEnter (eip esp cs ds : Z) (s : kst)       (* iret into the program *)
| ExecHang.                                     (* strcpy does not end *)

(** [new_pcb.file_array[fd] = { &terminal_table, 0, 0, TERMINAL_FILE_FLAGS }] *)
Definition std_fd (pcb fd : Z) (m : mem) : mem :=
  let m := fd_set m pcb fd FD_OPS terminal_table in
  let m := fd_set m pcb fd FD_INODE 0 in
  let m := fd_set m pcb fd FD_POS 0 in
  fd_set m pcb fd FD_FLAGS TERMINAL_FILE_FLAGS.

(** [new_pcb.file_array[fd] = clear_fd] *)
Definition clear_fd (pcb fd : Z) (m : mem) : mem :=
  let m := fd_set m pcb fd FD_OPS 0 in
  let m := fd_set m pcb fd FD_INODE 0 in
  let m := fd_set m pcb fd FD_POS 0 in
  fd_set m pcb fd FD_FLAGS 0.

(** The assignment of a whole control block. *)
Definition copy_pcb (dst src : Z) (m : mem) : mem := store_list m dst (bytes m src (Z.to_nat PCB_SIZE)).

(** The header checks: the file is a regular file that starts with the ELF
    magic.  Returns the inode, or [None] where the code returns -1. *)
Definition find_program (l : locals) (command : Z) (s : kst) : option Z * kst :=
  let '(idx, m) := copy_word 33 (l_file_name l) command 0 (k_mem s) in
  let m := store8 m (l_file_name l + idx) 0 in
  let '(r, m) := read_dentry_by_name (k_fs s) (l_file_name l) (l_dentry l) m in
  if r =? -1 then (None, set_k_mem m s) else
  if negb (load32 m (l_dentry l + DE_FILETYPE) =? REG_FILE) then (None, set_k_mem m s) else
  let inode := load32 m (l_dentry l + DE_INODE) in
  let '(r, m) := read_data (k_fs s) (cur_pcb s) inode 0 (l_header l) 32 (-1) m in
  if r =? -1 then (None, set_k_mem m s) else
  if negb (strncmp m (l_elf_text l) (l_header l) 4 =? 0) then (None, set_k_mem m s) else
  (Some inode, set_k_mem m s).

(** The new control block on the stack, after the command line and the page base. *)
Definition build_pcb (p : Z) (s : kst) : kst :=
  let s := upd_mem (fun m => std_fd p 1 (std_fd p 0 m)) s in
  let s := snd (terminal_open 0 s) in
  let s := upd_mem (for_range 2 8 (clear_fd p)) s in
  let s := upd_mem (fun m => store32 m (p + PCB_OLD_PCB) (cur_pcb s)) s in
  upd_mem (fun m => store32 m (p + PCB_OLD_ESP0) (tss_esp0 (k_cpu s))) s.

(** [EIGHT_MB - process_number*EIGHT_KB - EIGHT_KB] *)
Definition pcb_address (n : Z) : Z := u32 (EIGHT_MB - n * EIGHT_KB - EIGHT_KB).

Definition program_frame (n : Z) : Z :=
  Z.shiftr (Z.land (u32 (EIGHT_MB + n * FOUR_MB)) EIGHT_MASK) EIGHT_S.

(** The page base is saved, the program page moved to the frame of the new process
    and the file copied into it. *)
Definition load_program (l : locals) (inode page : Z) (s : kst) : kst :=
  let s := upd_mem (fun m => store32 m (l_new_pcb l + PCB_OLD_PHYS) (PG_BIG_BASE (load32 m page))) s in
  let s := switch_page page (program_frame (process_number s)) s in
  snd (on_mem (read_data (k_fs s) (cur_pcb s) inode 0 USER_PROG FOUR_MB (-1)) s).

(** The control block is copied to its place and becomes the current one. *)
Definition install_pcb (l : locals) (s : kst) : kst :=
  let pcb := pcb_address (process_number s) in
  let s := upd_mem (copy_pcb pcb (l_new_pcb l)) s in
  let s := set_cur_pcb pcb s in
  set_process_number (u32 (process_number s + 1)) s.

(** The entry point in bytes 24 to 27 of the ELF header. *)
Definition entry_point (l : locals) (m : mem) : Z :=
  let h := fun i => load8 m (l_header l + i) in
  u32 (h 24 + Z.shiftl (h 25) 8 + Z.shiftl (h 26) 16 + Z.shiftl (h 27) 24).

Definition sys_execute_c (l : locals) (command : Z) (s : kst) : exec_result :=
  if 6 <=? process_number s then ExecFail s else
  match find_program l command s with
  | (None, s) => ExecFail s
  | (Some inode, s) =>
      match strcpy (k_mem s) (l_new_pcb l + PCB_INPUT) command with
      | None => ExecHang
      | Some m =>
          let s := set_k_mem m s in
          let page := get_bigPage PRO_IDX s in
          if page =? 0 then ExecFail s else
          let s := load_program l inode page s in
          let s := build_pcb (l_new_pcb l) s in
          let s := install_pcb l s in
          let cs := USER_CS in
          let ds := if Z.land cs 3 =? 0 then KERNEL_DS else USER_DS in
          let eip := entry_point l (k_mem s) in
          let esp := Z.lor USER_PROG (FOUR_MB - 4) in
          let s := upd_cpu (set_tss_esp0 (u32 (EIGHT_MB - process_number s * EIGHT_KB))) s in
          let s := upd_mem (fun m => store32 m (cur_pcb s + PCB_OLD_EBP) (l_ebp l)) s in
          ExecEnter eip esp cs ds s
      end
  end.

(** ** Files *)

Definition sys_read_c (sc : schedule) (fd buf nbytes : Z) (s : kst) : option (Z * kst) :=
  if (fd <? 0) || (FD_SIZE <? fd) then Some (-1, s) else
  if buf =? 0 then Some (-1, s) else
  if nbytes <? 0 then Some (-1, s) else
  if negb (fd_open fd s) then Some (-1, s) else
  match fd_ops fd s with
  | None => None
  | Some o => read_ptr o sc fd buf nbytes s
  end.

Definition sys_write_c (fd buf nbytes : Z) (s : kst) : option (Z * kst) :=
  if (fd <? 0) || (FD_SIZE <? fd) then Some (-1, s) else
  if buf =? 0 then Some (-1, s) else
  if nbytes <? 0 then Some (-1, s) else
  if negb (fd_open fd s) then Some (-1, s) else
  match fd_ops fd s with
  | None => None
  | Some o => Some (write_ptr o fd buf nbytes s)
  end.

(** The table chosen by the type of a directory entry. *)
Definition ops_of_type (filetype : Z) : ops * Z :=
  if filetype =? RTC_FILE then (RtcOps, rtc_table)
  else if filetype =? DIR_FILE then (DirOps, dir_table)
  else if filetype =? REG_FILE then (FileOps, file_table)
  else (TermOps, terminal_table).

Definition sys_open_c (dentry filename : Z) (s : kst) : Z * kst :=
  if filename =? 0 then (-1, s) else
  let '(r, s) := on_mem (read_dentry_by_name (k_fs s) filename dentry) s in
  if r =? -1 then (-1, s) else
  let i := find_fd (k_mem s) (cur_pcb s) in
  if 8 <=? i then (-1, s) else
  let '(o, table) := ops_of_type (load32 (k_mem s) (dentry + DE_FILETYPE)) in
  let s := upd_mem (fun m => fd_set m (cur_pcb s) i FD_OPS table) s in
  let '(_, s) := open_ptr o filename s in
  (i, s).

Definition sys_close_c (fd : Z) (s : kst) : option (Z * kst) :=
  if (fd <? 2) || (FD_SIZE <? fd) then Some (-1, s) else
  if negb (fd_open fd s) then Some (-1, s) else
  match fd_ops fd s with
  | None => None
  | Some o => Some (close_ptr o fd s)
  end.

(** ** Arguments, video memory, signals *)

(** [while (input[in_idx] != ' ') in_idx++;] *)
Fixpoint find_space (fuel : nat) (m : mem) (input in_idx : Z) : option Z :=
  match fuel with
  | O => None
  | S f => if load8 m (input + in_idx) =? 32 then Some in_idx
           else find_space f m input (u32 (in_idx + 1))
  end.

(** The copy loop: [idx < nbytes - in_idx] is an unsigned comparison; the final
    [idx]. *)
Fixpoint copy_args (fuel : nat) (m : mem) (input buf nbytes idx in_idx : Z) : option (Z * mem) :=
  match fuel with
  | O => None
  | S f =>
      if idx <? u32 (nbytes - in_idx) then
        let m := store8 m (buf + idx) (load8 m (input + in_idx)) in
        if load8 m (buf + idx) =? 0 then Some (idx, m)
        else copy_args f m input buf nbytes (u32 (idx + 1)) (u32 (in_idx + 1))
      else Some (idx, m)
  end.

(** [None]: one of the loops has not ended after [fuel] turns. *)
Definition sys_getargs_c (fuel : nat) (buf nbytes : Z) (s : kst) : option (Z * kst) :=
  let input := cur_pcb s + PCB_INPUT in
  match find_space fuel (k_mem s) input 0 with
  | None => None
  | Some in_idx =>
      match copy_args fuel (k_mem s) input buf nbytes 0 (u32 (in_idx + 1)) with
      | None => None
      | Some (idx, m) => Some (if idx =? 0 then -1 else 0, set_k_mem m s)
      end
  end.

Definition sys_vidmap_c (screen_start : Z) (s : kst) : Z * kst :=
  if (screen_start =? 0) || (screen_start <=? FOUR_MB) then (-1, s) else
  if get_pageTable_entry USER_VMEM (Z.shiftr VID_ADDR 12) s =? 0 then (-1, s) else
  (0, upd_mem (fun m => store32 m screen_start (Z.lor (Z.shiftl USER_VMEM 22) VID_ADDR)) s).

Definition sys_set_handler_c (signum handler_address : Z) (s : kst) : Z * kst := (-1, s).
Definition sys_sigreturn_c (s : kst) : Z * kst := (-1, s).
End Calls.
