(* ===== verification/Process.v ===== *)
(** * Processes: execute and halt

    [sys_execute_c] saves what the parent needs in the new control block and
    [sys_halt_c] puts it back.  The frames below follow the bytes of every frame
    of the program page, so they also say that a process does not disturb the
    program page of another one. *)

From S2P Require Import Prelude Mem CString State Console I8259 Pcb Rtc Filesys FilesysRead FilesysDir Keyboard Paging Syscalls.

#[local] Arguments strlen : simpl never.
#[local] Arguments strncpy : simpl never.

(** ** Frames across a change of the program page *)

(** [m'] differs from [m] at most at the pairs of frame and address in [P]. *)
Definition framed (P : Z -> Z -> Prop) (m m' : mem) : Prop :=
  forall p a, ~ P p a -> byte_at m' p a = byte_at m p a.

(** Kernel addresses in [K], and the program page of frame [f]. *)
Definition touches (K : Z -> Prop) (f : Z) (p a : Z) : Prop :=
  if in_window a then p = f else K a.

Lemma framed_refl P m : framed P m m.
Proof. intros p a _. reflexivity. Qed.

Lemma framed_trans P m1 m2 m3 : framed P m1 m2 -> framed P m2 m3 -> framed P m1 m3.
Proof. intros H1 H2 p a Hp. now rewrite H2, H1. Qed.

Lemma framed_weaken (P Q : Z -> Z -> Prop) m m' :
  (forall p a, P p a -> Q p a) -> framed P m m' -> framed Q m m'.
Proof. intros HPQ H p a Hq. apply H. auto. Qed.

Lemma framed_set_tlb P p m : framed P m (set_tlb p m).
Proof. intros q a _. reflexivity. Qed.

(** An operation that stays in [K] touches the program page of the current
    process at most. *)
Lemma unchanged_framed (K : Z -> Prop) f m m' :
  unchanged K m m' -> tlb m = f -> framed (touches K f) m m'.
Proof.
  intros [_ U] <- p a Hn. apply U. unfold touches in Hn.
  destruct (in_window a) eqn:W; [left; split; [done|exact Hn]|right; exact Hn].
Qed.

(** An operation on kernel addresses only. *)
Lemma unchanged_framed_kernel (K : Z -> Prop) f m m' :
  unchanged K m m' -> (forall a, K a -> in_window a = false) -> framed (touches K f) m m'.
Proof.
  intros [_ U] HK p a Hn. apply U. unfold touches in Hn.
  destruct (in_window a) eqn:W; right; [|exact Hn]. intros Ka. apply HK in Ka. congruence.
Qed.

Lemma framed_load8 K f m m' a :
  framed (touches K f) m m' -> in_window a = false -> ~ K a -> load8 m' a = load8 m a.
Proof.
  intros H W Ha. unfold load8, byte_at. rewrite W.
  specialize (H 0 a). unfold touches, byte_at in H. rewrite W in H. by apply H.
Qed.

Definition kernel_range (a n : Z) : Prop := forall b, in_range a n b -> in_window b = false.

Lemma framed_load32 K f m m' a :
  framed (touches K f) m m' -> kernel_range a 4 -> (forall b, in_range a 4 b -> ~ K b) ->
  load32 m' a = load32 m a.
Proof.
  intros H W Ha. unfold load32.
  rewrite !(framed_load8 K f m m') by (done || (apply W || apply Ha); unfold in_range; lia). done.
Qed.

Lemma low_kernel a n : a + n <= PROG_LO -> kernel_range a n.
Proof.
  intros Ha b Hb. unfold in_window, in_range in *. apply andb_false_iff. left. apply Z.leb_gt. lia.
Qed.

(** ** The memory the parts of execute write *)

Lemma rd_loop_frame fs inode buf length size fuel : forall it o c m,
  0 <= it -> length < 4294967296 ->
  match rd_loop fuel fs inode buf length size it o c m with
  | RdShort it' m' => unchanged (in_range buf length) m m'
  | RdFull it' _ m' => 0 <= it' /\ unchanged (in_range buf length) m m'
  end.
Proof.
  induction fuel as [|f IH]; intros it o c m Hit Hl; cbn [rd_loop];
    [split; [done|apply unchanged_refl]|].
  destruct (Z.ltb_spec it length); [|split; [done|apply unchanged_refl]].
  assert (Hs : forall v, unchanged (in_range buf length) m (store8 m (buf + it) v))
    by (intros; apply unchanged_store8; unfold in_range; lia).
  destruct (size <=? o); [apply Hs|].
  destruct (locate fs m inode o c) as [c'|]; [|apply Hs].
  set (m1 := store8 m (buf + it) (load8 m (rd_byte c'))).
  rewrite (u32_small (it + 1)) by lia.
  specialize (IH (it + 1) (u32 (o + 1)) (mkCursor (rd_idx c') (rd_dnode c') (rd_byte c' + 1)) m1
    ltac:(lia) Hl).
  destruct (rd_loop f _ _ _ _ _ _ _ _ _).
  - eapply unchanged_trans; [apply Hs|exact IH].
  - destruct IH as [? IH]. split; [done|]. eapply unchanged_trans; [apply Hs|exact IH].
Qed.

(** Without a descriptor [read_data] writes the buffer only. *)
Lemma read_data_frame fs pcb inode offset buf length m :
  0 <= length < 4294967296 ->
  unchanged (in_range buf length) m (read_data fs pcb inode offset buf length (-1) m).2.
Proof.
  intros Hl. unfold read_data.
  repeat (split_if; [apply unchanged_refl|]).
  cbn [Z.eqb Pos.eqb negb].
  repeat (split_if; [apply unchanged_refl|]).
  match goal with |- context [rd_loop ?f ?fs ?i ?b ?l ?sz ?it ?o ?c ?m] =>
    pose proof (rd_loop_frame fs i b l sz f it o c m ltac:(lia) ltac:(lia)) as Hf;
    destruct (rd_loop f fs i b l sz it o c m) as [it' m'|it' idx m'] end.
  - exact Hf.
  - destruct Hf as [H0' Hf]. cbn [snd]. destruct (Z.ltb_spec it' length); [|exact Hf].
    eapply unchanged_trans; [exact Hf|]. apply unchanged_store8. unfold in_range. lia.
Qed.

Lemma copy_word_spec file_name command fuel : forall idx m,
  0 <= idx ->
  let '(idx', m') := copy_word fuel file_name command idx m in
  idx <= idx' <= idx + Z.of_nat fuel /\
  unchanged (in_range (file_name + idx) (idx' - idx)) m m'.
Proof.
  induction fuel as [|f IH]; intros idx m Hi; cbn [copy_word].
  { split; [lia|apply unchanged_refl]. }
  destruct (_ || _ || _); [split; [lia|apply unchanged_refl]|].
  specialize (IH (idx + 1) (store8 m (file_name + idx) (load8 m (command + idx))) ltac:(lia)).
  destruct (copy_word f _ _ _ _) as [idx' m']. destruct IH as [Hr U]. split; [lia|].
  eapply unchanged_trans; [|eapply unchanged_weaken; [|exact U]; unfold in_range; lia].
  apply unchanged_store8. unfold in_range. lia.
Qed.

Lemma strlen_le m a k : 0 <= k -> load8 m (a + k) = 0 -> strlen m a <= k.
Proof.
  intros Hk Hz. destruct (strlen_spec m a) as (_ & _ & Hnz).
  destruct (Z.le_gt_cases (strlen m a) k); [done|]. exfalso. by apply (Hnz k); [lia|].
Qed.

(** A lookup writes the scratch name, the global entry and its destination. *)
Lemma read_dentry_by_name_frame `{Layout} fs fname dentry m :
  dir_ok fs m -> rdisj scratch (boot_region fs) ->
  (strlen m fname <= 32 -> rdisj (fname, strlen m fname + 1) scratch) ->
  rdisj (dentry_region open_dentry) (boot_region fs) ->
  rdisj (dentry_region dentry) (boot_region fs) -> rdisj scratch (dentry_region open_dentry) ->
  unchanged (lookup_frame dentry) m (read_dentry_by_name fs fname dentry m).2.
Proof.
  intros Hdir H1 H2 H3 H4 H5.
  destruct (decide (fname = 0 \/ dentry = 0 \/ 32 < strlen m fname)) as [Hbad|Hgood].
  - unfold read_dentry_by_name.
    destruct ((fname =? 0) || (dentry =? 0) || (filesys_ptr fs =? 0)) eqn:E; [apply unchanged_refl|].
    replace (NAME_LEN <? strlen m fname) with true; [apply unchanged_refl|].
    unfold NAME_LEN. symmetry. apply Z.ltb_lt. lia.
  - pose proof (read_dentry_by_name_spec fs fname dentry m Hdir ltac:(lia) ltac:(lia) ltac:(lia)
      H1 (H2 ltac:(lia)) H3 H4 H5) as Hs.
    destruct (list_find _ _) as [[k x]|]; destruct Hs as (m' & -> & Hs).
    + apply Hs.
    + eapply unchanged_weaken; [|exact Hs]. by left.
Qed.

(** ** Switching the program page *)

Lemma ret_dir_ptr_cpu s s' : k_cpu s = k_cpu s' -> ret_dir_ptr s = ret_dir_ptr s'.
Proof. unfold ret_dir_ptr. now intros ->. Qed.

Lemma ret_dir_ptr_cr3 s s' : cr3 (k_cpu s) = cr3 (k_cpu s') -> ret_dir_ptr s = ret_dir_ptr s'.
Proof. unfold ret_dir_ptr. now intros ->. Qed.

Lemma ret_dir_ptr_reload s : ret_dir_ptr (lpdt (ret_dir_ptr s) s) = ret_dir_ptr s.
Proof.
  unfold ret_dir_ptr, lpdt. cbn [k_cpu upd_mem set_k_mem upd_cpu set_k_cpu set_cr3 cr3].
  rewrite Z.land_lor_distr_l, <- !Z.land_assoc. change (Z.land 0xFFF 0xFFFFF000) with 0.
  change (Z.land 0xFFFFF000 0xFFFFF000) with 0xFFFFF000.
  change (Z.land 0xFFFFF000 0xFFFFF000) with 0xFFFFF000. now rewrite Z.land_0_r, Z.lor_0_r.
Qed.

(** The directory entry gets the new base, the program page follows it, and no
    byte of any frame changes. *)
Lemma switch_page_spec page base s :
  page = ret_dir_ptr s + 4 * PRO_IDX -> 0 <= base < 1024 -> 0 <= page -> page + 4 <= PROG_LO ->
  let s' := switch_page page base s in
  let e := set_field 10 22 base (load32 (k_mem s) page) in
  load32 (k_mem s') page = e /\ tlb (k_mem s') = base /\ ret_dir_ptr s' = ret_dir_ptr s /\
  (forall f, framed (touches (in_range page 4) f) (k_mem s) (k_mem s')) /\
  tss_esp0 (k_cpu s') = tss_esp0 (k_cpu s) /\
  s' = set_k_cpu (k_cpu s') (set_k_mem (k_mem s') s).
Proof.
  intros Hp Hb H0 Hlow s' e. pose proof (load32_range (k_mem s) page) as Hr.
  destruct (set_big_base base (load32 (k_mem s) page) Hb Hr) as (He & Hbase & _). fold e in He, Hbase.
  set (m1 := store32 (k_mem s) page e).
  assert (El : load32 m1 page = e) by (unfold m1; rewrite load32_store32_eq; by apply u32_small).
  set (s1 := upd_mem (fun m => store32 m page (set_field 10 22 base (load32 m page))) s).
  assert (Hd : ret_dir_ptr s' = ret_dir_ptr s) by exact (ret_dir_ptr_reload s1).
  assert (Em : k_mem s' = set_tlb base m1).
  { assert (E' : k_mem s' = set_tlb (PG_BIG_BASE (load32 m1 (ret_dir_ptr s' + 4 * PRO_ADDR))) m1)
      by reflexivity.
    rewrite E', Hd. change PRO_ADDR with PRO_IDX. rewrite <- Hp, El, Hbase. reflexivity. }
  rewrite Em. split; [rewrite load32_set_tlb by done; exact El|]. split; [reflexivity|].
  split; [exact Hd|]. split; [|split; [reflexivity|rewrite <- Em; reflexivity]].
  intros f. eapply framed_trans; [|apply framed_set_tlb].
  apply unchanged_framed_kernel; [apply unchanged_store32; done|].
  intros a Ha. apply (low_kernel page 4 Hlow a Ha).
Qed.

(** Regions that do not overlap pairwise. *)
Fixpoint apart_from (r : region) (rs : list region) : Prop :=
  match rs with
  | [] => True
  | r' :: rs' => rdisj r r' /\ apart_from r rs'
  end.
Fixpoint apart (rs : list region) : Prop :=
  match rs with
  | [] => True
  | r :: rs' => apart_from r rs' /\ apart rs'
  end.

Section Execute.
Context `{Layout} (l : locals) (command : Z) (s : kst).

(** The entry of the program page in the directory. *)
Definition page_entry : Z := ret_dir_ptr s + 4 * PRO_IDX.

(** The kernel objects [sys_execute_c] works with. *)
Definition exec_objects : list region :=
  [(l_file_name l, 34); scratch; dentry_region open_dentry; dentry_region (l_dentry l);
   (l_header l, 32); (l_new_pcb l, PCB_SIZE); (page_entry, 4);
   (pcb_address (process_number s), PCB_SIZE)].

Record exec_layout : Prop := {
  xl_dir : dir_ok (k_fs s) (k_mem s);
  xl_apart : apart ((command, strlen (k_mem s) command + 1) :: image (k_fs s) :: exec_objects);
  xl_image : image_ok (k_fs s);
  xl_low : Forall (fun r => 0 < r.1 /\ r.1 + r.2 <= EIGHT_MB) exec_objects;
  xl_command : strlen (k_mem s) command < 1024
}.

Context (XL : exec_layout).

(** What the search for the program may write. *)
Definition search_frame (a : Z) : Prop :=
  in_range (l_file_name l) 34 a \/ lookup_frame (l_dentry l) a \/ in_range (l_header l) 32 a.

Lemma boot_apart r : rdisj (image (k_fs s)) r -> rdisj r (boot_region (k_fs s)).
Proof using XL.
  intros Hr. apply rdisj_boot; [apply (xl_image XL)|]. unfold rdisj, disj in *. lia.
Qed.

Lemma find_program_frame :
  let '(r, s') := find_program l command s in
  s' = set_k_mem (k_mem s') s /\ unchanged search_frame (k_mem s) (k_mem s').
Proof using XL.
  pose proof (xl_apart XL) as HA. unfold exec_objects in HA. cbn [apart apart_from] in HA.
  destruct HA as (_ & (I1 & I2 & I3 & I4 & I5 & _) & (F1 & _) & (S1 & _) & _).
  unfold find_program.
  pose proof (copy_word_spec (l_file_name l) command 33 0 (k_mem s) ltac:(lia)) as Hcw.
  destruct (copy_word 33 _ _ _ _) as [idx m1]. destruct Hcw as [Hidx U1].
  set (m2 := store8 m1 (l_file_name l + idx) 0).
  assert (U2 : unchanged (in_range (l_file_name l) 34) (k_mem s) m2).
  { eapply unchanged_trans; [eapply unchanged_weaken; [|exact U1]|apply unchanged_store8];
      unfold in_range; lia. }
  assert (Hd2 : dir_ok (k_fs s) m2).
  { eapply dir_ok_unchanged; [apply (xl_dir XL)|exact U2|].
    intros a Ha. pose proof (boot_apart _ I1) as Hb.
    unfold rdisj, disj, in_region, in_range in *. cbn [fst snd] in *. lia. }
  assert (Hlen : strlen m2 (l_file_name l) <= idx)
    by (apply strlen_le; [lia|apply load8_store8_eq]).
  pose proof (read_dentry_by_name_frame (k_fs s) (l_file_name l) (l_dentry l) m2 Hd2
    (boot_apart _ I2)) as U3.
  assert (Hfs : strlen m2 (l_file_name l) <= 32 ->
    rdisj (l_file_name l, strlen m2 (l_file_name l) + 1) scratch).
  { intros _. unfold rdisj, disj, scratch in *. cbn [fst snd] in *. lia. }
  specialize (U3 Hfs (boot_apart _ I3) (boot_apart _ I4) S1).
  destruct (read_dentry_by_name _ _ _ m2) as [r m3]. cbn [snd] in U3.
  assert (U13 : unchanged search_frame (k_mem s) m3).
  { eapply unchanged_trans; (eapply unchanged_weaken; [|eassumption]); unfold search_frame; tauto. }
  destruct (r =? -1); [done|]. destruct (negb _); [done|].
  pose proof (read_data_frame (k_fs s) (cur_pcb s) (load32 m3 (l_dentry l + DE_INODE)) 0
    (l_header l) 32 m3 ltac:(lia)) as U4.
  destruct (read_data _ _ _ _ _ _ _ m3) as [r4 m4]. cbn [snd] in U4.
  assert (U14 : unchanged search_frame (k_mem s) m4).
  { eapply unchanged_trans; [exact U13|]. eapply unchanged_weaken; [|exact U4]. unfold search_frame. tauto. }
  destruct (r4 =? -1); [done|]. destruct (negb _); done.
Qed.

(** ** Loading the program *)

Lemma program_frame_eq n : 0 <= n < 6 -> program_frame n = n + 2.
Proof using Type.
  intros Hn. assert (n = 0 \/ n = 1 \/ n = 2 \/ n = 3 \/ n = 4 \/ n = 5)
    as [->|[->|[->|[->|[->| ->]]]]] by lia; reflexivity.
Qed.

Lemma pcb_address_eq n : 0 <= n < 6 -> pcb_address n = 0x800000 - 0x2000 * (n + 1).
Proof using Type.
  intros Hn. unfold pcb_address, EIGHT_MB, EIGHT_KB. rewrite u32_small; lia.
Qed.
End Execute.

Lemma load_program_steps l inode page s :
  load_program l inode page s =
  let s1 := upd_mem (fun m => store32 m (l_new_pcb l + PCB_OLD_PHYS) (PG_BIG_BASE (load32 m page))) s in
  let s2 := switch_page page (program_frame (process_number s)) s1 in
  set_k_mem (read_data (k_fs s2) (cur_pcb s2) inode 0 USER_PROG FOUR_MB (-1) (k_mem s2)).2 s2.
Proof.
  unfold load_program, on_mem. cbv zeta.
  change (process_number (upd_mem ?f s)) with (process_number s).
  destruct (read_data _ _ _ _ _ _ _ _). reflexivity.
Qed.

(** What loading a program leaves behind: the saved base, the new base, and bytes
    changed in the saved word, the entry and the page of the new process only. *)
Definition load_frame (l : locals) (page a : Z) : Prop :=
  in_range (l_new_pcb l + PCB_OLD_PHYS) 4 a \/ in_range page 4 a \/ EIGHT_MB <= a.

Definition loaded (l : locals) (page : Z) (s s' : kst) : Prop :=
  let n := process_number s in
  load32 (k_mem s') (l_new_pcb l + PCB_OLD_PHYS) = PG_BIG_BASE (load32 (k_mem s) page) /\
  load32 (k_mem s') page = set_field 10 22 (n + 2) (load32 (k_mem s) page) /\
  tlb (k_mem s') = n + 2 /\ framed (touches (load_frame l page) (n + 2)) (k_mem s) (k_mem s') /\
  ret_dir_ptr s' = ret_dir_ptr s /\ tss_esp0 (k_cpu s') = tss_esp0 (k_cpu s) /\
  s' = set_k_cpu (k_cpu s') (set_k_mem (k_mem s') s).

Section Load.
Context (l : locals) (page : Z) (s : kst).
Context (Hp : page = ret_dir_ptr s + 4 * PRO_IDX) (H0 : 0 <= page) (Hlow : page + 4 <= PROG_LO).
Context (Hn : 0 <= process_number s < 6).
Context (Hq0 : 0 <= l_new_pcb l) (Hq : l_new_pcb l + PCB_SIZE <= EIGHT_MB).
Context (Hd : rdisj (l_new_pcb l, PCB_SIZE) (page, 4)).

Lemma loaded_intro s2 m3 :
  let q := l_new_pcb l + PCB_OLD_PHYS in
  let m1 := store32 (k_mem s) q (PG_BIG_BASE (load32 (k_mem s) page)) in
  let n := process_number s in
  load32 (k_mem s2) page = set_field 10 22 (n + 2) (load32 m1 page) ->
  tlb (k_mem s2) = n + 2 -> ret_dir_ptr s2 = ret_dir_ptr s ->
  (forall f, framed (touches (in_range page 4) f) m1 (k_mem s2)) ->
  tss_esp0 (k_cpu s2) = tss_esp0 (k_cpu s) -> s2 = set_k_cpu (k_cpu s2) (set_k_mem (k_mem s2) s) ->
  unchanged (in_range USER_PROG FOUR_MB) (k_mem s2) m3 -> loaded l page s (set_k_mem m3 s2).
Proof using H0 Hlow Hn Hq0 Hq Hd.
  intros q m1 n E2 T2 D2 F2 C2 S2 U3.
  unfold rdisj, disj, PCB_SIZE, EIGHT_MB in Hq, Hd. cbn [fst snd] in Hd.
  assert (Hqv : q = l_new_pcb l + 1156) by reflexivity.
  assert (U1 : unchanged (in_range q 4) (k_mem s) m1)
    by (apply unchanged_store32; unfold in_range; lia).
  assert (Ep1 : load32 m1 page = load32 (k_mem s) page)
    by (eapply unchanged_load32; [exact U1|]; unfold in_range; lia).
  assert (Eq1 : load32 m1 q = PG_BIG_BASE (load32 (k_mem s) page)).
  { unfold m1. rewrite load32_store32_eq. apply u32_small.
    unfold PG_BIG_BASE, get_field. change (2 ^ 10) with 1024. zdm. }
  rewrite Ep1 in E2.
  assert (Hup : forall a, in_range USER_PROG FOUR_MB a -> 0x8048000 <= a)
    by (unfold in_range, USER_PROG; lia).
  assert (Lq : forall a, a + 4 <= PROG_LO -> load32 m3 a = load32 (k_mem s2) a).
  { intros a Ha. eapply unchanged_load32; [exact U3|]. intros b Hb Hin. apply Hup in Hin.
    unfold in_range, PROG_LO in *. lia. }
  split; [|split; [|split; [|split; [|split; [|split]]]]].
  - change (load32 m3 q = PG_BIG_BASE (load32 (k_mem s) page)).
    rewrite Lq by (unfold PROG_LO; lia). rewrite <- Eq1.
    eapply framed_load32; [apply (F2 0)|apply low_kernel; unfold PROG_LO; lia|]. unfold in_range. lia.
  - change (load32 m3 page = set_field 10 22 (n + 2) (load32 (k_mem s) page)).
    rewrite Lq by done. exact E2.
  - change (tlb m3 = n + 2). destruct U3 as [-> _]. exact T2.
  - change (framed (touches (load_frame l page) (n + 2)) (k_mem s) m3).
    apply (framed_trans _ _ m1); [|apply (framed_trans _ _ (k_mem s2))].
    + eapply framed_weaken; [|apply (unchanged_framed_kernel _ (n + 2) _ _ U1)].
      * unfold touches, load_frame. fold q. intros p a. destruct (in_window a); tauto.
      * intros a Ha. apply (low_kernel q 4 ltac:(unfold PROG_LO; lia) a Ha).
    + eapply framed_weaken; [|apply (F2 (n + 2))].
      unfold touches, load_frame. intros p a. destruct (in_window a); tauto.
    + eapply framed_weaken; [|apply (unchanged_framed _ _ _ _ U3 T2)].
      unfold touches, load_frame, EIGHT_MB. intros p a. destruct (in_window a); [tauto|].
      intros Ha. apply Hup in Ha. right; right. lia.
  - rewrite <- D2. by apply ret_dir_ptr_cpu.
  - exact C2.
  - rewrite S2 at 1. reflexivity.
Qed.

Lemma load_program_spec inode : loaded l page s (load_program l inode page s).
Proof using Hp H0 Hlow Hn Hq0 Hq Hd.
  rewrite load_program_steps. cbv zeta. rewrite program_frame_eq by exact Hn.
  set (s1 := upd_mem _ s).
  destruct (switch_page_spec page (process_number s + 2) s1) as (E2 & T2 & D2 & F2 & C2 & S2);
    [rewrite (ret_dir_ptr_cpu s1 s) by reflexivity; exact Hp|lia|exact H0|exact Hlow|].
  rewrite (ret_dir_ptr_cpu s1 s) in D2 by reflexivity.
  set (s2 := switch_page page (process_number s + 2) s1) in *.
  apply loaded_intro; [exact E2|exact T2|exact D2|exact F2|exact C2| |].
  - rewrite S2 at 1. reflexivity.
  - apply read_data_frame. unfold FOUR_MB. lia.
Qed.
End Load.

(** ** The new control block *)

Lemma std_fd_spec `{Layout} p fd m :
  let m' := std_fd p fd m in
  fd_get m' p fd FD_FLAGS = 7 /\ fd_get m' p fd FD_OPS = u32 terminal_table /\
  unchanged (in_region (fd_region p fd)) m m'.
Proof.
  unfold std_fd. cbv zeta. split; [fd_simpl; reflexivity|]. split; [fd_simpl; reflexivity|]. fd_frame.
Qed.

Lemma clear_fd_spec p fd m :
  fd_get (clear_fd p fd m) p fd FD_FLAGS = 0 /\
  unchanged (in_region (fd_region p fd)) m (clear_fd p fd m).
Proof. unfold clear_fd. cbv zeta. split; [fd_simpl; reflexivity|]. fd_frame. Qed.

Lemma clear_fds_spec p m :
  let m' := for_range 2 8 (clear_fd p) m in
  unchanged (in_range (p + 32) 96) m m' /\
  forall j, 2 <= j < 8 -> fd_get m' p j FD_FLAGS = 0.
Proof.
  intros m'. assert (Hr : forall j, 2 <= j < 8 ->
    forall a, in_region (fd_region p j) a -> in_range (p + 32) 96 a).
  { intros j Hj a Ha. unfold in_region, in_range, fd_region in *. cbn [fst snd] in *. lia. }
  split.
  - apply unchanged_for_range. intros i mi Hi. eapply unchanged_weaken; [apply (Hr i Hi)|].
    apply clear_fd_spec.
  - intros j Hj. unfold m'.
    apply (for_range_ind (fun k mk => j < k -> fd_get mk p j FD_FLAGS = 0)); [lia|lia| |lia].
    intros i mi Hi IH Hlt. destruct (decide (i = j)) as [->|Hne]; [apply clear_fd_spec|].
    erewrite fd_get_unchanged; [apply IH; lia|apply (clear_fd_spec p i mi)|unfold FD_FLAGS; lia..|].
    unfold in_region, in_range, fd_region. cbn [fst snd]. lia.
Qed.

(** Standard input and output are open on the terminal, the other descriptors are
    free, and the parent is recorded. *)
Lemma build_pcb_spec `{Layout} p s :
  let s' := build_pcb p s in
  unchanged (fun a => in_range p 132 a \/ in_range (p + PCB_OLD_ESP0) 4 a) (k_mem s) (k_mem s') /\
  (forall j, 0 <= j < 8 -> fd_get (k_mem s') p j FD_FLAGS = if j <? 2 then 7 else 0) /\
  (forall j, 0 <= j < 2 -> fd_get (k_mem s') p j FD_OPS = u32 terminal_table) /\
  load32 (k_mem s') (p + PCB_OLD_PCB) = u32 (cur_pcb s) /\
  load32 (k_mem s') (p + PCB_OLD_ESP0) = u32 (tss_esp0 (k_cpu s)) /\
  k_cpu s' = k_cpu s /\ cur_pcb s' = cur_pcb s /\ process_number s' = process_number s /\
  k_fs s' = k_fs s.
Proof.
  intros s'. change PCB_OLD_ESP0 with 1160. change PCB_OLD_PCB with 128.
  set (m1 := std_fd p 0 (k_mem s)). set (m2 := std_fd p 1 m1).
  set (m3 := for_range 2 8 (clear_fd p) m2). set (m4 := store32 m3 (p + 128) (cur_pcb s)).
  set (m5 := store32 m4 (p + 1160) (tss_esp0 (k_cpu s))).
  assert (Em : k_mem s' = m5) by reflexivity. rewrite Em.
  destruct (std_fd_spec p 0 (k_mem s)) as (F0 & O0 & U0). fold m1 in F0, O0, U0.
  destruct (std_fd_spec p 1 m1) as (F1 & O1 & U1). fold m2 in F1, O1, U1.
  destruct (clear_fds_spec p m2) as (U2 & F2). fold m3 in F2, U2.
  assert (U3 : unchanged (in_range (p + 128) 4) m3 m4) by (apply unchanged_store32; unfold in_range; lia).
  assert (U4 : unchanged (in_range (p + 1160) 4) m4 m5) by (apply unchanged_store32; unfold in_range; lia).
  assert (G45 : forall j off, 0 <= j < 8 -> 0 <= off <= 12 -> fd_get m5 p j off = fd_get m3 p j off).
  { intros j off Hj Ho. transitivity (fd_get m4 p j off).
    - eapply fd_get_unchanged; [exact U4|lia|lia|].
      unfold in_region, in_range, fd_region. cbn [fst snd]. lia.
    - eapply fd_get_unchanged; [exact U3|lia|lia|].
      unfold in_region, in_range, fd_region. cbn [fst snd]. lia. }
  assert (G3 : forall j off, 0 <= j < 2 -> 0 <= off <= 12 -> fd_get m3 p j off = fd_get m2 p j off).
  { intros j off Hj Ho. eapply fd_get_unchanged; [exact U2|lia|lia|].
    unfold in_region, in_range, fd_region. cbn [fst snd]. lia. }
  assert (G2 : forall off, 0 <= off <= 12 -> fd_get m2 p 0 off = fd_get m1 p 0 off).
  { intros off Ho. eapply fd_get_unchanged; [exact U1|lia|lia|].
    unfold in_region, in_range, fd_region. cbn [fst snd]. lia. }
  split; [|split; [|split; [|split; [|split; [|done]]]]].
  - apply (unchanged_trans _ _ m1); [eapply unchanged_weaken; [|exact U0]|].
    { unfold in_region, in_range, fd_region. cbn [fst snd]. lia. }
    apply (unchanged_trans _ _ m2); [eapply unchanged_weaken; [|exact U1]|].
    { unfold in_region, in_range, fd_region. cbn [fst snd]. lia. }
    apply (unchanged_trans _ _ m3); [eapply unchanged_weaken; [|exact U2]; unfold in_range; lia|].
    apply (unchanged_trans _ _ m4); [eapply unchanged_weaken; [|exact U3]; unfold in_range; lia|].
    eapply unchanged_weaken; [|exact U4]; unfold in_range; lia.
  - intros j Hj. rewrite G45 by (unfold FD_FLAGS; lia). destruct (Z.ltb_spec j 2).
    + rewrite G3 by (unfold FD_FLAGS; lia). assert (j = 0 \/ j = 1) as [->| ->] by lia; [|exact F1].
      rewrite G2 by (unfold FD_FLAGS; lia). exact F0.
    + apply F2. lia.
  - intros j Hj. rewrite G45, G3 by (unfold FD_OPS; lia).
    assert (j = 0 \/ j = 1) as [->| ->] by lia; [|exact O1]. rewrite G2 by (unfold FD_OPS; lia). exact O0.
  - unfold m5, m4. rewrite load32_store32_ne by lia. apply load32_store32_eq.
  - apply load32_store32_eq.
Qed.

(** Copying a control block. *)
Lemma copy_pcb_byte dst src m off :
  0 <= off < PCB_SIZE -> load8 (copy_pcb dst src m) (dst + off) = load8 m (src + off).
Proof.
  intros Ho. unfold copy_pcb.
  assert (Hl : length (bytes m src (Z.to_nat PCB_SIZE)) = Z.to_nat PCB_SIZE) by apply length_bytes.
  apply (bytes_eq_load8 _ m dst src (Z.to_nat PCB_SIZE) off); [|unfold PCB_SIZE in *; lia].
  rewrite <- Hl at 2. apply bytes_store_list. apply Forall_forall. intros b Hb.
  apply list_elem_of_fmap in Hb as (x & -> & _). apply load8_range.
Qed.

Lemma copy_pcb_spec dst src m :
  let m' := copy_pcb dst src m in
  unchanged (in_range dst PCB_SIZE) m m' /\
  forall off, 0 <= off -> off + 4 <= PCB_SIZE -> load32 m' (dst + off) = load32 m (src + off).
Proof.
  intros m'. split.
  - eapply unchanged_weaken; [|apply unchanged_store_list]. rewrite length_bytes.
    unfold PCB_SIZE, in_range. lia.
  - intros off H0 H1. unfold load32. rewrite <- !Z.add_assoc. unfold m'. rewrite !copy_pcb_byte by lia. done.
Qed.

(** ** Entering a program *)

Section Enter.
Context `{Layout} (l : locals) (command : Z) (s : kst).
Context (XL : exec_layout l command s) (Hn0 : 0 <= process_number s).

Let n := process_number s.
Let page := page_entry s.
Let np := l_new_pcb l.
Let pcb := pcb_address n.

(** The kernel addresses a successful execute writes. *)
Definition exec_frame (a : Z) : Prop :=
  search_frame l a \/ in_range np PCB_SIZE a \/ in_range page 4 a \/ in_range pcb PCB_SIZE a \/
  EIGHT_MB <= a.

(** The state in which the program starts. *)
Definition entered (s' : kst) : Prop :=
  let m := k_mem s in
  let m' := k_mem s' in
  n < 6 /\ cur_pcb s' = pcb /\ process_number s' = n + 1 /\
  tss_esp0 (k_cpu s') = EIGHT_MB - (n + 1) * EIGHT_KB /\
  tlb m' = n + 2 /\ ret_dir_ptr s' = ret_dir_ptr s /\
  load32 m' page = set_field 10 22 (n + 2) (load32 m page) /\
  load32 m' (pcb + PCB_OLD_PHYS) = PG_BIG_BASE (load32 m page) /\
  load32 m' (pcb + PCB_OLD_PCB) = u32 (cur_pcb s) /\
  load32 m' (pcb + PCB_OLD_ESP0) = u32 (tss_esp0 (k_cpu s)) /\
  load32 m' (pcb + PCB_OLD_EBP) = u32 (l_ebp l) /\
  (forall j, 0 <= j < 8 -> fd_get m' pcb j FD_FLAGS = if j <? 2 then 7 else 0) /\
  (forall j, 0 <= j < 2 -> fd_get m' pcb j FD_OPS = u32 terminal_table) /\
  framed (touches exec_frame (n + 2)) m m'.

(** The facts about addresses the proofs below use. *)
Lemma exec_addresses :
  (0 <= np /\ np + 1168 <= 0x800000) /\ (0 <= page /\ page + 4 <= 0x800000) /\
  (0 <= pcb /\ pcb + 1168 <= 0x800000) /\
  rdisj (np, PCB_SIZE) (page, 4) /\ rdisj (page, 4) (pcb, PCB_SIZE) /\
  (forall a, search_frame l a -> a < 0x800000 /\ ~ in_range page 4 a /\ ~ in_range np PCB_SIZE a) /\
  (forall a, in_range command (strlen (k_mem s) command + 1) a -> ~ search_frame l a) /\
  rdisj (command, strlen (k_mem s) command + 1) (np, PCB_SIZE).
Proof using XL.
  destruct XL as [_ HA _ HL _]. unfold exec_objects in HA, HL. cbn [apart apart_from] in HA.
  destruct HA as ((_ & C1 & C2 & C3 & C4 & C5 & C6 & _) & _ & (_ & _ & _ & _ & F5 & F6 & _) &
    (_ & _ & _ & S5 & S6 & _) & (_ & _ & O5 & O6 & _) & (_ & D5 & D6 & _) & (H5 & H6 & _) &
    (N6 & N7 & _) & (P7 & _) & _).
  rewrite !Forall_cons in HL.
  destruct HL as (L1 & L2 & L3 & L4 & L5 & L6 & L7 & L8 & _).
  unfold pcb, page, np, n. clear pcb page np n.
  unfold search_frame, lookup_frame, rdisj, disj, in_region, in_range, scratch,
    dentry_region, EIGHT_MB, PCB_SIZE in *. cbn [fst snd] in *.
  split; [clear -L6; lia|]. split; [clear -L7; lia|]. split; [clear -L8; lia|].
  split; [clear -N6; lia|]. split; [clear -P7; lia|]. split; [|split; [|clear -C6; lia]].
  - intros a [Ha|[[Ha|[Ha|Ha]]|Ha]].
    + clear -Ha L1 F5 F6. lia.
    + clear -Ha L2 S5 S6. lia.
    + clear -Ha L3 O5 O6. lia.
    + clear -Ha L4 D5 D6. lia.
    + clear -Ha L5 H5 H6. lia.
  - intros a Ha. clear -Ha C1 C2 C3 C4 C5. lia.
Qed.

(** The copy of the command line into the new control block. *)
Lemma strcpy_command m1 :
  unchanged (search_frame l) (k_mem s) m1 ->
  exists m2, strcpy m1 (np + PCB_INPUT) command = Some m2 /\
    unchanged (in_range (np + PCB_INPUT) 1024) m1 m2 /\
    bytes m2 (np + PCB_INPUT) (Z.to_nat (strlen (k_mem s) command + 1)) =
      bytes (k_mem s) command (Z.to_nat (strlen (k_mem s) command + 1)).
Proof using XL.
  intros U1. destruct exec_addresses as (_ & _ & _ & _ & _ & _ & HC & HD).
  pose proof (xl_command _ _ _ XL) as Hc.
  assert (El : strlen m1 command = strlen (k_mem s) command).
  { apply strlen_eq. eapply is_cstr_unchanged; [exact U1|exact HC|apply strlen_spec]. }
  destruct (strcpy_spec m1 (np + PCB_INPUT) command) as (m2 & E & U & B).
  { rewrite El. destruct (strlen_spec (k_mem s) command) as (H0' & _).
    unfold rdisj, disj, PCB_SIZE, PCB_INPUT in *. cbn [fst snd] in *. lia. }
  exists m2. split; [exact E|]. rewrite El in B. split.
  - eapply unchanged_weaken; [|exact U]. rewrite El. unfold in_range. lia.
  - rewrite B. eapply unchanged_bytes; [exact U1|]. intros b Hb. apply HC.
    unfold in_range in *. lia.
Qed.

(** The last two assignments before the return to user mode. *)
Definition finish (s5 : kst) : kst :=
  let s5 := upd_cpu (set_tss_esp0 (u32 (EIGHT_MB - process_number s5 * EIGHT_KB))) s5 in
  upd_mem (fun m => store32 m (cur_pcb s5 + PCB_OLD_EBP) (l_ebp l)) s5.

(** The control block in its place: every word of it but the frame pointer. *)
Lemma installed_word m4 off :
  0 <= off -> off + 4 <= PCB_OLD_EBP ->
  load32 (store32 (copy_pcb pcb np m4) (pcb + PCB_OLD_EBP) (l_ebp l)) (pcb + off) = load32 m4 (np + off).
Proof using Type.
  intros H0' H1. destruct (copy_pcb_spec pcb np m4) as [_ C]. unfold PCB_OLD_EBP in *.
  rewrite load32_store32_ne by lia. apply C; unfold PCB_SIZE; lia.
Qed.

(** The steps after the command line is copied. *)
Section Steps.
Context (m2 : mem) (inode : Z) (Hn : n < 6).
Context (U2 : unchanged (fun a => search_frame l a \/ in_range np PCB_SIZE a) (k_mem s) m2).

Let s3 := load_program l inode page (set_k_mem m2 s).
Let s4 := build_pcb np s3.
Let m6 := store32 (copy_pcb pcb np (k_mem s4)) (pcb + PCB_OLD_EBP) (l_ebp l).

Lemma enter_loaded : loaded l page (set_k_mem m2 s) s3.
Proof using XL Hn0 Hn.
  destruct exec_addresses as (Anp & Apg & _ & Dnp & _).
  apply load_program_spec; [|lia|unfold PROG_LO; lia|split; [exact Hn0|exact Hn]|
    fold np; lia|fold np; unfold PCB_SIZE, EIGHT_MB; lia|exact Dnp].
  rewrite (ret_dir_ptr_cpu (set_k_mem m2 s) s) by reflexivity. reflexivity.
Qed.

Lemma enter_page : load32 m2 page = load32 (k_mem s) page.
Proof using XL U2.
  destruct exec_addresses as (_ & _ & _ & Dnp & _ & Hsf & _).
  eapply unchanged_load32; [exact U2|]. intros b Hb [Hs|Hs];
    [destruct (Hsf b Hs) as (_ & Hx & _); exact (Hx Hb)|].
  unfold rdisj, disj, in_range, PCB_SIZE in *. cbn [fst snd] in *. lia.
Qed.

(** Nothing but memory and the processor has changed when the control block is built. *)
Lemma enter_scalars :
  cur_pcb s3 = cur_pcb s /\ cur_pcb s4 = cur_pcb s /\ process_number s4 = n /\ k_cpu s4 = k_cpu s3.
Proof using XL Hn0 Hn.
  destruct enter_loaded as (_ & _ & _ & _ & _ & _ & L7).
  assert (E : cur_pcb s3 = cur_pcb s /\ process_number s3 = n) by (rewrite L7; done).
  destruct E as [Ec En].
  destruct (build_pcb_spec np s3) as (_ & _ & _ & _ & _ & B6 & B7 & B8 & _). fold s4 in B6, B7, B8.
  split; [done|]. split; [congruence|]. split; [congruence|done].
Qed.

Lemma enter_memory : k_mem (finish (install_pcb l s4)) = m6.
Proof using XL Hn0 Hn.
  destruct enter_scalars as (_ & _ & En & _). unfold finish, install_pcb. rewrite En. reflexivity.
Qed.

Lemma enter_copies : unchanged (in_range pcb PCB_SIZE) (k_mem s4) m6.
Proof using Type.
  destruct (copy_pcb_spec pcb np (k_mem s4)) as [U5 _].
  eapply unchanged_trans; [exact U5|]. apply unchanged_store32.
  unfold in_range, PCB_SIZE, PCB_OLD_EBP. lia.
Qed.

Lemma enter_frame : framed (touches exec_frame (n + 2)) (k_mem s) m6.
Proof using XL Hn0 Hn U2.
  destruct exec_addresses as (Anp & _ & Apc & _ & _ & Hsf & _).
  destruct enter_loaded as (_ & _ & _ & L4 & _).
  destruct (build_pcb_spec np s3) as (B1 & _). fold s4 in B1.
  apply (framed_trans _ _ m2); [|apply (framed_trans _ _ (k_mem s3)); [|apply (framed_trans _ _ (k_mem s4))]].
  - eapply framed_weaken; [|apply (unchanged_framed_kernel _ (n + 2) _ _ U2)].
    + unfold touches, exec_frame. intros p a. destruct (in_window a); tauto.
    + intros a Ha. assert (a < 0x800000).
      { destruct Ha as [Ha|Ha]; [apply (Hsf a Ha)|unfold in_range, PCB_SIZE in Ha; lia]. }
      apply (low_kernel a 1 ltac:(unfold PROG_LO; lia)). unfold in_range. lia.
  - eapply framed_weaken; [|exact L4]. unfold touches, exec_frame, load_frame. fold np.
    intros p a. destruct (in_window a); [tauto|].
    unfold in_range, PCB_OLD_PHYS, PCB_SIZE. lia.
  - eapply framed_weaken; [|apply (unchanged_framed_kernel _ (n + 2) _ _ B1)].
    + unfold touches, exec_frame. intros p a. destruct (in_window a); [tauto|].
      unfold in_range, PCB_OLD_ESP0, PCB_SIZE. lia.
    + intros a Ha. apply (low_kernel np 1168 ltac:(unfold PROG_LO; lia)).
      unfold in_range, PCB_OLD_ESP0 in *. lia.
  - eapply framed_weaken; [|apply (unchanged_framed_kernel _ (n + 2) _ _ enter_copies)].
    + unfold touches, exec_frame. intros p a. destruct (in_window a); tauto.
    + intros a Ha. apply (low_kernel pcb 1168 ltac:(unfold PROG_LO; lia)).
      unfold in_range, PCB_SIZE in *. lia.
Qed.

(** The words of the page directory and of the new control block. *)
Lemma enter_words :
  load32 m6 page = set_field 10 22 (n + 2) (load32 (k_mem s) page) /\
  load32 m6 (pcb + PCB_OLD_PHYS) = PG_BIG_BASE (load32 (k_mem s) page) /\
  load32 m6 (pcb + PCB_OLD_PCB) = u32 (cur_pcb s) /\
  load32 m6 (pcb + PCB_OLD_ESP0) = u32 (tss_esp0 (k_cpu s)) /\
  (forall j, 0 <= j < 8 -> fd_get m6 pcb j FD_FLAGS = if j <? 2 then 7 else 0) /\
  (forall j, 0 <= j < 2 -> fd_get m6 pcb j FD_OPS = u32 terminal_table).
Proof using XL Hn0 Hn U2.
  destruct exec_addresses as (_ & _ & _ & Dnp & Dpc & _).
  unfold rdisj, disj, PCB_SIZE in Dnp, Dpc. cbn [fst snd] in Dnp, Dpc.
  destruct enter_loaded as (L1 & L2 & _ & _ & _ & L6 & _).
  change (process_number (set_k_mem m2 s)) with n in L2. change (k_mem (set_k_mem m2 s)) with m2 in L1, L2.
  rewrite enter_page in L1, L2. destruct enter_scalars as (Ec & _).
  destruct (build_pcb_spec np s3) as (B1 & B2 & B3 & B4 & B5 & _). fold s4 in B1, B2, B3, B4, B5.
  rewrite Ec in B4. rewrite L6 in B5.
  assert (W : forall off, 0 <= off -> off + 4 <= PCB_OLD_EBP -> load32 m6 (pcb + off) = load32 (k_mem s4) (np + off))
    by apply installed_word.
  assert (G : forall j f, 0 <= j < 8 -> 0 <= f <= 12 -> fd_get m6 pcb j f = fd_get (k_mem s4) np j f).
  { intros j f Hj Hf. unfold fd_get, fd_field. rewrite <- !Z.add_assoc. apply W; unfold PCB_OLD_EBP; lia. }
  split; [|split; [|split; [|split; [|split]]]].
  - rewrite <- L2. transitivity (load32 (k_mem s4) page).
    + eapply unchanged_load32; [exact enter_copies|]. unfold in_range, PCB_SIZE. lia.
    + eapply unchanged_load32; [exact B1|]. unfold in_range, PCB_OLD_ESP0. lia.
  - rewrite W by (unfold PCB_OLD_PHYS, PCB_OLD_EBP; lia). rewrite <- L1.
    eapply unchanged_load32; [exact B1|]. unfold in_range, PCB_OLD_ESP0, PCB_OLD_PHYS. lia.
  - rewrite W by (unfold PCB_OLD_PCB, PCB_OLD_EBP; lia). exact B4.
  - rewrite W by (unfold PCB_OLD_ESP0, PCB_OLD_EBP; lia). exact B5.
  - intros j Hj. rewrite G by (unfold FD_FLAGS; lia). by apply B2.
  - intros j Hj. rewrite G by (unfold FD_OPS; lia). by apply B3.
Qed.

Lemma enter_spec : entered (finish (install_pcb l s4)).
Proof using XL Hn0 Hn U2.
  destruct enter_scalars as (_ & _ & B8 & B6). destruct enter_words as (W1 & W2 & W3 & W4 & W5 & W6).
  destruct enter_loaded as (_ & _ & L3 & _ & L5 & _). rewrite (ret_dir_ptr_cpu (set_k_mem m2 s) s) in L5 by reflexivity.
  destruct (build_pcb_spec np s3) as (B1 & _). fold s4 in B1. fold n in Hn0.
  unfold entered. cbv zeta. rewrite enter_memory.
  split; [exact Hn|]. split; [|split; [|split; [|split; [|split; [|split; [exact W1|split; [exact W2|split;
    [exact W3|split; [exact W4|split; [|split; [exact W5|split; [exact W6|exact enter_frame]]]]]]]]]]]].
  - change (pcb_address (process_number s4) = pcb). rewrite B8. reflexivity.
  - change (u32 (process_number s4 + 1) = n + 1). rewrite B8. apply u32_small. lia.
  - change (u32 (EIGHT_MB - u32 (process_number s4 + 1) * EIGHT_KB) = EIGHT_MB - (n + 1) * EIGHT_KB).
    rewrite B8, (u32_small (n + 1)) by lia. apply u32_small. unfold EIGHT_MB, EIGHT_KB. lia.
  - destruct enter_copies as [-> _]. destruct B1 as [-> _]. exact L3.
  - rewrite <- L5. apply ret_dir_ptr_cr3. rewrite <- B6. reflexivity.
  - apply load32_store32_eq.
Qed.

(** The command line is in the new control block. *)
Lemma enter_input j :
  0 <= j < 1024 -> load8 m6 (pcb + PCB_INPUT + j) = load8 m2 (np + PCB_INPUT + j).
Proof using XL Hn0 Hn.
  intros Hj. destruct exec_addresses as (Anp & Apg & _ & Dnp & _).
  unfold rdisj, disj, PCB_SIZE in Dnp. cbn [fst snd] in Dnp.
  destruct (build_pcb_spec np s3) as (B1 & _). fold s4 in B1.
  destruct enter_loaded as (_ & _ & _ & L4 & _).
  unfold PCB_INPUT in *. unfold m6. rewrite load8_store32_ne by (unfold PCB_OLD_EBP; lia).
  rewrite <- !Z.add_assoc, copy_pcb_byte by (unfold PCB_SIZE; lia).
  transitivity (load8 (k_mem s3) (np + (132 + j))).
  - eapply unchanged_load8; [exact B1|]. unfold in_range, PCB_OLD_ESP0. lia.
  - apply (framed_load8 (load_frame l page) (n + 2)); [exact L4| |].
    + apply (low_kernel np 1168 ltac:(unfold PROG_LO; lia)). unfold in_range. lia.
    + unfold load_frame. fold np. unfold in_range, PCB_OLD_PHYS, EIGHT_MB. lia.
Qed.
End Steps.
End Enter.

Lemma ExecEnter_state eip esp cs ds s eip' esp' cs' ds' s' :
  ExecEnter eip esp cs ds s = ExecEnter eip' esp' cs' ds' s' -> s = s'.
Proof. congruence. Qed.

Lemma get_bigPage_entry i s : get_bigPage i s <> 0 -> get_bigPage i s = ret_dir_ptr s + 4 * i.
Proof.
  unfold get_bigPage. destruct ((i <? 0) || (1024 <=? i)); [done|].
  destruct (Z.land _ 1 =? 0); done.
Qed.

(** A successful execute has passed every check. *)
Lemma execute_inv `{Layout} l command s eip esp cs ds s' :
  exec_layout l command s ->
  sys_execute_c l command s = ExecEnter eip esp cs ds s' ->
  process_number s < 6 /\ exists m2 inode,
    unchanged (fun a => search_frame l a \/ in_range (l_new_pcb l) PCB_SIZE a) (k_mem s) m2 /\
    (forall j, 0 <= j <= strlen (k_mem s) command ->
       load8 m2 (l_new_pcb l + PCB_INPUT + j) = load8 (k_mem s) (command + j)) /\
    s' = finish l (install_pcb l (build_pcb (l_new_pcb l) (load_program l inode (page_entry s) (set_k_mem m2 s)))).
Proof.
  intros XL E. unfold sys_execute_c in E.
  destruct (Z.leb_spec 6 (process_number s)) as [|Hlt]; [done|]. split; [done|].
  pose proof (find_program_frame l command s XL) as Hf.
  destruct (find_program l command s) as [[inode|] s1]; [|done]. destruct Hf as [Es1 U1].
  destruct (strcpy_command l command s XL (k_mem s1) U1) as (m2 & Ec & U2 & B2). rewrite Ec in E.
  assert (Es2 : set_k_mem m2 s1 = set_k_mem m2 s) by (rewrite Es1; reflexivity). rewrite Es2 in E.
  destruct (Z.eqb_spec (get_bigPage PRO_IDX (set_k_mem m2 s)) 0) as [|Hp]; [done|].
  assert (Ep : get_bigPage PRO_IDX (set_k_mem m2 s) = page_entry s).
  { rewrite get_bigPage_entry by exact Hp. unfold page_entry.
    now rewrite (ret_dir_ptr_cpu (set_k_mem m2 s) s) by reflexivity. }
  rewrite Ep in E. exists m2, inode. split; [|split].
  - apply (unchanged_trans _ _ (k_mem s1)).
    + eapply unchanged_weaken; [|exact U1]. tauto.
    + eapply unchanged_weaken; [|exact U2]. unfold in_range, PCB_INPUT, PCB_SIZE. lia.
  - intros j Hj. apply (bytes_eq_load8 m2 (k_mem s) _ _ _ j B2). lia.
  - revert E. generalize (build_pcb (l_new_pcb l) (load_program l inode (page_entry s) (set_k_mem m2 s))).
    intros s4 E. apply ExecEnter_state in E. rewrite <- E. reflexivity.
Qed.

Lemma execute_entered `{Layout} l command s eip esp cs ds s' :
  exec_layout l command s -> 0 <= process_number s ->
  sys_execute_c l command s = ExecEnter eip esp cs ds s' -> entered l s s'.
Proof.
  intros XL Hn0 E. apply execute_inv in E as (Hlt & m2 & inode & U & _ & ->); [|done].
  by apply (enter_spec l command s XL Hn0 m2 inode Hlt U).
Qed.

(** The new process has the command line that was executed. *)
Lemma execute_command `{Layout} l command s eip esp cs ds s' :
  exec_layout l command s -> 0 <= process_number s ->
  sys_execute_c l command s = ExecEnter eip esp cs ds s' ->
  forall j, 0 <= j <= strlen (k_mem s) command ->
    load8 (k_mem s') (cur_pcb s' + PCB_INPUT + j) = load8 (k_mem s) (command + j).
Proof.
  intros XL Hn0 E. pose proof (execute_entered l command s eip esp cs ds s' XL Hn0 E) as (_ & Ep & _).
  rewrite Ep. clear Ep. pose proof (xl_command _ _ _ XL) as Hc.
  apply execute_inv in E as (Hlt & m2 & inode & U & B & ->); [|done].
  intros j Hj. rewrite (enter_memory l command s XL Hn0 m2 inode Hlt).
  rewrite (enter_input l command s XL Hn0 m2 inode Hlt) by lia. by apply B.
Qed.

(** ** Halt *)

(** What closing descriptors may write. *)
Definition close_frame `{Layout} (pcb a : Z) : Prop :=
  in_range pcb 128 a \/ in_region (dentry_region open_dentry) a \/ in_region (dentry_region read_dentry) a.

Section Halt.
Context `{Ports} `{Layout}.

Lemma close_ptr_frame o fd s :
  let s' := (close_ptr o fd s).2 in
  s' = set_k_mem (k_mem s') s /\
  (0 <= fd < 8 -> unchanged (close_frame (cur_pcb s)) (k_mem s) (k_mem s')).
Proof using Type.
  assert (Hset : forall v, 0 <= fd < 8 -> unchanged (close_frame (cur_pcb s)) (k_mem s)
    (fd_set (k_mem s) (cur_pcb s) fd FD_FLAGS v)).
  { intros v Hfd. eapply unchanged_weaken; [|apply unchanged_fd_set; unfold FD_FLAGS; lia].
    intros a Ha. left. unfold in_region, in_range, fd_region in *. cbn [fst snd] in *. lia. }
  assert (Hid : s = set_k_mem (k_mem s) s) by (destruct s; reflexivity).
  destruct o; cbn [close_ptr].
  - unfold rtc_close. repeat (split_if; [split; [exact Hid|intros; apply unchanged_refl]|]).
    split; [reflexivity|apply Hset].
  - unfold on_mem, dir_close. repeat (split_if; [split; [reflexivity|intros; apply unchanged_refl]|]).
    split; [reflexivity|apply Hset].
  - unfold on_mem, file_close. repeat (split_if; [split; [reflexivity|intros; apply unchanged_refl]|]).
    split; [reflexivity|]. intros Hfd. eapply unchanged_trans; [apply Hset, Hfd|].
    apply unchanged_for_range. intros i mi Hi.
    eapply unchanged_trans; apply unchanged_store8; unfold close_frame, in_region, in_range, dentry_region;
      cbn [fst snd]; lia.
  - unfold terminal_close. repeat (split_if; [split; [exact Hid|intros; apply unchanged_refl]|]).
    split; [reflexivity|apply Hset].
Qed.

Lemma close_all_frame fuel : forall fd s s',
  0 <= fd -> fd + Z.of_nat fuel <= 8 -> close_all fuel fd s = Some s' ->
  s' = set_k_mem (k_mem s') s /\ unchanged (close_frame (cur_pcb s)) (k_mem s) (k_mem s').
Proof using Type.
  induction fuel as [|f IH]; intros fd s s' H0' H1 E; cbn [close_all] in E.
  { injection E as <-. split; [destruct s; reflexivity|apply unchanged_refl]. }
  destruct (fd_open fd s); [|apply (IH (fd + 1) s s'); [lia|lia|exact E]].
  destruct (fd_ops fd s) as [o|]; [|done].
  destruct (close_ptr_frame o fd s) as [E1 U1]. set (s1 := (close_ptr o fd s).2) in *. clearbody s1.
  apply (IH (fd + 1) s1 s') in E as [E2 U2]; [|lia|lia].
  assert (Ec : cur_pcb s1 = cur_pcb s) by (rewrite E1; reflexivity). rewrite Ec in U2.
  split; [rewrite E2, E1; reflexivity|]. eapply unchanged_trans; [apply U1; lia|exact U2].
Qed.

(** The saved words of the control block and the directory entry are apart from
    what closing descriptors writes. *)
Record halt_layout (s : kst) : Prop := {
  hl_pcb : 0 <= cur_pcb s /\ cur_pcb s + PCB_SIZE <= EIGHT_MB;
  hl_page : 0 <= page_entry s /\ page_entry s + 4 <= EIGHT_MB;
  hl_open : rdisj (pcb_region (cur_pcb s)) (dentry_region open_dentry);
  hl_read : rdisj (pcb_region (cur_pcb s)) (dentry_region read_dentry);
  hl_page_pcb : rdisj (page_entry s, 4) (pcb_region (cur_pcb s));
  hl_page_open : rdisj (page_entry s, 4) (dentry_region open_dentry);
  hl_page_read : rdisj (page_entry s, 4) (dentry_region read_dentry)
}.

(** What a halt does with the words saved in the control block. *)
Definition halted (status : Z) (s : kst) (res : option (Z * Z * kst)) : Prop :=
  let pcb := cur_pcb s in
  let m := k_mem s in
  exists s', res = Some (Z.land 0xFF (u8 status), load32 m (pcb + PCB_OLD_EBP), s') /\
    cur_pcb s' = load32 m (pcb + PCB_OLD_PCB) /\
    tss_esp0 (k_cpu s') = load32 m (pcb + PCB_OLD_ESP0) /\
    process_number s' = process_number s - 1 /\
    load32 (k_mem s') (page_entry s) =
      set_field 10 22 (load32 m (pcb + PCB_OLD_PHYS)) (load32 m (page_entry s)) /\
    tlb (k_mem s') = load32 m (pcb + PCB_OLD_PHYS) /\ ret_dir_ptr s' = ret_dir_ptr s /\
    framed (touches (fun a => close_frame pcb a \/ in_range (page_entry s) 4 a) (tlb m)) m (k_mem s').

(** A halt with a process running, the program page present and valid operation
    tables: everything comes from the control block. *)
Lemma halt_spec status s s1 :
  halt_layout s -> 0 < process_number s < 4294967296 -> get_bigPage PRO_IDX s <> 0 ->
  close_all 8 0 (set_process_number (process_number s - 1) s) = Some s1 ->
  load32 (k_mem s) (cur_pcb s + PCB_OLD_PHYS) < 1024 ->
  halted status s (sys_halt_c status s).
Proof using Type.
  intros [[A1 A2] [A3 A4] D1 D2 D3 D4 D5] Hn Hp Hc Hphys.
  pose proof (get_bigPage_entry _ _ Hp) as Ep. fold (page_entry s) in Ep.
  unfold sys_halt_c. replace (process_number s <=? 0) with false by lia. rewrite u32_small by lia.
  set (s0 := set_process_number (process_number s - 1) s) in *.
  change (get_bigPage PRO_IDX s0) with (get_bigPage PRO_IDX s).
  rewrite (proj2 (Z.eqb_neq _ _) Hp), Hc, Ep.
  apply close_all_frame in Hc as [E1 U1]; [|lia|lia].
  change (cur_pcb s0) with (cur_pcb s) in U1. change (k_mem s0) with (k_mem s) in U1.
  set (pcb := cur_pcb s) in *. set (page := page_entry s) in *.
  unfold rdisj, disj, pcb_region, dentry_region, PCB_SIZE, EIGHT_MB in *. cbn [fst snd] in *.
  assert (Ecpu : k_cpu s1 = k_cpu s /\ cur_pcb s1 = pcb /\ process_number s1 = process_number s - 1)
    by (rewrite E1; done).
  destruct Ecpu as (Ecpu & Ecur & Epn). rewrite Ecur.
  assert (Lp : forall off, 128 <= off -> off + 4 <= 1168 -> load32 (k_mem s1) (pcb + off) = load32 (k_mem s) (pcb + off)).
  { intros off H0' H1. eapply unchanged_load32; [exact U1|].
    unfold close_frame, in_region, in_range, dentry_region. cbn [fst snd]. lia. }
  assert (Lpg : load32 (k_mem s1) page = load32 (k_mem s) page).
  { eapply unchanged_load32; [exact U1|].
    unfold close_frame, in_region, in_range, dentry_region. cbn [fst snd]. lia. }
  rewrite (Lp PCB_OLD_ESP0) by (unfold PCB_OLD_ESP0; lia).
  set (s2 := upd_cpu (set_tss_esp0 (load32 (k_mem s) (pcb + PCB_OLD_ESP0))) s1).
  change (k_mem s2) with (k_mem s1). rewrite (Lp PCB_OLD_PHYS) by (unfold PCB_OLD_PHYS; lia).
  assert (Ed : ret_dir_ptr s2 = ret_dir_ptr s) by (apply ret_dir_ptr_cr3; rewrite <- Ecpu; reflexivity).
  pose proof (load32_range (k_mem s) (pcb + PCB_OLD_PHYS)) as Hr.
  destruct (switch_page_spec page (load32 (k_mem s) (pcb + PCB_OLD_PHYS)) s2)
    as (S1 & S2 & S3 & S4 & S5 & S6); [rewrite Ed; reflexivity|lia|lia|unfold PROG_LO; lia|].
  set (s3 := switch_page _ _ s2) in *. clearbody s3.
  change (k_mem s2) with (k_mem s1) in S1, S4. rewrite Lpg in S1.
  assert (Lp3 : forall off, 128 <= off -> off + 4 <= 1168 -> load32 (k_mem s3) (pcb + off) = load32 (k_mem s) (pcb + off)).
  { intros off H0' H1. rewrite <- (Lp off) by lia.
    eapply framed_load32; [apply (S4 0)|apply low_kernel; unfold PROG_LO; lia|]. unfold in_range. lia. }
  assert (Epn3 : process_number s3 = process_number s - 1) by (rewrite S6; exact Epn).
  rewrite (Lp3 PCB_OLD_EBP), (Lp3 PCB_OLD_PCB) by (unfold PCB_OLD_EBP, PCB_OLD_PCB; lia).
  eexists. split; [reflexivity|]. fold pcb page.
  split; [reflexivity|]. split; [exact S5|]. split; [exact Epn3|]. split; [exact S1|].
  split; [exact S2|]. split; [rewrite <- Ed, <- S3; by apply ret_dir_ptr_cpu|].
  apply (framed_trans _ _ (k_mem s1)).
  - eapply framed_weaken; [|apply (unchanged_framed _ _ _ _ U1 eq_refl)].
    unfold touches. intros p a. destruct (in_window a); tauto.
  - eapply framed_weaken; [|apply (S4 (tlb (k_mem s)))].
    unfold touches. intros p a. destruct (in_window a); tauto.
Qed.
End Halt.

(** ** What a successful execute says about the state before it *)

Lemma get_bigPage_present i s :
  get_bigPage i s <> 0 -> load32 (k_mem s) (ret_dir_ptr s + 4 * i) mod 2 = 1.
Proof.
  unfold get_bigPage. destruct ((i <? 0) || (1024 <=? i)); [done|]. rewrite land_1_present.
  destruct (Z.eqb_spec (load32 (k_mem s) (ret_dir_ptr s + 4 * i) mod 2) 0); [done|]. intros _. zdm.
Qed.

Lemma get_bigPage_program s :
  load32 (k_mem s) (page_entry s) mod 2 = 1 -> get_bigPage PRO_IDX s <> 0.
Proof.
  intros Hp. unfold get_bigPage. fold (page_entry s). rewrite land_1_present, Hp.
  change ((PRO_IDX <? 0) || (1024 <=? PRO_IDX)) with false. change (1 =? 0) with false. cbv iota.
  unfold page_entry, PRO_IDX. assert (0 <= ret_dir_ptr s); [|lia].
  unfold ret_dir_ptr. apply Z.land_nonneg. lia.
Qed.

(** The program page was present when execute succeeded. *)
Lemma execute_present `{Layout} l command s eip esp cs ds s' :
  exec_layout l command s ->
  sys_execute_c l command s = ExecEnter eip esp cs ds s' -> load32 (k_mem s) (page_entry s) mod 2 = 1.
Proof.
  intros XL E. unfold sys_execute_c in E.
  destruct (6 <=? process_number s); [done|].
  pose proof (find_program_frame l command s XL) as Hf.
  destruct (find_program l command s) as [[inode|] s1]; [|done]. destruct Hf as [Es1 U1].
  destruct (strcpy_command l command s XL (k_mem s1) U1) as (m2 & Ec & U2 & _). rewrite Ec in E.
  destruct (Z.eqb_spec (get_bigPage PRO_IDX (set_k_mem m2 s1)) 0) as [|Hp]; [done|]. clear E.
  apply get_bigPage_present in Hp.
  rewrite (ret_dir_ptr_cpu (set_k_mem m2 s1) s) in Hp by (rewrite Es1; reflexivity).
  fold (page_entry s) in Hp. change (k_mem (set_k_mem m2 s1)) with m2 in Hp. rewrite <- Hp. f_equal.
  destruct (exec_addresses l command s XL) as (Anp & Apg & _ & Dnp & _ & Hsf & _).
  unfold rdisj, disj, PCB_SIZE in Dnp. cbn [fst snd] in Dnp.
  symmetry. transitivity (load32 (k_mem s1) (page_entry s)).
  - eapply unchanged_load32; [exact U2|]. unfold in_range, PCB_INPUT. lia.
  - eapply unchanged_load32; [exact U1|]. intros b Hb Hs. destruct (Hsf b Hs) as (_ & Hx & _). exact (Hx Hb).
Qed.

(** The selectors and the stack pointer of a new process. *)
Lemma execute_selectors `{Layout} l command s eip esp cs ds s' :
  sys_execute_c l command s = ExecEnter eip esp cs ds s' ->
  esp = Z.lor USER_PROG (FOUR_MB - 4) /\ cs = USER_CS /\ ds = USER_DS.
Proof.
  unfold sys_execute_c. destruct (6 <=? process_number s); [done|].
  destruct (find_program l command s) as [[inode|] s1]; [|done].
  destruct (strcpy _ _ _) as [m2|]; [|done]. destruct (_ =? 0); [done|].
  generalize (install_pcb l (build_pcb (l_new_pcb l)
    (load_program l inode (get_bigPage PRO_IDX (set_k_mem m2 s1)) (set_k_mem m2 s1)))).
  intros s5 E. injection E as _ <- <- <- _. done.
Qed.
