(* ===== verification/Exec.v ===== *)
(** * Starting and ending programs

    When execute succeeds, what the new program finds, and how halt undoes it.
    The command's first word names a regular file that starts with the ELF magic;
    the file then is in the program page of the next process, byte for byte, and
    the processor continues at the entry point stored in its header. *)

From S2P Require Import Prelude Mem CString State Console I8259 Pcb Rtc Filesys FilesysRead FilesysDir Keyboard Paging Syscalls Process.

#[local] Arguments strlen : simpl never.
#[local] Arguments strncpy : simpl never.

(** ** Closing every descriptor ends *)

(** Descriptors in use dispatch to one of the four tables. *)
Definition tables_valid `{Layout} (s : kst) : Prop :=
  forall fd, 0 <= fd < 8 -> fd_open fd s = true -> is_Some (fd_ops fd s).

Section CloseAll.
Context `{Ports} `{Layout}.

(** A close leaves every table pointer, and only ever frees descriptors. *)
Definition fds_shrink (s s' : kst) : Prop :=
  cur_pcb s' = cur_pcb s /\
  forall j, 0 <= j < 8 ->
    fd_get (k_mem s') (cur_pcb s) j FD_OPS = fd_get (k_mem s) (cur_pcb s) j FD_OPS /\
    (fd_open j s' = true -> fd_open j s = true).

Lemma fds_shrink_refl s : fds_shrink s s.
Proof using Type. split; [done|]. done. Qed.

Lemma fds_shrink_clear s fd m' :
  0 <= fd < 8 -> rdisj (pcb_region (cur_pcb s)) (dentry_region open_dentry) ->
  rdisj (pcb_region (cur_pcb s)) (dentry_region read_dentry) ->
  unchanged (fun a => in_region (dentry_region open_dentry) a \/ in_region (dentry_region read_dentry) a)
    (fd_set (k_mem s) (cur_pcb s) fd FD_FLAGS 0) m' ->
  fds_shrink s (set_k_mem m' s).
Proof using Type.
  intros Hfd D1 D2 U. split; [done|]. intros j Hj.
  assert (G : forall off, 0 <= off -> off + 4 <= 16 -> fd_get m' (cur_pcb s) j off =
    fd_get (fd_set (k_mem s) (cur_pcb s) fd FD_FLAGS 0) (cur_pcb s) j off).
  { intros off H0' H1'. eapply fd_get_unchanged; [exact U|lia|lia|].
    unfold rdisj, disj, in_region, in_range, fd_region, pcb_region, PCB_SIZE in *.
    cbn [fst snd] in *. lia. }
  split.
  - cbn [k_mem set_k_mem]. rewrite G by (unfold FD_OPS; lia).
    apply fd_get_set_ne; [unfold FD_FLAGS; lia|unfold FD_OPS; lia|reflexivity|reflexivity|right; done].
  - unfold fd_open, fd_used. cbn [k_mem cur_pcb set_k_mem]. rewrite G by (unfold FD_FLAGS; lia).
    destruct (decide (j = fd)) as [->|Hne]; [now rewrite fd_get_set_eq|].
    rewrite fd_get_set_ne; [done|unfold FD_FLAGS; lia|unfold FD_FLAGS; lia|reflexivity|reflexivity|left; congruence].
Qed.

Lemma close_ptr_shrinks o fd s :
  0 <= fd < 8 -> rdisj (pcb_region (cur_pcb s)) (dentry_region open_dentry) ->
  rdisj (pcb_region (cur_pcb s)) (dentry_region read_dentry) ->
  fds_shrink s (close_ptr o fd s).2.
Proof using Type.
  intros Hfd D1 D2. pose proof (fds_shrink_refl s) as R.
  assert (R' : fds_shrink s (set_k_mem (k_mem s) s)) by (destruct s; exact R).
  assert (C0 := fds_shrink_clear s fd (fd_set (k_mem s) (cur_pcb s) fd FD_FLAGS 0) Hfd D1 D2 (unchanged_refl _ _)).
  destruct o; cbn [close_ptr].
  - unfold rtc_close. do 3 (split_if; [exact R|]). exact C0.
  - unfold on_mem, dir_close. do 3 (split_if; [exact R'|]). exact C0.
  - unfold on_mem, file_close. do 3 (split_if; [exact R'|]).
    apply fds_shrink_clear with (fd := fd); [exact Hfd|exact D1|exact D2|].
    apply unchanged_for_range. intros i mi Hi.
    eapply unchanged_trans; apply unchanged_store8; [left|right];
      unfold in_region, in_range, dentry_region; cbn [fst snd]; lia.
  - unfold terminal_close. do 2 (split_if; [exact R|]). exact C0.
Qed.

Lemma close_all_total fuel : forall fd s,
  rdisj (pcb_region (cur_pcb s)) (dentry_region open_dentry) ->
  rdisj (pcb_region (cur_pcb s)) (dentry_region read_dentry) ->
  tables_valid s -> 0 <= fd -> fd + Z.of_nat fuel <= 8 -> is_Some (close_all fuel fd s).
Proof using Type.
  induction fuel as [|f IH]; intros fd s D1 D2 HT H0' H1'; cbn [close_all]; [by eexists|].
  destruct (fd_open fd s) eqn:Eo; [|apply IH; [exact D1|exact D2|exact HT|lia|lia]].
  destruct (HT fd ltac:(lia) Eo) as [o Ho]. rewrite Ho.
  destruct (close_ptr_shrinks o fd s ltac:(lia) D1 D2) as [Ec Hs].
  apply IH; rewrite ?Ec; [exact D1|exact D2| |lia|lia].
  intros j Hj Hopen. destruct (Hs j Hj) as [Eo' Himp]. unfold fd_ops. rewrite Ec, Eo'.
  apply (HT j Hj (Himp Hopen)).
Qed.
End CloseAll.

(** ** The first word of the command *)

(** Up to a space, a line break or NUL, [n] characters at most. *)
Fixpoint first_word (n : nat) (m : mem) (a : Z) : list Z :=
  match n with
  | O => []
  | S n' => let c := load8 m a in
            if (c =? 32) || (c =? 0) || (c =? 10) then [] else c :: first_word n' m (a + 1)
  end.

Lemma first_word_chars n : forall m a, Forall (fun c => 0 < c < 256) (first_word n m a).
Proof.
  induction n as [|n IH]; intros m a; cbn [first_word]; [done|].
  pose proof (load8_range m a). split_if; [done|]. constructor; [lia|apply IH].
Qed.

Lemma copy_word_copies file_name command m0 fuel : forall idx m,
  (forall j, 0 <= j <= strlen m0 command -> ~ in_range file_name 34 (command + j)) ->
  unchanged (in_range file_name 34) m0 m ->
  0 <= idx <= strlen m0 command -> idx + Z.of_nat fuel <= 33 ->
  let w := first_word fuel m0 (command + idx) in
  exists m', copy_word fuel file_name command idx m = (idx + Z.of_nat (length w), m') /\
    unchanged (in_range (file_name + idx) (Z.of_nat (length w))) m m' /\
    bytes m' (file_name + idx) (length w) = w.
Proof.
  induction fuel as [|f IH]; intros idx m Hc U Hi Hf w.
  { exists m. cbn. rewrite Z.add_0_r. split; [done|]. split; [apply unchanged_refl|done]. }
  unfold w. clear w. cbn [copy_word first_word].
  rewrite (unchanged_load8 _ _ _ _ U) by (apply Hc; lia).
  set (c := load8 m0 (command + idx)).
  destruct ((c =? 32) || (c =? 0) || (c =? 10)) eqn:Estop.
  { exists m. cbn. rewrite Z.add_0_r. split; [done|]. split; [apply unchanged_refl|done]. }
  assert (Hlt : idx < strlen m0 command).
  { destruct (decide (idx = strlen m0 command)) as [E|]; [|lia]. exfalso.
    destruct (strlen_spec m0 command) as (_ & Hz & _). unfold c in Estop. rewrite E, Hz in Estop. done. }
  set (m1 := store8 m (file_name + idx) c).
  assert (U1 : unchanged (in_range file_name 34) m m1) by (apply unchanged_store8; unfold in_range; lia).
  destruct (IH (idx + 1) m1 Hc (unchanged_trans _ _ _ _ U U1) ltac:(lia) ltac:(lia)) as (m' & E & U' & B).
  replace (command + idx + 1) with (command + (idx + 1)) by lia.
  set (w := first_word f m0 (command + (idx + 1))) in *. exists m'. cbn [length].
  split; [rewrite E; f_equal; lia|]. split.
  - eapply unchanged_trans; [|eapply unchanged_weaken; [|exact U']; unfold in_range; lia].
    apply unchanged_store8. unfold in_range. lia.
  - rewrite bytes_S. replace (file_name + idx + 1) with (file_name + (idx + 1)) by lia. rewrite B. f_equal.
    rewrite (unchanged_load8 _ _ _ _ U') by (unfold in_range; lia).
    unfold m1. rewrite load8_store8_eq. apply u8_small, load8_range.
Qed.

(** ** The program is found *)

(** A command whose first word names a program: a regular file that starts with
    the ELF magic, is long enough to hold the header, and whose length does not
    pass for a block number. *)
Record names_program (fs : filesys) (m : mem) (command : Z) (i : nat) : Prop := {
  np_short : (length (first_word 33 m command) <= 32)%nat;
  np_found : exists x, list_find (eq (first_word 33 m command)) (dir_names fs m) = Some (i, x);
  np_type : entry_type fs m (1 + Z.of_nat i) = REG_FILE;
  np_file : file_ok fs m (entry_inode fs m (1 + Z.of_nat i));
  np_size : Z.max 32 (bblock_D fs) <= file_size fs m (entry_inode fs m (1 + Z.of_nat i))
            <= PROG_HI - USER_PROG;
  np_magic : take 4 (file_bytes fs m (entry_inode fs m (1 + Z.of_nat i))) = elf_text
}.

Section Found.
Context `{Layout} (l : locals) (command : Z) (s : kst) (i : nat).
Context (XL : exec_layout l command s) (NP : names_program (k_fs s) (k_mem s) command i).
Context (Etext : bytes (k_mem s) (l_elf_text l) 4 = elf_text).
Context (Dtext : forall a, in_range (l_elf_text l) 4 a -> ~ search_frame l a).

Let fs := k_fs s.
Let inode := entry_inode fs (k_mem s) (1 + Z.of_nat i).

Lemma search_off_image a : search_frame l a -> ~ in_region (image fs) a.
Proof using XL.
  destruct XL as [_ HA _ _ _]. unfold exec_objects in HA. cbn [apart apart_from] in HA.
  destruct HA as (_ & (I1 & I2 & I3 & I4 & I5 & _) & _). clear -I1 I2 I3 I4 I5.
  unfold search_frame, lookup_frame, rdisj, disj, in_region, in_range in *. unfold fs. cbn [fst snd] in *. lia.
Qed.

(** The word in [file_name], NUL-terminated. *)
Lemma word_copied :
  exists m2 idx, copy_word 33 (l_file_name l) command 0 (k_mem s) = (idx, m2) /\
    let m3 := store8 m2 (l_file_name l + idx) 0 in
    unchanged (in_range (l_file_name l) 34) (k_mem s) m3 /\
    strlen m3 (l_file_name l) <= 32 /\ cname m3 (l_file_name l) 32 = first_word 33 (k_mem s) command.
Proof using XL NP.
  pose proof (np_short _ _ _ _ NP) as Hw. destruct XL as [_ HA _ _ _].
  unfold exec_objects in HA. cbn [apart apart_from] in HA. destruct HA as ((_ & C1 & _) & _).
  set (w := first_word 33 (k_mem s) command) in *.
  destruct (strlen_spec (k_mem s) command) as (Hs0 & _).
  destruct (copy_word_copies (l_file_name l) command (k_mem s) 33 0 (k_mem s)) as (m2 & E & U & B);
    [|apply unchanged_refl|lia|lia|].
  { intros j Hj. unfold rdisj, disj, in_range in *. cbn [fst snd] in C1. lia. }
  rewrite !Z.add_0_r, Z.add_0_l in *. fold w in E, U, B.
  exists m2, (Z.of_nat (length w)). split; [exact E|]. intros m3.
  assert (U3 : unchanged (in_range (l_file_name l + Z.of_nat (length w)) 1) m2 m3)
    by (apply unchanged_store8; unfold in_range; lia).
  assert (B3 : bytes m3 (l_file_name l) (length w) = w).
  { transitivity (bytes m2 (l_file_name l) (length w)); [|exact B].
    eapply unchanged_bytes; [exact U3|]. unfold in_range. lia. }
  assert (Hcs : is_cstr m3 (l_file_name l) (Z.of_nat (length w))).
  { apply is_cstr_of_bytes.
    - exact B3.
    - apply load8_store8_eq.
    - eapply Forall_impl; [apply first_word_chars|]. cbn. lia. }
  split; [|split].
  - apply (unchanged_trans _ _ m2); (eapply unchanged_weaken; [|eassumption]); unfold in_range; lia.
  - rewrite (strlen_eq _ _ _ Hcs). lia.
  - rewrite (cname_is_cstr _ _ _ _ Hcs), Nat2Z.id, Nat.min_r by lia. exact B3.
Qed.

(** The lookup of the word. *)
Lemma program_entry :
  exists m1 idx m3, copy_word 33 (l_file_name l) command 0 (k_mem s) = (idx, m1) /\
    read_dentry_by_name fs (l_file_name l) (l_dentry l) (store8 m1 (l_file_name l + idx) 0) = (0, m3) /\
    load32 m3 (l_dentry l + DE_FILETYPE) = REG_FILE /\ load32 m3 (l_dentry l + DE_INODE) = inode /\
    unchanged (search_frame l) (k_mem s) m3.
Proof using XL NP.
  destruct NP as [_ [x Hfind] Hty _ _ _]. fold fs in Hfind, Hty.
  destruct word_copied as (m1 & idx & Ecw & U3 & Hlen & Hname).
  set (m2 := store8 m1 (l_file_name l + idx) 0) in *.
  pose proof (xl_apart _ _ _ XL) as HA. pose proof (xl_low _ _ _ XL) as HL.
  unfold exec_objects in HA, HL. cbn [apart apart_from] in HA. rewrite !Forall_cons in HL.
  destruct HL as (L1 & L2 & L3 & L4 & L5 & _). cbn [fst snd dentry_region] in L1, L2, L3, L4, L5.
  destruct HA as (_ & (I1 & I2 & I3 & I4 & I5 & _) & (F1 & _) & (S1 & _) & _).
  assert (Hoff2 : forall a, in_range (l_file_name l) 34 a -> ~ in_region (boot_region fs) a).
  { pose proof (boot_apart l command s XL _ I1) as Hb. fold fs in Hb.
    unfold rdisj, disj, in_region, in_range in *. cbn [fst snd] in *. lia. }
  pose proof (xl_dir _ _ _ XL) as Hdir. fold fs in Hdir.
  assert (Hdir2 : dir_ok fs m2) by (eapply dir_ok_unchanged; [exact Hdir|exact U3|exact Hoff2]).
  pose proof (found_index fs (k_mem s) Hdir _ i x Hfind) as Hi.
  pose proof (read_dentry_by_name_spec fs (l_file_name l) (l_dentry l) m2 Hdir2 ltac:(lia) ltac:(lia) Hlen
    (boot_apart l command s XL _ I2)) as Hr.
  specialize (Hr ltac:(unfold rdisj, disj, scratch in *; cbn [fst snd] in *; lia)
    (boot_apart l command s XL _ I3) (boot_apart l command s XL _ I4) S1).
  assert (Hn2 : dir_names fs m2 = dir_names fs (k_mem s)).
  { unfold dir_names. pose proof Hdir as (_ & Hn & _).
    apply (names_from_unchanged fs _ (k_mem s) m2 Hdir U3 Hoff2); lia. }
  rewrite Hname, Hn2, Hfind in Hr. destruct Hr as (m3 & Er & U4 & T3 & N3 & _).
  assert (E2 : forall o, 0 <= o <= 60 -> load32 m2 (entry fs (1 + Z.of_nat i) + o) =
                load32 (k_mem s) (entry fs (1 + Z.of_nat i) + o))
    by (intros o Ho; apply (entry_load32_unchanged fs _ (k_mem s) m2 Hdir U3 Hoff2); [exact Hi|exact Ho]).
  assert (Ety : entry_type fs m2 (1 + Z.of_nat i) = REG_FILE)
    by (rewrite <- Hty; apply E2; unfold DE_FILETYPE; lia).
  assert (Ein : entry_inode fs m2 (1 + Z.of_nat i) = inode).
  { unfold inode, entry_inode. rewrite Ety, Hty. apply E2. unfold DE_INODE. lia. }
  rewrite Ety in T3. rewrite Ein in N3. exists m1, idx, m3.
  split; [exact Ecw|]. split; [exact Er|]. split; [exact T3|]. split; [exact N3|].
  apply (unchanged_trans _ _ m2); (eapply unchanged_weaken; [|eassumption]);
    unfold search_frame, lookup_frame; tauto.
Qed.

(** The header of the program, and the comparison with the magic. *)
Lemma program_header m3 :
  unchanged (search_frame l) (k_mem s) m3 ->
  exists m4, read_data fs (cur_pcb s) inode 0 (l_header l) 32 (-1) m3 = (32, m4) /\
    strncmp m4 (l_elf_text l) (l_header l) 4 = 0 /\ unchanged (search_frame l) (k_mem s) m4 /\
    bytes m4 (l_header l) 32 = file_slice fs (k_mem s) inode 0 32.
Proof using XL NP Etext Dtext.
  intros U3. destruct NP as [_ _ _ Hok [Hsz _] Hmagic]. fold fs inode in Hok, Hsz, Hmagic.
  pose proof Hok as (Him & Hin & _).
  pose proof (xl_apart _ _ _ XL) as HA. pose proof (xl_low _ _ _ XL) as HL.
  unfold exec_objects in HA, HL. cbn [apart apart_from] in HA. rewrite !Forall_cons in HL.
  destruct HL as (_ & _ & _ & _ & L5 & _). destruct HA as (_ & (_ & _ & _ & _ & I5 & _) & _).
  cbn [fst snd] in L5.
  assert (Es : file_size fs m3 inode = file_size fs (k_mem s) inode)
    by (eapply file_size_unchanged; [exact U3|exact search_off_image|exact Him|exact Hin]).
  destruct (read_data_exec fs (cur_pcb s) inode (l_header l) 32 m3) as (m4 & E4 & B4 & U4);
    [eapply file_ok_unchanged; [exact U3|exact search_off_image|exact Him|exact Hok]
    |lia|lia|lia|unfold rdisj, disj in *; fold fs in I5; lia|].
  rewrite Es, Z.min_l in E4, B4 by lia. change (Z.to_nat 32) with 32%nat in B4.
  assert (Ef : file_slice fs m3 inode 0 32 = file_slice fs (k_mem s) inode 0 32)
    by (eapply file_slice_unchanged; [exact U3|exact search_off_image|exact Him|exact Hok|lia|lia]).
  rewrite Ef in B4.
  assert (U : unchanged (search_frame l) (k_mem s) m4).
  { eapply unchanged_trans; [exact U3|]. eapply unchanged_weaken; [|exact U4]. unfold search_frame. tauto. }
  exists m4. split; [exact E4|]. split; [|split; [exact U|exact B4]].
  apply strncmp_zero; [lia|]. change (Z.to_nat 4) with 4%nat.
  assert (Bt : bytes m4 (l_elf_text l) 4 = elf_text)
    by (rewrite <- Etext; eapply unchanged_bytes; [exact U|exact Dtext]).
  assert (Bh : bytes m4 (l_header l) 4 = elf_text).
  { pose proof (file_slice_take_drop fs (k_mem s) inode 0 4 ltac:(lia) ltac:(lia) ltac:(lia)) as Et.
    change (Z.to_nat 4) with 4%nat in Et. change (drop (Z.to_nat 0) ?f) with f in Et.
    rewrite <- Hmagic, <- Et.
    apply (f_equal (take 4)) in B4. change 32%nat with (4 + 28)%nat in B4.
    rewrite bytes_app, file_slice_app, !take_app_length' in B4
      by (now rewrite ?length_bytes, ?length_file_slice). exact B4. }
  apply cname_ext. intros k Hk _. apply (bytes_eq_load8 m4 m4 _ _ 4 k); [|lia]. now rewrite Bt, Bh.
Qed.

Lemma found_program :
  exists m', find_program l command s = (Some inode, set_k_mem m' s) /\
    unchanged (search_frame l) (k_mem s) m' /\
    bytes m' (l_header l) 32 = file_slice fs (k_mem s) inode 0 32.
Proof using XL NP Etext Dtext.
  destruct program_entry as (m1 & idx & m3 & E1 & E2 & T & I & U3).
  destruct (program_header m3 U3) as (m4 & E4 & Ec & U4 & B4).
  exists m4. unfold find_program. rewrite E1. fold fs. rewrite E2. cbn [Z.eqb].
  rewrite T, I. cbn [Z.eqb Pos.eqb negb REG_FILE]. rewrite E4. cbn [Z.eqb].
  rewrite Ec. cbn [Z.eqb negb]. split; [reflexivity|]. split; [exact U4|exact B4].
Qed.
End Found.

(** ** The program is in its page *)

Section Loaded.
Context (l : locals) (page : Z) (s : kst) (inode : Z).
Context (Hp : page = ret_dir_ptr s + 4 * PRO_IDX) (H0 : 0 <= page) (Hlow : page + 4 <= PROG_LO).
Context (Hn : 0 <= process_number s < 6).
Context (Hok : file_ok (k_fs s) (k_mem s) inode).
Context (Hsize : bblock_D (k_fs s) <= file_size (k_fs s) (k_mem s) inode).
Context (Himg : (image (k_fs s)).1 + (image (k_fs s)).2 <= PROG_LO).
Context (Hip : rdisj (image (k_fs s)) (page, 4)).
Context (Hin : rdisj (image (k_fs s)) (l_new_pcb l, PCB_SIZE)).

Lemma load_program_bytes :
  bytes (k_mem (load_program l inode page s)) USER_PROG
    (Z.to_nat (file_size (k_fs s) (k_mem s) inode)) = file_bytes (k_fs s) (k_mem s) inode.
Proof using Hp H0 Hlow Hn Hok Hsize Himg Hip Hin.
  pose proof Hok as (Him & Hi & Hs & _). rewrite load_program_steps. cbv zeta.
  rewrite program_frame_eq by exact Hn. set (s1 := upd_mem _ s).
  destruct (switch_page_spec page (process_number s + 2) s1) as (_ & _ & _ & F2 & _ & S2);
    [rewrite (ret_dir_ptr_cpu s1 s) by reflexivity; exact Hp|lia|exact H0|exact Hlow|].
  set (s2 := switch_page page (process_number s + 2) s1) in *. cbn [k_mem set_k_mem].
  assert (Efs : k_fs s2 = k_fs s) by (rewrite S2; reflexivity). rewrite Efs.
  assert (HA : image_agree (k_fs s) (k_mem s) (k_mem s2)).
  { intros a Ha. unfold rdisj, disj, in_region, in_range, PCB_SIZE in *. cbn [fst snd] in *.
    transitivity (load8 (k_mem s1) a).
    - eapply framed_load8; [apply (F2 0)| |unfold in_range; lia].
      apply (low_kernel a 1 ltac:(lia)). unfold in_range. lia.
    - cbn [k_mem upd_mem set_k_mem s1]. apply load8_store32_ne. unfold PCB_OLD_PHYS. lia. }
  destruct (read_data_exec (k_fs s) (cur_pcb s2) inode USER_PROG FOUR_MB (k_mem s2)) as (m3 & E & B & _).
  - eapply file_ok_agree; [exact HA|exact Him|exact Hok].
  - rewrite (file_size_agree _ _ _ HA Him) by exact Hi. exact Hsize.
  - discriminate.
  - unfold FOUR_MB. lia.
  - unfold rdisj, disj, PROG_LO, USER_PROG in *. cbn [fst snd]. lia.
  - rewrite E. cbn [snd]. rewrite (file_size_agree _ _ _ HA Him) in B by exact Hi.
    rewrite Z.min_r in B by (unfold FOUR_MB, FOUR_KB in *; lia). rewrite B.
    apply file_slice_agree; [exact HA|exact Him|exact Hok|lia|].
    assert (0 <= file_size (k_fs s) (k_mem s) inode) by apply load32_range. lia.
Qed.
End Loaded.

(** ** Execute succeeds *)

(** A little-endian word of a file. *)
Definition file_word (fs : filesys) (m : mem) (inode o : Z) : Z :=
  file_byte fs m inode o + 256 * file_byte fs m inode (o + 1) + 65536 * file_byte fs m inode (o + 2)
  + 16777216 * file_byte fs m inode (o + 3).

Lemma slice_byte fs m' inode o n m a j :
  bytes m a n = file_slice fs m' inode o n -> 0 <= j < Z.of_nat n ->
  load8 m (a + j) = file_byte fs m' inode (o + j).
Proof.
  intros E Hj. apply (f_equal (lookup (Z.to_nat j))) in E.
  unfold file_slice in E. rewrite bytes_lookup, list_lookup_fmap, zseq_lookup in E by lia.
  injection E as E. now rewrite !Z2Nat.id in E by lia.
Qed.

Lemma entry_point_word l m : entry_point l m = load32 m (l_header l + 24).
Proof.
  unfold entry_point, load32. cbv zeta. rewrite !Z.shiftl_mul_pow2 by lia. rewrite <- !Z.add_assoc.
  change (24 + 1) with 25. change (24 + 2) with 26. change (24 + 3) with 27.
  pose proof (load8_range m (l_header l + 24)). pose proof (load8_range m (l_header l + 25)).
  pose proof (load8_range m (l_header l + 26)). pose proof (load8_range m (l_header l + 27)).
  rewrite u32_small; lia.
Qed.

(** Building and installing the control block stays inside its two copies. *)
Lemma install_frame `{Layout} l s :
  unchanged (fun a => in_range (l_new_pcb l) PCB_SIZE a \/
                      in_range (pcb_address (process_number s)) PCB_SIZE a)
    (k_mem s) (k_mem (install_pcb l (build_pcb (l_new_pcb l) s))).
Proof.
  destruct (build_pcb_spec (l_new_pcb l) s) as (B1 & _ & _ & _ & _ & _ & _ & B8 & _).
  set (s4 := build_pcb (l_new_pcb l) s) in *. unfold install_pcb. rewrite B8.
  apply (unchanged_trans _ _ (k_mem s4)).
  - eapply unchanged_weaken; [|exact B1]. unfold in_range, PCB_OLD_ESP0, PCB_SIZE. lia.
  - destruct (copy_pcb_spec (pcb_address (process_number s)) (l_new_pcb l) (k_mem s4)) as [U _].
    eapply unchanged_weaken; [|exact U]. tauto.
Qed.

(** The end of a call in which every check passed. *)
Lemma sys_execute_steps `{Layout} l command s inode m1 m2 page :
  process_number s < 6 -> find_program l command s = (Some inode, set_k_mem m1 s) ->
  strcpy m1 (l_new_pcb l + PCB_INPUT) command = Some m2 ->
  get_bigPage PRO_IDX (set_k_mem m2 s) = page -> page <> 0 ->
  let s5 := install_pcb l (build_pcb (l_new_pcb l) (load_program l inode page (set_k_mem m2 s))) in
  sys_execute_c l command s =
  ExecEnter (entry_point l (k_mem s5)) (Z.lor USER_PROG (FOUR_MB - 4)) USER_CS USER_DS (finish l s5).
Proof.
  intros Hn E1 Ec Eb Hp s5. unfold sys_execute_c. replace (6 <=? process_number s) with false by lia.
  rewrite E1. change (k_mem (set_k_mem m1 s)) with m1. rewrite Ec.
  change (set_k_mem m2 (set_k_mem m1 s)) with (set_k_mem m2 s). rewrite Eb, (proj2 (Z.eqb_neq _ _) Hp).
  fold s5. clearbody s5. reflexivity.
Qed.

Section Starts.
Context `{Layout} (l : locals) (command : Z) (s : kst) (i : nat).
Context (XL : exec_layout l command s) (NP : names_program (k_fs s) (k_mem s) command i).
Context (Etext : bytes (k_mem s) (l_elf_text l) 4 = elf_text).
Context (Dtext : forall a, in_range (l_elf_text l) 4 a -> ~ search_frame l a).
Context (Hn : 0 <= process_number s < 6).
Context (Hpres : load32 (k_mem s) (page_entry s) mod 2 = 1).
Context (Himg : (image (k_fs s)).1 + (image (k_fs s)).2 <= PROG_LO).

Let fs := k_fs s.
Let inode := entry_inode fs (k_mem s) (1 + Z.of_nat i).
Let size := file_size fs (k_mem s) inode.

(** The steps before the program page moves. *)
Lemma prepared_program :
  exists m1 m2, find_program l command s = (Some inode, set_k_mem m1 s) /\
    strcpy m1 (l_new_pcb l + PCB_INPUT) command = Some m2 /\
    unchanged (fun a => search_frame l a \/ in_range (l_new_pcb l) PCB_SIZE a) (k_mem s) m2 /\
    get_bigPage PRO_IDX (set_k_mem m2 s) = page_entry s /\ page_entry s <> 0 /\
    bytes m2 (l_header l) 32 = file_slice fs (k_mem s) inode 0 32.
Proof using XL NP Etext Dtext Hn Hpres.
  destruct (found_program l command s i XL NP Etext Dtext) as (m1 & E1 & U1 & B1).
  fold fs inode in E1, B1.
  destruct (strcpy_command l command s XL m1 U1) as (m2 & Ec & U2 & _).
  destruct (exec_addresses l command s XL) as (Anp & Apg & _ & Dnp & _ & Hsf & _).
  unfold rdisj, disj, PCB_SIZE in Dnp. cbn [fst snd] in Dnp.
  assert (Hhdr : forall a, in_range (l_header l) 32 a -> ~ in_range (l_new_pcb l) PCB_SIZE a)
    by (intros a Ha; apply Hsf; unfold search_frame; tauto).
  assert (Epg : load32 m2 (page_entry s) = load32 (k_mem s) (page_entry s)).
  { transitivity (load32 m1 (page_entry s)).
    - eapply unchanged_load32; [exact U2|]. unfold in_range, PCB_INPUT. lia.
    - eapply unchanged_load32; [exact U1|]. intros b Hb Hs. destruct (Hsf b Hs) as (_ & Hx & _). exact (Hx Hb). }
  set (s2 := set_k_mem m2 s).
  assert (Hb : get_bigPage PRO_IDX s2 <> 0).
  { apply get_bigPage_program. change (page_entry s2) with (page_entry s).
    change (k_mem s2) with m2. rewrite Epg. exact Hpres. }
  pose proof (get_bigPage_entry _ _ Hb) as Eb. change (ret_dir_ptr s2 + 4 * PRO_IDX) with (page_entry s) in Eb.
  exists m1, m2. split; [exact E1|]. split; [exact Ec|]. split; [|split; [exact Eb|split; [now rewrite <- Eb|]]].
  - apply (unchanged_trans _ _ m1); [eapply unchanged_weaken; [|exact U1]; tauto|].
    eapply unchanged_weaken; [|exact U2]. unfold in_range, PCB_INPUT, PCB_SIZE. lia.
  - rewrite <- B1. eapply unchanged_bytes; [exact U2|]. intros b Hb' Hin. apply (Hhdr b Hb').
    unfold in_range, PCB_INPUT, PCB_SIZE in *. lia.
Qed.

(** Where the file and the header are once the control block is installed. *)
Lemma installed_program m2 :
  unchanged (fun a => search_frame l a \/ in_range (l_new_pcb l) PCB_SIZE a) (k_mem s) m2 ->
  bytes m2 (l_header l) 32 = file_slice fs (k_mem s) inode 0 32 ->
  let s5 := install_pcb l (build_pcb (l_new_pcb l) (load_program l inode (page_entry s) (set_k_mem m2 s))) in
  cur_pcb s5 = pcb_address (process_number s) /\
  entry_point l (k_mem s5) = file_word fs (k_mem s) inode 24 /\
  bytes (k_mem s5) USER_PROG (Z.to_nat size) = file_bytes fs (k_mem s) inode.
Proof using XL NP Hn Himg.
  intros U2 B2 s5. set (s2 := set_k_mem m2 s) in *. set (s3 := load_program l inode (page_entry s) s2) in *.
  destruct NP as [_ _ _ Hok [Hsz Hmax] _]. fold fs inode in Hok, Hsz, Hmax. fold size in Hsz, Hmax.
  pose proof Hok as (Him & Hi & _).
  destruct (exec_addresses l command s XL) as (Anp & Apg & Apc & Dnp & _ & Hsf & _).
  pose proof (xl_apart _ _ _ XL) as HA. unfold exec_objects in HA. cbn [apart apart_from] in HA.
  destruct HA as (_ & (_ & _ & _ & _ & _ & I6 & I7 & _) & _ & _ & _ & _ & (_ & _ & H7 & _) & _).
  assert (HA2 : image_agree fs (k_mem s) m2).
  { eapply unchanged_agree; [exact U2|]. intros a [Ha|Ha]; [by eapply search_off_image|].
    unfold rdisj, disj, in_region, in_range in *. fold fs in I6. cbn [fst snd] in I6. lia. }
  pose proof (load_program_spec l (page_entry s) s2 eq_refl ltac:(lia) ltac:(unfold PROG_LO; lia) Hn
    ltac:(lia) ltac:(unfold PCB_SIZE, EIGHT_MB; lia) Dnp inode) as (_ & _ & L3 & L4 & _ & _ & L7).
  fold s3 in L3, L4, L7.
  assert (En : process_number s3 = process_number s) by (rewrite L7; reflexivity).
  pose proof (install_frame l s3) as U5. fold s5 in U5. rewrite En in U5.
  split; [|split].
  - unfold s5, install_pcb. cbn [cur_pcb set_process_number set_cur_pcb].
    destruct (build_pcb_spec (l_new_pcb l) s3) as (_ & _ & _ & _ & _ & _ & _ & B8 & _). now rewrite B8, En.
  - rewrite entry_point_word. unfold file_word.
    assert (Hh : forall j, 0 <= j < 32 -> load8 (k_mem s5) (l_header l + j) = file_byte fs (k_mem s) inode j).
    { intros j Hj. pose proof (slice_byte fs (k_mem s) inode 0 32 m2 (l_header l) j B2 ltac:(lia)) as Eb.
      rewrite Z.add_0_l in Eb. rewrite <- Eb.
      assert (Hs : search_frame l (l_header l + j)) by (right; right; unfold in_range; lia).
      destruct (Hsf _ Hs) as (Hs1 & Hs2 & Hs3).
      rewrite (unchanged_load8 _ _ _ _ U5).
      - eapply framed_load8; [exact L4|apply (low_kernel (l_header l + j) 1 ltac:(unfold PROG_LO; lia)); unfold in_range; lia|].
        unfold load_frame, EIGHT_MB, in_range, PCB_OLD_PHYS, PCB_SIZE in *. lia.
      - unfold rdisj, disj, in_range in *. cbn [fst snd] in H7. lia. }
    unfold load32. rewrite <- !Z.add_assoc, !Hh by lia. reflexivity.
  - pose proof (load_program_bytes l (page_entry s) s2 inode eq_refl ltac:(lia) ltac:(unfold PROG_LO; lia) Hn
      (file_ok_agree fs (k_mem s) m2 HA2 Him inode Hok)) as Hl.
    change (k_fs s2) with fs in Hl. change (k_mem s2) with m2 in Hl.
    rewrite (file_bytes_agree fs (k_mem s) m2 HA2 Him inode Hok),
      (file_size_agree fs (k_mem s) m2 HA2 Him inode Hi) in Hl. fold size s3 in Hl.
    rewrite <- (Hl ltac:(lia) Himg I7 I6). eapply unchanged_bytes; [exact U5|].
    unfold in_range, USER_PROG, PCB_SIZE. lia.
Qed.

Lemma execute_enters :
  exists s', sys_execute_c l command s =
      ExecEnter (file_word fs (k_mem s) inode 24) (Z.lor USER_PROG (FOUR_MB - 4)) USER_CS USER_DS s' /\
    bytes (k_mem s') USER_PROG (Z.to_nat size) = file_bytes fs (k_mem s) inode.
Proof using XL NP Etext Dtext Hn Hpres Himg.
  destruct prepared_program as (m1 & m2 & E1 & Ec & U2 & Eb & Hp0 & B2).
  destruct (installed_program m2 U2 B2) as (Ecur & Eip & Hb).
  rewrite (sys_execute_steps l command s inode m1 m2 (page_entry s) (proj2 Hn) E1 Ec Eb Hp0). cbv zeta.
  revert Ecur Eip Hb. generalize (install_pcb l (build_pcb (l_new_pcb l)
    (load_program l inode (page_entry s) (set_k_mem m2 s)))). intros s5 Ecur Eip Hb.
  exists (finish l s5). rewrite Eip. split; [reflexivity|]. rewrite <- Hb.
  eapply unchanged_bytes; [apply unchanged_store32; intros b Hx; exact Hx|].
  cbn [cur_pcb upd_cpu set_k_cpu]. rewrite Ecur.
  destruct (exec_addresses l command s XL) as (_ & _ & Apc & _).
  unfold in_range, PCB_OLD_EBP, USER_PROG. lia.
Qed.
End Starts.

(** ** Theorems *)

(** C4 When the first word of the command names a program in the directory, fewer
    than six processes run and the program page is present, execute succeeds: the
    file is in the program page of the new process byte for byte, and the processor
    continues in user mode at the entry point that bytes 24 to 27 of the file give,
    with the stack at the end of the program page. *)
Theorem execute_succeeds `{Layout} l command s i :
  exec_layout l command s -> names_program (k_fs s) (k_mem s) command i ->
  bytes (k_mem s) (l_elf_text l) 4 = elf_text ->
  (forall a, in_range (l_elf_text l) 4 a -> ~ search_frame l a) ->
  0 <= process_number s < 6 -> load32 (k_mem s) (page_entry s) mod 2 = 1 ->
  (image (k_fs s)).1 + (image (k_fs s)).2 <= PROG_LO ->
  let inode := entry_inode (k_fs s) (k_mem s) (1 + Z.of_nat i) in
  exists s', sys_execute_c l command s =
      ExecEnter (file_word (k_fs s) (k_mem s) inode 24) 0x83FFFFC USER_CS USER_DS s' /\
    bytes (k_mem s') USER_PROG (Z.to_nat (file_size (k_fs s) (k_mem s) inode)) =
      file_bytes (k_fs s) (k_mem s) inode.
Proof. intros. by apply execute_enters. Qed.

(** A successful execute enters user mode with the next process: the program
    page moved to the frame of the process, the control block at its place under
    8 MB with standard input and output open and six free descriptors, the
    parent's control block, kernel stack, page base and frame pointer saved in it,
    and the program pages of all other processes untouched. *)
Theorem execute_starts_process `{Layout} l command s eip esp cs ds s' :
  exec_layout l command s -> 0 <= process_number s ->
  sys_execute_c l command s = ExecEnter eip esp cs ds s' ->
  entered l s s' /\ cs = USER_CS /\ ds = USER_DS /\ PROG_LO <= esp < PROG_HI /\
  (forall p a, in_window a = true -> p <> process_number s + 2 ->
     byte_at (k_mem s') p a = byte_at (k_mem s) p a).
Proof.
  intros XL Hn0 E. pose proof (execute_entered l command s eip esp cs ds s' XL Hn0 E) as He.
  apply execute_selectors in E as (-> & -> & ->).
  split; [exact He|]. split; [reflexivity|]. split; [reflexivity|]. split; [vm_compute; split; congruence|].
  destruct He as (_ & _ & _ & _ & _ & _ & _ & _ & _ & _ & _ & _ & _ & F).
  intros p a W Hp. apply F. unfold touches. rewrite W. exact Hp.
Qed.

(** C5 Halt undoes execute: whatever the child did, if it kept its saved words, the
    directory entry and valid operation tables in its open descriptors, then halting
    returns the low byte of the status through
    the frame pointer execute saved, with the parent's control block, kernel
    stack, process count and program page in effect again. *)
Theorem execute_halt_roundtrip `{Ports} `{Layout} l command s eip esp cs ds s1 s2 status :
  exec_layout l command s -> 0 <= process_number s ->
  sys_execute_c l command s = ExecEnter eip esp cs ds s1 ->
  cur_pcb s2 = cur_pcb s1 -> process_number s2 = process_number s1 -> ret_dir_ptr s2 = ret_dir_ptr s1 ->
  (forall off, off ∈ [PCB_OLD_PCB; PCB_OLD_PHYS; PCB_OLD_ESP0; PCB_OLD_EBP] ->
     load32 (k_mem s2) (cur_pcb s1 + off) = load32 (k_mem s1) (cur_pcb s1 + off)) ->
  load32 (k_mem s2) (page_entry s) = load32 (k_mem s1) (page_entry s) ->
  halt_layout s2 -> tables_valid s2 ->
  exists s3, sys_halt_c status s2 = Some (Z.land 0xFF (u8 status), u32 (l_ebp l), s3) /\
    cur_pcb s3 = u32 (cur_pcb s) /\ tss_esp0 (k_cpu s3) = u32 (tss_esp0 (k_cpu s)) /\
    process_number s3 = process_number s /\
    load32 (k_mem s3) (page_entry s) = load32 (k_mem s) (page_entry s) /\
    tlb (k_mem s3) = PG_BIG_BASE (load32 (k_mem s) (page_entry s)) /\
    ret_dir_ptr s3 = ret_dir_ptr s.
Proof.
  intros XL Hn0 E Hcur Hpn Hdir Hsaved Hpage HL HT.
  assert (Hc : is_Some (close_all 8 0 (set_process_number (process_number s2 - 1) s2)))
    by (apply close_all_total; [apply (hl_open _ HL)|apply (hl_read _ HL)|exact HT|lia|lia]).
  destruct Hc as [sc Hc].
  pose proof (Hsaved PCB_OLD_PCB ltac:(rewrite list_elem_of_In; cbn; tauto)) as V1.
  pose proof (Hsaved PCB_OLD_PHYS ltac:(rewrite list_elem_of_In; cbn; tauto)) as V2.
  pose proof (Hsaved PCB_OLD_ESP0 ltac:(rewrite list_elem_of_In; cbn; tauto)) as V3.
  pose proof (Hsaved PCB_OLD_EBP ltac:(rewrite list_elem_of_In; cbn; tauto)) as V4.
  clear Hsaved.
  pose proof (execute_present l command s eip esp cs ds s1 XL E) as Hpres.
  apply execute_entered in E; [|done|done].
  destruct E as (Hlt & E1 & E2 & E3 & E4 & E5 & E6 & E7 & E8 & E9 & E10 & _).
  rewrite <- E1 in E7, E8, E9, E10.
  assert (Epe : page_entry s2 = page_entry s) by (unfold page_entry; congruence).
  pose proof (load32_range (k_mem s) (page_entry s)) as Hr.
  destruct (set_big_base (process_number s + 2) (load32 (k_mem s) (page_entry s)))
    as (_ & _ & Hmod & _); [lia|done|].
  assert (HB : 0 <= PG_BIG_BASE (load32 (k_mem s) (page_entry s)) < 1024).
  { unfold PG_BIG_BASE, get_field. change (2 ^ 10) with 1024. zdm. }
  assert (Hb2 : get_bigPage PRO_IDX s2 <> 0).
  { apply get_bigPage_program. rewrite Epe, Hpage, E6. zdm. }
  destruct (halt_spec status s2 sc HL) as (s3 & H1 & H2 & H3 & H4 & H5 & H6 & H7 & _);
    [lia|exact Hb2|exact Hc| |].
  { rewrite Hcur, V2, E7. lia. }
  exists s3. rewrite Hcur in H1, H2, H3, H5, H6. rewrite V4, E10 in H1. rewrite V1, E8 in H2.
  rewrite V3, E9 in H3. rewrite V2, E7 in H6. rewrite V2, Epe, Hpage, E6, E7 in H5.
  split; [exact H1|]. split; [exact H2|]. split; [exact H3|]. split; [lia|].
  split; [|split; [exact H6|congruence]].
  rewrite H5.
  destruct (set_big_base (process_number s + 2) (load32 (k_mem s) (page_entry s)))
    as (_ & _ & _ & Hback); [lia|done|]. exact Hback.
Qed.


(** ** A concrete program

    An image with the program "sh" of 40 bytes, started by the kernel with the
    page tables of [test_layout]. *)
Definition prog_fs : filesys := mkFilesys 0x500000 1 1 2 0.

Definition prog_mem : mem :=
  let m := Mem ∅ ∅ 0 in
  let m := store_list m 0x500040 [115; 104] in
  let m := store32 m 0x500060 REG_FILE in
  let m := store32 m 0x501000 40 in
  let m := store_list m 0x502000 [0x7F; 69; 76; 70] in
  let m := store_list m 0x502018 [0x94; 0x80; 4; 8] in
  let m := store_list m 0x3500 elf_text in
  let m := store_list m 0x2000 [115; 104; 32; 120] in
  store32 m 0x10080 0x97.

Definition prog_locals : locals :=
  mkLocals 0x7FD000 0x7FD040 0x7FD080 0x7FD100 0x3500 0x7FDFF0.

Definition prog_state : kst :=
  mkKst prog_mem (mkConsole 0 0) (mkPic 0 0) 0 (mkKeyboard 0 0 0 0 0 0 0) prog_fs 0x4000 0
        (mkCpu true 0x7FFFFC 0 0x10000 0) [].

#[local] Existing Instance test_layout.
#[local] Instance quiet : Ports := fun _ _ => 0.

Ltac sep_solve := vm_compute; repeat split; first [left; congruence | right; congruence | congruence].

Lemma prog_layout : exec_layout prog_locals 0x2000 prog_state.
Proof.
  split.
  - split; [vm_compute; congruence|]. split; [vm_compute; intuition congruence|].
    intros i Hi. cbn in Hi. assert (i = 1) as -> by lia. vm_compute. reflexivity.
  - sep_solve.
  - sep_solve.
  - unfold exec_objects. repeat (constructor; [vm_compute; split; congruence|]). constructor.
  - vm_compute. reflexivity.
Qed.

Lemma prog_names : names_program (k_fs prog_state) (k_mem prog_state) 0x2000 0.
Proof.
  assert (Ei : entry_inode (k_fs prog_state) (k_mem prog_state) (1 + Z.of_nat 0) = 0)
    by (vm_compute; reflexivity).
  assert (Es : file_size (k_fs prog_state) (k_mem prog_state) 0 = 40) by (vm_compute; reflexivity).
  split; rewrite ?Ei, ?Es.
  - vm_compute. lia.
  - exists [115; 104]. vm_compute. reflexivity.
  - vm_compute. reflexivity.
  - split; [vm_compute; intuition congruence|]. split; [cbn; lia|]. rewrite Es.
    split; [unfold FOUR_KB; lia|]. intros o Ho.
    replace (o / FOUR_KB) with 0 by (unfold FOUR_KB; zdm). vm_compute. reflexivity.
  - vm_compute. split; congruence.
  - unfold file_bytes. rewrite Es. vm_compute. reflexivity.
Qed.

Lemma prog_text_apart a : in_range (l_elf_text prog_locals) 4 a -> ~ search_frame prog_locals a.
Proof. unfold search_frame, lookup_frame, in_region, in_range. cbn. lia. Qed.

Lemma prog_text : bytes (k_mem prog_state) (l_elf_text prog_locals) 4 = elf_text.
Proof. vm_compute. reflexivity. Qed.

Lemma prog_present : load32 (k_mem prog_state) (page_entry prog_state) mod 2 = 1.
Proof. vm_compute. reflexivity. Qed.

Lemma prog_entry : file_word (k_fs prog_state) (k_mem prog_state)
  (entry_inode (k_fs prog_state) (k_mem prog_state) (1 + Z.of_nat 0)) 24 = 0x8048094.
Proof. vm_compute. reflexivity. Qed.

Lemma execute_succeeds_witness :
  exists s', sys_execute_c prog_locals 0x2000 prog_state = ExecEnter 0x8048094 0x83FFFFC USER_CS USER_DS s'.
Proof.
  destruct (execute_succeeds prog_locals 0x2000 prog_state 0 prog_layout prog_names prog_text
    prog_text_apart ltac:(cbn; lia) prog_present ltac:(vm_compute; congruence)) as (s' & E & _).
  rewrite prog_entry in E. exists s'. exact E.
Defined.

(** The same run, for the theorems about a successful execute. *)
Lemma prog_enters :
  exists eip esp s', sys_execute_c prog_locals 0x2000 prog_state = ExecEnter eip esp USER_CS USER_DS s'.
Proof.
  destruct (execute_enters prog_locals 0x2000 prog_state 0 prog_layout prog_names prog_text
    prog_text_apart ltac:(cbn; lia) prog_present ltac:(vm_compute; congruence)) as (s' & E & _).
  eexists _, _, s'. exact E.
Qed.

Lemma execute_starts_process_witness :
  exists eip esp s', sys_execute_c prog_locals 0x2000 prog_state = ExecEnter eip esp USER_CS USER_DS s' /\
    entered prog_locals prog_state s'.
Proof.
  destruct prog_enters as (eip & esp & s' & E). exists eip, esp, s'. split; [exact E|].
  apply (execute_starts_process prog_locals 0x2000 prog_state eip esp USER_CS USER_DS s');
    [exact prog_layout|cbn; lia|exact E].
Defined.

(** The child can halt at once. *)
Lemma prog_child_ready s' :
  entered prog_locals prog_state s' -> halt_layout s' /\ tables_valid s'.
Proof.
  intros (_ & Ec & _ & _ & _ & Ed & _ & _ & _ & _ & _ & Fl & Fo & _).
  assert (E1 : cur_pcb s' = 0x7FE000) by (rewrite Ec; reflexivity).
  assert (E2 : ret_dir_ptr s' = 0x10000) by (rewrite Ed; reflexivity).
  split; [split; unfold page_entry; rewrite ?E1, ?E2; sep_solve|].
  intros fd Hfd Ho. unfold fd_open, fd_used in Ho. rewrite Ec, Fl in Ho by exact Hfd.
  destruct (Z.ltb_spec fd 2) as [Hlt|Hge]; [|discriminate].
  unfold fd_ops. rewrite Ec, Fo by lia. vm_compute. by eexists.
Qed.

Lemma execute_halt_roundtrip_witness :
  exists s1 s3, sys_halt_c 7 s1 = Some (7, 0x7FDFF0, s3) /\ cur_pcb s3 = 0x4000.
Proof.
  destruct prog_enters as (eip & esp & s1 & E).
  destruct (prog_child_ready s1) as [HL HT];
    [exact (execute_entered prog_locals 0x2000 prog_state _ _ _ _ s1 prog_layout ltac:(cbn; lia) E)|].
  destruct (execute_halt_roundtrip prog_locals 0x2000 prog_state eip esp USER_CS USER_DS s1 s1 7)
    as (s3 & E3 & Ep & _);
    [exact prog_layout|cbn; lia|exact E|reflexivity|reflexivity|reflexivity
    |intros; reflexivity|reflexivity|exact HL|exact HT|].
  exists s1, s3. split; [exact E3|exact Ep].
Defined.

