(* ===== verification/Trap.v ===== *)
(** * Trap linkage, exceptions.S, and the wrappers of ece391syscall.S

    A program reaches the kernel through INT 0x80 with the call number in EAX and up
    to three arguments in EBX, ECX and EDX.  [SYS_CALL_HANDLER] checks the number,
    jumps through [jump_table] and returns with IRET, all registers but EAX
    restored.  Exceptions jump to the code of halt with 256 in EBX.

    What happens while a call runs is given by [Traps]: the interrupts that arrive
    during it, as a function of the state in which it starts, the place of its local
    objects, and the turns the loops of getargs may take. *)

From S2P Require Import Prelude Mem CString State Pcb Filesys Keyboard Paging Syscalls.

Class Traps := {
  arrivals : kst -> schedule;
  open_local : Z;              (* dentry_t dentry of sys_open_c *)
  exec_locals : locals;
  args_fuel : nat
}.

(** The labels of the jump table. *)
Inductive label :=
| l_sys_halt | l_sys_execute | l_sys_read | l_sys_write | l_sys_open | l_sys_close
| l_sys_getargs | l_sys_vidmap | l_sys_set_handler | l_sys_sigreturn.

Definition jump_table : list label :=
  [l_sys_halt; l_sys_execute; l_sys_read; l_sys_write; l_sys_open; l_sys_close;
   l_sys_getargs; l_sys_vidmap; l_sys_set_handler; l_sys_sigreturn].

(** How the processor leaves the handler. *)
Inductive trap_result :=
| Iret (eax : Z) (s : kst)                     (* back to the caller *)
| Enter (eip esp cs ds : Z) (s : kst)          (* execute: into the new program *)
| Return (eax ebp : Z) (s : kst)               (* halt: to [exec_done] in the parent's frame *)
| StackLost (s : kst)                          (* the saved registers are not under ESP *)
| NoReturn.

(** The code at [exec_done]: a status of 0 runs halt again, -1 and 256 are returned,
    any other status returns EBX. *)
Inductive after_exec := HaltAgain | ReturnEax | ReturnEbx.

Definition exec_done (eax : Z) : after_exec :=
  if eax =? 0 then HaltAgain
  else if (eax =? -1) || (eax =? 256) then ReturnEax
  else ReturnEbx.

(** The bytes the code of halt leaves ESP above the saved registers when
    [sys_halt_c] returns: a push of two bytes and two pops of four. *)
Definition halt_stack_delta : Z := - 2 + 4 + 4.

Section Linkage.
Context `{Ports} `{Layout} `{Traps}.

(** The code at [sys_halt]: BX is pushed and [sys_halt_c] takes its low byte. *)
Definition linkage_halt (ebx : Z) (s : kst) : trap_result :=
  match sys_halt_c (u8 ebx) s with
  | None => NoReturn
  | Some (v, ebp, s') =>
      if v =? -1 then (if halt_stack_delta =? 0 then Iret v s' else StackLost s')
      else Return v ebp s'
  end.

Definition linkage_execute (ebx : Z) (s : kst) : trap_result :=
  match sys_execute_c exec_locals ebx s with
  | ExecFail s' => Iret (-1) s'
  | ExecEnter eip esp cs ds s' => Enter eip esp cs ds s'
  | ExecHang => NoReturn
  end.

Definition return_of (r : option (Z * kst)) : trap_result :=
  match r with Some (v, s) => Iret v s | None => NoReturn end.

(** The code at each label. *)
Definition run_label (t : label) (ebx ecx edx : Z) (s : kst) : trap_result :=
  match t with
  | l_sys_halt => linkage_halt ebx s
  | l_sys_execute => linkage_execute ebx s
  | l_sys_read => return_of (sys_read_c (arrivals s) ebx ecx edx s)
  | l_sys_write => return_of (sys_write_c ebx ecx edx s)
  | l_sys_open => return_of (Some (sys_open_c open_local ebx s))
  | l_sys_close => return_of (sys_close_c ebx s)
  | l_sys_getargs => return_of (sys_getargs_c args_fuel ebx ecx s)
  | l_sys_vidmap => return_of (Some (sys_vidmap_c ebx s))
  | l_sys_set_handler => return_of (sys_getargs_c args_fuel ebx ecx s)
  | l_sys_sigreturn => return_of (Some (sys_sigreturn_c s))
  end.

Definition SYS_CALL_HANDLER (eax ebx ecx edx : Z) (s : kst) : trap_result :=
  if 10 <? eax then Iret (-1) s else
  if eax <? 1 then Iret (-1) s else
  match jump_table !! Z.to_nat (eax - 1) with
  | Some t => run_label t ebx ecx edx s
  | None => NoReturn
  end.

(** The code of every exception: DIVIDE_ERROR to FLOAT_EXCEP. *)
Definition exception_linkage (s : kst) : trap_result := linkage_halt 256 s.

(** ** The wrappers a program calls *)

Definition SYS_HALT : Z := 1.
Definition SYS_EXECUTE : Z := 2.
Definition SYS_READ : Z := 3.
Definition SYS_WRITE : Z := 4.
Definition SYS_OPEN : Z := 5.
Definition SYS_CLOSE : Z := 6.
Definition SYS_GETARGS : Z := 7.
Definition SYS_VIDMAP : Z := 8.
Definition SYS_SET_HANDLER : Z := 9.
Definition SYS_SIGRETURN : Z := 10.

(** [DO_CALL]: [None] when the call does not come back to the caller. *)
Definition do_call (number a1 a2 a3 : Z) (s : kst) : option (Z * kst) :=
  match SYS_CALL_HANDLER number a1 a2 a3 s with
  | Iret v s' => Some (v, s')
  | _ => None
  end.

Definition ece391_read (fd buf nbytes : Z) : kst -> option (Z * kst) := do_call SYS_READ fd buf nbytes.
Definition ece391_write (fd buf nbytes : Z) : kst -> option (Z * kst) := do_call SYS_WRITE fd buf nbytes.
Definition ece391_open (filename : Z) : kst -> option (Z * kst) := do_call SYS_OPEN filename 0 0.
Definition ece391_close (fd : Z) : kst -> option (Z * kst) := do_call SYS_CLOSE fd 0 0.
Definition ece391_getargs (buf nbytes : Z) : kst -> option (Z * kst) := do_call SYS_GETARGS buf nbytes 0.
Definition ece391_vidmap (screen_start : Z) : kst -> option (Z * kst) := do_call SYS_VIDMAP screen_start 0 0.
Definition ece391_set_handler (signum handler : Z) : kst -> option (Z * kst) :=
  do_call SYS_SET_HANDLER signum handler 0.
Definition ece391_sigreturn : kst -> option (Z * kst) := do_call SYS_SIGRETURN 0 0 0.

(** ** What the wrappers reach *)

Lemma ece391_read_eq fd buf nbytes s : ece391_read fd buf nbytes s = sys_read_c (arrivals s) fd buf nbytes s.
Proof using Type.
  unfold ece391_read, do_call.
  change (SYS_CALL_HANDLER SYS_READ fd buf nbytes s) with (return_of (sys_read_c (arrivals s) fd buf nbytes s)).
  by destruct (sys_read_c _ _ _ _ _) as [[? ?]|].
Qed.

Lemma ece391_write_eq fd buf nbytes s : ece391_write fd buf nbytes s = sys_write_c fd buf nbytes s.
Proof using Type.
  unfold ece391_write, do_call.
  change (SYS_CALL_HANDLER SYS_WRITE fd buf nbytes s) with (return_of (sys_write_c fd buf nbytes s)).
  by destruct (sys_write_c _ _ _ _) as [[? ?]|].
Qed.

Lemma ece391_open_eq filename s : ece391_open filename s = Some (sys_open_c open_local filename s).
Proof using Type.
  unfold ece391_open, do_call.
  change (SYS_CALL_HANDLER SYS_OPEN filename 0 0 s) with (return_of (Some (sys_open_c open_local filename s))).
  by destruct (sys_open_c _ _ _) as [? ?].
Qed.

Lemma ece391_close_eq fd s : ece391_close fd s = sys_close_c fd s.
Proof using Type.
  unfold ece391_close, do_call.
  change (SYS_CALL_HANDLER SYS_CLOSE fd 0 0 s) with (return_of (sys_close_c fd s)).
  by destruct (sys_close_c _ _) as [[? ?]|].
Qed.

Lemma ece391_getargs_eq buf nbytes s : ece391_getargs buf nbytes s = sys_getargs_c args_fuel buf nbytes s.
Proof using Type.
  unfold ece391_getargs, do_call.
  change (SYS_CALL_HANDLER SYS_GETARGS buf nbytes 0 s) with (return_of (sys_getargs_c args_fuel buf nbytes s)).
  by destruct (sys_getargs_c _ _ _ _) as [[? ?]|].
Qed.

Lemma ece391_vidmap_eq p s : ece391_vidmap p s = Some (sys_vidmap_c p s).
Proof using Type.
  unfold ece391_vidmap, do_call.
  change (SYS_CALL_HANDLER SYS_VIDMAP p 0 0 s) with (return_of (Some (sys_vidmap_c p s))).
  by destruct (sys_vidmap_c _ _) as [? ?].
Qed.

(** A number outside the table. *)
Lemma bad_number eax ebx ecx edx s :
  eax < 1 \/ 10 < eax -> SYS_CALL_HANDLER eax ebx ecx edx s = Iret (-1) s.
Proof using Type.
  intros Hn. unfold SYS_CALL_HANDLER. destruct (Z.ltb_spec 10 eax); [done|].
  destruct (Z.ltb_spec eax 1); [done|]. lia.
Qed.
End Linkage.

(** ** Theorems *)

Lemma sys_halt_value `{Ports} `{Layout} status s v ebp s' :
  sys_halt_c status s = Some (v, ebp, s') -> v = -1 \/ v = status mod 256.
Proof.
  unfold sys_halt_c. destruct (process_number s <=? 0); [intros [= <- <- <-]; by left|].
  destruct (get_bigPage _ _ =? 0); [intros [= <- <- <-]; by left|].
  destruct (close_all _ _ _) as [sc|]; [|done].
  generalize (switch_page (get_bigPage PRO_IDX (set_process_number (u32 (process_number s - 1)) s))). intros f.
  intros [= <- _ _]. right. rewrite Z.land_comm. change 255 with (Z.ones 8).
  rewrite Z.land_ones by lia. change (2 ^ 8) with 256. unfold u8. apply Z.mod_mod. lia.
Qed.

(** C40 What halt reports: only the low byte of the status reaches the parent, and
    the linkage returns it as the value of execute for no status at all: a status of
    0 runs the halt code again, in the parent, and any other returns EBX.  An
    exception is a halt with status 0, so the value 256 that the shell tests for
    never arrives. *)
Theorem halt_status_lost `{Ports} `{Layout} `{Traps} status ecx edx s v ebp s' :
  (SYS_CALL_HANDLER SYS_HALT status ecx edx s = Return v ebp s' ->
   v = status mod 256 /\ v <> 256 /\ exec_done v = if v =? 0 then HaltAgain else ReturnEbx) /\
  exception_linkage s = SYS_CALL_HANDLER SYS_HALT 0 ecx edx s.
Proof.
  change (SYS_CALL_HANDLER SYS_HALT status ecx edx s) with (linkage_halt status s). split; [|reflexivity].
  unfold linkage_halt. destruct (sys_halt_c (u8 status) s) as [[[v1 ebp1] s1]|] eqn:E; [|done].
  apply sys_halt_value in E. destruct (Z.eqb_spec v1 (-1)) as [|Hn]; [done|].
  intros [= -> _ _]. destruct E as [E|E]; [done|]. unfold u8 in E. rewrite Z.mod_mod in E by lia.
  assert (0 <= v < 256) by (rewrite E; apply Z.mod_pos_bound; lia).
  split; [exact E|]. split; [lia|]. unfold exec_done.
  destruct (Z.eqb_spec v 0); [done|]. now replace ((v =? -1) || (v =? 256)) with false by lia.
Qed.

(** Call numbers outside 1 to 10 return -1 and change nothing; set_handler, which
    is to fail, runs getargs with its arguments as buffer and size instead. *)
Theorem syscall_number_checked `{Ports} `{Layout} `{Traps} eax ebx ecx edx s :
  (eax < 1 \/ 10 < eax -> SYS_CALL_HANDLER eax ebx ecx edx s = Iret (-1) s) /\
  SYS_CALL_HANDLER SYS_SET_HANDLER ebx ecx edx s = SYS_CALL_HANDLER SYS_GETARGS ebx ecx edx s.
Proof.
  split; [apply bad_number|reflexivity].
Qed.

(** ** Witnesses

    A process without open descriptors that halts with status 263. *)
Definition halt_state : kst :=
  mkKst (store32 (store32 (Mem ∅ ∅ 2) 0x10080 0x00800097) (0x4000 + PCB_OLD_EBP) 0x7FDFF0)
        (mkConsole 0 0) (mkPic 0 0) 0 (mkKeyboard 0 0 0 0 0 0 0) (mkFilesys 0 0 0 0 0) 0x4000 1
        (mkCpu true 0 0 0x10000 0) [].

#[local] Existing Instance test_layout.
#[local] Instance no_ports : Ports := fun _ _ => 0.
#[local] Instance no_traps : Traps :=
  {| arrivals := fun _ => mkSched [] []; open_local := 0x3500;
     exec_locals := mkLocals 0x7FD000 0x7FD040 0x7FD080 0x7FD100 0x3500 0x7FDFF0; args_fuel := 1025 |}.

Lemma halt_state_returns :
  exists s', SYS_CALL_HANDLER SYS_HALT 263 0 0 halt_state = Return 7 0x7FDFF0 s'.
Proof. eexists. vm_compute. reflexivity. Qed.

Lemma halt_status_lost_witness :
  exists s', SYS_CALL_HANDLER SYS_HALT 263 0 0 halt_state = Return 7 0x7FDFF0 s' /\ exec_done 7 = ReturnEbx.
Proof.
  destruct halt_state_returns as [s' E]. exists s'. split; [exact E|].
  destruct (halt_status_lost 263 0 0 halt_state 7 0x7FDFF0 s') as [Hw _].
  destruct (Hw E) as (_ & _ & ->). reflexivity.
Defined.

Lemma syscall_number_checked_witness : SYS_CALL_HANDLER 11 1 2 3 halt_state = Iret (-1) halt_state.
Proof. apply (syscall_number_checked 11 1 2 3 halt_state). lia. Defined.
