(* ===== verification/Support.v ===== *)
(** * The library of the user programs, ece391support.c

    The string functions a user program is linked with.  They run on the same
    memory as the kernel, through the program page.  Pointers are moved instead of
    indexed, and characters are unsigned ([uint8_t]); the equivalences below say
    that they compute what the kernel's own functions of lib.c compute.

    Loops that stop at a NUL run on the fuel of the kernel's string functions, one
    more than the number of bytes in memory. *)

From S2P Require Import Prelude Mem CString.

(** ** Definitions *)

(** The loop moves [s] and counts in [len]. *)
Fixpoint ece391_strlen_loop (fuel : nat) (m : mem) (s len : Z) : Z :=
  match fuel with
  | O => len
  | S f => if load8 m s =? 0 then len else ece391_strlen_loop f m (s + 1) (u32 (len + 1))
  end.

Definition ece391_strlen (m : mem) (s : Z) : Z := ece391_strlen_loop (S (mem_size m)) m s 0.

(** The loop copies a character and ends after it has copied the NUL. *)
Fixpoint ece391_strcpy_loop (fuel : nat) (m : mem) (dst src : Z) : option mem :=
  match fuel with
  | O => None
  | S f =>
      let c := load8 m src in
      let m := store8 m dst c in
      if c =? 0 then Some m else ece391_strcpy_loop f m (dst + 1) (src + 1)
  end.

Definition ece391_strcpy (m : mem) (dst src : Z) : option mem :=
  ece391_strcpy_loop (S (mem_size m)) m dst src.

Fixpoint ece391_strcmp_loop (fuel : nat) (m : mem) (s1 s2 : Z) : Z :=
  match fuel with
  | O => 0
  | S f =>
      if load8 m s1 =? load8 m s2 then
        if load8 m s1 =? 0 then 0 else ece391_strcmp_loop f m (s1 + 1) (s2 + 1)
      else load8 m s1 - load8 m s2
  end.

Definition ece391_strcmp (m : mem) (s1 s2 : Z) : Z := ece391_strcmp_loop (S (mem_size m)) m s1 s2.

(** [n] is an unsigned counter that the loop decrements before it tests it. *)
Fixpoint ece391_strncmp_loop (fuel : nat) (m : mem) (s1 s2 n : Z) : Z :=
  match fuel with
  | O => 0
  | S f =>
      if load8 m s1 =? load8 m s2 then
        if (load8 m s1 =? 0) || (u32 (n - 1) =? 0) then 0
        else ece391_strncmp_loop f m (s1 + 1) (s2 + 1) (u32 (n - 1))
      else load8 m s1 - load8 m s2
  end.

Definition ece391_strncmp (m : mem) (s1 s2 n : Z) : Z :=
  if n =? 0 then 0 else ece391_strncmp_loop (S (mem_size m)) m s1 s2 n.

(** In-place reversal; [end] is signed and the loop is skipped when it is not positive. *)
Fixpoint ece391_strrev_loop (fuel : nat) (m : mem) (s beg en : Z) : mem :=
  match fuel with
  | O => m
  | S f =>
      if beg <? en then
        let tmp := load8 m (s + en) in
        let m := store8 m (s + en) (load8 m (s + beg)) in
        let m := store8 m (s + beg) tmp in
        ece391_strrev_loop f m s (beg + 1) (en - 1)
      else m
  end.

Definition ece391_strrev (m : mem) (s : Z) : mem :=
  let en := s32 (ece391_strlen m s - 1) in
  if en <=? 0 then m else ece391_strrev_loop (Z.to_nat (en + 1)) m s 0 en.

Fixpoint ece391_itoa_loop (fuel : nat) (m : mem) (newbuf newval radix : Z) : option (mem * Z) :=
  if newval <=? 0 then Some (m, newbuf) else
  match fuel with
  | O => None
  | S f =>
      if radix =? 0 then None else
      match digit_lookup (newval mod radix) with
      | None => None
      | Some c => ece391_itoa_loop f (store8 m newbuf c) (newbuf + 1) (newval / radix) radix
      end
  end.

Definition ece391_itoa (m : mem) (value buf radix : Z) : option mem :=
  let value := u32 value in
  if value =? 0 then Some (store8 (store8 m buf 48) (buf + 1) 0) else
  match ece391_itoa_loop 32 m buf value (u32 radix) with
  | None => None
  | Some (m, newbuf) => Some (ece391_strrev (store8 m newbuf 0) buf)
  end.

(** ** Lengths and copies *)

Lemma ece391_strlen_loop_spec fuel : forall m s len n,
  is_cstr m s n -> (Z.to_nat n < fuel)%nat -> 0 <= len -> len + n < 4294967296 ->
  ece391_strlen_loop fuel m s len = len + n.
Proof.
  induction fuel as [|f IH]; intros m s len n (Hn & Hz & Hnz) Hf Hl Hw; [lia|].
  cbn [ece391_strlen_loop]. destruct (Z.eqb_spec (load8 m s) 0) as [E|E].
  - assert (n = 0); [|lia]. destruct (decide (n = 0)); [done|].
    destruct (Hnz 0 ltac:(lia)). now rewrite Z.add_0_r.
  - assert (n <> 0) by (intros ->; rewrite Z.add_0_r in Hz; done).
    rewrite u32_small by lia. rewrite (IH m (s + 1) (len + 1) (n - 1)); [lia| |lia|lia|lia].
    split; [lia|]. split.
    + now replace (s + 1 + (n - 1)) with (s + n) by lia.
    + intros i Hi. replace (s + 1 + i) with (s + (i + 1)) by lia. apply Hnz. lia.
Qed.

Lemma strlen_fuel m s : (Z.to_nat (strlen m s) < S (mem_size m))%nat.
Proof.
  destruct (strlen_spec m s) as (H0 & _ & Hnz).
  apply Nat.lt_succ_r, (nonzero_run_bound m s). intros i Hi. apply Hnz. lia.
Qed.

Lemma ece391_strlen_eq m s : strlen m s < 4294967296 -> ece391_strlen m s = strlen m s.
Proof.
  intros H. unfold ece391_strlen.
  rewrite (ece391_strlen_loop_spec _ m s 0 (strlen m s)); [lia|apply strlen_spec|apply strlen_fuel|lia|lia].
Qed.

Lemma ece391_strcpy_loop_eq fuel : forall m dst src i,
  ece391_strcpy_loop fuel m (dst + i) (src + i) = strcpy_loop fuel m dst src i.
Proof.
  induction fuel as [|f IH]; intros m dst src i; [done|]. cbn [ece391_strcpy_loop strcpy_loop].
  destruct (Z.eqb_spec (load8 m (src + i)) 0) as [E|E]; [now rewrite E|].
  rewrite <- !Z.add_assoc. apply IH.
Qed.

Lemma ece391_strrev_loop_eq fuel : forall m s beg en,
  ece391_strrev_loop fuel m s beg en = strrev_loop fuel m s beg en.
Proof.
  induction fuel as [|f IH]; intros m s beg en; [done|]. cbn [ece391_strrev_loop strrev_loop].
  destruct (beg <? en); [apply IH|done].
Qed.

Lemma ece391_strrev_eq m s : strlen m s < 2147483648 -> ece391_strrev m s = strrev m s.
Proof.
  intros H. destruct (strlen_spec m s) as (H0 & _). unfold ece391_strrev, strrev.
  rewrite ece391_strlen_eq, s32_small by lia. set (n := strlen m s) in *.
  destruct (Z.leb_spec (n - 1) 0).
  - destruct (Z.to_nat n) as [|k] eqn:E; [done|]. cbn [strrev_loop]. now replace (0 <? n - 1) with false by lia.
  - replace (n - 1 + 1) with n by lia. apply ece391_strrev_loop_eq.
Qed.

Lemma ece391_itoa_loop_eq fuel : forall m newbuf newval radix, 0 <= newval -> 0 <= radix ->
  ece391_itoa_loop fuel m newbuf newval radix = itoa_loop fuel m newbuf newval radix.
Proof.
  induction fuel as [|f IH]; intros m newbuf newval radix Hv Hr; cbn [ece391_itoa_loop itoa_loop].
  - destruct (Z.leb_spec newval 0), (Z.eqb_spec newval 0); (done || lia).
  - destruct (Z.leb_spec newval 0), (Z.eqb_spec newval 0); try (done || lia).
    destruct (Z.eqb_spec radix 0); [done|]. destruct (digit_lookup _); [|done].
    apply IH; [|done]. apply Z.div_pos; lia.
Qed.

(** ** Comparisons *)

(** The strings at two addresses are the same. *)
Definition same_string (m : mem) (s1 s2 : Z) : Prop :=
  strlen m s1 = strlen m s2 /\ forall i, 0 <= i < strlen m s1 -> load8 m (s1 + i) = load8 m (s2 + i).

(** The comparison of the first [n] characters meets a difference or the end of the
    strings; the first [k] characters are equal and not NUL. *)
Lemma ece391_strcmp_loop_spec fuel : forall m s1 s2 n,
  is_cstr m s1 n -> (Z.to_nat n < fuel)%nat ->
  (ece391_strcmp_loop fuel m s1 s2 = 0 <-> forall i, 0 <= i <= n -> load8 m (s1 + i) = load8 m (s2 + i)).
Proof.
  induction fuel as [|f IH]; intros m s1 s2 n (Hn & Hz & Hnz) Hf; [lia|].
  cbn [ece391_strcmp_loop]. destruct (Z.eqb_spec (load8 m s1) (load8 m s2)) as [E|E].
  2: { split; [lia|]. intros Ha. specialize (Ha 0 ltac:(lia)). rewrite !Z.add_0_r in Ha. done. }
  destruct (Z.eqb_spec (load8 m s1) 0) as [E0|E0].
  - assert (n = 0) as ->.
    { destruct (decide (n = 0)); [done|]. destruct (Hnz 0 ltac:(lia)). now rewrite Z.add_0_r. }
    split; [|done]. intros _ i Hi. replace i with 0 by lia. now rewrite !Z.add_0_r.
  - assert (n <> 0) by (intros ->; rewrite Z.add_0_r in Hz; done).
    rewrite (IH m (s1 + 1) (s2 + 1) (n - 1)); [| |lia].
    + split; intros Ha i Hi.
      * destruct (decide (i = 0)) as [->|]; [now rewrite !Z.add_0_r|].
        specialize (Ha (i - 1) ltac:(lia)). replace (s1 + 1 + (i - 1)) with (s1 + i) in Ha by lia.
        now replace (s2 + 1 + (i - 1)) with (s2 + i) in Ha by lia.
      * replace (s1 + 1 + i) with (s1 + (i + 1)) by lia. replace (s2 + 1 + i) with (s2 + (i + 1)) by lia.
        apply Ha. lia.
    + split; [lia|]. split; [now replace (s1 + 1 + (n - 1)) with (s1 + n) by lia|].
      intros i Hi. replace (s1 + 1 + i) with (s1 + (i + 1)) by lia. apply Hnz. lia.
Qed.

Lemma ece391_strcmp_zero m s1 s2 : ece391_strcmp m s1 s2 = 0 <-> same_string m s1 s2.
Proof.
  pose proof (strlen_spec m s1) as H1. pose proof (strlen_spec m s2) as H2. unfold ece391_strcmp.
  rewrite (ece391_strcmp_loop_spec _ m s1 s2 (strlen m s1) H1 (strlen_fuel m s1)). split.
  - intros Ha. split; [|intros i Hi; apply Ha; lia]. symmetry. apply strlen_eq.
    destruct H1 as (H0 & Hz & Hnz). split; [done|]. split; [now rewrite <- Ha by lia|].
    intros i Hi. rewrite <- Ha by lia. by apply Hnz.
  - intros [El Ha] i Hi. destruct (decide (i = strlen m s1)) as [->|]; [|apply Ha; lia].
    destruct H1 as (_ & Hz & _), H2 as (_ & Hz2 & _). rewrite Hz, El. done.
Qed.

Lemma ece391_strncmp_loop_zero fuel : forall m s1 s2 n len,
  is_cstr m s1 len -> (Z.to_nat len < fuel)%nat -> 0 < n < 4294967296 ->
  (ece391_strncmp_loop fuel m s1 s2 n = 0 <-> cname m s1 (Z.to_nat n) = cname m s2 (Z.to_nat n)).
Proof.
  induction fuel as [|f IH]; intros m s1 s2 n len (Hl & Hz & Hnz) Hf Hn; [lia|].
  cbn [ece391_strncmp_loop]. rewrite (u32_small (n - 1)) by lia.
  replace (Z.to_nat n) with (S (Z.to_nat (n - 1))) by lia. cbn [cname].
  destruct (Z.eqb_spec (load8 m s1) (load8 m s2)) as [E|E].
  2: { split; [lia|]. repeat case_match; bool_to_prop; congruence. }
  rewrite <- E. destruct (Z.eqb_spec (load8 m s1) 0) as [E0|E0]; cbn [orb]; [done|].
  assert (len <> 0) by (intros ->; rewrite Z.add_0_r in Hz; done).
  destruct (Z.eqb_spec (n - 1) 0) as [En|En].
  { split; [|done]. intros _. now rewrite En. }
  rewrite (IH m (s1 + 1) (s2 + 1) (n - 1) (len - 1)); [| |lia|lia].
  - split; [intros ->; done|]. intros Hc. by injection Hc.
  - split; [lia|]. split; [now replace (s1 + 1 + (len - 1)) with (s1 + len) by lia|].
    intros i Hi. replace (s1 + 1 + i) with (s1 + (i + 1)) by lia. apply Hnz. lia.
Qed.

Lemma ece391_strncmp_zero m s1 s2 n :
  0 <= n < 4294967296 ->
  (ece391_strncmp m s1 s2 n = 0 <-> cname m s1 (Z.to_nat n) = cname m s2 (Z.to_nat n)).
Proof.
  intros Hn. unfold ece391_strncmp. destruct (Z.eqb_spec n 0) as [->|]; [done|].
  apply (ece391_strncmp_loop_zero _ m s1 s2 n (strlen m s1));
    [apply strlen_spec|apply strlen_fuel|lia].
Qed.

Lemma ece391_itoa_eq m value buf radix :
  2 <= radix <= 36 -> 0 <= value < 4294967296 ->
  ece391_itoa m value buf radix = itoa m value buf radix.
Proof.
  intros Hr Hv. unfold ece391_itoa, itoa. rewrite !u32_small by lia.
  destruct (Z.eqb_spec value 0); [done|].
  rewrite ece391_itoa_loop_eq by lia.
  destruct (itoa_loop_spec 32 m buf value radix) as (m1 & -> & HU & HB); [done|cbn; lia|].
  f_equal. apply ece391_strrev_eq.
  set (ds := digits_lsf 32 value radix) in *.
  assert (Hlen : (length ds <= 32)%nat) by apply digits_lsf_length.
  rewrite (strlen_eq _ buf (Z.of_nat (length ds))); [lia|].
  apply is_cstr_of_bytes.
  - transitivity (bytes m1 buf (length ds)); [|exact HB].
    eapply unchanged_bytes; [apply (unchanged_store8 (in_range (buf + Z.of_nat (length ds)) 1)); unfold in_range; lia|].
    unfold in_range. lia.
  - apply load8_store8_eq.
  - eapply Forall_impl; [apply digits_lsf_chars; lia|]. cbn. intros; lia.
Qed.

(** The string functions a program is linked with compute what the kernel's
    compute: the same lengths, copies, reversals and number conversions, and the
    comparisons find the same strings equal; strcmp returns 0 exactly for equal
    strings. *)
Theorem support_equivalent m s1 s2 n value radix :
  strlen m s1 < 2147483648 -> 0 <= n < 4294967296 -> 2 <= radix <= 36 -> 0 <= value < 4294967296 ->
  ece391_strlen m s1 = strlen m s1 /\
  ece391_strcpy m s1 s2 = strcpy m s1 s2 /\
  ece391_strrev m s1 = strrev m s1 /\
  ece391_itoa m value s1 radix = itoa m value s1 radix /\
  (ece391_strncmp m s1 s2 n = 0 <-> strncmp m s1 s2 n = 0) /\
  (ece391_strcmp m s1 s2 = 0 <-> same_string m s1 s2).
Proof.
  intros Hl Hn Hr Hv. split; [apply ece391_strlen_eq; lia|].
  split; [|split; [by apply ece391_strrev_eq|split; [by apply ece391_itoa_eq|split]]].
  - unfold ece391_strcpy, strcpy. rewrite <- (ece391_strcpy_loop_eq _ m s1 s2 0). now rewrite !Z.add_0_r.
  - now rewrite ece391_strncmp_zero, strncmp_zero by done.
  - apply ece391_strcmp_zero.
Qed.

Lemma support_equivalent_witness :
  ece391_strlen (store_list (Mem ∅ ∅ 0) 0x8048000 [104; 105]) 0x8048000 = 2 /\
  ece391_itoa (Mem ∅ ∅ 0) 1000 0x8048000 10 = itoa (Mem ∅ ∅ 0) 1000 0x8048000 10.
Proof.
  split.
  - destruct (support_equivalent (store_list (Mem ∅ ∅ 0) 0x8048000 [104; 105]) 0x8048000 0x8048001 1 0 10)
      as [-> _]; [vm_compute; reflexivity|lia|lia|lia|vm_compute; reflexivity].
  - apply (support_equivalent (Mem ∅ ∅ 0) 0x8048000 0x8048001 1 1000 10);
      [vm_compute; reflexivity|lia|lia|lia].
Defined.
