(* ===== verification/Emulate.v ===== *)
(** * The emulation of the system calls under Linux, src/syscalls/ece391emulate.c

    With this file the user programs run as Linux processes.  The kernel and the C library of
    the host are parameters ([Linux]); the file translates between their interface and the
    one of the ten calls: the command line of execute becomes an argument vector, which
    getargs turns back into a line, and a read of the directory "." becomes readdir. *)

From S2P Require Import Prelude Mem CString Support.

(** ** The host *)

(** How a child ended, as [wait] tells. *)
Inductive wait_status := Exited (code : Z) | Killed (signal : Z).

(** [W] is the state of the host. *)
Class Linux (W : Type) := {
  int80 : Z -> Z -> Z -> Z -> mem -> W -> Z * mem * W;   (* INT $0x80 with EAX, EBX, ECX, EDX *)
  lx_execv : Z -> list Z -> mem -> W -> option wait_status * W; (* fork and execv in the child: how the
                                                            program ended, or that execv came back *)
  lx_opendir : W -> Z * W;                               (* opendir on ".": the DIR, or 0 *)
  lx_open_null : W -> Z * W;                             (* open "/dev/null" *)
  lx_open_mem : W -> Z * W;                              (* open "/dev/mem" *)
  lx_mmap : Z -> W -> option Z * W;                      (* mmap of low memory through a descriptor *)
  lx_readdir : Z -> W -> option (list Z) * W;            (* the name of the next entry *)
  lx_closedir : Z -> W -> W;
  lx_close : Z -> W -> W
}.

(** The variables of the file, the memory of the process and the host. *)
Record emu (W : Type) := mkEmu {
  e_mem : mem;
  e_start_esp : Z;
  e_dir_fd : Z;
  e_dir : Z;
  e_mem_fd : Z;
  e_world : W
}.
Arguments mkEmu {W}. Arguments e_mem {W}. Arguments e_start_esp {W}. Arguments e_dir_fd {W}.
Arguments e_dir {W}. Arguments e_mem_fd {W}. Arguments e_world {W}.

Definition emu_mem {W} (m : mem) (e : emu W) : emu W :=
  mkEmu m (e_start_esp e) (e_dir_fd e) (e_dir e) (e_mem_fd e) (e_world e).
Definition emu_dir {W} (fd dir : Z) (w : W) (e : emu W) : emu W :=
  mkEmu (e_mem e) (e_start_esp e) fd dir (e_mem_fd e) w.

(** ** Command lines *)

Definition word_end (c : Z) : bool := (c =? 0) || (c =? 32) || (c =? 10).

(** [while ('\0' != *scan && ' ' != *scan && '\n' != *scan) scan++;] *)
Fixpoint skip_word (n : nat) (m : mem) (scan : Z) : option Z :=
  match n with
  | O => None
  | S n' => if word_end (load8 m scan) then Some scan else skip_word n' m (scan + 1)
  end.

(** [while (' ' == *scan) scan++;] *)
Fixpoint skip_blanks (n : nat) (m : mem) (scan : Z) : option Z :=
  match n with
  | O => None
  | S n' => if load8 m scan =? 32 then skip_blanks n' m (scan + 1) else Some scan
  end.

(** The loop that cuts the arguments: their addresses and the memory with the cuts. *)
Fixpoint parse_args (n : nat) (m : mem) (scan : Z) : option (list Z * mem) :=
  match n with
  | O => None
  | S n' =>
      scan ← skip_blanks n m scan;
      if (load8 m scan =? 0) || (load8 m scan =? 10) then Some ([], store8 m scan 0) else
      let arg := scan in
      scan ← skip_word n m scan;
      '(args, m) ← (if negb (load8 m scan =? 0) then parse_args n' (store8 m scan 0) (scan + 1) else parse_args n' m scan);
      Some (arg :: args, m)
  end.

Section Calls.
Context {W : Type} `{Linux W}.

(** DO_CALL: a result above 0xFFFFC000 is an error.  The registers a call does not take are 0
    here; the host ignores them. *)
Definition checked (eax : Z) : Z := if eax <=? 0xFFFFC000 then s32 eax else -1.

Definition host_call (number a1 a2 a3 : Z) (e : emu W) : Z * emu W :=
  let '(eax, m, w) := int80 number a1 a2 a3 (e_mem e) (e_world e) in
  (checked (u32 eax), mkEmu m (e_start_esp e) (e_dir_fd e) (e_dir e) (e_mem_fd e) w).

Definition emulated_halt (status : Z) : emu W -> Z * emu W := host_call 1 status 0 0.
Definition __ece391_read (fd buf nbytes : Z) : emu W -> Z * emu W := host_call 3 fd buf nbytes.
Definition __ece391_write (fd buf nbytes : Z) : emu W -> Z * emu W := host_call 4 fd buf nbytes.
Definition __ece391_close (fd : Z) : emu W -> Z * emu W := host_call 6 fd 0 0.

(** [_start], with [ESP] as the host sets it. *)
Definition emulated_start (main : emu W -> option (Z * emu W)) (esp : Z) (e : emu W) : option (Z * emu W) :=
  '(v, e) ← main (mkEmu (e_mem e) esp (e_dir_fd e) (e_dir e) (e_mem_fd e) (e_world e));
  Some (emulated_halt v e).

(** The part of [ece391_execute] in front of fork: [buf] with "./", the command in it, and the
    argument vector. *)
Definition split_command (n : nat) (buf command : Z) (m : mem) : option (list Z * mem) :=
  let m := store8 m buf 46 in
  let m := store8 m (buf + 1) 47 in
  m ← ece391_strcpy m (buf + 2) command;
  scan ← skip_word n m (buf + 2);
  if negb (load8 m scan =? 0) then
    '(args, m) ← parse_args n (store8 m scan 0) (scan + 1);
    Some (buf :: args, m)
  else Some ([buf], m).

(** The child: when [execv] comes back, it kills itself with signal 9. *)
Definition spawn (buf : Z) (args : list Z) (m : mem) (w : W) : wait_status * W :=
  let '(ended, w) := lx_execv buf args m w in
  match ended with Some st => (st, w) | None => (Killed 9, w) end.

(** The value for the status of the child. *)
Definition child_value (st : wait_status) : Z :=
  match st with
  | Exited code => code
  | Killed signal => if signal =? 9 then -1 else 256
  end.

Definition emulated_execute (n : nat) (buf command : Z) (e : emu W) : option (Z * emu W) :=
  if 1023 <? ece391_strlen (e_mem e) command then Some (-1, e) else
  '(args, m) ← split_command n buf command (e_mem e);
  let '(st, w) := spawn buf args m (e_world e) in
  Some (child_value st, mkEmu m (e_start_esp e) (e_dir_fd e) (e_dir e) (e_mem_fd e) w).

(** [dot] is the address of the literal ".". *)
Definition emulated_open (dot filename : Z) (e : emu W) : Z * emu W :=
  if ece391_strcmp (e_mem e) filename dot =? 0 then
    let '(dir, w) := lx_opendir (e_world e) in
    let '(fd, w) := lx_open_null w in
    (fd, emu_dir fd dir w e)
  else host_call 5 filename 0 0 e.

(** The loop over the arguments: the rest of the buffer, or [None] inside for -1. *)
Fixpoint getargs_loop (n : nat) (start_esp argc idx buf nbytes : Z) (m : mem) : option (option (Z * Z) * mem) :=
  match n with
  | O => None
  | S n' =>
      if idx <? argc then
        let arg := load32 m (start_esp + 4 + 4 * idx) in
        let len := s32 (ece391_strlen m arg) in
        if nbytes <? len then Some (None, m) else
        m ← ece391_strcpy m buf arg;
        let buf := buf + len in
        let nbytes := nbytes - len in
        if argc <=? idx + 1 then Some (Some (buf, nbytes), m) else
        if nbytes <? 1 then Some (None, m) else
        getargs_loop n' start_esp argc (idx + 1) (buf + 1) (nbytes - 1) (store8 m buf 32)
      else Some (Some (buf, nbytes), m)
  end.

Definition emulated_getargs (n : nat) (buf nbytes : Z) (e : emu W) : option (Z * emu W) :=
  let argc := s32 (load32 (e_mem e) (e_start_esp e)) in
  '(r, m) ← getargs_loop n (e_start_esp e) argc 1 buf nbytes (e_mem e);
  match r with
  | None => Some (-1, emu_mem m e)
  | Some (buf, nbytes) => if nbytes <? 1 then Some (-1, emu_mem m e) else Some (0, emu_mem (store8 m buf 0) e)
  end.

Definition emulated_vidmap (screen_start : Z) (e : emu W) : Z * emu W :=
  let '(mem_fd, w) := if e_mem_fd e =? -1 then lx_open_mem (e_world e) else (e_mem_fd e, e_world e) in
  let '(image, w) := lx_mmap mem_fd w in
  match image with
  | None => (-1, mkEmu (e_mem e) (e_start_esp e) (e_dir_fd e) (e_dir e) mem_fd w)
  | Some a => (0, mkEmu (store32 (e_mem e) screen_start (a + 0xB8000)) (e_start_esp e) (e_dir_fd e) (e_dir e) mem_fd w)
  end.

(** The copy of a name: the number of characters copied, and whether the code returns there. *)
Fixpoint copy_name (from : list Z) (to nbytes copied : Z) (m : mem) : bool * Z * mem :=
  match from with
  | [] => (false, copied, m)
  | c :: from' =>
      let m := store8 m (to + copied) c in
      let copied := copied + 1 in
      if copied =? nbytes then (true, nbytes, m) else
      if copied =? 32 then (true, 32, m) else copy_name from' to nbytes copied m
  end.

Definition emulated_read (fd buf nbytes : Z) (e : emu W) : Z * emu W :=
  if (e_dir e =? 0) || negb (e_dir_fd e =? fd) then __ece391_read fd buf nbytes e else
  let '(de, w) := lx_readdir (e_dir e) (e_world e) in
  let e := emu_dir (e_dir_fd e) (e_dir e) w e in
  match de with
  | None => (0, e)
  | Some name =>
      let '(full, copied, m) := copy_name name buf nbytes 0 (e_mem e) in
      if full then (copied, emu_mem m e) else
      let last := Z.max copied (Z.min nbytes 32) in
      (last, emu_mem (for_range copied last (fun i m => store8 m (buf + i) 0) m) e)
  end.

Definition emulated_write (fd buf nbytes : Z) (e : emu W) : Z * emu W :=
  if (e_dir e =? 0) || negb (e_dir_fd e =? fd) then __ece391_write fd buf nbytes e else (-1, e).

Definition emulated_close (fd : Z) (e : emu W) : Z * emu W :=
  if (e_dir e =? 0) || negb (e_dir_fd e =? fd) then __ece391_close fd e else
  let w := lx_closedir (e_dir e) (e_world e) in
  let w := lx_close (e_dir_fd e) w in
  (0, emu_dir (-1) 0 w e).
End Calls.

(** ** Specification *)

(** The string [w] is at [a]. *)
Fixpoint cstr (m : mem) (a : Z) (w : list Z) : Prop :=
  match w with
  | [] => load8 m a = 0
  | c :: w' => load8 m a = c /\ c <> 0 /\ cstr m (a + 1) w'
  end.

Definition separator (c : Z) : bool := (c =? 32) || (c =? 10).

(** The arguments in a text, [w] being what has been read of the current one.  A line end
    closes an argument like a blank, and stops the reading in front of one. *)
Fixpoint fields (w l : list Z) : list (list Z) :=
  match l with
  | [] => if decide (w = []) then [] else [w]
  | c :: l' =>
      if decide (w = []) then
        if c =? 10 then [] else if c =? 32 then fields [] l' else fields [c] l'
      else if separator c then w :: fields [] l' else fields (w ++ [c]) l'
  end.

(** The name of the program and the text behind the separator that follows it. *)
Fixpoint program_word (l : list Z) : list Z * list Z :=
  match l with
  | [] => ([], [])
  | c :: l' => if separator c then ([], l') else let '(w, r) := program_word l' in (c :: w, r)
  end.

Definition program_path (l : list Z) : list Z := 46 :: 47 :: (program_word l).1.
Definition command_args (l : list Z) : list (list Z) := fields [] (program_word l).2.

(** The line of arguments: single blanks between them. *)
Fixpoint join (ws : list (list Z)) : list Z :=
  match ws with
  | [] => []
  | [w] => w
  | w :: ws' => w ++ 32 :: join ws'
  end.

(** The argument vector from [slot] on, apart from a buffer. *)
Fixpoint argv (m : mem) (slot buf n : Z) (ws : list (list Z)) : Prop :=
  match ws with
  | [] => True
  | w :: ws' =>
      let k := Z.of_nat (length w) in
      cstr m (load32 m slot) w /\ k < 2147483648 /\ disj buf n (load32 m slot) (k + 1) /\
      disj buf n slot 4 /\ argv m (slot + 4) buf n ws'
  end.

(** ** Strings *)

Lemma cstr_unchanged (P : Z -> Prop) m m' w : forall a,
  unchanged P m m' -> (forall b, in_range a (Z.of_nat (length w) + 1) b -> ~ P b) -> cstr m a w -> cstr m' a w.
Proof.
  induction w as [|c w IH]; intros a U HP; cbn [cstr length] in *.
  - intros E. rewrite (unchanged_load8 _ _ _ _ U); [done|]. apply HP. unfold in_range. lia.
  - intros (E & Nz & Hw). rewrite (unchanged_load8 _ _ _ _ U) by (apply HP; unfold in_range; lia).
    split_and!; [done|done|]. apply IH; [done| |done]. intros b Hb. apply HP. unfold in_range in *. lia.
Qed.

Lemma cstr_app m w : forall a r, cstr m a (w ++ r) -> cstr m (a + Z.of_nat (length w)) r.
Proof.
  induction w as [|c w IH]; intros a r; cbn [app cstr length].
  - by rewrite Z.add_0_r.
  - intros (_ & _ & H). apply IH in H. by replace (a + Z.of_nat (S (length w))) with (a + 1 + Z.of_nat (length w)) by lia.
Qed.

Lemma cstr_nonzero m w : forall a i, cstr m a w -> 0 <= i < Z.of_nat (length w) -> load8 m (a + i) <> 0.
Proof.
  induction w as [|c w IH]; intros a i; cbn [cstr length]; [lia|]. intros (E & Nz & H) Hi.
  destruct (decide (i = 0)) as [->|]; [rewrite Z.add_0_r; congruence|].
  replace (a + i) with (a + 1 + (i - 1)) by lia. apply IH; [done|lia].
Qed.

Lemma cstr_is_cstr m a w : cstr m a w -> is_cstr m a (Z.of_nat (length w)).
Proof.
  intros H. split_and!; [lia| |intros i Hi; by eapply cstr_nonzero].
  assert (E : cstr m a (w ++ [])) by (by rewrite app_nil_r). by apply cstr_app in E.
Qed.

Lemma cstr_strlen m a w : cstr m a w -> Z.of_nat (length w) < 4294967296 -> ece391_strlen m a = Z.of_nat (length w).
Proof. intros H Hl. pose proof (strlen_eq _ _ _ (cstr_is_cstr _ _ _ H)). by rewrite ece391_strlen_eq by lia. Qed.

(** A NUL stored behind [w] ends it there. *)
Lemma cstr_cut m w : forall a r, cstr m a (w ++ r) -> cstr (store8 m (a + Z.of_nat (length w)) 0) a w.
Proof.
  induction w as [|c w IH]; intros a r; cbn [app cstr length].
  - intros _. by rewrite Z.add_0_r, load8_store8_eq.
  - intros (E & Nz & H). rewrite load8_store8_ne by lia. split_and!; [done|done|].
    replace (a + Z.of_nat (S (length w))) with (a + 1 + Z.of_nat (length w)) by lia. by eapply IH.
Qed.

Lemma cstr_bytes m w : forall a, bytes m a (length w) = w -> Forall (fun c => c <> 0) w ->
  load8 m (a + Z.of_nat (length w)) = 0 -> cstr m a w.
Proof.
  induction w as [|c w IH]; intros a; cbn [cstr length].
  - intros _ _. by rewrite Z.add_0_r.
  - rewrite bytes_S. intros [= E Hb] Nz Hz. inversion_clear Nz. split_and!; [done|congruence|].
    apply IH; [congruence|done|]. by replace (a + 1 + Z.of_nat (length w)) with (a + Z.of_nat (S (length w))) by lia.
Qed.

Lemma bytes_cstr m w : forall a, cstr m a w -> bytes m a (length w) = w /\ Forall (fun c => c <> 0) w.
Proof.
  induction w as [|c w IH]; intros a; cbn [cstr length]; [done|]. intros (E & Nz & H). rewrite bytes_S.
  destruct (IH _ H) as [-> ?]. split; [congruence|by constructor].
Qed.

Lemma strcpy_cstr_loop w : forall fuel m dst src, cstr m src w -> (length w < fuel)%nat ->
  disj dst (Z.of_nat (length w) + 1) src (Z.of_nat (length w) + 1) ->
  exists m', ece391_strcpy_loop fuel m dst src = Some m' /\
    unchanged (in_range dst (Z.of_nat (length w) + 1)) m m' /\ cstr m' dst w.
Proof.
  induction w as [|c w IH]; intros [|fuel] m dst src; cbn [cstr length ece391_strcpy_loop]; intros H Hf Hd; try lia.
  - rewrite H. eexists. split_and!; [done|apply unchanged_store8; unfold in_range; lia|by rewrite load8_store8_eq].
  - destruct H as (E & Nz & H). rewrite E, (proj2 (Z.eqb_neq _ _)) by done.
    assert (U : unchanged (in_range dst 1) m (store8 m dst c)) by (apply unchanged_store8; unfold in_range; lia).
    destruct (IH fuel (store8 m dst c) (dst + 1) (src + 1)) as (m' & -> & U' & C); [|lia|unfold disj in *; lia|].
    { eapply cstr_unchanged; [exact U| |exact H]. unfold in_range, disj in *. intros. lia. }
    exists m'. split_and!; [done| | |done|done].
    + eapply unchanged_trans; (eapply unchanged_weaken; [|eassumption]); unfold in_range; intros; lia.
    + rewrite (unchanged_load8 _ _ _ _ U') by (unfold in_range; lia). rewrite load8_store8_eq. apply u8_small.
      rewrite <- E. apply load8_range.
Qed.

Lemma strcpy_cstr m dst src w : cstr m src w ->
  disj dst (Z.of_nat (length w) + 1) src (Z.of_nat (length w) + 1) ->
  exists m', ece391_strcpy m dst src = Some m' /\
    unchanged (in_range dst (Z.of_nat (length w) + 1)) m m' /\ cstr m' dst w.
Proof.
  intros H. apply strcpy_cstr_loop; [done|]. apply Nat.lt_succ_r, (nonzero_run_bound m src).
  intros i Hi. by eapply cstr_nonzero.
Qed.

(** ** The arguments are cut at the separators *)

Definition unbroken (w : list Z) : Prop := Forall (fun c => separator c = false) w.

Lemma word_end_nonzero c : c <> 0 -> word_end c = separator c.
Proof. intros Nz. unfold word_end, separator. by rewrite (proj2 (Z.eqb_neq c 0)). Qed.

(** What a scan over a word finds: the word, and an end or a separator. *)
Lemma skip_word_spec l : forall n m a, cstr m a l -> (length l < n)%nat ->
  exists w r, l = w ++ r /\ unbroken w /\ skip_word n m a = Some (a + Z.of_nat (length w)) /\
    (r = [] \/ exists c r', r = c :: r' /\ separator c = true).
Proof.
  induction l as [|c l IH]; intros [|n] m a; cbn [cstr length skip_word]; intros H Hn; try lia.
  - exists [], []. rewrite H. cbn. rewrite Z.add_0_r. split_and!; [done|by constructor|done|by left].
  - destruct H as (E & Nz & H). rewrite E, word_end_nonzero by done. destruct (separator c) eqn:Es.
    + exists [], (c :: l). cbn. rewrite Z.add_0_r. split_and!; [done|by constructor|done|]. right. by exists c, l.
    + destruct (IH n m (a + 1) H ltac:(lia)) as (w & r & -> & Pw & -> & Hr). exists (c :: w), r. cbn [app length].
      split_and!; [done|by constructor|f_equal; lia|done].
Qed.

Lemma skip_blanks_spec l : forall n m a, cstr m a l -> (length l < n)%nat ->
  exists k r, (k + length r = length l)%nat /\ skip_blanks n m a = Some (a + Z.of_nat k) /\ cstr m (a + Z.of_nat k) r /\
    fields [] l = fields [] r /\ head r <> Some 32.
Proof.
  induction l as [|c l IH]; intros [|n] m a; cbn [cstr length skip_blanks]; intros H Hn; try lia.
  - exists O, []. rewrite H. cbn. rewrite Z.add_0_r. by split_and!.
  - destruct H as (E & Nz & H). rewrite E. destruct (Z.eqb_spec c 32) as [->|N].
    + destruct (IH n m (a + 1) H ltac:(lia)) as (k & r & Ek & -> & Hr & Ef & Hh). exists (S k), r.
      replace (a + Z.of_nat (S k)) with (a + 1 + Z.of_nat k) by lia. split_and!; [lia|done|done|exact Ef|done].
    + exists O, (c :: l). cbn [Nat.add length head]. rewrite Z.add_0_r. split_and!; [done|done|by split_and!|done|congruence].
Qed.

Lemma fields_word w : forall u r, u <> [] -> unbroken w -> fields u (w ++ r) = fields (u ++ w) r.
Proof.
  induction w as [|c w IH]; intros u r Nu Pw; cbn [app fields]; [by rewrite app_nil_r|].
  inversion_clear Pw as [|? ? Hc Hw]. rewrite decide_False, Hc by done.
  rewrite IH by (done || by destruct u). by rewrite <- app_assoc.
Qed.

Lemma fields_first w r : w <> [] -> unbroken w -> fields [] (w ++ r) = fields w r.
Proof.
  intros Nw Pw. destruct w as [|c w]; [done|]. inversion_clear Pw as [|? ? Hc Hw]. cbn [app fields].
  rewrite decide_True by done. apply orb_false_iff in Hc as [-> ->]. by rewrite fields_word.
Qed.

Lemma fields_end w : w <> [] -> fields w [] = [w].
Proof. intros N. cbn. by rewrite decide_False. Qed.

Lemma fields_cut w c r : w <> [] -> separator c = true -> fields w (c :: r) = w :: fields [] r.
Proof. intros N E. cbn [fields]. by rewrite decide_False, E. Qed.

Lemma program_word_end w : unbroken w -> program_word w = (w, []).
Proof. induction 1 as [|c w Hc _ IH]; [done|]. cbn [program_word]. by rewrite Hc, IH. Qed.

Lemma program_word_cut w c r : unbroken w -> separator c = true -> program_word (w ++ c :: r) = (w, r).
Proof. induction 1 as [|b w Hb _ IH]; intros Hc; cbn [app program_word]; [by rewrite Hc|]. by rewrite Hb, IH. Qed.

(** A separator replaced by a NUL: the word in front of it and the text behind it. *)
Lemma cstr_split m a w c r : cstr m a (w ++ c :: r) ->
  let p := a + Z.of_nat (length w) in
  cstr (store8 m p 0) a w /\ cstr (store8 m p 0) (p + 1) r /\ load8 m p = c /\ c <> 0.
Proof.
  intros H p. pose proof (cstr_app _ _ _ _ H) as (E & Nz & Hr). fold p in E, Hr.
  split_and!; [by eapply cstr_cut| |done|done]. eapply cstr_unchanged; [|  |exact Hr].
  - apply (unchanged_store8 (in_range p 1)). unfold in_range. lia.
  - unfold in_range. intros. lia.
Qed.

Lemma parse_args_end n m a : load8 m a = 0 -> (0 < n)%nat -> parse_args n m a = Some ([], store8 m a 0).
Proof. intros E Hn. destruct n as [|n]; [lia|]. cbn [parse_args skip_blanks]. rewrite E. cbn. by rewrite E. Qed.

Lemma parse_args_spec n : forall l m a, cstr m a l -> (length l < n)%nat ->
  exists args m', parse_args n m a = Some (args, m') /\ unchanged (in_range a (Z.of_nat (length l) + 1)) m m' /\
    Forall2 (cstr m') args (fields [] l).
Proof.
  induction n as [|n IH]; intros l m a H Hn; [lia|]. cbn [parse_args].
  destruct (skip_blanks_spec l (S n) m a H Hn) as (k & r & Ek & -> & Hr & -> & Hh). cbn [mbind option_bind].
  set (p := a + Z.of_nat k) in *. destruct (skip_word_spec r (S n) m p Hr ltac:(lia)) as (w & r2 & -> & Pw & Es & Hr2).
  rewrite length_app in Ek. destruct (decide (w = [])) as [->|Nw].
  - assert ((load8 m p =? 0) || (load8 m p =? 10) = true /\ fields [] r2 = []) as [-> Ef].
    { destruct Hr2 as [->|(c & r' & -> & Hc)]; cbn in Hr; [by rewrite Hr|]. destruct Hr as (-> & _ & _).
      apply orb_true_iff in Hc as [Hc|Hc]; apply Z.eqb_eq in Hc as ->; [done|by split]. }
    cbn [app]. rewrite Ef. eexists [], _. split_and!; [done|apply unchanged_store8; unfold in_range; lia|constructor].
  - assert ((load8 m p =? 0) || (load8 m p =? 10) = false) as ->.
    { destruct w as [|c w]; [done|]. destruct Hr as (-> & Nz & _). inversion_clear Pw as [|? ? Hc _].
      apply orb_false_iff in Hc as [_ ->]. rewrite orb_false_r. by apply Z.eqb_neq. }
    rewrite Es. cbn [mbind option_bind]. rewrite fields_first by done. set (q := p + Z.of_nat (length w)).
    destruct Hr2 as [->|(c & r & -> & Hc)].
    + pose proof (cstr_app _ _ _ _ Hr) as Hz. fold q in Hz. cbn [cstr] in Hz. 
      assert (0 < n)%nat by (destruct w; [done|cbn in *; lia]). rewrite Hz. cbn [negb Z.eqb]. rewrite parse_args_end by done.
      rewrite fields_end by done. eexists [p], _. split_and!; [done|apply unchanged_store8; unfold in_range, q; lia|].
      repeat constructor. by eapply cstr_cut.
    + destruct (cstr_split _ _ _ _ _ Hr) as (Cw & Cr & Ec & Nc). fold q in Cw, Cr, Ec. cbn [length] in Ek.
      rewrite Ec, (proj2 (Z.eqb_neq _ _)) by done. cbn [negb].
      destruct (IH r (store8 m q 0) (q + 1) Cr ltac:(lia)) as (args & m' & -> & U & F).
      exists (p :: args), m'. split_and!; [done| |].
      * eapply unchanged_trans; [apply unchanged_store8|eapply unchanged_weaken; [|exact U]]; unfold in_range, q; intros; lia.
      * rewrite fields_cut by done. constructor; [|exact F].
        eapply cstr_unchanged; [exact U| |exact Cw]. unfold in_range, q. intros. lia.
Qed.

(** The argument vector [ece391_execute] hands to [execv]. *)
Lemma split_command_spec n m buf command l : cstr m command l -> (length l < n)%nat ->
  disj buf (Z.of_nat (length l) + 3) command (Z.of_nat (length l) + 1) ->
  exists args m', split_command n buf command m = Some (args, m') /\
    unchanged (in_range buf (Z.of_nat (length l) + 3)) m m' /\
    Forall2 (cstr m') args (program_path l :: command_args l).
Proof.
  intros H Hn Hd. set (L := Z.of_nat (length l)) in *. unfold split_command.
  set (m1 := store8 (store8 m buf 46) (buf + 1) 47).
  assert (U1 : unchanged (in_range buf 2) m m1).
  { eapply unchanged_trans; apply unchanged_store8; unfold in_range; lia. }
  destruct (strcpy_cstr m1 (buf + 2) command l) as (m2 & -> & U2 & C2).
  { eapply cstr_unchanged; [exact U1| |exact H]. unfold in_range, disj in *. intros. lia. }
  { unfold disj in *. lia. }
  assert (D2 : load8 m2 buf = 46 /\ load8 m2 (buf + 1) = 47).
  { rewrite !(unchanged_load8 _ _ _ _ U2) by (unfold in_range; lia). unfold m1.
    rewrite load8_store8_ne, !load8_store8_eq by lia. done. }
  assert (U12 : unchanged (in_range buf (L + 3)) m m2).
  { eapply unchanged_trans; (eapply unchanged_weaken; [|eassumption]); unfold in_range, L; intros; lia. }
  clearbody m1. clear U1 U2 H. cbn [mbind option_bind].
  destruct (skip_word_spec l n m2 (buf + 2) C2 Hn) as (w & r & -> & Pw & -> & Hr). cbn [mbind option_bind].
  assert (Hpath : forall m', unchanged (fun a => buf + 2 <= a) m2 m' -> cstr m' (buf + 2) w -> cstr m' buf (46 :: 47 :: w)).
  { intros m' U C. cbn [cstr]. rewrite !(unchanged_load8 _ _ _ _ U) by lia.
    replace (buf + 1 + 1) with (buf + 2) by lia. by destruct D2. }
  set (p := buf + 2 + Z.of_nat (length w)). unfold program_path, command_args, L in *. rewrite length_app in *.
  destruct Hr as [->|(c & r' & -> & Hc)].
  - pose proof (cstr_app _ _ _ _ C2) as Hz. fold p in Hz. cbn [cstr] in Hz. rewrite Hz. cbn [negb Z.eqb].
    rewrite app_nil_r in *. rewrite program_word_end by done. eexists [buf], _. split_and!; [done|done|].
    constructor; [|constructor]. apply Hpath; [apply unchanged_refl|done].
  - destruct (cstr_split _ _ _ _ _ C2) as (Cw & Cr & Ec & Nc). fold p in Cw, Cr, Ec.
    rewrite Ec, (proj2 (Z.eqb_neq _ _)), program_word_cut by done. cbn [negb length fst snd] in *.
    destruct (parse_args_spec n r' (store8 m2 p 0) (p + 1) Cr ltac:(lia)) as (args & m' & -> & U & F).
    assert (U' : unchanged (in_range p (Z.of_nat (length r') + 2)) m2 m').
    { eapply unchanged_trans; [apply unchanged_store8|eapply unchanged_weaken; [|exact U]]; unfold in_range; intros; lia. }
    exists (buf :: args), m'. split_and!; [done| |].
    + eapply unchanged_trans; [exact U12|]. eapply unchanged_weaken; [|exact U']. unfold in_range, p. intros. lia.
    + constructor; [|exact F]. apply Hpath; [eapply unchanged_weaken; [|exact U']; unfold in_range, p; intros; lia|].
      eapply cstr_unchanged; [exact U| |exact Cw]. unfold in_range, p. intros. lia.
Qed.

(** ** The line is put together again *)

Lemma fields_join ws : Forall (fun w => w <> [] /\ unbroken w) ws -> fields [] (join ws) = ws.
Proof.
  induction 1 as [|w ws [Nw Pw] _ IH]; [done|]. destruct ws as [|w2 ws].
  - change (join [w]) with w. rewrite <- (app_nil_r w) at 1. by rewrite fields_first, fields_end.
  - change (join (w :: w2 :: ws)) with (w ++ 32 :: join (w2 :: ws)). by rewrite fields_first, fields_cut, IH.
Qed.

Lemma join_cons w ws : join (w :: ws) = if decide (ws = []) then w else w ++ 32 :: join ws.
Proof. by destruct ws. Qed.

Lemma argv_unchanged (P : Z -> Prop) m m' buf n ws : forall slot,
  unchanged P m m' -> (forall b, P b -> in_range buf n b) -> argv m slot buf n ws -> argv m' slot buf n ws.
Proof.
  induction ws as [|w ws IH]; intros slot U HP; cbn [argv]; [done|]. intros (C & Hk & D1 & D2 & Hw).
  rewrite (unchanged_load32 _ _ _ _ U) by (intros b Hb Hp%HP; unfold in_range, disj in *; lia).
  split_and!; [|done|done|done|by apply IH]. eapply cstr_unchanged; [exact U| |exact C].
  intros b Hb Hp%HP. unfold in_range, disj in *. lia.
Qed.

Lemma argv_shrink m buf n buf' n' ws : buf <= buf' -> buf' + n' <= buf + n -> forall slot,
  argv m slot buf n ws -> argv m slot buf' n' ws.
Proof.
  intros H1 H2. induction ws as [|w ws IH]; intros slot; cbn [argv]; [done|]. intros (C & Hk & D1 & D2 & Hw).
  split_and!; [done|done|unfold disj in *; lia|unfold disj in *; lia|by apply IH].
Qed.

(** The loop fills the buffer with the line, or finds that it does not fit. *)
Lemma getargs_loop_spec ws : forall n m start idx buf nbytes,
  ws <> [] -> (length ws < n)%nat -> 0 <= idx -> argv m (start + 4 + 4 * idx) buf (nbytes + 1) ws ->
  let len := Z.of_nat (length (join ws)) in
  exists m', unchanged (in_range buf (nbytes + 1)) m m' /\
    if len <=? nbytes then
      getargs_loop n start (idx + Z.of_nat (length ws)) idx buf nbytes m = Some (Some (buf + len, nbytes - len), m') /\
      bytes m' buf (length (join ws)) = join ws /\ Forall (fun c => c <> 0) (join ws)
    else getargs_loop n start (idx + Z.of_nat (length ws)) idx buf nbytes m = Some (None, m').
Proof.
  induction ws as [|w ws IH]; intros [|n] m start idx buf nbytes Nw Hn Hi Ha; [done|done|cbn in *; lia|].
  cbn [argv] in Ha. destruct Ha as (C & Hk & D1 & D2 & Ha). cbn zeta. cbn [getargs_loop].
  rewrite (proj2 (Z.ltb_lt idx _)) by (cbn [length]; lia).
  rewrite (cstr_strlen _ _ _ C), s32_small by lia. set (k := Z.of_nat (length w)) in *.
  pose proof (join_cons w ws) as Hj.
  destruct (Z.ltb_spec nbytes k) as [Hlong|Hfit].
  { exists m. split; [apply unchanged_refl|]. replace (_ <=? nbytes) with false; [done|]. symmetry. apply Z.leb_gt.
    rewrite Hj. case_decide; rewrite ?length_app; lia. }
  destruct (strcpy_cstr m buf _ w C) as (m1 & -> & U1 & C1); [unfold disj in *; fold k; lia|]. fold k in U1.
  cbn [mbind option_bind]. destruct (bytes_cstr _ _ _ C1) as [B1 Nz].
  assert (U1' : unchanged (in_range buf (nbytes + 1)) m m1) by (eapply unchanged_weaken; [|exact U1]; unfold in_range; intros; lia).
  destruct (decide (ws = [])) as [->|Ns].
  { rewrite Hj. fold k. rewrite (proj2 (Z.leb_le _ (idx + 1))) by (cbn; lia). exists m1. split; [done|].
    by rewrite (proj2 (Z.leb_le k nbytes)). }
  assert (Hl : length (w :: ws) = S (length ws)) by done. assert (length ws <> 0)%nat by (by destruct ws).
  rewrite (proj2 (Z.leb_gt _ (idx + 1))) by lia. rewrite Hj, length_app. cbn [length]. 
  destruct (Z.ltb_spec (nbytes - k) 1) as [Hfull|Hroom].
  { exists m1. split; [done|]. by replace (_ <=? nbytes) with false by (symmetry; apply Z.leb_gt; lia). }
  set (m2 := store8 m1 (buf + k) 32).
  assert (U2 : unchanged (in_range (buf + k) 1) m1 m2) by (apply unchanged_store8; unfold in_range; lia).
  assert (U12 : unchanged (in_range buf (nbytes + 1)) m m2).
  { eapply unchanged_trans; [exact U1'|]. eapply unchanged_weaken; [|exact U2]. unfold in_range. intros. lia. }
  destruct (IH n m2 start (idx + 1) (buf + k + 1) (nbytes - k - 1)) as (m' & U & R); [done|lia|lia| |].
  { replace (start + 4 + 4 * (idx + 1)) with (start + 4 + 4 * idx + 4) by lia.
    pose proof (argv_unchanged _ _ _ _ _ _ _ U12 (fun b Hb => Hb) Ha) as Ha2. eapply argv_shrink; [| |exact Ha2]; lia. }
  exists m'. split.
  { eapply unchanged_trans; [exact U12|]. eapply unchanged_weaken; [|exact U]. unfold in_range. intros. lia. }
  replace (idx + Z.of_nat (S (length ws))) with (idx + 1 + Z.of_nat (length ws)) by lia.
  replace (_ <=? nbytes) with (Z.of_nat (length (join ws)) <=? nbytes - k - 1)
    by (destruct (Z.leb_spec (Z.of_nat (length (join ws))) (nbytes - k - 1)); symmetry; [apply Z.leb_le|apply Z.leb_gt]; lia).
  destruct (Z.of_nat (length (join ws)) <=? nbytes - k - 1); [|exact R]. destruct R as (-> & B & Nj).
  split_and!; [do 4 f_equal; lia| |apply Forall_app; split; [done|by constructor]].
  rewrite bytes_app, bytes_S. fold k. f_equal; [|f_equal; [|exact B]].
  - rewrite (unchanged_bytes _ _ _ _ _ U) by (unfold in_range; intros; lia).
    by rewrite (unchanged_bytes _ _ _ _ _ U2) by (unfold in_range; intros; lia).
  - rewrite (unchanged_load8 _ _ _ _ U) by (unfold in_range; lia). unfold m2. by rewrite load8_store8_eq.
Qed.

Lemma emulated_getargs_spec {W} n buf nbytes ws (e : emu W) :
  s32 (load32 (e_mem e) (e_start_esp e)) = 1 + Z.of_nat (length ws) -> (length ws < n)%nat ->
  argv (e_mem e) (e_start_esp e + 8) buf (nbytes + 1) ws ->
  let fits := Z.of_nat (length (join ws)) <? nbytes in
  exists m', emulated_getargs n buf nbytes e = Some (if fits then 0 else -1, emu_mem m' e) /\
    unchanged (in_range buf (nbytes + 1)) (e_mem e) m' /\ (fits = true -> cstr m' buf (join ws)).
Proof.
  intros Hc Hn Ha. cbn zeta. unfold emulated_getargs. rewrite Hc. destruct (decide (ws = [])) as [->|Ns].
  - destruct n as [|n]; [cbn in Hn; lia|]. cbn [getargs_loop length join]. rewrite Z.ltb_irrefl. cbn [mbind option_bind].
    change (Z.of_nat 0) with 0. destruct (Z.ltb_spec nbytes 1); destruct (Z.ltb_spec 0 nbytes); try lia.
    + exists (e_mem e). split_and!; [done|apply unchanged_refl|done].
    + eexists. split_and!; [done|apply unchanged_store8; unfold in_range; lia|intros _; apply load8_store8_eq].
  - destruct (getargs_loop_spec ws n (e_mem e) (e_start_esp e) 1 buf nbytes) as (m' & U & R); [done|done|lia| |].
    { by replace (e_start_esp e + 4 + 4 * 1) with (e_start_esp e + 8) by lia. }
    set (len := Z.of_nat (length (join ws))) in *. destruct (Z.leb_spec len nbytes) as [Hle|Hgt].
    + destruct R as (-> & B & Nz). cbn [mbind option_bind]. destruct (Z.ltb_spec (nbytes - len) 1); destruct (Z.ltb_spec len nbytes); try lia.
      * exists m'. by split_and!.
      * set (m2 := store8 m' (buf + len) 0). 
        assert (U2 : unchanged (in_range (buf + len) 1) m' m2) by (apply unchanged_store8; unfold in_range; lia).
        exists m2. split_and!; [done| |].
        -- eapply unchanged_trans; [exact U|]. eapply unchanged_weaken; [|exact U2]. unfold in_range. intros. lia.
        -- intros _. apply cstr_bytes; [|done|by apply load8_store8_eq].
           by rewrite (unchanged_bytes _ _ _ _ _ U2) by (unfold in_range; intros; lia).
    + rewrite R. cbn [mbind option_bind]. rewrite (proj2 (Z.ltb_ge len nbytes)) by lia. exists m'. by split_and!.
Qed.

(** The vector of 1024 entries holds the arguments and the NULL of the longest command. *)
Lemma fields_count l : forall w, (2 * length (fields w l) <= length l + (if decide (w = []) then 1 else 2))%nat.
Proof.
  induction l as [|c l IH]; intros w; cbn [fields length].
  - case_decide; cbn; lia.
  - case_decide.
    + destruct (c =? 10); [cbn; lia|]. destruct (c =? 32); [specialize (IH []); rewrite decide_True in IH by done; lia|].
      specialize (IH [c]). rewrite decide_False in IH by done. lia.
    + destruct (separator c); [specialize (IH []); rewrite decide_True in IH by done; cbn [length]; lia|].
      specialize (IH (w ++ [c])). rewrite decide_False in IH by (by destruct w). lia.
Qed.

Lemma program_word_length l : (length (program_word l).1 + length (program_word l).2 <= length l)%nat.
Proof.
  induction l as [|c l IH]; cbn [program_word]; [done|]. destruct (separator c); [cbn; lia|].
  destruct (program_word l). cbn in *. lia.
Qed.

Lemma command_args_count l : (2 * length (command_args l) <= length l + 1)%nat.
Proof. pose proof (fields_count (program_word l).2 []). pose proof (program_word_length l). unfold command_args. rewrite decide_True in * by done. lia. Qed.

(** ** Reads of the directory *)

(** The most that is copied of a name: the buffer and the 32 characters of a name of the file
    system.  A count below 1 does not stop the copy. *)
Definition name_room (nbytes : Z) : Z := if 0 <? nbytes then Z.min nbytes 32 else 32.

Lemma copy_name_spec name : forall to nbytes copied m, Forall (fun c => 0 < c < 256) name ->
  0 <= copied < name_room nbytes ->
  let left := Z.to_nat (name_room nbytes - copied) in
  exists m', copy_name name to nbytes copied m =
      (bool_decide (left <= length name)%nat, copied + Z.of_nat (Nat.min left (length name)), m') /\
    unchanged (in_range (to + copied) (Z.of_nat (Nat.min left (length name)))) m m' /\
    bytes m' (to + copied) (Nat.min left (length name)) = take left name.
Proof.
  induction name as [|c name IH]; intros to nbytes copied m Hn Hc; cbn zeta; cbn [copy_name length].
  - exists m. rewrite Nat.min_0_r, Z.add_0_r, bool_decide_false, take_nil by lia. split_and!; [done|apply unchanged_refl|done].
  - inversion_clear Hn as [|? ? Hb Hn']. set (m1 := store8 m (to + copied) c).
    assert (U1 : unchanged (in_range (to + copied) 1) m m1) by (apply unchanged_store8; unfold in_range; lia).
    assert (Hz : forall m', unchanged (in_range (to + copied + 1) (Z.of_nat (length name))) m1 m' -> load8 m' (to + copied) = c).
    { intros m' U. rewrite (unchanged_load8 _ _ _ _ U) by (unfold in_range; lia). unfold m1.
      rewrite load8_store8_eq. apply u8_small. lia. }
    destruct (decide (copied + 1 = name_room nbytes)) as [E|E].
    + replace (Z.to_nat (name_room nbytes - copied)) with 1%nat by lia. exists m1. cbn [take]. rewrite bool_decide_true by lia.
      replace (Nat.min 1 (S (length name))) with 1%nat by lia. rewrite bytes_S, (Hz m1 (unchanged_refl _ _)), take_0. split_and!; [|done|done].
      unfold name_room in *. destruct (Z.ltb_spec 0 nbytes); repeat case_match; first [done|f_equal; f_equal; lia|lia].
    + assert ((copied + 1 =? nbytes) = false /\ (copied + 1 =? 32) = false) as [-> ->].
      { unfold name_room in *. destruct (Z.ltb_spec 0 nbytes); split; apply Z.eqb_neq; lia. }
      destruct (IH to nbytes (copied + 1) m1 Hn' ltac:(lia)) as (m' & -> & U & B).
      set (k := Z.to_nat (name_room nbytes - (copied + 1))) in *. rewrite Z.add_assoc in U, B.
      replace (Z.to_nat (name_room nbytes - copied)) with (S k) by lia. exists m'. cbn [Nat.min take]. split_and!.
      * f_equal; [|done..]. f_equal; [apply bool_decide_ext; lia|lia].
      * eapply unchanged_trans; (eapply unchanged_weaken; [|eassumption]); unfold in_range; intros; lia.
      * rewrite bytes_S, B, Hz; [done|]. eapply unchanged_weaken; [|exact U]. unfold in_range. intros. lia.
Qed.

(** C21 The emulated execute hands the command to the host as a path "./program" and a vector of the
    arguments, cut at blanks and line ends; the vector has room for them, only the buffer of the call
    changes, and the value is the one for the end of the child.  A program whose stack holds such a
    vector gets from the emulated getargs the arguments with single blanks between them and 0, or -1
    when they do not fit.  For a line of words with single blanks these are the words of the line,
    so the line arrives as it was typed. *)
Theorem emulation_passes_arguments {W} `{Linux W} n buf command l (e child : emu W) args_buf nbytes :
  cstr (e_mem e) command l -> Z.of_nat (length l) <= 1023 -> (length l < n)%nat ->
  disj buf 1026 command (Z.of_nat (length l) + 1) ->
  s32 (load32 (e_mem child) (e_start_esp child)) = 1 + Z.of_nat (length (command_args l)) ->
  argv (e_mem child) (e_start_esp child + 8) args_buf (nbytes + 1) (command_args l) ->
  (exists args m', Forall2 (cstr m') args (program_path l :: command_args l) /\ (length args < 1024)%nat /\
     unchanged (in_range buf 1026) (e_mem e) m' /\
     let '(st, w) := spawn buf args m' (e_world e) in
     emulated_execute n buf command e =
       Some (child_value st, mkEmu m' (e_start_esp e) (e_dir_fd e) (e_dir e) (e_mem_fd e) w)) /\
  (let fits := Z.of_nat (length (join (command_args l))) <? nbytes in
   exists m', emulated_getargs (S n) args_buf nbytes child = Some (if fits then 0 else -1, emu_mem m' child) /\
     unchanged (in_range args_buf (nbytes + 1)) (e_mem child) m' /\
     (fits = true -> cstr m' args_buf (join (command_args l)))) /\
  (forall prog ws, unbroken prog -> Forall (fun w => w <> [] /\ unbroken w) ws -> l = prog ++ 32 :: join ws ->
     program_path l = 46 :: 47 :: prog /\ command_args l = ws).
Proof.
  intros Hl Hlen Hn Hd Hc Ha. pose proof (command_args_count l) as Hcount. split_and!.
  - destruct (split_command_spec n (e_mem e) buf command l Hl Hn) as (args & m' & Es & U & F); [unfold disj in *; lia|].
    exists args, m'. apply Forall2_length in F as Hlen2. cbn [length] in Hlen2. split_and!; [done|lia| |].
    + eapply unchanged_weaken; [|exact U]. unfold in_range. intros. lia.
    + unfold emulated_execute. rewrite (cstr_strlen _ _ _ Hl), (proj2 (Z.ltb_ge 1023 _)), Es by lia. cbn [mbind option_bind].
      by destruct (spawn buf args m' (e_world e)).
  - apply emulated_getargs_spec; [done|lia|done].
  - intros prog ws Pp Pw ->. unfold program_path, command_args. rewrite program_word_cut by done. cbn [fst snd]. by rewrite fields_join.
Qed.

Import String.StringSyntax.
#[local] Open Scope string_scope.
#[local] Open Scope Z_scope.
#[local] Open Scope list_scope.

(** A host whose programs all end with status 7, with one directory entry. *)
#[local] Instance test_host : Linux unit := {
  int80 _ _ _ _ m w := (0, m, w);
  lx_execv _ _ _ w := (Some (Exited 7), w);
  lx_opendir w := (1, w);
  lx_open_null w := (3, w);
  lx_open_mem w := (4, w);
  lx_mmap _ w := (Some 0x40000000, w);
  lx_readdir _ w := (Some (codes "frame0.txt"), w);
  lx_closedir _ w := w;
  lx_close _ w := w
}.

(** The command "cat a  b" (two blanks) in a process. *)
Definition caller_mem : mem := store_list (Mem ∅ ∅ 0) 0x2000 (codes "cat a  b" ++ [0]).
Definition caller : emu unit := mkEmu caller_mem 0 (-1) 0 (-1) tt.

(** The stack of the child: argc, argv and the strings. *)
Definition child_mem : mem :=
  let m := store_list (Mem ∅ ∅ 0) 0x6000 (codes "./cat" ++ [0] ++ codes "a" ++ [0] ++ codes "b" ++ [0]) in
  store32 (store32 (store32 (store32 m 0x5000 3) 0x5004 0x6000) 0x5008 0x6006) 0x500C 0x6008.
Definition child : emu unit := mkEmu child_mem 0x5000 (-1) 0 (-1) tt.

Lemma emulation_passes_arguments_witness :
  command_args (codes "cat a  b") = [codes "a"; codes "b"] /\
  exists m', emulated_getargs 101 0x7000 100 child = Some (0, emu_mem m' child) /\ cstr m' 0x7000 (codes "a b").
Proof.
  split; [by vm_compute|].
  destruct (emulation_passes_arguments 100 0x3000 0x2000 (codes "cat a  b") caller child 0x7000 100) as (_ & (m' & E & _ & C) & _).
  - vm_compute. by split_and!.
  - vm_compute. done.
  - vm_compute. lia.
  - unfold disj. right. vm_compute. done.
  - by vm_compute.
  - vm_compute. split_and!; done || (by left) || by right.
  - exists m'. split; [exact E|]. by apply C.
Defined.

(** C22 A read of the emulated directory returns the next name as the file system of the kernel
    stores names: cut at 32 characters, filled up with NULs to the count asked for, at most 32.
    Only the bytes counted in the value change.  A count below 1 lets the whole name through. *)
Theorem emulated_read_name {W} `{Linux W} fd buf nbytes name w (e : emu W) :
  e_dir e <> 0 -> e_dir_fd e = fd -> lx_readdir (e_dir e) (e_world e) = (Some name, w) ->
  Forall (fun c => 0 < c < 256) name ->
  let n := if 0 <? nbytes then Z.min nbytes 32 else Z.min (Z.of_nat (length name)) 32 in
  exists m', emulated_read fd buf nbytes e = (n, emu_mem m' (emu_dir fd (e_dir e) w e)) /\
    unchanged (in_range buf n) (e_mem e) m' /\
    bytes m' buf (Z.to_nat n) = take (Z.to_nat n) (name ++ replicate 32 0).
Proof.
  intros Hdir <- Er Hn. cbn zeta. unfold emulated_read. rewrite (proj2 (Z.eqb_neq _ 0)), Z.eqb_refl, Er by done. cbn [orb negb].
  set (L := Z.of_nat (length name)).
  assert (0 < name_room nbytes <= 32) by (unfold name_room; destruct (Z.ltb_spec 0 nbytes); lia).
  destruct (copy_name_spec name buf nbytes 0 (e_mem e) Hn ltac:(lia)) as (m1 & E & U & B).
  rewrite Z.sub_0_r, Z.add_0_r, Z.add_0_l in *. cbn [e_mem emu_dir]. rewrite E. clear E.
  destruct (decide (name_room nbytes <= L)) as [Hle|Hgt].
  - replace (Nat.min _ _) with (Z.to_nat (name_room nbytes)) in * by lia. rewrite bool_decide_true by lia.
    replace (if 0 <? nbytes then _ else _) with (name_room nbytes) by (unfold name_room in *; destruct (0 <? nbytes); lia).
    exists m1. rewrite Z2Nat.id in * by lia. split_and!; [done|done|]. by rewrite take_app_le by lia.
  - replace (Nat.min _ _) with (length name) in * by lia. rewrite bool_decide_false by lia. fold L in U |- *.
    rewrite take_ge in B by lia. set (last := Z.max L (Z.min nbytes 32)).
    replace (if 0 <? nbytes then _ else _) with last by (unfold name_room, last in *; destruct (Z.ltb_spec 0 nbytes); lia).
    destruct (zero_fill_spec m1 buf L last ltac:(lia)) as [U2 B2]. set (m2 := for_range _ _ _ _) in *.
    exists m2. split_and!; [done| |].
    + eapply unchanged_trans; (eapply unchanged_weaken; [|eassumption]); unfold in_range; intros; lia.
    + replace (Z.to_nat last) with (length name + Z.to_nat (last - L))%nat by lia.
      rewrite take_app_add, bytes_app, take_replicate. fold L. rewrite B2.
      rewrite (unchanged_bytes _ _ _ _ _ U2), B by (unfold in_range; intros; lia). do 2 f_equal.
      unfold name_room, last in *. destruct (Z.ltb_spec 0 nbytes); lia.
Qed.

Definition listing : emu unit := mkEmu caller_mem 0 3 1 (-1) tt.

Lemma emulated_read_name_witness : exists m',
  emulated_read 3 0x7000 20 listing = (20, emu_mem m' (emu_dir 3 1 tt listing)) /\
  bytes m' 0x7000 20 = codes "frame0.txt" ++ replicate 10 0.
Proof.
  destruct (emulated_read_name 3 0x7000 20 (codes "frame0.txt") tt listing) as (m' & E & _ & B).
  - done.
  - done.
  - done.
  - vm_compute. repeat constructor.
  - exists m'. split; [exact E|exact B].
Defined.
