(* ===== verification/FileCalls.v ===== *)
(** * The file system calls

    [sys_open_c] looks a name up, picks the operations table of its type and lets
    the open operation of that table claim the descriptor; [sys_read_c],
    [sys_write_c] and [sys_close_c] dispatch through the table.  The theorems
    follow a descriptor from the open through reads to the close. *)

From S2P Require Import Prelude Mem CString State Console I8259 Pcb Rtc Filesys FilesysRead FilesysDir Keyboard Paging Syscalls Process.

#[local] Arguments strlen : simpl never.
#[local] Arguments strncpy : simpl never.

(** ** The operation tables are different objects *)

Record tables_ok `{Layout} : Prop := {
  tb_range : Forall (fun t => 0 <= t < 4294967296) [rtc_table; dir_table; file_table; terminal_table];
  tb_distinct : NoDup [rtc_table; dir_table; file_table; terminal_table]
}.

(** The table [sys_open_c] picks is the one a descriptor with it dispatches to. *)
Lemma ops_of_type_at `{Layout} ty :
  tables_ok -> ops_at (u32 (ops_of_type ty).2) = Some (ops_of_type ty).1.
Proof.
  intros [Hr Hd].
  rewrite !Forall_cons in Hr. destruct Hr as (R1 & R2 & R3 & R4 & _).
  rewrite !NoDup_cons, !not_elem_of_cons in Hd.
  destruct Hd as ((D1 & D2 & D3 & _) & (D4 & D5 & _) & (D6 & _) & _).
  unfold ops_of_type, ops_at.
  repeat split_if; cbn [fst snd] in *; rewrite u32_small in * by lia; (reflexivity || congruence).
Qed.

(** ** Calls do not disturb the lookup *)

Lemma find_fd_ext m m' pcb :
  (forall j, 2 <= j < 8 -> fd_get m' pcb j FD_FLAGS = fd_get m pcb j FD_FLAGS) ->
  find_fd m' pcb = find_fd m pcb.
Proof.
  intros E. unfold find_fd.
  enough (forall fuel i, 2 <= i -> i + Z.of_nat fuel <= 8 ->
    find_fd_loop fuel m' pcb i = find_fd_loop fuel m pcb i) as K by (apply K; lia).
  induction fuel as [|f IH]; intros i H2 H8; cbn [find_fd_loop]; [done|].
  rewrite E by lia. destruct (_ =? 0); [done|]. apply IH; lia.
Qed.

Lemma strlen_unchanged P m m' a :
  unchanged P m m' -> (forall b, in_range a (strlen m a + 1) b -> ~ P b) ->
  strlen m' a = strlen m a.
Proof. intros U HP. apply strlen_eq. eapply is_cstr_unchanged; [exact U|exact HP|apply strlen_spec]. Qed.

(** The objects of one call of [sys_open_c] are apart. *)
Record open_layout `{Layout} (fs : filesys) (pcb dentry fname : Z) (m : mem) : Prop := {
  ol_fs : fs_layout fs pcb;
  ol_dentry0 : dentry <> 0;
  ol_dentry_image : rdisj (dentry_region dentry) (image fs);
  ol_dentry_pcb : rdisj (pcb_region pcb) (dentry_region dentry);
  ol_name : Forall (rdisj (fname, strlen m fname + 1))
              [scratch; dentry_region open_dentry; dentry_region dentry; pcb_region pcb]
}.

Section Open.
Context `{Layout} (fs : filesys) (pcb dentry fname : Z) (m : mem).
Context (HL : open_layout fs pcb dentry fname m) (Hdir : dir_ok fs m).
Context (Hf0 : fname <> 0) (Hlen : strlen m fname <= 32).

(** What the lookup and the choice of the table may write. *)
Definition prepare_frame (a : Z) : Prop :=
  lookup_frame dentry a \/ in_range pcb 128 a.

Lemma prepare_off_image a : prepare_frame a -> ~ in_region (image fs) a.
Proof using HL.
  destruct HL as [[_ _ H1 H2 _ H3 _ _] _ H4 _ _].
  unfold prepare_frame, lookup_frame, rdisj, disj, in_region, in_range, pcb_region, PCB_SIZE in *.
  cbn [fst snd] in *. clear -H1 H2 H3 H4. lia.
Qed.

Lemma prepare_off_name a : in_range fname (strlen m fname + 1) a -> ~ prepare_frame a.
Proof using HL.
  destruct HL as [_ _ _ _ Hn]. rewrite !Forall_cons in Hn. destruct Hn as (H1 & H2 & H3 & H4 & _).
  unfold prepare_frame, lookup_frame, rdisj, disj, in_region, in_range, pcb_region, PCB_SIZE in *.
  cbn [fst snd] in *. clear -H1 H2 H3 H4. lia.
Qed.

Lemma lookup_off_fd fd a : 0 <= fd < 8 -> in_region (fd_region pcb fd) a -> ~ lookup_frame dentry a.
Proof using HL.
  destruct HL as [[_ _ _ _ _ _ H1 H2] _ _ H3 _]. intros Hfd.
  unfold lookup_frame, rdisj, disj, in_region, in_range, fd_region, pcb_region, PCB_SIZE in *.
  cbn [fst snd] in *. clear -H1 H2 H3 Hfd. lia.
Qed.

(** After a step inside [prepare_frame] the name and the directory read the same. *)
Lemma prepared m' :
  unchanged prepare_frame m m' ->
  dir_ok fs m' /\ strlen m' fname = strlen m fname /\ cname m' fname 32 = cname m fname 32 /\
  dir_names fs m' = dir_names fs m /\
  (forall i, 1 <= i <= n_dir_entries fs ->
     entry_type fs m' i = entry_type fs m i /\ entry_inode fs m' i = entry_inode fs m i).
Proof using HL Hdir.
  intros U. destruct HL as [HF _ _ _ _]. destruct HF as [Hi _ _ _ _ _ _ _].
  assert (Hb : forall a, prepare_frame a -> ~ in_region (boot_region fs) a).
  { intros a Ha Hbt. apply (prepare_off_image a Ha). destruct Hi as (H0 & H1 & _).
    unfold in_region, in_range, image, boot_region, FOUR_KB in *. cbn [fst snd] in *. lia. }
  pose proof (entry_load32_unchanged fs prepare_frame m m' Hdir U Hb) as He.
  split; [by eapply dir_ok_unchanged|].
  split; [eapply strlen_unchanged; [exact U|apply prepare_off_name]|].
  split; [eapply cname_unchanged_strlen; [exact U|apply prepare_off_name]|].
  split.
  { unfold dir_names. destruct Hdir as (_ & Hn & _).
    apply (names_from_unchanged fs prepare_frame m m' Hdir U Hb); lia. }
  intros i Hi'. unfold entry_type, entry_inode, entry_type.
  rewrite !He by (unfold DE_FILETYPE, DE_INODE; lia). done.
Qed.

(** The first lookup, into the local entry. *)
Lemma first_lookup :
  match list_find (eq (cname m fname 32)) (dir_names fs m) with
  | None => exists m', read_dentry_by_name fs fname dentry m = (-1, m') /\
      unchanged (lookup_frame dentry) m m'
  | Some (k, _) => exists m', read_dentry_by_name fs fname dentry m = (0, m') /\
      unchanged (lookup_frame dentry) m m' /\
      load32 m' (dentry + DE_FILETYPE) = entry_type fs m (1 + Z.of_nat k)
  end.
Proof using HL Hdir Hf0 Hlen.
  destruct HL as [[Hi Ho H1 H2 H3 _ _ _] Hd H4 _ Hn].
  rewrite !Forall_cons in Hn. destruct Hn as (N1 & _).
  pose proof (read_dentry_by_name_spec fs fname dentry m Hdir Hf0 Hd Hlen
    (rdisj_boot _ _ Hi H1) N1 (rdisj_boot _ _ Hi H2) (rdisj_boot _ _ Hi H4) H3) as E.
  destruct (list_find _ _) as [[k x]|].
  - destruct E as (m' & -> & U & T & _). eauto.
  - destruct E as (m' & -> & U). exists m'. split; [reflexivity|].
    eapply unchanged_weaken; [|exact U]. by left.
Qed.
End Open.

(** ** Opening *)

(** The flags an open leaves in the descriptor of a clock, a directory and a file. *)
Definition open_flags (ty : Z) : Z :=
  if ty =? RTC_FILE then 0x101 else if ty =? DIR_FILE then 0x3 else 0x105.

Section Call.
Context `{Ports} `{Layout} (s : kst) (dentry fname : Z).
Context (HL : open_layout (k_fs s) (cur_pcb s) dentry fname (k_mem s)) (HT : tables_ok).
Context (Hdir : dir_ok (k_fs s) (k_mem s)) (Hf0 : fname <> 0) (Hlen : strlen (k_mem s) fname <= 32).

Definition open_call_frame (fd a : Z) : Prop :=
  lookup_frame dentry a \/ in_region (fd_region (cur_pcb s) fd) a.

(** The state after a successful call for an entry of type [ty]. *)
Definition sys_opened (fd ty inode : Z) (s' : kst) : Prop :=
  cur_pcb s' = cur_pcb s /\ k_fs s' = k_fs s /\
  unchanged (open_call_frame fd) (k_mem s) (k_mem s') /\
  fd_ops fd s' = Some (ops_of_type ty).1 /\
  if decide (ty <= REG_FILE) then
    fd_get (k_mem s') (cur_pcb s) fd FD_FLAGS = open_flags ty /\
    fd_get (k_mem s') (cur_pcb s) fd FD_INODE = inode /\ fd_get (k_mem s') (cur_pcb s) fd FD_POS = 0
  else fd_open fd s' = false.

Definition sys_open_outcome (res : Z * kst) : Prop :=
  let fd := find_fd (k_mem s) (cur_pcb s) in
  match list_find (eq (cname (k_mem s) fname 32)) (dir_names (k_fs s) (k_mem s)) with
  | Some (k, _) =>
      if decide (fd < 8) then
        exists s', res = (fd, s') /\
          sys_opened fd (entry_type (k_fs s) (k_mem s) (1 + Z.of_nat k))
                        (entry_inode (k_fs s) (k_mem s) (1 + Z.of_nat k)) s'
      else exists m', res = (-1, set_k_mem m' s) /\ unchanged (lookup_frame dentry) (k_mem s) m'
  | None => exists m', res = (-1, set_k_mem m' s) /\ unchanged (lookup_frame dentry) (k_mem s) m'
  end.

Lemma sys_open_found k x res :
  sys_open_outcome res ->
  list_find (eq (cname (k_mem s) fname 32)) (dir_names (k_fs s) (k_mem s)) = Some (k, x) ->
  find_fd (k_mem s) (cur_pcb s) < 8 ->
  exists s', res = (find_fd (k_mem s) (cur_pcb s), s') /\
    sys_opened (find_fd (k_mem s) (cur_pcb s)) (entry_type (k_fs s) (k_mem s) (1 + Z.of_nat k))
               (entry_inode (k_fs s) (k_mem s) (1 + Z.of_nat k)) s'.
Proof using Type.
  unfold sys_open_outcome. intros Ho Hf Hfd. rewrite Hf, decide_True in Ho by exact Hfd. exact Ho.
Qed.

(** The memory in which the open operation runs: the lookup is done and the
    table is in the descriptor. *)
Definition ready_to_open (ty : Z) (m2 : mem) : Prop :=
  let fd := find_fd (k_mem s) (cur_pcb s) in
  unchanged (open_call_frame fd) (k_mem s) m2 /\
  fd_get m2 (cur_pcb s) fd FD_OPS = u32 (ops_of_type ty).2 /\
  forall j, 2 <= j < 8 -> fd_get m2 (cur_pcb s) j FD_FLAGS = fd_get (k_mem s) (cur_pcb s) j FD_FLAGS.

Lemma ready_intro ty m1 :
  find_fd (k_mem s) (cur_pcb s) < 8 -> unchanged (lookup_frame dentry) (k_mem s) m1 ->
  ready_to_open ty (fd_set m1 (cur_pcb s) (find_fd (k_mem s) (cur_pcb s)) FD_OPS (ops_of_type ty).2).
Proof using HL.
  intros Hfd U1. pose proof (find_fd_spec (k_mem s) (cur_pcb s)) as (Hr & _).
  set (fd := find_fd (k_mem s) (cur_pcb s)) in *. split.
  - apply (unchanged_trans _ _ m1); [eapply unchanged_weaken; [|exact U1]; by left|].
    eapply unchanged_weaken; [|apply unchanged_fd_set; unfold FD_OPS; lia]. by right.
  - split; [apply fd_get_set_eq|]. intros j Hj.
    rewrite fd_get_set_ne by (unfold FD_OPS, FD_FLAGS; first [reflexivity|lia]).
    eapply fd_get_unchanged; [exact U1|unfold FD_FLAGS; lia..|].
    intros a. eapply lookup_off_fd; [exact HL|lia].
Qed.

Lemma call_frame_prepare fd a : 0 <= fd < 8 -> open_call_frame fd a -> prepare_frame (cur_pcb s) dentry a.
Proof using Type.
  intros Hfd [Ha|Ha]; [by left|right]. unfold in_region, in_range, fd_region in *. cbn [fst snd] in *. lia.
Qed.

(** What every open operation leaves, from the claim of its descriptor. *)
Lemma sys_opened_intro ty inode m2 s' :
  let fd := find_fd (k_mem s) (cur_pcb s) in
  fd < 8 -> ty <= REG_FILE -> ready_to_open ty m2 ->
  cur_pcb s' = cur_pcb s -> k_fs s' = k_fs s ->
  fd_get (k_mem s') (cur_pcb s) fd FD_FLAGS = open_flags ty ->
  fd_get (k_mem s') (cur_pcb s) fd FD_INODE = inode -> fd_get (k_mem s') (cur_pcb s) fd FD_POS = 0 ->
  fd_get (k_mem s') (cur_pcb s) fd FD_OPS = fd_get m2 (cur_pcb s) fd FD_OPS ->
  unchanged (open_call_frame fd) m2 (k_mem s') ->
  sys_opened fd ty inode s'.
Proof using HT.
  intros fd Hfd Hty (U & O & _) Ep Ef F I P O' U'.
  split; [done|]. split; [done|]. split; [by eapply unchanged_trans|]. split.
  - unfold fd_ops. rewrite Ep. fold fd in O. rewrite O', O. by apply ops_of_type_at.
  - by rewrite decide_True.
Qed.

(** The open operation claims the descriptor whose table was just set: it runs
    the same search and finds the same entry. *)
Lemma open_ptr_spec k x m2 :
  list_find (eq (cname (k_mem s) fname 32)) (dir_names (k_fs s) (k_mem s)) = Some (k, x) ->
  let fd := find_fd (k_mem s) (cur_pcb s) in
  let ty := entry_type (k_fs s) (k_mem s) (1 + Z.of_nat k) in
  fd < 8 -> ready_to_open ty m2 ->
  sys_opened fd ty (entry_inode (k_fs s) (k_mem s) (1 + Z.of_nat k))
    (open_ptr (ops_of_type ty).1 fname (set_k_mem m2 s)).2.
Proof using HL HT Hdir Hf0 Hlen.
  intros Hfind fd ty Hfd Hready. pose proof Hready as (U & O & Fl). fold fd in U, O.
  pose proof (find_fd_spec (k_mem s) (cur_pcb s)) as (Hr & Hfree & _). fold fd in Hr, Hfree.
  assert (Efd : find_fd m2 (cur_pcb s) = fd) by (by apply find_fd_ext).
  pose proof (found_index (k_fs s) (k_mem s) Hdir _ k x Hfind) as Hk.
  destruct (prepared (k_fs s) (cur_pcb s) dentry fname (k_mem s) HL Hdir m2) as (D & L & C & N & T).
  { eapply unchanged_weaken; [|exact U]. intros a. apply call_frame_prepare. lia. }
  destruct (T _ Hk) as [T1 T2].
  assert (Hn : rdisj (fname, strlen m2 fname + 1) scratch).
  { rewrite L. destruct HL as [_ _ _ _ Hn]. rewrite !Forall_cons in Hn. apply Hn. }
  assert (Hfr : forall a, open_frame a \/ in_region (fd_region (cur_pcb s) fd) a -> open_call_frame fd a).
  { unfold open_frame, open_call_frame, lookup_frame. tauto. }
  assert (Hty0 : 0 <= ty) by apply load32_range.
  destruct HL as [HF _ _ _ _]. unfold ops_of_type.
  destruct (Z.eqb_spec ty RTC_FILE) as [E0|E0]; [|destruct (Z.eqb_spec ty DIR_FILE) as [E1|E1];
    [|destruct (Z.eqb_spec ty REG_FILE) as [E2|E2]]]; cbn [fst open_ptr].
  - destruct (rtc_open_state fname (set_k_mem m2 s)) as (s' & E & Em & Ep & Ef).
    cbn [k_mem cur_pcb set_k_mem k_fs] in E, Em, Ep, Ef. rewrite E, Efd in *.
    replace (fd <? 8) with true in Em by lia.
    destruct (rtc_fd_init_spec (cur_pcb s) fd m2) as (F1 & F2 & F3 & F4 & F5). cbn [snd].
    apply sys_opened_intro with (m2 := m2); rewrite ?Em;
      [exact Hfd|rewrite E0; discriminate|exact Hready|exact Ep|exact Ef| | |exact F3|exact F4|].
    + fold fd. rewrite F1, E0. reflexivity.
    + fold fd. rewrite F2. unfold entry_inode. fold ty. now rewrite E0.
    + eapply unchanged_weaken; [|exact F5]. intros a Ha. right. exact Ha.
  - unfold on_mem. cbn [k_mem cur_pcb set_k_mem k_fs].
    pose proof (dir_open_spec (k_fs s) (cur_pcb s) fname m2 HF D Hf0 ltac:(lia) Hn) as Ho.
    unfold open_outcome in Ho. rewrite Efd, C, N, Hfind, T1, T2 in Ho.
    rewrite decide_False in Ho by (clear -Hfd; lia). rewrite decide_True in Ho by exact E1.
    destruct Ho as (m' & -> & F1 & F2 & F3 & F4 & F5). cbn [snd].
    apply sys_opened_intro with (m2 := m2);
      [exact Hfd|rewrite E1; discriminate|exact Hready|reflexivity|reflexivity| |exact F2|exact F3|exact F4|].
    + rewrite E1. exact F1.
    + eapply unchanged_weaken; [|exact F5]. exact Hfr.
  - unfold on_mem. cbn [k_mem cur_pcb set_k_mem k_fs].
    pose proof (file_open_spec (k_fs s) (cur_pcb s) fname m2 HF D Hf0 ltac:(lia) Hn) as Ho.
    unfold open_outcome in Ho. rewrite Efd, C, N, Hfind, T1, T2 in Ho.
    rewrite decide_False in Ho by (clear -Hfd; lia). rewrite decide_True in Ho by exact E2.
    destruct Ho as (m' & -> & F1 & F2 & F3 & F4 & F5). cbn [snd].
    apply sys_opened_intro with (m2 := m2);
      [exact Hfd|rewrite E2; discriminate|exact Hready|reflexivity|reflexivity| |exact F2|exact F3|exact F4|].
    + rewrite E2. exact F1.
    + eapply unchanged_weaken; [|exact F5]. exact Hfr.
  - split; [done|]. split; [done|]. split; [exact U|]. split.
    + unfold fd_ops. cbn [snd terminal_open].
      change (k_mem (keyboard_environment (set_k_mem m2 s))) with m2.
      change (cur_pcb (keyboard_environment (set_k_mem m2 s))) with (cur_pcb s). rewrite O.
      by apply ops_of_type_at.
    + rewrite decide_False by (unfold RTC_FILE, DIR_FILE, REG_FILE in *; lia).
      change (fd_open fd (terminal_open fname (set_k_mem m2 s)).2) with (fd_used m2 (cur_pcb s) fd).
      unfold fd_used. rewrite Fl by lia. by apply Hfree.
Qed.

Lemma sys_open_spec : sys_open_outcome (sys_open_c dentry fname s).
Proof using HL HT Hdir Hf0 Hlen.
  unfold sys_open_outcome, sys_open_c. rewrite (proj2 (Z.eqb_neq _ _) Hf0).
  pose proof (first_lookup _ _ _ _ _ HL Hdir Hf0 Hlen) as E.
  pose proof (find_fd_spec (k_mem s) (cur_pcb s)) as (Hr & _).
  destruct (list_find _ _) as [[k x]|] eqn:Ef.
  - destruct E as (m1 & E & U1 & T1). unfold on_mem. rewrite E. cbn [Z.eqb k_mem cur_pcb set_k_mem].
    assert (Efd : find_fd m1 (cur_pcb s) = find_fd (k_mem s) (cur_pcb s)).
    { apply find_fd_ext. intros j Hj. eapply fd_get_unchanged; [exact U1|unfold FD_FLAGS; lia..|].
      intros a. eapply lookup_off_fd; [exact HL|lia]. }
    rewrite Efd. destruct (decide _) as [Hlt|Hge].
    + replace (8 <=? find_fd (k_mem s) (cur_pcb s)) with false by lia. rewrite T1.
      pose proof (open_ptr_spec k x _ Ef Hlt (ready_intro
        (entry_type (k_fs s) (k_mem s) (1 + Z.of_nat k)) m1 Hlt U1)) as Hopen.
      set (ty := entry_type (k_fs s) (k_mem s) (1 + Z.of_nat k)) in *.
      rewrite (surjective_pairing (ops_of_type ty)). cbn [fst snd].
      unfold upd_mem. cbn [k_mem cur_pcb set_k_mem].
      change (set_k_mem ?a (set_k_mem ?b ?c)) with (set_k_mem a c).
      rewrite (surjective_pairing (open_ptr _ _ _)). eexists. split; [reflexivity|exact Hopen].
    + replace (8 <=? find_fd (k_mem s) (cur_pcb s)) with true by lia. eauto.
  - destruct E as (m1 & E & U1). unfold on_mem. rewrite E. cbn [Z.eqb]. eauto.
Qed.
End Call.

(** ** Reading through a descriptor *)

(** A read does not touch the table of its descriptor. *)
Lemma read_data_ops fs pcb inode offset buf length fd m :
  0 <= length < 4294967296 -> rdisj (buf, length) (fd_region pcb fd) ->
  fd_get (read_data fs pcb inode offset buf length fd m).2 pcb fd FD_OPS = fd_get m pcb fd FD_OPS.
Proof.
  intros Hl Hd.
  assert (K : forall m', unchanged (in_range buf length) m m' ->
    fd_get m' pcb fd FD_OPS = fd_get m pcb fd FD_OPS).
  { intros m' U. eapply fd_get_unchanged; [exact U|unfold FD_OPS; lia..|].
    unfold rdisj, disj, in_region, in_range in *. cbn [fst snd] in *. lia. }
  unfold read_data. do 3 (split_if; [reflexivity|]).
  set (idx0 := if negb (fd =? -1) then _ else 0). split_if; [reflexivity|].
  match goal with |- context [rd_loop ?f ?fs ?i ?b ?l ?sz ?it ?o ?c ?m] =>
    pose proof (rd_loop_frame fs i b l sz f it o c m ltac:(lia) ltac:(lia)) as Hf;
    destruct (rd_loop f fs i b l sz it o c m) as [it' m'|it' idx m'] end.
  - by apply K.
  - destruct Hf as [H0' Hf]. cbn [snd].
    set (m2 := if it' <? length then _ else m').
    assert (U2 : unchanged (in_range buf length) m m2).
    { unfold m2. destruct (Z.ltb_spec it' length); [|exact Hf].
      eapply unchanged_trans; [exact Hf|]. apply unchanged_store8. unfold in_range. lia. }
    destruct (negb (fd =? -1)); [|by apply K]. fd_simpl. by apply K.
Qed.

Lemma file_read_ops fs pcb fd buf nbytes m :
  0 <= nbytes < 4294967296 -> rdisj (buf, nbytes) (fd_region pcb fd) ->
  fd_get (file_read fs pcb fd buf nbytes m).2 pcb fd FD_OPS = fd_get m pcb fd FD_OPS.
Proof.
  intros Hl Hd. unfold file_read. do 2 (split_if; [reflexivity|]). rewrite u32_small by done.
  match goal with |- context [read_data ?f ?p ?i ?o ?b ?l ?d ?m] =>
    pose proof (read_data_ops f p i o b l d m Hl Hd) as Er; destruct (read_data f p i o b l d m) as [r m1] end.
  cbn [fst snd] in *. fd_simpl. exact Er.
Qed.

Lemma used_bit flags : Z.land flags USE_MASK <> 0 -> (flags mod 2 =? 0) = false.
Proof. unfold USE_MASK. rewrite land_1_odd. intros. lia. Qed.

Section Session.
Context `{Ports} `{Layout}.

(** Reads of [k] bytes through the system call until one returns 0. *)
Fixpoint sys_read_all (fuel : nat) (fd buf k : Z) (s : kst) : option (list Z * kst) :=
  match fuel with
  | O => None
  | S f =>
      match sys_read_c (mkSched [] []) fd buf k s with
      | None => None
      | Some (cnt, s) =>
          if cnt <=? 0 then Some ([], s) else
          match sys_read_all f fd buf k s with
          | None => None
          | Some (l, s') => Some (bytes (k_mem s) buf (Z.to_nat cnt) ++ l, s')
          end
      end
  end.

Context (fs : filesys) (pcb fd inode buf k : Z).
Context (Hfd : 0 <= fd < 8) (Hb0 : buf <> 0) (Hk : 0 < k < 2147483648).
Context (H1 : rdisj (buf, k) (image fs)) (H2 : rdisj (buf, k) (fd_region pcb fd)).
Context (H3 : rdisj (fd_region pcb fd) (image fs)).

(** The descriptor is an open regular file at [pos] that dispatches to filesys.c. *)
Definition reading (pos : Z) (s : kst) : Prop :=
  k_fs s = fs /\ cur_pcb s = pcb /\ file_ok fs (k_mem s) inode /\
  open_file fs (k_mem s) pcb fd inode pos /\ fd_ops fd s = Some FileOps.

Lemma sys_read_file sc pos s :
  reading pos s ->
  let n := Z.min k (file_size fs (k_mem s) inode - pos) in
  exists m', sys_read_c sc fd buf k s = Some (n, set_k_mem m' s) /\
    bytes m' buf (Z.to_nat n) = file_slice fs (k_mem s) inode pos (Z.to_nat n) /\
    unchanged (read_frame pcb fd buf k) (k_mem s) m' /\
    file_size fs m' inode = file_size fs (k_mem s) inode /\
    file_bytes fs m' inode = file_bytes fs (k_mem s) inode /\
    reading (pos + n) (set_k_mem m' s).
Proof using Hfd Hb0 Hk H1 H2 H3.
  intros (Efs & Ep & Hf & Ho & Hops) n.
  destruct (file_read_spec fs pcb fd inode pos buf k (k_mem s)) as (m' & E & B & U & F & S' & C & O);
    try (exact Hf || exact Ho || exact H1 || exact H2 || exact H3 || lia).
  exists m'. pose proof Ho as (_ & _ & _ & Hu & _).
  unfold sys_read_c. replace ((fd <? 0) || (FD_SIZE <? fd)) with false by (unfold FD_SIZE; lia).
  rewrite (proj2 (Z.eqb_neq _ _) Hb0). replace (k <? 0) with false by lia.
  unfold fd_open, fd_used. rewrite Ep, (used_bit _ Hu), Hops. cbn [negb read_ptr].
  unfold on_mem. rewrite Efs, Ep, E.
  split; [reflexivity|]. split; [exact B|]. split; [exact U|]. split; [exact S'|]. split; [exact C|].
  split; [exact Efs|]. split; [exact Ep|]. split; [exact F|]. split; [exact O|].
  unfold fd_ops in *. cbn [k_mem cur_pcb set_k_mem]. rewrite Ep in *.
  pose proof (file_read_ops fs pcb fd buf k (k_mem s) ltac:(lia) H2) as Eo. rewrite E in Eo.
  cbn [snd] in Eo. rewrite Eo. exact Hops.
Qed.

Lemma sys_read_all_spec fuel : forall pos s,
  reading pos s -> (file_size fs (k_mem s) inode - pos + k - 1) / k < Z.of_nat fuel ->
  exists m', sys_read_all fuel fd buf k s =
      Some (drop (Z.to_nat pos) (file_bytes fs (k_mem s) inode), set_k_mem m' s) /\
    unchanged (read_frame pcb fd buf k) (k_mem s) m' /\
    reading (file_size fs (k_mem s) inode) (set_k_mem m' s).
Proof using Hfd Hb0 Hk H1 H2 H3.
  induction fuel as [|f IH]; intros pos s Hr Hfuel; pose proof Hr as (_ & _ & _ & (_ & _ & Hp & _) & _).
  { exfalso. assert (0 <= (file_size fs (k_mem s) inode - pos + k - 1) / k) by (apply Z.div_pos; lia). lia. }
  cbn [sys_read_all].
  destruct (sys_read_file (mkSched [] []) pos s Hr) as (m' & E & B & U & S' & C & R). rewrite E.
  assert (Hlen : length (file_bytes fs (k_mem s) inode) = Z.to_nat (file_size fs (k_mem s) inode))
    by apply length_file_slice.
  set (size := file_size fs (k_mem s) inode) in *. set (n := Z.min k (size - pos)) in *.
  destruct (Z.leb_spec n 0) as [Hz|Hz].
  - exists m'. rewrite drop_ge by lia. replace (pos + n) with size in R by lia. done.
  - assert (Hdiv : (size - (pos + n) + k - 1) / k < Z.of_nat f).
    { destruct (Z.le_gt_cases k (size - pos)).
      - replace (size - (pos + n) + k - 1) with (size - pos + k - 1 + -1 * k) by lia.
        rewrite Z.div_add by lia. lia.
      - replace (size - (pos + n) + k - 1) with (k - 1) by lia. rewrite Z.div_small by lia.
        assert (1 <= (size - pos + k - 1) / k) by (apply Z.div_le_lower_bound; lia). lia. }
    destruct (IH (pos + n) (set_k_mem m' s) R) as (m2 & E2 & U2 & R2).
    { cbn [k_mem set_k_mem]. rewrite S'. exact Hdiv. }
    cbn [k_mem set_k_mem] in E2, U2, R2. rewrite S', C in *.
    exists m2. rewrite E2. split; [|split; [by eapply unchanged_trans|exact R2]].
    cbn [k_mem set_k_mem]. rewrite B, file_slice_take_drop by lia.
    replace (Z.to_nat (pos + n)) with (Z.to_nat pos + Z.to_nat n)%nat by lia.
    rewrite <- drop_drop, take_drop. reflexivity.
Qed.
End Session.

(** ** Theorems *)

(** C24 sys_open fails, leaving every descriptor alone, when no entry has the name
    or all descriptors are in use.  Otherwise it returns the lowest free descriptor
    with the operations table of the entry's type; a clock, directory or regular
    file is then open at position 0 with its inode, while an entry of any other type
    yields a descriptor that is still marked free.  Only that descriptor and the
    scratch objects of the lookup change. *)
Theorem sys_open_correct `{Ports} `{Layout} s dentry fname :
  open_layout (k_fs s) (cur_pcb s) dentry fname (k_mem s) -> tables_ok ->
  dir_ok (k_fs s) (k_mem s) -> fname <> 0 -> strlen (k_mem s) fname <= 32 ->
  sys_open_outcome s dentry fname (sys_open_c dentry fname s).
Proof. intros. by apply sys_open_spec. Qed.

(** The state after opening a regular file is ready for reading its first byte. *)
Lemma opened_reading `{Ports} `{Layout} s dentry fname fd inode s1 :
  open_layout (k_fs s) (cur_pcb s) dentry fname (k_mem s) -> 2 <= fd < 8 ->
  file_ok (k_fs s) (k_mem s) inode -> sys_opened s dentry fd REG_FILE inode s1 ->
  reading (k_fs s) (cur_pcb s) fd inode 0 s1 /\
  file_bytes (k_fs s) (k_mem s1) inode = file_bytes (k_fs s) (k_mem s) inode /\
  file_size (k_fs s) (k_mem s1) inode = file_size (k_fs s) (k_mem s) inode.
Proof.
  intros HL Hfd Hok (Ep & Ef & U & Ho & F & I & P). pose proof Hok as (Him & Hin & Hsz & _).
  assert (Hoff : forall a, open_call_frame s dentry fd a -> ~ in_region (image (k_fs s)) a).
  { intros a Ha. eapply prepare_off_image; [exact HL|]. eapply call_frame_prepare; [|exact Ha]. lia. }
  assert (Es : file_size (k_fs s) (k_mem s1) inode = file_size (k_fs s) (k_mem s) inode)
    by (eapply file_size_unchanged; [exact U|exact Hoff|exact Him|exact Hin]).
  assert (0 <= file_size (k_fs s) (k_mem s) inode) by apply load32_range.
  split; [|split; [|exact Es]].
  - split; [exact Ef|]. split; [exact Ep|].
    split; [eapply file_ok_unchanged; [exact U|exact Hoff|exact Him|exact Hok]|].
    split; [|exact Ho]. unfold open_file. rewrite F, I, P, Es.
    split; [reflexivity|]. split; [reflexivity|]. split; [lia|]. split; [discriminate|]. done.
  - unfold file_bytes. rewrite Es.
    eapply file_slice_unchanged; [exact U|exact Hoff|exact Him|exact Hok|lia|lia].
Qed.

(** What [file_close] writes. *)
Definition file_close_writes `{Layout} (pcb fd a : Z) : Prop :=
  in_region (fd_region pcb fd) a \/ in_region (dentry_region open_dentry) a \/ in_region (dentry_region read_dentry) a.

Lemma file_close_kept `{Layout} pcb fd m : unchanged (file_close_writes pcb fd) m (file_close pcb fd m).2.
Proof.
  unfold file_close. do 3 (split_if; [apply unchanged_refl|]). cbn [snd].
  apply (unchanged_trans _ _ (fd_set m pcb fd FD_FLAGS 0)).
  { eapply unchanged_weaken; [|apply unchanged_fd_set; unfold FD_FLAGS; lia]. by left. }
  apply unchanged_for_range. intros i mi Hi.
  eapply unchanged_trans; apply unchanged_store8; right; [left|right]; unfold in_region, in_range, dentry_region; cbn [fst snd]; lia.
Qed.

Lemma sys_close_file_kept `{Ports} `{Layout} fd inode pos s :
  2 <= fd < 8 -> reading (k_fs s) (cur_pcb s) fd inode pos s ->
  rdisj (pcb_region (cur_pcb s)) (dentry_region open_dentry) ->
  rdisj (pcb_region (cur_pcb s)) (dentry_region read_dentry) ->
  exists m', sys_close_c fd s = Some (0, set_k_mem m' s) /\ released (cur_pcb s) fd (k_mem s) m' /\
    unchanged (file_close_writes (cur_pcb s) fd) (k_mem s) m'.
Proof.
  intros Hfd (_ & _ & _ & (_ & _ & _ & Hu & Ht & _) & Hops) H1 H2.
  pose proof (used_bit _ Hu) as Hbit. pose proof (file_close_spec (cur_pcb s) fd (k_mem s) H1 H2) as Hc.
  pose proof (file_close_kept (cur_pcb s) fd (k_mem s)) as U.
  unfold close_outcome in Hc. rewrite decide_True in Hc.
  - destruct Hc as (m' & E & Hrel). rewrite E in U. exists m'. split; [|by split].
    unfold sys_close_c, fd_open, fd_used.
    replace ((fd <? 2) || (FD_SIZE <? fd)) with false by (unfold FD_SIZE; lia).
    rewrite Hbit, Hops. cbn [negb close_ptr]. unfold on_mem. now rewrite E.
  - split; [lia|]. split; [exact Ht|]. apply Z.eqb_neq in Hbit. zdm.
Qed.

Lemma sys_close_file `{Ports} `{Layout} fd inode pos s :
  2 <= fd < 8 -> reading (k_fs s) (cur_pcb s) fd inode pos s ->
  rdisj (pcb_region (cur_pcb s)) (dentry_region open_dentry) ->
  rdisj (pcb_region (cur_pcb s)) (dentry_region read_dentry) ->
  exists m', sys_close_c fd s = Some (0, set_k_mem m' s) /\ released (cur_pcb s) fd (k_mem s) m'.
Proof.
  intros Hfd R H1 H2. destruct (sys_close_file_kept fd inode pos s Hfd R H1 H2) as (m' & E & Rel & _). by exists m'.
Qed.

Section FileSession.
Context `{Ports} `{Layout} (s : kst) (dentry fname buf k : Z).
Context (HL : open_layout (k_fs s) (cur_pcb s) dentry fname (k_mem s)) (HT : tables_ok).
Context (Hdir : dir_ok (k_fs s) (k_mem s)) (Hf0 : fname <> 0) (Hlen : strlen (k_mem s) fname <= 32).
Context (Hb0 : buf <> 0) (Hk : 0 < k < 2147483648).
Context (Hbi : rdisj (buf, k) (image (k_fs s))) (Hbp : rdisj (buf, k) (pcb_region (cur_pcb s))).
Context (Hpr : rdisj (pcb_region (cur_pcb s)) (dentry_region read_dentry)).

(** C3 A program that opens a regular file by its name, reads it in pieces of any
    size until a read returns 0, and closes it, receives exactly the bytes of the
    file, in at most one read per piece and one more, and ends with the descriptors
    in use that were in use before. *)
Theorem file_session i x fuel :
  list_find (eq (cname (k_mem s) fname 32)) (dir_names (k_fs s) (k_mem s)) = Some (i, x) ->
  entry_type (k_fs s) (k_mem s) (1 + Z.of_nat i) = REG_FILE ->
  let inode := entry_inode (k_fs s) (k_mem s) (1 + Z.of_nat i) in
  file_ok (k_fs s) (k_mem s) inode ->
  let fd := find_fd (k_mem s) (cur_pcb s) in
  fd < 8 -> (file_size (k_fs s) (k_mem s) inode + k - 1) / k < Z.of_nat fuel ->
  exists s1 s2 s3,
    sys_open_c dentry fname s = (fd, s1) /\
    sys_read_all fuel fd buf k s1 = Some (file_bytes (k_fs s) (k_mem s) inode, s2) /\
    sys_close_c fd s2 = Some (0, s3) /\
    cur_pcb s3 = cur_pcb s /\ forall j, 0 <= j < 8 -> fd_open j s3 = fd_open j s.
Proof using HL HT Hdir Hf0 Hlen Hb0 Hk Hbi Hbp Hpr.
  intros Hfind Hty inode Hok fd Hfd Hfuel.
  pose proof (find_fd_spec (k_mem s) (cur_pcb s)) as (Hr & Hfree & _). fold fd in Hr, Hfree.
  pose proof (sys_open_spec s dentry fname HL HT Hdir Hf0 Hlen) as Hopen.
  apply sys_open_found with (k := i) (x := x) in Hopen; [|exact Hfind|exact Hfd].
  rewrite Hty in Hopen. fold inode fd in Hopen. destruct Hopen as (s1 & E1 & Hopened). exists s1.
  destruct (opened_reading s dentry fname fd inode s1 HL ltac:(lia) Hok Hopened) as (Rd & Fb & Fs).
  destruct Hopened as (Ep1 & Ef1 & U1 & _).
  pose proof HL as [[_ _ _ _ _ Hpi _ Hpo] _ _ Hpd _].
  assert (Hsub : forall r, rdisj (pcb_region (cur_pcb s)) r -> rdisj (fd_region (cur_pcb s) fd) r).
  { intros r Hd. unfold rdisj, disj, fd_region, pcb_region, PCB_SIZE in *. cbn [fst snd] in *. lia. }
  assert (Hbf : rdisj (buf, k) (fd_region (cur_pcb s) fd)).
  { unfold rdisj, disj, fd_region, pcb_region, PCB_SIZE in *. cbn [fst snd] in *. lia. }
  destruct (sys_read_all_spec (k_fs s) (cur_pcb s) fd inode buf k ltac:(lia) Hb0 Hk Hbi Hbf (Hsub _ Hpi)
    fuel 0 s1 Rd) as (m2 & E2 & U2 & R2).
  { rewrite Fs, Z.sub_0_r. exact Hfuel. }
  rewrite Fb in E2. exists (set_k_mem m2 s1).
  destruct (sys_close_file fd inode (file_size (k_fs s) (k_mem s1) inode) (set_k_mem m2 s1))
    as (m3 & E3 & Rel); cbn [k_fs cur_pcb set_k_mem]; rewrite ?Ep1, ?Ef1;
    [lia|exact R2|exact Hpo|exact Hpr|].
  exists (set_k_mem m3 (set_k_mem m2 s1)).
  split; [exact E1|]. split; [exact E2|]. split; [exact E3|]. split; [exact Ep1|].
  intros j Hj. unfold fd_open. cbn [k_mem cur_pcb set_k_mem] in *. rewrite Ep1 in *. rewrite (Rel j Hj).
  destruct (Z.eqb_spec j fd) as [->|Hne]; [symmetry; by apply Hfree|]. unfold fd_used.
  erewrite fd_get_unchanged; [|exact U2|unfold FD_FLAGS; lia..|].
  - erewrite fd_get_unchanged; [reflexivity|exact U1|unfold FD_FLAGS; lia..|].
    intros a Ha [Hb|Hb]; [by eapply lookup_off_fd; [exact HL|exact Hj|exact Ha|]|].
    unfold in_region, in_range, fd_region in *. cbn [fst snd] in *. lia.
  - intros a Ha [Hb|Hb]; unfold rdisj, disj, in_region, in_range, fd_region, pcb_region, PCB_SIZE in *;
      cbn [fst snd] in *; lia.
Qed.
End FileSession.

(** The guards of the descriptor calls. *)
Lemma descriptor_refused `{Ports} `{Layout} sc fd buf nbytes s :
  fd < 0 \/ 7 < fd \/ buf = 0 \/ nbytes < 0 \/ fd_open fd s = false ->
  sys_read_c sc fd buf nbytes s = Some (-1, s) /\ sys_write_c fd buf nbytes s = Some (-1, s).
Proof.
  unfold sys_read_c, sys_write_c, FD_SIZE. intros Hbad. repeat (split_if; [done|]). exfalso.
  destruct Hbad as [?|[?|[?|[?|Hc]]]]; [lia|lia|lia|lia|congruence].
Qed.

Lemma close_refused `{Ports} `{Layout} fd s :
  fd < 2 \/ 7 < fd \/ fd_open fd s = false -> sys_close_c fd s = Some (-1, s).
Proof.
  unfold sys_close_c, FD_SIZE. intros Hbad. repeat (split_if; [done|]). exfalso.
  destruct Hbad as [?|[?|Hc]]; [lia|lia|congruence].
Qed.

(** C39 The descriptor calls refuse, with the state unchanged, a descriptor outside
    the table or not in use, a null buffer and a negative count; close also refuses
    standard input and output; and a write to a file or directory always fails
    without an effect, the file system being read-only. *)
Theorem sys_call_guards `{Ports} `{Layout} sc fd buf nbytes s :
  (fd < 0 \/ 7 < fd \/ buf = 0 \/ nbytes < 0 \/ fd_open fd s = false ->
     sys_read_c sc fd buf nbytes s = Some (-1, s) /\ sys_write_c fd buf nbytes s = Some (-1, s)) /\
  (fd < 2 \/ 7 < fd \/ fd_open fd s = false -> sys_close_c fd s = Some (-1, s)) /\
  (fd_ops fd s = Some FileOps \/ fd_ops fd s = Some DirOps ->
     sys_write_c fd buf nbytes s = Some (-1, s)).
Proof.
  split; [apply descriptor_refused|]. split; [apply close_refused|].
  unfold sys_write_c, FD_SIZE.
  intros Ho. repeat (split_if; [done|]). destruct Ho as [-> | ->]; cbn [write_ptr]; unfold on_mem;
      cbn [file_write dir_write]; destruct s; reflexivity.
Qed.

(** ** A concrete session *)

#[local] Opaque sys_open_c sys_close_c sys_read_all.

(** The small directory mounted, with the process of FilesysDir running. *)
Definition fs_state : kst :=
  mkKst test_image (mkConsole 0 0) (mkPic 0xFF 0xFF) 0 (mkKeyboard 0 0 0 0 0 0 0) test_fs 0x1000 1
    (mkCpu true 0x800000 0 0 0) [].

#[local] Existing Instance test_layout.
#[local] Instance silent : Ports := fun _ _ => 0.

Lemma test_open_layout :
  open_layout (k_fs fs_state) (cur_pcb fs_state) 0x3500 0x2000 (k_mem fs_state).
Proof.
  split; [split; test_sep|lia|test_sep|test_sep|].
  repeat (constructor; [vm_compute; intuition congruence|]). constructor.
Qed.

Lemma fs_state_dir_ok : dir_ok (k_fs fs_state) (k_mem fs_state).
Proof.
  split; [vm_compute; congruence|]. split; [vm_compute; intuition congruence|].
  intros i Hi. cbn in Hi. assert (i = 1 \/ i = 2) as [-> | ->] by lia; vm_compute; reflexivity.
Qed.

Lemma fs_state_name : strlen (k_mem fs_state) 0x2000 <= 32.
Proof. vm_compute. congruence. Qed.

Lemma test_tables_ok : tables_ok.
Proof.
  split; [repeat constructor; vm_compute; intuition congruence|].
  apply (bool_decide_unpack _). vm_compute. exact I.
Qed.

Lemma test_found :
  list_find (eq (cname (k_mem fs_state) 0x2000 32)) (dir_names (k_fs fs_state) (k_mem fs_state)) =
  Some (1%nat, name_frame).
Proof. vm_compute. reflexivity. Qed.

Lemma test_fd : find_fd (k_mem fs_state) (cur_pcb fs_state) = 2.
Proof. vm_compute. reflexivity. Qed.

Lemma test_bytes : file_bytes (k_fs fs_state) (k_mem fs_state)
    (entry_inode (k_fs fs_state) (k_mem fs_state) (1 + Z.of_nat 1)) = [72; 101; 108; 108; 111].
Proof. vm_compute. reflexivity. Qed.

Lemma fs_state_file_ok : file_ok (k_fs fs_state) (k_mem fs_state)
  (entry_inode (k_fs fs_state) (k_mem fs_state) (1 + Z.of_nat 1)).
Proof.
  assert (Ei : entry_inode (k_fs fs_state) (k_mem fs_state) (1 + Z.of_nat 1) = 0)
    by (vm_compute; reflexivity).
  assert (Es : file_size (k_fs fs_state) (k_mem fs_state) 0 = 5) by (vm_compute; reflexivity).
  rewrite Ei. split; [vm_compute; intuition congruence|]. split; [cbn; lia|].
  rewrite Es. split; [unfold FOUR_KB; lia|]. intros o Ho.
  replace (o / FOUR_KB) with 0 by (unfold FOUR_KB; zdm). vm_compute. reflexivity.
Qed.

Lemma sys_open_correct_witness :
  exists s', sys_open_c 0x3500 0x2000 fs_state = (2, s') /\ fd_ops 2 s' = Some FileOps.
Proof.
  pose proof (sys_open_correct fs_state 0x3500 0x2000 test_open_layout test_tables_ok
    fs_state_dir_ok ltac:(lia) fs_state_name) as Hw.
  apply sys_open_found with (k := 1%nat) (x := name_frame) in Hw; [|exact test_found|rewrite test_fd; lia].
  rewrite test_fd in Hw. destruct Hw as (s' & Er & _ & _ & _ & Eo & _).
  exists s'. split; [exact Er|]. rewrite Eo. vm_compute. reflexivity.
Defined.

Lemma file_session_witness :
  exists s1 s2 s3, sys_open_c 0x3500 0x2000 fs_state = (2, s1) /\
    sys_read_all 4 2 0x6000 2 s1 = Some ([72; 101; 108; 108; 111], s2) /\
    sys_close_c 2 s2 = Some (0, s3).
Proof.
  destruct (file_session fs_state 0x3500 0x2000 0x6000 2 test_open_layout test_tables_ok
    fs_state_dir_ok ltac:(lia) fs_state_name ltac:(lia) ltac:(lia) ltac:(test_sep) ltac:(test_sep)
    ltac:(test_sep) 1%nat name_frame 4 test_found) as (s1 & s2 & s3 & E1 & E2 & E3 & _).
  - vm_compute. reflexivity.
  - exact fs_state_file_ok.
  - vm_compute. reflexivity.
  - vm_compute. reflexivity.
  - rewrite test_fd in E1, E2, E3. rewrite test_bytes in E2.
    exists s1, s2, s3. split; [exact E1|]. split; [exact E2|exact E3].
Defined.

Lemma sys_call_guards_witness :
  sys_close_c 1 fs_state = Some (-1, fs_state).
Proof.
  destruct (sys_call_guards (mkSched [] []) 1 0 0 fs_state) as (_ & Hw & _). apply Hw. left. lia.
Defined.
