(* ===== verification/UserCalls.v ===== *)
(** * Arguments and video memory: getargs and vidmap

    [sys_getargs_c] copies what follows the first space of the command line, and
    [sys_vidmap_c] hands out the second view of the video page that [init_paging]
    built.  Both loops of getargs are bounded by the position of a space and of a
    zero in the command line, so [fuel] is enough when it exceeds both. *)

From S2P Require Import Prelude Mem CString MemOps State Pcb Paging Process Syscalls Exec.

(** ** The copy of the arguments *)

(** The first space of the string at [input] is at index [p]. *)
Definition first_space (m : mem) (input p : Z) : Prop :=
  0 <= p /\ load8 m (input + p) = 32 /\ forall j, 0 <= j < p -> load8 m (input + j) <> 32.

Lemma find_space_spec fuel : forall m input p i,
  0 <= i <= p -> p < 4294967295 -> (Z.to_nat (p - i) < fuel)%nat ->
  load8 m (input + p) = 32 -> (forall j, i <= j < p -> load8 m (input + j) <> 32) ->
  find_space fuel m input i = Some p.
Proof.
  induction fuel as [|f IH]; intros m input p i Hi Hp Hf E Hn; [lia|]. cbn [find_space].
  destruct (Z.eqb_spec (load8 m (input + i)) 32) as [Ei|Ei].
  - destruct (decide (i = p)) as [->|]; [done|]. by destruct (Hn i ltac:(lia)).
  - assert (i <> p) by congruence. rewrite u32_small by lia.
    apply IH; [lia|lia|lia|done|]. intros j Hj. apply Hn. lia.
Qed.

(** A space that is found is one: before it there is none. *)
Lemma find_space_sound fuel : forall m input i p,
  0 <= i -> i + Z.of_nat fuel < 4294967296 -> find_space fuel m input i = Some p ->
  i <= p < i + Z.of_nat fuel /\ load8 m (input + p) = 32.
Proof.
  induction fuel as [|f IH]; intros m input i p Hi Hf E; [done|]. cbn [find_space] in E.
  destruct (Z.eqb_spec (load8 m (input + i)) 32) as [Ei|Ei].
  - injection E as <-. split; [lia|done].
  - rewrite u32_small in E by lia. apply IH in E as [? ?]; [split; [lia|done]|lia|lia].
Qed.

(** How many bytes the loop stores for a buffer of [nbytes], arguments of length [L]
    that start at [q] and a test [idx < nbytes - in_idx] whose right side shrinks
    as [idx] grows, and wraps around when [in_idx] starts beyond [nbytes]. *)
Definition args_stored (nbytes q L : Z) : Z :=
  if nbytes <? q then L + 1 else Z.min (L + 1) ((nbytes - q + 1) / 2).

Lemma args_test nbytes q i :
  0 <= nbytes < 2147483648 -> 0 <= q -> 0 <= i -> q + 2 * i < 2147483648 ->
  (nbytes < q \/ 2 * i <= nbytes - q + 1) ->
  (i <? u32 (nbytes - (q + i))) = (nbytes <? q) || (i <? (nbytes - q + 1) / 2).
Proof.
  intros Hn Hq Hi Hs Hc. unfold u32. destruct (Z.ltb_spec nbytes q) as [Hlt|Hge]; cbn [orb].
  - replace ((nbytes - (q + i)) mod 4294967296) with (nbytes - (q + i) + 4294967296) by zdm. lia.
  - destruct Hc as [?|Hc]; [lia|].
    destruct (Z.ltb_spec i ((nbytes - q + 1) / 2)); [apply Z.ltb_lt|apply Z.ltb_ge]; zdm.
Qed.

Section Args.
Context (m0 : mem) (input buf nbytes q L : Z).
Context (Hn : 0 <= nbytes < 2147483648) (Hq : 0 <= q) (HqL : q + 2 * L < 2147483640).
Context (HL : is_cstr m0 (input + q) L) (Hd : disj buf (L + 1) (input + q) (L + 1)).

Let n := args_stored nbytes q L.

Lemma args_stored_range : 0 <= n <= L + 1.
Proof using Hn Hq HL. destruct HL as [? _]. unfold n, args_stored. destruct (Z.ltb_spec nbytes q); [lia|]. zdm. Qed.

Lemma copy_args_step i m :
  0 <= i < L + 1 -> copied m0 m buf (input + q) i -> load8 m (input + (q + i)) = load8 m0 (input + q + i).
Proof using Hd.
  clear n. intros Hi [U _]. replace (input + (q + i)) with (input + q + i) by lia.
  eapply unchanged_load8; [exact U|]. unfold in_range, disj in *. lia.
Qed.

Lemma copy_args_spec fuel : forall i m,
  0 <= i <= n -> i <= L -> (Z.to_nat (n - i) < fuel)%nat -> copied m0 m buf (input + q) i ->
  exists m', copy_args fuel m input buf nbytes i (q + i) = Some (Z.min L n, m') /\ copied m0 m' buf (input + q) n.
Proof using Hn Hq HqL HL Hd.
  pose proof args_stored_range as Hr. destruct HL as (HL0 & Hz & Hnz).
  induction fuel as [|f IH]; intros i m Hi HiL Hf Hc; [lia|]. cbn [copy_args].
  assert (Ht : (i <? u32 (nbytes - (q + i))) = (i <? n)).
  { assert (Hw : nbytes < q \/ 2 * i <= nbytes - q + 1).
    { revert Hi. unfold n, args_stored. destruct (Z.ltb_spec nbytes q); [lia|]. intros; right; zdm. }
    rewrite args_test by (first [exact Hw|lia]). unfold n, args_stored.
    destruct (Z.ltb_spec nbytes q); cbn [orb]; [lia|].
    destruct (Z.ltb_spec i ((nbytes - q + 1) / 2)); lia. }
  rewrite Ht. destruct (Z.ltb_spec i n) as [Hlt|Hge].
  - assert (Hc' : copied m0 (store8 m (buf + i) (load8 m (input + (q + i)))) buf (input + q) (i + 1)).
    { eapply copied_app; [lia|lia| |exact Hc|]; [unfold disj in *; lia|].
      rewrite Z.add_assoc. apply copied_byte. }
    rewrite load8_store8_eq, u8_small by auto with cint.
    rewrite (copy_args_step i m) in * by (try done; lia).
    destruct (Z.eqb_spec (load8 m0 (input + q + i)) 0) as [E0|E0].
    + assert (i = L) as -> by (destruct (decide (i = L)); [done|]; by destruct (Hnz i ltac:(lia))).
      replace n with (L + 1) by lia. eexists. split; [f_equal; f_equal; lia|exact Hc'].
    + assert (i <> L) by congruence. rewrite !u32_small by lia.
      replace (q + i + 1) with (q + (i + 1)) by lia. apply IH; [lia|lia|lia|exact Hc'].
  - assert (i = n) as -> by lia. exists m. split; [|done]. do 2 f_equal. lia.
Qed.
End Args.

(** The whole call, when the command line has a space. *)
Lemma getargs_spec fuel buf nbytes s p L :
  let input := cur_pcb s + PCB_INPUT in
  let n := args_stored nbytes (p + 1) L in
  first_space (k_mem s) input p -> is_cstr (k_mem s) (input + (p + 1)) L -> p + 1 + L < 1024 ->
  0 <= nbytes < 2147483648 -> disj buf (L + 1) (input + (p + 1)) (L + 1) -> (1024 < fuel)%nat ->
  exists m', sys_getargs_c fuel buf nbytes s = Some (if Z.min L n =? 0 then -1 else 0, set_k_mem m' s) /\
    copied (k_mem s) m' buf (input + (p + 1)) n.
Proof.
  intros input n (Hp & Es & Hns) HL Hlen Hn Hd Hf. pose proof HL as (HL0 & _).
  unfold sys_getargs_c. fold input.
  rewrite (find_space_spec fuel (k_mem s) input p 0); [|lia|lia|lia|done|intros; apply Hns; lia].
  pose proof (args_stored_range (k_mem s) input nbytes (p + 1) L Hn ltac:(lia) HL) as Hr.
  rewrite u32_small by lia.
  destruct (copy_args_spec (k_mem s) input buf nbytes (p + 1) L Hn ltac:(lia) ltac:(lia) HL Hd fuel 0 (k_mem s))
    as (m' & E & Hc); [lia|lia|lia|apply copied_nil|].
  rewrite Z.add_0_r in E. rewrite E. exists m'. split; [reflexivity|exact Hc].
Qed.

Lemma bytes_pointwise m m' a a' n :
  0 <= n -> (forall i, 0 <= i < n -> load8 m' (a' + i) = load8 m (a + i)) ->
  bytes m' a' (Z.to_nat n) = bytes m a (Z.to_nat n).
Proof.
  intros Hn C. apply list_eq_same_length with (Z.to_nat n); rewrite ?length_bytes; [done..|].
  intros k x y Hk Hx Hy. rewrite bytes_lookup in Hx, Hy by lia. injection Hx as <-. injection Hy as <-.
  apply C. lia.
Qed.

(** ** vidmap *)

(** The directory and the page table at page [t] lead to the video page. *)
Definition vidmap_ready (dir t : Z) (m : mem) : Prop :=
  0 <= t < 0x8000 /\ load32 m (dir + 4 * USER_VMEM) = 4096 * t + 7 /\
  load32 m (4096 * t + 4 * 0xB8) = 0xB8007.

Lemma ret_dir_ptr_init `{Layout} kd k0 k1 s :
  paging_layout kd k0 k1 -> ret_dir_ptr (init_paging s) = page_directory.
Proof. intros PL. exact (ret_dir_ptr_lpdt kd k0 k1 PL (upd_mem init_tables s)). Qed.

Lemma vidmap_ready_init `{Layout} kd k0 k1 s :
  paging_layout kd k0 k1 -> vidmap_ready (ret_dir_ptr (init_paging s)) k1 (k_mem (init_paging s)).
Proof.
  intros PL. pose proof PL as [[Ed Hd] _ [E1 H1] _].
  rewrite (ret_dir_ptr_init kd k0 k1 s PL).
  destruct (init_tables_spec kd k0 k1 PL (k_mem s)) as (Td & _ & T1).
  split; [lia|]. split.
  - transitivity (load32 (init_tables (k_mem s)) (page_directory + 4 * USER_VMEM)).
    + apply load32_set_tlb; unfold USER_VMEM, PROG_LO; lia.
    + rewrite Td by (unfold USER_VMEM; lia). cbn. lia.
  - rewrite <- E1. transitivity (load32 (init_tables (k_mem s)) (page_table_1 + 4 * 0xB8)).
    + apply load32_set_tlb; unfold PROG_LO; lia.
    + rewrite T1 by lia. reflexivity.
Qed.

Lemma vidmap_entry s t :
  vidmap_ready (ret_dir_ptr s) t (k_mem s) ->
  get_pageTable_entry USER_VMEM (Z.shiftr VID_ADDR 12) s = 4096 * t + 4 * 0xB8.
Proof.
  intros (Ht & Ed & Et). unfold get_pageTable_entry. change (Z.shiftr VID_ADDR 12) with 0xB8.
  cbn [USER_VMEM Z.ltb Z.leb orb Z.compare]. rewrite Ed, !land_1_present.
  replace ((4096 * t + 7) mod 2) with 1 by zdm. cbn [Z.eqb].
  assert (Eb : u32 (Z.shiftl (PG_TABLE (4096 * t + 7)) 12) = 4096 * t).
  { unfold PG_TABLE, get_field, u32. rewrite Z.shiftr_div_pow2, Z.shiftl_mul_pow2 by lia.
    change (2 ^ 12) with 4096. change (2 ^ 20) with 1048576. zdm. }
  rewrite Eb, Et. reflexivity.
Qed.

Lemma translate_vidmap m dir t o :
  vidmap_ready dir t m -> 0 <= o < 4096 -> translate m dir (0x84B8000 + o) = Some (0xB8000 + o, true).
Proof.
  intros (Ht & Ed & Et) Ho. unfold translate. rewrite !Z.shiftr_div_pow2 by lia.
  change (2 ^ 22) with 4194304. change (2 ^ 12) with 4096.
  replace ((0x84B8000 + o) / 4194304) with USER_VMEM by (unfold USER_VMEM; zdm).
  replace ((0x84B8000 + o) / 4096 mod 1024) with 0xB8 by zdm.
  replace ((0x84B8000 + o) mod 4096) with o by zdm.
  rewrite Ed, !testbit_flags, land_base, Et by lia. reflexivity.
Qed.

(** ** Theorems *)

(** C31 getargs copies what follows the first space of the command line, one byte at
    a time, and returns 0, or -1 when that is empty.  How much it copies depends on
    [nbytes]: the loop test counts the index twice, so that only about half of the
    buffer is used, and when the arguments start beyond [nbytes] the unsigned
    difference wraps around and the whole line is copied whatever the buffer's
    size. *)
Theorem getargs_correct fuel buf nbytes s p L :
  let input := cur_pcb s + PCB_INPUT in
  let n := if nbytes <? p + 1 then L + 1 else Z.min (L + 1) ((nbytes - p) / 2) in
  first_space (k_mem s) input p -> is_cstr (k_mem s) (input + (p + 1)) L -> p + 1 + L < 1024 ->
  0 <= nbytes < 2147483648 -> disj buf (L + 1) (input + (p + 1)) (L + 1) -> (1024 < fuel)%nat ->
  exists m', sys_getargs_c fuel buf nbytes s = Some (if Z.min L n =? 0 then -1 else 0, set_k_mem m' s) /\
    bytes m' buf (Z.to_nat n) = bytes (k_mem s) (input + (p + 1)) (Z.to_nat n) /\
    unchanged (in_range buf n) (k_mem s) m'.
Proof.
  intros input n Hp HL Hlen Hn Hd Hf.
  assert (En : n = args_stored nbytes (p + 1) L).
  { unfold n, args_stored. now replace (nbytes - (p + 1) + 1) with (nbytes - p) by lia. }
  assert (Hr : 0 <= n <= L + 1).
  { rewrite En. apply (args_stored_range (k_mem s) input); [done|destruct Hp; lia|done]. }
  destruct (getargs_spec fuel buf nbytes s p L Hp HL Hlen Hn Hd Hf) as (m' & E & Hc).
  fold input in Hc. rewrite <- En in E, Hc. exists m'. split; [exact E|]. split; [|apply Hc].
  apply bytes_pointwise; [lia|apply Hc].
Qed.

(** C17 A program gets the arguments it was executed with: after a successful execute
    of a command with a space, getargs with a buffer in the program page that is
    large enough returns what follows the space, with its final zero. *)
Theorem execute_passes_arguments `{Layout} l command s eip esp cs ds s1 p fuel buf nbytes :
  let len := strlen (k_mem s) command in
  exec_layout l command s -> 0 <= process_number s ->
  sys_execute_c l command s = ExecEnter eip esp cs ds s1 ->
  first_space (k_mem s) command p -> p + 1 < len ->
  PROG_LO <= buf -> 2 * len - p <= nbytes < 2147483648 -> (1024 < fuel)%nat ->
  exists m', sys_getargs_c fuel buf nbytes s1 = Some (0, set_k_mem m' s1) /\
    bytes m' buf (Z.to_nat (len - p)) = bytes (k_mem s) (command + (p + 1)) (Z.to_nat (len - p)).
Proof.
  intros len XL Hn0 E (Hp & Es & Hns) Hlt Hbuf Hnb Hf.
  pose proof (execute_command l command s eip esp cs ds s1 XL Hn0 E) as Hc. fold len in Hc.
  pose proof (execute_entered l command s eip esp cs ds s1 XL Hn0 E) as (_ & Ep & _).
  destruct (exec_addresses l command s XL) as (_ & _ & Apc & _). rewrite <- Ep in Apc.
  pose proof (xl_command _ _ _ XL) as Hmax. fold len in Hmax.
  destruct (strlen_spec (k_mem s) command) as (Hl0 & Hz & Hnz). fold len in Hl0, Hz, Hnz.
  set (input := cur_pcb s1 + PCB_INPUT) in *. set (L := len - (p + 1)).
  assert (HL : is_cstr (k_mem s1) (input + (p + 1)) L).
  { split; [lia|]. rewrite <- Z.add_assoc. unfold L. split.
    - rewrite Hc by lia. now replace (p + 1 + (len - (p + 1))) with len by lia.
    - intros i Hi. rewrite <- Z.add_assoc, Hc by lia. apply Hnz. lia. }
  assert (En : args_stored nbytes (p + 1) L = len - p).
  { unfold args_stored, L. replace (nbytes <? p + 1) with false by lia. zdm. }
  destruct (getargs_spec fuel buf nbytes s1 p L) as (m' & Eg & C); fold input.
  - split; [lia|]. split; [now rewrite Hc by lia|]. intros j Hj. rewrite Hc by lia. apply Hns. lia.
  - exact HL.
  - lia.
  - lia.
  - unfold disj, input, L, PCB_INPUT, PROG_LO in *. lia.
  - exact Hf.
  - fold input in C. rewrite En in Eg, C. exists m'. rewrite Eg. split.
    + replace (Z.min L (len - p) =? 0) with false by lia. reflexivity.
    + apply bytes_pointwise; [lia|]. intros k Hk. rewrite (proj2 C) by lia. rewrite <- !Z.add_assoc.
      apply Hc. lia.
Qed.

(** When the 1024 bytes of the command line hold no space, getargs does not stop
    at their end: it loops until it meets a space behind the array, in the saved
    words of the control block or beyond. *)
Theorem getargs_leaves_input fuel buf nbytes s :
  (forall j, 0 <= j < 1024 -> load8 (k_mem s) (cur_pcb s + PCB_INPUT + j) <> 32) ->
  (fuel <= 1024)%nat -> sys_getargs_c fuel buf nbytes s = None.
Proof.
  intros Hn Hf. unfold sys_getargs_c. destruct (find_space fuel (k_mem s) _ 0) as [p|] eqn:E; [|done].
  apply find_space_sound in E as [Hr Ep]; [|lia|lia]. by destruct (Hn p ltac:(lia)).
Qed.

(** C32 vidmap refuses a null pointer and pointers up to 4 MB without touching
    anything; otherwise, with the page tables of init_paging, it stores the
    address 132 MB + 0xB8000 and nothing else, returns 0, and the page at that
    address is the video page and open to programs. *)
Theorem vidmap_correct screen_start t s :
  let '(r, s') := sys_vidmap_c screen_start s in
  (screen_start <= FOUR_MB -> r = -1 /\ s' = s) /\
  (FOUR_MB < screen_start -> vidmap_ready (ret_dir_ptr s) t (k_mem s) ->
   disj screen_start 4 (ret_dir_ptr s + 4 * USER_VMEM) 4 -> disj screen_start 4 (4096 * t + 4 * 0xB8) 4 ->
   r = 0 /\ load32 (k_mem s') screen_start = 0x84B8000 /\
   unchanged (in_range screen_start 4) (k_mem s) (k_mem s') /\ ret_dir_ptr s' = ret_dir_ptr s /\
   forall o, 0 <= o < 4096 -> translate (k_mem s') (ret_dir_ptr s') (0x84B8000 + o) = Some (0xB8000 + o, true)).
Proof.
  unfold sys_vidmap_c. change (Z.lor (Z.shiftl USER_VMEM 22) VID_ADDR) with 0x84B8000.
  destruct (Z.leb_spec screen_start FOUR_MB) as [Hle|Hgt].
  - rewrite orb_true_r. split; [done|]. lia.
  - assert (E0 : (screen_start =? 0) = false) by (apply Z.eqb_neq; unfold FOUR_MB in *; lia).
    rewrite E0. cbn [orb].
    destruct (get_pageTable_entry USER_VMEM (Z.shiftr VID_ADDR 12) s =? 0) eqn:Eg.
    + split; [lia|]. intros _ R. rewrite (vidmap_entry s t R) in Eg. destruct R as (Ht & _).
      apply Z.eqb_eq in Eg. lia.
    + split; [lia|]. intros _ (Ht & Ed & Et) D1 D2. cbn [k_mem upd_mem set_k_mem].
      split; [reflexivity|]. split; [rewrite load32_store32_eq; reflexivity|].
      split; [by apply unchanged_store32|]. split; [reflexivity|].
      intros o Ho. apply (translate_vidmap _ (ret_dir_ptr s) t); [|done].
      unfold disj in *. split; [done|]. rewrite !load32_store32_ne by lia. done.
Qed.

(** ** Witnesses

    A process at 0x4000 whose command line is "cat frame" and then zeros. *)
Definition args_state : kst :=
  mkKst (store_list (Mem ∅ ∅ 0) (0x4000 + PCB_INPUT) [99; 97; 116; 32; 102; 114; 97; 109; 101])
        (mkConsole 0 0) (mkPic 0 0) 0 (mkKeyboard 0 0 0 0 0 0 0) (mkFilesys 0 0 0 0 0) 0x4000 1
        (mkCpu true 0 0 0x10000 0) [].

#[local] Existing Instance test_layout.

Lemma args_space : first_space (k_mem args_state) (cur_pcb args_state + PCB_INPUT) 3.
Proof.
  split; [lia|]. split; [vm_compute; reflexivity|]. intros j Hj.
  assert (j = 0 \/ j = 1 \/ j = 2) as [->|[->| ->]] by lia; vm_compute; congruence.
Qed.

Lemma args_string : is_cstr (k_mem args_state) (cur_pcb args_state + PCB_INPUT + (3 + 1)) 5.
Proof.
  split; [lia|]. split; [vm_compute; reflexivity|]. intros j Hj.
  assert (j = 0 \/ j = 1 \/ j = 2 \/ j = 3 \/ j = 4) as [->|[->|[->|[->| ->]]]] by lia;
    vm_compute; congruence.
Qed.

(** A buffer of 1024 bytes gets the argument, one of 8 bytes only two characters,
    and one of 2 bytes is overrun. *)
Lemma getargs_correct_witness :
  (exists m', sys_getargs_c 1025 0x8048000 1024 args_state = Some (0, set_k_mem m' args_state) /\
     bytes m' 0x8048000 6 = [102; 114; 97; 109; 101; 0]) /\
  (exists m', sys_getargs_c 1025 0x8048000 8 args_state = Some (0, set_k_mem m' args_state) /\
     bytes m' 0x8048000 2 = [102; 114]) /\
  (exists m', sys_getargs_c 1025 0x8048000 2 args_state = Some (0, set_k_mem m' args_state) /\
     bytes m' 0x8048000 6 = [102; 114; 97; 109; 101; 0]).
Proof.
  assert (D : disj 0x8048000 (5 + 1) (cur_pcb args_state + PCB_INPUT + (3 + 1)) (5 + 1)) by (vm_compute; right; congruence).
  split; [|split].
  - destruct (getargs_correct 1025 0x8048000 1024 args_state 3 5 args_space args_string ltac:(lia) ltac:(lia) D
      ltac:(lia)) as (m' & E & B & _). exists m'. split; [exact E|]. exact B.
  - destruct (getargs_correct 1025 0x8048000 8 args_state 3 5 args_space args_string ltac:(lia) ltac:(lia) D
      ltac:(lia)) as (m' & E & B & _). exists m'. split; [exact E|]. exact B.
  - destruct (getargs_correct 1025 0x8048000 2 args_state 3 5 args_space args_string ltac:(lia) ltac:(lia) D
      ltac:(lia)) as (m' & E & B & _). exists m'. split; [exact E|]. exact B.
Defined.

Lemma prog_space : first_space (k_mem prog_state) 0x2000 2.
Proof.
  split; [lia|]. split; [vm_compute; reflexivity|]. intros j Hj.
  assert (j = 0 \/ j = 1) as [->| ->] by lia; vm_compute; congruence.
Qed.

Lemma prog_len : strlen (k_mem prog_state) 0x2000 = 4.
Proof. vm_compute. reflexivity. Qed.

Lemma prog_arg : bytes (k_mem prog_state) 0x2003 2 = [120; 0].
Proof. vm_compute. reflexivity. Qed.

(** The program "sh" executed as "sh x" gets "x". *)
Lemma execute_passes_arguments_witness :
  exists s1 m', sys_getargs_c 1025 0x8050000 1024 s1 = Some (0, set_k_mem m' s1) /\
    bytes m' 0x8050000 2 = [120; 0].
Proof.
  destruct prog_enters as (eip & esp & s1 & E).
  destruct (execute_passes_arguments prog_locals 0x2000 prog_state eip esp USER_CS USER_DS s1 2 1025 0x8050000 1024)
    as (m' & Eg & B).
  - exact prog_layout.
  - cbn. lia.
  - exact E.
  - exact prog_space.
  - rewrite prog_len. lia.
  - unfold PROG_LO. lia.
  - rewrite prog_len. lia.
  - lia.
  - exists s1, m'. split; [exact Eg|]. rewrite prog_len in B. rewrite <- prog_arg. exact B.
Defined.

Lemma getargs_leaves_input_witness :
  sys_getargs_c 1024 0x8048000 1024 (set_k_mem (Mem ∅ ∅ 0) args_state) = None.
Proof.
  apply (getargs_leaves_input 1024 0x8048000 1024 (set_k_mem (Mem ∅ ∅ 0) args_state)); [|lia].
  intros j Hj. cbn [k_mem set_k_mem]. unfold load8, byte_at. cbn [kbytes ubytes tlb].
  rewrite !lookup_empty. cbn [default]. rewrite lookup_empty. destruct (in_window _); discriminate.
Defined.

Lemma vidmap_correct_witness :
  let s := init_paging args_state in
  (sys_vidmap_c 0x8050000 s).1 = 0 /\ load32 (k_mem (sys_vidmap_c 0x8050000 s).2) 0x8050000 = 0x84B8000.
Proof.
  cbv zeta. pose proof (vidmap_ready_init 16 17 18 args_state test_paging_layout) as R.
  assert (Ed : ret_dir_ptr (init_paging args_state) = 0x10000)
    by (rewrite (ret_dir_ptr_init 16 17 18 args_state test_paging_layout); reflexivity).
  revert R Ed. generalize (init_paging args_state). intros s R Ed.
  pose proof (vidmap_correct 0x8050000 18 s) as Hv. destruct (sys_vidmap_c 0x8050000 s) as [r s'].
  destruct Hv as [_ Hv]. rewrite Ed in *.
  destruct Hv as (-> & Hl & _); [unfold FOUR_MB; lia|exact R|unfold disj, USER_VMEM; lia|unfold disj; lia|].
  split; [reflexivity|exact Hl].
Defined.
