(* ===== verification/Programs.v ===== *)
(** * User programs, src/syscalls

    [main] of the programs as functions of the kernel state, over the system call
    wrappers of Trap.v and the library of Support.v.  A program returns the value
    [main] returns; [None] when a call does not come back.  The loops run on fuel,
    one unit a turn.

    The local arrays and the string literals of a program are in its memory; a
    record per program gives their addresses. *)

From S2P Require Import Prelude Mem CString State Syscalls Support Trap.

Section Programs.
Context `{Ports} `{Layout} `{Traps}.

Definition ece391_fdputs (fd str : Z) (s : kst) : option kst :=
  '(_, s) ← ece391_write fd str (s32 (ece391_strlen (k_mem s) str)) s; Some s.

(** ** cat *)

Record cat_data := mkCat {
  cat_buf : Z;           (* uint8_t buf[1024] *)
  cat_no_args : Z;       (* could not read arguments *)
  cat_no_file : Z;       (* file not found *)
  cat_no_read : Z        (* file read failed *)
}.

Fixpoint cat_loop (fuel : nat) (d : cat_data) (fd : Z) (s : kst) : option (Z * kst) :=
  match fuel with
  | O => None
  | S f =>
      '(cnt, s) ← ece391_read fd (cat_buf d) 1024 s;
      if cnt =? 0 then Some (0, s) else
      if cnt =? -1 then (s ← ece391_fdputs 1 (cat_no_read d) s; Some (3, s)) else
      '(w, s) ← ece391_write 1 (cat_buf d) cnt s;
      if w =? -1 then Some (3, s) else cat_loop f d fd s
  end.

Definition cat_main (fuel : nat) (d : cat_data) (s : kst) : option (Z * kst) :=
  '(r, s) ← ece391_getargs (cat_buf d) 1024 s;
  if negb (r =? 0) then (s ← ece391_fdputs 1 (cat_no_args d) s; Some (3, s)) else
  '(fd, s) ← ece391_open (cat_buf d) s;
  if fd =? -1 then (s ← ece391_fdputs 1 (cat_no_file d) s; Some (2, s)) else
  cat_loop fuel d fd s.

(** ** ls *)

Definition SBUFSIZE : Z := 33.

Record ls_data := mkLs {
  ls_buf : Z;            (* uint8_t buf[33] *)
  ls_dot : Z;            (* . *)
  ls_no_dir : Z;         (* directory open failed *)
  ls_no_read : Z         (* directory entry read failed *)
}.

Fixpoint ls_loop (fuel : nat) (d : ls_data) (fd : Z) (s : kst) : option (Z * kst) :=
  match fuel with
  | O => None
  | S f =>
      '(cnt, s) ← ece391_read fd (ls_buf d) (SBUFSIZE - 1) s;
      if cnt =? 0 then Some (0, s) else
      if cnt =? -1 then (s ← ece391_fdputs 1 (ls_no_read d) s; Some (3, s)) else
      let s := upd_mem (fun m => store8 m (ls_buf d + cnt) 10) s in
      '(w, s) ← ece391_write 1 (ls_buf d) (cnt + 1) s;
      if w =? -1 then Some (3, s) else ls_loop f d fd s
  end.

Definition ls_main (fuel : nat) (d : ls_data) (s : kst) : option (Z * kst) :=
  '(fd, s) ← ece391_open (ls_dot d) s;
  if fd =? -1 then (s ← ece391_fdputs 1 (ls_no_dir d) s; Some (2, s)) else
  ls_loop fuel d fd s.

(** ** testprint and hello *)

Definition testprint_main (message : Z) (s : kst) : option (Z * kst) :=
  s ← ece391_fdputs 1 message s; Some (0, s).

Record hello_data := mkHello {
  hello_buf : Z;         (* uint8_t buf[1024] *)
  hello_ask : Z;         (* Hi, what's your name? *)
  hello_no_read : Z;     (* Can't read name from keyboard. *)
  hello_greet : Z        (* Hello, *)
}.

Definition hello_main (d : hello_data) (s : kst) : option (Z * kst) :=
  s ← ece391_fdputs 1 (hello_ask d) s;
  '(cnt, s) ← ece391_read 0 (hello_buf d) (1024 - 1) s;
  if cnt =? -1 then (s ← ece391_fdputs 1 (hello_no_read d) s; Some (3, s)) else
  let s := upd_mem (fun m => store8 m (hello_buf d + cnt) 0) s in
  s ← ece391_fdputs 1 (hello_greet d) s;
  s ← ece391_fdputs 1 (hello_buf d) s;
  Some (0, s).

(** ** counter *)

Record counter_data := mkCounter {
  ct_buf : Z;            (* uint8_t buf[1024] *)
  ct_ask : Z;            (* Enter the Test Number: ... *)
  ct_no_read : Z;        (* Can't read the number from keyboard. *)
  ct_wrong : Z;          (* Wrong Choice! *)
  ct_newline : Z         (* a newline *)
}.

(** The loop that prints [i + 1] for [i] from [i] on. *)
Fixpoint counter_loop (n : nat) (d : counter_data) (i : Z) (s : kst) : option kst :=
  match n with
  | O => Some s
  | S n' =>
      m ← ece391_itoa (k_mem s) (i + 1) (ct_buf d) 10;
      s ← ece391_fdputs 1 (ct_buf d) (set_k_mem m s);
      s ← ece391_fdputs 1 (ct_newline d) s;
      counter_loop n' d (i + 1) s
  end.

(** The [switch] on the first character. *)
Definition counter_max (c : Z) : Z :=
  if c =? 48 then 100 else if c =? 49 then 10000 else if c =? 50 then 100000 else 0.

Definition counter_main (d : counter_data) (s : kst) : option (Z * kst) :=
  s ← ece391_fdputs 1 (ct_ask d) s;
  '(cnt, s) ← ece391_read 0 (ct_buf d) (1024 - 1) s;
  if cnt =? -1 then (s ← ece391_fdputs 1 (ct_no_read d) s; Some (3, s)) else
  let s := upd_mem (fun m => store8 m (ct_buf d + cnt) 0) s in
  let len := ece391_strlen (k_mem s) (ct_buf d) in
  let c := load8 (k_mem s) (ct_buf d) in
  if (2 <? len) || ((len =? 2) && ((c <? 48) || (50 <? c))) then
    s ← ece391_fdputs 1 (ct_wrong d) s; Some (0, s)
  else
    s ← counter_loop (Z.to_nat (counter_max c)) d 0 s; Some (0, s).

(** ** shell *)

Record shell_data := mkShell {
  sh_buf : Z;            (* uint8_t buf[1024] *)
  sh_start : Z;          (* Starting 391 Shell *)
  sh_prompt : Z;         (* 391OS> *)
  sh_no_read : Z;        (* read from keyboard failed *)
  sh_exit : Z;           (* exit *)
  sh_no_command : Z;     (* no such command *)
  sh_exception : Z;      (* program terminated by exception *)
  sh_abnormal : Z        (* program terminated abnormally *)
}.

(** One turn of the loop ends in a return, the next turn, or a call of execute with
    the line in [sh_buf]. *)
Inductive shell_next :=
| ShellReturn (v : Z) (s : kst)
| ShellAgain (s : kst)
| ShellExecute (command : Z) (s : kst).

Definition shell_turn (d : shell_data) (s : kst) : option shell_next :=
  s ← ece391_fdputs 1 (sh_prompt d) s;
  '(cnt, s) ← ece391_read 0 (sh_buf d) (1024 - 1) s;
  if cnt =? -1 then (s ← ece391_fdputs 1 (sh_no_read d) s; Some (ShellReturn 3 s)) else
  let cnt := if (0 <? cnt) && (load8 (k_mem s) (sh_buf d + (cnt - 1)) =? 10) then cnt - 1 else cnt in
  let s := upd_mem (fun m => store8 m (sh_buf d + cnt) 0) s in
  if ece391_strcmp (k_mem s) (sh_buf d) (sh_exit d) =? 0 then Some (ShellReturn 0 s) else
  if load8 (k_mem s) (sh_buf d) =? 0 then Some (ShellAgain s) else
  Some (ShellExecute (sh_buf d) s).

(** The message for the value execute returns. *)
Definition shell_report (d : shell_data) (rval : Z) (s : kst) : option kst :=
  if rval =? -1 then ece391_fdputs 1 (sh_no_command d) s
  else if rval =? 256 then ece391_fdputs 1 (sh_exception d) s
  else if negb (rval =? 0) then ece391_fdputs 1 (sh_abnormal d) s
  else Some s.

(** The loop, for a given behaviour of execute. *)
Fixpoint shell_loop (fuel : nat) (d : shell_data) (execute : Z -> kst -> option (Z * kst)) (s : kst) :
    option (Z * kst) :=
  match fuel with
  | O => None
  | S f =>
      next ← shell_turn d s;
      match next with
      | ShellReturn v s => Some (v, s)
      | ShellAgain s => shell_loop f d execute s
      | ShellExecute command s =>
          '(rval, s) ← execute command s;
          s ← shell_report d rval s;
          shell_loop f d execute s
      end
  end.

Definition shell_main (fuel : nat) (d : shell_data) (execute : Z -> kst -> option (Z * kst)) (s : kst) :
    option (Z * kst) :=
  s ← ece391_fdputs 1 (sh_start d) s; shell_loop fuel d execute s.
End Programs.
