(* ===== verification/Output.v ===== *)
(** * Output of the user programs

    What a program that reads and writes through the system calls leaves on the
    screen.  [stdout_ok] is the part of the state the kernel promises a process:
    descriptor 1 is the terminal and the cursor is on the screen.  The objects of
    the kernel are below the program page and apart from the video memory
    ([user_layout]); a program's buffers are in the program page. *)

From S2P Require Import Prelude Mem CString MemOps State Console I8259 Pcb Rtc Filesys FilesysRead FilesysDir Keyboard Terminal Paging Syscalls Process Exec Trap Support FileCalls UserCalls Programs.

(** ** Printing keeps the rest of the state *)

(** The parts of the state a program's own calls rely on. *)
Definition same_process (s s' : kst) : Prop := cur_pcb s' = cur_pcb s /\ k_fs s' = k_fs s.

Lemma putc_terminal_process c s : same_process s (putc_terminal c s).
Proof.
  unfold putc_terminal. destruct (c =? 9); [by split|].
  destruct ((c =? 10) || (c =? 13)).
  - destruct (NUM_ROWS - 1 <=? _); by split.
  - destruct ((NUM_ROWS - 1 <=? _) && _); by split.
Qed.

Lemma print_chars_process l : forall s, same_process s (print_chars l s).
Proof.
  induction l as [|c l IH]; intros s; [by split|].
  destruct (putc_terminal_process c s) as [E1 E2]. destruct (IH (putc_terminal c s)) as [F1 F2].
  split; cbn; [rewrite <- E1|rewrite <- E2]; assumption.
Qed.

(** The abstract terminal after a text. *)
Definition term_print (l : list Z) (t : term) : term := fold_left (fun t c => term_putc c t) l t.

Lemma term_print_app l1 l2 t : term_print (l1 ++ l2) t = term_print l2 (term_print l1 t).
Proof. apply fold_left_app. Qed.

#[export] Instance term_print_proper l : Proper ((≡) ==> (≡)) (term_print l).
Proof.
  induction l as [|c l IH]; intros t t' Ht; [done|]. cbn. apply IH. by rewrite Ht.
Qed.

(** Memory that changes outside the video memory shows the same screen. *)
Lemma shown_off_screen (P : Z -> Prop) m m' s :
  k_mem s = m -> unchanged P m m' -> (forall a, P a -> ~ screen_bytes a) -> shown (set_k_mem m' s) ≡ shown s.
Proof.
  intros <- U HP. split; [done|]. split; [done|]. intros y x Hy Hx. cbn.
  apply (unchanged_load8 P _ _ _ U). intros Ha. apply (HP _ Ha).
  unfold screen_bytes, in_range, NUM_ROWS, NUM_COLS in *. lia.
Qed.

(** ** Standard output *)

Section Stdout.
Context `{Ports} `{Layout}.

Definition stdout_ok (s : kst) : Prop :=
  fd_open 1 s = true /\ fd_ops 1 s = Some TermOps /\ on_screen (k_con s).

(** The text that can be printed without leaving the screen. *)
Definition printable (l : list Z) : Prop := Forall (fun c => 0 <= c < 256 /\ c <> 9) l.

Definition screen_region : region := (VIDEO, 2 * NUM_ROWS * NUM_COLS).

Lemma stdout_ok_unchanged P s s' :
  stdout_ok s -> cur_pcb s' = cur_pcb s -> unchanged P (k_mem s) (k_mem s') -> on_screen (k_con s') ->
  (forall a, in_region (fd_region (cur_pcb s) 1) a -> ~ P a) -> stdout_ok s'.
Proof using Type.
  intros (H1 & H2 & _) E U Ho HP. unfold stdout_ok, fd_open, fd_used, fd_ops in *. rewrite E.
  rewrite !(fd_get_unchanged P (k_mem s) (k_mem s')) by
    (first [exact U|exact HP|unfold FD_OPS, FD_FLAGS; lia]). done.
Qed.

(** A write of printable text to standard output prints it between [cli] and [sti]. *)
Lemma write_stdout_eq buf n s :
  stdout_ok s -> buf <> 0 -> 0 <= n -> disj VIDEO (2 * NUM_ROWS * NUM_COLS) buf n ->
  printable (bytes (k_mem s) buf (Z.to_nat n)) ->
  sys_write_c 1 buf n s = Some (n, sti (print_chars (bytes (k_mem s) buf (Z.to_nat n)) (cli s))).
Proof using Type.
  intros (Hopen & Hops & Hos) Hb Hn Hd Hl.
  unfold sys_write_c. cbn [Z.ltb Z.compare FD_SIZE orb Pos.compare Pos.compare_cont].
  rewrite (proj2 (Z.eqb_neq _ _) Hb). replace (n <? 0) with false by lia.
  rewrite Hopen, Hops. cbn [negb write_ptr].
  pose proof (write_loop_spec (S (Z.to_nat n)) 0 n buf (cli s)) as W. cbv zeta in W.
  rewrite Z.add_0_r, Z.sub_0_r in W. change (k_mem (cli s)) with (k_mem s) in W.
  unfold terminal_write. change (1 =? STDOUT) with true. cbn [negb].
  rewrite W; [done|lia|lia|exact Hos| |eapply Forall_impl; [exact Hl|]; cbn; tauto].
  unfold disj, screen_bytes, in_range in *. lia.
Qed.

(** It changes the screen and nothing else. *)
Lemma write_stdout buf n s :
  stdout_ok s -> rdisj screen_region (pcb_region (cur_pcb s)) -> buf <> 0 -> 0 <= n ->
  disj VIDEO (2 * NUM_ROWS * NUM_COLS) buf n -> printable (bytes (k_mem s) buf (Z.to_nat n)) ->
  exists s', sys_write_c 1 buf n s = Some (n, s') /\
    shown s' ≡ term_print (bytes (k_mem s) buf (Z.to_nat n)) (shown s) /\
    unchanged screen_bytes (k_mem s) (k_mem s') /\ same_process s s' /\ stdout_ok s'.
Proof using Type.
  intros Hso Hp Hb Hn Hd Hl. pose proof Hso as (_ & _ & Hos).
  rewrite (write_stdout_eq buf n s Hso Hb Hn Hd Hl). set (l := bytes (k_mem s) buf (Z.to_nat n)) in *.
  destruct (print_chars_shows l (cli s) Hos Hl) as (Sh & Ho & U).
  destruct (print_chars_process l (cli s)) as [P1 P2].
  exists (sti (print_chars l (cli s))). split; [done|]. split; [exact Sh|]. split; [exact U|].
  split; [by split|].
  eapply (stdout_ok_unchanged screen_bytes s); [exact Hso|exact P1|exact U|exact Ho|].
  unfold rdisj, disj, in_region, in_range, screen_bytes, in_range, screen_region, pcb_region, fd_region,
    PCB_SIZE, NUM_ROWS, NUM_COLS in *. cbn [fst snd] in *. lia.
Qed.

Context `{Traps}.

(** [fdputs] writes the string. *)
Lemma fdputs_write str s :
  strlen (k_mem s) str < 2147483648 ->
  ece391_fdputs 1 str s = snd <$> sys_write_c 1 str (strlen (k_mem s) str) s.
Proof using Type.
  intros Hl. destruct (strlen_spec (k_mem s) str) as (Hn & _). unfold ece391_fdputs.
  rewrite ece391_strlen_eq, s32_small, ece391_write_eq by lia. by destruct (sys_write_c _ _ _ _) as [[? ?]|].
Qed.

Lemma fdputs_stdout str s :
  stdout_ok s -> rdisj screen_region (pcb_region (cur_pcb s)) -> str <> 0 ->
  strlen (k_mem s) str < 2147483648 ->
  disj VIDEO (2 * NUM_ROWS * NUM_COLS) str (strlen (k_mem s) str) ->
  printable (bytes (k_mem s) str (Z.to_nat (strlen (k_mem s) str))) ->
  exists s', ece391_fdputs 1 str s = Some s' /\
    shown s' ≡ term_print (bytes (k_mem s) str (Z.to_nat (strlen (k_mem s) str))) (shown s) /\
    unchanged screen_bytes (k_mem s) (k_mem s') /\ same_process s s' /\ stdout_ok s'.
Proof using Type.
  intros Hso Hp Hs0 Hl Hd Hpr. destruct (strlen_spec (k_mem s) str) as (Hn & _).
  destruct (write_stdout str (strlen (k_mem s) str) s Hso Hp Hs0 Hn Hd Hpr) as (s' & E & Hrest).
  exists s'. split; [|exact Hrest]. by rewrite fdputs_write, E.
Qed.
End Stdout.

(** ** Texts of a program *)

(** A string of a program, in its page. *)
Definition text_in (m : mem) (a : Z) (l : list Z) : Prop :=
  PROG_LO <= a /\ bytes m a (length l) = l /\ load8 m (a + Z.of_nat (length l)) = 0.

(** Text that prints as it is: without tabs. *)
Definition clean (l : list Z) : Prop := Forall (fun c => 0 < c < 256 /\ c <> 9) l /\ Z.of_nat (length l) < 2147483648.

Lemma text_strlen m a l : text_in m a l -> Forall (fun c => c <> 0) l -> strlen m a = Z.of_nat (length l).
Proof. intros (_ & Hb & Hz) Hn. by apply strlen_eq, is_cstr_of_bytes. Qed.

Lemma clean_nonzero l : clean l -> Forall (fun c => c <> 0) l.
Proof. intros [Hc _]. eapply Forall_impl; [exact Hc|]. cbn. lia. Qed.

Lemma text_cname m a l n : text_in m a l -> Forall (fun c => c <> 0) l -> cname m a n = take n l.
Proof.
  intros Ht Hn. rewrite cname_strlen, (text_strlen m a l Ht Hn), Nat2Z.id. destruct Ht as (_ & Hb & _).
  destruct (decide (n <= length l)%nat) as [Hl|Hl].
  - rewrite Nat.min_l by exact Hl. rewrite <- Hb. replace (length l) with (n + (length l - n))%nat by lia.
    by rewrite bytes_app, take_app_length' by (by rewrite length_bytes).
  - by rewrite Nat.min_r, take_ge by lia.
Qed.

Lemma text_in_off (P : Z -> Prop) m m' a l :
  unchanged P m m' -> (forall b, in_range a (Z.of_nat (length l) + 1) b -> ~ P b) -> text_in m a l -> text_in m' a l.
Proof.
  intros U HP (Ha & Hb & Hz). split; [exact Ha|]. split.
  - rewrite <- Hb at 2. eapply unchanged_bytes; [exact U|]. intros b Hr. apply HP. unfold in_range in *. lia.
  - rewrite <- Hz. eapply unchanged_load8; [exact U|]. apply HP. unfold in_range. lia.
Qed.

Lemma text_in_unchanged (P : Z -> Prop) m m' a l :
  unchanged P m m' -> (forall b, P b -> b < PROG_LO) -> text_in m a l -> text_in m' a l.
Proof.
  intros U HP Ht. eapply text_in_off; [exact U| |exact Ht]. intros b Hb Hp. apply HP in Hp.
  destruct Ht as [Ha _]. unfold in_range in Hb. lia.
Qed.

(** [fdputs] of a text. *)
Lemma text_fdputs `{Ports} `{Layout} `{Traps} a l s :
  stdout_ok s -> text_in (k_mem s) a l -> clean l ->
  ece391_fdputs 1 a s = Some (sti (print_chars l (cli s))).
Proof.
  intros So Ht Hc. pose proof Ht as (Ha & Hb & _). pose proof Hc as [Hc' Hlen].
  pose proof (text_strlen _ _ _ Ht (clean_nonzero l Hc)) as El.
  rewrite fdputs_write, El, (write_stdout_eq a _ s So) by (first
    [lia | unfold PROG_LO in Ha; lia | unfold disj, VIDEO, NUM_ROWS, NUM_COLS, PROG_LO in *; lia |
     rewrite Nat2Z.id, Hb; eapply Forall_impl; [exact Hc'|cbn; lia]]).
  by rewrite Nat2Z.id, Hb.
Qed.

Lemma put_text `{Ports} `{Layout} `{Traps} a l s :
  stdout_ok s -> rdisj screen_region (pcb_region (cur_pcb s)) -> text_in (k_mem s) a l -> clean l ->
  exists s', ece391_fdputs 1 a s = Some s' /\ shown s' ≡ term_print l (shown s) /\
    unchanged screen_bytes (k_mem s) (k_mem s') /\ same_process s s' /\ stdout_ok s'.
Proof.
  intros So Hp Ht Hc. pose proof Ht as (Ha & Hb & _). pose proof Hc as [Hc' Hlen].
  pose proof (text_strlen _ _ _ Ht (clean_nonzero l Hc)) as El.
  destruct (fdputs_stdout a s So Hp) as (s' & E & Sh & Hrest);
    [unfold PROG_LO in Ha; lia|lia|rewrite El; unfold disj, VIDEO, NUM_ROWS, NUM_COLS, PROG_LO in *; lia|
     rewrite El, Nat2Z.id, Hb; eapply Forall_impl; [exact Hc'|cbn; lia]|].
  rewrite El, Nat2Z.id, Hb in Sh. by exists s'.
Qed.

(** ** The memory of a process and of the kernel *)

Definition kernel_objects `{Layout} (fs : filesys) (pcb dentry : Z) : list region :=
  [scratch; dentry_region open_dentry; dentry_region dentry; pcb_region pcb; image fs;
   dentry_region read_dentry].

Record user_layout `{Layout} (fs : filesys) (pcb dentry : Z) : Prop := {
  ul_fs : fs_layout fs pcb;
  ul_dentry0 : dentry <> 0;
  ul_dentry_image : rdisj (dentry_region dentry) (image fs);
  ul_dentry_pcb : rdisj (pcb_region pcb) (dentry_region dentry);
  ul_read0 : read_dentry <> 0;
  ul_read_image : rdisj (dentry_region read_dentry) (image fs);
  ul_read_pcb : rdisj (pcb_region pcb) (dentry_region read_dentry);
  ul_low : Forall (fun r => r.1 + r.2 <= PROG_LO) (kernel_objects fs pcb dentry);
  ul_screen : Forall (rdisj screen_region) (kernel_objects fs pcb dentry)
}.

Lemma reading_unchanged `{Layout} P fs pcb fd inode pos s s' :
  reading fs pcb fd inode pos s -> unchanged P (k_mem s) (k_mem s') -> same_process s s' ->
  (forall a, P a -> ~ in_region (image fs) a) -> (forall a, in_region (fd_region pcb fd) a -> ~ P a) ->
  reading fs pcb fd inode pos s' /\
  file_size fs (k_mem s') inode = file_size fs (k_mem s) inode /\
  file_bytes fs (k_mem s') inode = file_bytes fs (k_mem s) inode.
Proof.
  intros (Ef & Ep & Hok & Ho & Hops) U [P1 P2] Hi Hf. pose proof Hok as (Him & Hin & _).
  assert (Es : file_size fs (k_mem s') inode = file_size fs (k_mem s) inode)
    by (eapply file_size_unchanged; [exact U|exact Hi|exact Him|exact Hin]).
  assert (G : forall off, 0 <= off <= 12 -> fd_get (k_mem s') pcb fd off = fd_get (k_mem s) pcb fd off)
    by (intros off Hoff; eapply fd_get_unchanged; [exact U|lia|lia|exact Hf]).
  assert (0 <= file_size fs (k_mem s) inode) by apply load32_range.
  split; [|split; [exact Es|]].
  - split; [congruence|]. split; [congruence|].
    split; [eapply file_ok_unchanged; [exact U|exact Hi|exact Him|exact Hok]|].
    unfold open_file, fd_ops in *. rewrite P1, Ep in *.
    rewrite Es, !G by (unfold FD_FLAGS, FD_INODE, FD_POS, FD_OPS; lia). done.
  - unfold file_bytes. rewrite Es.
    eapply file_slice_unchanged; [exact U|exact Hi|exact Him|exact Hok|lia|lia].
Qed.

(** ** cat *)

Section Cat.
Context `{Ports} `{Layout} `{Traps} (fs : filesys) (pcb : Z) (d : cat_data).
Context (UL : user_layout fs pcb open_local) (Hbuf : PROG_LO <= cat_buf d).

(** The bounds the proofs below need, in one place. *)
Lemma user_bounds :
  (pcb + PCB_SIZE <= PROG_LO /\ rdisj screen_region (pcb_region pcb)) /\
  ((image fs).1 + (image fs).2 <= PROG_LO /\ rdisj screen_region (image fs)) /\
  rdisj (pcb_region pcb) (image fs).
Proof using UL.
  destruct UL as [[_ _ _ _ _ Hpi _ _] _ _ _ _ _ _ HL HS]. unfold kernel_objects in *.
  rewrite !Forall_cons in HL, HS. tauto.
Qed.

Section Loop.
Context (fd inode : Z) (Hfd : 2 <= fd < 8).

Lemma screen_off_fd j a : 0 <= j < 8 -> in_region (fd_region pcb j) a -> ~ screen_bytes a.
Proof using UL.
  destruct user_bounds as ((_ & Hs) & _). intros Hj.
  unfold rdisj, disj, in_region, in_range, screen_bytes, in_range, screen_region, pcb_region, fd_region,
    PCB_SIZE, NUM_ROWS, NUM_COLS in *. cbn [fst snd] in *. lia.
Qed.

Lemma screen_off_image a : screen_bytes a -> ~ in_region (image fs) a.
Proof using UL.
  destruct user_bounds as (_ & (_ & Hs) & _).
  unfold rdisj, disj, in_region, in_range, screen_bytes, in_range, screen_region, NUM_ROWS, NUM_COLS in *.
  cbn [fst snd] in *. lia.
Qed.

(** What a read into the buffer may write is off the screen and off standard output. *)
Lemma read_frame_off a :
  read_frame pcb fd (cat_buf d) 1024 a -> ~ screen_bytes a /\ ~ in_region (fd_region pcb 1) a.
Proof using UL Hbuf Hfd.
  destruct user_bounds as ((Hp & Hs) & _). intros [Ha|Ha].
  - unfold in_region, in_range, screen_bytes, in_range, fd_region, PCB_SIZE, PROG_LO, VIDEO, NUM_ROWS, NUM_COLS in *.
    cbn [fst snd] in *. lia.
  - split; [by apply (screen_off_fd fd); [lia|]|].
    unfold in_region, in_range, fd_region in *. cbn [fst snd] in *. lia.
Qed.

Lemma cat_read pos s :
  reading fs pcb fd inode pos s -> stdout_ok s ->
  let n := Z.min 1024 (file_size fs (k_mem s) inode - pos) in
  exists s1, ece391_read fd (cat_buf d) 1024 s = Some (n, s1) /\
    bytes (k_mem s1) (cat_buf d) (Z.to_nat n) =
      take (Z.to_nat n) (drop (Z.to_nat pos) (file_bytes fs (k_mem s) inode)) /\
    reading fs pcb fd inode (pos + n) s1 /\ stdout_ok s1 /\ shown s1 ≡ shown s /\
    file_size fs (k_mem s1) inode = file_size fs (k_mem s) inode /\
    file_bytes fs (k_mem s1) inode = file_bytes fs (k_mem s) inode.
Proof using UL Hbuf Hfd.
  intros Hr Hso n. destruct user_bounds as ((Hp & Hs) & (Hi & His) & Hpi).
  pose proof Hr as (_ & Ep & _ & (_ & _ & Hpos & _) & _).
  unfold PCB_SIZE in Hp.
  assert (D1 : rdisj (cat_buf d, 1024) (image fs))
    by (unfold rdisj, disj in *; cbn [fst snd] in *; lia).
  assert (D2 : rdisj (cat_buf d, 1024) (fd_region pcb fd))
    by (unfold rdisj, disj, fd_region in *; cbn [fst snd] in *; lia).
  assert (D3 : rdisj (fd_region pcb fd) (image fs))
    by (unfold rdisj, disj, fd_region, pcb_region, PCB_SIZE in *; cbn [fst snd] in *; lia).
  destruct (sys_read_file fs pcb fd inode (cat_buf d) 1024 ltac:(lia) ltac:(unfold PROG_LO in *; lia)
    ltac:(lia) D1 D2 D3 (arrivals s) pos s Hr) as (m' & E & B & U & Es & Eb & R).
  fold n in E, B, R. exists (set_k_mem m' s). rewrite ece391_read_eq. split; [exact E|].
  cbn [k_mem set_k_mem]. split; [rewrite B; apply file_slice_take_drop; lia|].
  split; [exact R|]. split; [|split; [|split; [exact Es|exact Eb]]].
  - eapply (stdout_ok_unchanged _ s); [exact Hso|reflexivity|exact U|apply Hso|].
    rewrite Ep. intros a Ha Hf. by apply (read_frame_off a Hf).
  - eapply shown_off_screen; [reflexivity|exact U|]. intros a Ha. apply (read_frame_off a Ha).
Qed.

(** The loop prints the rest of the file. *)
Lemma cat_loop_spec fuel : forall pos s,
  reading fs pcb fd inode pos s -> stdout_ok s ->
  printable (drop (Z.to_nat pos) (file_bytes fs (k_mem s) inode)) ->
  (file_size fs (k_mem s) inode - pos + 1023) / 1024 < Z.of_nat fuel ->
  exists s', cat_loop fuel d fd s = Some (0, s') /\
    shown s' ≡ term_print (drop (Z.to_nat pos) (file_bytes fs (k_mem s) inode)) (shown s) /\
    same_process s s'.
Proof using UL Hbuf Hfd.
  induction fuel as [|f IH]; intros pos s Hr Hso Hpr Hfuel; pose proof Hr as (Ef & Ep & _ & (_ & _ & Hpos & _) & _).
  { exfalso. zdm. }
  cbn [cat_loop].
  destruct (cat_read pos s Hr Hso) as (s1 & E1 & B1 & R1 & So1 & Sh1 & Es1 & Eb1).
  assert (Hlen : length (file_bytes fs (k_mem s) inode) = Z.to_nat (file_size fs (k_mem s) inode))
    by apply length_file_slice.
  set (size := file_size fs (k_mem s) inode) in *. set (n := Z.min 1024 (size - pos)) in *.
  set (text := file_bytes fs (k_mem s) inode) in *.
  rewrite E1. cbn [mbind option_bind]. pose proof R1 as (Ef1 & Ep1 & _).
  assert (P1 : same_process s s1) by (split; congruence).
  destruct (Z.eqb_spec n 0) as [Hz|Hz].
  { exists s1. rewrite drop_ge by lia. done. }
  replace (n =? -1) with false by lia.
  destruct user_bounds as ((_ & Hs) & _).
  assert (Hpr1 : printable (bytes (k_mem s1) (cat_buf d) (Z.to_nat n)))
    by (rewrite B1; apply Forall_take, Hpr).
  destruct (write_stdout (cat_buf d) n s1 So1) as (s2 & E2 & Sh2 & U2 & P2 & So2);
    [by rewrite Ep1|unfold PROG_LO in *; lia|lia|
     unfold disj, VIDEO, NUM_ROWS, NUM_COLS, PROG_LO in *; lia|exact Hpr1|].
  rewrite ece391_write_eq, E2. cbn [mbind option_bind]. replace (n =? -1) with false by lia.
  destruct (reading_unchanged screen_bytes fs pcb fd inode (pos + n) s1 s2 R1 U2 P2) as (R2 & Es2 & Eb2);
    [exact screen_off_image|intros a; apply screen_off_fd; lia|].
  assert (Esz : file_size fs (k_mem s2) inode = size) by congruence.
  assert (Etx : file_bytes fs (k_mem s2) inode = text) by congruence.
  assert (Edrop : drop (Z.to_nat (pos + n)) text = drop (Z.to_nat n) (drop (Z.to_nat pos) text))
    by (rewrite drop_drop; f_equal; lia).
  destruct (IH (pos + n) s2 R2 So2) as (s3 & E3 & Sh3 & P3).
  { rewrite Etx, Edrop. by apply Forall_drop. }
  { rewrite Esz. unfold n. zdm. }
  exists s3. split; [exact E3|]. split.
  - rewrite Etx, Edrop in Sh3. rewrite Sh3, Sh2, Sh1, B1, <- term_print_app, take_drop. done.
  - destruct P2, P3. split; congruence.
Qed.
End Loop.
End Cat.

(** ** Opening a file by a name in the program page *)

Lemma enable_irq_con irq s : k_con (enable_irq irq s) = k_con s.
Proof. unfold enable_irq. repeat case_match; reflexivity. Qed.

Section Open.
Context `{Ports} `{Layout}.

Lemma open_ptr_con o fname s : k_con (open_ptr o fname s).2 = k_con s.
Proof using Type.
  destruct o; cbn [open_ptr].
  - unfold rtc_open. cbn [inb fst snd].
    match goal with |- context [enable_irq 8 (enable_irq 2 ?x)] => set (s0 := x) end.
    assert (E : k_con (enable_irq 8 (enable_irq 2 s0)) = k_con s) by (rewrite !enable_irq_con; reflexivity).
    revert E. generalize (enable_irq 8 (enable_irq 2 s0)). intros s1 E.
    destruct (find_fd _ _ <? 8); cbn -[find_fd rtc_fd_init]; [|exact E].
    destruct (find_fd _ _ =? -1); exact E.
  - unfold on_mem. destruct (dir_open _ _ _ _); reflexivity.
  - unfold on_mem. destruct (file_open _ _ _ _); reflexivity.
  - reflexivity.
Qed.

Lemma sys_open_con dentry fname s : k_con (sys_open_c dentry fname s).2 = k_con s.
Proof using Type.
  unfold sys_open_c. destruct (fname =? 0); [done|]. unfold on_mem.
  destruct (read_dentry_by_name _ _ _ _) as [r m]. destruct (r =? -1); [done|].
  destruct (8 <=? _); [done|]. destruct (ops_of_type _) as [o table].
  destruct (open_ptr o fname _) as [v s1] eqn:E. cbn [snd].
  change s1 with (v, s1).2. rewrite <- E, open_ptr_con. reflexivity.
Qed.

Context `{Traps} (s : kst) (fname : Z).
Context (UL : user_layout (k_fs s) (cur_pcb s) open_local) (HT : tables_ok).
Context (Hdir : dir_ok (k_fs s) (k_mem s)) (Hso : stdout_ok s).
Context (Hname : PROG_LO <= fname) (Hlen : strlen (k_mem s) fname <= 32).

Lemma user_open_layout : open_layout (k_fs s) (cur_pcb s) open_local fname (k_mem s).
Proof using UL Hname.
  pose proof UL as [Hf H0' Hi Hp _ _ _ HL _]. unfold kernel_objects in HL.
  rewrite !Forall_cons in HL. destruct HL as (L1 & L2 & L3 & L4 & _).
  split; [exact Hf|exact H0'|exact Hi|exact Hp|].
  repeat (constructor; [right; cbn [fst snd] in *; lia|]). constructor.
Qed.

Lemma user_open i x :
  list_find (eq (cname (k_mem s) fname 32)) (dir_names (k_fs s) (k_mem s)) = Some (i, x) ->
  let fd := find_fd (k_mem s) (cur_pcb s) in
  fd < 8 ->
  exists s1, ece391_open fname s = Some (fd, s1) /\ 2 <= fd < 8 /\
    sys_opened s open_local fd (entry_type (k_fs s) (k_mem s) (1 + Z.of_nat i))
      (entry_inode (k_fs s) (k_mem s) (1 + Z.of_nat i)) s1 /\
    stdout_ok s1 /\ shown s1 ≡ shown s.
Proof using UL HT Hdir Hso Hname Hlen.
  intros Hfind fd Hfd. pose proof user_open_layout as HL.
  pose proof (find_fd_spec (k_mem s) (cur_pcb s)) as (Hr & _). fold fd in Hr.
  pose proof (sys_open_spec s open_local fname HL HT Hdir ltac:(unfold PROG_LO in *; lia) Hlen) as Ho.
  apply sys_open_found with (k := i) (x := x) in Ho; [|exact Hfind|exact Hfd].
  destruct Ho as (s1 & E & Hop). fold fd in E, Hop. exists s1.
  split; [rewrite ece391_open_eq, E; reflexivity|]. split; [lia|]. split; [exact Hop|].
  pose proof (sys_open_con open_local fname s) as Ec. rewrite E in Ec. cbn [snd] in Ec.
  destruct Hop as (Ep & Ef & U & _).
  pose proof UL as [_ _ _ Hpd _ _ _ _ HS]. unfold kernel_objects in HS. rewrite !Forall_cons in HS.
  destruct HS as (S1 & S2 & S3 & S4 & _).
  assert (Hoff : forall a, open_call_frame s open_local fd a -> ~ screen_bytes a /\ ~ in_region (fd_region (cur_pcb s) 1) a).
  { intros a [Ha|Ha].
    - split.
      + unfold lookup_frame, rdisj, disj, in_region, in_range, screen_region, screen_bytes, in_range in *.
        cbn [fst snd] in *. unfold NUM_ROWS, NUM_COLS in *. lia.
      + intros Hb. eapply lookup_off_fd; [exact HL| |exact Hb|exact Ha]. lia.
    - unfold rdisj, disj, in_region, in_range, screen_region, screen_bytes, in_range, fd_region, pcb_region,
        PCB_SIZE, NUM_ROWS, NUM_COLS in *. cbn [fst snd] in *. lia. }
  split.
  - eapply (stdout_ok_unchanged _ s); [exact Hso|exact Ep|exact U|rewrite Ec; apply Hso|].
    intros a Ha Hf. by apply (Hoff a Hf).
  - transitivity (shown (set_k_mem (k_mem s1) s)).
    + split; [cbn; by rewrite Ec|]. split; [cbn; by rewrite Ec|]. done.
    + eapply shown_off_screen; [reflexivity|exact U|]. intros a Ha. apply (Hoff a Ha).
Qed.
End Open.

(** ** Memory that only changes in the program page *)

(** The directory, the files, the descriptors and the screen are as before. *)
Record kernel_kept `{Layout} (m : mem) (s' : kst) (s : kst) : Prop := {
  kk_dir : dir_ok (k_fs s) (k_mem s) -> dir_ok (k_fs s) m /\ dir_names (k_fs s) m = dir_names (k_fs s) (k_mem s) /\
    forall i, 1 <= i <= n_dir_entries (k_fs s) ->
      entry_type (k_fs s) m i = entry_type (k_fs s) (k_mem s) i /\
      entry_inode (k_fs s) m i = entry_inode (k_fs s) (k_mem s) i;
  kk_file : forall inode, file_ok (k_fs s) (k_mem s) inode -> file_ok (k_fs s) m inode /\
    file_size (k_fs s) m inode = file_size (k_fs s) (k_mem s) inode /\
    file_bytes (k_fs s) m inode = file_bytes (k_fs s) (k_mem s) inode;
  kk_fd : find_fd m (cur_pcb s) = find_fd (k_mem s) (cur_pcb s);
  kk_stdout : stdout_ok s -> stdout_ok s';
  kk_shown : shown s' ≡ shown s
}.

Lemma user_change_kept `{Layout} dentry s (P : Z -> Prop) m :
  user_layout (k_fs s) (cur_pcb s) dentry -> unchanged P (k_mem s) m -> (forall a, P a -> PROG_LO <= a) ->
  kernel_kept m (set_k_mem m s) s.
Proof.
  intros UL U HP. pose proof (ul_low _ _ _ UL) as HL. unfold kernel_objects in HL.
  rewrite !Forall_cons in HL. destruct HL as (_ & _ & _ & L4 & L5 & _).
  pose proof (fl_image _ _ (ul_fs _ _ _ UL)) as Him.
  assert (Hi : forall a, P a -> ~ in_region (image (k_fs s)) a).
  { intros a Ha Hr. apply HP in Ha. unfold in_region, in_range in Hr. lia. }
  assert (Hfd : forall j, 0 <= j < 8 -> forall a, in_region (fd_region (cur_pcb s) j) a -> ~ P a).
  { intros j Hj a Hr Ha. apply HP in Ha.
    unfold in_region, in_range, fd_region, pcb_region, PCB_SIZE in *. cbn [fst snd] in *. lia. }
  assert (Hb : forall a, P a -> ~ in_region (boot_region (k_fs s)) a).
  { intros a Ha Hr. apply (Hi a Ha). destruct Him as (? & ? & _).
    unfold in_region, in_range, boot_region, image, FOUR_KB in *. cbn [fst snd] in *. lia. }
  split.
  - intros Hd. split; [eapply dir_ok_unchanged; [exact Hd|exact U|exact Hb]|]. split.
    + pose proof Hd as (_ & Hn & _). eapply names_from_unchanged; [exact Hd|exact U|exact Hb|lia|lia].
    + intros i Hr. unfold entry_inode, entry_type.
      rewrite !(entry_load32_unchanged (k_fs s) P (k_mem s) m Hd U Hb)
        by (first [exact Hr|unfold DE_FILETYPE, DE_INODE; lia]). done.
  - intros inode Hok. pose proof Hok as (_ & Hin & _).
    assert (Es : file_size (k_fs s) m inode = file_size (k_fs s) (k_mem s) inode)
      by (eapply file_size_unchanged; [exact U|exact Hi|exact Him|exact Hin]).
    assert (0 <= file_size (k_fs s) (k_mem s) inode) by apply load32_range.
    split; [eapply file_ok_unchanged; [exact U|exact Hi|exact Him|exact Hok]|]. split; [exact Es|].
    unfold file_bytes. rewrite Es. eapply file_slice_unchanged; [exact U|exact Hi|exact Him|exact Hok|lia|lia].
  - apply find_fd_ext. intros j Hj. eapply fd_get_unchanged; [exact U|unfold FD_FLAGS; lia..|].
    apply Hfd. lia.
  - intros Hso. eapply (stdout_ok_unchanged P s); [exact Hso|reflexivity|exact U|apply Hso|]. apply Hfd. lia.
  - eapply shown_off_screen; [reflexivity|exact U|]. intros a Ha Hs. apply HP in Ha.
    unfold screen_bytes, in_range, VIDEO, NUM_ROWS, NUM_COLS, PROG_LO in *. lia.
Qed.

(** A bounded name is found under an index of the directory. *)
Lemma found_entry fs m l i x :
  list_find (eq l) (dir_names fs m) = Some (i, x) -> 1 <= 1 + Z.of_nat i <= n_dir_entries fs.
Proof.
  intros E. apply list_find_Some in E as (Hl & _). apply lookup_lt_Some in Hl.
  unfold dir_names, names_from in Hl. rewrite length_fmap, length_zseq in Hl. lia.
Qed.

(** [getargs] into a buffer of 1024 bytes: the text behind the first space. *)
Lemma user_getargs `{Ports} `{Layout} `{Traps} buf p L s :
  let name := cur_pcb s + PCB_INPUT + (p + 1) in
  user_layout (k_fs s) (cur_pcb s) open_local -> PROG_LO <= buf -> (1024 < args_fuel)%nat ->
  first_space (k_mem s) (cur_pcb s + PCB_INPUT) p -> is_cstr (k_mem s) name L -> 1 <= L -> p + 2 * (L + 1) <= 1024 ->
  exists m1, ece391_getargs buf 1024 s = Some (0, set_k_mem m1 s) /\ unchanged (in_range buf (L + 1)) (k_mem s) m1 /\
    text_in m1 buf (bytes (k_mem s) name (Z.to_nat L)) /\ kernel_kept m1 (set_k_mem m1 s) s.
Proof.
  intros name UL Hbuf Hfuel Hsp HL HL1 Hp. destruct (user_bounds _ _ UL) as ((Hlow & _) & _).
  destruct (getargs_spec args_fuel buf 1024 s p L Hsp HL) as (m1 & Eg & Hc);
    [lia|lia|unfold disj, name, PCB_INPUT, PCB_SIZE in *; destruct Hsp; lia|exact Hfuel|].
  assert (En : args_stored 1024 (p + 1) L = L + 1).
  { unfold args_stored. destruct Hsp. replace (1024 <? p + 1) with false by lia. zdm. }
  rewrite En in Eg, Hc. replace (Z.min L (L + 1) =? 0) with false in Eg by lia. fold name in Hc.
  destruct Hc as [U C]. exists m1. rewrite ece391_getargs_eq. split; [exact Eg|]. split; [exact U|]. split.
  - split; [exact Hbuf|]. rewrite length_bytes. split; [apply bytes_pointwise; [lia|]; intros j Hj; apply C; lia|].
    rewrite Z2Nat.id, C by lia. apply HL.
  - by apply (user_change_kept open_local s _ m1 UL U); unfold in_range; lia.
Qed.

(** ** ls *)

Lemma set_k_mem_same s : set_k_mem (k_mem s) s = s.
Proof. by destruct s. Qed.

Lemma same_process_trans s1 s2 s3 : same_process s1 s2 -> same_process s2 s3 -> same_process s1 s3.
Proof. intros [? ?] [? ?]. split; congruence. Qed.

Lemma bytes_snoc m a n : bytes m a (S n) = bytes m a n ++ [load8 m (a + Z.of_nat n)].
Proof. replace (S n) with (n + 1)%nat by lia. now rewrite bytes_app, bytes_S. Qed.

Section Ls.
Context `{Ports} `{Layout} `{Traps} (fs : filesys) (pcb : Z) (d : ls_data).
Context (UL : user_layout fs pcb open_local) (Hbuf : PROG_LO <= ls_buf d).

(** Descriptor [fd] is the directory, at entry [pos]. *)
Definition listing (fd pos : Z) (s : kst) : Prop :=
  k_fs s = fs /\ cur_pcb s = pcb /\ dir_ok fs (k_mem s) /\ open_dir fs (k_mem s) pcb fd pos /\
  fd_ops fd s = Some DirOps.

(** The names that are left. *)
Definition names_left (pos : Z) (m : mem) : list (list Z) :=
  names_from fs m (pos + 1) (Z.to_nat (n_dir_entries fs - pos)).

Lemma boot_in_image a : in_region (boot_region fs) a -> in_region (image fs) a.
Proof using UL.
  pose proof (fl_image _ _ (ul_fs _ _ _ UL)) as (? & ? & _).
  unfold in_region, in_range, boot_region, image, FOUR_KB. cbn [fst snd]. lia.
Qed.

Lemma listing_unchanged P fd pos s s' :
  listing fd pos s -> unchanged P (k_mem s) (k_mem s') -> same_process s s' ->
  (forall a, P a -> ~ in_region (image fs) a) -> (forall a, in_region (fd_region pcb fd) a -> ~ P a) ->
  listing fd pos s' /\ names_left pos (k_mem s') = names_left pos (k_mem s).
Proof using UL.
  intros (Ef & Ep & Hd & Ho & Hops) U [P1 P2] Hi Hf.
  assert (Hb : forall a, P a -> ~ in_region (boot_region fs) a)
    by (intros a Ha Hr; apply (Hi a Ha), boot_in_image, Hr).
  assert (G : forall off, 0 <= off <= 12 -> fd_get (k_mem s') pcb fd off = fd_get (k_mem s) pcb fd off)
    by (intros off Hoff; eapply fd_get_unchanged; [exact U|lia|lia|exact Hf]).
  pose proof Ho as (_ & _ & _ & Hpos). split.
  - split; [congruence|]. split; [congruence|].
    split; [eapply dir_ok_unchanged; [exact Hd|exact U|exact Hb]|].
    unfold open_dir, fd_ops in *. rewrite P1, Ep in *.
    rewrite !G by (unfold FD_FLAGS, FD_POS, FD_OPS; lia). done.
  - pose proof Hd as (_ & Hn & _). eapply names_from_unchanged; [exact Hd|exact U|exact Hb|lia|lia].
Qed.

Section Loop.
Context (fd : Z) (Hfd : 2 <= fd < 8).

Lemma dir_frame_off slack a :
  0 <= slack <= 1 -> dir_frame pcb fd (ls_buf d) 32 slack a ->
  ~ screen_bytes a /\ ~ in_region (fd_region pcb 1) a.
Proof using UL Hbuf Hfd.
  destruct (user_bounds fs pcb UL) as ((Hp & Hs) & _).
  pose proof (ul_read_pcb _ _ _ UL) as Hrp. pose proof (ul_screen _ _ _ UL) as HS.
  unfold kernel_objects in HS. rewrite !Forall_cons in HS. destruct HS as (_ & _ & _ & _ & _ & Hrs & _).
  intros Hsl [Ha|[Ha|Ha]].
  - unfold in_region, in_range, screen_bytes, in_range, fd_region, PCB_SIZE, PROG_LO, VIDEO, NUM_ROWS, NUM_COLS in *.
    cbn [fst snd] in *. lia.
  - unfold rdisj, disj, in_region, in_range, screen_region, screen_bytes, in_range, fd_region, pcb_region,
      PCB_SIZE, NUM_ROWS, NUM_COLS in *. cbn [fst snd] in *. lia.
  - split; [by apply (screen_off_fd fs pcb UL fd); [lia|]|].
    unfold in_region, in_range, fd_region in *. cbn [fst snd] in *. lia.
Qed.

(** The read of the end of the directory. *)
Lemma ls_read_end s :
  listing fd (n_dir_entries fs) s -> ece391_read fd (ls_buf d) 32 s = Some (0, s).
Proof using UL Hbuf Hfd.
  intros (Ef & Ep & _ & (Hu & Ht & Epos & _) & Hops). rewrite ece391_read_eq. unfold sys_read_c.
  replace ((fd <? 0) || (FD_SIZE <? fd)) with false by (unfold FD_SIZE; lia).
  replace (ls_buf d =? 0) with false by (unfold PROG_LO in *; lia). cbn [Z.ltb Z.compare].
  unfold fd_open, fd_used. rewrite Ep, (used_bit _ Hu), Hops. cbn [negb read_ptr]. unfold on_mem.
  rewrite Ef, Ep. unfold dir_read.
  replace (ls_buf d =? 0) with false by (unfold PROG_LO in *; lia).
  replace ((fd <=? 1) || (8 <=? fd)) with false by lia.
  replace ((Z.land (fd_get (k_mem s) pcb fd FD_FLAGS) USE_MASK =? 0)
    || (Z.shiftr (fd_get (k_mem s) pcb fd FD_FLAGS) 1 mod 2 =? 0)) with false by lia.
  rewrite Epos, Z.leb_refl. now rewrite set_k_mem_same.
Qed.

(** The read of the next name. *)
Lemma ls_read pos s :
  listing fd pos s -> stdout_ok s -> pos < n_dir_entries fs ->
  let name := entry_name fs (k_mem s) (pos + 1) in
  exists s1, ece391_read fd (ls_buf d) 32 s = Some (Z.of_nat (length name), s1) /\
    bytes (k_mem s1) (ls_buf d) (length name) = name /\
    listing fd (pos + 1) s1 /\ stdout_ok s1 /\ shown s1 ≡ shown s /\
    names_left (pos + 1) (k_mem s1) = names_left (pos + 1) (k_mem s) /\
    unchanged (dir_frame pcb fd (ls_buf d) 32 1) (k_mem s) (k_mem s1).
Proof using UL Hbuf Hfd.
  intros (Ef & Ep & Hd & Ho & Hops) Hso Hlt name.
  destruct (user_bounds fs pcb UL) as ((Hp & _) & (Hi & _) & Hpi).
  pose proof (ul_low _ _ _ UL) as HL. unfold kernel_objects in HL. rewrite !Forall_cons in HL.
  destruct HL as (_ & _ & _ & _ & _ & Hrl & _).
  pose proof (ul_read_pcb _ _ _ UL) as Hrp. pose proof (ul_read_image _ _ _ UL) as Hri.
  pose proof (fl_image _ _ (ul_fs _ _ _ UL)) as Him.
  assert (D1 : rdisj (dentry_region read_dentry) (boot_region fs)) by (apply rdisj_boot; assumption).
  assert (D2 : rdisj (ls_buf d, 32 + 1) (dentry_region read_dentry))
    by (unfold rdisj, disj in *; cbn [fst snd] in *; lia).
  assert (D3 : rdisj (ls_buf d, 32 + 1) (fd_region pcb fd))
    by (unfold rdisj, disj, fd_region, PCB_SIZE in *; cbn [fst snd] in *; lia).
  assert (D4 : rdisj (fd_region pcb fd) (dentry_region read_dentry))
    by (unfold rdisj, disj, fd_region, pcb_region, PCB_SIZE in *; cbn [fst snd] in *; lia).
  destruct (dir_read_spec fs pcb fd (ls_buf d) 32 pos (k_mem s) Hd Ho ltac:(unfold PROG_LO in *; lia)
    ltac:(lia) ltac:(lia) (ul_read0 _ _ _ UL) D1 D2 D3 D4 Hlt) as (m' & E & B & _ & O' & U & Eops).
  fold name in E, B. assert (Hl : (length name <= 32)%nat) by apply cname_length_le.
  change (Z.to_nat 32) with 32%nat in *. rewrite (take_ge name) in E, B by lia.
  set (slack := if Z.of_nat (length _) =? 32 then 1 else 0) in U.
  assert (Hsl : 0 <= slack <= 1) by (unfold slack; destruct (_ =? 32); lia).
  assert (Hoi : forall a, dir_frame pcb fd (ls_buf d) 32 slack a -> ~ in_region (image fs) a).
  { unfold dir_frame, rdisj, disj, in_region, in_range, fd_region, pcb_region, PCB_SIZE in *. cbn [fst snd] in *. lia. }
  assert (Hob : forall a, dir_frame pcb fd (ls_buf d) 32 slack a -> ~ in_region (boot_region fs) a)
    by (intros a Ha Hr; apply (Hoi a Ha), boot_in_image, Hr).
  exists (set_k_mem m' s). split; [|cbn [k_mem set_k_mem]; split; [exact B|split; [|split; [|split; [|split]]]]].
  - rewrite ece391_read_eq. unfold sys_read_c.
    replace ((fd <? 0) || (FD_SIZE <? fd)) with false by (unfold FD_SIZE; lia).
    replace (ls_buf d =? 0) with false by (unfold PROG_LO in *; lia). cbn [Z.ltb Z.compare].
    unfold fd_open, fd_used. rewrite Ep, (used_bit _ (proj1 Ho)), Hops. cbn [negb read_ptr]. unfold on_mem.
    now rewrite Ef, Ep, E.
  - split; [exact Ef|]. split; [exact Ep|].
    split; [eapply dir_ok_unchanged; [exact Hd|exact U|exact Hob]|]. split; [exact O'|].
    unfold fd_ops in *. cbn [k_mem cur_pcb set_k_mem]. rewrite Ep in *. now rewrite Eops.
  - eapply (stdout_ok_unchanged _ s); [exact Hso|reflexivity|exact U|apply Hso|].
    rewrite Ep. intros a Ha Hf. by apply (dir_frame_off slack a Hsl Hf).
  - eapply shown_off_screen; [reflexivity|exact U|]. intros a Ha. apply (dir_frame_off slack a Hsl Ha).
  - pose proof Ho as (_ & _ & _ & Hpos). eapply names_from_unchanged; [exact Hd|exact U|exact Hob|lia|lia].
  - eapply unchanged_weaken; [|exact U]. intros a [Ha|Ha]; [left; unfold in_range in *; lia|by right].
Qed.

(** The newline behind the name, and the write of the line. *)
Lemma ls_line pos s name :
  listing fd pos s -> stdout_ok s -> printable name -> bytes (k_mem s) (ls_buf d) (length name) = name ->
  let n := Z.of_nat (length name) in
  exists s', ece391_write 1 (ls_buf d) (n + 1) (upd_mem (fun m => store8 m (ls_buf d + n) 10) s) = Some (n + 1, s') /\
    shown s' ≡ term_print (name ++ [10]) (shown s) /\ listing fd pos s' /\ stdout_ok s' /\
    names_left pos (k_mem s') = names_left pos (k_mem s) /\ same_process s s'.
Proof using UL Hbuf Hfd.
  intros L1 So1 Hpr B1 n. pose proof L1 as (Ef1 & Ep1 & _). set (s2 := upd_mem _ s).
  assert (U2 : unchanged (in_range (ls_buf d + n) 1) (k_mem s) (k_mem s2))
    by (apply unchanged_store8; unfold in_range; lia).
  destruct (user_bounds fs pcb UL) as ((Hp & Hs) & (Hi & _) & _).
  destruct (listing_unchanged _ fd pos s s2 L1 U2) as (L2 & N2);
    [by split|unfold in_region, in_range; lia|
     unfold in_region, in_range, fd_region, PCB_SIZE in *; cbn [fst snd]; lia|].
  assert (UL1 : user_layout (k_fs s) (cur_pcb s) open_local) by (rewrite Ef1, Ep1; exact UL).
  destruct (user_change_kept open_local s _ (k_mem s2) UL1 U2) as [_ _ _ Kso Ksh];
    [unfold in_range; lia|].
  change (set_k_mem (k_mem s2) s) with s2 in Kso, Ksh.
  assert (B2 : bytes (k_mem s2) (ls_buf d) (Z.to_nat (n + 1)) = name ++ [10]).
  { replace (Z.to_nat (n + 1)) with (S (length name)) by lia. rewrite bytes_snoc. f_equal.
    - rewrite <- B1 at 2. eapply unchanged_bytes; [exact U2|]. unfold in_range. lia.
    - f_equal. apply load8_store8_eq. }
  destruct (write_stdout (ls_buf d) (n + 1) s2 (Kso So1)) as (s3 & E3 & Sh3 & U3 & P3 & So3);
    [change (cur_pcb s2) with (cur_pcb s); by rewrite Ep1|unfold PROG_LO in *; lia|lia|
     unfold disj, VIDEO, NUM_ROWS, NUM_COLS, PROG_LO in *; lia|
     rewrite B2; apply Forall_app; split; [exact Hpr|repeat constructor; lia]|].
  destruct (listing_unchanged screen_bytes fd pos s2 s3 L2 U3 P3) as (L3 & N3);
    [apply (screen_off_image fs pcb UL)|intros a; apply (screen_off_fd fs pcb UL); lia|].
  exists s3. rewrite ece391_write_eq. split; [exact E3|].
  split; [rewrite Sh3, Ksh, B2; done|]. split; [exact L3|]. split; [exact So3|]. split; [congruence|exact P3].
Qed.

(** The lines that ls prints. *)
Definition ls_lines (names : list (list Z)) : list Z := concat ((fun name => name ++ [10]) <$> names).

Lemma ls_loop_spec fuel : forall pos s,
  listing fd pos s -> stdout_ok s ->
  Forall (fun name => name <> [] /\ printable name) (names_left pos (k_mem s)) ->
  n_dir_entries fs - pos < Z.of_nat fuel ->
  exists s', ls_loop fuel d fd s = Some (0, s') /\
    shown s' ≡ term_print (ls_lines (names_left pos (k_mem s))) (shown s) /\ same_process s s'.
Proof using UL Hbuf Hfd.
  induction fuel as [|f IH]; intros pos s Hl Hso Hn Hf; pose proof Hl as (Ef & Ep & Hd & (_ & _ & _ & Hpos) & _); [lia|].
  cbn [ls_loop]. change (SBUFSIZE - 1) with 32.
  destruct (decide (pos = n_dir_entries fs)) as [->|Hne].
  { rewrite ls_read_end by exact Hl. exists s. split; [reflexivity|]. unfold names_left.
    replace (Z.to_nat _) with O by lia. split; [done|by split]. }
  destruct (ls_read pos s Hl Hso ltac:(lia)) as (s1 & E1 & B1 & L1 & So1 & Sh1 & N1 & _).
  set (name := entry_name fs (k_mem s) (pos + 1)) in *.
  assert (En : names_left pos (k_mem s) = name :: names_left (pos + 1) (k_mem s)).
  { unfold names_left. replace (Z.to_nat (n_dir_entries fs - pos))
      with (S (Z.to_nat (n_dir_entries fs - (pos + 1)))) by lia.
    unfold names_from. now rewrite zseq_S. }
  rewrite En in Hn |- *. inversion_clear Hn as [|? ? [Hne1 Hpr] Hn2].
  assert (Hlen : (length name <= 32)%nat) by apply cname_length_le.
  assert (Hpos1 : length name <> 0%nat) by (intros Hz; apply Hne1, length_zero_iff_nil, Hz).
  rewrite E1. cbn [mbind option_bind]. set (n := Z.of_nat (length name)) in *.
  replace (n =? 0) with false by lia. replace (n =? -1) with false by lia.
  destruct (ls_line (pos + 1) s1 name L1 So1 Hpr B1) as (s3 & E3 & Sh3 & L3 & So3 & N3 & P3). fold n in E3.
  rewrite E3. cbn [mbind option_bind]. replace (n + 1 =? -1) with false by lia.
  rewrite N1 in N3. destruct (IH (pos + 1) s3 L3 So3) as (s4 & E4 & Sh4 & P4); [by rewrite N3|lia|].
  exists s4. split; [exact E4|]. split.
  - rewrite N3 in Sh4. change (ls_lines (name :: ?l)) with ((name ++ [10]) ++ ls_lines l).
    rewrite Sh4, Sh3, Sh1, <- term_print_app. done.
  - assert (same_process s s1) by (destruct L1 as (? & ? & _); split; congruence).
    eauto using same_process_trans.
Qed.
End Loop.
End Ls.

(** Opening a directory. *)
Lemma user_opendir `{Ports} `{Layout} `{Traps} s dot i x :
  let fs := k_fs s in
  let m := k_mem s in
  user_layout fs (cur_pcb s) open_local -> tables_ok -> dir_ok fs m -> stdout_ok s ->
  PROG_LO <= dot -> strlen m dot <= 32 -> list_find (eq (cname m dot 32)) (dir_names fs m) = Some (i, x) ->
  entry_type fs m (1 + Z.of_nat i) = DIR_FILE -> let fd := find_fd m (cur_pcb s) in fd < 8 ->
  exists s1, ece391_open dot s = Some (fd, s1) /\ 2 <= fd < 8 /\ listing fs (cur_pcb s) fd 0 s1 /\
    names_left fs 0 (k_mem s1) = dir_names fs m /\ stdout_ok s1 /\ shown s1 ≡ shown s /\
    unchanged (open_call_frame s open_local fd) m (k_mem s1).
Proof.
  intros fs m UL HT Hdir Hso Hdot Hlen Hfind Hty fd Hfd.
  destruct (user_open s dot UL HT Hdir Hso Hdot Hlen i x Hfind Hfd) as (s1 & E1 & Hr & Hop & So1 & Sh1).
  fold m in E1, Hr, Hop. fold fs in Hop. fold fd in E1, Hr, Hop. rewrite Hty in Hop.
  pose proof (user_open_layout s dot UL Hdot) as HL. destruct Hop as (Ep & Ef & U & Ho & F & _ & P).
  assert (Hoff : forall a, open_call_frame s open_local fd a -> ~ in_region (boot_region fs) a).
  { intros a Ha Hb. eapply prepare_off_image; [exact HL|eapply call_frame_prepare; [|exact Ha]; lia|].
    eapply boot_in_image; [exact UL|exact Hb]. }
  pose proof Hdir as (_ & Hnd & _).
  exists s1. split; [exact E1|]. split; [exact Hr|]. split; [|split; [|by split]].
  - split; [exact Ef|]. split; [exact Ep|]. split; [eapply dir_ok_unchanged; [exact Hdir|exact U|exact Hoff]|].
    split; [|exact Ho]. unfold open_dir. rewrite F, P. split; [discriminate|]. split; [discriminate|]. split; [done|lia].
  - unfold names_left, dir_names. rewrite Z.sub_0_r.
    eapply names_from_unchanged; [exact Hdir|exact U|exact Hoff|lia|lia].
Qed.

(** The run of cat, for the theorem below and for the command that starts it. *)
Lemma cat_main_spec `{Ports} `{Layout} `{Traps} d s p L i x fuel :
  let fs := k_fs s in
  let m := k_mem s in
  let name := cur_pcb s + PCB_INPUT + (p + 1) in
  user_layout fs (cur_pcb s) open_local -> tables_ok -> dir_ok fs m -> stdout_ok s ->
  PROG_LO <= cat_buf d -> (1024 < args_fuel)%nat ->
  first_space m (cur_pcb s + PCB_INPUT) p -> is_cstr m name L -> 1 <= L <= 32 -> p + 2 * (L + 1) <= 1024 ->
  list_find (eq (bytes m name (Z.to_nat L))) (dir_names fs m) = Some (i, x) ->
  entry_type fs m (1 + Z.of_nat i) = REG_FILE ->
  let inode := entry_inode fs m (1 + Z.of_nat i) in
  file_ok fs m inode -> printable (file_bytes fs m inode) -> find_fd m (cur_pcb s) < 8 ->
  (file_size fs m inode + 1023) / 1024 < Z.of_nat fuel ->
  exists s', cat_main fuel d s = Some (0, s') /\ shown s' ≡ term_print (file_bytes fs m inode) (shown s) /\
    same_process s s'.
Proof.
  intros fs m name UL HT Hdir Hso Hbuf Hfuel Hsp HL HL1 Hp Hfind Hty inode Hok Hpr Hfd Hturns.
  pose proof (found_entry fs m _ i x Hfind) as Hidx.
  destruct (user_getargs (cat_buf d) p L s UL Hbuf Hfuel Hsp HL ltac:(lia) Hp) as (m1 & Eg & _ & Harg & [Kd Kf Kfd Kso Ksh]).
  fold fs m name in Kd, Kf, Kfd, Harg.
  destruct (Kd Hdir) as (Hdir1 & En1 & Ke). destruct (Ke _ Hidx) as [Et1 Ei1].
  destruct (Kf inode Hok) as (Hok1 & Es1 & Eb1).
  assert (Hnz : Forall (fun c => c <> 0) (bytes m name (Z.to_nat L))).
  { apply Forall_lookup. intros j c Hj. pose proof (lookup_lt_Some _ _ _ Hj) as Hlt. rewrite length_bytes in Hlt.
    rewrite bytes_lookup in Hj by exact Hlt. injection Hj as <-. apply HL. lia. }
  pose proof (text_strlen _ _ _ Harg Hnz) as Hlen. rewrite length_bytes in Hlen.
  assert (Hname : cname m1 (cat_buf d) 32 = bytes m name (Z.to_nat L)) by (rewrite (text_cname _ _ _ _ Harg Hnz); apply take_ge; rewrite length_bytes; lia).
  unfold cat_main. rewrite Eg. cbn [mbind option_bind Z.eqb negb].
  set (s1 := set_k_mem m1 s) in *.
  destruct (user_open s1 (cat_buf d) UL HT Hdir1 (Kso Hso) Hbuf) with (i := i) (x := x)
    as (s2 & Eo & Hr & Hop & So2 & Sh2).
  { change (k_mem s1) with m1. lia. }
  { cbn [k_mem k_fs s1 set_k_mem]. fold fs. rewrite Hname, En1. exact Hfind. }
  { cbn [k_mem cur_pcb s1 set_k_mem]. rewrite Kfd. exact Hfd. }
  set (fd := find_fd (k_mem s1) (cur_pcb s1)) in *.
  rewrite Eo. cbn [mbind option_bind]. replace (fd =? -1) with false by lia.
  change (k_mem s1) with m1 in Hop. change (k_fs s1) with fs in Hop. rewrite Et1, Ei1, Hty in Hop. fold inode in Hop.
  destruct (opened_reading s1 open_local (cat_buf d) fd inode s2) as (Rd & Fb & Fs);
    [apply user_open_layout; [exact UL|exact Hbuf]|lia|exact Hok1|exact Hop|].
  change (k_mem s1) with m1 in Fb, Fs. change (k_fs s1) with fs in Rd, Fb, Fs.
  change (cur_pcb s1) with (cur_pcb s) in Rd.
  destruct (cat_loop_spec fs (cur_pcb s) d UL Hbuf fd inode ltac:(lia) fuel 0 s2 Rd So2)
    as (s3 & E3 & Sh3 & P3).
  { rewrite Fb, Eb1. exact Hpr. }
  { rewrite Fs, Es1, Z.sub_0_r. exact Hturns. }
  exists s3. split; [exact E3|]. split.
  - rewrite Sh3, Sh2, Ksh, Fb, Eb1. done.
  - destruct Hop as (Ep & Ef & _). destruct P3 as [P1 P2]. split; [rewrite P1, Ep|rewrite P2, Ef]; reflexivity.
Qed.

(** ** Theorems *)

(** cat prints the file its argument names: when the command line ends in the name
    of a regular file, the program reads its argument, opens the file, prints its
    bytes in order on the terminal, in at most one read per kilobyte and one more,
    and returns 0. *)
Theorem cat_prints_file `{Ports} `{Layout} `{Traps} d s p L i x fuel :
  let fs := k_fs s in
  let m := k_mem s in
  let name := cur_pcb s + PCB_INPUT + (p + 1) in
  user_layout fs (cur_pcb s) open_local -> tables_ok -> dir_ok fs m -> stdout_ok s ->
  PROG_LO <= cat_buf d -> (1024 < args_fuel)%nat ->
  first_space m (cur_pcb s + PCB_INPUT) p -> is_cstr m name L -> 1 <= L <= 32 -> p + 2 * (L + 1) <= 1024 ->
  list_find (eq (bytes m name (Z.to_nat L))) (dir_names fs m) = Some (i, x) ->
  entry_type fs m (1 + Z.of_nat i) = REG_FILE ->
  let inode := entry_inode fs m (1 + Z.of_nat i) in
  file_ok fs m inode -> printable (file_bytes fs m inode) -> find_fd m (cur_pcb s) < 8 ->
  (file_size fs m inode + 1023) / 1024 < Z.of_nat fuel ->
  exists s', cat_main fuel d s = Some (0, s') /\ shown s' ≡ term_print (file_bytes fs m inode) (shown s) /\
    same_process s s'.
Proof. exact (cat_main_spec d s p L i x fuel). Qed.

(** C18 ls prints the names of all directory entries, one per line and in order, and
    returns 0; the directory entry "." must be there, and no name empty. *)
Theorem ls_prints_directory `{Ports} `{Layout} `{Traps} d s i x fuel :
  let fs := k_fs s in
  let m := k_mem s in
  user_layout fs (cur_pcb s) open_local -> tables_ok -> dir_ok fs m -> stdout_ok s ->
  PROG_LO <= ls_buf d -> PROG_LO <= ls_dot d -> strlen m (ls_dot d) <= 32 ->
  list_find (eq (cname m (ls_dot d) 32)) (dir_names fs m) = Some (i, x) ->
  entry_type fs m (1 + Z.of_nat i) = DIR_FILE -> find_fd m (cur_pcb s) < 8 ->
  Forall (fun name => name <> [] /\ printable name) (dir_names fs m) ->
  n_dir_entries fs < Z.of_nat fuel ->
  exists s', ls_main fuel d s = Some (0, s') /\
    shown s' ≡ term_print (ls_lines (dir_names fs m)) (shown s) /\ same_process s s'.
Proof.
  intros fs m UL HT Hdir Hso Hbuf Hdot Hlen Hfind Hty Hfd Hn Hfuel.
  destruct (user_opendir s (ls_dot d) i x UL HT Hdir Hso Hdot Hlen Hfind Hty Hfd) as (s1 & E1 & Hr & L1 & N1 & So1 & Sh1 & _).
  fold m in E1, Hr, L1, N1. fold fs in L1, N1. set (fd := find_fd m (cur_pcb s)) in *.
  unfold ls_main. rewrite E1. cbn [mbind option_bind]. replace (fd =? -1) with false by lia.
  destruct (ls_loop_spec fs (cur_pcb s) d UL Hbuf fd ltac:(lia) fuel 0 s1 L1 So1) as (s2 & E2 & Sh2 & P2);
    [by rewrite N1|lia|].
  exists s2. split; [exact E2|]. rewrite N1 in Sh2. split; [rewrite Sh2, Sh1; done|].
  eapply same_process_trans; [|exact P2]. destruct L1 as (Ef & Ep & _). split; [exact Ep|exact Ef].
Qed.

(** ** Witnesses

    The directory of FilesysDir.v with the file "frame", and a process at 0x1000
    with the command line "cat frame" and standard output open. *)
Definition cat_mem : mem :=
  let m := fd_set test_image 0x1000 1 FD_OPS 0x3430 in
  let m := fd_set m 0x1000 1 FD_FLAGS TERMINAL_FILE_FLAGS in
  store_list m (0x1000 + PCB_INPUT) ([99; 97; 116; 32] ++ name_frame).

Definition cat_state : kst :=
  mkKst cat_mem (mkConsole 0 3) (mkPic 0xFF 0xFF) 0 (mkKeyboard 0 0 0 0 0 0 0) test_fs 0x1000 1
    (mkCpu true 0x800000 0 0 0) [].

#[local] Existing Instance test_layout.
#[local] Instance test_ports : Ports := fun _ _ => 0.
#[local] Instance test_traps : Traps :=
  {| arrivals := fun _ => mkSched [] []; open_local := 0x3500;
     exec_locals := mkLocals 0x7FD000 0x7FD040 0x7FD080 0x7FD100 0x3500 0x7FDFF0; args_fuel := 1025 |}.

Lemma cat_state_layout : user_layout (k_fs cat_state) (cur_pcb cat_state) open_local.
Proof.
  split; [exact test_fs_layout|cbn; lia|test_sep|test_sep|cbn; lia|test_sep|test_sep| |].
  - unfold kernel_objects. repeat (constructor; [vm_compute; congruence|]). constructor.
  - unfold kernel_objects. repeat (constructor; [test_sep|]). constructor.
Qed.

Lemma cat_state_dir_ok : dir_ok (k_fs cat_state) (k_mem cat_state).
Proof.
  split; [vm_compute; congruence|]. split; [vm_compute; intuition congruence|].
  intros i Hi. cbn in Hi. assert (i = 1 \/ i = 2) as [-> | ->] by lia; vm_compute; reflexivity.
Qed.

Lemma cat_state_stdout : stdout_ok cat_state.
Proof.
  split; [vm_compute; reflexivity|]. split; [vm_compute; reflexivity|].
  unfold on_screen, NUM_ROWS, NUM_COLS. cbn. lia.
Qed.

Lemma cat_state_args :
  first_space (k_mem cat_state) (cur_pcb cat_state + PCB_INPUT) 3 /\
  is_cstr (k_mem cat_state) (cur_pcb cat_state + PCB_INPUT + (3 + 1)) 5.
Proof.
  split; (split; [lia|]; split; [vm_compute; reflexivity|]); intros j Hj.
  - assert (j = 0 \/ j = 1 \/ j = 2) as [->|[->| ->]] by lia; vm_compute; congruence.
  - assert (j = 0 \/ j = 1 \/ j = 2 \/ j = 3 \/ j = 4) as [->|[->|[->|[->| ->]]]] by lia; vm_compute; congruence.
Qed.

Lemma cat_state_inode :
  entry_inode (k_fs cat_state) (k_mem cat_state) (1 + Z.of_nat 1) = 0 /\
  file_size (k_fs cat_state) (k_mem cat_state) 0 = 5 /\
  file_bytes (k_fs cat_state) (k_mem cat_state) 0 = [72; 101; 108; 108; 111].
Proof. split; [vm_compute; reflexivity|]. split; vm_compute; reflexivity. Qed.

Lemma cat_state_file_ok : file_ok (k_fs cat_state) (k_mem cat_state) 0.
Proof.
  destruct cat_state_inode as (_ & Es & _).
  split; [vm_compute; intuition congruence|]. split; [cbn; lia|].
  rewrite Es. split; [unfold FOUR_KB; lia|]. intros o Ho.
  replace (o / FOUR_KB) with 0 by (unfold FOUR_KB; zdm). vm_compute. reflexivity.
Qed.

Lemma cat_state_found :
  list_find (eq (bytes (k_mem cat_state) (cur_pcb cat_state + PCB_INPUT + (3 + 1)) (Z.to_nat 5)))
    (dir_names (k_fs cat_state) (k_mem cat_state)) = Some (1%nat, name_frame).
Proof. vm_compute. reflexivity. Qed.

Lemma cat_state_misc :
  entry_type (k_fs cat_state) (k_mem cat_state) (1 + Z.of_nat 1) = REG_FILE /\
  find_fd (k_mem cat_state) (cur_pcb cat_state) < 8.
Proof. split; vm_compute; reflexivity. Qed.

(** "cat frame" prints "Hello". *)
Lemma cat_prints_file_witness :
  exists s', cat_main 2 (mkCat 0x8050000 0 0 0) cat_state = Some (0, s') /\
    shown s' ≡ term_print [72; 101; 108; 108; 111] (shown cat_state).
Proof.
  destruct cat_state_inode as (Ei & Es & Eb). destruct cat_state_args as [A1 A2].
  destruct cat_state_misc as [Et Hf].
  destruct (cat_prints_file (mkCat 0x8050000 0 0 0) cat_state 3 5 1%nat name_frame 2 cat_state_layout
    test_tables_ok cat_state_dir_ok cat_state_stdout ltac:(unfold PROG_LO; cbn; lia) ltac:(cbn; lia) A1 A2
    ltac:(lia) ltac:(lia) cat_state_found Et) as (s' & E & Sh & _).
  - rewrite Ei. exact cat_state_file_ok.
  - rewrite Ei, Eb. repeat constructor; discriminate.
  - exact Hf.
  - rewrite Ei, Es. reflexivity.
  - rewrite Ei, Eb in Sh. exists s'. split; [exact E|exact Sh].
Defined.

(** The same process with the text "." in its program page. *)
Definition ls_state : kst := upd_mem (fun m => store8 m 0x8051000 46) cat_state.

Lemma ls_state_dir_ok : dir_ok (k_fs ls_state) (k_mem ls_state).
Proof.
  split; [vm_compute; congruence|]. split; [vm_compute; intuition congruence|].
  intros i Hi. cbn in Hi. assert (i = 1 \/ i = 2) as [-> | ->] by lia; vm_compute; reflexivity.
Qed.

Lemma ls_state_stdout : stdout_ok ls_state.
Proof.
  split; [vm_compute; reflexivity|]. split; [vm_compute; reflexivity|].
  unfold on_screen, NUM_ROWS, NUM_COLS. cbn. lia.
Qed.

Lemma ls_state_names : dir_names (k_fs ls_state) (k_mem ls_state) = [name_dot; name_frame].
Proof. vm_compute. reflexivity. Qed.

Lemma ls_state_found :
  list_find (eq (cname (k_mem ls_state) 0x8051000 32)) (dir_names (k_fs ls_state) (k_mem ls_state)) =
  Some (0%nat, name_dot).
Proof. vm_compute. reflexivity. Qed.

Lemma ls_state_misc :
  strlen (k_mem ls_state) 0x8051000 <= 32 /\
  entry_type (k_fs ls_state) (k_mem ls_state) (1 + Z.of_nat 0) = DIR_FILE /\
  find_fd (k_mem ls_state) (cur_pcb ls_state) < 8.
Proof. split; [vm_compute; congruence|]. split; vm_compute; reflexivity. Qed.

(** ls prints "." and "frame". *)
Lemma ls_prints_directory_witness :
  exists s', ls_main 3 (mkLs 0x8050000 0x8051000 0 0) ls_state = Some (0, s') /\
    shown s' ≡ term_print [46; 10; 102; 114; 97; 109; 101; 10] (shown ls_state).
Proof.
  destruct ls_state_misc as (Hl & Et & Hf).
  destruct (ls_prints_directory (mkLs 0x8050000 0x8051000 0 0) ls_state 0%nat name_dot 3 cat_state_layout
    test_tables_ok ls_state_dir_ok ls_state_stdout ltac:(unfold PROG_LO; cbn; lia) ltac:(unfold PROG_LO; cbn; lia)
    Hl ls_state_found Et Hf) as (s' & E & Sh & _).
  - rewrite ls_state_names.
    repeat (constructor; [split; [discriminate|repeat constructor; discriminate]|]). constructor.
  - reflexivity.
  - rewrite ls_state_names in Sh. exists s'. split; [exact E|exact Sh].
Defined.
