(* ===== verification/Run.v ===== *)
(** * Commands

    From the call of execute to the output of the program: execute starts a process that
    finds its command line in its control block, the terminal behind its descriptors and the
    files as they were. *)

From S2P Require Import Prelude Mem CString MemOps State Console I8259 Pcb Rtc Filesys FilesysRead FilesysDir Keyboard Terminal Paging Syscalls Process Exec Trap Support FileCalls UserCalls Programs Output.

(** ** The directory in memories that agree on the image *)

Section Agree.
Context (fs : filesys) (m m' : mem) (HA : image_agree fs m m') (Hi : image_ok fs) (Hd : dir_ok fs m).

Lemma entry_byte_agree i o :
  1 <= i <= n_dir_entries fs -> 0 <= o < 64 -> load8 m' (Filesys.entry fs i + o) = load8 m (Filesys.entry fs i + o).
Proof using HA Hi Hd.
  intros Hr Ho. apply HA. destruct Hi as (? & ? & _), Hd as (_ & ? & _).
  unfold in_region, in_range, image, Filesys.entry, DENTRY_SIZE, FOUR_KB in *. cbn [fst snd]. lia.
Qed.

Lemma entry_word_agree i o :
  1 <= i <= n_dir_entries fs -> 0 <= o < 60 -> load32 m' (Filesys.entry fs i + o) = load32 m (Filesys.entry fs i + o).
Proof using HA Hi Hd. intros Hr Ho. unfold load32. rewrite <- !Z.add_assoc, !entry_byte_agree by lia. done. Qed.

Lemma entry_agree i :
  1 <= i <= n_dir_entries fs -> entry_type fs m' i = entry_type fs m i /\ entry_inode fs m' i = entry_inode fs m i.
Proof using HA Hi Hd. intros Hr. unfold entry_inode, entry_type. rewrite !entry_word_agree by (done || (unfold DE_FILETYPE, DE_INODE; lia)). done. Qed.

Lemma dir_ok_agree : dir_ok fs m'.
Proof using HA Hi Hd.
  destruct Hd as (H0 & Hn & Ht). split; [exact H0|]. split; [exact Hn|]. intros i Hr.
  destruct (entry_agree i Hr) as [E _]. unfold entry_type in E. rewrite E. by apply Ht.
Qed.

Lemma dir_names_agree : dir_names fs m' = dir_names fs m.
Proof using HA Hi Hd.
  unfold dir_names, names_from. apply list_fmap_ext. intros k i Hk. pose proof (lookup_lt_Some _ _ _ Hk) as Hl. rewrite length_zseq in Hl.
  rewrite zseq_lookup in Hk by exact Hl. injection Hk as <-. apply cname_ext. intros o Ho _. apply entry_byte_agree; lia.
Qed.
End Agree.

(** ** The process that execute starts *)

Section Started.
Context `{Ports} `{Layout} `{Traps} (l : locals) (command : Z) (s : kst) (eip esp cs ds : Z) (s1 : kst).
Context (XL : exec_layout l command s) (Hn0 : 0 <= process_number s).
Context (E : sys_execute_c l command s = ExecEnter eip esp cs ds s1).
Context (Himg : (image (k_fs s)).1 + (image (k_fs s)).2 <= EIGHT_MB) (HT : tables_ok).
Context (Hscr : Forall (rdisj screen_region) (exec_objects l s)).

Lemma started_quiet : k_fs s1 = k_fs s /\ k_con s1 = k_con s.
Proof using XL E.
  apply execute_inv in E as (_ & m2 & inode & _ & _ & ->); [|exact XL].
  unfold finish, install_pcb, build_pcb, load_program, on_mem. destruct (read_data _ _ _ _ _ _ _ _) as [r m3]. done.
Qed.

(** The objects execute works with are apart from the image and from the screen. *)
Lemma exec_frame_apart r a :
  Forall (rdisj r) (exec_objects l s) -> r.1 + r.2 <= EIGHT_MB -> in_region r a -> ~ exec_frame l s a.
Proof using Type.
  intros Hr Hlow Ha Hx. unfold exec_objects in Hr. rewrite !Forall_cons in Hr. destruct Hr as (R1 & R2 & R3 & R4 & R5 & R6 & R7 & R8 & _).
  unfold exec_frame, search_frame, lookup_frame in Hx. unfold rdisj, disj, in_region, in_range in *. cbn [fst snd] in *.
  decompose [or] Hx; clear Hx; lia.
Qed.

Lemma started_load8 r a :
  Forall (rdisj r) (exec_objects l s) -> r.1 + r.2 <= EIGHT_MB -> in_region r a -> load8 (k_mem s1) a = load8 (k_mem s) a.
Proof using XL Hn0 E.
  intros Hr Hlow Ha. pose proof (execute_entered l command s eip esp cs ds s1 XL Hn0 E) as En.
  destruct En as (_ & _ & _ & _ & _ & _ & _ & _ & _ & _ & _ & _ & _ & F). eapply framed_load8; [exact F| |].
  - apply (low_kernel r.1 r.2); [unfold EIGHT_MB, PROG_LO in *; lia|exact Ha].
  - eapply exec_frame_apart; [exact Hr|exact Hlow|exact Ha].
Qed.

Lemma apart_from_Forall r rs : apart_from r rs -> Forall (rdisj r) rs.
Proof using Type. induction rs as [|r' rs IH]; cbn; [constructor|]. intros [? ?]. constructor; auto. Qed.

Lemma started_image : image_agree (k_fs s) (k_mem s) (k_mem s1).
Proof using XL Hn0 E Himg.
  intros a Ha. apply (started_load8 (image (k_fs s))); [|exact Himg|exact Ha].
  apply apart_from_Forall. pose proof (xl_apart _ _ _ XL) as HA. destruct HA as [_ [HA _]]. exact HA.
Qed.

Lemma started_shown : shown s1 ≡ shown s.
Proof using XL Hn0 E Hscr.
  destruct started_quiet as [_ Ec]. split; [cbn; by rewrite Ec|]. split; [cbn; by rewrite Ec|]. intros y x Hy Hx. cbn.
  apply (started_load8 screen_region); [exact Hscr|by vm_compute|].
  unfold in_region, in_range, screen_region, NUM_ROWS, NUM_COLS in *. cbn [fst snd]. lia.
Qed.

Lemma started_fds : find_fd (k_mem s1) (cur_pcb s1) = 2 /\ (on_screen (k_con s) -> stdout_ok s1).
Proof using XL Hn0 E HT.
  pose proof (execute_entered l command s eip esp cs ds s1 XL Hn0 E) as (_ & Ep & _ & _ & _ & _ & _ & _ & _ & _ & _ & Hfl & Hop & _).
  rewrite <- Ep in Hfl, Hop. destruct started_quiet as [_ Ec]. split.
  - destruct (find_fd_spec (k_mem s1) (cur_pcb s1)) as (Hr & _ & Hu).
    destruct (decide (find_fd (k_mem s1) (cur_pcb s1) = 2)) as [|Hne]; [done|]. specialize (Hu 2 ltac:(lia)).
    unfold fd_used in Hu. rewrite Hfl in Hu by lia. done.
  - intros Ho. split; [|split; [|by rewrite Ec]].
    + unfold fd_open, fd_used. by rewrite Hfl by lia.
    + unfold fd_ops. rewrite Hop by lia. apply (ops_of_type_at 3), HT.
Qed.

(** Its command line. *)
Lemma started_args p L :
  strlen (k_mem s) command = p + 1 + L -> first_space (k_mem s) command p -> 0 <= L ->
  first_space (k_mem s1) (cur_pcb s1 + PCB_INPUT) p /\ is_cstr (k_mem s1) (cur_pcb s1 + PCB_INPUT + (p + 1)) L /\
  bytes (k_mem s1) (cur_pcb s1 + PCB_INPUT + (p + 1)) (Z.to_nat L) = bytes (k_mem s) (command + (p + 1)) (Z.to_nat L).
Proof using XL Hn0 E.
  intros Hlen (Hp & Es & Hns) HL. pose proof (execute_command l command s eip esp cs ds s1 XL Hn0 E) as Hc. rewrite Hlen in Hc.
  destruct (strlen_spec (k_mem s) command) as (_ & Hz & Hnz). rewrite Hlen in Hz, Hnz. split; [|split].
  - split; [exact Hp|]. split; [by rewrite Hc by lia|]. intros j Hj. rewrite Hc by lia. by apply Hns.
  - split; [exact HL|]. split; [by rewrite <- Z.add_assoc, Hc by lia|]. intros j Hj. rewrite <- Z.add_assoc, Hc by lia. apply Hnz. lia.
  - apply bytes_pointwise; [lia|]. intros j Hj. rewrite <- (Z.add_assoc command), <- (Z.add_assoc (_ + PCB_INPUT)). apply Hc. lia.
Qed.
End Started.

(** ** The run of a command *)

(** The command line "cat name" prints the file: when the first word of a command names
    the program in the directory and what follows the first space a regular file, the system
    call execute starts a process in which cat prints the bytes of that file, in order, on the
    screen as it was before the call. *)
Lemma run_cat `{Ports} `{Layout} `{Traps} d command ecx edx s i p L j x fuel :
  let fs := k_fs s in
  let m := k_mem s in
  let l := exec_locals in
  exec_layout l command s -> names_program fs m command i -> bytes m (l_elf_text l) 4 = elf_text ->
  (forall a, in_range (l_elf_text l) 4 a -> ~ search_frame l a) ->
  0 <= process_number s < 6 -> load32 m (page_entry s) mod 2 = 1 ->
  (image fs).1 + (image fs).2 <= EIGHT_MB -> Forall (rdisj screen_region) (exec_objects l s) ->
  user_layout fs (pcb_address (process_number s)) open_local -> tables_ok -> on_screen (k_con s) ->
  PROG_LO <= cat_buf d -> (1024 < args_fuel)%nat ->
  first_space m command p -> strlen m command = p + 1 + L -> 1 <= L <= 32 -> p + 2 * (L + 1) <= 1024 ->
  list_find (eq (bytes m (command + (p + 1)) (Z.to_nat L))) (dir_names fs m) = Some (j, x) ->
  entry_type fs m (1 + Z.of_nat j) = REG_FILE ->
  let inode := entry_inode fs m (1 + Z.of_nat j) in
  file_ok fs m inode -> printable (file_bytes fs m inode) -> (file_size fs m inode + 1023) / 1024 < Z.of_nat fuel ->
  exists eip esp s1 s2, SYS_CALL_HANDLER SYS_EXECUTE command ecx edx s = Enter eip esp USER_CS USER_DS s1 /\
    cat_main fuel d s1 = Some (0, s2) /\ shown s2 ≡ term_print (file_bytes fs m inode) (shown s).
Proof.
  intros fs m l XL NP Htx Hta Hn Hpres Himg Hscr UL HT Hos Hbuf Hfuel Hsp Hlen HL Hp Hfind Hty inode Hok Hpr Hturns. subst fs m l.
  destruct (execute_enters exec_locals command s i XL NP Htx Hta Hn Hpres) as (s1 & E & _); [etrans; [exact Himg|by vm_compute]|].
  destruct (started_quiet _ _ _ _ _ _ _ _ XL E) as [Ef _].
  pose proof (started_image _ _ _ _ _ _ _ _ XL (proj1 Hn) E Himg) as HA. pose proof (xl_image _ _ _ XL) as Hi. pose proof (xl_dir _ _ _ XL) as Hd.
  destruct (started_fds _ _ _ _ _ _ _ _ XL (proj1 Hn) E HT) as [Hfd Hso].
  destruct (started_args _ _ _ _ _ _ _ _ XL (proj1 Hn) E p L Hlen Hsp ltac:(lia)) as (A1 & A2 & A3).
  pose proof (execute_entered _ _ _ _ _ _ _ _ XL (proj1 Hn) E) as (_ & Ep & _).
  destruct (entry_agree (k_fs s) (k_mem s) (k_mem s1) HA Hi Hd _ (found_entry (k_fs s) (k_mem s) _ j x Hfind)) as [Et Ei].
  destruct (cat_main_spec d s1 p L j x fuel) as (s2 & E2 & Sh2 & _); rewrite ?Ef, ?Ei; fold inode.
  - by rewrite Ep.
  - exact HT.
  - apply (dir_ok_agree (k_fs s) (k_mem s)); [exact HA|exact Hi|exact Hd].
  - apply Hso, Hos.
  - exact Hbuf.
  - exact Hfuel.
  - exact A1.
  - exact A2.
  - exact HL.
  - exact Hp.
  - rewrite A3, (dir_names_agree (k_fs s) (k_mem s) (k_mem s1) HA Hi Hd). exact Hfind.
  - by rewrite Et.
  - apply (file_ok_agree (k_fs s) (k_mem s)); [exact HA|exact Hi|exact Hok].
  - rewrite (file_bytes_agree (k_fs s) (k_mem s) (k_mem s1) HA Hi) by exact Hok. exact Hpr.
  - by rewrite Hfd.
  - rewrite (file_size_agree (k_fs s) (k_mem s) (k_mem s1) HA Hi) by apply Hok. exact Hturns.
  - exists (file_word (k_fs s) (k_mem s) (entry_inode (k_fs s) (k_mem s) (1 + Z.of_nat i)) 24), (Z.lor USER_PROG (FOUR_MB - 4)), s1, s2.
    split; [|split; [exact E2|]].
    + change (SYS_CALL_HANDLER SYS_EXECUTE command ecx edx s) with (linkage_execute command s). unfold linkage_execute. by rewrite E.
    + rewrite Ef, Ei in Sh2. fold inode in Sh2. rewrite (file_bytes_agree (k_fs s) (k_mem s) (k_mem s1) HA Hi) in Sh2 by exact Hok.
      rewrite Sh2. apply term_print_proper. by apply (started_shown _ _ _ _ _ _ _ _ XL (proj1 Hn) E Hscr).
Qed.

(** ** A concrete command

    An image with the program "cat" of 40 bytes and the file "frame" with the text "Hello",
    and the kernel in front of the call of execute with "cat frame". *)
Definition run_fs : filesys := mkFilesys 0x500000 2 2 2 0.

Definition run_mem : mem :=
  let m := Mem ∅ ∅ 0 in
  let m := store32 (store_list m 0x500040 [99; 97; 116]) 0x500060 REG_FILE in
  let m := store32 (store_list m 0x500080 name_frame) 0x5000A0 REG_FILE in
  let m := store32 m 0x5000A4 1 in
  let m := store32 (store32 (store32 m 0x501000 40) 0x502000 5) 0x502004 1 in
  let m := store_list m 0x503000 [0x7F; 69; 76; 70] in
  let m := store_list m 0x503018 [0x94; 0x80; 4; 8] in
  let m := store_list m 0x504000 [72; 101; 108; 108; 111] in
  let m := store_list m 0x3500 elf_text in
  let m := store_list m 0x2000 ([99; 97; 116; 32] ++ name_frame) in
  store32 m 0x10080 0x97.

Definition run_state : kst :=
  mkKst run_mem (mkConsole 0 3) (mkPic 0 0) 0 (mkKeyboard 0 0 0 0 0 0 0) run_fs 0x4000 0
        (mkCpu true 0x7FFFFC 0 0x10000 0) [].

#[local] Existing Instance test_layout.
#[local] Instance run_ports : Ports := fun _ _ => 0.
#[local] Instance run_traps : Traps :=
  {| arrivals := fun _ => mkSched [] []; open_local := 0x3600; exec_locals := prog_locals; args_fuel := 1025 |}.

Lemma run_exec_layout : exec_layout prog_locals 0x2000 run_state.
Proof.
  split.
  - split; [vm_compute; congruence|]. split; [vm_compute; intuition congruence|].
    intros i Hi. cbn in Hi. assert (i = 1 \/ i = 2) as [->| ->] by lia; vm_compute; reflexivity.
  - sep_solve.
  - sep_solve.
  - unfold exec_objects. repeat (constructor; [vm_compute; split; congruence|]). constructor.
  - vm_compute. reflexivity.
Qed.

Lemma run_file_ok inode size :
  inode = 0 /\ size = 40 \/ inode = 1 /\ size = 5 -> file_size run_fs run_mem inode = size /\ file_ok run_fs run_mem inode.
Proof.
  intros Hi. assert (Es : file_size run_fs run_mem inode = size) by (destruct Hi as [[-> ->]|[-> ->]]; vm_compute; reflexivity).
  split; [exact Es|]. split; [vm_compute; intuition congruence|]. split; [cbn; lia|]. rewrite Es.
  split; [unfold FOUR_KB; lia|]. intros o Ho. replace (o / FOUR_KB) with 0 by (unfold FOUR_KB; zdm).
  destruct Hi as [[-> _]|[-> _]]; vm_compute; reflexivity.
Qed.

Lemma run_inodes : entry_inode run_fs run_mem (1 + Z.of_nat 0) = 0 /\ entry_inode run_fs run_mem (1 + Z.of_nat 1) = 1.
Proof. split; vm_compute; reflexivity. Qed.

Lemma run_names : names_program run_fs run_mem 0x2000 0.
Proof.
  destruct run_inodes as [Ei _]. destruct (run_file_ok 0 40 ltac:(lia)) as [Es Hok]. split; rewrite ?Ei, ?Es.
  - vm_compute. lia.
  - exists [99; 97; 116]. vm_compute. reflexivity.
  - vm_compute. reflexivity.
  - exact Hok.
  - vm_compute. split; congruence.
  - unfold file_bytes. rewrite Es. vm_compute. reflexivity.
Qed.

Lemma run_user_layout : user_layout run_fs (pcb_address 0) open_local.
Proof.
  split; [split; sep_solve|cbn; lia|test_sep|test_sep|cbn; lia|test_sep|test_sep| |].
  - unfold kernel_objects. repeat (constructor; [vm_compute; congruence|]). constructor.
  - unfold kernel_objects. repeat (constructor; [test_sep|]). constructor.
Qed.

Lemma run_screen : Forall (rdisj screen_region) (exec_objects prog_locals run_state).
Proof. unfold exec_objects. repeat (constructor; [sep_solve|]). constructor. Qed.

Lemma run_space : first_space run_mem 0x2000 3.
Proof.
  split; [lia|]. split; [vm_compute; reflexivity|]. intros j Hj.
  assert (j = 0 \/ j = 1 \/ j = 2) as [->|[->| ->]] by lia; vm_compute; congruence.
Qed.

(** It prints "Hello". *)
Lemma run_cat_witness :
  exists eip esp s1 s2, SYS_CALL_HANDLER SYS_EXECUTE 0x2000 0 0 run_state = Enter eip esp USER_CS USER_DS s1 /\
    cat_main 2 (mkCat 0x8050000 0 0 0) s1 = Some (0, s2) /\ shown s2 ≡ term_print [72; 101; 108; 108; 111] (shown run_state).
Proof.
  destruct run_inodes as [_ Ei]. destruct (run_file_ok 1 5 ltac:(lia)) as [Es Hok].
  assert (Eb : file_bytes run_fs run_mem 1 = [72; 101; 108; 108; 111]) by (unfold file_bytes; rewrite Es; vm_compute; reflexivity).
  pose proof (run_cat (mkCat 0x8050000 0 0 0) 0x2000 0 0 run_state 0%nat 3 5 1%nat name_frame 2) as R. cbv zeta in R.
  change (k_fs run_state) with run_fs in R. change (k_mem run_state) with run_mem in R. change (process_number run_state) with 0 in R.
  rewrite Ei, Eb in R. apply R; clear R.
  - exact run_exec_layout.
  - exact run_names.
  - vm_compute. reflexivity.
  - exact prog_text_apart.
  - lia.
  - vm_compute. reflexivity.
  - vm_compute. congruence.
  - exact run_screen.
  - exact run_user_layout.
  - exact test_tables_ok.
  - unfold on_screen, NUM_ROWS, NUM_COLS. cbn. lia.
  - unfold PROG_LO. cbn. lia.
  - cbn. lia.
  - exact run_space.
  - vm_compute. reflexivity.
  - lia.
  - lia.
  - vm_compute. reflexivity.
  - vm_compute. reflexivity.
  - exact Hok.
  - repeat constructor; discriminate.
  - rewrite Es. reflexivity.
Defined.
