(* ===== verification/Syserr.v ===== *)
(** * The error test program, ece391syserr.c

    Eight tests that misuse the system calls and print a line each, and the menu that
    runs one or all of them.  The program is modelled as the others are, over the
    calls of Trap.v; its string literals are an enumeration with their contents
    ([literal]), placed by the linker.  On this kernel every test passes
    ([syserr_passes]). *)

From S2P Require Import Prelude Mem CString State Console I8259 Pcb Rtc Filesys FilesysRead FilesysDir Keyboard Terminal Paging Syscalls Process Trap Support FileCalls UserCalls Programs Output.

(** ** The program *)

Import String.StringSyntax.
#[local] Open Scope string_scope.
#[local] Open Scope Z_scope.

Definition line (s : String.string) : list Z := codes s ++ [10].

Inductive literal_name :=
| T_read_fail | T_write_fail | T_close_fail
| T_neg_fd (pass : bool) | T_big_fd (pass : bool) | T_open_lots (pass : bool) | T_open (pass : bool)
| T_unopened (pass : bool) | T_vidmap (pass : bool) | T_stdin_out (pass : bool) | T_syscall_num (pass : bool)
| T_overall (pass : bool)
| T_dot | T_helloo | T_shel | T_empty
| T_helloo_fail | T_shel_fail | T_empty_fail
| T_close_unopened | T_read_unopened | T_write_unopened
| T_null_fail | T_kernel_fail | T_stdin_fail | T_stdout_fail
| T_sys0_fail | T_big_num_fail | T_neg_num_fail
| T_choose | T_no_number | T_invalid.

Definition verdict_text (name : String.string) (pass : bool) : list Z :=
  line (String.append name (if pass then ": PASS" else ": FAIL")).

Definition literal (t : literal_name) : list Z :=
  match t with
  | T_read_fail => line "read fail" | T_write_fail => line "write fail" | T_close_fail => line "close fail"
  | T_neg_fd b => verdict_text "err_neg_fd" b | T_big_fd b => verdict_text "err_big_fd" b
  | T_open_lots b => verdict_text "err_open_lots" b | T_open b => verdict_text "err_open" b
  | T_unopened b => verdict_text "err_unopened" b | T_vidmap b => verdict_text "err_vidmap" b
  | T_stdin_out b => verdict_text "err_stdin_out" b | T_syscall_num b => verdict_text "err_syscall_num" b
  | T_overall b => 10 :: verdict_text "Overall Tests" b
  | T_dot => codes "." | T_helloo => codes "helloo" | T_shel => codes "shel" | T_empty => []
  | T_helloo_fail => line "'helloo' fail" | T_shel_fail => line "'shel' fail"
  | T_empty_fail => line "empty string fail"
  | T_close_unopened => line "close unopened or invalid fd fail"
  | T_read_unopened => line "read from unopened fd fail"
  | T_write_unopened => line "write to unopened fd fail"
  | T_null_fail => line "Null pointer fail" | T_kernel_fail => line "Kernel pointer fail fail"
  | T_stdin_fail => line "write to stdin fail" | T_stdout_fail => line "read from stdout fail"
  | T_sys0_fail => line "syscall 0 fail" | T_big_num_fail => line "big num syscall fail"
  | T_neg_num_fail => line "neg num syscall fail"
  | T_choose => codes "Choose from tests 1-8. 0 to run all: "
  | T_no_number => line "Can't read test #"
  | T_invalid => codes "Invalid test number. Choose from tests 1-8 or 0"
  end.

Definition NEG_FD : Z := -1073741823.
Definition BIG_FD : Z := 1073741823.
Definition BIG_NUM : Z := 1073741823.
Definition NEG_NUM : Z := -1073741823.

Record syserr_data := mkSyserr {
  se_text : literal_name -> Z;   (* the address of a literal *)
  se_buf : Z;                    (* uint8_t buf[32] of the tests, buf[128] of main *)
  se_ebx : Z; se_ecx : Z; se_edx : Z   (* the registers call_sys leaves as they are *)
}.

Section Program.
Context `{Ports} `{Layout} `{Traps} (d : syserr_data).

Definition put (t : literal_name) (s : kst) : option kst := ece391_fdputs 1 (se_text d t) s.

(** [int $0x80] with only EAX set. *)
Definition call_sys (num : Z) (s : kst) : option (Z * kst) := do_call num (se_ebx d) (se_ecx d) (se_edx d) s.

(** [if (-1 != result) { fail = 2; ece391_fdputs (1, message); }] *)
Definition refused (result : Z) (message : literal_name) (fail : Z) (s : kst) : option (Z * kst) :=
  if negb (result =? -1) then (s ← put message s; Some (2, s)) else Some (fail, s).

(** [if (fail) ... FAIL else ... PASS; return fail;] *)
Definition verdict (t : bool -> literal_name) (fail : Z) (s : kst) : option (Z * kst) :=
  if negb (fail =? 0) then (s ← put (t false) s; Some (fail, s)) else (s ← put (t true) s; Some (fail, s)).

(** The body shared by the first two tests, which differ in the descriptor. *)
Definition bad_fd (fd : Z) (t : bool -> literal_name) (s : kst) : option (Z * kst) :=
  '(r, s) ← ece391_read fd (se_buf d) 31 s;
  '(fail, s) ← refused r T_read_fail 0 s;
  '(r, s) ← ece391_write fd (se_buf d) 31 s;
  '(fail, s) ← refused r T_write_fail fail s;
  '(r, s) ← ece391_close fd s;
  '(fail, s) ← refused r T_close_fail fail s;
  verdict t fail s.

Definition err_neg_fd : kst -> option (Z * kst) := bad_fd NEG_FD T_neg_fd.
Definition err_big_fd : kst -> option (Z * kst) := bad_fd BIG_FD T_big_fd.

(** [n] opens of the directory; the number that failed. *)
Fixpoint open_lots (n : nat) (cnt : Z) (s : kst) : option (Z * kst) :=
  match n with
  | O => Some (cnt, s)
  | S n' =>
      '(r, s) ← ece391_open (se_text d T_dot) s;
      open_lots n' (if r =? -1 then cnt + 1 else cnt) s
  end.

Fixpoint close_fds (n : nat) (i : Z) (s : kst) : option kst :=
  match n with
  | O => Some s
  | S n' => '(_, s) ← ece391_close i s; close_fds n' (i + 1) s
  end.

Definition err_open_lots (s : kst) : option (Z * kst) :=
  '(cnt, s) ← open_lots 7 0 s;
  s ← close_fds 6 2 s;
  if cnt =? 1 then (s ← put (T_open_lots true) s; Some (0, s))
  else (s ← put (T_open_lots false) s; Some (2, s)).

Definition err_open (s : kst) : option (Z * kst) :=
  '(r, s) ← ece391_open (se_text d T_helloo) s;
  '(fail, s) ← refused r T_helloo_fail 0 s;
  '(r, s) ← ece391_open (se_text d T_shel) s;
  '(fail, s) ← refused r T_shel_fail fail s;
  '(r, s) ← ece391_open (se_text d T_empty) s;
  '(fail, s) ← refused r T_empty_fail fail s;
  verdict T_open fail s.

(** [for (i = i; ...; i++) if (-1 != call(i)) ...], [n] turns *)
Fixpoint each_refused (n : nat) (call : Z -> kst -> option (Z * kst)) (message : literal_name) (i fail : Z) (s : kst) :
    option (Z * kst) :=
  match n with
  | O => Some (fail, s)
  | S n' =>
      '(r, s) ← call i s;
      '(fail, s) ← refused r message fail s;
      each_refused n' call message (i + 1) fail s
  end.

Definition err_unopened (s : kst) : option (Z * kst) :=
  '(fail, s) ← each_refused 8 ece391_close T_close_unopened 0 0 s;
  '(fail, s) ← each_refused 6 (fun i => ece391_read i (se_buf d) 31) T_read_unopened 2 fail s;
  '(fail, s) ← each_refused 6 (fun i => ece391_write i (se_buf d) 31) T_write_unopened 2 fail s;
  verdict T_unopened fail s.

Definition err_vidmap (s : kst) : option (Z * kst) :=
  '(r, s) ← ece391_vidmap 0 s;
  '(fail, s) ← refused r T_null_fail 0 s;
  '(r, s) ← ece391_vidmap 0x400000 s;
  '(fail, s) ← refused r T_kernel_fail fail s;
  verdict T_vidmap fail s.

Definition err_stdin_out (s : kst) : option (Z * kst) :=
  '(r, s) ← ece391_write 0 (se_buf d) 31 s;
  '(fail, s) ← refused r T_stdin_fail 0 s;
  '(r, s) ← ece391_read 1 (se_buf d) 31 s;
  '(fail, s) ← refused r T_stdout_fail fail s;
  verdict T_stdin_out fail s.

Definition err_syscall_num (s : kst) : option (Z * kst) :=
  '(r, s) ← call_sys BIG_NUM s;
  '(fail, s) ← refused r T_sys0_fail 0 s;
  '(r, s) ← call_sys NEG_NUM s;
  '(fail, s) ← refused r T_big_num_fail fail s;
  '(r, s) ← call_sys 0 s;
  '(fail, s) ← refused r T_neg_num_fail fail s;
  verdict T_syscall_num fail s.

(** [fail += test();] over the tests *)
Fixpoint run_tests (tests : list (kst -> option (Z * kst))) (fail : Z) (s : kst) : option (Z * kst) :=
  match tests with
  | [] => Some (fail, s)
  | test :: rest => '(r, s) ← test s; run_tests rest (fail + r) s
  end.

Definition tests : list (kst -> option (Z * kst)) :=
  [err_neg_fd; err_big_fd; err_open_lots; err_open; err_unopened; err_vidmap; err_stdin_out; err_syscall_num].

(** [case 0] of the switch. *)
Definition run_all (s : kst) : option (Z * kst) := '(fail, s) ← run_tests tests 0 s; verdict T_overall fail s.

Definition syserr_main (s : kst) : option (Z * kst) :=
  s ← put T_choose s;
  '(cnt, s) ← ece391_read 0 (se_buf d) 127 s;
  if cnt =? -1 then (s ← put T_no_number s; Some (2, s)) else
  let select := load8 (k_mem s) (se_buf d) - 48 in
  if select =? 0 then run_all s
  else if (1 <=? select) && (select <=? 8) then
    match tests !! Z.to_nat (select - 1) with Some test => test s | None => None end
  else (s ← put T_invalid s; Some (0, s)).
End Program.

(** ** The state between two calls *)

Lemma literal_chars t : Forall (fun c => 0 < c < 256 /\ c <> 9) (literal t).
Proof.
  destruct t as [| | |[]|[]|[]|[]|[]|[]|[]|[]|[]| | | | | | | | | | | | | | | | | | | |];
    vm_compute; repeat (constructor; [repeat split; congruence|]); constructor.
Qed.

Lemma text_in_strlen m a t : text_in m a (literal t) -> strlen m a = Z.of_nat (length (literal t)).
Proof.
  intros Ht. apply text_strlen; [exact Ht|]. eapply Forall_impl; [apply literal_chars|]. cbn. lia.
Qed.

Lemma text_in_cname m a t :
  text_in m a (literal t) -> (length (literal t) <= 32)%nat -> cname m a 32 = literal t.
Proof.
  intros Ht Hl. rewrite cname_strlen, (text_in_strlen m a t Ht), Nat2Z.id, Nat.min_r by exact Hl. apply Ht.
Qed.

Lemma literal_clean t : clean (literal t).
Proof.
  split; [apply literal_chars|].
  assert (length (literal t) < 100)%nat by (destruct t as [| | |[]|[]|[]|[]|[]|[]|[]|[]|[]| | | | | | | | | | | | | | | | | | | |];
    vm_compute; repeat constructor). lia.
Qed.

Section Check.
Context `{Ports} `{Layout} `{Traps} (d : syserr_data) (fs : filesys) (pcb : Z).
Context (names : list (list Z)) (types : Z -> Z).
Context (UL : user_layout fs pcb open_local) (HT : tables_ok).

(** A process whose descriptors from 2 on are the directory where [used] says so and
    free elsewhere; [names] and [types] describe the directory. *)
Record ready (used : Z -> bool) (s : kst) : Prop := {
  rd_fs : k_fs s = fs;
  rd_pcb : cur_pcb s = pcb;
  rd_out : stdout_ok s;
  rd_in : fd_open 0 s = true /\ fd_ops 0 s = Some TermOps;
  rd_fds : forall i, 2 <= i < 8 ->
    if used i then fd_get (k_mem s) pcb i FD_FLAGS = 3 /\ fd_ops i s = Some DirOps else fd_open i s = false;
  rd_dir : dir_ok fs (k_mem s);
  rd_names : dir_names fs (k_mem s) = names;
  rd_types : forall i, 1 <= i <= n_dir_entries fs -> entry_type fs (k_mem s) i = types i;
  rd_text : forall t, text_in (k_mem s) (se_text d t) (literal t)
}.

Definition all_free : Z -> bool := fun _ => false.

Lemma ready_ext used used' s :
  (forall i, 2 <= i < 8 -> used' i = used i) -> ready used s -> ready used' s.
Proof using Type.
  intros E [R1 R2 R3 R4 R5 R6 R7 R8 R9]. split; try assumption.
  intros i Hi. rewrite E by exact Hi. by apply R5.
Qed.

(** A step that writes below the program page, off the image and off all descriptors
    but [fd]. *)
Lemma ready_moved (P : Z -> Prop) fd used used' s s' :
  ready used s -> unchanged P (k_mem s) (k_mem s') -> same_process s s' -> on_screen (k_con s') ->
  (forall a, P a -> a < PROG_LO) -> (forall a, P a -> ~ in_region (image fs) a) ->
  (forall j, 0 <= j < 8 -> j <> fd -> forall a, in_region (fd_region pcb j) a -> ~ P a) -> 2 <= fd ->
  (forall i, 2 <= i < 8 -> i <> fd -> used' i = used i) ->
  (fd < 8 -> if used' fd then fd_get (k_mem s') pcb fd FD_FLAGS = 3 /\ fd_ops fd s' = Some DirOps
             else fd_open fd s' = false) ->
  ready used' s'.
Proof using UL.
  intros [R1 R2 R3 R4 R5 R6 R7 R8 R9] U [P1 P2] Hos Hlow Hi Hf Hfd Hused Hnew.
  assert (G : forall j off, 0 <= j < 8 -> j <> fd -> 0 <= off <= 12 ->
    fd_get (k_mem s') pcb j off = fd_get (k_mem s) pcb j off)
    by (intros j off Hj Hne Ho; eapply fd_get_unchanged; [exact U|lia|lia|apply Hf; assumption]).
  assert (Gu : forall j, 0 <= j < 8 -> j <> fd -> fd_open j s' = fd_open j s /\ fd_ops j s' = fd_ops j s).
  { intros j Hj Hne. unfold fd_open, fd_used, fd_ops. rewrite P1, R2, !G by (unfold FD_FLAGS, FD_OPS; lia). done. }
  assert (Hb : forall a, P a -> ~ in_region (boot_region fs) a)
    by (intros a Ha Hr; apply (Hi a Ha); eapply boot_in_image; [exact UL|exact Hr]).
  pose proof R6 as (_ & Hn & _). split.
  - congruence.
  - congruence.
  - unfold stdout_ok. destruct R3 as (O1 & O2 & _), (Gu 1 ltac:(lia) ltac:(lia)) as [-> ->]. done.
  - destruct (Gu 0 ltac:(lia) ltac:(lia)) as [-> ->]. exact R4.
  - intros i Hi8. destruct (decide (i = fd)) as [->|Hne]; [apply Hnew; lia|].
    rewrite Hused by assumption. specialize (R5 i Hi8). destruct (Gu i ltac:(lia) Hne) as [-> ->].
    rewrite G by (unfold FD_FLAGS; lia). exact R5.
  - eapply dir_ok_unchanged; [exact R6|exact U|exact Hb].
  - rewrite <- R7. eapply names_from_unchanged; [exact R6|exact U|exact Hb|lia|lia].
  - intros i Hr. rewrite <- R8 by exact Hr. unfold entry_type.
    apply (entry_load32_unchanged fs P (k_mem s) (k_mem s') R6 U Hb); [exact Hr|unfold DE_FILETYPE; lia..].
  - intros t. eapply text_in_unchanged; [exact U|exact Hlow|apply R9].
Qed.

(** ** The calls of the tests *)

Lemma put_prints used t s :
  ready used s -> exists s', put d t s = Some s' /\ shown s' ≡ term_print (literal t) (shown s) /\ ready used s'.
Proof using UL.
  intros R. destruct (user_bounds fs pcb UL) as ((_ & Hs) & _).
  destruct (put_text (se_text d t) (literal t) s (rd_out _ _ R)) as (s' & E & Sh & U & P & So);
    [by rewrite (rd_pcb _ _ R)|apply R|apply literal_clean|].
  exists s'. split; [exact E|]. split; [exact Sh|].
  eapply (ready_moved screen_bytes 8); [exact R|exact U|exact P|apply So| | | |lia|done|lia].
  - unfold screen_bytes, in_range, VIDEO, NUM_ROWS, NUM_COLS, PROG_LO. lia.
  - apply (screen_off_image fs pcb UL).
  - intros j Hj _ a. by apply (screen_off_fd fs pcb UL).
Qed.

(** Goes on behind a call that returned -1. *)
Ltac refuse_step := cbn [mbind option_bind refused Z.eqb negb Pos.eqb].

(** A test prints its line, leaves the process as it was and reports no failure. *)
Definition passes (test : kst -> option (Z * kst)) (l : list Z) : Prop :=
  forall s, ready all_free s ->
    exists s', test s = Some (0, s') /\ shown s' ≡ term_print l (shown s) /\ ready all_free s'.

Lemma verdict_passes t s :
  ready all_free s -> exists s', verdict d t 0 s = Some (0, s') /\
    shown s' ≡ term_print (literal (t true)) (shown s) /\ ready all_free s'.
Proof using UL.
  intros R. destruct (put_prints all_free (t true) s R) as (s' & E & Hrest). exists s'. split; [|exact Hrest].
  unfold verdict. cbn [Z.eqb negb]. by rewrite E.
Qed.

Lemma call_sys_refused num s : num < 1 \/ 10 < num -> call_sys d num s = Some (-1, s).
Proof using Type. intros Hn. unfold call_sys, do_call. by rewrite bad_number. Qed.

(** A call that is refused leaves the count of failures as it is. *)
Lemma bind_refused call msg fail s (k : Z -> kst -> option (Z * kst)) :
  call = Some (-1, s) ->
  ('(r, s) ← call; '(fail, s) ← refused d r msg fail s; k fail s) = k fail s.
Proof using Type. by intros ->. Qed.

Lemma bad_fd_passes fd t : fd < 0 \/ 7 < fd -> passes (bad_fd d fd t) (literal (t true)).
Proof using UL.
  intros Hfd s R. unfold bad_fd. rewrite ece391_read_eq.
  destruct (descriptor_refused (arrivals s) fd (se_buf d) 31 s) as [-> Ew]; [tauto|].
  refuse_step. rewrite ece391_write_eq, Ew.
  refuse_step. rewrite ece391_close_eq, close_refused by lia.
  refuse_step. by apply verdict_passes.
Qed.

Lemma each_refused_none n call msg s : forall i fail,
  (forall j, i <= j < i + Z.of_nat n -> call j s = Some (-1, s)) ->
  each_refused d n call msg i fail s = Some (fail, s).
Proof using Type.
  induction n as [|n IH]; intros i fail Hc; cbn [each_refused]; [done|].
  rewrite Hc by lia. refuse_step. apply IH. intros j Hj. apply Hc. lia.
Qed.

Lemma unopened_passes : passes (err_unopened d) (literal (T_unopened true)).
Proof using UL.
  intros s R. pose proof (rd_fds _ _ R) as Hf. cbn [all_free] in Hf. unfold err_unopened.
  rewrite each_refused_none; [cbn [mbind option_bind]|].
  2: { intros j Hj. rewrite ece391_close_eq. apply close_refused. destruct (decide (j < 2)); [by left|].
       right; right. apply Hf. lia. }
  rewrite each_refused_none; [cbn [mbind option_bind]|].
  2: { intros j Hj. rewrite ece391_read_eq. apply descriptor_refused. do 4 right. apply Hf. lia. }
  rewrite each_refused_none; [cbn [mbind option_bind]|].
  2: { intros j Hj. rewrite ece391_write_eq. eapply (descriptor_refused (mkSched [] [])). do 4 right. apply Hf. lia. }
  by apply verdict_passes.
Qed.

Lemma vidmap_passes : passes (err_vidmap d) (literal (T_vidmap true)).
Proof using UL.
  intros s R.
  assert (E : forall p, p <= FOUR_MB -> ece391_vidmap p s = Some (-1, s)).
  { intros p Hp. rewrite ece391_vidmap_eq. unfold sys_vidmap_c. replace (p <=? FOUR_MB) with true by lia. by rewrite orb_true_r. }
  assert (Ev : err_vidmap d s = verdict d T_vidmap 0 s).
  { unfold err_vidmap. do 2 (etransitivity; [apply bind_refused, E; unfold FOUR_MB; lia|]). reflexivity. }
  rewrite Ev. by apply verdict_passes.
Qed.

Lemma stdin_out_passes : passes (err_stdin_out d) (literal (T_stdin_out true)).
Proof using UL.
  intros s R. unfold err_stdin_out. destruct (rd_in _ _ R) as [I1 I2]. destruct (rd_out _ _ R) as (O1 & O2 & _).
  assert (Ew : sys_write_c 0 (se_buf d) 31 s = Some (-1, s)).
  { unfold sys_write_c. cbn [Z.ltb Z.compare FD_SIZE orb]. destruct (se_buf d =? 0); [done|]. by rewrite I1, I2. }
  assert (Er : sys_read_c (arrivals s) 1 (se_buf d) 31 s = Some (-1, s)).
  { unfold sys_read_c. cbn [Z.ltb Z.compare FD_SIZE orb Pos.compare Pos.compare_cont].
    destruct (se_buf d =? 0); [done|]. by rewrite O1, O2. }
  rewrite ece391_write_eq, Ew. refuse_step.
  rewrite ece391_read_eq, Er. refuse_step. by apply verdict_passes.
Qed.

Lemma syscall_num_passes : passes (err_syscall_num d) (literal (T_syscall_num true)).
Proof using UL.
  intros s R.
  assert (Ev : err_syscall_num d s = verdict d T_syscall_num 0 s).
  { unfold err_syscall_num. do 3 (etransitivity;
      [apply bind_refused, call_sys_refused; unfold BIG_NUM, NEG_NUM; lia|]). reflexivity. }
  rewrite Ev. by apply verdict_passes.
Qed.

(** ** Opening *)

Lemma lookup_low a : lookup_frame open_local a -> a < PROG_LO /\ ~ screen_bytes a /\ ~ in_region (image fs) a.
Proof using UL.
  destruct UL as [[_ _ F1 F2 _ _ _ _] _ Hi _ _ _ _ HL HS]. unfold kernel_objects in *.
  rewrite !Forall_cons in HL, HS. destruct HL as (L1 & L2 & L3 & _), HS as (S1 & S2 & S3 & _).
  unfold lookup_frame, rdisj, disj, in_region, in_range, screen_region, screen_bytes, in_range, NUM_ROWS, NUM_COLS in *.
  cbn [fst snd] in *. lia.
Qed.

Lemma ready_open_layout used t s :
  ready used s -> open_layout (k_fs s) (cur_pcb s) open_local (se_text d t) (k_mem s).
Proof using UL.
  intros R. apply user_open_layout; [by rewrite (rd_fs _ _ R), (rd_pcb _ _ R)|apply (rd_text _ _ R t)].
Qed.

(** An open that finds no entry or no descriptor. *)
Lemma open_refused used t s :
  ready used s -> (length (literal t) <= 32)%nat ->
  literal t ∉ names \/ (forall i, 2 <= i < 8 -> used i = true) ->
  exists s', ece391_open (se_text d t) s = Some (-1, s') /\ shown s' ≡ shown s /\ ready used s'.
Proof using UL HT.
  intros R Hl Hno. pose proof (rd_text _ _ R t) as Ht. pose proof Ht as (Ha & _).
  pose proof (text_in_strlen _ _ _ Ht) as El. pose proof (ready_open_layout used t s R) as HL.
  pose proof (sys_open_spec s open_local (se_text d t) HL HT) as Ho. unfold sys_open_outcome in Ho.
  rewrite (text_in_cname _ _ _ Ht Hl), (rd_fs _ _ R), (rd_names _ _ R) in Ho.
  assert (Hm : exists m', sys_open_c open_local (se_text d t) s = (-1, set_k_mem m' s) /\
    unchanged (lookup_frame open_local) (k_mem s) m').
  { specialize (Ho (rd_dir _ _ R) ltac:(unfold PROG_LO in *; lia) ltac:(lia)).
    destruct (list_find _ _) as [[k x]|] eqn:Ef; [|exact Ho].
    destruct Hno as [Hno|Hfull].
    - exfalso. apply list_find_Some in Ef as (Hk & <- & _). apply Hno. by eapply list_elem_of_lookup_2.
    - rewrite decide_False in Ho; [exact Ho|]. intros Hlt.
      destruct (find_fd_spec (k_mem s) (cur_pcb s)) as (Hr & Hfree & _). specialize (Hfree Hlt).
      pose proof (rd_fds _ _ R _ (conj (proj1 Hr) Hlt)) as Hu. rewrite Hfull in Hu by lia.
      destruct Hu as [Hu _]. unfold fd_used in Hfree. rewrite (rd_pcb _ _ R) in Hfree, Hu. by rewrite Hu in Hfree. }
  destruct Hm as (m' & E & U). exists (set_k_mem m' s). split; [by rewrite ece391_open_eq, E|]. split.
  - eapply shown_off_screen; [reflexivity|exact U|]. intros a Hf. by apply lookup_low.
  - eapply (ready_moved _ 8); [exact R|exact U|by split|apply (rd_out _ _ R)| | | |lia|done|lia].
    + intros a Hf. by apply lookup_low.
    + intros a Hf. by apply lookup_low.
    + intros j Hj _ a Hr. rewrite <- (rd_pcb _ _ R) in Hr. by eapply lookup_off_fd.
Qed.

Lemma open_passes :
  literal T_helloo ∉ names -> literal T_shel ∉ names -> [] ∉ names -> passes (err_open d) (literal (T_open true)).
Proof using UL HT.
  intros N1 N2 N3 s R. unfold err_open.
  destruct (open_refused all_free T_helloo s R) as (s1 & -> & Sh1 & R1); [vm_compute; lia|by left|]. refuse_step.
  destruct (open_refused all_free T_shel s1 R1) as (s2 & -> & Sh2 & R2); [vm_compute; lia|by left|]. refuse_step.
  destruct (open_refused all_free T_empty s2 R2) as (s3 & -> & Sh3 & R3); [vm_compute; lia|by left|]. refuse_step.
  destruct (verdict_passes T_open s3 R3) as (s4 & E & Sh4 & R4). exists s4. split; [exact E|].
  split; [by rewrite Sh4, Sh3, Sh2, Sh1|exact R4].
Qed.

(** The descriptors below, or from, [k] on are in use. *)
Definition below (k : Z) : Z -> bool := fun i => i <? k.
Definition from (k : Z) : Z -> bool := fun i => k <=? i.

Lemma find_fd_below k s : 2 <= k <= 8 -> ready (below k) s -> find_fd (k_mem s) (cur_pcb s) = k.
Proof using Type.
  intros Hk R. rewrite (rd_pcb _ _ R). destruct (find_fd_spec (k_mem s) pcb) as (Hr & Hfree & Hused).
  destruct (decide (find_fd (k_mem s) pcb < k)) as [Hlt|Hge].
  - exfalso. specialize (Hfree ltac:(lia)). pose proof (rd_fds _ _ R (find_fd (k_mem s) pcb) ltac:(lia)) as Hu.
    unfold below in Hu. replace (_ <? k) with true in Hu by lia. destruct Hu as [Hu _].
    unfold fd_used in Hfree. by rewrite Hu in Hfree.
  - destruct (decide (find_fd (k_mem s) pcb = k)) as [|Hne]; [done|]. exfalso.
    specialize (Hused k ltac:(lia)). pose proof (rd_fds _ _ R k ltac:(lia)) as Hu. unfold below in Hu.
    replace (k <? k) with false in Hu by lia. unfold fd_open in Hu. rewrite (rd_pcb _ _ R) in Hu. congruence.
Qed.

Lemma fd_region_low fd a :
  0 <= fd < 8 -> in_region (fd_region pcb fd) a -> a < PROG_LO /\ ~ in_region (image fs) a.
Proof using UL.
  intros Hfd Ha. destruct (user_bounds fs pcb UL) as ((Hp & _) & _ & Hd).
  unfold rdisj, disj, in_region, in_range, fd_region, pcb_region, PCB_SIZE in *. cbn [fst snd] in *. lia.
Qed.

Lemma fd_regions_apart j fd a :
  j <> fd -> in_region (fd_region pcb j) a -> ~ in_region (fd_region pcb fd) a.
Proof using Type. unfold in_region, in_range, fd_region. cbn [fst snd]. lia. Qed.

Section Dot.
Context (ix : nat) (x : list Z).
Context (Hdot : list_find (eq (literal T_dot)) names = Some (ix, x)) (Hty : types (1 + Z.of_nat ix) = DIR_FILE).

Lemma open_dot k s :
  2 <= k < 8 -> ready (below k) s ->
  exists s', ece391_open (se_text d T_dot) s = Some (k, s') /\ shown s' ≡ shown s /\ ready (below (k + 1)) s'.
Proof using UL HT Hdot Hty.
  intros Hk R. pose proof (rd_text _ _ R T_dot) as Ht. pose proof Ht as (Ha & _).
  pose proof (text_in_strlen _ _ _ Ht) as El. pose proof (find_fd_below k s ltac:(lia) R) as Efd.
  assert (Ul : user_layout (k_fs s) (cur_pcb s) open_local) by (by rewrite (rd_fs _ _ R), (rd_pcb _ _ R)).
  assert (Hd : dir_ok (k_fs s) (k_mem s)) by (rewrite (rd_fs _ _ R); apply (rd_dir _ _ R)).
  destruct (user_open s (se_text d T_dot) Ul HT Hd (rd_out _ _ R) Ha) with (i := ix) (x := x)
    as (s' & E & _ & Hop & So & Sh); [rewrite El; vm_compute; congruence| |lia|].
  { rewrite (text_in_cname _ _ _ Ht), (rd_fs _ _ R), (rd_names _ _ R); [exact Hdot|vm_compute; lia]. }
  rewrite Efd in E, Hop. exists s'. split; [exact E|]. split; [exact Sh|].
  destruct Hop as (P1 & P2 & U & Hops & Hfl).
  assert (Hent : 1 <= 1 + Z.of_nat ix <= n_dir_entries fs)
    by (apply (found_entry fs (k_mem s) (literal T_dot) ix x); by rewrite (rd_names _ _ R)).
  rewrite (rd_fs _ _ R), (rd_types _ _ R) in Hops, Hfl by exact Hent. rewrite Hty in Hops, Hfl.
  rewrite decide_True in Hfl by (unfold DIR_FILE, REG_FILE; lia). destruct Hfl as (Hfl & _).
  eapply (ready_moved _ k); [exact R|exact U|by split|apply So| | | |lia| |].
  - intros a [Hf|Hf]; [by apply lookup_low|]. rewrite (rd_pcb _ _ R) in Hf. apply (fd_region_low k a ltac:(lia) Hf).
  - intros a [Hf|Hf]; [by apply lookup_low|]. rewrite (rd_pcb _ _ R) in Hf. apply (fd_region_low k a ltac:(lia) Hf).
  - intros j Hj Hne a Hr [Hf|Hf]; rewrite <- (rd_pcb _ _ R) in Hr.
    + eapply lookup_off_fd; [apply (ready_open_layout _ T_dot _ R)|exact Hj|exact Hr|exact Hf].
    + rewrite (rd_pcb _ _ R) in Hr, Hf. by apply (fd_regions_apart j k a Hne Hr).
  - intros i Hi Hne. unfold below. destruct (Z.ltb_spec i k), (Z.ltb_spec i (k + 1)); lia.
  - intros _. unfold below. replace (k <? k + 1) with true by lia. rewrite (rd_pcb _ _ R) in Hfl. by split.
Qed.

Lemma open_lots_fill n : forall k cnt s,
  2 <= k -> k + Z.of_nat n = 8 -> ready (below k) s ->
  exists s', open_lots d (S n) cnt s = Some (cnt + 1, s') /\ shown s' ≡ shown s /\ ready (below 8) s'.
Proof using UL HT Hdot Hty.
  induction n as [|n IH]; intros k cnt s Hk Hn R; cbn [open_lots].
  - destruct (open_refused (below k) T_dot s R) as (s' & -> & Sh & R'); [vm_compute; lia|right|].
    { intros i Hi. unfold below. lia. }
    cbn [mbind option_bind Z.eqb Pos.eqb]. exists s'. split; [done|]. split; [exact Sh|].
    now replace 8 with k by lia.
  - destruct (open_dot k s ltac:(lia) R) as (s1 & -> & Sh1 & R1). cbn [mbind option_bind].
    replace (k =? -1) with false by lia. destruct (IH (k + 1) cnt s1 ltac:(lia) ltac:(lia) R1) as (s' & E & Sh & R').
    exists s'. split; [exact E|]. split; [by rewrite Sh, Sh1|exact R'].
Qed.
End Dot.

Lemma close_dir k s :
  2 <= k < 8 -> ready (from k) s ->
  exists s', ece391_close k s = Some (0, s') /\ shown s' ≡ shown s /\ ready (from (k + 1)) s'.
Proof using UL.
  intros Hk R. pose proof (rd_fds _ _ R k Hk) as Hu. unfold from in Hu. replace (k <=? k) with true in Hu by lia.
  destruct Hu as [Hf Hops]. rewrite ece391_close_eq. unfold sys_close_c, fd_open, fd_used.
  replace ((k <? 2) || (FD_SIZE <? k)) with false by (unfold FD_SIZE; lia).
  rewrite (rd_pcb _ _ R), Hf. change (3 mod 2 =? 0) with false. rewrite Hops. cbn [negb close_ptr].
  rewrite (rd_pcb _ _ R). unfold on_mem, dir_close. rewrite Hf.
  replace ((k <=? 1) || (8 <=? k)) with false by lia.
  change (Z.shiftr (Z.land 3 TYPE_MASK) TYPE_SHIFT =? DIR_FILE) with true. change (3 mod 2 =? 0) with false. cbn [negb].
  pose proof (unchanged_fd_set (k_mem s) pcb k FD_FLAGS 0 ltac:(unfold FD_FLAGS; lia) ltac:(unfold FD_FLAGS; lia)) as U.
  eexists. split; [reflexivity|]. split.
  - eapply shown_off_screen; [reflexivity|exact U|]. intros a Ha. apply (screen_off_fd fs pcb UL k); [lia|exact Ha].
  - eapply (ready_moved _ k); [exact R|exact U|by split|apply (rd_out _ _ R)| | | |lia| |].
    + intros a Ha. by apply (fd_region_low k a ltac:(lia)).
    + intros a Ha. by apply (fd_region_low k a ltac:(lia)).
    + intros j _ Hne a Ha. by apply (fd_regions_apart j).
    + intros i Hi Hne. unfold from. destruct (Z.leb_spec k i), (Z.leb_spec (k + 1) i); lia.
    + intros _. unfold from. replace (k + 1 <=? k) with false by lia. unfold fd_open, fd_used.
      cbn [k_mem cur_pcb set_k_mem]. rewrite (rd_pcb _ _ R), fd_get_set_eq. reflexivity.
Qed.

Lemma close_fds_free n : forall k s,
  2 <= k -> k + Z.of_nat n = 8 -> ready (from k) s ->
  exists s', close_fds n k s = Some s' /\ shown s' ≡ shown s /\ ready all_free s'.
Proof using UL.
  induction n as [|n IH]; intros k s Hk Hn R; cbn [close_fds].
  - exists s. split; [done|]. split; [done|]. eapply ready_ext; [|exact R].
    intros i Hi. unfold from, all_free. lia.
  - destruct (close_dir k s ltac:(lia) R) as (s1 & -> & Sh1 & R1). cbn [mbind option_bind].
    destruct (IH (k + 1) s1 ltac:(lia) ltac:(lia) R1) as (s' & E & Sh & R').
    exists s'. split; [exact E|]. split; [by rewrite Sh, Sh1|exact R'].
Qed.

Lemma open_lots_passes ix x :
  list_find (eq (literal T_dot)) names = Some (ix, x) -> types (1 + Z.of_nat ix) = DIR_FILE ->
  passes (err_open_lots d) (literal (T_open_lots true)).
Proof using UL HT.
  intros Hdot Hty s R. unfold err_open_lots.
  destruct (open_lots_fill ix x Hdot Hty 6 2 0 s) as (s1 & -> & Sh1 & R1); [lia|lia| |].
  { eapply ready_ext; [|exact R]. intros i Hi. unfold below, all_free. lia. }
  cbn [mbind option_bind]. destruct (close_fds_free 6 2 s1) as (s2 & -> & Sh2 & R2); [lia|lia| |].
  { eapply ready_ext; [|exact R1]. intros i Hi. unfold below, from. lia. }
  cbn [mbind option_bind]. change (0 + 1 =? 1) with true. cbv iota.
  destruct (put_prints all_free (T_open_lots true) s2 R2) as (s3 & -> & Sh3 & R3). cbn [mbind option_bind].
  exists s3. split; [done|]. split; [by rewrite Sh3, Sh2, Sh1|exact R3].
Qed.

Lemma run_tests_pass ts ls :
  Forall2 passes ts ls -> forall s, ready all_free s ->
  exists s', run_tests ts 0 s = Some (0, s') /\ shown s' ≡ term_print (concat ls) (shown s) /\ ready all_free s'.
Proof using Type.
  induction 1 as [|t l ts ls Ht _ IH]; intros s R; cbn [run_tests].
  - exists s. by repeat split; try apply R.
  - destruct (Ht s R) as (s1 & -> & Sh1 & R1). cbn [mbind option_bind]. rewrite Z.add_0_l.
    destruct (IH s1 R1) as (s2 & E & Sh2 & R2). exists s2. split; [exact E|]. split; [|exact R2].
    cbn [concat]. by rewrite term_print_app, Sh2, Sh1.
Qed.
End Check.

(** The lines of a run without failures. *)
Definition pass_lines : list Z :=
  concat (literal <$> [T_neg_fd true; T_big_fd true; T_open_lots true; T_open true; T_unopened true;
    T_vidmap true; T_stdin_out true; T_syscall_num true; T_overall true]).

(** ** Theorem *)


(** ** A concrete run

    The directory of FilesysDir.v and a process at 0x1000 with its standard
    descriptors; the literals are 256 bytes apart in the program page. *)

Definition literals : list literal_name :=
  [T_read_fail; T_write_fail; T_close_fail; T_neg_fd true; T_neg_fd false; T_big_fd true; T_big_fd false;
   T_open_lots true; T_open_lots false; T_open true; T_open false; T_unopened true; T_unopened false;
   T_vidmap true; T_vidmap false; T_stdin_out true; T_stdin_out false; T_syscall_num true; T_syscall_num false;
   T_overall true; T_overall false; T_dot; T_helloo; T_shel; T_empty; T_helloo_fail; T_shel_fail; T_empty_fail;
   T_close_unopened; T_read_unopened; T_write_unopened; T_null_fail; T_kernel_fail; T_stdin_fail; T_stdout_fail;
   T_sys0_fail; T_big_num_fail; T_neg_num_fail; T_choose; T_no_number; T_invalid].

#[export] Instance literal_name_eq_dec : EqDecision literal_name.
Proof. solve_decision. Defined.

(** The place of a literal in the list. *)
Definition place (t : literal_name) : nat := default O (fst <$> list_find (eq t) literals).

Definition test_text (t : literal_name) : Z := 0x8050000 + 256 * Z.of_nat (place t).

Lemma place_lookup t : literals !! place t = Some t.
Proof. destruct t as [| | |[]|[]|[]|[]|[]|[]|[]|[]|[]| | | | | | | | | | | | | | | | | | | |]; reflexivity. Qed.

Lemma literal_short t : Z.of_nat (length (literal t)) < 100.
Proof.
  destruct t as [| | |[]|[]|[]|[]|[]|[]|[]|[]|[]| | | | | | | | | | | | | | | | | | | |]; vm_compute; reflexivity.
Qed.

(** Literals stored at their places. *)
Definition with_texts (l : list literal_name) (m : mem) : mem :=
  foldr (fun t m => store_list m (test_text t) (literal t)) m l.

Lemma with_texts_frame l m : unchanged (fun a => 0x8050000 <= a) m (with_texts l m).
Proof.
  induction l as [|t l IH]; [apply unchanged_refl|]. eapply unchanged_trans; [exact IH|].
  eapply unchanged_weaken; [|apply unchanged_store_list]. unfold in_range, test_text. lia.
Qed.

(** What is at a place is only written by its own literal. *)
Lemma texts_apart t t' k :
  t' <> t -> 0 <= k < 100 -> ~ in_range (test_text t') (Z.of_nat (length (literal t'))) (test_text t + k).
Proof.
  intros Hne Hk Hr. pose proof (literal_short t'). unfold in_range, test_text in Hr.
  assert (E : place t' = place t) by lia. apply Hne.
  pose proof (place_lookup t') as H1. rewrite E, place_lookup in H1. congruence.
Qed.

Lemma with_texts_end l m t :
  load8 m (test_text t + Z.of_nat (length (literal t))) = 0 ->
  load8 (with_texts l m) (test_text t + Z.of_nat (length (literal t))) = 0.
Proof.
  intros Hz. induction l as [|t' l IH]; [exact Hz|]. cbn [with_texts foldr].
  erewrite unchanged_load8; [exact IH|apply unchanged_store_list|].
  destruct (decide (t' = t)) as [->|Hne]; [unfold in_range; lia|].
  apply texts_apart; [exact Hne|]. pose proof (literal_short t). lia.
Qed.

Lemma with_texts_in l m t :
  t ∈ l -> load8 m (test_text t + Z.of_nat (length (literal t))) = 0 ->
  text_in (with_texts l m) (test_text t) (literal t).
Proof.
  intros Hin Hz. split; [unfold test_text, PROG_LO; lia|]. split; [|by apply with_texts_end].
  induction l as [|t' l IH]; [by apply not_elem_of_nil in Hin|]. cbn [with_texts foldr].
  destruct (decide (t' = t)) as [->|Hne].
  - apply bytes_store_list. eapply Forall_impl; [apply literal_chars|]. cbn. lia.
  - apply elem_of_cons in Hin as [->|Hin]; [done|]. rewrite <- (IH Hin) at 2.
    eapply unchanged_bytes; [apply unchanged_store_list|]. intros b Hb.
    replace b with (test_text t + (b - test_text t)) by lia. apply texts_apart; [exact Hne|].
    pose proof (literal_short t). unfold in_range in Hb. lia.
Qed.

Definition syserr_base : mem :=
  let m := fd_set test_image 0x1000 0 FD_OPS 0x3430 in
  let m := fd_set m 0x1000 0 FD_FLAGS TERMINAL_FILE_FLAGS in
  let m := fd_set m 0x1000 1 FD_OPS 0x3430 in
  fd_set m 0x1000 1 FD_FLAGS TERMINAL_FILE_FLAGS.

Definition syserr_state (m : mem) : kst :=
  mkKst m (mkConsole 0 3) (mkPic 0xFF 0xFF) 0 (mkKeyboard 0 0 0 0 0 0 0) test_fs 0x1000 1
    (mkCpu true 0x800000 0 0 0) [].

Definition syserr_test : syserr_data := mkSyserr test_text 0x8060000 0 0 0.

#[local] Existing Instance test_layout.
#[local] Instance test_ports : Ports := fun _ _ => 0.
#[local] Instance test_traps : Traps :=
  {| arrivals := fun _ => mkSched [] []; open_local := 0x3500;
     exec_locals := mkLocals 0x7FD000 0x7FD040 0x7FD080 0x7FD100 0x3500 0x7FDFF0; args_fuel := 1025 |}.

Lemma syserr_layout : user_layout test_fs 0x1000 open_local.
Proof.
  split; [exact test_fs_layout|cbn; lia|test_sep|test_sep|cbn; lia|test_sep|test_sep| |].
  - unfold kernel_objects. repeat (constructor; [vm_compute; congruence|]). constructor.
  - unfold kernel_objects. repeat (constructor; [test_sep|]). constructor.
Qed.

Definition base_facts (b : mem) : Prop :=
  stdout_ok (syserr_state b) /\ dir_ok test_fs b /\ dir_names test_fs b = [name_dot; name_frame] /\
  fd_open 0 (syserr_state b) = true /\ fd_ops 0 (syserr_state b) = Some TermOps /\
  (forall i, 2 <= i < 8 -> fd_open i (syserr_state b) = false).

Lemma syserr_base_facts : base_facts syserr_base.
Proof.
  split; [|split; [|split; [vm_compute; reflexivity|split; [vm_compute; reflexivity|split; [vm_compute; reflexivity|]]]]].
  - split; [vm_compute; reflexivity|]. split; [vm_compute; reflexivity|].
    unfold on_screen, NUM_ROWS, NUM_COLS. cbn. lia.
  - split; [vm_compute; congruence|]. split; [vm_compute; intuition congruence|].
    intros i Hi. cbn in Hi. assert (i = 1 \/ i = 2) as [-> | ->] by lia; vm_compute; reflexivity.
  - intros i Hi. assert (i = 2 \/ i = 3 \/ i = 4 \/ i = 5 \/ i = 6 \/ i = 7) as K by lia.
    repeat (destruct K as [->|K]; [vm_compute; reflexivity|]). subst. vm_compute. reflexivity.
Qed.

Lemma syserr_base_zero a : PROG_LO <= a < PROG_HI -> load8 syserr_base a = 0.
Proof.
  intros Ha. unfold load8, byte_at. replace (in_window a) with true by (unfold in_window; lia).
  replace (ubytes syserr_base) with (∅ : gmap Z (gmap Z Z)) by (vm_compute; reflexivity).
  rewrite lookup_empty. cbn [default]. by rewrite lookup_empty.
Qed.

(** Bytes added in the program page leave the process ready. *)
Lemma ready_with b m :
  base_facts b -> unchanged (fun a => 0x8050000 <= a) b m -> (forall t, text_in m (test_text t) (literal t)) ->
  ready syserr_test test_fs 0x1000 [name_dot; name_frame] (entry_type test_fs b) all_free (syserr_state m).
Proof.
  intros (F1 & F2 & F3 & F4 & F5 & F6) U Ht.
  destruct (user_change_kept open_local (syserr_state b) _ m syserr_layout U)
    as [Kd _ _ Ks _]; [unfold PROG_LO; lia|].
  destruct (Kd F2) as (D1 & D2 & D3). specialize (Ks F1).
  assert (G : forall j off, 0 <= j < 8 -> 0 <= off <= 12 -> fd_get m 0x1000 j off = fd_get b 0x1000 j off).
  { intros j off Hj Ho. eapply fd_get_unchanged; [exact U|lia|lia|].
    unfold in_region, in_range, fd_region. cbn [fst snd]. lia. }
  assert (Go : forall j, 0 <= j < 8 -> fd_open j (syserr_state m) = fd_open j (syserr_state b)).
  { intros j Hj. unfold fd_open, fd_used. cbn [k_mem cur_pcb syserr_state]. rewrite G by (unfold FD_FLAGS; lia). done. }
  split; [reflexivity|reflexivity|exact Ks| | |exact D1|by rewrite <- F3| |exact Ht].
  - split; [by rewrite Go by lia|]. unfold fd_ops in *. cbn [k_mem cur_pcb syserr_state] in *.
    by rewrite G by (unfold FD_OPS; lia).
  - intros i Hi. cbn [all_free]. rewrite Go by lia. by apply F6.
  - intros i Hi. by apply D3.
Qed.

Lemma syserr_ready :
  ready syserr_test test_fs 0x1000 [name_dot; name_frame]
    (entry_type test_fs syserr_base) all_free (syserr_state (with_texts literals syserr_base)).
Proof.
  apply ready_with; [exact syserr_base_facts|apply with_texts_frame|].
  intros t. apply with_texts_in.
  - eapply list_elem_of_lookup_2, place_lookup.
  - apply syserr_base_zero. pose proof (literal_short t). pose proof (lookup_lt_Some _ _ _ (place_lookup t)) as Hp.
    change (length literals) with 41%nat in Hp. unfold test_text, PROG_LO, PROG_HI. lia.
Qed.

