(* ===== verification/Typing.v ===== *)
(** * The descriptor table stays well typed

    A descriptor in use holds the address of one of the four operation tables; the calls
    dispatch through it.  [typed] is that and what the calls rely on to keep it: the mounted
    file system and a directory that can be read.  Every call a program can make on
    descriptors keeps it, so no call ever jumps through anything else. *)

From S2P Require Import Prelude Mem CString State Console I8259 Pcb Rtc Filesys FilesysRead FilesysDir Keyboard Terminal Paging Syscalls Process Exec Trap FileCalls Output Syserr.

Section Typing.
Context `{Ports} `{Layout} `{Traps} (fs : filesys) (pcb : Z).
Context (UL : user_layout fs pcb open_local) (HT : tables_ok).

Record typed (s : kst) : Prop := {
  ty_fs : k_fs s = fs;
  ty_pcb : cur_pcb s = pcb;
  ty_dir : dir_ok fs (k_mem s);
  ty_fds : tables_valid s
}.

(** What a call on descriptor [fd] may write: anything off the image and off the table,
    and all of its own descriptor but the pointer to the operations. *)
Definition fd_frame_of (fd a : Z) : Prop :=
  ~ in_region (image fs) a /\ (~ in_range pcb 128 a \/ in_range (fd_field pcb fd FD_INODE) 12 a).

Lemma typed_words fd j off s m' :
  unchanged (fd_frame_of fd) (k_mem s) m' -> 0 <= j < 8 -> 0 <= fd < 8 ->
  (off = FD_OPS \/ (j <> fd /\ off = FD_FLAGS)) -> fd_get m' pcb j off = fd_get (k_mem s) pcb j off.
Proof using Type.
  intros U Hj Hfd Hoff. unfold fd_get. eapply unchanged_load32; [exact U|]. intros b Hb [_ Hf].
  destruct Hoff as [->|[Hne ->]]; unfold in_range, fd_field, FD_OPS, FD_INODE, FD_FLAGS in *; lia.
Qed.

Lemma dir_kept fd s m' : dir_ok fs (k_mem s) -> unchanged (fd_frame_of fd) (k_mem s) m' -> dir_ok fs m'.
Proof using UL.
  intros Hd U. eapply dir_ok_unchanged; [exact Hd|exact U|]. intros a [Ha _] Hb. apply Ha.
  eapply boot_in_image; [exact UL|exact Hb].
Qed.

(** A step inside the frame of a descriptor whose pointer is good. *)
Lemma typed_kept fd s s' :
  typed s -> same_process s s' -> 0 <= fd < 8 -> unchanged (fd_frame_of fd) (k_mem s) (k_mem s') ->
  is_Some (fd_ops fd s) \/ fd_open fd s' = false -> typed s'.
Proof using UL.
  intros [T1 T2 T3 T4] [P1 P2] Hfd U Hop. split; [congruence|congruence|by eapply dir_kept|].
  intros j Hj Ho. unfold fd_ops. rewrite P1, T2, (typed_words fd j FD_OPS s) by (first [assumption|by left]).
  unfold tables_valid, fd_ops in T4. rewrite T2 in T4. destruct (decide (j = fd)) as [->|Hne].
  - destruct Hop as [Hop|Hc]; [unfold fd_ops in Hop; by rewrite T2 in Hop|congruence].
  - apply T4; [exact Hj|]. unfold fd_open, fd_used in *. rewrite P1, T2 in Ho. rewrite T2.
    by rewrite (typed_words fd j FD_FLAGS s) in Ho by (first [assumption|by right]).
Qed.

(** Nothing of the table changes. *)
Lemma typed_apart s s' :
  typed s -> same_process s s' -> unchanged (fun a => ~ in_region (image fs) a /\ ~ in_range pcb 128 a) (k_mem s) (k_mem s') ->
  typed s'.
Proof using UL.
  intros T P U. assert (U' : forall fd, unchanged (fd_frame_of fd) (k_mem s) (k_mem s'))
    by (intros fd; eapply unchanged_weaken; [|exact U]; intros a [Ha Hb]; split; [exact Ha|by left]).
  destruct (fd_open 0 s) eqn:E.
  - apply (typed_kept 0 s); [exact T|exact P|lia|apply U'|left; apply (ty_fds _ T); [lia|exact E]].
  - apply (typed_kept 0 s); [exact T|exact P|lia|apply U'|right]. destruct P as [P1 _]. rewrite <- E.
    unfold fd_open, fd_used. rewrite P1, (ty_pcb _ T). rewrite (typed_words 1 0 FD_FLAGS s); [done|apply U'|lia|lia|by right].
Qed.

(** ** The bounds of the layout *)

Lemma program_apart a : PROG_LO <= a -> ~ in_region (image fs) a /\ ~ in_range pcb 128 a.
Proof using UL.
  destruct (user_bounds fs pcb UL) as ((B1 & _) & (B2 & _) & _). intros Ha.
  unfold in_region, in_range, PCB_SIZE in *. lia.
Qed.

Lemma screen_apart a : screen_bytes a -> ~ in_region (image fs) a /\ ~ in_range pcb 128 a.
Proof using UL.
  intros Ha. split; [by apply (screen_off_image fs pcb UL)|]. destruct (user_bounds fs pcb UL) as ((_ & B) & _).
  unfold rdisj, disj, in_range, screen_bytes, in_range, screen_region, pcb_region, PCB_SIZE, NUM_ROWS, NUM_COLS in *.
  cbn [fst snd] in *. lia.
Qed.

Lemma dentry_apart a : in_region (dentry_region read_dentry) a -> ~ in_region (image fs) a /\ ~ in_range pcb 128 a.
Proof using UL.
  destruct UL as [_ _ _ _ _ Hi Hp _ _]. intros Ha. unfold rdisj, disj, in_region, in_range, pcb_region, PCB_SIZE in *.
  cbn [fst snd] in *. lia.
Qed.

Lemma lookup_apart a : lookup_frame open_local a -> ~ in_region (image fs) a /\ ~ in_range pcb 128 a.
Proof using UL.
  intros Ha. split; [by apply (lookup_low fs pcb UL)|]. destruct UL as [[_ _ _ _ _ _ F1 F2] _ _ Hp _ _ _ _ _].
  unfold lookup_frame, rdisj, disj, in_region, in_range, pcb_region, PCB_SIZE in *. cbn [fst snd] in *. lia.
Qed.

(** ** Open *)

Lemma typed_open fname s : typed s -> PROG_LO <= fname -> typed (sys_open_c open_local fname s).2.
Proof using UL HT.
  intros T Hn. pose proof T as [T1 T2 T3 T4]. assert (H0' : fname <> 0) by (unfold PROG_LO in Hn; lia).
  destruct (Z.le_gt_cases (strlen (k_mem s) fname) 32) as [Hl|Hl].
  2: { assert (E : (sys_open_c open_local fname s).2 = set_k_mem (k_mem s) s); [|rewrite E; by rewrite set_k_mem_same].
       unfold sys_open_c. rewrite (proj2 (Z.eqb_neq _ _) H0'). unfold on_mem, read_dentry_by_name.
       destruct (_ || _ || _); [done|]. by replace (NAME_LEN <? strlen (k_mem s) fname) with true by (unfold NAME_LEN; lia). }
  assert (HL : open_layout (k_fs s) (cur_pcb s) open_local fname (k_mem s))
    by (apply user_open_layout; [by rewrite T1, T2|exact Hn]).
  pose proof (sys_open_spec s open_local fname HL HT ltac:(by rewrite T1) H0' Hl) as Ho. unfold sys_open_outcome in Ho.
  destruct (sys_open_c open_local fname s) as [v s'].
  assert (Hfail : (exists m', (v, s') = (-1, set_k_mem m' s) /\ unchanged (lookup_frame open_local) (k_mem s) m') -> typed s').
  { intros (m' & [= -> ->] & U). apply (typed_apart s); [exact T|by split|]. eapply unchanged_weaken; [|exact U]. apply lookup_apart. }
  destruct (list_find _ _) as [[k x]|]; [|by apply Hfail]. destruct (decide _) as [Hlt|]; [|by apply Hfail].
  destruct Ho as (s1 & [= -> ->] & (P1 & P2 & U & Ops & _)). cbn [snd]. set (fd := find_fd _ _) in *.
  assert (Hfd : 2 <= fd < 8) by (destruct (find_fd_spec (k_mem s) (cur_pcb s)) as (Hr & _); unfold fd in *; lia).
  assert (F : forall a, open_call_frame s open_local fd a -> ~ in_region (image fs) a /\
    (~ in_range pcb 128 a \/ in_range (fd_field pcb fd FD_OPS) 16 a)).
  { intros a [Ha|Ha]; [split; [|left]; by apply lookup_apart|]. rewrite T2 in Ha. destruct (user_bounds fs pcb UL) as ((_ & _) & _ & B).
    unfold rdisj, disj, in_region, in_range, fd_region, fd_field, pcb_region, PCB_SIZE, FD_OPS in *. cbn [fst snd] in *. lia. }
  split; [congruence|congruence| |].
  - eapply dir_ok_unchanged; [exact T3|exact U|]. intros a Ha Hb. destruct (F a Ha) as [Hi _]. apply Hi. by eapply boot_in_image.
  - intros j Hj Hop. destruct (decide (j = fd)) as [->|Hne]; [by rewrite Ops|].
    assert (G : forall off, 0 <= off <= 12 -> fd_get (k_mem s1) pcb j off = fd_get (k_mem s) pcb j off).
    { intros off Hoff. unfold fd_get. eapply unchanged_load32; [exact U|]. intros b Hb Hc. destruct (F b Hc) as [_ Hf].
      unfold in_range, fd_field, FD_OPS in *. lia. }
    unfold fd_ops, fd_open, fd_used in *. rewrite P1, T2, !G in * by (unfold FD_OPS, FD_FLAGS; lia).
    unfold tables_valid, fd_ops, fd_open, fd_used in T4. rewrite T2 in T4. by apply T4.
Qed.

(** ** Close *)

Lemma typed_close fd s : typed s -> exists v s', sys_close_c fd s = Some (v, s') /\ typed s'.
Proof using UL.
  intros T. pose proof T as [T1 T2 T3 T4]. unfold sys_close_c. destruct (_ || _) eqn:Eg; [by exists (-1), s|].
  destruct (fd_open fd s) eqn:Eo; [|by exists (-1), s]. cbn [negb].
  assert (Hfd : 0 <= fd < 8) by (unfold FD_SIZE in Eg; bool_to_prop; lia).
  destruct (T4 fd Hfd Eo) as [o Eop]. rewrite Eop. destruct (close_ptr o fd s) as [v s'] eqn:E. exists v, s'. split; [done|].
  assert (D : rdisj (pcb_region (cur_pcb s)) (dentry_region open_dentry) /\ rdisj (pcb_region (cur_pcb s)) (dentry_region read_dentry)).
  { rewrite T2. destruct UL as [[_ _ _ _ _ _ _ F2] _ _ _ _ _ Hp _ _]. by split. }
  destruct D as [D1 D2]. destruct (close_ptr_shrinks o fd s Hfd D1 D2) as [Ec Hs].
  destruct (close_ptr_frame o fd s) as [Es U]. specialize (U Hfd). rewrite E in Ec, Hs, Es, U. cbn [snd] in *. split.
  - rewrite Es. exact T1.
  - congruence.
  - eapply dir_ok_unchanged; [exact T3|exact U|]. intros a Ha Hb. eapply (boot_in_image fs pcb UL) in Hb.
    destruct UL as [[_ _ _ F1 _ F2 _ _] _ _ _ _ Hi _ _ _]. rewrite T2 in Ha. unfold close_frame, rdisj, disj, in_region, in_range,
      pcb_region, PCB_SIZE in *. cbn [fst snd] in *. lia.
  - intros j Hj Hop. destruct (Hs j Hj) as [Eo' Himp]. unfold fd_ops. rewrite Ec, Eo'. by apply (T4 j Hj (Himp Hop)).
Qed.

(** ** Read *)

(** The descriptor's own words but the pointer, or the program page. *)
Definition read_call_frame (fd a : Z) : Prop := PROG_LO <= a \/ in_range (fd_field pcb fd FD_INODE) 12 a.

Lemma read_call_frame_of fd a : 0 <= fd < 8 -> read_call_frame fd a -> fd_frame_of fd a.
Proof using UL.
  intros Hfd [Ha|Ha]; [apply program_apart in Ha as [H1' H2']; split; [exact H1'|by left]|]. split; [|by right].
  destruct (user_bounds fs pcb UL) as (_ & _ & B). unfold rdisj, disj, in_region, in_range, fd_field, FD_INODE, pcb_region, PCB_SIZE in *.
  cbn [fst snd] in *. lia.
Qed.

Lemma frame_fd_set m fd off v :
  off = FD_POS \/ off = FD_FLAGS -> unchanged (read_call_frame fd) m (fd_set m pcb fd off v).
Proof using Type.
  intros Ho. apply unchanged_store32. intros b Hb. right.
  destruct Ho as [-> | ->]; unfold in_range, fd_field, FD_INODE, FD_POS, FD_FLAGS in *; lia.
Qed.

Lemma read_data_call_frame inode offset buf length fd m :
  0 <= length < 4294967296 -> PROG_LO <= buf ->
  unchanged (read_call_frame fd) m (read_data fs pcb inode offset buf length fd m).2.
Proof using Type.
  intros Hl Hb. unfold read_data. do 3 (split_if; [apply unchanged_refl|]).
  set (idx0 := if negb (fd =? -1) then _ else 0). split_if; [apply unchanged_refl|].
  assert (W : forall m m', unchanged (in_range buf length) m m' -> unchanged (read_call_frame fd) m m').
  { intros m1 m2. apply unchanged_weaken. intros a Ha. left. unfold in_range in Ha. lia. }
  match goal with |- context [rd_loop ?f ?fs ?i ?b ?l ?sz ?it ?o ?c ?m] =>
    pose proof (rd_loop_frame fs i b l sz f it o c m ltac:(lia) ltac:(lia)) as Hf;
    destruct (rd_loop f fs i b l sz it o c m) as [it' m'|it' idx m'] end; [by apply W|].
  destruct Hf as [H0' Hf]. cbn [snd]. set (m2 := if it' <? length then _ else m').
  assert (U2 : unchanged (read_call_frame fd) m m2).
  { unfold m2. apply W in Hf. destruct (Z.ltb_spec it' length); [|exact Hf].
    eapply unchanged_trans; [exact Hf|]. apply unchanged_store8. left. lia. }
  destruct (negb (fd =? -1)); [|exact U2]. eapply unchanged_trans; [exact U2|].
  eapply unchanged_trans; apply frame_fd_set; by right.
Qed.

Lemma file_read_call_frame fd buf n m :
  0 <= n < 4294967296 -> PROG_LO <= buf -> unchanged (read_call_frame fd) m (file_read fs pcb fd buf n m).2.
Proof using Type.
  intros Hn Hb. unfold file_read. do 2 (split_if; [apply unchanged_refl|]). rewrite u32_small by exact Hn.
  match goal with |- context [read_data ?f ?p ?i ?o ?b ?l ?d ?m] =>
    pose proof (read_data_call_frame i o b l d m Hn Hb) as Er; destruct (read_data f p i o b l d m) as [r m1] end.
  eapply unchanged_trans; [exact Er|]. apply frame_fd_set. by left.
Qed.

Lemma dr_copy_frame fd fuel : forall buf n cnt m,
  PROG_LO <= buf -> 0 <= cnt ->
  0 <= (dr_copy fuel buf n cnt m).1 /\ unchanged (read_call_frame fd) m (dr_copy fuel buf n cnt m).2.
Proof using Type.
  induction fuel as [|f IH]; intros buf n cnt m Hb Hc; cbn [dr_copy]; [split; [exact Hc|apply unchanged_refl]|].
  destruct (_ && _); [|split; [exact Hc|apply unchanged_refl]].
  destruct (_ =? 0); [split; [exact Hc|apply unchanged_refl]|].
  destruct (IH buf n (cnt + 1) (store8 m (buf + cnt) (load8 m (read_dentry + cnt))) Hb ltac:(lia)) as [I1 I2].
  split; [exact I1|]. eapply unchanged_trans; [|exact I2]. apply unchanged_store8. left. lia.
Qed.

Lemma dir_read_call_frame fd buf n m :
  dir_ok fs m -> PROG_LO <= buf ->
  unchanged (fun a => read_call_frame fd a \/ in_region (dentry_region read_dentry) a) m (dir_read fs pcb fd buf n m).2.
Proof using UL.
  intros Hd Hb. unfold dir_read. do 3 (split_if; [apply unchanged_refl|]). split_if; [apply unchanged_refl|].
  assert (W : forall m m', unchanged (read_call_frame fd) m m' ->
    unchanged (fun a => read_call_frame fd a \/ in_region (dentry_region read_dentry) a) m m')
    by (intros m1 m2; apply unchanged_weaken; by left).
  assert (Hpos : 0 <= fd_get m pcb fd FD_POS) by apply load32_range.
  destruct (read_dentry_by_index_spec fs (fd_get m pcb fd FD_POS) read_dentry m Hd) as (m1 & -> & U & _);
    [apply UL|lia| |].
  { destruct UL as [[Hi _ _ _ _ _ _ _] _ _ _ _ Hr _ _ _]. by apply rdisj_boot. }
  cbn [Z.eqb]. destruct (dr_copy_frame fd 33 buf n 0 m1 Hb ltac:(lia)) as [Hc Uc].
  destruct (dr_copy 33 buf n 0 m1) as [cnt m2]. cbn [fst snd] in *.
  eapply unchanged_trans; [eapply unchanged_weaken; [|exact U]; by right|]. apply W.
  eapply unchanged_trans; [exact Uc|]. eapply unchanged_trans; [|apply frame_fd_set; by left].
  destruct (_ || _); [|apply unchanged_refl]. apply unchanged_store8. left. lia.
Qed.

Lemma rtc_read_process sched : forall s r s',
  rtc_read sched s = Some (r, s') -> same_process s s' /\ k_mem s' = k_mem s.
Proof using Type.
  induction sched as [|t sched IH]; intros s r s'; cbn [rtc_read]; destruct (negb _).
  - intros [= _ <-]. done.
  - done.
  - intros [= _ <-]. done.
  - intros E. apply IH in E as [[E1 E2] E3]. destruct t; done.
Qed.

(** A read through a descriptor other than standard input; only the clock makes it wait. *)
Lemma typed_read sc fd buf n s :
  typed s -> fd <> 0 -> PROG_LO <= buf -> n < 4294967296 ->
  match sys_read_c sc fd buf n s with
  | Some (_, s') => typed s'
  | None => fd_ops fd s = Some RtcOps
  end.
Proof using UL.
  intros T Hf0 Hb Hn. pose proof T as [T1 T2 T3 T4]. unfold sys_read_c. destruct (_ || _) eqn:Eg; [exact T|].
  destruct (buf =? 0); [exact T|]. destruct (Z.ltb_spec n 0) as [|Hn0]; [exact T|].
  destruct (fd_open fd s) eqn:Eo; [|exact T]. cbn [negb].
  assert (Hfd : 0 <= fd < 8) by (unfold FD_SIZE in Eg; bool_to_prop; lia).
  pose proof (T4 fd Hfd Eo) as Hop. destruct Hop as [o Eop]. rewrite Eop. destruct o; cbn [read_ptr].
  - destruct (rtc_read (sc_ticks sc) s) as [[v s']|] eqn:E; [|done]. apply rtc_read_process in E as [P Em].
    apply (typed_kept fd s); [exact T|exact P|exact Hfd|rewrite Em; apply unchanged_refl|left; rewrite Eop; by eexists].
  - unfold on_mem. rewrite T1, T2. pose proof (dir_read_call_frame fd buf n (k_mem s) T3 Hb) as U.
    destruct (dir_read fs pcb fd buf n (k_mem s)) as [v m']. cbn [snd] in U.
    apply (typed_kept fd s); [exact T|by split|exact Hfd| |left; rewrite Eop; by eexists].
    eapply unchanged_weaken; [|exact U]. intros a [Ha|Ha]; [by apply read_call_frame_of|].
    apply dentry_apart in Ha as [H1' H2']. split; [exact H1'|by left].
  - unfold on_mem. rewrite T1, T2. pose proof (file_read_call_frame fd buf n (k_mem s) ltac:(lia) Hb) as U.
    destruct (file_read fs pcb fd buf n (k_mem s)) as [v m']. cbn [snd] in U.
    apply (typed_kept fd s); [exact T|by split|exact Hfd| |left; rewrite Eop; by eexists].
    eapply unchanged_weaken; [|exact U]. intros a Ha. by apply read_call_frame_of.
  - unfold terminal_read. by rewrite (proj2 (Z.eqb_neq fd STDIN)).
Qed.

(** ** Write *)

Lemma typed_write fd buf n s :
  typed s -> on_screen (k_con s) -> PROG_LO <= buf -> printable (bytes (k_mem s) buf (Z.to_nat n)) ->
  exists v s', sys_write_c fd buf n s = Some (v, s') /\ typed s'.
Proof using UL.
  intros T Hos Hb Hp. pose proof T as [T1 T2 T3 T4]. unfold sys_write_c. destruct (_ || _) eqn:Eg; [by exists (-1), s|].
  destruct (buf =? 0); [by exists (-1), s|]. destruct (Z.ltb_spec n 0) as [|Hn]; [by exists (-1), s|].
  destruct (fd_open fd s) eqn:Eo; [|by exists (-1), s]. cbn [negb].
  assert (Hfd : 0 <= fd < 8) by (unfold FD_SIZE in Eg; bool_to_prop; lia).
  destruct (T4 fd Hfd Eo) as [o Eop]. rewrite Eop. destruct (write_ptr o fd buf n s) as [v s'] eqn:E. exists v, s'. split; [done|].
  destruct o; cbn [write_ptr] in E.
  - assert (P : same_process s s' /\ k_mem s' = k_mem s).
    { assert (Es : s' = (rtc_write fd buf n s).2) by (by rewrite E). rewrite Es. unfold rtc_write.
      repeat split_if; (split; [by split|done]). }
    destruct P as [P Em]. apply (typed_apart s); [exact T|exact P|rewrite Em; apply unchanged_refl].
  - injection E as _ <-. by rewrite set_k_mem_same.
  - injection E as _ <-. by rewrite set_k_mem_same.
  - unfold terminal_write in E. destruct (Z.eqb_spec fd STDOUT) as [->|]; [|by injection E as _ <-]. cbn [negb] in E.
    pose proof (write_loop_spec (S (Z.to_nat n)) 0 n buf (cli s)) as W. cbv zeta in W.
    rewrite Z.add_0_r, Z.sub_0_r in W. change (k_mem (cli s)) with (k_mem s) in W.
    rewrite W in E; [|lia|lia|exact Hos| |eapply Forall_impl; [exact Hp|]; cbn; tauto].
    2: { intros a Ha Hs. unfold in_range, screen_bytes, in_range, VIDEO, NUM_ROWS, NUM_COLS, PROG_LO in *. lia. }
    assert (Es : s' = sti (print_chars (bytes (k_mem s) buf (Z.to_nat n)) (cli s))) by (by injection E as _ <-).
    destruct (print_chars_shows (bytes (k_mem s) buf (Z.to_nat n)) (cli s) Hos Hp) as (_ & _ & U).
    destruct (print_chars_process (bytes (k_mem s) buf (Z.to_nat n)) (cli s)) as [P1 P2].
    rewrite Es. apply (typed_apart s); [exact T|by split|]. eapply unchanged_weaken; [|exact U]. apply screen_apart.
Qed.
End Typing.

(** ** Theorem *)


#[local] Existing Instance test_layout.
#[local] Instance test_ports : Ports := fun _ _ => 0.
#[local] Instance test_traps : Traps :=
  {| arrivals := fun _ => mkSched [] []; open_local := 0x3500;
     exec_locals := mkLocals 0x7FD000 0x7FD040 0x7FD080 0x7FD100 0x3500 0x7FDFF0; args_fuel := 1025 |}.

Lemma cat_state_typed : typed test_fs 0x1000 cat_state.
Proof.
  split; [reflexivity|reflexivity|exact cat_state_dir_ok|]. intros fd Hfd.
  assert (fd = 0 \/ fd = 1 \/ fd = 2 \/ fd = 3 \/ fd = 4 \/ fd = 5 \/ fd = 6 \/ fd = 7) as Hc by lia.
  destruct Hc as [->|[->|[->|[->|[->|[->|[->| ->]]]]]]]; vm_compute; (discriminate || by eexists).
Qed.

