(* ===== verification/Linkage.v ===== *)
(** * Registers across the linkage of src/student-distrib/exceptions.S

    Trap.v says what the linkage returns.  Here is what it does with the registers of the
    interrupted program: the processor, PUSHA and PUSHF put them on the kernel stack of the
    process, POPF, POPA and IRET take them back. *)

From S2P Require Import Prelude Mem CString MemOps State Console I8259 Pcb Rtc Filesys FilesysRead FilesysDir Keyboard Terminal Paging Syscalls Process Exec Trap FileCalls Output Syserr Typing.

(** ** The processor *)

Record regs := mkGpr {
  g_eax : Z; g_ecx : Z; g_edx : Z; g_ebx : Z; g_esp : Z; g_ebp : Z; g_esi : Z; g_edi : Z;
  g_eip : Z; g_cs : Z; g_ss : Z; g_eflags : Z
}.

Definition set_eax (v : Z) (r : regs) : regs :=
  mkGpr v (g_ecx r) (g_edx r) (g_ebx r) (g_esp r) (g_ebp r) (g_esi r) (g_edi r) (g_eip r) (g_cs r) (g_ss r) (g_eflags r).

(** The interrupt flag is bit 9 of EFLAGS. *)
Definition if_bit (eflags : Z) : bool := Z.testbit eflags 9.

Definition load_flags (eflags : Z) (s : kst) : kst := upd_cpu (set_if_flag (if_bit eflags)) s.

(** Words pushed one after the other from the stack pointer [a] on. *)
Fixpoint pushes (ws : list Z) (a : Z) (m : mem) : mem :=
  match ws with
  | [] => m
  | w :: ws' => pushes ws' (a - 4) (store32 m (a - 4) w)
  end.

(** An interrupt or INT from user mode: the processor takes the stack of the task state and
    pushes SS, ESP, EFLAGS, CS and EIP. *)
Definition entry_words (r : regs) : list Z := [g_ss r; g_esp r; g_eflags r; g_cs r; g_eip r].

(** PUSHA, with ESP as it was before, and PUSHF. *)
Definition pusha_words (r : regs) (sp : Z) : list Z :=
  [g_eax r; g_ecx r; g_edx r; g_ebx r; sp; g_ebp r; g_esi r; g_edi r].

Definition saved_words (r : regs) (top : Z) : list Z := entry_words r ++ pusha_words r (top - 20) ++ [g_eflags r].

(** POPF, POPA and IRET from the stack pointer [sp] on. *)
Definition restore (sp : Z) (s : kst) : regs * kst :=
  let w i := load32 (k_mem s) (sp + 4 * i) in
  let s := load_flags (w 0) s in
  let s := load_flags (w 11) s in
  (mkGpr (w 8) (w 7) (w 6) (w 5) (w 12) (w 3) (w 2) (w 1) (w 9) (w 10) (w 13) (w 11), s).

(** ** The linkage *)

Section Linkage.
Context `{Ports} `{Layout} `{Traps} (ret_val : Z).

(** The words a label (not that of halt) pushes for the C function, without the return address. *)
Definition pushed_args (eax : Z) (r : regs) : list Z :=
  if (eax =? SYS_READ) || (eax =? SYS_WRITE) then [g_edx r; g_ecx r; g_ebx r]
  else if (eax =? SYS_GETARGS) || (eax =? SYS_SET_HANDLER) then [g_ecx r; g_ebx r]
  else if eax =? SYS_SIGRETURN then []
  else [g_ebx r].

(** The state in which the C function of a call runs; [back] is the address behind the call. *)
Definition call_state (back : Z) (r : regs) (s : kst) : kst :=
  let top := tss_esp0 (k_cpu s) in
  let s := upd_mem (pushes (saved_words r top) top) s in
  if (10 <? g_eax r) || (g_eax r <? 1) then s
  else upd_mem (pushes (pushed_args (g_eax r) r ++ [back]) (top - 56)) s.

(** SYS_CALL_HANDLER up to IRET, for the calls that come back to the caller: at [DONE] and
    [EXEC_DONE] the value goes through the variable [ret_val].  Not for halt, whose label
    pushes two bytes and takes eight. *)
Definition system_call (back : Z) (r : regs) (s : kst) : option (regs * kst) :=
  if g_eax r =? SYS_HALT then None else
  match SYS_CALL_HANDLER (g_eax r) (g_ebx r) (g_ecx r) (g_edx r) (call_state back r s) with
  | Iret v s' =>
      let s' := upd_mem (fun m => store32 m ret_val v) s' in
      let '(r', s') := restore (tss_esp0 (k_cpu s) - 56) s' in
      Some (set_eax (load32 (k_mem s') ret_val) r', s')
  | _ => None
  end.

(** RTC_HANDLER and KEY_HANDLER, around the C function [handler]. *)
Definition device_interrupt (handler : kst -> kst) (back : Z) (r : regs) (s : kst) : regs * kst :=
  let top := tss_esp0 (k_cpu s) in
  let s := upd_mem (pushes (saved_words r top ++ [back]) top) s in
  restore (top - 56) (handler s).

Definition RTC_HANDLER : Z -> regs -> kst -> regs * kst := device_interrupt rtc_handler.
Definition KEY_HANDLER : Z -> regs -> kst -> regs * kst := device_interrupt key_handler.
End Linkage.

(** ** The stack *)

Lemma pushes_app ws ws' : forall a m, pushes (ws ++ ws') a m = pushes ws' (a - 4 * Z.of_nat (length ws)) (pushes ws a m).
Proof.
  induction ws as [|w ws IH]; intros a m; cbn [pushes app length]; [f_equal; lia|]. rewrite IH. f_equal. lia.
Qed.

Lemma pushes_frame ws : forall a m, unchanged (fun b => a - 4 * Z.of_nat (length ws) <= b < a) m (pushes ws a m).
Proof.
  induction ws as [|w ws IH]; intros a m; cbn [pushes length]; [apply unchanged_refl|].
  eapply unchanged_trans; [apply (unchanged_store32 _ m (a - 4) w); unfold in_range; lia|].
  eapply unchanged_weaken; [|apply IH]. cbn. lia.
Qed.

Lemma pushes_word ws : forall a m i w, ws !! i = Some w -> load32 (pushes ws a m) (a - 4 - 4 * Z.of_nat i) = u32 w.
Proof.
  induction ws as [|x ws IH]; intros a m i w; [by rewrite lookup_nil|]. destruct i as [|i]; cbn [lookup list_lookup pushes].
  - intros [= <-]. replace (a - 4 - 4 * Z.of_nat 0) with (a - 4) by lia.
    rewrite (unchanged_load32 _ _ _ _ (pushes_frame ws (a - 4) _)) by (unfold in_range; lia). apply load32_store32_eq.
  - intros Hi. rewrite <- (IH (a - 4) (store32 m (a - 4) x) i w Hi). f_equal. lia.
Qed.

(** ** Registers come back *)

Definition wf_regs (r : regs) : Prop :=
  Forall (fun v => 0 <= v < 4294967296)
    [g_eax r; g_ecx r; g_edx r; g_ebx r; g_esp r; g_ebp r; g_esi r; g_edi r; g_eip r; g_cs r; g_ss r; g_eflags r].

(** The part of the kernel stack that holds them. *)
Definition saved_region (top : Z) : region := (top - 56, 56).

Lemma restore_saved r top m s :
  wf_regs r -> (forall a, in_region (saved_region top) a -> load8 (k_mem s) a = load8 (pushes (saved_words r top) top m) a) ->
  restore (top - 56) s = (r, load_flags (g_eflags r) s).
Proof.
  intros Hr Hs. unfold wf_regs in Hr. rewrite !Forall_cons in Hr. destruct Hr as (R1 & R2 & R3 & R4 & R5 & R6 & R7 & R8 & R9 & R10 & R11 & R12 & _).
  assert (W : forall k w, saved_words r top !! k = Some w -> 0 <= w < 4294967296 -> load32 (k_mem s) (top - 56 + 4 * (13 - Z.of_nat k)) = w).
  { intros k w Hk Hw. pose proof (lookup_lt_Some _ _ _ Hk) as Hl. cbn in Hl.
    transitivity (load32 (pushes (saved_words r top) top m) (top - 4 - 4 * Z.of_nat k)); [|rewrite (pushes_word _ _ _ _ _ Hk); by apply u32_small].
    replace (top - 4 - 4 * Z.of_nat k) with (top - 56 + 4 * (13 - Z.of_nat k)) by lia.
    unfold load32. rewrite !Hs by (unfold in_region, saved_region, in_range; cbn [fst snd]; lia). done. }
  unfold restore.
  assert (V : forall i w, saved_words r top !! Z.to_nat (13 - i) = Some w -> 0 <= i <= 13 -> 0 <= w < 4294967296 -> load32 (k_mem s) (top - 56 + 4 * i) = w).
  { intros i w Hk Hi Hw. rewrite <- (W _ w Hk Hw). f_equal. lia. }
  rewrite (V 0 (g_eflags r) eq_refl ltac:(lia) R12), (V 1 (g_edi r) eq_refl ltac:(lia) R8), (V 2 (g_esi r) eq_refl ltac:(lia) R7), (V 3 (g_ebp r) eq_refl ltac:(lia) R6), (V 5 (g_ebx r) eq_refl ltac:(lia) R4), (V 6 (g_edx r) eq_refl ltac:(lia) R3), (V 7 (g_ecx r) eq_refl ltac:(lia) R2), (V 8 (g_eax r) eq_refl ltac:(lia) R1), (V 9 (g_eip r) eq_refl ltac:(lia) R9), (V 10 (g_cs r) eq_refl ltac:(lia) R10), (V 11 (g_eflags r) eq_refl ltac:(lia) R12), (V 12 (g_esp r) eq_refl ltac:(lia) R5), (V 13 (g_ss r) eq_refl ltac:(lia) R11).
  by destruct r.
Qed.

Lemma call_state_saved `{Ports} `{Layout} `{Traps} back r s a :
  let top := tss_esp0 (k_cpu s) in
  in_region (saved_region top) a -> load8 (k_mem (call_state back r s)) a = load8 (pushes (saved_words r top) top (k_mem s)) a.
Proof.
  intros top Ha. unfold call_state. fold top. destruct (_ || _); [done|]. cbn [k_mem upd_mem set_k_mem].
  eapply unchanged_load8; [apply pushes_frame|]. unfold in_region, saved_region, in_range in Ha. cbn [fst snd] in Ha. cbv beta. lia.
Qed.

(** A key pressed while a program runs: the registers come back, and the editor has made its step. *)
Lemma key_interrupt `{Ports} `{Layout} back r s e :
  let top := tss_esp0 (k_cpu s) in
  let key := u8 (port_in (k_io s) KEY_PORT) in
  wf_regs r -> edits s e -> plain key -> rdisj line_region screen_region ->
  rdisj line_region (top - 60, 60) -> rdisj screen_region (top - 60, 60) ->
  exists s'', KEY_HANDLER back r s = (r, s'') /\ if_flag (k_cpu s'') = if_bit (g_eflags r) /\ edits s'' (ed_key key e).
Proof.
  intros top key Hr E Hk D1 D2 D3. unfold KEY_HANDLER, device_interrupt. fold top. set (s1 := upd_mem _ s).
  assert (U1 : unchanged (fun a => top - 60 <= a < top) (k_mem s) (k_mem s1)).
  { eapply unchanged_weaken; [|exact (pushes_frame (saved_words r top ++ [back]) top (k_mem s))]. cbn. lia. }
  assert (E1 : edits s1 e).
  { destruct E as [? ? Hm Hb ? ? ?]. split; try done. rewrite <- Hb at 2. eapply unchanged_bytes; [exact U1|].
    unfold rdisj, disj, line_region, in_range in *. cbn [fst snd] in *. lia. }
  rewrite key_handler_press. change (port_in (k_io s1)) with (port_in (k_io s)). fold key.
  assert (Hsep : forall a, in_region line_region a -> ~ screen_bytes a).
  { intros a Ha Hs. unfold rdisj, disj, line_region, screen_region, screen_bytes, in_region, in_range in *. cbn [fst snd] in *. lia. }
  destruct (key_press_spec Hsep key s1 e E1 Hk) as [E2 U2].
  rewrite (restore_saved r top (k_mem s) _ Hr).
  - exists (load_flags (g_eflags r) (key_press key s1)). split_and!; [done|done|]. by destruct E2 as [? ? ? ? ? ? ?]; split.
  - intros a Ha. rewrite (unchanged_load8 _ _ _ _ U2).
    + change (k_mem s1) with (pushes (saved_words r top ++ [back]) top (k_mem s)). rewrite pushes_app.
      eapply unchanged_load8; [apply pushes_frame|]. unfold in_region, saved_region, in_range in Ha. cbn [fst snd] in Ha. cbn. lia.
    + clear - Ha D2 D3. unfold kbd_frame, rdisj, disj, saved_region, line_region, screen_region, screen_bytes, in_region, in_range, NUM_ROWS, NUM_COLS in *.
      cbn [fst snd] in *. lia.
Qed.

(** ** Theorem *)


(** A read of the clock at descriptor 2 by a program that runs with interrupts enabled. *)
#[local] Existing Instance test_layout.
#[local] Instance linkage_ports : Ports := fun _ _ => 0.
#[local] Instance linkage_traps : Traps :=
  {| arrivals := fun _ => mkSched [] [true]; open_local := 0x3500; exec_locals := prog_locals; args_fuel := 1025 |}.

Definition linkage_regs : regs := mkGpr SYS_READ 0x8050000 4 2 0x83FFF00 1 2 3 0x8048100 USER_CS USER_DS 0x202.

Definition linkage_state : kst :=
  mkKst (fd_set (fd_set (Mem ∅ ∅ 0) 0x1000 2 FD_OPS rtc_table) 0x1000 2 FD_FLAGS 0x101) (mkConsole 0 0) (mkPic 0 0) 0
    (mkKeyboard 0 0 0 0 0 0 0) prog_fs 0x1000 1 (mkCpu true 0x7FE000 0 0 0) [].

