(* ===== verification/Boot.v ===== *)
(** * Boot: kernel.c and the descriptors of x86_desc.h

    [set_idt_entry] and the tables it is driven by, the segment descriptors, and
    [entry]: the report of the Multiboot information ([entry_report]) and the set-up
    of the machine up to the first program ([entry_setup]).

    The interrupt table is a list of 256 descriptors with the fields of
    [idt_desc_t]; the processor's reading of a descriptor is [gate_of].  The addresses
    of the handlers, of the format strings and of the place the arguments of printf
    are pushed to are those of the linker and the compiler ([BootLayout]). *)

From S2P Require Import Prelude Mem CString State Console Printf I8259 Rtc Filesys Paging Syscalls.

(** ** Descriptors *)

Definition KERNEL_CS : Z := 0x0010.
Definition KERNEL_TSS : Z := 0x0030.
Definition KERNEL_LDT : Z := 0x0038.
Definition TSS_SIZE : Z := 104.
Definition NUM_VEC : nat := 256.

Definition SYS_CALL_NUM : Z := 0x80.
Definition TASK_GATE : Z := 0x05.
Definition INT_GATE : Z := 0x0E.
Definition TRAP_GATE : Z := 0x0F.
Definition PIC_MASTER_IDT : Z := 0x20.
Definition PIC_SLAVE_IDT : Z := 0x28.

Record idt_desc_t := mkIdt {
  offset_15_00 : Z; seg_selector : Z; reserved4 : Z; reserved3 : Z; reserved2 : Z; reserved1 : Z;
  idt_size : Z; reserved0 : Z; idt_dpl : Z; idt_present : Z; offset_31_16 : Z }.

Record seg_desc_t := mkSeg {
  seg_lim_15_00 : Z; base_15_00 : Z; base_23_16 : Z; seg_type : Z; seg_sys : Z; seg_dpl : Z;
  seg_present : Z; seg_lim_19_16 : Z; seg_avail : Z; seg_reserved : Z; seg_opsize : Z;
  seg_granularity : Z; base_31_24 : Z }.

(** The assembly linkage functions. *)
Inductive handler :=
| h_DIVIDE_ERROR | h_NMI_INTERRUPT | h_BREAKPOINT | h_OVERFLOW | h_BOUND_RANGE | h_INVALID_OPCODE
| h_DEVICE_NOT_AVAILABLE | h_DOUBLE_FAULT | h_INVALID_TSS | h_SEGMENT_MISSING | h_STACK_SEG_FAULT
| h_GENERAL_PROT | h_PAGE_FAULT | h_FLOAT_ERROR | h_ALIGN_CHECK | h_MACHINE_CHECK | h_FLOAT_EXCEP
| h_SYS_CALL | h_RTC | h_KEY.

(** The format strings of [entry]. *)
Inductive message :=
| M_magic | M_flags | M_mem | M_boot_device | M_cmdline | M_mod_start | M_mod_end | M_first_bytes
| M_byte | M_newline | M_both | M_elf | M_mmap | M_mmap_entry | M_enabling.

Class BootLayout := {
  handler_addr : handler -> Z;
  message_addr : message -> Z;
  boot_conv_buf : Z;            (* conv_buf of printf *)
  boot_args : Z;                (* where the arguments of printf are pushed *)
  ldt_addr : Z; ldt_limit : Z;  (* &ldt and ldt_size *)
  tss_addr : Z; tss_limit : Z   (* &tss and tss_size *)
}.

(** The tables and registers [entry] sets besides the kernel state. *)
Record tables := mkTables {
  t_idt : list idt_desc_t;
  t_ldt_desc : seg_desc_t;
  t_tss_desc : seg_desc_t;
  t_tss_ldt : Z;                (* tss.ldt_segment_selector *)
  t_tss_ss0 : Z;                (* tss.ss0 *)
  t_ldtr : Z; t_tr : Z; t_idtr : bool
}.

(** The instructions that load the task register, the LDT register and the IDT register (with
    [idt_desc_ptr], the address and size of the table). *)
Definition ltr (desc : Z) (t : tables) : tables :=
  mkTables (t_idt t) (t_ldt_desc t) (t_tss_desc t) (t_tss_ldt t) (t_tss_ss0 t) (t_ldtr t) desc (t_idtr t).

Definition lldt (desc : Z) (t : tables) : tables :=
  mkTables (t_idt t) (t_ldt_desc t) (t_tss_desc t) (t_tss_ldt t) (t_tss_ss0 t) desc (t_tr t) (t_idtr t).

Definition lidt (t : tables) : tables :=
  mkTables (t_idt t) (t_ldt_desc t) (t_tss_desc t) (t_tss_ldt t) (t_tss_ss0 t) (t_ldtr t) (t_tr t) true.

(** ** set_idt_entry *)

Definition SET_IDT_ENTRY (h : Z) (d : idt_desc_t) : idt_desc_t :=
  mkIdt (u16 (Z.land h 0xFFFF)) (seg_selector d) (reserved4 d) (reserved3 d) (reserved2 d)
    (reserved1 d) (idt_size d) (reserved0 d) (idt_dpl d) (idt_present d)
    (u16 (Z.shiftr (Z.land h 0xFFFF0000) 16)).

(** [dpl], [present] and [seg_selector] *)
Definition set_access (dpl present selector : Z) (d : idt_desc_t) : idt_desc_t :=
  mkIdt (offset_15_00 d) selector (reserved4 d) (reserved3 d) (reserved2 d) (reserved1 d)
    (idt_size d) (reserved0 d) dpl present (offset_31_16 d).

(** [reserved0] to [reserved4] and [size] *)
Definition set_gate (size res1 res2 res3 : Z) (d : idt_desc_t) : idt_desc_t :=
  mkIdt (offset_15_00 d) (seg_selector d) 0 res3 res2 res1 size 0 (idt_dpl d) (idt_present d)
    (offset_31_16 d).

Section Idt.
Context `{BootLayout}.

Definition idt_functions : list Z :=
  [handler_addr h_DIVIDE_ERROR; 1; handler_addr h_NMI_INTERRUPT; handler_addr h_BREAKPOINT;
   handler_addr h_OVERFLOW; handler_addr h_BOUND_RANGE; handler_addr h_INVALID_OPCODE;
   handler_addr h_DEVICE_NOT_AVAILABLE; handler_addr h_DOUBLE_FAULT; 1; handler_addr h_INVALID_TSS;
   handler_addr h_SEGMENT_MISSING; handler_addr h_STACK_SEG_FAULT; handler_addr h_GENERAL_PROT;
   handler_addr h_PAGE_FAULT; 1; handler_addr h_FLOAT_ERROR; handler_addr h_ALIGN_CHECK;
   handler_addr h_MACHINE_CHECK; handler_addr h_FLOAT_EXCEP].

Definition idt_protections : list Z := [0;0;0;3;3;3;0;0;0;0;0;0;0;0;0;0;0;0;0;0].

Definition idt_gates : list Z :=
  [TRAP_GATE; TRAP_GATE; INT_GATE; INT_GATE; TRAP_GATE; TRAP_GATE; TRAP_GATE; TRAP_GATE; TASK_GATE;
   TRAP_GATE; TRAP_GATE; TRAP_GATE; TRAP_GATE; TRAP_GATE; INT_GATE; TRAP_GATE; TRAP_GATE; TRAP_GATE;
   TRAP_GATE; TRAP_GATE].

(** [array[vector]] for the three tables; the code only asks for vectors below 20. *)
Definition at_vector (l : list Z) (vector : Z) : Z := default 0 (l !! Z.to_nat vector).

(** [size = (cur_gate & size_mask) >> 3], and so on. *)
Definition gate_bits (cur_gate : Z) : idt_desc_t -> idt_desc_t :=
  set_gate (Z.shiftr (Z.land cur_gate 0x08) 3) (Z.shiftr (Z.land cur_gate 0x04) 2)
    (Z.shiftr (Z.land cur_gate 0x02) 1) (Z.shiftr (Z.land cur_gate 0x01) 0).

(** The descriptor [set_idt_entry] makes of the old one; [in_function] is 0 for NULL. *)
Definition idt_entry (vector in_function : Z) (d : idt_desc_t) : idt_desc_t :=
  if negb (in_function =? 0) then
    set_gate 1 1 1 0 (set_access 0 1 KERNEL_CS (SET_IDT_ENTRY in_function d))
  else if (vector <? 20) && negb (vector =? 1) && negb (vector =? 9) && negb (vector =? 15) then
    let cur_gate := at_vector idt_gates vector in
    let d :=
      if cur_gate =? TASK_GATE then set_access 0 1 KERNEL_TSS (SET_IDT_ENTRY 1 d)
      else set_access (at_vector idt_protections vector) 1 KERNEL_CS
             (SET_IDT_ENTRY (at_vector idt_functions vector) d) in
    gate_bits cur_gate d
  else if vector =? SYS_CALL_NUM then
    gate_bits TRAP_GATE (set_access 3 1 KERNEL_CS (SET_IDT_ENTRY (handler_addr h_SYS_CALL) d))
  else if idt_present d =? 0 then
    set_gate 1 1 1 0 (set_access 0 0 KERNEL_CS (SET_IDT_ENTRY 1 d))
  else d.

Definition set_idt_entry (vector in_function : Z) (idt : list idt_desc_t) : list idt_desc_t :=
  alter (idt_entry vector in_function) (Z.to_nat vector) idt.

(** The part of [entry] that fills the table. *)
Definition fill_idt (idt : list idt_desc_t) : list idt_desc_t :=
  let idt := set_idt_entry PIC_SLAVE_IDT (handler_addr h_RTC) idt in
  let idt := set_idt_entry (PIC_MASTER_IDT + 1) (handler_addr h_KEY) idt in
  for_range 0 256 (fun i => set_idt_entry i 0) idt.
End Idt.

(** ** Segment descriptors *)

(** [SET_LDT_PARAMS] and [SET_TSS_PARAMS], which are the same. *)
Definition SET_SEG_PARAMS (addr lim : Z) (d : seg_desc_t) : seg_desc_t :=
  mkSeg (u16 (Z.land lim 0x0000FFFF)) (u16 (Z.land (u32 addr) 0x0000FFFF))
    (u8 (Z.shiftr (Z.land (u32 addr) 0x00FF0000) 16)) (seg_type d) (seg_sys d) (seg_dpl d) (seg_present d)
    (Z.shiftr (Z.land lim 0x000F0000) 16 mod 16) (seg_avail d) (seg_reserved d) (seg_opsize d)
    (seg_granularity d) (u8 (Z.shiftr (Z.land (u32 addr) 0xFF000000) 24)).

(** The local variables [the_ldt_desc] and [the_tss_desc] before their parameters are
    set; the parts not assigned are what the stack held. *)
Definition the_ldt_desc (junk : seg_desc_t) : seg_desc_t :=
  mkSeg (seg_lim_15_00 junk) (base_15_00 junk) (base_23_16 junk) 0x2 0 0 1 (seg_lim_19_16 junk)
    0 0 1 0 (base_31_24 junk).

Definition the_tss_desc (junk : seg_desc_t) : seg_desc_t :=
  mkSeg (u16 (Z.land TSS_SIZE 0x0000FFFF)) (base_15_00 junk) (base_23_16 junk) 0x9 0 0 1
    (Z.land TSS_SIZE 0x000F0000 mod 16) 0 0 0 0 (base_31_24 junk).

(** ** entry *)

Section Entry.
Context `{Ports} `{Layout} `{BootLayout}.

(** Words pushed for a call. *)
Fixpoint push_words (a : Z) (args : list Z) (m : mem) : mem :=
  match args with
  | [] => m
  | w :: rest => push_words (a + 4) rest (store32 m a w)
  end.

(** [printf(message, args...)] *)
Definition say (msg : message) (args : list Z) (s : kst) : kst :=
  snd (printf boot_conv_buf (message_addr msg) boot_args (upd_mem (push_words boot_args args) s)).

Definition MULTIBOOT_BOOTLOADER_MAGIC : Z := 0x2BADB002.

(** [CHECK_FLAG(flags, bit)] *)
Definition CHECK_FLAG (flags bit : Z) : bool := negb (Z.land flags (Z.shiftl 1 bit) =? 0).

(** The fields of [multiboot_info_t]. *)
Definition mb_flags (addr : Z) (s : kst) : Z := load32 (k_mem s) addr.
Definition mb_mem_lower (addr : Z) (s : kst) : Z := load32 (k_mem s) (addr + 4).
Definition mb_mem_upper (addr : Z) (s : kst) : Z := load32 (k_mem s) (addr + 8).
Definition mb_boot_device (addr : Z) (s : kst) : Z := load32 (k_mem s) (addr + 12).
Definition mb_cmdline (addr : Z) (s : kst) : Z := load32 (k_mem s) (addr + 16).
Definition mb_mods_count (addr : Z) (s : kst) : Z := load32 (k_mem s) (addr + 20).
Definition mb_mods_addr (addr : Z) (s : kst) : Z := load32 (k_mem s) (addr + 24).
Definition mb_elf_sec (addr i : Z) (s : kst) : Z := load32 (k_mem s) (addr + 28 + 4 * i).
Definition mb_mmap_length (addr : Z) (s : kst) : Z := load32 (k_mem s) (addr + 44).
Definition mb_mmap_addr (addr : Z) (s : kst) : Z := load32 (k_mem s) (addr + 48).

(** The report of one module: its place and its first 16 bytes. *)
Definition report_module (mod_count mod_ : Z) (s : kst) : kst :=
  let start := fun s => load32 (k_mem s) mod_ in
  let s := say M_mod_start [mod_count; start s] s in
  let s := say M_mod_end [mod_count; load32 (k_mem s) (mod_ + 4)] s in
  let s := say M_first_bytes [] s in
  let s := for_range 0 16 (fun i s => say M_byte [u32 (s8 (load8 (k_mem s) (start s + i)))] s) s in
  say M_newline [] s.

(** [while (mod_count < mbi->mods_count)] *)
Fixpoint report_modules (fuel : nat) (addr mod_count mod_ : Z) (s : kst) : kst :=
  match fuel with
  | O => s
  | S f =>
      if mod_count <? mb_mods_count addr s then
        report_modules f addr (mod_count + 1) (mod_ + 16) (report_module mod_count mod_ s)
      else s
  end.

(** The loop over the memory map. *)
Fixpoint report_mmap (fuel : nat) (addr mmap : Z) (s : kst) : kst :=
  match fuel with
  | O => s
  | S f =>
      if mmap <? u32 (mb_mmap_addr addr s + mb_mmap_length addr s) then
        let w := fun i => load32 (k_mem s) (mmap + 4 * i) in
        let s := say M_mmap_entry [w 0; w 2; w 1; w 5; w 4; w 3] s in
        report_mmap f addr (u32 (mmap + load32 (k_mem s) mmap + 4)) s
      else s
  end.

(** The report; the result is [None] where [entry] returns, and otherwise the address
    of the file system, which is [filesys_addr] when no modules are loaded. *)
Definition entry_report (magic addr filesys_addr : Z) (s : kst) : option Z * kst :=
  let s := clear s in
  if negb (magic =? MULTIBOOT_BOOTLOADER_MAGIC) then (None, say M_magic [magic] s) else
  let s := say M_flags [mb_flags addr s] s in
  let s := if CHECK_FLAG (mb_flags addr s) 0
           then say M_mem [mb_mem_lower addr s; mb_mem_upper addr s] s else s in
  let s := if CHECK_FLAG (mb_flags addr s) 1 then say M_boot_device [mb_boot_device addr s] s else s in
  let s := if CHECK_FLAG (mb_flags addr s) 2 then say M_cmdline [mb_cmdline addr s] s else s in
  let '(filesys_addr, s) :=
    if CHECK_FLAG (mb_flags addr s) 3 then
      let mod_ := mb_mods_addr addr s in
      (load32 (k_mem s) mod_, report_modules (Z.to_nat (mb_mods_count addr s)) addr 0 mod_ s)
    else (filesys_addr, s) in
  if CHECK_FLAG (mb_flags addr s) 4 && CHECK_FLAG (mb_flags addr s) 5 then (None, say M_both [] s) else
  let s := if CHECK_FLAG (mb_flags addr s) 5
           then say M_elf [mb_elf_sec addr 0 s; mb_elf_sec addr 1 s; mb_elf_sec addr 2 s; mb_elf_sec addr 3 s] s
           else s in
  let s := if CHECK_FLAG (mb_flags addr s) 6 then
             let s := say M_mmap [mb_mmap_addr addr s; mb_mmap_length addr s] s in
             report_mmap (Z.to_nat (mb_mmap_length addr s)) addr (mb_mmap_addr addr s) s
           else s in
  (Some filesys_addr, s).

(** The descriptors and the task state. *)
Definition setup_segments (junk : seg_desc_t) (t : tables) (s : kst) : tables * kst :=
  let t := mkTables (t_idt t) (SET_SEG_PARAMS ldt_addr ldt_limit (the_ldt_desc junk)) (t_tss_desc t)
             (t_tss_ldt t) (t_tss_ss0 t) (t_ldtr t) (t_tr t) (t_idtr t) in
  let t := lldt KERNEL_LDT t in
  let t := mkTables (t_idt t) (t_ldt_desc t) (SET_SEG_PARAMS tss_addr tss_limit (the_tss_desc junk))
             KERNEL_LDT KERNEL_DS (t_ldtr t) (t_tr t) (t_idtr t) in
  let t := ltr KERNEL_TSS t in
  (t, upd_cpu (set_tss_esp0 0x800000) s).

(** The rest of [entry] up to the loop that executes the shell. *)
Definition entry_setup (junk : seg_desc_t) (filesys_addr : Z) (t : tables) (s : kst) : tables * kst :=
  let '(t, s) := setup_segments junk t s in
  let s := cli s in
  let s := clear s in
  let t := lidt t in
  let s := i8259_init s in
  let s := mask_all_irqs s in
  let s := rtc_init s in
  let t := mkTables (fill_idt (t_idt t)) (t_ldt_desc t) (t_tss_desc t) (t_tss_ldt t) (t_tss_ss0 t)
             (t_ldtr t) (t_tr t) (t_idtr t) in
  let s := say M_enabling [] s in
  let s := sti s in
  let s := init_paging s in
  let s := init_filesys filesys_addr s in
  let s := clear s in
  (t, set_screen 0 0 s).

(** The whole of [entry]; [None] when it returns to boot.S. *)
Definition entry_main (junk : seg_desc_t) (magic addr filesys_addr : Z) (t : tables) (s : kst) : option (tables * kst) :=
  match entry_report magic addr filesys_addr s with
  | (None, _) => None
  | (Some fsa, s) => Some (entry_setup junk fsa t s)
  end.
End Entry.

(** ** The interrupt table *)

(** How the processor reads a descriptor: the gate type from the bits [size] to
    [reserved3], the privilege level, the selector and the handler. *)
Record gate := mkGate { g_type : Z; g_dpl : Z; g_selector : Z; g_handler : Z }.

Definition gate_of (d : idt_desc_t) : option gate :=
  if idt_present d =? 0 then None
  else Some (mkGate (8 * idt_size d + 4 * reserved1 d + 2 * reserved2 d + reserved3 d) (idt_dpl d)
               (seg_selector d) (65536 * offset_31_16 d + offset_15_00 d)).

(** The handler of each exception vector. *)
Definition exception_handler (v : Z) : option handler :=
  match v with
  | 0 => Some h_DIVIDE_ERROR | 2 => Some h_NMI_INTERRUPT | 3 => Some h_BREAKPOINT | 4 => Some h_OVERFLOW
  | 5 => Some h_BOUND_RANGE | 6 => Some h_INVALID_OPCODE | 7 => Some h_DEVICE_NOT_AVAILABLE
  | 10 => Some h_INVALID_TSS | 11 => Some h_SEGMENT_MISSING
  | 12 => Some h_STACK_SEG_FAULT | 13 => Some h_GENERAL_PROT | 14 => Some h_PAGE_FAULT
  | 16 => Some h_FLOAT_ERROR | 17 => Some h_ALIGN_CHECK | 18 => Some h_MACHINE_CHECK
  | 19 => Some h_FLOAT_EXCEP | _ => None
  end.

(** The table the kernel means to have: interrupt gates for the devices, for NMI,
    breakpoint and page fault, a task gate for the double fault, trap gates for the
    other exceptions and the system call; a program may raise vectors 3 to 5 and the
    system call. *)
Definition intended_gate `{BootLayout} (v : Z) : option gate :=
  if v =? 0x80 then Some (mkGate TRAP_GATE 3 KERNEL_CS (handler_addr h_SYS_CALL))
  else if v =? 0x28 then Some (mkGate INT_GATE 0 KERNEL_CS (handler_addr h_RTC))
  else if v =? 0x21 then Some (mkGate INT_GATE 0 KERNEL_CS (handler_addr h_KEY))
  else if v =? 8 then Some (mkGate TASK_GATE 0 KERNEL_TSS 1)
  else match exception_handler v with
       | Some h => Some (mkGate (if (v =? 2) || (v =? 3) || (v =? 14) then INT_GATE else TRAP_GATE)
                           (if (3 <=? v) && (v <=? 5) then 3 else 0) KERNEL_CS (handler_addr h))
       | None => None
       end.

Lemma offsets_handler h :
  0 <= h < 4294967296 ->
  65536 * u16 (Z.shiftr (Z.land h 0xFFFF0000) 16) + u16 (Z.land h 0xFFFF) = h.
Proof.
  intros Hh. change 0xFFFF with (Z.ones 16). rewrite Z.land_ones by lia.
  rewrite Z.shiftr_land. change (Z.shiftr 0xFFFF0000 16) with (Z.ones 16).
  rewrite Z.land_ones, Z.shiftr_div_pow2 by lia. change (2 ^ 16) with 65536. unfold u16. zdm.
Qed.

Section Filled.
Context `{BootLayout}.
Context (Haddr : forall h, 0 < handler_addr h < 4294967296).

Lemma handler_offsets h :
  65536 * u16 (Z.shiftr (Z.land (handler_addr h) 0xFFFF0000) 16) + u16 (Z.land (handler_addr h) 0xFFFF)
  = handler_addr h.
Proof using Haddr. apply offsets_handler. specialize (Haddr h). lia. Qed.

(** The descriptor number [j] of a set entry only depends on the old one. *)
Lemma set_idt_entry_lookup v f idt j :
  0 <= v -> set_idt_entry v f idt !! j =
  (if decide (Z.to_nat v = j) then idt_entry v f <$> idt !! j else idt !! j).
Proof using Type.
  intros Hv. unfold set_idt_entry. destruct (decide _) as [<-|Hne].
  - apply list_lookup_alter_eq.
  - by apply list_lookup_alter_ne.
Qed.

Lemma fill_loop_lookup idt j :
  (j < 256)%nat -> for_range 0 256 (fun i => set_idt_entry i 0) idt !! j = idt_entry (Z.of_nat j) 0 <$> idt !! j.
Proof using Type.
  intros Hj.
  assert (K : for_range 0 256 (fun i => set_idt_entry i 0) idt !! j =
    if Z.of_nat j <? 256 then idt_entry (Z.of_nat j) 0 <$> idt !! j else idt !! j).
  { apply (for_range_ind (fun k l => l !! j = if Z.of_nat j <? k then idt_entry (Z.of_nat j) 0 <$> idt !! j else idt !! j));
      [lia|by replace (Z.of_nat j <? 0) with false by lia|].
    intros i l Hi IH. rewrite set_idt_entry_lookup by lia. destruct (decide _) as [E|Hne].
    - rewrite IH. replace (Z.of_nat j <? i) with false by lia. replace (Z.of_nat j <? i + 1) with true by lia.
      now replace i with (Z.of_nat j) by lia.
    - rewrite IH. now replace (Z.of_nat j <? i + 1) with (Z.of_nat j <? i)
        by (destruct (Z.ltb_spec (Z.of_nat j) i), (Z.ltb_spec (Z.of_nat j) (i + 1)); lia). }
  rewrite K. now replace (Z.of_nat j <? 256) with true by lia.
Qed.

(** The gate of an entry that the loop sets, when it was absent before. *)
Lemma gate_of_entry v d :
  0 <= v < 256 -> v <> 0x21 -> v <> 0x28 -> idt_present d = 0 ->
  gate_of (idt_entry v 0 d) = intended_gate v.
Proof using Haddr.
  intros Hv H1 H2 Hp. unfold idt_entry. cbn [Z.eqb negb]. unfold intended_gate.
  rewrite (proj2 (Z.eqb_neq _ _) H1), (proj2 (Z.eqb_neq _ _) H2), Hp.
  destruct (Z.ltb_spec v 20) as [Hlt|Hge]; cbn [andb].
  - assert (Hc : v ∈ zseq 0 20) by (apply elem_of_zseq; lia).
    rewrite list_elem_of_In in Hc. vm_compute in Hc.
    repeat (destruct Hc as [<-|Hc]; [cbv -[u16 Z.land Z.shiftr Z.mul Z.add handler_addr]; rewrite ?handler_offsets; reflexivity|]).
    done.
  - unfold SYS_CALL_NUM. destruct (Z.eqb_spec v 0x80) as [->|Hne].
    + cbv -[u16 Z.land Z.shiftr Z.mul Z.add handler_addr]. rewrite handler_offsets. reflexivity.
    + cbn. replace (v =? 8) with false by lia. replace (exception_handler v) with (@None handler); [done|].
      symmetry. destruct v as [|p|p]; [lia| |lia]. unfold exception_handler.
      repeat (destruct p as [p|p|]; try reflexivity; try lia).
Qed.

(** The gate of a device vector: the loop leaves a present entry alone. *)
Lemma gate_of_device v h d :
  v = 0x21 \/ v = 0x28 ->
  gate_of (idt_entry v 0 (idt_entry v (handler_addr h) d)) = Some (mkGate INT_GATE 0 KERNEL_CS (handler_addr h)).
Proof using Haddr.
  intros Hv. assert (E : idt_entry v (handler_addr h) d =
    set_gate 1 1 1 0 (set_access 0 1 KERNEL_CS (SET_IDT_ENTRY (handler_addr h) d))).
  { unfold idt_entry. specialize (Haddr h). now replace (handler_addr h =? 0) with false by lia. }
  rewrite E. destruct Hv as [->| ->]; cbv -[u16 Z.land Z.shiftr Z.mul Z.add handler_addr];
    rewrite handler_offsets; reflexivity.
Qed.

Lemma fill_idt_gates idt v :
  length idt = NUM_VEC -> Forall (fun d => idt_present d = 0) idt -> 0 <= v < 256 ->
  exists d, fill_idt idt !! Z.to_nat v = Some d /\ gate_of d = intended_gate v.
Proof using Haddr.
  intros Hl Hp Hv. unfold NUM_VEC in Hl.
  destruct (lookup_lt_is_Some_2 idt (Z.to_nat v)) as [d Hd]; [lia|].
  assert (Hpd : idt_present d = 0) by (rewrite Forall_lookup in Hp; by eapply Hp).
  unfold fill_idt. rewrite fill_loop_lookup, !set_idt_entry_lookup by (unfold PIC_MASTER_IDT, PIC_SLAVE_IDT; lia).
  rewrite Hd, Z2Nat.id by lia. unfold PIC_MASTER_IDT, PIC_SLAVE_IDT.
  destruct (decide (v = 0x21)) as [->|H1].
  { eexists. split; [reflexivity|]. apply gate_of_device. by left. }
  destruct (decide (v = 0x28)) as [->|H2].
  { eexists. split; [reflexivity|]. apply gate_of_device. by right. }
  rewrite !decide_False by lia. eexists. split; [reflexivity|]. by apply gate_of_entry.
Qed.
End Filled.

(** ** What the steps of [entry_setup] leave alone *)

(** The components that printing does not touch. *)
Definition quiet (s s' : kst) : Prop :=
  k_pic s' = k_pic s /\ k_kbd s' = k_kbd s /\ k_fs s' = k_fs s /\ cur_pcb s' = cur_pcb s /\
  process_number s' = process_number s /\ k_cpu s' = k_cpu s.

Lemma quiet_trans s1 s2 s3 : quiet s1 s2 -> quiet s2 s3 -> quiet s1 s3.
Proof. intros (? & ? & ? & ? & ? & ?) (? & ? & ? & ? & ? & ?). repeat split; congruence. Qed.

Lemma type_chars_quiet l : forall s, quiet s (type_chars l s).
Proof.
  induction l as [|c l IH]; intros s; [by repeat split|].
  eapply quiet_trans; [|apply (IH (putc c s))]. unfold putc. destruct ((c =? 10) || (c =? 13)); by repeat split.
Qed.

(** "Enabling Interrupts" and a newline. *)
Definition enabling_text : list Z :=
  [69; 110; 97; 98; 108; 105; 110; 103; 32; 73; 110; 116; 101; 114; 114; 117; 112; 116; 115; 10].

Lemma mask_all_irqs_mem s : k_mem (mask_all_irqs s) = k_mem s /\ k_con (mask_all_irqs s) = k_con s /\
  k_cpu (mask_all_irqs s) = k_cpu s.
Proof.
  unfold mask_all_irqs. apply (for_range_ind (fun _ z => k_mem z = k_mem s /\ k_con z = k_con s /\ k_cpu z = k_cpu s));
    [lia|done|].
  intros j z _ IH. unfold disable_irq. destruct (j <? 8); exact IH.
Qed.

(** The objects the boot code works on: the tables, the dentries, the buffers of printf
    and the message are apart in kernel memory above 4 MB, as the first words of
    the file system image are. *)
Record boot_layout `{Layout} `{BootLayout} (kd k0 k1 fsa : Z) (m : mem) : Prop := {
  bl_paging : paging_layout kd k0 k1;
  bl_high : forall a, in_tables a -> KERNEL_LO <= a;
  bl_conv : KERNEL_LO <= boot_conv_buf /\ boot_conv_buf + 64 <= boot_args;
  bl_conv_tables : forall a, in_tables a -> ~ in_range boot_conv_buf 64 a;
  bl_open : KERNEL_LO <= open_dentry /\ forall a, in_tables a -> ~ in_range open_dentry 64 a;
  bl_read : KERNEL_LO <= read_dentry /\ forall a, in_tables a -> ~ in_range read_dentry 64 a;
  bl_fs : KERNEL_LO <= fsa < PROG_LO - 12 /\ disj boot_conv_buf 64 fsa 12 /\
          forall a, in_tables a -> ~ in_range fsa 12 a;
  bl_msg : KERNEL_LO <= message_addr M_enabling /\ disj boot_conv_buf 64 (message_addr M_enabling) 21;
  bl_msg_text : bytes m (message_addr M_enabling) 20 = enabling_text /\ load8 m (message_addr M_enabling + 20) = 0;
  bl_zero : forall j, 0 <= j < 1024 -> load32 m (page_table_1 + 4 * j) = 0;
  bl_addr : forall h, 0 < handler_addr h < 4294967296
}.

Section Setup.
Context `{Ports} `{Layout} `{BootLayout} (kd k0 k1 fsa : Z).

Lemma clear_low s : unchanged low (k_mem s) (k_mem (clear s)).
Proof using Type.
  apply (unchanged_weaken screen_bytes); [|exact (proj1 (clear_spec s))].
  unfold screen_bytes, in_range, low, VIDEO, KERNEL_LO, NUM_ROWS, NUM_COLS. lia.
Qed.

Lemma say_nil msg s : say msg [] s = (printf boot_conv_buf (message_addr msg) boot_args s).2.
Proof using Type.
  unfold say. replace (upd_mem (push_words boot_args []) s) with s by (by destruct s). done.
Qed.

(** The one message of the set-up. *)
Lemma say_enabling s :
  boot_layout kd k0 k1 fsa (k_mem s) -> tty 20 s ->
  quiet s (say M_enabling [] s) /\ unchanged (changed boot_conv_buf) (k_mem s) (k_mem (say M_enabling [] s)).
Proof using Type.
  intros BL Ht. destruct (bl_conv _ _ _ _ _ BL) as [Hc Ha]. destruct (bl_msg _ _ _ _ _ BL) as [Hm Hd].
  destruct (bl_msg_text _ _ _ _ _ BL) as [Hb Hz].
  assert (Htext : text_at (k_mem s) (message_addr M_enabling) enabling_text).
  { rewrite <- Hb. apply text_at_cstr. change 20%nat with (length enabling_text). apply is_cstr_of_bytes;
      [exact Hb|exact Hz|repeat (constructor; [lia|]); constructor]. }
  rewrite say_nil. unfold printf.
  destruct (printf_loop_spec (k_mem s) boot_conv_buf boot_args Hc Ha (S (mem_size (k_mem s))) enabling_text
    (message_addr M_enabling) 0 s s) as (s' & E & T);
    [exact Htext|exact Hm|exact Hd|reflexivity|lia|constructor| |exact Ht|
     split; [by destruct s|apply unchanged_refl]|apply unchanged_refl|].
  { pose proof (text_at_fuel _ _ _ Htext). lia. }
  rewrite Z.mul_0_r, Z.add_0_r in E. rewrite E. cbn [snd]. clear E.
  change (render _ None enabling_text _ 0) with enabling_text in T. destruct T as [E U].
  destruct (type_chars_tty enabling_text 0 s) as [_ U0]; [lia|exact Ht|].
  pose proof (type_chars_quiet enabling_text s) as Q.
  revert E U U0 Q. generalize (type_chars enabling_text s). intros t E U U0 Q. split.
  - eapply quiet_trans; [exact Q|]. rewrite E. by repeat split.
  - apply (unchanged_trans _ _ (k_mem t)); (eapply unchanged_weaken; [|eassumption]); unfold changed; tauto.
Qed.

Lemma boot_layout_unchanged m m' :
  boot_layout kd k0 k1 fsa m -> unchanged (changed boot_conv_buf) m m' -> boot_layout kd k0 k1 fsa m'.
Proof using Type.
  intros [L1 L2 L3 L4 L5 L6 L7 [L8 L8'] [L9 L9'] L10 L11] U. split; try assumption.
  - by split.
  - split; [erewrite unchanged_bytes; [exact L9|exact U|]|erewrite unchanged_load8; [exact L9'|exact U|]];
      unfold changed, low, in_range, disj in *; lia.
  - intros j Hj. erewrite unchanged_load32; [by apply L10|exact U|]. intros b Hb.
    assert (Ht : in_tables b) by (unfold in_tables, in_range in *; lia).
    intros [Hl|Hl]; [specialize (L2 b Ht); unfold low in Hl; lia|by apply (L4 b)].
Qed.

(** The steps before the message. *)
Definition setup_devices (s : kst) : kst :=
  rtc_init (mask_all_irqs (i8259_init (clear (cli (upd_cpu (set_tss_esp0 0x800000) s))))).

Lemma setup_devices_spec s :
  let s1 := setup_devices s in
  k_con s1 = k_con s /\ unchanged low (k_mem s) (k_mem s1) /\
  k_cpu s1 = set_if_flag false (set_tss_esp0 0x800000 (k_cpu s)) /\
  forall j, 0 <= j < 16 -> masked s1 j = true.
Proof using Type.
  intros s1. set (s0 := i8259_init (clear (cli (upd_cpu (set_tss_esp0 0x800000) s)))).
  destruct (mask_all_irqs_mem s0) as (Em & Ec & Eu). pose proof (mask_all_irqs_spec s0) as [_ Hm].
  assert (E : k_con s1 = k_con (mask_all_irqs s0) /\ k_mem s1 = k_mem (mask_all_irqs s0) /\
              k_cpu s1 = k_cpu (mask_all_irqs s0) /\ k_pic s1 = k_pic (mask_all_irqs s0)).
  { unfold s1, setup_devices. fold s0. generalize (mask_all_irqs s0). intros z. by repeat split. }
  destruct E as (E1 & E2 & E3 & E4). rewrite E1, E2, E3, Em, Ec, Eu.
  split; [reflexivity|]. split; [|split; [reflexivity|]].
  - apply (clear_low (cli (upd_cpu (set_tss_esp0 0x800000) s))).
  - intros j Hj. specialize (Hm j Hj). unfold masked in *. now rewrite E4.
Qed.

Lemma clear_dentry_frame d m : unchanged (in_range d 64) m (clear_dentry d m).
Proof using Type.
  unfold clear_dentry, DE_INODE, DE_FILETYPE, DE_RESERVED, NAME_LEN, RES_LEN.
  do 2 (eapply unchanged_trans; [|apply unchanged_store32; unfold in_range; lia]).
  apply unchanged_for_range. intros i m' Hi.
  assert (U : unchanged (in_range d 64) m' (store8 m' (d + i) 0))
    by (apply unchanged_store8; unfold in_range; lia).
  destruct (Z.ltb_spec i 24); [|exact U]. eapply unchanged_trans; [exact U|].
  apply unchanged_store8. unfold in_range. lia.
Qed.

(** The machine when the message is out: interrupts masked, the objects in place. *)
Lemma setup_said s :
  boot_layout kd k0 k1 fsa (k_mem s) -> tty 20 s ->
  let s2 := say M_enabling [] (setup_devices s) in
  boot_layout kd k0 k1 fsa (k_mem s2) /\ k_cpu s2 = set_if_flag false (set_tss_esp0 0x800000 (k_cpu s)) /\
  (forall j, 0 <= j < 16 -> masked s2 j = true) /\
  (forall i, 0 <= i < 3 -> load32 (k_mem s2) (fsa + 4 * i) = load32 (k_mem s) (fsa + 4 * i)).
Proof using Type.
  intros BL Ht s2. destruct (setup_devices_spec s) as (Ec & U1 & Eu & Hm).
  apply (unchanged_weaken _ (changed boot_conv_buf)) in U1; [|intros a Ha; by left].
  destruct (say_enabling (setup_devices s)) as [(Ep & _ & _ & _ & _ & Eq) U2];
    [by eapply boot_layout_unchanged|by eapply tty_con|]. fold s2 in Ep, Eq, U2.
  pose proof (unchanged_trans _ _ _ _ U1 U2) as U.
  split; [by eapply boot_layout_unchanged|]. split; [congruence|]. split.
  - intros j Hj. unfold masked. rewrite Ep. by apply Hm.
  - intros i Hi. eapply unchanged_load32; [exact U|]. destruct (bl_fs _ _ _ _ _ BL) as (Hr & Hd & _).
    unfold changed, low, in_range, disj in *. lia.
Qed.

(** The steps after [sti]. *)
Definition setup_memory (s : kst) : kst := set_screen 0 0 (clear (init_filesys fsa (init_paging s))).

Lemma set_screen_fields x y z :
  let z' := set_screen x y z in
  k_cpu z' = k_cpu z /\ k_pic z' = k_pic z /\ k_con z' = mkConsole x y /\ k_fs z' = k_fs z /\ k_mem z' = k_mem z.
Proof using Type. by destruct z as [? []]. Qed.

Lemma clear_fields z :
  k_cpu (clear z) = k_cpu z /\ k_pic (clear z) = k_pic z /\ k_fs (clear z) = k_fs z.
Proof using Type. by destruct z. Qed.

Lemma init_filesys_fields z :
  let z' := init_filesys fsa z in
  k_cpu z' = k_cpu z /\ k_pic z' = k_pic z /\
  k_fs z' = mkFilesys fsa (load32 (k_mem z) fsa) (load32 (k_mem z) (fsa + 4)) (load32 (k_mem z) (fsa + 8)) 0.
Proof using Type. by destruct z. Qed.

Lemma mount_fields z :
  let z' := set_screen 0 0 (clear (init_filesys fsa z)) in
  k_cpu z' = k_cpu z /\ k_pic z' = k_pic z /\ k_con z' = mkConsole 0 0 /\
  k_fs z' = mkFilesys fsa (load32 (k_mem z) fsa) (load32 (k_mem z) (fsa + 4)) (load32 (k_mem z) (fsa + 8)) 0 /\
  k_mem z' = k_mem (clear (init_filesys fsa z)).
Proof using Type.
  cbv zeta. destruct (set_screen_fields 0 0 (clear (init_filesys fsa z))) as (-> & -> & -> & -> & ->).
  destruct (clear_fields (init_filesys fsa z)) as (-> & -> & ->).
  by destruct (init_filesys_fields z) as (-> & -> & ->).
Qed.

Lemma init_filesys_built z :
  boot_layout kd k0 k1 fsa (k_mem z) -> tables_built (k_mem (init_paging z)) ->
  tables_built (k_mem (clear (init_filesys fsa (init_paging z)))).
Proof using Type.
  intros BL. generalize (init_paging z). intros y Hb. eapply tables_built_unchanged; [apply clear_low| |].
  { intros a Ha. pose proof (bl_high _ _ _ _ _ BL a Ha). unfold low. lia. }
  change (k_mem (init_filesys fsa y)) with (clear_dentry read_dentry (clear_dentry open_dentry (k_mem y))).
  eapply tables_built_unchanged; [apply clear_dentry_frame|apply (bl_read _ _ _ _ _ BL)|].
  eapply tables_built_unchanged; [apply clear_dentry_frame|apply (bl_open _ _ _ _ _ BL)|exact Hb].
Qed.

Lemma init_paging_pic s : k_pic (init_paging s) = k_pic s.
Proof using Type. reflexivity. Qed.

Lemma setup_memory_spec s :
  boot_layout kd k0 k1 fsa (k_mem s) ->
  let s' := setup_memory s in
  tables_built (k_mem s') /\ k_cpu s' = k_cpu (init_paging s) /\ k_pic s' = k_pic s /\
  k_con s' = mkConsole 0 0 /\
  k_fs s' = mkFilesys fsa (load32 (k_mem s) fsa) (load32 (k_mem s) (fsa + 4)) (load32 (k_mem s) (fsa + 8)) 0 /\
  (forall i, 0 <= i < 2000 -> load8 (k_mem s') (VIDEO + 2 * i) = 32 /\
                             load8 (k_mem s') (VIDEO + 2 * i + 1) = ATTRIB).
Proof using Type.
  intros BL s'. pose proof (bl_paging _ _ _ _ _ BL) as PL. destruct (bl_fs _ _ _ _ _ BL) as (Hr & _ & Hd).
  destruct (mount_fields (init_paging s)) as (E1 & E2 & E3 & E4 & E5).
  destruct (clear_spec (init_filesys fsa (init_paging s))) as [_ Hcells].
  unfold s', setup_memory. rewrite E1, E2, E3, E4, E5, init_paging_pic.
  split; [|split; [reflexivity|split; [reflexivity|split; [reflexivity|split; [|exact Hcells]]]]].
  - apply init_filesys_built; [exact BL|]. eapply init_paging_built; [exact PL|exact (bl_zero _ _ _ _ _ BL)].
  - unfold KERNEL_LO in Hr.
    assert (Hw : forall i, 0 <= i <= 8 -> load32 (k_mem (init_paging s)) (fsa + i) = load32 (k_mem s) (fsa + i)).
    { intros i Hi. apply init_paging_load32; [lia|lia|]. intros b Hb Ht. apply (Hd b Ht).
      unfold in_range in *. lia. }
    rewrite !Hw by lia. pose proof (Hw 0 ltac:(lia)) as E0. rewrite Z.add_0_r in E0. by rewrite E0.
Qed.
End Setup.

(** ** Segment descriptors as the processor reads them *)

Definition seg_base (d : seg_desc_t) : Z := base_15_00 d + 65536 * base_23_16 d + 16777216 * base_31_24 d.
Definition seg_limit (d : seg_desc_t) : Z := seg_lim_15_00 d + 65536 * seg_lim_19_16 d.

Lemma land_field x k n : 0 <= k -> 0 <= n -> Z.shiftr (Z.land x (Z.shiftl (Z.ones n) k)) k = x / 2 ^ k mod 2 ^ n.
Proof.
  intros Hk Hn. rewrite Z.shiftr_land, Z.shiftr_shiftl_l, Z.sub_diag, Z.shiftl_0_r by lia.
  by rewrite Z.land_ones, Z.shiftr_div_pow2 by lia.
Qed.

Lemma SET_SEG_PARAMS_reads addr lim d :
  0 <= addr < 4294967296 -> 0 <= lim < 1048576 ->
  seg_base (SET_SEG_PARAMS addr lim d) = addr /\ seg_limit (SET_SEG_PARAMS addr lim d) = lim.
Proof.
  intros Ha Hl. unfold seg_base, seg_limit, SET_SEG_PARAMS. cbn [base_15_00 base_23_16 base_31_24 seg_lim_15_00 seg_lim_19_16].
  replace (u32 addr) with addr by (unfold u32; zdm).
  change 0x00FF0000 with (Z.shiftl (Z.ones 8) 16). change 0xFF000000 with (Z.shiftl (Z.ones 8) 24).
  change 0x000F0000 with (Z.shiftl (Z.ones 4) 16).
  rewrite (land_field addr 16 8), (land_field addr 24 8), (land_field lim 16 4) by lia.
  change 0x0000FFFF with (Z.ones 16). rewrite !Z.land_ones by lia.
  change (2 ^ 16) with 65536. change (2 ^ 8) with 256. change (2 ^ 24) with 16777216. change (2 ^ 4) with 16.
  unfold u16, u8. split; zdm.
Qed.

(** ** Theorems *)

(** C29 The interrupt table the kernel fills before it enables interrupts: starting from a
    table without present descriptors, each of the 256 vectors gets the gate that is
    meant for it, with the right type, privilege, selector and handler, and the
    vectors without a handler stay absent. *)
Theorem idt_correct `{BootLayout} idt :
  (forall h, 0 < handler_addr h < 4294967296) ->
  length idt = NUM_VEC -> Forall (fun d => idt_present d = 0) idt ->
  forall v, 0 <= v < 256 ->
    exists d, fill_idt idt !! Z.to_nat v = Some d /\ gate_of d = intended_gate v.
Proof. intros Ha Hl Hp v Hv. by apply fill_idt_gates. Qed.

(** C7 Boot: after the set-up of entry every interrupt vector has its gate, all sixteen
    interrupt lines are masked and interrupts are on, the task state points at the
    kernel stack at 8 MB and at the kernel data segment, its descriptor and that of
    the LDT hold their address and limit, paging is on and translates every address
    as intended, the file system is mounted from the module, and the screen is blank
    with the cursor home. *)
Theorem boot_ready `{Ports} `{Layout} `{BootLayout} kd k0 k1 fsa junk t s :
  boot_layout kd k0 k1 fsa (k_mem s) -> tty 20 s ->
  length (t_idt t) = NUM_VEC -> Forall (fun d => idt_present d = 0) (t_idt t) ->
  0 <= tss_addr < 4294967296 -> 0 <= tss_limit < 1048576 ->
  0 <= ldt_addr < 4294967296 -> 0 <= ldt_limit < 1048576 ->
  let '(t', s') := entry_setup junk fsa t s in
  (forall v, 0 <= v < 256 -> exists d, t_idt t' !! Z.to_nat v = Some d /\ gate_of d = intended_gate v) /\
  t_idtr t' = true /\
  (seg_base (t_tss_desc t') = tss_addr /\ seg_limit (t_tss_desc t') = tss_limit /\
   seg_base (t_ldt_desc t') = ldt_addr /\ seg_limit (t_ldt_desc t') = ldt_limit) /\
  (t_tr t' = KERNEL_TSS /\ t_ldtr t' = KERNEL_LDT /\ t_tss_ldt t' = KERNEL_LDT /\
   t_tss_ss0 t' = KERNEL_DS /\ tss_esp0 (k_cpu s') = 0x800000) /\
  (if_flag (k_cpu s') = true /\ forall j, 0 <= j < 16 -> masked s' j = true) /\
  (Z.testbit (cr0 (k_cpu s')) 31 = true /\
   forall va, 0 <= va < 4294967296 -> translate (k_mem s') (ret_dir_ptr s') va = intended_map va) /\
  k_fs s' = mkFilesys fsa (load32 (k_mem s) fsa) (load32 (k_mem s) (fsa + 4)) (load32 (k_mem s) (fsa + 8)) 0 /\
  k_con s' = mkConsole 0 0 /\
  (forall i, 0 <= i < 2000 -> load8 (k_mem s') (VIDEO + 2 * i) = 32 /\
                             load8 (k_mem s') (VIDEO + 2 * i + 1) = ATTRIB).
Proof.
  intros BL Ht Hl Hp Ha1 Hl1 Ha2 Hl2. unfold entry_setup, setup_segments, ltr, lldt, lidt. cbn [t_idt t_ldt_desc t_tss_desc t_tss_ldt
    t_tss_ss0 t_ldtr t_tr t_idtr]. fold (setup_devices s).
  destruct (setup_said _ _ _ _ s BL Ht) as (BL2 & Eu & Hm & Hf). revert BL2 Eu Hm Hf.
  generalize (say M_enabling [] (setup_devices s)). intros s2 BL2 Eu Hm Hf.
  fold (setup_memory fsa (sti s2)).
  destruct (setup_memory_spec kd k0 k1 fsa (sti s2) BL2) as (Hb & Ec & Epic & Econ & Efs & Hcells).
  pose proof (bl_paging _ _ _ _ _ BL) as PL. destruct (init_paging_regs kd k0 k1 PL (sti s2)) as (Ed & H31 & _).
  assert (Edir : ret_dir_ptr (setup_memory fsa (sti s2)) = page_directory)
    by (unfold ret_dir_ptr; rewrite Ec; exact Ed).
  split; [intros v Hv; apply fill_idt_gates; [exact (bl_addr _ _ _ _ _ BL)|done..]|].
  split; [done|]. split.
  { destruct (SET_SEG_PARAMS_reads tss_addr tss_limit (the_tss_desc junk) Ha1 Hl1) as [-> ->].
    by destruct (SET_SEG_PARAMS_reads ldt_addr ldt_limit (the_ldt_desc junk) Ha2 Hl2) as [-> ->]. }
  split.
  { repeat (split; [reflexivity|]). rewrite Ec. transitivity (tss_esp0 (k_cpu s2)); [reflexivity|by rewrite Eu]. }
  split.
  { split; [by rewrite Ec|]. intros j Hj. unfold masked. rewrite Epic. by apply Hm. }
  split.
  { split; [by rewrite Ec|]. intros va Hva. rewrite Edir. by eapply tables_built_translate. }
  split; [|by split].
  rewrite Efs. change (k_mem (sti s2)) with (k_mem s2).
  pose proof (Hf 0 ltac:(lia)) as E0. pose proof (Hf 1 ltac:(lia)) as E1. pose proof (Hf 2 ltac:(lia)) as E2.
  rewrite Z.mul_0_r, Z.add_0_r in E0. rewrite Z.mul_1_r in E1. change (4 * 2) with 8 in E2. by rewrite E0, E1, E2.
Qed.

(** ** A concrete boot *)

Definition boot_test_layout : Layout := {|
  filename_buf := 0x403000; open_dentry := 0x403100; read_dentry := 0x403200; key_buf := 0x403300;
  page_directory := 0x410000; page_table_0 := 0x411000; page_table_1 := 0x412000;
  rtc_table := 0x403400; dir_table := 0x403410; file_table := 0x403420; terminal_table := 0x403430 |}.

Definition boot_test : BootLayout := {|
  handler_addr h := match h with
    | h_DIVIDE_ERROR => 0x401000 | h_NMI_INTERRUPT => 0x401010 | h_BREAKPOINT => 0x401020
    | h_OVERFLOW => 0x401030 | h_BOUND_RANGE => 0x401040 | h_INVALID_OPCODE => 0x401050
    | h_DEVICE_NOT_AVAILABLE => 0x401060 | h_DOUBLE_FAULT => 0x401070 | h_INVALID_TSS => 0x401080
    | h_SEGMENT_MISSING => 0x401090 | h_STACK_SEG_FAULT => 0x4010A0 | h_GENERAL_PROT => 0x4010B0
    | h_PAGE_FAULT => 0x4010C0 | h_FLOAT_ERROR => 0x4010D0 | h_ALIGN_CHECK => 0x4010E0
    | h_MACHINE_CHECK => 0x4010F0 | h_FLOAT_EXCEP => 0x401100 | h_SYS_CALL => 0x401110
    | h_RTC => 0x401120 | h_KEY => 0x401130 end;
  message_addr _ := 0x404000; boot_conv_buf := 0x405000; boot_args := 0x405100;
  ldt_addr := 0x406000; ldt_limit := 15; tss_addr := 0x407000; tss_limit := 104 |}.

Definition boot_test_idt : list idt_desc_t := replicate NUM_VEC (mkIdt 0 0 0 0 0 0 0 0 0 0 0).

Definition boot_test_seg : seg_desc_t := mkSeg 0 0 0 0 0 0 0 0 0 0 0 0 0.

(** Memory with the message; the module is the zero bytes at 5 MB. *)
Definition boot_test_state : kst :=
  mkKst (store_list (Mem ∅ ∅ 0) 0x404000 enabling_text) (mkConsole 0 0) (mkPic 0 0) 0
    (mkKeyboard 0 0 0 0 0 0 0) (mkFilesys 0 0 0 0 0) 0 0 (mkCpu false 0 0 0 0) [].

Lemma boot_test_handlers h : 0 < @handler_addr boot_test h < 4294967296.
Proof. destruct h; cbn; lia. Qed.

Lemma boot_test_absent : Forall (fun d => idt_present d = 0) boot_test_idt.
Proof. apply Forall_replicate. reflexivity. Qed.

Lemma boot_test_zero a : ~ in_range 0x404000 20 a -> load8 (k_mem boot_test_state) a = 0.
Proof.
  intros Ha. unfold boot_test_state. cbn [k_mem].
  erewrite unchanged_load8; [|apply unchanged_store_list|exact Ha].
  unfold load8, byte_at. cbn [kbytes ubytes tlb]. rewrite !lookup_empty. cbn [default].
  rewrite lookup_empty. by destruct (in_window a).
Qed.

Lemma boot_test_ok : @boot_layout boot_test_layout boot_test 0x410 0x411 0x412 0x500000 (k_mem boot_test_state).
Proof.
  split; unfold in_tables, in_range, disj, KERNEL_LO, PROG_LO; cbn -[enabling_text boot_test_state bytes load8];
    try lia; try (split; [lia|intros; lia]); try (split; [lia|split; [lia|intros; lia]]).
  - split; cbn; lia.
  - split; [reflexivity|]. apply boot_test_zero. unfold in_range. lia.
  - intros j Hj. unfold load32. rewrite !boot_test_zero by (unfold in_range; lia). reflexivity.
  - exact boot_test_handlers.
Qed.

Lemma idt_correct_witness :
  exists d, @fill_idt boot_test boot_test_idt !! Z.to_nat 14 = Some d /\
            gate_of d = Some (mkGate INT_GATE 0 KERNEL_CS 0x4010C0).
Proof.
  exact (@idt_correct boot_test boot_test_idt boot_test_handlers eq_refl boot_test_absent 14 ltac:(lia)).
Defined.

Lemma boot_ready_witness :
  let '(_, s') := @entry_setup (fun _ _ => 0) boot_test_layout boot_test boot_test_seg 0x500000
    (mkTables boot_test_idt boot_test_seg boot_test_seg 0 0 0 0 false) boot_test_state in
  translate (k_mem s') (ret_dir_ptr s') 0x400123 = Some (0x400123, false) /\
  k_fs s' = mkFilesys 0x500000 0 0 0 0.
Proof.
  pose proof (@boot_ready (fun _ _ => 0) boot_test_layout boot_test 0x410 0x411 0x412 0x500000 boot_test_seg
    (mkTables boot_test_idt boot_test_seg boot_test_seg 0 0 0 0 false) boot_test_state boot_test_ok
    ltac:(unfold tty; cbn; unfold NUM_COLS; lia) eq_refl boot_test_absent
    ltac:(cbn; lia) ltac:(cbn; lia) ltac:(cbn; lia) ltac:(cbn; lia)) as K.
  revert K. generalize (@entry_setup (fun _ _ => 0) boot_test_layout boot_test boot_test_seg 0x500000
    (mkTables boot_test_idt boot_test_seg boot_test_seg 0 0 0 0 false) boot_test_state).
  intros [t' s'] (_ & _ & _ & _ & _ & (_ & Hmap) & Hfs & _). split.
  - exact (Hmap 0x400123 ltac:(lia)).
  - rewrite Hfs. unfold load32. rewrite !boot_test_zero by (unfold in_range; lia). reflexivity.
Defined.
