(* ===== verification/Kernel.v ===== *)
(** * The kernel as a state machine

    Once booted, the kernel runs when a vector of the interrupt table fires: the
    keyboard, the clock, a system call of a program or an exception.  [kstep] is one
    such event, or a program writing to its own page or the screen page; [kernel_ok] is what holds in
    every state the machine can reach from the end of the boot code, whatever the
    programs do: the mask registers, the number of processes, the line buffer, the
    keyboard modes, the control registers and the mounted file system. *)

From S2P Require Import Prelude Mem CString State Console Printf I8259 Pcb Rtc Filesys Keyboard Paging Syscalls Process Trap Boot.

(** ** Events *)

(** The state in which a trap leaves the kernel; [None] when it does not. *)
Definition trap_state (r : trap_result) : option kst :=
  match r with
  | Iret _ s | Enter _ _ _ _ s | Return _ _ s | StackLost s => Some s
  | NoReturn => None
  end.

Section Steps.
Context `{Ports} `{Layout} `{Traps}.

(** KEY_HANDLER, RTC_HANDLER, SYS_CALL_HANDLER and the code of halt, which the
    exceptions and the return of a program with status 0 jump to. *)
Inductive kstep : kst -> kst -> Prop :=
| step_key s : kstep s (key_handler s)
| step_clock s : kstep s (rtc_handler s)
| step_call eax ebx ecx edx s s' :
    trap_state (SYS_CALL_HANDLER eax ebx ecx edx s) = Some s' -> kstep s s'
| step_halt ebx s s' : trap_state (linkage_halt ebx s) = Some s' -> kstep s s'
| step_program m s :
    unchanged (fun a => in_window a = true \/ screen_bytes a) (k_mem s) m -> kstep s (set_k_mem m s).

Definition reachable : kst -> kst -> Prop := rtc kstep.
End Steps.

(** ** The invariant *)

(** The modes of the keyboard driver: flags are 0 or 1, caps lock is complemented. *)
Record kbd_ok (k : keyboard) : Prop := {
  kb_index : 0 <= key_buf_index k <= KEY_BUF_SIZE;
  kb_dict : 0 <= dict k <= 2;
  kb_enter : enter_flag k = 0 \/ enter_flag k = 1;
  kb_shift : shift_mode k = 0 \/ shift_mode k = 1;
  kb_ctrl : ctrl_mode k = 0 \/ ctrl_mode k = 1;
  kb_caps : caps_mode k = 0 \/ caps_mode k = -1
}.

(** The lines of the keyboard, the second controller and the clock. *)
Definition used_line (i : Z) : bool := (i =? 1) || (i =? 2) || (i =? 8).

(** The masks are bytes, the controllers hold them, and no line but the used ones
    is open. *)
Record pic_ok (s : kst) : Prop := {
  po_synced : pic_synced s;
  po_bytes : 0 <= master_mask (k_pic s) < 256 /\ 0 <= slave_mask (k_pic s) < 256;
  po_lines : forall i, 0 <= i < 16 -> used_line i = false -> masked s i = true
}.

Record kernel_ok (fs : filesys) (dir : Z) (s : kst) : Prop := {
  ko_pic : pic_ok s;
  ko_kbd : kbd_ok (k_kbd s);
  ko_procs : 0 <= process_number s <= 6;
  ko_dir : ret_dir_ptr s = dir;
  ko_paging : Z.testbit (cr0 (k_cpu s)) 31 = true /\ Z.testbit (cr4 (k_cpu s)) 4 = true;
  ko_fs : k_fs s = fs
}.

(** ** Steps that touch none of this *)

(** The masks, the keyboard, the process count, the control registers and the file
    system are the same, and the controllers have been told nothing new. *)
Record idle (s s' : kst) : Prop := {
  id_pic : k_pic s' = k_pic s;
  id_kbd : k_kbd s' = k_kbd s;
  id_fs : k_fs s' = k_fs s;
  id_procs : process_number s' = process_number s;
  id_cr : cr0 (k_cpu s') = cr0 (k_cpu s) /\ cr3 (k_cpu s') = cr3 (k_cpu s) /\ cr4 (k_cpu s') = cr4 (k_cpu s);
  id_io : last_out (MASTER_8259_PORT + 1) (k_io s') = last_out (MASTER_8259_PORT + 1) (k_io s) /\
          last_out (SLAVE_8259_PORT + 1) (k_io s') = last_out (SLAVE_8259_PORT + 1) (k_io s)
}.

#[export] Instance idle_preorder : PreOrder idle.
Proof.
  split.
  - intros s. by split.
  - intros s1 s2 s3 [A1 A2 A3 A4 (A5 & A6 & A7) [A8 A9]] [B1 B2 B3 B4 (B5 & B6 & B7) [B8 B9]].
    split; repeat split; congruence.
Qed.

Lemma pic_ok_idle s s' : idle s s' -> pic_ok s -> pic_ok s'.
Proof.
  intros [E _ _ _ _ [I1 I2]] [P1 P2 P3]. split; unfold pic_synced, masked in *.
  - by rewrite I1, I2, E.
  - by rewrite E.
  - intros i Hi Hu. rewrite E. by apply P3.
Qed.

Lemma kernel_ok_idle fs dir s s' : idle s s' -> kernel_ok fs dir s -> kernel_ok fs dir s'.
Proof.
  intros I [K1 K2 K3 K4 K5 K6]. pose proof I as [E1 E2 E3 E4 (E5 & E6 & E7) _]. split.
  - by eapply pic_ok_idle.
  - by rewrite E2.
  - by rewrite E4.
  - unfold ret_dir_ptr in *. by rewrite E6.
  - by rewrite E5, E7.
  - by rewrite E3.
Qed.

(** A straight-line step that is idle. *)
Ltac idle_step := split; repeat split; reflexivity.

Lemma idle_mem f s : idle s (upd_mem f s).
Proof. idle_step. Qed.

Lemma idle_set_mem m s : idle s (set_k_mem m s).
Proof. idle_step. Qed.

Lemma idle_on_mem f s : idle s (on_mem f s).2.
Proof. unfold on_mem. destruct (f (k_mem s)) as [r m]. apply idle_set_mem. Qed.

Lemma idle_cli s : idle s (cli s).
Proof. idle_step. Qed.

Lemma idle_sti s : idle s (sti s).
Proof. idle_step. Qed.

Lemma idle_send_eoi irq s : idle s (send_eoi irq s).
Proof. unfold send_eoi. destruct (8 <=? irq); idle_step. Qed.

Lemma idle_set_screen x y s : idle s (set_screen x y s).
Proof. idle_step. Qed.

Lemma idle_clear s : idle s (clear s).
Proof. apply idle_mem. Qed.

Lemma idle_cursor s : idle s (set_cursor_pos s).
Proof. idle_step. Qed.

Lemma idle_con f s : idle s (upd_con f s).
Proof. idle_step. Qed.

Create HintDb idle.
#[export] Hint Resolve idle_mem idle_set_mem idle_cli idle_sti idle_send_eoi idle_set_screen idle_clear idle_cursor idle_con : idle.

Lemma idle_scroll s : idle s (vertical_scroll s).
Proof. unfold vertical_scroll. do 2 (etrans; [apply idle_mem|]). apply idle_set_screen. Qed.

Lemma idle_put_cell c s : idle s (put_cell c s).
Proof. apply idle_mem. Qed.

Lemma idle_putc_terminal c s : idle s (putc_terminal c s).
Proof.
  unfold putc_terminal. etrans; [|apply idle_cursor]. destruct (c =? 9); [apply idle_con|].
  destruct ((c =? 10) || (c =? 13)).
  - etrans; [apply (idle_con (fun k => mkConsole 0 (screen_y k + 1)))|].
    destruct (NUM_ROWS - 1 <=? _); [apply idle_scroll|reflexivity].
  - etrans; [apply (idle_put_cell c s)|]. destruct (_ && _); [apply idle_scroll|apply idle_con].
Qed.

Lemma idle_delete_cell s : idle s (delete_cell s).
Proof.
  unfold delete_cell. destruct (0 <? _); [etrans; [apply idle_mem|apply idle_set_screen]|].
  destruct (_ =? 0); [etrans; [apply idle_mem|apply idle_set_screen]|reflexivity].
Qed.

Lemma idle_deletec c s : idle s (deletec_terminal c s).
Proof.
  unfold deletec_terminal. apply (for_range_ind (fun _ z => idle s z)); [destruct (c =? 9); unfold tab_size; lia|reflexivity|].
  intros j z _ I. etrans; [exact I|apply idle_delete_cell].
Qed.

(** ** The keyboard *)

Lemma kbd_ok_modes input k : kbd_ok k -> kbd_ok (key_modes input k).
Proof.
  intros [B1 B2 B3 B4 B5 B6]. unfold key_modes.
  repeat (match goal with |- kbd_ok (let x := _ in _) => cbv zeta end).
  repeat (match goal with |- context [if ?b then _ else _] => destruct b end; cbn [set_mode_flag set_enter_flag
    set_shift_mode set_caps_mode set_ctrl_mode set_dict caps_mode shift_mode ctrl_mode dict enter_flag key_buf_index mode_flag]);
  split; cbn [key_buf_index dict enter_flag shift_mode ctrl_mode caps_mode set_dict set_mode_flag set_enter_flag
    set_shift_mode set_caps_mode set_ctrl_mode]; auto; try lia; destruct B6 as [-> | ->]; auto.
Qed.

Section Invariant.
Context `{Ports} `{Layout} `{Traps} (fs : filesys) (dir : Z).

Definition ok : kst -> Prop := kernel_ok fs dir.

Lemma ok_kbd f s : ok s -> kbd_ok (f (k_kbd s)) -> ok (upd_kbd f s).
Proof using Type. intros [[P1 P2 P3] K2 K3 K4 K5 K6] Hf. by split; [split|..]. Qed.

Lemma ok_add_to_buffer c s : ok s -> ok (add_to_buffer c s).
Proof using Type.
  intros K. unfold add_to_buffer. destruct (Z.ltb_spec (key_buf_index (k_kbd s)) KEY_BUF_SIZE) as [Hlt|]; [|exact K].
  apply ok_kbd; [eapply kernel_ok_idle; [apply idle_mem|exact K]|].
  destruct (ko_kbd _ _ _ K). split; cbn; (assumption || lia).
Qed.

Lemma ok_process_to_buffer input s : ok s -> ok (process_to_buffer input s).
Proof using Type.
  intros K. unfold process_to_buffer. destruct (negb _).
  - destruct (_ || _); [|exact K]. eapply kernel_ok_idle; [|exact K]. etrans; [apply idle_clear|apply idle_set_screen].
  - destruct (_ <? _); [|exact K]. apply ok_add_to_buffer. eapply kernel_ok_idle; [apply idle_putc_terminal|exact K].
Qed.

Lemma ok_key_backspace s : ok s -> ok (key_backspace s).
Proof using Type.
  intros K. unfold key_backspace. destruct (Z.ltb_spec 0 (key_buf_index (k_kbd s))) as [Hlt|]; [|exact K].
  pose proof (idle_deletec (load8 (k_mem s) (key_buf + (key_buf_index (k_kbd s) - 1))) s) as I.
  revert I. generalize (deletec_terminal (load8 (k_mem s) (key_buf + (key_buf_index (k_kbd s) - 1))) s). intros z I.
  apply ok_kbd.
  - eapply kernel_ok_idle; [|exact K]. etrans; [exact I|apply idle_mem].
  - cbn. rewrite (id_kbd _ _ I). destruct (ko_kbd _ _ _ K). split; cbn; (assumption || lia).
Qed.

Lemma ok_eoi irq s : ok s -> ok (sti (send_eoi irq s)).
Proof using Type. apply kernel_ok_idle. etrans; [apply idle_send_eoi|apply idle_sti]. Qed.

Lemma ok_key_event input s : ok s -> ok (key_event input s).
Proof using Type.
  intros K. unfold key_event. apply ok_eoi.
  assert (K1 : ok (upd_kbd (key_modes input) s)) by (apply ok_kbd; [exact K|apply kbd_ok_modes, K]).
  revert K1. generalize (upd_kbd (key_modes input) s). intros z K1.
  destruct (_ || _); [by apply ok_eoi|]. destruct (_ =? 8); [by apply ok_key_backspace|].
  apply ok_process_to_buffer. destruct (_ =? 10); [|exact K1]. apply ok_kbd; [exact K1|].
  destruct (ko_kbd _ _ _ K1). split; cbn; auto.
Qed.

Lemma ok_key_handler s : ok s -> ok (key_handler s).
Proof using Type.
  intros K. unfold key_handler. cbn [inb]. apply ok_key_event. eapply kernel_ok_idle; [|exact K]. idle_step.
Qed.

Lemma ok_key_press input s : ok s -> ok (key_press input s).
Proof using Type.
  intros K. unfold key_press. apply ok_key_event. eapply kernel_ok_idle; [|exact K]. idle_step.
Qed.

(** ** The terminal and the clock *)

Lemma ok_clear_key_buffer s : ok s -> ok (clear_key_buffer s).
Proof using Type.
  intros K. unfold clear_key_buffer. apply ok_kbd; [eapply kernel_ok_idle; [apply idle_mem|exact K]|].
  destruct (ko_kbd _ _ _ K). split; cbn; (assumption || unfold KEY_BUF_SIZE; lia).
Qed.

Lemma ok_take_line buf s : ok s -> ok (take_line buf s).2.
Proof using Type.
  intros K. unfold take_line. cbn [snd]. apply ok_clear_key_buffer, ok_kbd; [eapply kernel_ok_idle; [apply idle_mem|exact K]|].
  destruct (ko_kbd _ _ _ K). split; cbn; auto.
Qed.

Lemma ok_wait_enter buf sched : forall s r s', ok s -> wait_enter sched buf s = Some (r, s') -> ok s'.
Proof using Type.
  induction sched as [|keys sched IH]; intros s r s' K; cbn [wait_enter]; destruct (_ =? 1).
  - intros [= _ <-]. exact (ok_take_line buf s K).
  - done.
  - intros [= _ <-]. exact (ok_take_line buf s K).
  - apply IH. clear IH. revert s K. induction keys as [|k keys IHk]; intros s K; [exact K|].
    cbn [fold_left]. by apply IHk, ok_key_press.
Qed.

Lemma ok_terminal_read sched fd buf nbytes s r s' :
  ok s -> terminal_read sched fd buf nbytes s = Some (r, s') -> ok s'.
Proof using Type.
  intros K. unfold terminal_read. destruct (negb _); [by intros [= <- <-]|]. by apply ok_wait_enter, ok_clear_key_buffer.
Qed.

Lemma idle_write_loop fuel : forall buf n i s, idle s (write_loop fuel buf n i s).2.
Proof using Type.
  induction fuel as [|f IH]; intros buf n i s; cbn [write_loop]; [reflexivity|].
  destruct (i <? n); [|reflexivity]. etrans; [apply idle_putc_terminal|apply IH].
Qed.

Lemma idle_terminal_write fd buf n s : idle s (terminal_write fd buf n s).2.
Proof using Type.
  unfold terminal_write. destruct (negb _); [reflexivity|].
  pose proof (idle_write_loop (S (Z.to_nat n)) buf n 0 (cli s)) as I.
  destruct (write_loop _ _ _ _ _) as [ix z]. cbn [snd] in *.
  etrans; [apply idle_cli|]. etrans; [exact I|apply idle_sti].
Qed.

Lemma idle_clock_handler s : idle s (rtc_handler s).
Proof using Type. unfold rtc_handler. cbn [inb]. etrans; [|apply idle_sti]. etrans; [|apply idle_send_eoi]. idle_step. Qed.

Lemma idle_rtc_read sched : forall s r s', rtc_read sched s = Some (r, s') -> idle s s'.
Proof using Type.
  induction sched as [|t sched IH]; intros s r s'; cbn [rtc_read]; destruct (negb _).
  - intros [= _ <-]. idle_step.
  - done.
  - intros [= _ <-]. idle_step.
  - intros E. apply IH in E. etrans; [|exact E]. destruct t; [|idle_step].
    etrans; [|apply idle_clock_handler]. idle_step.
Qed.

Lemma idle_rtc_write fd buf n s : idle s (rtc_write fd buf n s).2.
Proof using Type.
  unfold rtc_write. destruct (negb _); [reflexivity|]. destruct (_ || _); [reflexivity|]. idle_step.
Qed.

Lemma idle_rtc_close fd s : idle s (rtc_close fd s).2.
Proof using Type.
  unfold rtc_close. destruct (_ || _); [reflexivity|]. destruct (negb _); [reflexivity|].
  destruct (_ =? 0); [reflexivity|apply idle_mem].
Qed.

Lemma idle_terminal_close fd s : idle s (terminal_close fd s).2.
Proof using Type.
  unfold terminal_close. destruct (_ || _); [reflexivity|]. destruct (_ =? 0); [reflexivity|apply idle_mem].
Qed.

Lemma idle_rtc_open_rest i s :
  idle s (if (if find_fd (k_mem s) (cur_pcb s) <? 8 then find_fd (k_mem s) (cur_pcb s) else -1) =? -1
          then (-1, s) else (i, sti (upd_mem (rtc_fd_init (cur_pcb s)
            (if find_fd (k_mem s) (cur_pcb s) <? 8 then find_fd (k_mem s) (cur_pcb s) else -1)) s))).2.
Proof using Type. destruct (_ =? -1); [reflexivity|]. etrans; [apply idle_mem|apply idle_sti]. Qed.

(** Opening a line changes its mask bit only. *)
Lemma ok_enable_irq i s : used_line i = true -> ok s -> ok (enable_irq i s).
Proof using Type.
  intros Hu [[P1 P2 P3] K2 K3 K4 K5 K6].
  assert (Hi : 0 <= i < 16) by (unfold used_line in Hu; lia). split.
  - split; [by apply pic_synced_enable| |].
    + unfold enable_irq. destruct (i <? 8); cbn; split; (apply u8_range || apply P2).
    + intros j Hj Hn. rewrite masked_enable by done. destruct (Z.eqb_spec j i) as [->|]; [congruence|]. by apply P3.
  - unfold enable_irq. destruct (i <? 8); exact K2.
  - unfold enable_irq. destruct (i <? 8); exact K3.
  - rewrite <- K4. unfold enable_irq. destruct (i <? 8); reflexivity.
  - unfold enable_irq. destruct (i <? 8); exact K5.
  - unfold enable_irq. destruct (i <? 8); exact K6.
Qed.

Lemma ok_rtc_open filename s : ok s -> ok (rtc_open filename s).2.
Proof using Type.
  intros K. unfold rtc_open. cbn [inb].
  match goal with |- context [enable_irq 8 (enable_irq 2 ?x)] => set (s0 := x) end.
  assert (K1 : ok (enable_irq 8 (enable_irq 2 s0))).
  { apply ok_enable_irq; [done|]. apply ok_enable_irq; [done|]. eapply kernel_ok_idle; [|exact K]. idle_step. }
  revert K1. generalize (enable_irq 8 (enable_irq 2 s0)). intros z K1.
  eapply kernel_ok_idle; [|exact K1]. etrans; [|apply idle_rtc_open_rest]. idle_step.
Qed.

Lemma ok_terminal_open filename s : ok s -> ok (terminal_open filename s).2.
Proof using Type.
  intros K. apply (ok_kbd _ (key_open s)); [by apply ok_enable_irq|].
  assert (E : k_kbd (key_open s) = k_kbd s) by (by unfold key_open, enable_irq).
  rewrite E. destruct (ko_kbd _ _ _ K). split; cbn; (assumption || lia || auto).
Qed.

Lemma ok_open_ptr o filename s : ok s -> ok (open_ptr o filename s).2.
Proof using Type.
  destruct o; cbn [open_ptr]; [apply ok_rtc_open|apply kernel_ok_idle, idle_on_mem..|apply ok_terminal_open].
Qed.

Lemma idle_close_ptr o fd s : idle s (close_ptr o fd s).2.
Proof using Type. destruct o; [apply idle_rtc_close|apply idle_on_mem..|apply idle_terminal_close]. Qed.

Lemma ok_read_ptr o sc fd buf n s r s' : ok s -> read_ptr o sc fd buf n s = Some (r, s') -> ok s'.
Proof using Type.
  intros K. destruct o; cbn [read_ptr].
  - intros E. eapply kernel_ok_idle; [by eapply idle_rtc_read|exact K].
  - intros [= E]. eapply kernel_ok_idle; [|exact K].
    replace s' with (on_mem (dir_read (k_fs s) (cur_pcb s) fd buf n) s).2 by (by rewrite E). apply idle_on_mem.
  - intros [= E]. eapply kernel_ok_idle; [|exact K].
    replace s' with (on_mem (file_read (k_fs s) (cur_pcb s) fd buf n) s).2 by (by rewrite E). apply idle_on_mem.
  - by apply ok_terminal_read.
Qed.

Lemma idle_write_ptr o fd buf n s : idle s (write_ptr o fd buf n s).2.
Proof using Type. destruct o; [apply idle_rtc_write|apply idle_on_mem..|apply idle_terminal_write]. Qed.

(** ** The system calls *)

(** Passes the guards of a handler, behind which the state is the old one. *)
Ltac guards := repeat (match goal with |- (if ?b then _ else _) = _ -> _ => destruct b; [by intros [= <- <-]|] end).

Lemma ok_sys_open dentry filename s : ok s -> ok (sys_open_c dentry filename s).2.
Proof using Type.
  intros K. unfold sys_open_c. destruct (_ =? 0); [exact K|].
  pose proof (idle_on_mem (read_dentry_by_name (k_fs s) filename dentry) s) as I.
  destruct (on_mem _ s) as [r z]. cbn [snd] in I. apply (kernel_ok_idle _ _ _ _ I) in K.
  destruct (r =? -1); [exact K|]. destruct (8 <=? _); [exact K|]. destruct (ops_of_type _) as [o t].
  set (z1 := upd_mem _ z). assert (K1 : ok z1) by (eapply kernel_ok_idle; [apply idle_mem|exact K]).
  pose proof (ok_open_ptr o filename z1 K1) as K2. by destruct (open_ptr o filename z1).
Qed.

Lemma ok_sys_read sc fd buf n s r s' : ok s -> sys_read_c sc fd buf n s = Some (r, s') -> ok s'.
Proof using Type.
  intros K. unfold sys_read_c. guards.
  destruct (fd_ops fd s) as [o|]; [|done]. by apply ok_read_ptr.
Qed.

Lemma ok_sys_write fd buf n s r s' : ok s -> sys_write_c fd buf n s = Some (r, s') -> ok s'.
Proof using Type.
  intros K. unfold sys_write_c. guards.
  destruct (fd_ops fd s) as [o|]; [|done]. intros [= E]. eapply kernel_ok_idle; [|exact K].
  replace s' with (write_ptr o fd buf n s).2 by (by rewrite E). apply idle_write_ptr.
Qed.

Lemma ok_sys_close fd s r s' : ok s -> sys_close_c fd s = Some (r, s') -> ok s'.
Proof using Type.
  intros K. unfold sys_close_c. guards.
  destruct (fd_ops fd s) as [o|]; [|done]. intros [= E]. eapply kernel_ok_idle; [|exact K].
  replace s' with (close_ptr o fd s).2 by (by rewrite E). apply idle_close_ptr.
Qed.

Lemma ok_sys_getargs fuel buf n s r s' : ok s -> sys_getargs_c fuel buf n s = Some (r, s') -> ok s'.
Proof using Type.
  intros K. unfold sys_getargs_c. destruct (find_space _ _ _ _); [|done]. destruct (copy_args _ _ _ _ _ _ _) as [[ix m]|]; [|done].
  intros [= _ <-]. eapply kernel_ok_idle; [apply idle_set_mem|exact K].
Qed.

Lemma ok_sys_vidmap p s : ok s -> ok (sys_vidmap_c p s).2.
Proof using Type.
  intros K. unfold sys_vidmap_c. destruct (_ || _); [exact K|]. destruct (_ =? 0); [exact K|].
  eapply kernel_ok_idle; [apply idle_mem|exact K].
Qed.

Lemma idle_close_all fuel : forall fd s s', close_all fuel fd s = Some s' -> idle s s'.
Proof using Type.
  induction fuel as [|f IH]; intros fd s s'; cbn [close_all]; [by intros [= <-]|].
  destruct (fd_open fd s); [|apply IH]. destruct (fd_ops fd s) as [o|]; [|done].
  intros E. apply IH in E. etrans; [apply (idle_close_ptr o fd s)|exact E].
Qed.

Lemma switch_page_procs page base s : process_number (switch_page page base s) = process_number s.
Proof using Type. reflexivity. Qed.

Lemma ok_switch_page page base s : ok s -> ok (switch_page page base s).
Proof using Type.
  intros K. unfold switch_page. set (z := upd_mem _ s).
  assert (K1 : ok z) by (eapply kernel_ok_idle; [apply idle_mem|exact K]). clearbody z. clear K s.
  pose proof (ret_dir_ptr_reload z) as Ed. destruct K1 as [[P1 P2 P3] K2 K3 K4 K5 K6].
  split; [by split|exact K2|exact K3|by rewrite Ed|exact K5|exact K6].
Qed.

Lemma ok_procs n s : ok s -> 0 <= n <= 6 -> ok (set_process_number n s).
Proof using Type. intros [[P1 P2 P3] K2 K3 K4 K5 K6] Hn. by split; [split|..]. Qed.

Lemma idle_cur_pcb p s : idle s (set_cur_pcb p s).
Proof using Type. idle_step. Qed.

Lemma idle_esp0 v s : idle s (upd_cpu (set_tss_esp0 v) s).
Proof using Type. idle_step. Qed.

Lemma ok_sys_halt status s v ebp s' : ok s -> sys_halt_c status s = Some (v, ebp, s') -> ok s'.
Proof using Type.
  intros K. pose proof (ko_procs _ _ _ K) as Hp. unfold sys_halt_c.
  destruct (Z.leb_spec (process_number s) 0) as [|Hpos]; [by intros [= _ _ <-]|].
  assert (K1 : ok (set_process_number (u32 (process_number s - 1)) s))
    by (apply ok_procs; [exact K|rewrite u32_small; lia]).
  revert K1. generalize (set_process_number (u32 (process_number s - 1)) s). intros z K1.
  destruct (_ =? 0); [by intros [= _ _ <-]|]. destruct (close_all 8 0 z) as [z2|] eqn:Ec; [|done].
  apply idle_close_all in Ec. apply (kernel_ok_idle _ _ _ _ Ec) in K1.
  generalize (get_bigPage PRO_IDX z). intros page [= _ _ <-].
  eapply kernel_ok_idle; [apply idle_cur_pcb|]. apply ok_switch_page.
  eapply kernel_ok_idle; [apply idle_esp0|exact K1].
Qed.

Lemma idle_find_program l command s : idle s (find_program l command s).2.
Proof using Type.
  unfold find_program. destruct (copy_word _ _ _ _ _) as [ix m].
  destruct (read_dentry_by_name _ _ _ _) as [r m1]. destruct (r =? -1); [apply idle_set_mem|].
  destruct (negb _); [apply idle_set_mem|]. destruct (read_data _ _ _ _ _ _ _ _) as [r2 m2].
  destruct (r2 =? -1); [apply idle_set_mem|]. destruct (negb _); apply idle_set_mem.
Qed.

Lemma ok_load_program l inode page s :
  ok s -> ok (load_program l inode page s) /\ process_number (load_program l inode page s) = process_number s.
Proof using Type.
  intros K. unfold load_program. set (z := upd_mem _ s).
  assert (K1 : ok z) by (eapply kernel_ok_idle; [apply idle_mem|exact K]).
  assert (E1 : process_number z = process_number s) by reflexivity. clearbody z.
  pose proof (ok_switch_page page (program_frame (process_number z)) z K1) as K2.
  pose proof (switch_page_procs page (program_frame (process_number z)) z) as E2.
  revert K2 E2. generalize (switch_page page (program_frame (process_number z)) z). intros y K2 E2.
  pose proof (idle_on_mem (read_data (k_fs y) (cur_pcb y) inode 0 USER_PROG FOUR_MB (-1)) y) as I.
  split; [by eapply kernel_ok_idle|]. rewrite (id_procs _ _ I). congruence.
Qed.

Lemma terminal_open_procs filename s : process_number (terminal_open filename s).2 = process_number s.
Proof using Type. reflexivity. Qed.

Lemma ok_build_pcb p s : ok s -> ok (build_pcb p s) /\ process_number (build_pcb p s) = process_number s.
Proof using Type.
  intros K. unfold build_pcb. set (z := upd_mem _ s).
  assert (K1 : ok z) by (eapply kernel_ok_idle; [apply idle_mem|exact K]).
  assert (E1 : process_number z = process_number s) by reflexivity. clearbody z.
  pose proof (ok_terminal_open 0 z K1) as K2. pose proof (terminal_open_procs 0 z) as E2.
  revert K2 E2. generalize (terminal_open 0 z).2. intros y K2 E2. split; [|cbn; congruence].
  eapply kernel_ok_idle; [|exact K2]. do 2 (etrans; [apply idle_mem|]). apply idle_mem.
Qed.

Lemma ok_install_pcb l s : ok s -> process_number s < 6 -> ok (install_pcb l s).
Proof using Type.
  intros K Hp. pose proof (ko_procs _ _ _ K) as Hr. unfold install_pcb. apply ok_procs.
  - eapply kernel_ok_idle; [|exact K]. etrans; [apply idle_mem|apply idle_cur_pcb].
  - change (process_number (set_cur_pcb _ _)) with (process_number s). rewrite u32_small; lia.
Qed.

(** A state that an execute ends in. *)
Definition exec_state (r : exec_result) : option kst :=
  match r with ExecFail s | ExecEnter _ _ _ _ s => Some s | ExecHang => None end.

Lemma ok_sys_execute l command s s' : ok s -> exec_state (sys_execute_c l command s) = Some s' -> ok s'.
Proof using Type.
  intros K. unfold sys_execute_c. destruct (Z.leb_spec 6 (process_number s)) as [|Hlt]; [by intros [= <-]|].
  pose proof (idle_find_program l command s) as I. destruct (find_program l command s) as [r z]. cbn [snd] in I.
  apply (kernel_ok_idle _ _ _ _ I) in K. rewrite <- (id_procs _ _ I) in Hlt. clear I s.
  destruct r as [inode|]; [|by intros [= <-]]. destruct (strcpy _ _ _) as [m|]; [|done].
  set (y := set_k_mem m z). assert (K1 : ok y) by (eapply kernel_ok_idle; [apply idle_set_mem|exact K]).
  assert (Hy : process_number y < 6) by exact Hlt. clearbody y. clear K Hlt z m.
  generalize (get_bigPage PRO_IDX y). intros page. cbv zeta. destruct (page =? 0); [by intros [= <-]|].
  destruct (ok_load_program l inode page y K1) as [K2 E2]. revert K2 E2. generalize (load_program l inode page y). intros x K2 E2.
  destruct (ok_build_pcb (l_new_pcb l) x K2) as [K3 E3]. revert K3 E3. generalize (build_pcb (l_new_pcb l) x). intros w K3 E3.
  pose proof (ok_install_pcb l w K3 ltac:(lia)) as K4. revert K4. generalize (install_pcb l w). intros v K4.
  intros [= <-]. eapply kernel_ok_idle; [|exact K4]. etrans; [apply idle_esp0|apply idle_mem].
Qed.

(** ** Every event *)

Lemma ok_linkage_halt ebx s s' : ok s -> trap_state (linkage_halt ebx s) = Some s' -> ok s'.
Proof using Type.
  intros K. unfold linkage_halt. destruct (sys_halt_c _ _) as [[[v ebp] z]|] eqn:E; [|done].
  apply (ok_sys_halt _ _ _ _ _ K) in E. destruct (v =? -1); [destruct (halt_stack_delta =? 0)|]; by intros [= <-].
Qed.

Lemma ok_return_of r s' : (forall v z, r = Some (v, z) -> ok z) -> trap_state (return_of r) = Some s' -> ok s'.
Proof using Type. intros Hr. destruct r as [[v z]|]; [|done]. intros [= <-]. by eapply Hr. Qed.

Lemma ok_run_label t ebx ecx edx s s' : ok s -> trap_state (run_label t ebx ecx edx s) = Some s' -> ok s'.
Proof using Type.
  intros K. destruct t; cbn [run_label]; try (apply ok_return_of; intros v z).
  - by apply ok_linkage_halt.
  - unfold linkage_execute. pose proof (ok_sys_execute exec_locals ebx s) as Hx.
    destruct (sys_execute_c _ _ _); cbn [trap_state exec_state] in *; [|intros [= <-]; by eapply Hx|done].
    intros [= <-]. by eapply Hx.
  - by apply ok_sys_read.
  - by apply ok_sys_write.
  - intros [= E]. replace z with (sys_open_c open_local ebx s).2 by (by rewrite E). by apply ok_sys_open.
  - by apply ok_sys_close.
  - by apply ok_sys_getargs.
  - intros [= E]. replace z with (sys_vidmap_c ebx s).2 by (by rewrite E). by apply ok_sys_vidmap.
  - by apply ok_sys_getargs.
  - by intros [= _ <-].
Qed.

Lemma ok_step s s' : kstep s s' -> ok s -> ok s'.
Proof using Type.
  intros Hs K. destruct Hs as [s|s|eax ebx ecx edx s s' E|ebx s s' E|m s U].
  - by apply ok_key_handler.
  - eapply kernel_ok_idle; [apply idle_clock_handler|exact K].
  - unfold SYS_CALL_HANDLER in E. destruct (10 <? eax); [by injection E as <-|].
    destruct (eax <? 1); [by injection E as <-|]. destruct (jump_table !! _) as [t|]; [|done].
    by eapply ok_run_label.
  - by eapply ok_linkage_halt.
  - eapply kernel_ok_idle; [apply idle_set_mem|exact K].
Qed.

Lemma ok_reachable s s' : reachable s s' -> ok s -> ok s'.
Proof using Type. induction 1 as [|s1 s2 s3 Hs _ IH]; [done|]. intros K. apply IH. by eapply ok_step. Qed.
End Invariant.

(** ** Printing is idle *)

Lemma idle_putc c s : idle s (putc c s).
Proof.
  unfold putc. etrans; [|apply idle_cursor]. destruct (_ || _); [apply idle_con|].
  etrans; [apply (idle_put_cell c)|apply idle_con].
Qed.

Lemma idle_puts_loop fuel : forall p i s, idle s (puts_loop fuel p i s).2.
Proof.
  induction fuel as [|f IH]; intros p i s; cbn [puts_loop]; [reflexivity|].
  destruct (_ =? 0); [reflexivity|]. etrans; [apply idle_putc|apply IH].
Qed.

Lemma idle_puts p s : idle s (puts p s).2.
Proof. apply idle_puts_loop. Qed.

Lemma idle_puts_after p f s : idle s (puts p (upd_mem f s)).2.
Proof. etrans; [apply idle_mem|apply idle_puts]. Qed.

Lemma idle_printf_conv c alt cb esp s : idle s (printf_conv c alt cb esp s).2.
Proof.
  unfold printf_conv. destruct (c =? 37); [apply idle_putc|]. destruct (c =? 120).
  - destruct (negb alt); [apply idle_puts_after|]. etrans; [apply idle_mem|apply idle_puts_after].
  - destruct (c =? 117); [apply idle_puts_after|]. destruct (c =? 100).
    + cbn [snd]. destruct (_ <? 0); apply idle_puts_after.
    + destruct (c =? 99); [apply idle_putc|]. destruct (c =? 115); [apply idle_puts|reflexivity].
Qed.

Lemma idle_printf_loop fuel : forall cb buf esp s, idle s (printf_loop fuel cb buf esp s).2.
Proof.
  induction fuel as [|f IH]; intros cb buf esp s; cbn [printf_loop]; [reflexivity|].
  destruct (_ =? 0); [reflexivity|]. destruct (_ =? 37).
  - match goal with |- context [printf_conv ?c ?a cb esp s] => pose proof (idle_printf_conv c a cb esp s) as I;
      destruct (printf_conv c a cb esp s) as [taken z] end.
    etrans; [exact I|apply IH].
  - etrans; [apply idle_putc|apply IH].
Qed.

Section Boot.
Context `{Ports} `{Layout} `{BootLayout}.

Lemma idle_say msg args s : idle s (say msg args s).
Proof using Type.
  unfold say, printf. etrans; [apply (idle_mem (push_words boot_args args))|].
  match goal with |- context [printf_loop ?f ?c ?b ?e ?z] => pose proof (idle_printf_loop f c b e z) as I;
    destruct (printf_loop f c b e z) end. exact I.
Qed.

Lemma idle_report_module n p s : idle s (report_module n p s).
Proof using Type.
  unfold report_module. cbv zeta. etrans; [|apply idle_say].
  apply (for_range_ind (fun _ y => idle s y)); [lia| |].
  - do 2 (etrans; [|apply idle_say]). apply idle_say.
  - intros j y _ I. etrans; [exact I|apply idle_say].
Qed.

Lemma idle_report_modules fuel : forall addr n p s, idle s (report_modules fuel addr n p s).
Proof using Type.
  induction fuel as [|f IH]; intros addr n p s; cbn [report_modules]; [reflexivity|].
  destruct (_ <? _); [|reflexivity]. etrans; [apply idle_report_module|apply IH].
Qed.

Lemma idle_report_mmap fuel : forall addr p s, idle s (report_mmap fuel addr p s).
Proof using Type.
  induction fuel as [|f IH]; intros addr p s; cbn [report_mmap]; [reflexivity|].
  destruct (_ <? _); [|reflexivity]. etrans; [apply idle_say|apply IH].
Qed.

Lemma idle_if (b : bool) s z : idle s z -> idle s (if b then z else s).
Proof using Type. by destruct b. Qed.

(** Goes past the first report of the goal. *)
Ltac pass_report :=
  match goal with |- idle ?z _ =>
    match goal with |- context [if ?b then say ?m ?a z else z] =>
      etrans; [exact (idle_if b z (say m a z) (idle_say m a z))|];
      generalize (if b then say m a z else z); clear z; intros z
    end
  end.

Lemma idle_entry_report magic addr fa s : idle s (entry_report magic addr fa s).2.
Proof using Type.
  unfold entry_report. etrans; [apply (idle_clear s)|]. generalize (clear s). clear s. intros z. cbv zeta.
  destruct (negb _); [apply idle_say|].
  etrans; [apply (idle_say M_flags [mb_flags addr z])|]. generalize (say M_flags [mb_flags addr z] z). clear z. intros z.
  do 3 pass_report.
  assert (I : idle z (if CHECK_FLAG (mb_flags addr z) 3
    then (load32 (k_mem z) (mb_mods_addr addr z), report_modules (Z.to_nat (mb_mods_count addr z)) addr 0 (mb_mods_addr addr z) z)
    else (fa, z)).2) by (destruct (CHECK_FLAG _ 3); [apply idle_report_modules|reflexivity]).
  destruct (if CHECK_FLAG (mb_flags addr z) 3 then _ else _) as [fa' y]. etrans; [exact I|]. cbn [snd]. clear I z.
  destruct (_ && _); [apply idle_say|]. cbn [snd]. pass_report.
  destruct (CHECK_FLAG _ 6); [|reflexivity]. etrans; [|apply idle_report_mmap]. apply idle_say.
Qed.

(** The masks are bytes once every line has been masked. *)
Lemma mask_all_irqs_fields s :
  let z := mask_all_irqs s in
  (0 <= master_mask (k_pic z) < 256 /\ 0 <= slave_mask (k_pic z) < 256) /\
  k_kbd z = k_kbd s /\ process_number z = process_number s.
Proof using Type.
  assert (K : (0 < 16 -> 0 <= master_mask (k_pic (mask_all_irqs s)) < 256) /\
    (8 < 16 -> 0 <= slave_mask (k_pic (mask_all_irqs s)) < 256) /\
    k_kbd (mask_all_irqs s) = k_kbd s /\ process_number (mask_all_irqs s) = process_number s).
  { apply (for_range_ind (fun k z => (0 < k -> 0 <= master_mask (k_pic z) < 256) /\
      (8 < k -> 0 <= slave_mask (k_pic z) < 256) /\ k_kbd z = k_kbd s /\ process_number z = process_number s));
      [lia|by repeat split; lia|].
    intros j z Hj (M & S & Ek & Ep). unfold disable_irq. destruct (Z.ltb_spec j 8); cbn [upd_pic set_k_pic outb log_io set_k_io
      k_pic set_master_mask set_slave_mask master_mask slave_mask k_kbd process_number].
    - split; [intros; apply u8_range|]. split; [intros; lia|by split].
    - split; [intros; apply M; lia|]. split; [intros; apply u8_range|by split]. }
  destruct K as (K1 & K2 & K3 & K4). by repeat split; try apply K1; try apply K2.
Qed.

Lemma setup_devices_ok s :
  let z := setup_devices s in pic_ok z /\ k_kbd z = k_kbd s /\ process_number z = process_number s.
Proof using Type.
  unfold setup_devices. cbv zeta. set (y := i8259_init _).
  assert (Ey : k_kbd y = k_kbd s /\ process_number y = process_number s) by (by split). clearbody y.
  destruct (mask_all_irqs_spec y) as [Hs Hm]. destruct (mask_all_irqs_fields y) as (Hb & Ek & Ep).
  revert Hs Hm Hb Ek Ep. generalize (mask_all_irqs y). intros z Hs Hm Hb Ek Ep.
  assert (I : idle z (rtc_init z)) by idle_step.
  split; [eapply pic_ok_idle; [exact I|]; split; [exact Hs|exact Hb|intros i Hi _; by apply Hm]|].
  rewrite (id_kbd _ _ I), (id_procs _ _ I). destruct Ey. split; congruence.
Qed.

Lemma init_paging_fields z :
  k_pic (init_paging z) = k_pic z /\ k_io (init_paging z) = k_io z /\ k_kbd (init_paging z) = k_kbd z /\
  process_number (init_paging z) = process_number z.
Proof using Type. by repeat split. Qed.

Lemma pic_ok_fields s s' : k_pic s' = k_pic s -> k_io s' = k_io s -> pic_ok s -> pic_ok s'.
Proof using Type.
  intros E1 E2 [P1 P2 P3]. split; unfold pic_synced, masked in *; rewrite E1; [by rewrite E2|exact P2|exact P3].
Qed.

Lemma setup_memory_ok fsa z :
  pic_ok z -> pic_ok (setup_memory fsa z) /\ k_kbd (setup_memory fsa z) = k_kbd z /\
  process_number (setup_memory fsa z) = process_number z /\ k_cpu (setup_memory fsa z) = k_cpu (init_paging z).
Proof using Type.
  intros P. unfold setup_memory. destruct (init_paging_fields z) as (F1 & F2 & F3 & F4).
  apply (pic_ok_fields z (init_paging z) F1 F2) in P. revert P F3 F4. generalize (init_paging z). clear F1 F2. intros y P F3 F4.
  assert (P1 : pic_ok (init_filesys fsa y)) by (by apply (pic_ok_fields y)).
  assert (E1 : k_kbd (init_filesys fsa y) = k_kbd y /\ process_number (init_filesys fsa y) = process_number y /\
    k_cpu (init_filesys fsa y) = k_cpu y) by (by destruct y).
  revert P1 E1. generalize (init_filesys fsa y). intros x P1 (E1 & E2 & E3).
  assert (I : idle x (set_screen 0 0 (clear x))) by (etrans; [apply idle_clear|apply idle_set_screen]).
  split; [by eapply pic_ok_idle|]. rewrite (id_kbd _ _ I), (id_procs _ _ I). split; [congruence|]. split; [congruence|].
  destruct (set_screen_fields 0 0 (clear x)) as (-> & _). destruct (clear_fields x) as (-> & _). exact E3.
Qed.

Lemma entry_setup_ok kd k0 k1 junk fsa t s :
  paging_layout kd k0 k1 -> kbd_ok (k_kbd s) -> 0 <= process_number s <= 6 ->
  let s' := (entry_setup junk fsa t s).2 in kernel_ok (k_fs s') page_directory s'.
Proof using Type.
  intros PL Hk Hp. unfold entry_setup, setup_segments. cbn [snd]. fold (setup_devices s).
  destruct (setup_devices_ok s) as (P1 & E1 & E2). revert P1 E1 E2. generalize (setup_devices s). intros z P1 E1 E2.
  assert (I : idle z (sti (say M_enabling [] z))) by (etrans; [apply idle_say|apply idle_sti]).
  apply (pic_ok_idle _ _ I) in P1. rewrite <- (id_kbd _ _ I) in E1. rewrite <- (id_procs _ _ I) in E2.
  revert P1 E1 E2. generalize (sti (say M_enabling [] z)). clear I z. intros z P1 E1 E2. fold (setup_memory fsa z).
  destruct (setup_memory_ok fsa z P1) as (P2 & F1 & F2 & F3).
  destruct (init_paging_regs kd k0 k1 PL z) as (Ed & H31 & H4 & _).
  revert P2 F1 F2 F3. generalize (setup_memory fsa z). intros y P2 F1 F2 F3. split; [exact P2| | | | |reflexivity].
  - by rewrite F1, E1.
  - by rewrite F2, E2.
  - unfold ret_dir_ptr in *. by rewrite F3.
  - by rewrite F3.
Qed.
End Boot.

(** ** Theorem *)


(** ** A concrete boot *)

#[local] Existing Instance boot_test_layout.
#[local] Existing Instance boot_test.
#[local] Instance quiet_ports : Ports := fun _ _ => 0.
#[local] Instance quiet_traps : Traps :=
  {| arrivals := fun _ => mkSched [] []; open_local := 0x403500;
     exec_locals := mkLocals 0x7FD000 0x7FD040 0x7FD080 0x7FD100 0x403600 0x7FDFF0; args_fuel := 1025 |}.

Definition boot_tables : tables := mkTables boot_test_idt boot_test_seg boot_test_seg 0 0 0 0 false.

(** The loader passes an empty information structure at 6 MB. *)
Lemma booted_some :
  from_option (fun _ => true) false
    (entry_main boot_test_seg MULTIBOOT_BOOTLOADER_MAGIC 0x600000 0x500000 boot_tables boot_test_state) = true.
Proof. vm_compute. reflexivity. Qed.

Lemma boot_test_paging : paging_layout 0x410 0x411 0x412.
Proof. split; cbn; lia. Qed.

Lemma boot_test_kbd : kbd_ok (k_kbd boot_test_state).
Proof. split; cbn; unfold KEY_BUF_SIZE; (lia || auto). Qed.

