(* ===== verification/Segments.v ===== *)
(** * From the boot loader to entry: src/student-distrib/boot.S, x86_desc.S and x86_desc.h

    The static descriptor tables, the layout of the task state, and the first instructions of
    the kernel.  The theorem says what the processor reads through the selectors that the
    kernel loads. *)

From S2P Require Import Prelude Mem CString MemOps State Console Printf I8259 Pcb Rtc Filesys FilesysRead FilesysDir Keyboard Terminal Paging Syscalls Boot.

(** ** The global descriptor table *)

(** The words of the table, from the unusable entry on; the last two are filled by [entry]. *)
Definition gdt : list Z :=
  [0; 0; 0x00CF9A000000FFFF; 0x00CF92000000FFFF; 0x00CFFA000000FFFF; 0x00CFF2000000FFFF; 0; 0].

(** [gdt_bottom - _gdt - 1], and the sizes of the task state and of the LDT. *)
Definition gdt_limit : Z := 8 * Z.of_nat (length gdt) - 1.
Definition tss_size : Z := 104 - 1.
Definition ldt_size : Z := 4 * 8 - 1.

(** [n] bits of a word from bit [o] on. *)
Definition bits (q o n : Z) : Z := q / 2 ^ o mod 2 ^ n.

(** The fields of [seg_desc_t] in their order, from the lowest bit. *)
Definition seg_of_quad (q : Z) : seg_desc_t :=
  mkSeg (bits q 0 16) (bits q 16 16) (bits q 32 8) (bits q 40 4) (bits q 44 1) (bits q 45 2) (bits q 47 1) (bits q 48 4)
    (bits q 52 1) (bits q 53 1) (bits q 54 1) (bits q 55 1) (bits q 56 8).

(** The entries [tss_desc_ptr] and [ldt_desc_ptr] of the table. *)
Definition TSS_INDEX : nat := 6.
Definition LDT_INDEX : nat := 7.

Definition loaded_gdt (t : tables) : list seg_desc_t :=
  <[LDT_INDEX := t_ldt_desc t]> (<[TSS_INDEX := t_tss_desc t]> (seg_of_quad <$> gdt)).

(** What the processor finds under a selector: nothing beyond the limit or in the first entry. *)
Definition descriptor (table : list seg_desc_t) (limit sel : Z) : option seg_desc_t :=
  if (sel <? 8) || (limit <? 8 * Z.shiftr sel 3 + 7) then None else table !! Z.to_nat (Z.shiftr sel 3).

(** ** The task state *)

(** The fields of [tss_t] with their width in bits. *)
Inductive tss_field :=
| prev_task_link | prev_task_link_pad | esp0 | ss0 | ss0_pad | esp1 | ss1 | ss1_pad | esp2 | ss2 | ss2_pad
| tss_cr3 | eip | eflags | eax | ecx | edx | ebx | esp | ebp | esi | edi
| es | es_pad | cs | cs_pad | ss | ss_pad | ds | ds_pad | fs | fs_pad | gs | gs_pad
| ldt_segment_selector | ldt_pad | debug_trap | io_pad | io_base_addr.

#[export] Instance tss_field_eq_dec : EqDecision tss_field.
Proof. solve_decision. Defined.

Definition tss_t : list (tss_field * Z) :=
  [(prev_task_link, 16); (prev_task_link_pad, 16); (esp0, 32); (ss0, 16); (ss0_pad, 16); (esp1, 32); (ss1, 16); (ss1_pad, 16);
   (esp2, 32); (ss2, 16); (ss2_pad, 16); (tss_cr3, 32); (eip, 32); (eflags, 32); (eax, 32); (ecx, 32); (edx, 32); (ebx, 32);
   (esp, 32); (ebp, 32); (esi, 32); (edi, 32); (es, 16); (es_pad, 16); (cs, 16); (cs_pad, 16); (ss, 16); (ss_pad, 16);
   (ds, 16); (ds_pad, 16); (fs, 16); (fs_pad, 16); (gs, 16); (gs_pad, 16); (ldt_segment_selector, 16); (ldt_pad, 16);
   (debug_trap, 1); (io_pad, 15); (io_base_addr, 16)].

(** The bit at which a field of a packed structure starts, and the size of the structure. *)
Fixpoint field_offset (f : tss_field) (l : list (tss_field * Z)) : option Z :=
  match l with
  | [] => None
  | (g, w) :: l' => if decide (f = g) then Some 0 else Z.add w <$> field_offset f l'
  end.

Definition struct_bits (l : list (tss_field * Z)) : Z := foldr (fun f n => f.2 + n) 0 l.

(** ** boot.S *)

Definition MULTIBOOT_HEADER_FLAGS : Z := 0x00000003.
Definition MULTIBOOT_HEADER_MAGIC : Z := 0x1BADB002.

(** The three words in front of the kernel. *)
Definition multiboot_header : list Z :=
  [MULTIBOOT_HEADER_MAGIC; MULTIBOOT_HEADER_FLAGS; u32 (- (MULTIBOOT_HEADER_MAGIC + MULTIBOOT_HEADER_FLAGS))].

(** The registers [start] sets. *)
Record boot_regs := mkRegs {
  r_gdtr : bool;         (* GDTR holds the limit and the address of [gdt] *)
  r_cs : Z; r_ss : Z; r_ds : Z; r_es : Z; r_fs : Z; r_gs : Z;
  r_esp : Z
}.

Definition push (v : Z) (rs : boot_regs * kst) : boot_regs * kst :=
  let '(r, s) := rs in
  (mkRegs (r_gdtr r) (r_cs r) (r_ss r) (r_ds r) (r_es r) (r_fs r) (r_gs r) (r_esp r - 4),
   upd_mem (fun m => store32 m (r_esp r - 4) v) s).

(** From [start] to the first instruction of [entry]; [ret] is the address behind the call. *)
Definition start (eax ebx ret : Z) (s : kst) : boot_regs * kst :=
  let s := cli s in
  let r := mkRegs true KERNEL_CS KERNEL_DS KERNEL_DS KERNEL_DS KERNEL_DS KERNEL_DS 0x800000 in
  push ret (push eax (push ebx (r, s))).

(** The argument number [k] of a C function. *)
Definition c_arg (k : Z) (rs : boot_regs * kst) : Z := load32 (k_mem rs.2) (r_esp rs.1 + 4 + 4 * k).

(** A loaded kernel, for the witness. *)
Definition segments_test : BootLayout :=
  {| handler_addr := fun _ => 0x400200; message_addr := fun _ => 0x420000; boot_conv_buf := 0x421000; boot_args := 0x7FFF00;
     ldt_addr := 0x422000; ldt_limit := ldt_size; tss_addr := 0x423000; tss_limit := tss_size |}.

Definition segments_tables : tables := mkTables boot_test_idt boot_test_seg boot_test_seg 0 0 0 0 false.

(** ** Theorem *)

(** A flat segment of 4 GB. *)
Definition flat (d : seg_desc_t) : Prop := seg_base d = 0 /\ (seg_limit d + 1) * 4096 = 2 ^ 32 /\ seg_granularity d = 1 /\ seg_opsize d = 1.

(** A present segment of the kernel (0) or of a program (3), for code or for data. *)
Definition usable (code : bool) (dpl : Z) (d : seg_desc_t) : Prop :=
  seg_present d = 1 /\ seg_sys d = 1 /\ seg_dpl d = dpl /\ seg_type d = if code then 0xA else 0x2.

(** C8 The boot loader accepts the header, [start] calls [entry] with the two values the loader
    left and interrupts off, and the selectors lead where they should: those for code and
    data to flat segments of 4 GB at the privilege level in the selector, and after the set-up
    of [entry] the task register to an available 32-bit task state at its address, the LDT
    register to the LDT.  The task state has 104 bytes, the kernel's stack pointer and stack
    segment in it are where the processor looks for them. *)
Theorem segments_correct `{Ports} `{Layout} `{BootLayout} junk fsa t s magic addr ret :
  0 <= tss_addr < 4294967296 -> 0 <= ldt_addr < 4294967296 -> tss_limit = tss_size -> ldt_limit = ldt_size ->
  0 <= magic < 4294967296 -> 0 <= addr < 4294967296 ->
  let b := start magic addr ret s in
  let table := loaded_gdt (entry_setup junk fsa t s).1 in
  u32 (foldr Z.add 0 multiboot_header) = 0 /\
  (c_arg 0 b = magic /\ c_arg 1 b = addr /\ if_flag (k_cpu b.2) = false) /\
  (forall sel code, (sel, code) ∈ [(r_cs b.1, true); (r_ss b.1, false); (r_ds b.1, false); (r_es b.1, false);
       (r_fs b.1, false); (r_gs b.1, false); (USER_CS, true); (USER_DS, false)] ->
     exists d, descriptor table gdt_limit sel = Some d /\ flat d /\ usable code (sel mod 4) d) /\
  (exists d, descriptor table gdt_limit (t_tr (entry_setup junk fsa t s).1) = Some d /\
     seg_present d = 1 /\ seg_sys d = 0 /\ seg_type d = 0x9 /\ seg_base d = tss_addr /\ seg_limit d + 1 = TSS_SIZE) /\
  (exists d, descriptor table gdt_limit (t_ldtr (entry_setup junk fsa t s).1) = Some d /\
     seg_present d = 1 /\ seg_sys d = 0 /\ seg_type d = 0x2 /\ seg_base d = ldt_addr /\ seg_limit d = ldt_size) /\
  (struct_bits tss_t = 8 * TSS_SIZE /\ field_offset esp0 tss_t = Some (8 * 4) /\ field_offset ss0 tss_t = Some (8 * 8) /\
   field_offset ldt_segment_selector tss_t = Some (8 * 96)).
Proof.
  intros Ht Hl Et El Hm Ha b table.
  assert (T : t_tss_desc (entry_setup junk fsa t s).1 = SET_SEG_PARAMS tss_addr tss_limit (the_tss_desc junk) /\
              t_ldt_desc (entry_setup junk fsa t s).1 = SET_SEG_PARAMS ldt_addr ldt_limit (the_ldt_desc junk) /\
              t_tr (entry_setup junk fsa t s).1 = KERNEL_TSS /\ t_ldtr (entry_setup junk fsa t s).1 = KERNEL_LDT) by done.
  destruct T as (T1 & T2 & -> & ->). unfold table, loaded_gdt. rewrite T1, T2.
  destruct (SET_SEG_PARAMS_reads tss_addr tss_limit (the_tss_desc junk) Ht ltac:(rewrite Et; unfold tss_size; lia)) as [B1 L1].
  destruct (SET_SEG_PARAMS_reads ldt_addr ldt_limit (the_ldt_desc junk) Hl ltac:(rewrite El; unfold ldt_size; lia)) as [B2 L2].
  split; [reflexivity|]. split; [|split; [|split; [|split; [|vm_compute; auto]]]].
  - unfold b, c_arg, start, push. cbn [fst snd r_esp k_mem upd_mem set_k_mem k_cpu].
    change (0x800000 - 4 - 4 - 4 + 4 + 4 * 0) with 0x7FFFF8. change (0x800000 - 4 - 4 - 4 + 4 + 4 * 1) with 0x7FFFFC.
    change (0x800000 - 4 - 4 - 4) with 0x7FFFF4. change (0x800000 - 4 - 4) with 0x7FFFF8. change (0x800000 - 4) with 0x7FFFFC.
    rewrite (load32_store32_ne _ 0x7FFFF4), load32_store32_eq by lia. rewrite (load32_store32_ne _ 0x7FFFF4), (load32_store32_ne _ 0x7FFFF8), load32_store32_eq by lia.
    rewrite !u32_small by lia. done.
  - intros sel code Hin. set_unfold in Hin.
    assert (Hs : sel = KERNEL_CS /\ code = true \/ sel = KERNEL_DS /\ code = false \/ sel = USER_CS /\ code = true \/ sel = USER_DS /\ code = false).
    { unfold b in Hin. cbn in Hin. intuition congruence. }
    destruct Hs as [[-> ->]|[[-> ->]|[[-> ->]|[-> ->]]]]; (eexists; split; [reflexivity|]); vm_compute; auto 10.
  - eexists. split; [reflexivity|]. rewrite B1, L1, Et. done.
  - eexists. split; [reflexivity|]. rewrite B2, L2, El. done.
Qed.

Lemma segments_correct_witness :
  exists d, descriptor (loaded_gdt (@entry_setup (fun _ _ => 0) boot_test_layout segments_test boot_test_seg 0x500000 segments_tables
      boot_test_state).1) gdt_limit USER_CS = Some d /\ flat d /\ usable true 3 d.
Proof.
  pose proof (@segments_correct (fun _ _ => 0) boot_test_layout segments_test boot_test_seg 0x500000 segments_tables boot_test_state
    0x2BADB002 0x9000 0x400100 ltac:(cbn; lia) ltac:(cbn; lia) eq_refl eq_refl ltac:(lia) ltac:(lia)) as (_ & _ & R & _).
  apply (R USER_CS true). do 6 apply list_elem_of_further. apply list_elem_of_here.
Defined.
