(* ===== verification/Shell.v ===== *)
(** * Programs at the keyboard

    The shell and hello, which print a question, read a line and act on it.
    [session] is what such a process relies on between two calls: descriptors 0 and 1
    are the terminal, and the driver agrees with the line editor of Terminal.v. *)

From S2P Require Import Prelude Mem CString State Console I8259 Pcb Filesys FilesysRead FilesysDir Keyboard Terminal Syscalls Process Support Trap Programs Output Syserr.

(** ** Lines as strings *)

(** The string an array holds: the characters in front of the first NUL. *)
Fixpoint c_text (l : list Z) : list Z :=
  match l with
  | [] => []
  | c :: l' => if c =? 0 then [] else c :: c_text l'
  end.

(** A line without its newline. *)
Definition chomp (l : list Z) : list Z :=
  if decide (last l = Some 10) then removelast l else l.

Lemma c_text_nonzero l : Forall (fun c => c <> 0) (c_text l).
Proof. induction l as [|c l IH]; cbn; [constructor|]. destruct (Z.eqb_spec c 0); by constructor. Qed.

Lemma c_text_Forall (P : Z -> Prop) l : Forall P l -> Forall P (c_text l).
Proof. induction 1 as [|c l Hc _ IH]; cbn; [constructor|]. destruct (c =? 0); by constructor. Qed.

Lemma c_text_length l : (length (c_text l) <= length l)%nat.
Proof. induction l as [|c l IH]; cbn; [lia|]. destruct (c =? 0); cbn; lia. Qed.

Lemma chomp_length l : (length (chomp l) <= length l)%nat.
Proof.
  unfold chomp. destruct (decide _); [|lia]. destruct l as [|c l _] using rev_ind; [done|].
  rewrite removelast_last, length_app. lia.
Qed.

Lemma c_text_in m a : forall l, PROG_LO <= a -> bytes m a (length l) = l -> load8 m (a + Z.of_nat (length l)) = 0 ->
  text_in m a (c_text l).
Proof.
  intros l Ha Hb Hz. split; [exact Ha|]. clear Ha. revert a Hb Hz.
  induction l as [|c l IH]; intros a Hb Hz; cbn [length c_text] in *; [done|].
  rewrite bytes_S in Hb. injection Hb as Hc Hb. destruct (Z.eqb_spec c 0) as [->|Hn].
  - cbn [length Z.of_nat bytes]. rewrite Z.add_0_r. split; [reflexivity|exact Hc].
  - destruct (IH (a + 1) Hb) as [I1 I2]; [rewrite <- Hz; f_equal; lia|]. cbn [length]. rewrite bytes_S, Hc, I1.
    split; [done|]. rewrite <- I2. f_equal. lia.
Qed.

(** Equal texts are equal strings. *)
Lemma text_same_string m a b l k :
  text_in m a l -> Forall (fun c => c <> 0) l -> text_in m b k -> Forall (fun c => c <> 0) k ->
  same_string m a b <-> l = k.
Proof.
  intros Hl Nl Hk Nk. unfold same_string. rewrite (text_strlen m a l), (text_strlen m b k) by assumption.
  destruct Hl as (_ & Bl & _), Hk as (_ & Bk & _). split.
  - intros [El Eb]. assert (E : length l = length k) by lia. rewrite <- Bl, <- Bk, <- E.
    apply list_eq_same_length with (n := length l); [apply length_bytes..|].
    intros i x y Hi. rewrite !bytes_lookup by done. intros [= <-] [= <-]. apply Eb. lia.
  - intros ->. split; [done|]. intros i Hi. pose proof (eq_trans Bl (eq_sym Bk)) as Be.
    pose proof (f_equal (fun z => z !! Z.to_nat i) Be) as Ei. cbn in Ei. rewrite !bytes_lookup in Ei by lia.
    rewrite Z2Nat.id in Ei by lia. congruence.
Qed.

(** ** Keys leave the process alone *)

Section Keys.
Context `{Ports} `{Layout}.

Lemma delete_cell_process s : same_process s (delete_cell s).
Proof using Type. unfold delete_cell. destruct (0 <? _); [by split|]. destruct (_ =? 0); by split. Qed.

Lemma deletec_process c s : same_process s (deletec_terminal c s).
Proof using Type.
  unfold deletec_terminal. apply (for_range_ind (fun _ z => same_process s z)); [destruct (c =? 9); unfold tab_size; lia|by split|].
  intros j z _ P. eapply same_process_trans; [exact P|apply delete_cell_process].
Qed.

Lemma process_to_buffer_process input s : same_process s (process_to_buffer input s).
Proof using Type.
  unfold process_to_buffer. destruct (negb _); [destruct (_ || _); by split|]. destruct (_ <? _); [|by split].
  eapply same_process_trans; [apply putc_terminal_process|]. unfold add_to_buffer. destruct (_ <? _); by split.
Qed.

Lemma key_press_process input s : same_process s (key_press input s).
Proof using Type.
  unfold key_press, key_event.
  match goal with |- same_process s (sti (send_eoi 1 ?z)) => cut (same_process s z); [intros [E1 E2]; by split|] end.
  set (z := upd_kbd _ _). assert (P : same_process s z) by (by split). clearbody z.
  eapply same_process_trans; [exact P|].
  destruct (_ || _); [by split|]. destruct (_ =? 8).
  - unfold key_backspace. destruct (0 <? _); [|by split]. destruct (deletec_process
      (load8 (k_mem z) (key_buf + (key_buf_index (k_kbd z) - 1))) z) as [E1 E2]. by split.
  - eapply same_process_trans; [|apply process_to_buffer_process]. destruct (_ =? 10); by split.
Qed.

Lemma wait_enter_process buf sched : forall s r s',
  wait_enter sched buf s = Some (r, s') -> same_process s s'.
Proof using Type.
  induction sched as [|keys sched IH]; intros s r s'; cbn [wait_enter]; destruct (_ =? 1).
  - intros [= _ <-]. by split.
  - done.
  - intros [= _ <-]. by split.
  - intros E. apply IH in E. eapply same_process_trans; [|exact E]. clear. revert s.
    induction keys as [|k keys IHk]; intros s; [by split|].
    eapply same_process_trans; [apply (key_press_process k)|apply IHk].
Qed.

(** Printing keeps the line being edited. *)
Lemma edits_print (Hsep : forall a, in_region line_region a -> ~ screen_bytes a) e l : forall s,
  Forall (fun c => 0 <= c < 256 /\ c <> 9) l -> edits s e -> edits (print_chars l s) e.
Proof using Type.
  induction l as [|c l IH]; intros s Hl E; [exact E|]. inversion_clear Hl as [|? ? [Hc H9] Hl'].
  apply (IH (putc_terminal c s) Hl'). destruct E as [E1 E2 E3 E4 E5 E6 E7].
  destruct (putc_terminal_shows c s E6 Hc H9) as (_ & Ho & U).
  pose proof (putc_terminal_pos c s E6 Hc H9) as Hp. pose proof (putc_terminal_kbd c s) as Ek.
  split; rewrite ?Ek; try assumption; [|lia]. rewrite <- E4 at 2.
  by apply (line_bytes_screen Hsep (k_mem s)).
Qed.
End Keys.

(** Plain keys put no tab into the line. *)
Lemma ed_key_no_tab k e : plain k -> Forall (fun c => c <> 9) (ed_line e) -> Forall (fun c => c <> 9) (ed_line (ed_key k e)).
Proof.
  intros (Hk & _ & Hne) Hl. unfold ed_key. destruct (Z.leb_spec 0x80 k) as [|Hlt]; cbn [orb]; [exact Hl|].
  destruct (is_mode k); [exact Hl|]. destruct (key_symbol_plain (ed_modes k e) k ltac:(lia) Hne) as [_ H9].
  destruct (_ =? 8); cbn [ed_line ed_modes].
  - destruct (ed_line e) as [|c l _] using rev_ind; [constructor|]. rewrite removelast_last.
    by apply Forall_app in Hl as [Hl _].
  - destruct (_ <? _)%nat; [|exact Hl]. apply Forall_app. split; [exact Hl|by constructor].
Qed.

Lemma await_no_tab sched : forall e e',
  Forall (Forall plain) sched -> Forall (fun c => c <> 9) (ed_line e) -> await sched e = Some e' ->
  Forall (fun c => c <> 9) (ed_line e').
Proof.
  induction sched as [|keys sched IH]; intros e e' Hp Hl; cbn [await]; destruct (ed_entered e); try done;
    try (by intros [= <-]).
  inversion_clear Hp as [|? ? Hk Hks]. apply IH; [exact Hks|]. clear - Hk Hl. revert e Hl.
  induction Hk as [|k keys Hk _ IHk]; intros e Hl; [exact Hl|]. by apply IHk, ed_key_no_tab.
Qed.

(** The line has at most 128 characters. *)
Lemma ed_key_short k e : (length (ed_line e) <= 128)%nat -> (length (ed_line (ed_key k e)) <= 128)%nat.
Proof.
  intros Hl. unfold ed_key. destruct (_ || _); [exact Hl|]. destruct (_ =? 8); cbn [ed_line ed_modes].
  - destruct (ed_line e) as [|c l _] using rev_ind; [exact Hl|]. rewrite removelast_last. rewrite length_app in Hl. lia.
  - destruct (Nat.ltb_spec (length (ed_line e)) 128); [rewrite length_app; cbn; lia|exact Hl].
Qed.

Lemma await_short sched : forall e e',
  (length (ed_line e) <= 128)%nat -> await sched e = Some e' -> (length (ed_line e') <= 128)%nat.
Proof.
  induction sched as [|keys sched IH]; intros e e' Hl; cbn [await]; destruct (ed_entered e); try done;
    try (by intros [= <-]).
  apply IH. revert e Hl. induction keys as [|k keys IHk]; intros e Hl; [exact Hl|]. by apply IHk, ed_key_short.
Qed.

(** ** A process at the keyboard *)

(** The line buffer, the control block and the screen are apart and below the program
    page. *)
Record keys_layout `{Layout} (pcb : Z) : Prop := {
  kl_line_screen : rdisj line_region screen_region;
  kl_line_pcb : rdisj line_region (pcb_region pcb);
  kl_pcb_screen : rdisj screen_region (pcb_region pcb);
  kl_line_low : key_buf + 129 <= PROG_LO;
  kl_pcb_low : pcb + PCB_SIZE <= PROG_LO
}.

Section Session.
Context `{Ports} `{Layout} `{Traps} (pcb : Z) (KL : keys_layout pcb).

Record session (e : editor) (s : kst) : Prop := {
  sn_pcb : cur_pcb s = pcb;
  sn_in : fd_open 0 s = true /\ fd_ops 0 s = Some TermOps;
  sn_out : stdout_ok s;
  sn_edit : edits s e
}.

Lemma line_off_screen a : in_region line_region a -> ~ screen_bytes a.
Proof using KL.
  intros Ha Hs. pose proof (kl_line_screen _ KL). unfold rdisj, disj, in_region, in_range, screen_bytes, screen_region,
    in_range, line_region, NUM_ROWS, NUM_COLS in *. cbn [fst snd] in *. lia.
Qed.

(** What the calls below write: the line buffer, the screen and the program page. *)
Definition off_kernel (a : Z) : Prop := kbd_frame a \/ PROG_LO <= a.

Lemma off_kernel_fd j a : 0 <= j < 8 -> in_region (fd_region pcb j) a -> ~ off_kernel a.
Proof using KL.
  destruct KL as [_ K2 K3 _ K5]. intros Hj Hr [[Ha|Ha]|Ha]; unfold rdisj, disj, in_region, in_range, screen_bytes,
    screen_region, fd_region, pcb_region, in_range, line_region, NUM_ROWS, NUM_COLS, PCB_SIZE in *; cbn [fst snd] in *; lia.
Qed.

Lemma session_moved (P : Z -> Prop) e e' s s' :
  session e s -> cur_pcb s' = cur_pcb s -> unchanged P (k_mem s) (k_mem s') -> (forall a, P a -> off_kernel a) ->
  edits s' e' -> session e' s'.
Proof using KL.
  intros [S1 S2 S3 S4] Ep U HP E. apply (unchanged_weaken _ off_kernel) in U; [|exact HP].
  split; [congruence| | |exact E].
  - unfold fd_open, fd_used, fd_ops in *. rewrite Ep, S1 in *.
    rewrite !(fd_get_unchanged off_kernel (k_mem s) (k_mem s')) by
      (first [exact U|intros a; by apply off_kernel_fd|unfold FD_OPS, FD_FLAGS; lia]). exact S2.
  - eapply (stdout_ok_unchanged off_kernel s); [exact S3|exact Ep|exact U|apply E|].
    intros a. rewrite S1. by apply off_kernel_fd.
Qed.

(** ** Printing and reading *)

Lemma session_put e a l s :
  session e s -> text_in (k_mem s) a l -> clean l ->
  exists s', ece391_fdputs 1 a s = Some s' /\ shown s' ≡ term_print l (shown s) /\
    unchanged screen_bytes (k_mem s) (k_mem s') /\ session e s'.
Proof using KL.
  intros S Ht Hc. assert (Hp : rdisj screen_region (pcb_region (cur_pcb s))) by (rewrite (sn_pcb _ _ S); apply KL).
  destruct (put_text a l s (sn_out _ _ S) Hp Ht Hc) as (s' & E & Sh & U & [P _] & _).
  exists s'. split; [exact E|]. split; [exact Sh|]. split; [exact U|].
  eapply (session_moved screen_bytes e); [exact S|exact P|exact U|intros b Hs; left; by right|].
  rewrite (text_fdputs a l s (sn_out _ _ S) Ht Hc) in E. assert (Es : sti (print_chars l (cli s)) = s') by (by injection E).
  rewrite <- Es. assert (Hpr : printable l) by (destruct Hc as [Hc _]; eapply Forall_impl; [exact Hc|cbn; lia]).
  destruct (edits_print line_off_screen e _ (cli s) Hpr) as [? ? ? ? ? ? ?]; [|by split]. destruct (sn_edit _ _ S). by split.
Qed.

(** A read of descriptor 0 ends when a poll sees Enter, with the edited line. *)
Lemma session_read e buf n s :
  session e s -> PROG_LO <= buf -> 0 <= n -> Forall (Forall plain) (sc_keys (arrivals s)) ->
  match await (sc_keys (arrivals s)) (mkEd (ed_shift e) (ed_caps e) [] (ed_entered e)) with
  | None => ece391_read 0 buf n s = None
  | Some e' => exists s', ece391_read 0 buf n s = Some (Z.of_nat (length (ed_line e')), s') /\
      bytes (k_mem s') buf (length (ed_line e')) = ed_line e' /\
      unchanged (term_read_frame buf) (k_mem s) (k_mem s') /\
      session (mkEd (ed_shift e') (ed_caps e') [] false) s'
  end.
Proof using KL.
  intros S Hb Hn Hp. rewrite ece391_read_eq. unfold sys_read_c.
  destruct (sn_in _ _ S) as [-> ->]. cbn [negb Z.ltb Z.compare FD_SIZE orb].
  replace (buf =? 0) with false by (unfold PROG_LO in Hb; lia). replace (n <? 0) with false by lia.
  cbn [read_ptr]. unfold terminal_read. change (negb (0 =? STDIN)) with false. cbv iota.
  destruct (clear_key_buffer_spec s e (sn_edit _ _ S)) as [E1 U1].
  assert (D1 : rdisj (buf, 128) line_region)
    by (pose proof (kl_line_low _ KL); unfold rdisj, disj, line_region; cbn [fst snd]; lia).
  assert (D2 : rdisj (buf, 128) (VIDEO, 2 * NUM_ROWS * NUM_COLS))
    by (unfold rdisj, disj, VIDEO, NUM_ROWS, NUM_COLS, PROG_LO in *; cbn [fst snd]; lia).
  pose proof (wait_enter_spec line_off_screen buf D1 D2 (sc_keys (arrivals s)) _ _ E1 Hp) as W.
  destruct (await _ _) as [e'|]; [|exact W]. destruct W as (s' & Er & B & E2 & U2).
  exists s'. split; [exact Er|]. split; [exact B|].
  assert (U : unchanged (term_read_frame buf) (k_mem s) (k_mem s')).
  { eapply unchanged_trans; [|exact U2]. eapply unchanged_weaken; [|exact U1]. intros a Ha. left. by left. }
  split; [exact U|]. eapply (session_moved (term_read_frame buf) e); [exact S| |exact U| |exact E2].
  - apply wait_enter_process in Er as [Er _]. exact Er.
  - intros a [Ha|Ha]; [by left|right]. unfold in_range in Ha. lia.
Qed.

(** The program changes its own page. *)
Lemma session_program (P : Z -> Prop) e m s :
  session e s -> unchanged P (k_mem s) m -> (forall a, P a -> PROG_LO <= a) -> session e (set_k_mem m s).
Proof using KL.
  intros S U HP. eapply (session_moved P e); [exact S|done|exact U|intros b Hb; right; by apply HP|].
  destruct (sn_edit _ _ S) as [E1 E2 E3 E4 E5 E6 E7]. split; try assumption. cbn [k_mem set_k_mem].
  rewrite (unchanged_bytes _ _ _ _ _ U); [exact E4|]. pose proof (kl_line_low _ KL). intros b Hb Hp. apply HP in Hp. unfold in_range in Hb. lia.
Qed.

Lemma session_store e a v s : session e s -> PROG_LO <= a -> session e (upd_mem (fun m => store8 m a v) s).
Proof using KL.
  intros S Ha. apply (session_program (in_range a 1)); [exact S|apply unchanged_store8; unfold in_range; lia|unfold in_range; lia].
Qed.

(** Text behind a buffer of 129 bytes, or in front of it, survives the call. *)
Lemma text_in_apart m m' buf a l :
  unchanged (fun b => kbd_frame b \/ in_range buf 129 b) m m' -> disj buf 129 a (Z.of_nat (length l) + 1) ->
  text_in m a l -> text_in m' a l.
Proof using KL.
  intros U Hd (Ha & Hb & Hz). assert (O : forall b, in_range a (Z.of_nat (length l) + 1) b -> ~ (kbd_frame b \/ in_range buf 129 b)).
  { pose proof (kl_line_low _ KL). intros b Hr [[Hk|Hk]|Hk]; unfold in_region, screen_bytes, in_range, line_region, disj,
      VIDEO, NUM_ROWS, NUM_COLS, PROG_LO in *; cbn [fst snd] in *; lia. }
  eapply text_in_off; [exact U|exact O|by split].
Qed.
End Session.

(** ** The programs *)

Import String.StringSyntax.
#[local] Open Scope string_scope.
#[local] Open Scope Z_scope.

Definition prompt_text : list Z := codes "391OS> ".
Definition exit_text : list Z := codes "exit".

(** The removal of the newline in the buffer. *)
Lemma chomp_buffer m buf l :
  bytes m buf (length l) = l ->
  (if (0 <? Z.of_nat (length l)) && (load8 m (buf + (Z.of_nat (length l) - 1)) =? 10)
   then Z.of_nat (length l) - 1 else Z.of_nat (length l)) = Z.of_nat (length (chomp l)) /\
  bytes m buf (length (chomp l)) = chomp l.
Proof.
  intros Hb. destruct l as [|c l _] using rev_ind; [done|].
  assert (Hc : load8 m (buf + (Z.of_nat (length (l ++ [c])) - 1)) = c /\ bytes m buf (length l) = l).
  { rewrite length_app in *. cbn [length] in *. rewrite bytes_app in Hb.
    apply app_inj_1 in Hb as [B1 B2]; [|apply length_bytes]. split; [|exact B1].
    rewrite bytes_S in B2. injection B2 as B2. rewrite <- B2. f_equal. lia. }
  destruct Hc as [-> Hl]. unfold chomp. rewrite last_snoc.
  rewrite (proj2 (Z.ltb_lt 0 _)) by (rewrite length_app; cbn [length]; lia). cbn [andb].
  destruct (Z.eqb_spec c 10) as [->|Hc].
  - rewrite decide_True by done. rewrite removelast_last. split; [rewrite length_app; cbn [length]; lia|exact Hl].
  - rewrite decide_False by congruence. split; [done|exact Hb].
Qed.

(** What a turn of the shell makes of a command. *)
Definition shell_outcome (d : shell_data) (command : list Z) (s : kst) : shell_next :=
  if decide (command = exit_text) then ShellReturn 0 s
  else if decide (command = []) then ShellAgain s
  else ShellExecute (sh_buf d) s.

Section Turn.
Context `{Ports} `{Layout} `{Traps} (pcb : Z) (KL : keys_layout pcb) (d : shell_data).
Context (Hbuf : PROG_LO <= sh_buf d) (Hexit : disj (sh_buf d) 1024 (sh_exit d) 5).

(** The part of the turn behind the read. *)
Lemma shell_line_spec e l s :
  session pcb e s -> (length l <= 128)%nat -> bytes (k_mem s) (sh_buf d) (length l) = l ->
  text_in (k_mem s) (sh_exit d) exit_text ->
  let cnt := Z.of_nat (length (chomp l)) in
  let s' := upd_mem (fun m => store8 m (sh_buf d + cnt) 0) s in
  let command := c_text (chomp l) in
  (if ece391_strcmp (k_mem s') (sh_buf d) (sh_exit d) =? 0 then Some (ShellReturn 0 s')
   else if load8 (k_mem s') (sh_buf d) =? 0 then Some (ShellAgain s')
   else Some (ShellExecute (sh_buf d) s')) = Some (shell_outcome d command s') /\
  text_in (k_mem s') (sh_buf d) command /\ session pcb e s' /\
  unchanged (in_range (sh_buf d) 129) (k_mem s) (k_mem s').
Proof using KL Hbuf Hexit.
  intros S Hlen Hb Hex cnt s' command. destruct (chomp_buffer _ _ _ Hb) as [_ Hc].
  pose proof (chomp_length l) as Hcl.
  assert (U : unchanged (in_range (sh_buf d + cnt) 1) (k_mem s) (k_mem s'))
    by (apply unchanged_store8; unfold in_range; lia).
  assert (U129 : unchanged (in_range (sh_buf d) 129) (k_mem s) (k_mem s')).
  { eapply unchanged_weaken; [|exact U]. intros a Ha. unfold in_range, cnt in *. lia. }
  assert (T : text_in (k_mem s') (sh_buf d) command).
  { apply c_text_in; [exact Hbuf| |].
    - rewrite (unchanged_bytes _ _ _ _ _ U); [exact Hc|]. unfold in_range, cnt. lia.
    - unfold s'. cbn [k_mem upd_mem set_k_mem]. rewrite load8_store8_eq. reflexivity. }
  assert (X : text_in (k_mem s') (sh_exit d) exit_text).
  { eapply (text_in_apart pcb KL); [eapply unchanged_weaken; [|exact U129]; by right| |exact Hex].
    unfold disj in *. cbn. lia. }
  split; [|split; [exact T|split; [apply (session_store pcb KL); [exact S|unfold cnt; lia]|exact U129]]].
  pose proof (text_same_string _ _ _ _ _ T (c_text_nonzero _) X ltac:(repeat constructor; discriminate)) as Eq.
  rewrite <- ece391_strcmp_zero in Eq. unfold shell_outcome.
  destruct (Z.eqb_spec (ece391_strcmp (k_mem s') (sh_buf d) (sh_exit d)) 0) as [E0|E0].
  - by rewrite decide_True by (by apply Eq).
  - rewrite decide_False by (intros E; by apply E0, Eq). destruct T as (_ & Tb & Tz).
    pose proof (c_text_nonzero (chomp l)) as Hnz. fold command in Hnz.
    destruct command as [|c k].
    + cbn [length Z.of_nat] in Tz. rewrite Z.add_0_r in Tz. by rewrite Tz.
    + cbn [length] in Tb. rewrite bytes_S in Tb. assert (T0 : load8 (k_mem s') (sh_buf d) = c) by (by injection Tb).
      inversion_clear Hnz as [|? ? Hc0 _]. rewrite T0.
      by rewrite (proj2 (Z.eqb_neq _ _) Hc0).
Qed.
End Turn.

(** A turn, for the theorem below and for the commands of Command.v. *)
Lemma shell_turn_spec `{Ports} `{Layout} `{Traps} pcb d e s :
  keys_layout pcb -> session pcb e s -> PROG_LO <= sh_buf d -> disj (sh_buf d) 1024 (sh_exit d) 5 ->
  text_in (k_mem s) (sh_prompt d) prompt_text -> text_in (k_mem s) (sh_exit d) exit_text ->
  exists s1, ece391_fdputs 1 (sh_prompt d) s = Some s1 /\ shown s1 ≡ term_print prompt_text (shown s) /\
    (Forall (Forall plain) (sc_keys (arrivals s1)) ->
     match await (sc_keys (arrivals s1)) (mkEd (ed_shift e) (ed_caps e) [] (ed_entered e)) with
     | None => shell_turn d s = None
     | Some e' => exists s', let command := c_text (chomp (ed_line e')) in
         shell_turn d s = Some (shell_outcome d command s') /\
         text_in (k_mem s') (sh_buf d) command /\
         session pcb (mkEd (ed_shift e') (ed_caps e') [] false) s' /\
         unchanged (fun a => kbd_frame a \/ in_range (sh_buf d) 129 a) (k_mem s) (k_mem s')
     end).
Proof.
  intros KL S Hbuf Hd Hpr Hex.
  destruct (session_put pcb KL e (sh_prompt d) prompt_text s S Hpr) as (s1 & E1 & Sh & U1 & S1);
    [split; [repeat constructor; discriminate|cbn; lia]|].
  exists s1. split; [exact E1|]. split; [exact Sh|]. intros Hp. unfold shell_turn. rewrite E1. cbn [mbind option_bind].
  pose proof (session_read pcb KL e (sh_buf d) (1024 - 1) s1 S1 Hbuf ltac:(lia) Hp) as R.
  destruct (await _ _) as [e'|] eqn:Ea; [|by rewrite R].
  destruct R as (s2 & -> & B & U2 & S2). apply await_short in Ea; [|cbn; lia]. cbn [mbind option_bind].
  replace (Z.of_nat (length (ed_line e')) =? -1) with false by lia.
  destruct (chomp_buffer _ _ _ B) as [-> _].
  assert (U : unchanged (fun a => kbd_frame a \/ in_range (sh_buf d) 129 a) (k_mem s) (k_mem s2)).
  { eapply unchanged_trans; [eapply unchanged_weaken; [|exact U1]; intros a Ha; left; by right|].
    eapply unchanged_weaken; [|exact U2]. intros a [Ha|Ha]; [by left|right]. unfold in_range in *. lia. }
  assert (X : text_in (k_mem s2) (sh_exit d) exit_text).
  { eapply (text_in_apart pcb KL); [exact U| |exact Hex]. unfold disj in *. cbn. lia. }
  destruct (shell_line_spec pcb KL d Hbuf Hd _ _ s2 S2 Ea B X) as (Et & T & S3 & U3).
  eexists. split; [exact Et|]. split; [exact T|]. split; [exact S3|].
  eapply unchanged_trans; [exact U|]. eapply unchanged_weaken; [|exact U3]. by right.
Qed.

(** ** Theorems *)

(** C11 A turn of the shell prints the prompt and waits for Enter.  The line typed until
    then, edited as Terminal.v says, without its newline and up to the first NUL, is the
    command: the shell returns 0 on "exit", starts the next turn on an empty command and
    otherwise calls execute with that text in its buffer.  The process is again ready to
    print and to read, and nothing but the line buffer, the screen and the shell's buffer
    has changed. *)
Theorem shell_turn_correct `{Ports} `{Layout} `{Traps} pcb d e s :
  keys_layout pcb -> session pcb e s -> PROG_LO <= sh_buf d -> disj (sh_buf d) 1024 (sh_exit d) 5 ->
  text_in (k_mem s) (sh_prompt d) prompt_text -> text_in (k_mem s) (sh_exit d) exit_text ->
  exists s1, ece391_fdputs 1 (sh_prompt d) s = Some s1 /\ shown s1 ≡ term_print prompt_text (shown s) /\
    (Forall (Forall plain) (sc_keys (arrivals s1)) ->
     match await (sc_keys (arrivals s1)) (mkEd (ed_shift e) (ed_caps e) [] (ed_entered e)) with
     | None => shell_turn d s = None
     | Some e' => exists s', let command := c_text (chomp (ed_line e')) in
         shell_turn d s = Some (shell_outcome d command s') /\
         text_in (k_mem s') (sh_buf d) command /\
         session pcb (mkEd (ed_shift e') (ed_caps e') [] false) s' /\
         unchanged (fun a => kbd_frame a \/ in_range (sh_buf d) 129 a) (k_mem s) (k_mem s')
     end).
Proof. exact (shell_turn_spec pcb d e s). Qed.

Definition ask_text : list Z := codes "Hi, what's your name? ".
Definition greet_text : list Z := codes "Hello, ".

(** hello asks for the name, reads a line, and prints "Hello, " and the line (up to
    its first NUL, the newline included) behind what was on the screen when the read
    ended; it returns 0. *)
Theorem hello_greets `{Ports} `{Layout} `{Traps} pcb d e s :
  keys_layout pcb -> session pcb e s -> PROG_LO <= hello_buf d -> disj (hello_buf d) 1024 (hello_greet d) 8 ->
  text_in (k_mem s) (hello_ask d) ask_text -> text_in (k_mem s) (hello_greet d) greet_text ->
  exists s1, ece391_fdputs 1 (hello_ask d) s = Some s1 /\ shown s1 ≡ term_print ask_text (shown s) /\
    (Forall (Forall plain) (sc_keys (arrivals s1)) ->
     match await (sc_keys (arrivals s1)) (mkEd (ed_shift e) (ed_caps e) [] (ed_entered e)) with
     | None => hello_main d s = None
     | Some e' => exists s2 s',
         ece391_read 0 (hello_buf d) (1024 - 1) s1 = Some (Z.of_nat (length (ed_line e')), s2) /\
         hello_main d s = Some (0, s') /\
         shown s' ≡ term_print (greet_text ++ c_text (ed_line e')) (shown s2) /\
         session pcb (mkEd (ed_shift e') (ed_caps e') [] false) s'
     end).
Proof.
  intros KL S Hbuf Hd Hask Hgr.
  destruct (session_put pcb KL e (hello_ask d) ask_text s S Hask) as (s1 & E1 & Sh & U1 & S1);
    [split; [repeat constructor; discriminate|cbn; lia]|].
  exists s1. split; [exact E1|]. split; [exact Sh|]. intros Hp. unfold hello_main. rewrite E1. cbn [mbind option_bind].
  pose proof (session_read pcb KL e (hello_buf d) (1024 - 1) s1 S1 Hbuf ltac:(lia) Hp) as R.
  destruct (await _ _) as [e'|] eqn:Ea; [|by rewrite R].
  destruct R as (s2 & Er & B & U2 & S2). assert (Hlen : (length (ed_line e') <= 128)%nat) by (eapply await_short; [|exact Ea]; cbn; lia).
  apply await_no_tab in Ea; [|exact Hp|constructor]. exists s2. rewrite Er. cbn [mbind option_bind].
  replace (Z.of_nat (length (ed_line e')) =? -1) with false by lia.
  set (a := hello_buf d + Z.of_nat (length (ed_line e'))). set (s3 := upd_mem _ s2).
  assert (S3 : session pcb (mkEd (ed_shift e') (ed_caps e') [] false) s3) by (apply (session_store pcb KL); [exact S2|unfold a; lia]).
  assert (U3 : unchanged (in_range a 1) (k_mem s2) (k_mem s3)) by (apply unchanged_store8; unfold in_range; lia).
  assert (T : text_in (k_mem s3) (hello_buf d) (c_text (ed_line e'))).
  { apply c_text_in; [exact Hbuf| |].
    - rewrite (unchanged_bytes _ _ _ _ _ U3); [exact B|]. unfold in_range, a. lia.
    - unfold s3. cbn [k_mem upd_mem set_k_mem]. apply load8_store8_eq. }
  assert (G : text_in (k_mem s3) (hello_greet d) greet_text).
  { eapply (text_in_apart pcb KL _ _ (hello_buf d)); [| |exact Hgr]; [|unfold disj in *; cbn; lia].
    eapply unchanged_trans; [eapply unchanged_weaken; [|exact U1]; intros b Hb; left; by right|].
    eapply unchanged_trans; [eapply unchanged_weaken; [|exact U2]|eapply unchanged_weaken; [|exact U3]].
    - intros b [Hb|Hb]; [by left|right]. unfold in_range in *. lia.
    - intros b Hb. right. unfold in_range, a in *. lia. }
  assert (Sh3 : shown s3 ≡ shown s2).
  { apply (shown_off_screen (in_range a 1) (k_mem s2) (k_mem s3) s2 eq_refl U3).
    unfold in_range, screen_bytes, in_range, a, VIDEO, NUM_ROWS, NUM_COLS, PROG_LO in *. lia. }
  clearbody s3.
  destruct (session_put pcb KL _ (hello_greet d) greet_text s3 S3 G) as (s4 & E4 & Sh4 & U4 & S4);
    [split; [repeat constructor; discriminate|cbn; lia]|].
  assert (T4 : text_in (k_mem s4) (hello_buf d) (c_text (ed_line e'))).
  { eapply text_in_unchanged; [exact U4| |exact T]. unfold screen_bytes, in_range, VIDEO, NUM_ROWS, NUM_COLS, PROG_LO. lia. }
  destruct (session_put pcb KL _ (hello_buf d) _ s4 S4 T4) as (s5 & E5 & Sh5 & _ & S5).
  { pose proof (c_text_length (ed_line e')). split; [|lia].
    apply Forall_and. split; [|by apply c_text_Forall].
    assert (Hby : Forall (fun c => 0 <= c < 256) (ed_line e')).
    { rewrite <- B. apply Forall_lookup. intros i x Hi. assert (i < length (ed_line e'))%nat by
        (apply lookup_lt_Some in Hi; by rewrite length_bytes in Hi). rewrite bytes_lookup in Hi by done.
      injection Hi as <-. apply load8_range. }
    pose proof (c_text_nonzero (ed_line e')) as Hnz. apply c_text_Forall in Hby. revert Hnz Hby.
    rewrite !Forall_forall. intros H1' H2' x Hx. specialize (H1' x Hx). specialize (H2' x Hx). cbn in *. lia. }
  exists s5. split; [done|]. rewrite E4. cbn [mbind option_bind]. rewrite E5. cbn [mbind option_bind].
  split; [done|]. split; [|exact S5]. by rewrite Sh5, Sh4, Sh3, term_print_app.
Qed.

(** ** A process in front of the keyboard *)

#[local] Existing Instance test_layout.
#[local] Instance test_ports : Ports := fun _ _ => 0.

(** The keys l, s and Enter over two turns of the polling loop. *)
#[local] Instance typing : Traps :=
  {| arrivals := fun _ => mkSched [[0x26; 0xA6; 0x1F]; [0x9F; 0x1C]] []; open_local := 0x3500;
     exec_locals := mkLocals 0x7FD000 0x7FD040 0x7FD080 0x7FD100 0x3500 0x7FDFF0; args_fuel := 1025 |}.

Definition shell_mem : mem :=
  let m := fd_set (fd_set (Mem ∅ ∅ 0) 0x1000 0 FD_OPS 0x3430) 0x1000 0 FD_FLAGS TERMINAL_FILE_FLAGS in
  let m := fd_set (fd_set m 0x1000 1 FD_OPS 0x3430) 0x1000 1 FD_FLAGS TERMINAL_FILE_FLAGS in
  let m := store_list (store_list m 0x8051000 prompt_text) 0x8051100 exit_text in
  store_list (store_list m 0x8051200 ask_text) 0x8051300 greet_text.

Definition shell_state : kst :=
  mkKst shell_mem (mkConsole 0 3) (mkPic 0xFF 0xFF) 0 (mkKeyboard 0 0 0 0 0 0 0) test_fs 0x1000 1
    (mkCpu true 0x800000 0 0 0) [].

Definition no_keys : editor := mkEd false false [] false.

Lemma shell_state_layout : keys_layout 0x1000.
Proof. split; [test_sep|test_sep|test_sep|vm_compute; congruence..]. Qed.

Lemma shell_state_session : session 0x1000 no_keys shell_state.
Proof.
  assert (O : on_screen (mkConsole 0 3)) by (unfold on_screen, NUM_ROWS, NUM_COLS; cbn; lia).
  split; [reflexivity|split; vm_compute; reflexivity|split; [vm_compute; reflexivity|split; [vm_compute; reflexivity|exact O]]|].
  split; cbn [ed_line no_keys length]; [by repeat split|reflexivity|lia|reflexivity|constructor|exact O|].
  unfold cursor_pos, NUM_COLS. cbn. lia.
Qed.

Lemma shell_state_texts :
  text_in (k_mem shell_state) 0x8051000 prompt_text /\ text_in (k_mem shell_state) 0x8051100 exit_text /\
  text_in (k_mem shell_state) 0x8051200 ask_text /\ text_in (k_mem shell_state) 0x8051300 greet_text.
Proof. repeat split; vm_compute; congruence. Qed.

Lemma typed : await [[0x26; 0xA6; 0x1F]; [0x9F; 0x1C]] no_keys = Some (mkEd false false [108; 115; 10] true).
Proof. vm_compute. reflexivity. Qed.

Lemma typed_plain : Forall (Forall plain) [[0x26; 0xA6; 0x1F]; [0x9F; 0x1C]].
Proof. repeat constructor; unfold CTRL_PRESSED; lia. Qed.

Definition test_shell : shell_data := mkShell 0x8050000 0 0x8051000 0 0x8051100 0 0 0.

(** The shell calls execute with "ls". *)
Lemma shell_turn_correct_witness :
  exists s', shell_turn test_shell shell_state = Some (ShellExecute 0x8050000 s') /\
    text_in (k_mem s') 0x8050000 [108; 115].
Proof.
  destruct shell_state_texts as (T1 & T2 & _).
  destruct (shell_turn_correct 0x1000 test_shell no_keys shell_state shell_state_layout shell_state_session
    ltac:(unfold PROG_LO; cbn; lia) ltac:(unfold disj; cbn; lia) T1 T2) as (s1 & _ & _ & R).
  specialize (R typed_plain). cbn [arrivals typing sc_keys ed_shift ed_caps ed_entered no_keys] in R.
  change (mkEd false false [] false) with no_keys in R. rewrite typed in R.
  destruct R as (s' & E & T & _). exists s'. split; [exact E|exact T].
Defined.

Lemma hello_greets_witness :
  exists s2 s', hello_main (mkHello 0x8050000 0x8051200 0 0x8051300) shell_state = Some (0, s') /\
    shown s' ≡ term_print (codes "Hello, ls" ++ [10]) (shown s2).
Proof.
  destruct shell_state_texts as (_ & _ & T3 & T4).
  destruct (hello_greets 0x1000 (mkHello 0x8050000 0x8051200 0 0x8051300) no_keys shell_state shell_state_layout
    shell_state_session ltac:(unfold PROG_LO; cbn; lia) ltac:(unfold disj; cbn; lia) T3 T4) as (s1 & _ & _ & R).
  specialize (R typed_plain). cbn [arrivals typing sc_keys ed_shift ed_caps ed_entered no_keys] in R.
  change (mkEd false false [] false) with no_keys in R. rewrite typed in R.
  destruct R as (s2 & s' & _ & E & Sh & _). exists s2, s'. split; [exact E|exact Sh].
Defined.
