(* ===== verification/Command.v ===== *)
(** * Commands from the keyboard

    The whole way of a command: the keys that are typed at the prompt of the shell, the line
    the driver edits, the system call execute, the new process and what it prints. *)

From S2P Require Import Prelude Mem CString MemOps State Console I8259 Pcb Rtc Filesys FilesysRead FilesysDir Keyboard Terminal Paging Syscalls Process Exec Trap Support FileCalls UserCalls Programs Output Run Syserr Shell.

(** ** The number of processes and the page directory are left alone *)

Definition same_tables (s s' : kst) : Prop :=
  process_number s' = process_number s /\ cr3 (k_cpu s') = cr3 (k_cpu s).

#[export] Instance same_tables_preorder : PreOrder same_tables.
Proof. split; [by split|]. intros s1 s2 s3 [? ?] [? ?]. split; congruence. Qed.

Section Tables.
Context `{Ports} `{Layout}.

Lemma putc_terminal_tables c s : same_tables s (putc_terminal c s).
Proof using Type.
  unfold putc_terminal. destruct (c =? 9); [by split|]. destruct ((c =? 10) || (c =? 13)).
  - destruct (NUM_ROWS - 1 <=? _); by split.
  - destruct ((NUM_ROWS - 1 <=? _) && _); by split.
Qed.

Lemma print_chars_tables l : forall s, same_tables s (print_chars l s).
Proof using Type.
  induction l as [|c l IH]; intros s; [by split|]. etransitivity; [apply (putc_terminal_tables c)|apply IH].
Qed.

Lemma deletec_tables c s : same_tables s (deletec_terminal c s).
Proof using Type.
  unfold deletec_terminal. apply (for_range_ind (fun _ z => same_tables s z)); [destruct (c =? 9); unfold tab_size; lia|by split|].
  intros j z _ P. etransitivity; [exact P|]. unfold delete_cell. destruct (0 <? _); [by split|]. destruct (_ =? 0); by split.
Qed.

Lemma key_press_tables input s : same_tables s (key_press input s).
Proof using Type.
  unfold key_press, key_event.
  match goal with |- same_tables s (sti (send_eoi 1 ?z)) => cut (same_tables s z); [intros [E1 E2]; by split|] end.
  set (z := upd_kbd _ _). assert (P : same_tables s z) by (by split). clearbody z. etransitivity; [exact P|].
  destruct (_ || _); [by split|]. destruct (_ =? 8).
  - unfold key_backspace. destruct (0 <? _); [|by split].
    destruct (deletec_tables (load8 (k_mem z) (key_buf + (key_buf_index (k_kbd z) - 1))) z) as [E1 E2]. by split.
  - set (y := if _ =? 10 then _ else z). assert (Py : same_tables z y) by (unfold y; destruct (_ =? 10); by split). clearbody y.
    etransitivity; [exact Py|]. unfold process_to_buffer. destruct (negb _); [destruct (_ || _); by split|]. destruct (_ <? _); [|by split].
    etransitivity; [apply putc_terminal_tables|]. unfold add_to_buffer. destruct (_ <? _); by split.
Qed.

Lemma wait_enter_tables buf sched : forall s r s', wait_enter sched buf s = Some (r, s') -> same_tables s s'.
Proof using Type.
  induction sched as [|keys sched IH]; intros s r s'; cbn [wait_enter]; destruct (_ =? 1).
  - intros [= _ <-]. by split.
  - done.
  - intros [= _ <-]. by split.
  - intros E. apply IH in E. etransitivity; [|exact E]. clear. revert s.
    induction keys as [|k keys IHk]; intros s; [by split|]. etransitivity; [apply (key_press_tables k)|apply IHk].
Qed.
End Tables.

Lemma put_tables `{Ports} `{Layout} `{Traps} a l s s1 :
  stdout_ok s -> text_in (k_mem s) a l -> clean l -> ece391_fdputs 1 a s = Some s1 -> k_fs s1 = k_fs s /\ same_tables s s1.
Proof.
  intros So Ht Hc. rewrite (text_fdputs a l s So Ht Hc). intros [= <-].
  destruct (print_chars_process l (cli s)) as [_ E1]. destruct (print_chars_tables l (cli s)) as [E2 E3]. done.
Qed.

Lemma read_tables `{Ports} `{Layout} `{Traps} pcb e buf n s r s' :
  session pcb e s -> PROG_LO <= buf -> ece391_read 0 buf n s = Some (r, s') -> k_fs s' = k_fs s /\ same_tables s s'.
Proof.
  intros S Hbuf. rewrite ece391_read_eq. unfold sys_read_c. destruct (sn_in _ _ _ S) as [-> ->]. cbn [negb Z.ltb Z.compare FD_SIZE orb].
  replace (buf =? 0) with false by (unfold PROG_LO in Hbuf; lia). destruct (n <? 0); [intros [= _ <-]; by split|].
  cbn [read_ptr]. unfold terminal_read. change (negb (0 =? STDIN)) with false. cbv iota. intros Ew.
  pose proof (wait_enter_process _ _ _ _ _ Ew) as [_ Ef]. apply wait_enter_tables in Ew. by destruct Ew.
Qed.

Lemma shell_turn_tables `{Ports} `{Layout} `{Traps} pcb d e s command s' :
  session pcb e s -> keys_layout pcb -> PROG_LO <= sh_buf d -> text_in (k_mem s) (sh_prompt d) prompt_text ->
  shell_turn d s = Some (ShellExecute command s') -> k_fs s' = k_fs s /\ same_tables s s'.
Proof.
  intros S KL Hbuf Hpr. unfold shell_turn.
  assert (Cp : clean prompt_text) by (split; [repeat constructor; discriminate|cbn; lia]).
  destruct (session_put pcb KL e (sh_prompt d) prompt_text s S Hpr Cp) as (s1 & E1 & _ & _ & S1).
  destruct (put_tables _ _ _ _ (sn_out _ _ _ S) Hpr Cp E1) as [F1 T1]. rewrite E1. cbn [mbind option_bind].
  destruct (ece391_read _ _ _ _) as [[cnt s2]|] eqn:Er; [|done]. cbn [mbind option_bind].
  destruct (read_tables _ _ _ _ _ _ _ S1 Hbuf Er) as [F2 T2].
  destruct (cnt =? -1); [destruct (ece391_fdputs 1 (sh_no_read d) s2); intros [=]|].
  destruct (_ =? 0); [done|]. destruct (_ =? 0); [done|]. intros [= _ <-].
  split; [cbn; by rewrite F2|]. etransitivity; [exact T1|exact T2].
Qed.

(** ** Command lines as texts *)

(** The word in front of the first space. *)
Definition word_ok (w : list Z) : Prop := (length w <= 32)%nat /\ Forall (fun c => c <> 0 /\ c <> 10 /\ c <> 32) w.

Lemma text_byte m a l i c : text_in m a l -> l !! i = Some c -> load8 m (a + Z.of_nat i) = c.
Proof.
  intros (_ & Hb & _) Hi. pose proof (lookup_lt_Some _ _ _ Hi) as Hl.
  pose proof (bytes_lookup m a (length l) i Hl) as E. rewrite Hb in E. congruence.
Qed.

Lemma text_first_word m w rest : forall a n,
  Forall (fun c => c <> 0 /\ c <> 10 /\ c <> 32) w -> (length w < n)%nat ->
  (forall i c, (w ++ 32 :: rest) !! i = Some c -> load8 m (a + Z.of_nat i) = c) -> first_word n m a = w.
Proof.
  induction w as [|c w IH]; intros a n Hw Hn Hm; (destruct n as [|n]; [cbn in Hn; lia|]); cbn [first_word app] in *;
    pose proof (Hm 0%nat _ eq_refl) as H0; rewrite Z.add_0_r in H0; rewrite H0.
  - done.
  - inversion_clear Hw as [|? ? Hc Hw']. zdecide. f_equal. apply IH; [exact Hw'|cbn in Hn; lia|].
    intros i x Hi. rewrite <- (Hm (S i) x Hi). f_equal. lia.
Qed.

(** A line of a word, a space and an argument in memory. *)
Lemma text_command m a w arg :
  text_in m a (w ++ 32 :: arg) -> word_ok w -> Forall (fun c => c <> 0) arg ->
  let p := Z.of_nat (length w) in
  first_word 33 m a = w /\ first_space m a p /\ strlen m a = p + 1 + Z.of_nat (length arg) /\
  bytes m (a + (p + 1)) (length arg) = arg.
Proof.
  intros T [Hl Hw] Harg p. pose proof (fun i c => text_byte m a _ i c T) as Hm.
  assert (Nz : Forall (fun c => c <> 0) (w ++ 32 :: arg)).
  { apply Forall_app. split; [eapply Forall_impl; [exact Hw|]; cbn; tauto|]. by constructor. }
  split; [apply (text_first_word m w arg); [exact Hw|lia|exact Hm]|]. split; [|split].
  - split; [lia|]. split; [apply Hm; by rewrite lookup_app_r, Nat.sub_diag by lia|]. intros j Hj Hs.
    destruct (lookup_lt_is_Some_2 w (Z.to_nat j) ltac:(lia)) as [c Hc].
    pose proof (Hm (Z.to_nat j) c ltac:(by apply lookup_app_l_Some)) as E. rewrite Z2Nat.id in E by lia.
    rewrite Forall_lookup in Hw. specialize (Hw _ _ Hc). cbn in Hw. lia.
  - rewrite (text_strlen m a _ T Nz), length_app. cbn. lia.
  - apply list_eq_same_length with (n := length arg); [done|apply length_bytes|]. intros i x y Hi.
    rewrite bytes_lookup by exact Hi. intros [= <-] Hy.
    rewrite <- (Hm (length w + 1 + i)%nat y); [f_equal; lia|]. rewrite lookup_app_r by lia.
    replace (length w + 1 + i - length w)%nat with (S i) by lia. exact Hy.
Qed.

(** The line with its newline is the command, and a command with a space is executed. *)
Lemma line_command w arg :
  word_ok w -> Forall (fun c => c <> 0) arg -> c_text (chomp (w ++ 32 :: arg ++ [10])) = w ++ 32 :: arg.
Proof.
  intros [_ Hw] Ha. replace (w ++ 32 :: arg ++ [10]) with ((w ++ 32 :: arg) ++ [10]) by (rewrite <- app_assoc; done).
  unfold chomp. rewrite last_snoc, decide_True by done. rewrite removelast_last.
  assert (Nz : Forall (fun c => c <> 0) (w ++ 32 :: arg)).
  { apply Forall_app. split; [eapply Forall_impl; [exact Hw|]; cbn; tauto|]. by constructor. }
  induction Nz as [|c l Hc _ IH]; cbn; [done|]. rewrite (proj2 (Z.eqb_neq _ _) Hc). by rewrite IH.
Qed.

Lemma command_outcome d w arg s : shell_outcome d (w ++ 32 :: arg) s = ShellExecute (sh_buf d) s.
Proof.
  unfold shell_outcome. rewrite decide_False, decide_False; [done|by destruct w|]. intros E.
  assert (Hin : 32 ∈ exit_text) by (rewrite <- E; apply elem_of_app; right; constructor).
  apply list_elem_of_In in Hin. vm_compute in Hin. intuition discriminate.
Qed.

(** ** The kernel under the shell *)

(** A program under the name [w]. *)
Record program_named (fs : filesys) (m : mem) (w : list Z) (i : nat) : Prop := {
  pn_found : exists x, list_find (eq w) (dir_names fs m) = Some (i, x);
  pn_type : entry_type fs m (1 + Z.of_nat i) = REG_FILE;
  pn_file : file_ok fs m (entry_inode fs m (1 + Z.of_nat i));
  pn_size : Z.max 32 (bblock_D fs) <= file_size fs m (entry_inode fs m (1 + Z.of_nat i)) <= PROG_HI - USER_PROG;
  pn_magic : take 4 (file_bytes fs m (entry_inode fs m (1 + Z.of_nat i))) = elf_text
}.

(** What execute relies on: the image, the objects it works with, the line buffer and the
    screen are apart and below 8 MB, and there is room for a process. *)
Record exec_ready `{Layout} (l : locals) (s : kst) : Prop := {
  er_dir : dir_ok (k_fs s) (k_mem s);
  er_image : image_ok (k_fs s) /\ (image (k_fs s)).1 + (image (k_fs s)).2 <= EIGHT_MB;
  er_apart : apart (image (k_fs s) :: exec_objects l s);
  er_low : Forall (fun r => 0 < r.1 /\ r.1 + r.2 <= EIGHT_MB) (exec_objects l s);
  er_screen : Forall (rdisj screen_region) ((l_elf_text l, 4) :: image (k_fs s) :: exec_objects l s);
  er_line : Forall (rdisj line_region) ((l_elf_text l, 4) :: image (k_fs s) :: exec_objects l s);
  er_elf : bytes (k_mem s) (l_elf_text l) 4 = elf_text /\ l_elf_text l + 4 <= EIGHT_MB /\
           forall a, in_range (l_elf_text l) 4 a -> ~ search_frame l a;
  er_room : 0 <= process_number s < 6;
  er_page : load32 (k_mem s) (page_entry s) mod 2 = 1
}.

Section Turn.
Context `{Ports} `{Layout} `{Traps} (l : locals) (s s' : kst) (buf : Z).
Context (ER : exec_ready l s) (Hbuf : PROG_LO <= buf) (Ef : k_fs s' = k_fs s) (ET : same_tables s s').
Context (U : unchanged (fun a => kbd_frame a \/ in_range buf 129 a) (k_mem s) (k_mem s')).

(** The shell changes nothing of it. *)
Lemma turn_off r a :
  rdisj line_region r -> rdisj screen_region r -> r.1 + r.2 <= EIGHT_MB -> in_region r a -> ~ (kbd_frame a \/ in_range buf 129 a).
Proof using Hbuf.
  unfold rdisj, disj, kbd_frame, screen_bytes, in_region, in_range, screen_region, line_region, EIGHT_MB, PROG_LO, NUM_ROWS, NUM_COLS in *.
  cbn [fst snd]. lia.
Qed.

Lemma turn_image : image_agree (k_fs s) (k_mem s) (k_mem s').
Proof using Hbuf U ER.
  intros a Ha. eapply unchanged_load8; [exact U|]. destruct ER as [_ [_ Hl] _ _ Hs Hk _ _ _]. rewrite !Forall_cons in Hs, Hk.
  eapply turn_off; [apply Hk|apply Hs|exact Hl|exact Ha].
Qed.

Lemma turn_objects : exec_objects l s' = exec_objects l s /\ page_entry s' = page_entry s.
Proof using ET. destruct ET as [E1 E2]. unfold exec_objects, page_entry, ret_dir_ptr. by rewrite E1, E2. Qed.

Lemma turn_page : load32 (k_mem s') (page_entry s') = load32 (k_mem s) (page_entry s).
Proof using Hbuf U ER ET.
  destruct turn_objects as [_ ->]. eapply unchanged_load32; [exact U|]. intros b Hb.
  destruct ER as [_ _ _ Hl Hs Hk _ _ _]. rewrite !Forall_cons in Hs, Hk. destruct Hs as (_ & _ & Hs), Hk as (_ & _ & Hk).
  assert (Hin : (page_entry s, 4) ∈ exec_objects l s) by (apply list_elem_of_In; cbn; tauto).
  rewrite Forall_forall in Hl, Hs, Hk.
  eapply (turn_off (page_entry s, 4)); [by apply Hk|by apply Hs|by apply Hl|exact Hb].
Qed.

Lemma turn_elf : bytes (k_mem s') (l_elf_text l) 4 = elf_text.
Proof using Hbuf U ER.
  destruct ER as [_ _ _ _ Hs Hk (Ht & Hl & _) _ _]. rewrite <- Ht. eapply unchanged_bytes; [exact U|]. intros b Hb.
  rewrite !Forall_cons in Hs, Hk. eapply (turn_off (l_elf_text l, 4)); [apply Hk|apply Hs|exact Hl|exact Hb].
Qed.

Lemma apart_command r rs : Forall (rdisj r) rs -> apart rs -> apart (r :: rs).
Proof using Type. intros Hr Ha. split; [|exact Ha]. clear Ha. induction Hr; cbn; [done|by split]. Qed.

Lemma turn_layout : strlen (k_mem s') buf < 1024 -> exec_layout l buf s'.
Proof using Hbuf U ER ET Ef.
  intros Hlen. destruct turn_objects as [Eo _]. destruct ER as [Hd [Hi Hil] Ha Hl _ _ _ _ _]. rewrite <- Eo in Ha, Hl.
  split; rewrite ?Ef; [|apply apart_command; [|exact Ha]|exact Hi|exact Hl|exact Hlen].
  - eapply dir_ok_agree; [exact turn_image|exact Hi|exact Hd].
  - constructor; [right; unfold EIGHT_MB, PROG_LO in *; cbn [fst snd] in *; lia|].
    eapply Forall_impl; [exact Hl|]. intros r [_ Hr]. right. unfold EIGHT_MB, PROG_LO in *. cbn [fst snd]. lia.
Qed.

Lemma turn_program w i :
  word_ok w -> program_named (k_fs s) (k_mem s) w i -> first_word 33 (k_mem s') buf = w -> names_program (k_fs s') (k_mem s') buf i.
Proof using Hbuf U ER Ef.
  intros [Hl _] [[x Hf] Ht Hok Hs Hm] Ew. pose proof turn_image as HA. destruct ER as [Hd [Hi _] _ _ _ _ _ _ _].
  pose proof (dir_names_agree _ _ _ HA Hi Hd) as En.
  destruct (entry_agree _ _ _ HA Hi Hd _ (found_entry _ _ _ i x Hf)) as [Et Ei].
  split; rewrite ?Ef, ?Ew, ?En, ?Et, ?Ei, ?(file_size_agree _ _ _ HA Hi), ?(file_bytes_agree _ _ _ HA Hi) by (exact Hok || apply Hok).
  - exact Hl.
  - by exists x.
  - exact Ht.
  - by apply (file_ok_agree _ _ _ HA Hi).
  - exact Hs.
  - exact Hm.
Qed.
End Turn.

(** ** Theorem *)

(** C1 Typing a command at the prompt runs it: when the keys give a line that consists of the
    name of the program cat, a space and the name of a regular file, then the shell reads the
    line and calls execute with it, the system call starts a process in the program page of its
    own, and cat prints there the bytes of the file, in order, behind what was on the screen
    when Enter was pressed. *)
Theorem typed_cat_prints `{Ports} `{Layout} `{Traps} pcb sd cd e s keys e' w arg i j x fuel ecx edx :
  let fs := k_fs s in
  let m := k_mem s in
  keys_layout pcb -> session pcb e s -> exec_ready exec_locals s ->
  PROG_LO <= sh_buf sd -> disj (sh_buf sd) 1024 (sh_exit sd) 5 ->
  text_in m (sh_prompt sd) prompt_text -> text_in m (sh_exit sd) exit_text ->
  (forall s, sc_keys (arrivals s) = keys) -> Forall (Forall plain) keys ->
  await keys (mkEd (ed_shift e) (ed_caps e) [] (ed_entered e)) = Some e' -> ed_line e' = w ++ 32 :: arg ++ [10] ->
  word_ok w -> program_named fs m w i -> Forall (fun c => c <> 0) arg -> (1 <= length arg <= 32)%nat ->
  list_find (eq arg) (dir_names fs m) = Some (j, x) -> entry_type fs m (1 + Z.of_nat j) = REG_FILE ->
  let inode := entry_inode fs m (1 + Z.of_nat j) in
  file_ok fs m inode -> printable (file_bytes fs m inode) -> (file_size fs m inode + 1023) / 1024 < Z.of_nat fuel ->
  user_layout fs (pcb_address (process_number s)) open_local -> tables_ok ->
  PROG_LO <= cat_buf cd -> (1024 < args_fuel)%nat ->
  exists s1 eip esp s2 s3, shell_turn sd s = Some (ShellExecute (sh_buf sd) s1) /\
    text_in (k_mem s1) (sh_buf sd) (w ++ 32 :: arg) /\
    SYS_CALL_HANDLER SYS_EXECUTE (sh_buf sd) ecx edx s1 = Enter eip esp USER_CS USER_DS s2 /\
    cat_main fuel cd s2 = Some (0, s3) /\ shown s3 ≡ term_print (file_bytes fs m inode) (shown s1).
Proof.
  intros fs m KL S ER Hbuf Hex Hpr Hext Hkeys Hplain Ha Hline Hw Hprog Harg Hal Hfind Hty inode Hok Hprint Hturns UL HT Hcat Hfuel. subst fs m.
  destruct (shell_turn_spec pcb sd e s KL S Hbuf Hex Hpr Hext) as (s0 & _ & _ & R). rewrite Hkeys in R. specialize (R Hplain).
  rewrite Ha in R. destruct R as (s1 & Es & T & S1 & U).
  assert (Ec : c_text (chomp (ed_line e')) = w ++ 32 :: arg) by (rewrite Hline; by apply line_command).
  cbv zeta in Es. rewrite Ec in Es, T.
  assert (Eo : shell_outcome sd (w ++ 32 :: arg) s1 = ShellExecute (sh_buf sd) s1) by (by apply command_outcome).
  rewrite Eo in Es. destruct (shell_turn_tables pcb sd e s _ s1 S KL Hbuf Hpr Es) as [Ef ET].
  destruct (text_command _ _ _ _ T Hw Harg) as (Ew & Hsp & Hlen & Hb). cbv zeta in Hsp, Hlen, Hb.
  pose proof (turn_image _ s s1 _ ER Hbuf U) as HA. pose proof ER as [Hd [Hi Hil] _ _ Hscr _ (_ & _ & Helf) Hroom Hpage].
  destruct (entry_agree _ _ _ HA Hi Hd _ (found_entry _ _ _ j x Hfind)) as [Et Ei].
  destruct (turn_objects exec_locals s s1 ET) as [Eob Epe]. pose proof (proj1 Hw) as Hwl.
  destruct (run_cat cd (sh_buf sd) ecx edx s1 i (Z.of_nat (length w)) (Z.of_nat (length arg)) j x fuel)
    as (eip & esp & s2 & s3 & E2 & E3 & Sh); rewrite ?Ef, ?Ei; fold inode.
  - apply (turn_layout exec_locals s); [exact ER|exact Hbuf|exact Ef|exact ET|exact U|lia].
  - apply (turn_program exec_locals s s1 (sh_buf sd) ER Hbuf Ef U w i Hw Hprog) in Ew. by rewrite Ef in Ew.
  - exact (turn_elf exec_locals s s1 (sh_buf sd) ER Hbuf U).
  - exact Helf.
  - by rewrite (proj1 ET).
  - by rewrite (turn_page exec_locals s s1 (sh_buf sd) ER Hbuf ET U).
  - exact Hil.
  - rewrite Eob. rewrite !Forall_cons in Hscr. apply Hscr.
  - by rewrite (proj1 ET).
  - exact HT.
  - apply (sn_out _ _ _ S1).
  - exact Hcat.
  - exact Hfuel.
  - exact Hsp.
  - exact Hlen.
  - lia.
  - lia.
  - rewrite Nat2Z.id, Hb, (dir_names_agree _ _ _ HA Hi Hd). exact Hfind.
  - by rewrite Et.
  - by apply (file_ok_agree _ _ _ HA Hi).
  - by rewrite (file_bytes_agree _ _ _ HA Hi).
  - rewrite (file_size_agree _ _ _ HA Hi) by apply Hok. exact Hturns.
  - rewrite Ef, Ei in Sh. fold inode in Sh. rewrite (file_bytes_agree _ _ _ HA Hi inode Hok) in Sh.
    by exists s1, eip, esp, s2, s3.
Qed.

(** ** A concrete command

    The image of Run.v under a shell as process number 1, and the keys of "cat frame" and
    Enter, a line per look of the driver. *)
Definition command_keys : list (list Z) := [[0x2E; 0xAE; 0x1E; 0x9E; 0x14; 0x94; 0x39; 0xB9]; [0x21; 0x13; 0x1E; 0x32; 0x12; 0x92]; [0x1C]].

#[local] Existing Instance test_layout.
#[local] Instance command_ports : Ports := fun _ _ => 0.
#[local] Instance command_traps : Traps :=
  {| arrivals := fun _ => mkSched command_keys []; open_local := 0x3600; exec_locals := prog_locals; args_fuel := 1025 |}.

Definition command_mem : mem :=
  let m := fd_set (fd_set run_mem 0x1000 0 FD_OPS 0x3430) 0x1000 0 FD_FLAGS TERMINAL_FILE_FLAGS in
  let m := fd_set (fd_set m 0x1000 1 FD_OPS 0x3430) 0x1000 1 FD_FLAGS TERMINAL_FILE_FLAGS in
  store_list (store_list m 0x8051000 prompt_text) 0x8051100 exit_text.

Definition command_state : kst :=
  mkKst command_mem (mkConsole 0 3) (mkPic 0xFF 0xFF) 0 (mkKeyboard 0 0 0 0 0 0 0) run_fs 0x1000 1
    (mkCpu true 0x7FE000 0 0x10000 0) [].

Lemma command_session : session 0x1000 no_keys command_state.
Proof.
  assert (O : on_screen (mkConsole 0 3)) by (unfold on_screen, NUM_ROWS, NUM_COLS; cbn; lia).
  split; [reflexivity|split; vm_compute; reflexivity|split; [vm_compute; reflexivity|split; [vm_compute; reflexivity|exact O]]|].
  split; cbn [ed_line no_keys length]; [by repeat split|reflexivity|lia|reflexivity|constructor|exact O|].
  unfold cursor_pos, NUM_COLS. cbn. lia.
Qed.

Lemma command_files inode size :
  inode = 0 /\ size = 40 \/ inode = 1 /\ size = 5 -> file_size run_fs command_mem inode = size /\ file_ok run_fs command_mem inode.
Proof.
  intros Hi. assert (Es : file_size run_fs command_mem inode = size) by (destruct Hi as [[-> ->]|[-> ->]]; vm_compute; reflexivity).
  split; [exact Es|]. split; [vm_compute; intuition congruence|]. split; [cbn; lia|]. rewrite Es.
  split; [unfold FOUR_KB; lia|]. intros o Ho. replace (o / FOUR_KB) with 0 by (unfold FOUR_KB; zdm).
  destruct Hi as [[-> _]|[-> _]]; vm_compute; reflexivity.
Qed.

Lemma command_inodes : entry_inode run_fs command_mem (1 + Z.of_nat 0) = 0 /\ entry_inode run_fs command_mem (1 + Z.of_nat 1) = 1.
Proof. split; vm_compute; reflexivity. Qed.

Lemma command_program : program_named run_fs command_mem [99; 97; 116] 0.
Proof.
  destruct command_inodes as [Ei _]. destruct (command_files 0 40 ltac:(lia)) as [Es Hok]. split; rewrite ?Ei, ?Es.
  - exists [99; 97; 116]. vm_compute. reflexivity.
  - vm_compute. reflexivity.
  - exact Hok.
  - vm_compute. split; congruence.
  - unfold file_bytes. rewrite Es. vm_compute. reflexivity.
Qed.

Lemma command_ready : exec_ready prog_locals command_state.
Proof.
  split.
  - split; [vm_compute; congruence|]. split; [vm_compute; intuition congruence|].
    intros i Hi. cbn in Hi. assert (i = 1 \/ i = 2) as [->| ->] by lia; vm_compute; reflexivity.
  - split; [sep_solve|vm_compute; congruence].
  - sep_solve.
  - unfold exec_objects. repeat (constructor; [vm_compute; split; congruence|]). constructor.
  - unfold exec_objects. repeat (constructor; [sep_solve|]). constructor.
  - unfold exec_objects. repeat (constructor; [sep_solve|]). constructor.
  - split; [vm_compute; reflexivity|]. split; [vm_compute; congruence|exact prog_text_apart].
  - cbn. lia.
  - vm_compute. reflexivity.
Qed.

Lemma command_user_layout : user_layout run_fs (pcb_address 1) open_local.
Proof.
  split; [split; sep_solve|cbn; lia|test_sep|test_sep|cbn; lia|test_sep|test_sep| |].
  - unfold kernel_objects. repeat (constructor; [vm_compute; congruence|]). constructor.
  - unfold kernel_objects. repeat (constructor; [test_sep|]). constructor.
Qed.

(** "cat frame" prints "Hello". *)
Lemma typed_cat_prints_witness :
  exists s1 eip esp s2 s3, shell_turn test_shell command_state = Some (ShellExecute 0x8050000 s1) /\
    SYS_CALL_HANDLER SYS_EXECUTE 0x8050000 0 0 s1 = Enter eip esp USER_CS USER_DS s2 /\
    cat_main 2 (mkCat 0x8050000 0 0 0) s2 = Some (0, s3) /\ shown s3 ≡ term_print [72; 101; 108; 108; 111] (shown s1).
Proof.
  destruct command_inodes as [_ Ei]. destruct (command_files 1 5 ltac:(lia)) as [Es Hok].
  assert (Eb : file_bytes run_fs command_mem 1 = [72; 101; 108; 108; 111]) by (unfold file_bytes; rewrite Es; vm_compute; reflexivity).
  pose proof (typed_cat_prints 0x1000 test_shell (mkCat 0x8050000 0 0 0) no_keys command_state command_keys
    (mkEd false false [99; 97; 116; 32; 102; 114; 97; 109; 101; 10] true) [99; 97; 116] [102; 114; 97; 109; 101] 0%nat 1%nat [102; 114; 97; 109; 101] 2 0 0) as R.
  cbv zeta in R. change (k_fs command_state) with run_fs in R. change (k_mem command_state) with command_mem in R.
  change (process_number command_state) with 1 in R. rewrite Ei, Eb in R.
  destruct R as (s1 & eip & esp & s2 & s3 & E1 & _ & E2 & E3 & Sh).
  - exact shell_state_layout.
  - exact command_session.
  - exact command_ready.
  - unfold PROG_LO. cbn. lia.
  - unfold disj. cbn. lia.
  - repeat split; vm_compute; congruence.
  - repeat split; vm_compute; congruence.
  - reflexivity.
  - repeat constructor; unfold CTRL_PRESSED; lia.
  - vm_compute. reflexivity.
  - reflexivity.
  - split; [cbn; lia|repeat constructor; lia].
  - exact command_program.
  - repeat constructor; lia.
  - cbn. lia.
  - vm_compute. reflexivity.
  - vm_compute. reflexivity.
  - exact Hok.
  - repeat constructor; discriminate.
  - rewrite Es. reflexivity.
  - exact command_user_layout.
  - exact test_tables_ok.
  - unfold PROG_LO. cbn. lia.
  - cbn. lia.
  - exists s1, eip, esp, s2, s3. split; [exact E1|]. split; [exact E2|]. split; [exact E3|exact Sh].
Defined.
