(* ===== verification/Startup.v ===== *)
(** * From power-on to the prompt: the end of entry in src/student-distrib/kernel.c

    Behind the set-up of Boot.v, [entry] executes the shell in an endless loop.  The theorem
    puts the set-up, the execute call and the first turn of the shell together. *)

From S2P Require Import Prelude Mem CString MemOps State Console Printf I8259 Pcb Rtc Filesys FilesysRead FilesysDir Keyboard Terminal Paging Syscalls Process Exec Trap Support FileCalls UserCalls Programs Output Run Syserr Typing Boot Shell Command.
Import String.StringSyntax.
#[local] Open Scope string_scope.
#[local] Open Scope Z_scope.
#[local] Open Scope list_scope.

(** ** The loop *)

(** [while (1) { EBX = "shell"; EAX = 2; int 0x80 }]; [shell] is the address of the literal, and
    each turn finds its own [ECX] and [EDX].  The result when a program has been entered;
    [None] when every turn came back. *)
Fixpoint entry_loop `{Ports} `{Layout} `{Traps} (n : nat) (shell ecx edx : Z) (s : kst) : option trap_result :=
  match n with
  | O => None
  | S n' =>
      match SYS_CALL_HANDLER 2 shell ecx edx s with
      | Iret _ s' => entry_loop n' shell ecx edx s'
      | r => Some r
      end
  end.

(** ** What the set-up leaves alone *)

Definition boot_writes `{Layout} `{BootLayout} (a : Z) : Prop :=
  changed boot_conv_buf a \/ in_tables a \/ in_range open_dentry 64 a \/ in_range read_dentry 64 a.

Section Setup.
Context `{Ports} `{Layout} `{BootLayout} (kd k0 k1 fsa : Z) (junk : seg_desc_t) (t : tables) (s : kst).
Context (BL : boot_layout kd k0 k1 fsa (k_mem s)) (Ht : tty 20 s).

Local Notation s' := (entry_setup junk fsa t s).2.

Lemma devices_quiet : k_kbd (setup_devices s) = k_kbd s /\ process_number (setup_devices s) = process_number s.
Proof using Type.
  set (z := i8259_init (clear (cli (upd_cpu (set_tss_esp0 0x800000) s)))).
  assert (E : k_kbd z = k_kbd s /\ process_number z = process_number s) by (split; reflexivity).
  assert (E2 : forall y, k_kbd (rtc_init y) = k_kbd y /\ process_number (rtc_init y) = process_number y) by (intros y; split; reflexivity).
  change (setup_devices s) with (rtc_init (mask_all_irqs z)). destruct (E2 (mask_all_irqs z)) as [-> ->]. clearbody z. clear E2.
  unfold mask_all_irqs. apply (for_range_ind (fun _ y => k_kbd y = k_kbd s /\ process_number y = process_number s)); [lia|exact E|].
  intros j y _ IH. unfold disable_irq. destruct (j <? 8); exact IH.
Qed.

Lemma setup_fields : k_kbd s' = k_kbd s /\ process_number s' = process_number s.
Proof using BL Ht.
  unfold entry_setup, setup_segments. fold (setup_devices s). cbn [snd].
  destruct (setup_devices_spec s) as (Ec & U1 & _). apply (unchanged_weaken _ (changed boot_conv_buf)) in U1; [|intros a Ha; by left].
  destruct (say_enabling kd k0 k1 fsa (setup_devices s)) as [(_ & Ek & _ & _ & Ep & _) _];
    [by eapply boot_layout_unchanged|by eapply tty_con|].
  destruct devices_quiet as [D1 D2]. rewrite <- D1, <- D2, <- Ek, <- Ep. by split.
Qed.

Lemma setup_kept a : in_window a = false -> ~ boot_writes a -> load8 (k_mem s') a = load8 (k_mem s) a.
Proof using BL Ht.
  intros Hw Hb. unfold boot_writes in Hb.
  destruct (setup_devices_spec s) as (Ec & U1 & _). apply (unchanged_weaken _ (changed boot_conv_buf)) in U1; [|intros b Hl; by left].
  destruct (say_enabling kd k0 k1 fsa (setup_devices s)) as [_ U2]; [by eapply boot_layout_unchanged|by eapply tty_con|].
  pose proof (unchanged_trans _ _ _ _ U1 U2) as U. clear U1 U2.
  unfold entry_setup, setup_segments. fold (setup_devices s). cbn [snd].
  revert U. generalize (say M_enabling [] (setup_devices s)). intros s2 U.
  destruct (mount_fields fsa (init_paging (sti s2))) as (_ & _ & _ & _ & ->).
  rewrite (unchanged_load8 _ _ _ _ (clear_low _)) by (unfold changed in Hb; tauto).
  change (k_mem (init_filesys fsa (init_paging (sti s2)))) with (clear_dentry read_dentry (clear_dentry open_dentry (k_mem (init_paging (sti s2))))).
  rewrite !(unchanged_load8 _ _ _ _ (clear_dentry_frame _ _)) by tauto.
  transitivity (load8 (init_tables (k_mem s2)) a); [unfold load8, byte_at; by rewrite Hw|].
  rewrite (unchanged_load8 _ _ _ _ (init_tables_frame _)) by tauto. apply (unchanged_load8 _ _ _ _ U). tauto.
Qed.
End Setup.

(** ** The shell in the image *)

(** The file system of the image at [fsa]. *)
Definition mounted (fsa : Z) (m : mem) : filesys := mkFilesys fsa (load32 m fsa) (load32 m (fsa + 4)) (load32 m (fsa + 8)) 0.

(** The kernel objects the first execute works with. *)
Definition first_objects `{Layout} (l : locals) : list region :=
  [(l_file_name l, 34); scratch; dentry_region open_dentry; dentry_region (l_dentry l); (l_header l, 32);
   (l_new_pcb l, PCB_SIZE); (page_directory + 4 * PRO_IDX, 4); (pcb_address 0, PCB_SIZE)].

(** The image holds a program with the name "shell"; it, the literals and the objects of
    execute are apart and below 8 MB, and the set-up does not write over what execute reads. *)
Record shell_ready `{Layout} `{BootLayout} (l : locals) (fsa shell : Z) (m : mem) (i : nat) : Prop := {
  sr_dir : dir_ok (mounted fsa m) m;
  sr_image : image_ok (mounted fsa m) /\ 0 <= fsa /\ (image (mounted fsa m)).1 + (image (mounted fsa m)).2 <= EIGHT_MB;
  sr_apart : apart ((shell, 6) :: image (mounted fsa m) :: first_objects l);
  sr_low : Forall (fun r => 0 < r.1 /\ r.1 + r.2 <= EIGHT_MB) ((shell, 6) :: (l_elf_text l, 4) :: first_objects l);
  sr_screen : Forall (rdisj screen_region) (first_objects l);
  sr_text : bytes m shell 6 = codes "shell" ++ [0];
  sr_elf : bytes m (l_elf_text l) 4 = elf_text /\ forall a, in_range (l_elf_text l) 4 a -> ~ search_frame l a;
  sr_kept : forall r a, r ∈ [(shell, 6); image (mounted fsa m); (l_elf_text l, 4)] -> in_region r a -> ~ boot_writes a;
  sr_program : program_named (mounted fsa m) m (codes "shell") i
}.

Lemma first_word_literal w : forall n m a, bytes m a (length w) = w -> load8 m (a + Z.of_nat (length w)) = 0 ->
  Forall (fun c => c <> 0 /\ c <> 10 /\ c <> 32) w -> (length w < n)%nat -> first_word n m a = w.
Proof.
  induction w as [|c w IH]; intros [|n] m a; cbn [length first_word]; intros Hb Hz Hw Hn; try lia.
  - rewrite Z.add_0_r in Hz. by rewrite Hz.
  - rewrite bytes_S in Hb. injection Hb as -> Hb. inversion_clear Hw as [|? ? (N1 & N2 & N3) Hw'].
    rewrite !(proj2 (Z.eqb_neq c _)) by done. cbn [orb]. f_equal. apply IH; [exact Hb| |exact Hw'|lia].
    by replace (a + 1 + Z.of_nat (length w)) with (a + Z.of_nat (S (length w))) by lia.
Qed.

Lemma shell_literal m a : bytes m a 6 = codes "shell" ++ [0] -> strlen m a = 5 /\ first_word 33 m a = codes "shell".
Proof.
  intros E. change 6%nat with (5 + 1)%nat in E. rewrite bytes_app in E. apply app_inj_1 in E as [E Ez]; [|by rewrite length_bytes].
  assert (Nz : Forall (fun c => c <> 0 /\ c <> 10 /\ c <> 32) (codes "shell")) by (vm_compute; repeat constructor; discriminate).
  injection Ez as Ez. rewrite Z.add_0_r in Ez. split.
  - apply (strlen_eq _ _ 5). apply (is_cstr_of_bytes _ _ (codes "shell")); [exact E|exact Ez|].
    eapply Forall_impl; [exact Nz|]. by intros c [Hc _].
  - apply first_word_literal; [exact E|exact Ez|exact Nz|vm_compute; lia].
Qed.

Section First.
Context `{Ports} `{Layout} `{BootLayout} `{Traps} (kd k0 k1 fsa shell : Z) (junk : seg_desc_t) (t : tables) (s : kst) (i : nat).
Context (BL : boot_layout kd k0 k1 fsa (k_mem s)) (Ht : tty 20 s).
Context (SR : shell_ready exec_locals fsa shell (k_mem s) i) (Hn : process_number s = 0).

Local Notation m := (k_mem s).
Local Notation s' := (entry_setup junk fsa t s).2.

Lemma setup_ready :
  tables_built (k_mem s') /\ ret_dir_ptr s' = page_directory /\ k_fs s' = mounted fsa m /\ k_con s' = mkConsole 0 0 /\
  forall j, 0 <= j < 2000 -> load8 (k_mem s') (VIDEO + 2 * j) = 32.
Proof using BL Ht.
  unfold entry_setup, setup_segments. fold (setup_devices s). cbn [snd].
  destruct (setup_said _ _ _ _ s BL Ht) as (BL2 & Eu & _ & Hf). revert BL2 Eu Hf.
  generalize (say M_enabling [] (setup_devices s)). intros s2 BL2 Eu Hf. fold (setup_memory fsa (sti s2)).
  destruct (setup_memory_spec kd k0 k1 fsa (sti s2) BL2) as (Hb & Ec & _ & Econ & Efs & Hcells).
  destruct (init_paging_regs kd k0 k1 (bl_paging _ _ _ _ _ BL) (sti s2)) as (Ed & _).
  split; [exact Hb|]. split; [unfold ret_dir_ptr; rewrite Ec; exact Ed|]. split; [|split; [exact Econ|apply Hcells]].
  rewrite Efs. change (k_mem (sti s2)) with (k_mem s2). unfold mounted.
  pose proof (Hf 0 ltac:(lia)) as E0. rewrite Z.mul_0_r, Z.add_0_r in E0.
  pose proof (Hf 1 ltac:(lia)) as E1. change (fsa + 4 * 1) with (fsa + 4) in E1.
  pose proof (Hf 2 ltac:(lia)) as E2. change (fsa + 4 * 2) with (fsa + 8) in E2. by rewrite <- E0, <- E1, <- E2.
Qed.

Lemma ready_kept r a : r ∈ [(shell, 6); image (mounted fsa m); (l_elf_text exec_locals, 4)] ->
  in_region r a -> load8 (k_mem s') a = load8 m a.
Proof using BL Ht SR.
  intros Hr Ha. apply (setup_kept kd k0 k1 fsa junk t s BL Ht a); [|exact (sr_kept _ _ _ _ _ SR r a Hr Ha)].
  pose proof (sr_low _ _ _ _ _ SR) as L. pose proof (sr_image _ _ _ _ _ SR) as (_ & L1 & L2). rewrite !Forall_cons in L. destruct L as (L3 & L4 & _).
  unfold in_window. apply andb_false_iff. left. apply Z.leb_gt. clear - Hr Ha L1 L2 L3 L4. revert Hr Ha L1 L2 L3 L4.
  unfold in_region, in_range, EIGHT_MB, PROG_LO. rewrite !elem_of_cons, elem_of_nil.
  intros [-> | [-> | [-> | []]]]; cbn [fst snd]; lia.
Qed.

Lemma ready_image : image_agree (mounted fsa m) m (k_mem s').
Proof using BL Ht SR. intros a Ha. eapply ready_kept; [|exact Ha]. rewrite !elem_of_cons. by right; left. Qed.

Lemma ready_objects : exec_objects exec_locals s' = first_objects exec_locals /\ page_entry s' = page_directory + 4 * PRO_IDX /\ process_number s' = 0.
Proof using BL Ht Hn.
  destruct setup_ready as (_ & Ed & _). destruct (setup_fields kd k0 k1 fsa junk t s BL Ht) as [_ Ep].
  unfold exec_objects, page_entry, first_objects. by rewrite Ed, Ep, Hn.
Qed.

Lemma ready_bytes a n : (a, Z.of_nat n) ∈ [(shell, 6); image (mounted fsa m); (l_elf_text exec_locals, 4)] -> bytes (k_mem s') a n = bytes m a n.
Proof using BL Ht SR.
  intros Hr. pose proof (bytes_pointwise m (k_mem s') a a (Z.of_nat n)) as B. rewrite Nat2Z.id in B.
  apply B; [lia|]. intros j Hj. eapply ready_kept; [exact Hr|]. unfold in_region, in_range. cbn [fst snd]. lia.
Qed.

Lemma ready_command : strlen (k_mem s') shell = 5 /\ first_word 33 (k_mem s') shell = codes "shell".
Proof using BL Ht SR.
  apply shell_literal. rewrite (ready_bytes shell 6) by (rewrite !elem_of_cons; by left). exact (sr_text _ _ _ _ _ SR).
Qed.

Lemma ready_layout : exec_layout exec_locals shell s'.
Proof using BL Ht SR Hn.
  destruct setup_ready as (_ & _ & Ef & _). destruct ready_objects as (Eo & _). destruct ready_command as [El _].
  pose proof (sr_image _ _ _ _ _ SR) as (Hi & _). pose proof (sr_low _ _ _ _ _ SR) as L. rewrite !Forall_cons in L. destruct L as (_ & _ & L).
  split; rewrite ?Ef, ?Eo, ?El; [|exact (sr_apart _ _ _ _ _ SR)|exact Hi|exact L|lia].
  eapply dir_ok_agree; [exact ready_image|exact Hi|exact (sr_dir _ _ _ _ _ SR)].
Qed.

Lemma ready_names : names_program (k_fs s') (k_mem s') shell i.
Proof using BL Ht SR Hn.
  destruct setup_ready as (_ & _ & Ef & _). destruct ready_command as [_ Ew]. pose proof ready_image as HA.
  pose proof (sr_image _ _ _ _ _ SR) as (Hi & _). pose proof (sr_dir _ _ _ _ _ SR) as Hd.
  destruct (sr_program _ _ _ _ _ SR) as [[x Hf] Hty Hok Hs Hm].
  pose proof (dir_names_agree _ _ _ HA Hi Hd) as En.
  destruct (entry_agree _ _ _ HA Hi Hd _ (found_entry _ _ _ i x Hf)) as [Et Ei].
  split; rewrite ?Ef, ?Ew, ?En, ?Et, ?Ei, ?(file_size_agree _ _ _ HA Hi), ?(file_bytes_agree _ _ _ HA Hi) by (exact Hok || apply Hok).
  - vm_compute. lia.
  - by exists x.
  - exact Hty.
  - by apply (file_ok_agree _ _ _ HA Hi).
  - exact Hs.
  - exact Hm.
Qed.

Lemma ready_elf : bytes (k_mem s') (l_elf_text exec_locals) 4 = elf_text.
Proof using BL Ht SR.
  rewrite (ready_bytes (l_elf_text exec_locals) 4) by (rewrite !elem_of_cons; by right; right; left). apply (sr_elf _ _ _ _ _ SR).
Qed.

Lemma ready_page : load32 (k_mem s') (page_entry s') mod 2 = 1.
Proof using BL Ht SR Hn.
  destruct ready_objects as (_ & -> & _). destruct setup_ready as (Hb & _). rewrite (tb_dir _ Hb PRO_IDX) by (unfold PRO_IDX; lia). reflexivity.
Qed.
End First.

Lemma file_word_agree fs m m' inode o :
  image_agree fs m m' -> image_ok fs -> file_ok fs m inode -> 0 <= o -> o + 4 <= file_size fs m inode ->
  file_word fs m' inode o = file_word fs m inode o.
Proof. intros HA Hi Hok H0 H1. unfold file_word. by rewrite !(file_byte_agree fs m m' HA Hi inode) by (exact Hok || lia). Qed.

(** ** The process of the shell *)

(** Execute opens the terminal for the process it starts. *)
Lemma started_keyboard `{Layout} l command s eip esp cs ds s1 :
  exec_layout l command s -> sys_execute_c l command s = ExecEnter eip esp cs ds s1 ->
  k_kbd s1 = set_ctrl_mode 0 (set_shift_mode 0 (set_caps_mode 0 (set_dict 0 (k_kbd s)))) /\
  masked s1 1 = masked (enable_irq 1 s) 1.
Proof.
  intros XL E. apply execute_inv in E as (_ & m2 & inode & _ & _ & ->); [|exact XL].
  unfold finish, install_pcb, build_pcb, load_program, on_mem. destruct (read_data _ _ _ _ _ _ _ _) as [r m3]. by split.
Qed.

(** The editor when a program starts. *)
Definition fresh_editor : editor := mkEd false false [] false.

Lemma started_session `{Ports} `{Layout} `{Traps} l command s eip esp cs ds s1 :
  exec_layout l command s -> 0 <= process_number s -> sys_execute_c l command s = ExecEnter eip esp cs ds s1 -> tables_ok ->
  on_screen (k_con s) -> key_buf_index (k_kbd s) = 0 -> enter_flag (k_kbd s) = 0 ->
  session (pcb_address (process_number s)) fresh_editor s1.
Proof.
  intros XL Hn E HT Ho Hk He. destruct (started_quiet _ _ _ _ _ _ _ _ XL E) as [_ Ec].
  destruct (started_keyboard _ _ _ _ _ _ _ _ XL E) as [Ek _].
  pose proof (execute_entered _ _ _ _ _ _ _ _ XL Hn E) as (_ & Ep & _ & _ & _ & _ & _ & _ & _ & _ & _ & Hfl & Hop & _).
  destruct (started_fds _ _ _ _ _ _ _ _ XL Hn E HT) as [_ Hso]. split; [exact Ep| |by apply Hso|].
  - rewrite <- Ep in Hfl, Hop. split; [unfold fd_open, fd_used; by rewrite Hfl by lia|].
    unfold fd_ops. rewrite Hop by lia. apply (ops_of_type_at 3), HT.
  - split; rewrite ?Ec, ?Ek; cbn [fresh_editor ed_line length].
    + unfold kbd_agrees. destruct (k_kbd s). cbn in He |- *. by rewrite He.
    + exact Hk.
    + lia.
    + done.
    + constructor.
    + exact Ho.
    + unfold on_screen, cursor_pos, NUM_COLS in *. lia.
Qed.

(** A literal of a program, at its address when the file is in the program page. *)
Definition literal_at (f : list Z) (a : Z) (l : list Z) : Prop :=
  USER_PROG <= a /\ take (S (length l)) (drop (Z.to_nat (a - USER_PROG)) f) = l ++ [0].

Lemma loaded_literal m n f a l : bytes m USER_PROG n = f -> literal_at f a l -> text_in m a l.
Proof.
  intros <- [Ha E]. set (o := Z.to_nat (a - USER_PROG)) in *.
  assert (Hlen : (o + S (length l) <= n)%nat).
  { apply (f_equal length) in E. rewrite length_take, length_drop, length_bytes, length_app in E. cbn [length] in E. lia. }
  replace n with (o + (S (length l) + (n - o - S (length l))))%nat in E by lia.
  rewrite bytes_app, drop_app_length' in E by (by rewrite length_bytes).
  rewrite bytes_app, take_app_length' in E by (by rewrite length_bytes).
  replace (USER_PROG + Z.of_nat o) with a in E by lia. replace (S (length l)) with (length l + 1)%nat in E by lia.
  rewrite bytes_app in E. apply app_inj_1 in E as [E Ez]; [|by rewrite length_bytes].
  split; [unfold USER_PROG, PROG_LO in *; lia|]. split; [exact E|]. rewrite bytes_S in Ez. by injection Ez.
Qed.

(** ** Theorem *)

Definition start_text : list Z := codes "Starting 391 Shell" ++ [10].

Lemma blank_screen s : k_con s = mkConsole 0 0 -> (forall j, 0 <= j < 2000 -> load8 (k_mem s) (VIDEO + 2 * j) = 32) ->
  shown s ≡ mkTerm (fun _ _ => 32) 0 0.
Proof.
  intros Ec Hc. split; [cbn; by rewrite Ec|]. split; [cbn; by rewrite Ec|]. intros y x Hy Hx. cbn. unfold cell. apply Hc.
  unfold NUM_COLS, NUM_ROWS in *. lia.
Qed.

(** What the first turn shows, in a process that has just been started on a blank screen. *)
Lemma first_turn `{Ports} `{Layout} `{Traps} pcb sd s1 :
  keys_layout pcb -> session pcb fresh_editor s1 -> PROG_LO <= sh_buf sd -> disj (sh_buf sd) 1024 (sh_exit sd) 5 ->
  text_in (k_mem s1) (sh_start sd) start_text -> text_in (k_mem s1) (sh_prompt sd) prompt_text -> text_in (k_mem s1) (sh_exit sd) exit_text ->
  exists s2 s3, ece391_fdputs 1 (sh_start sd) s1 = Some s2 /\ ece391_fdputs 1 (sh_prompt sd) s2 = Some s3 /\
    shown s3 ≡ term_print prompt_text (term_print start_text (shown s1)) /\
    (Forall (Forall plain) (sc_keys (arrivals s3)) -> forall e', await (sc_keys (arrivals s3)) fresh_editor = Some e' ->
     exists s4, let command := c_text (chomp (ed_line e')) in
       shell_turn sd s2 = Some (shell_outcome sd command s4) /\ text_in (k_mem s4) (sh_buf sd) command).
Proof.
  intros KL S Hb Hd T1 T2 T3. destruct (session_put pcb KL fresh_editor (sh_start sd) start_text s1 S T1) as (s2 & E2 & Sh2 & U2 & S2).
  { split; [vm_compute; repeat constructor; discriminate|vm_compute; reflexivity]. }
  assert (Kept : forall a l, text_in (k_mem s1) a l -> text_in (k_mem s2) a l).
  { intros a l. apply (text_in_unchanged screen_bytes); [exact U2|]. intros b. unfold screen_bytes, in_range, VIDEO, NUM_ROWS, NUM_COLS, PROG_LO. lia. }
  destruct (shell_turn_spec pcb sd fresh_editor s2 KL S2 Hb Hd (Kept _ _ T2) (Kept _ _ T3)) as (s3 & E3 & Sh3 & R).
  exists s2, s3. split; [exact E2|]. split; [exact E3|]. split.
  - etransitivity; [exact Sh3|]. apply term_print_proper, Sh2.
  - intros Hp e' Ha. specialize (R Hp). change (mkEd (ed_shift fresh_editor) (ed_caps fresh_editor) [] (ed_entered fresh_editor)) with fresh_editor in R. rewrite Ha in R.
    destruct R as (s4 & R1 & R2 & _). exists s4. split; [exact R1|exact R2].
Qed.

(** C2 Switched on with a program "shell" in the image, the machine comes up with the shell: the
    loop at the end of entry enters it at the entry point its header gives, in the first
    process, with the file in the program page byte for byte and the keyboard's line open.  On
    the cleared screen the shell prints its greeting and its prompt, and its first turn executes
    the line that is typed. *)
Theorem boot_starts_shell `{Ports} `{Layout} `{BootLayout} `{Traps} kd k0 k1 fsa shell junk t s i sd n ecx edx :
  let fs := mounted fsa (k_mem s) in
  let inode := entry_inode fs (k_mem s) (1 + Z.of_nat i) in
  let f := file_bytes fs (k_mem s) inode in
  boot_layout kd k0 k1 fsa (k_mem s) -> tty 20 s -> shell_ready exec_locals fsa shell (k_mem s) i ->
  process_number s = 0 -> key_buf_index (k_kbd s) = 0 -> enter_flag (k_kbd s) = 0 ->
  tables_ok -> keys_layout (pcb_address 0) ->
  literal_at f (sh_start sd) start_text -> literal_at f (sh_prompt sd) prompt_text -> literal_at f (sh_exit sd) exit_text ->
  PROG_LO <= sh_buf sd -> disj (sh_buf sd) 1024 (sh_exit sd) 5 ->
  exists s1 s2 s3,
    entry_loop (S n) shell ecx edx (entry_setup junk fsa t s).2 =
      Some (Enter (file_word fs (k_mem s) inode 24) 0x83FFFFC USER_CS USER_DS s1) /\
    bytes (k_mem s1) USER_PROG (length f) = f /\ process_number s1 = 1 /\ masked s1 1 = false /\
    ece391_fdputs 1 (sh_start sd) s1 = Some s2 /\ ece391_fdputs 1 (sh_prompt sd) s2 = Some s3 /\
    shown s3 ≡ term_print prompt_text (term_print start_text (mkTerm (fun _ _ => 32) 0 0)) /\
    (Forall (Forall plain) (sc_keys (arrivals s3)) -> forall e', await (sc_keys (arrivals s3)) fresh_editor = Some e' ->
     exists s4, let command := c_text (chomp (ed_line e')) in
       shell_turn sd s2 = Some (shell_outcome sd command s4) /\ text_in (k_mem s4) (sh_buf sd) command).
Proof.
  intros fs inode f BL Ht SR Hn Hk He HT KL L1 L2 L3 Hb Hd.
  destruct (setup_ready kd k0 k1 fsa junk t s BL Ht) as (_ & _ & Ef & Econ & Hcells).
  destruct (setup_fields kd k0 k1 fsa junk t s BL Ht) as [Ek Ep].
  pose proof (ready_layout kd k0 k1 fsa shell junk t s i BL Ht SR Hn) as XL.
  pose proof (ready_names kd k0 k1 fsa shell junk t s i BL Ht SR Hn) as NP.
  pose proof (ready_page kd k0 k1 fsa shell junk t s i BL Ht SR Hn) as Hpage.
  destruct (ready_objects kd k0 k1 fsa junk t s BL Ht Hn) as (Eo & _).
  pose proof (ready_image kd k0 k1 fsa shell junk t s i BL Ht SR) as HA.
  pose proof (ready_elf kd k0 k1 fsa shell junk t s i BL Ht SR) as Eelf.
  destruct (sr_program _ _ _ _ _ SR) as [[x Hfind] _ Hok Hs _]. fold fs in Hfind, Hok, Hs. fold inode in Hok, Hs.
  pose proof (sr_image _ _ _ _ _ SR) as (Hi & _ & Hlow). pose proof (sr_dir _ _ _ _ _ SR) as Hdir. fold fs in Hi, Hlow, Hdir, Ef, HA.
  revert Ek Ep Ef Econ Hcells XL NP Hpage Eo HA Eelf. generalize ((entry_setup junk fsa t s).2).
  intros s0 Ek Ep Ef Econ Hcells XL NP Hpage Eo HA Eelf. rewrite Hn in Ep.
  destruct (entry_agree fs _ _ HA Hi Hdir _ (found_entry fs _ _ i x Hfind)) as [_ Ei].
  destruct (execute_enters exec_locals shell s0 i XL NP Eelf (proj2 (sr_elf _ _ _ _ _ SR))) as (s1 & E & B).
  { rewrite Ep. lia. }
  { exact Hpage. }
  { rewrite Ef. etrans; [exact Hlow|by vm_compute]. }
  rewrite Ef, Ei in E, B. fold inode in E, B. 
  pose proof (started_session _ _ _ _ _ _ _ _ XL ltac:(rewrite Ep; lia) E HT ltac:(rewrite Econ; vm_compute; repeat split; congruence)
    ltac:(by rewrite Ek) ltac:(by rewrite Ek)) as S. rewrite Ep in S.
  pose proof (started_keyboard _ _ _ _ _ _ _ _ XL E) as [_ Em].
  pose proof (execute_entered _ _ _ _ _ _ _ _ XL ltac:(rewrite Ep; lia) E) as (_ & _ & Epn & _). rewrite Ep in Epn.
  rewrite (file_word_agree fs _ _ inode 24 HA Hi Hok) in E by lia.
  rewrite (file_bytes_agree fs _ _ HA Hi inode Hok), (file_size_agree fs _ _ HA Hi) in B by apply Hok. fold f in B.
  assert (Bf : bytes (k_mem s1) USER_PROG (length f) = f) by (rewrite <- B at 1; by rewrite length_bytes).
  destruct (first_turn (pcb_address 0) sd s1 KL S Hb Hd (loaded_literal _ _ _ _ _ Bf L1) (loaded_literal _ _ _ _ _ Bf L2)
    (loaded_literal _ _ _ _ _ Bf L3)) as (s2 & s3 & E2 & E3 & Sh & R).
  exists s1, s2, s3. split; [|split; [exact Bf|split; [exact Epn|split; [|split; [exact E2|split; [exact E3|split; [|exact R]]]]]]].
  - cbn [entry_loop]. change (SYS_CALL_HANDLER 2 shell ecx edx s0) with (linkage_execute shell s0). unfold linkage_execute. by rewrite E.
  - rewrite Em. by apply masked_enable.
  - etransitivity; [exact Sh|]. apply term_print_proper, term_print_proper.
    etransitivity; [apply (started_shown _ _ _ _ _ _ _ _ XL ltac:(rewrite Ep; lia) E)|by apply blank_screen].
    rewrite Eo. exact (sr_screen _ _ _ _ _ SR).
Qed.

(** ** A machine with the shell

    The addresses of Boot.v's machine, and an image with one program of 65 bytes: a header and the
    literals of the shell. *)
#[local] Existing Instance boot_test_layout.
#[local] Existing Instance boot_test.
#[local] Instance start_ports : Ports := fun _ _ => 0.
#[local] Instance start_traps : Traps :=
  {| arrivals := fun _ => mkSched [[0x26; 0x1F; 0x1C]] []; open_local := 0x7FD600;
     exec_locals := mkLocals 0x7FD000 0x7FD040 0x7FD080 0x7FD100 0x408000 0x7FDFF0; args_fuel := 1025 |}.

Definition shell_file : list Z :=
  [0x7F; 69; 76; 70] ++ replicate 20 0 ++ [0x94; 0x80; 4; 8] ++ replicate 4 0 ++
  start_text ++ [0] ++ prompt_text ++ [0] ++ exit_text ++ [0].

Definition start_mem : mem :=
  let m := store_list (Mem ∅ ∅ 0) 0x404000 enabling_text in
  let m := store_list (store_list m 0x408000 elf_text) 0x408100 (codes "shell") in
  let m := store32 (store32 (store32 m 0x500000 1) 0x500004 1) 0x500008 1 in
  let m := store32 (store_list m 0x500040 (codes "shell")) 0x500060 REG_FILE in
  store_list (store32 m 0x501000 65) 0x502000 shell_file.

Definition start_state : kst :=
  mkKst start_mem (mkConsole 0 0) (mkPic 0 0) 0 (mkKeyboard 0 0 0 0 0 0 0) (mkFilesys 0 0 0 0 0) 0 0 (mkCpu false 0 0 0 0) [].

Definition start_shell : shell_data := mkShell 0x8050000 0x8048020 0x8048034 0 0x804803C 0 0 0.

Definition start_fs : filesys := mkFilesys 0x500000 1 1 1 0.

Lemma start_mounted : mounted 0x500000 start_mem = start_fs.
Proof. vm_compute. reflexivity. Qed.

Lemma start_boot : boot_layout 0x410 0x411 0x412 0x500000 start_mem.
Proof.
  split; unfold in_tables, in_range, disj, KERNEL_LO, PROG_LO; cbn -[enabling_text start_mem bytes load8];
    try lia; try (split; [lia|intros; lia]); try (split; [lia|split; [lia|intros; lia]]).
  - split; cbn; lia.
  - split; vm_compute; reflexivity.
  - intros j Hj. assert (F : forallb (fun j => load32 start_mem (0x412000 + 4 * j) =? 0) (zseq 0 1024) = true) by (vm_compute; reflexivity).
    rewrite forallb_forall in F. apply Z.eqb_eq, F, list_elem_of_In, elem_of_zseq. lia.
  - exact boot_test_handlers.
Qed.

Lemma start_file : file_size start_fs start_mem 0 = 65 /\ file_ok start_fs start_mem 0 /\ file_bytes start_fs start_mem 0 = shell_file.
Proof.
  assert (Es : file_size start_fs start_mem 0 = 65) by (vm_compute; reflexivity). split; [exact Es|]. split.
  - split; [vm_compute; intuition congruence|]. split; [cbn; lia|]. rewrite Es. split; [unfold FOUR_KB; lia|].
    intros o Ho. replace (o / FOUR_KB) with 0 by (unfold FOUR_KB; zdm). vm_compute. reflexivity.
  - unfold file_bytes. rewrite Es. vm_compute. reflexivity.
Qed.

Lemma start_inode : entry_inode start_fs start_mem (1 + Z.of_nat 0) = 0.
Proof. vm_compute. reflexivity. Qed.

Lemma start_ready : shell_ready exec_locals 0x500000 0x408100 start_mem 0.
Proof.
  destruct start_file as (Es & Hok & Eb). split; rewrite ?start_mounted.
  - split; [vm_compute; congruence|]. split; [vm_compute; intuition congruence|].
    intros i Hi. cbn in Hi. assert (i = 1) as -> by lia. vm_compute. reflexivity.
  - split; [vm_compute; intuition congruence|]. split; [lia|vm_compute; congruence].
  - sep_solve.
  - unfold first_objects. repeat (constructor; [vm_compute; split; congruence|]). constructor.
  - unfold first_objects. repeat (constructor; [sep_solve|]). constructor.
  - vm_compute. reflexivity.
  - split; [vm_compute; reflexivity|]. intros a. unfold search_frame, lookup_frame, in_region, in_range. cbn. lia.
  - intros r a. rewrite !elem_of_cons, elem_of_nil. unfold boot_writes, changed, low, in_tables, in_region, in_range, KERNEL_LO.
    intros [-> | [-> | [-> | []]]]; cbn; lia.
  - split; rewrite ?start_inode, ?Es, ?Eb.
    + exists (codes "shell"). vm_compute. reflexivity.
    + vm_compute. reflexivity.
    + exact Hok.
    + vm_compute. split; congruence.
    + vm_compute. reflexivity.
Qed.

(** "ls" is typed at the first prompt. *)
Lemma boot_starts_shell_witness : exists s1 s2 s4,
  entry_loop 1 0x408100 0 0 (entry_setup boot_test_seg 0x500000 (mkTables boot_test_idt boot_test_seg boot_test_seg 0 0 0 0 false) start_state).2 =
    Some (Enter 0x8048094 0x83FFFFC USER_CS USER_DS s1) /\
  ece391_fdputs 1 (sh_start start_shell) s1 = Some s2 /\ shell_turn start_shell s2 = Some (ShellExecute 0x8050000 s4) /\
  text_in (k_mem s4) 0x8050000 (codes "ls").
Proof.
  destruct start_file as (Es & Hok & Eb).
  pose proof (boot_starts_shell 0x410 0x411 0x412 0x500000 0x408100 boot_test_seg
    (mkTables boot_test_idt boot_test_seg boot_test_seg 0 0 0 0 false) start_state 0 start_shell 0 0 0) as B.
  cbv zeta in B. change (k_mem start_state) with start_mem in B. rewrite start_mounted, start_inode, Eb in B.
  destruct B as (s1 & s2 & s3 & E1 & _ & _ & _ & E2 & _ & _ & R).
  - exact start_boot.
  - unfold tty, NUM_COLS. cbn. lia.
  - exact start_ready.
  - reflexivity.
  - reflexivity.
  - reflexivity.
  - split; [repeat constructor; vm_compute; intuition congruence|]. apply (bool_decide_unpack _). vm_compute. exact I.
  - split; [sep_solve|sep_solve|sep_solve|vm_compute; congruence|vm_compute; congruence].
  - split; vm_compute; congruence.
  - split; vm_compute; congruence.
  - split; vm_compute; congruence.
  - unfold PROG_LO. cbn. lia.
  - unfold disj. cbn. lia.
  - destruct (R ltac:(vm_compute; repeat constructor; congruence) (mkEd false false (codes "ls" ++ [10]) true) ltac:(vm_compute; reflexivity)) as (s4 & E4 & T).
    exists s1, s2, s4. split; [exact E1|]. split; [exact E2|]. split; [exact E4|exact T].
Defined.
