(* ===== verification/Lines.v ===== *)
(** * The lines of a text

    Shared by the programs that read files line by line. *)

From S2P Require Import Prelude.

(** The lines of a text; the text behind the last newline is a line. *)
Fixpoint lines (f : list Z) : list (list Z) :=
  match f with
  | [] => [[]]
  | c :: f' =>
      if c =? 10 then [] :: lines f' else
      match lines f' with
      | l :: ls => (c :: l) :: ls
      | [] => [[c]]
      end
  end.

(** The first line of a text, and the text behind its newline. *)
Fixpoint cut (f : list Z) : list Z * option (list Z) :=
  match f with
  | [] => ([], None)
  | c :: f' => if c =? 10 then ([], Some f') else let '(l, r) := cut f' in (c :: l, r)
  end.

Lemma lines_cut f :
  lines f = match cut f with (l, None) => [l] | (l, Some r) => l :: lines r end.
Proof.
  induction f as [|c f IH]; cbn [lines cut]; [done|]. destruct (c =? 10); [done|]. rewrite IH.
  destruct (cut f) as [l [r|]]; done.
Qed.

Lemma cut_length f : (length (cut f).1 <= length f)%nat /\ forall r, (cut f).2 = Some r -> (length r < length f)%nat.
Proof.
  induction f as [|c f IH]; cbn [cut]; [split; [done|by intros r]|]. destruct (c =? 10); cbn; [split; [lia|intros r [= ->]; lia]|].
  destruct (cut f) as [l r]. cbn [fst snd length] in *. destruct IH as [I1 I2]. split; [lia|]. intros r' Hr. specialize (I2 r' Hr). lia.
Qed.

Lemma lines_nonempty f : lines f <> [].
Proof. rewrite lines_cut. by destruct (cut f) as [l [r|]]. Qed.
