(* ===== verification/Grep.v ===== *)
(** * The program grep, src/syscalls/ece391grep.c

    [do_one_file] reads a file into a buffer of 1024 bytes and searches it line by line; an
    unfinished line at the end of the buffer is moved to its start before the next read.
    [grep_main] does that for the files of the directory.

    The theorems say which lines are printed: a line of the file is searched in pieces of
    at most 1024 characters, wherever the reads end. *)

From S2P Require Import Prelude Mem CString MemOps State Console Pcb Filesys FilesysRead FilesysDir Syscalls Process Trap Support FileCalls UserCalls Programs Output Lines.

(** ** The program *)

Definition BUFSIZE : Z := 1024.

(** The addresses of the arrays and the string literals. *)
Record grep_data := mkGrep {
  gr_data : Z;           (* uint8_t data[1025] of do_one_file *)
  gr_buf : Z;            (* uint8_t buf[33] *)
  gr_search : Z;         (* uint8_t search[1024] *)
  gr_colon : Z;          (* : *)
  gr_newline : Z;        (* a newline *)
  gr_dot : Z;            (* . *)
  gr_no_open : Z;        (* file open failed *)
  gr_no_read : Z;        (* file read failed *)
  gr_no_close : Z;       (* file close failed *)
  gr_no_args : Z;        (* could not read argument *)
  gr_no_dir : Z;         (* directory open failed *)
  gr_no_entry : Z        (* directory entry read failed *)
}.

Section Program.
Context `{Ports} `{Layout} `{Traps} (d : grep_data).

(** The loop that moves [line_end], which is at most [n] places before [last]. *)
Fixpoint find_newline (n : nat) (m : mem) (line_end : Z) : Z :=
  match n with
  | O => line_end
  | S n' => if load8 m (gr_data d + line_end) =? 10 then line_end else find_newline n' m (line_end + 1)
  end.

(** The loop over [check], for [n] positions: does it find the string? *)
Fixpoint check_loop (n : nat) (m : mem) (s s_len check : Z) : bool :=
  match n with
  | O => false
  | S n' =>
      if (load8 m s =? load8 m (gr_data d + check)) && (ece391_strncmp m (gr_data d + check) s s_len =? 0) then true
      else check_loop n' m s s_len (check + 1)
  end.

(** The four calls for a line that contains the string. *)
Definition print_line (fname line_start : Z) (s : kst) : option kst :=
  s ← ece391_fdputs 1 fname s;
  s ← ece391_fdputs 1 (gr_colon d) s;
  s ← ece391_fdputs 1 (gr_data d + line_start) s;
  ece391_fdputs 1 (gr_newline d) s.

(** The search of a line. *)
Definition search_line (s s_len fname line_start line_end : Z) (st : kst) : option kst :=
  let st := upd_mem (fun m => store8 m (gr_data d + line_end) 0) st in
  if check_loop (Z.to_nat (line_end - line_start)) (k_mem st) s s_len line_start
  then print_line fname line_start st else Some st.

(** The inner loop: the new value of [last]. *)
Fixpoint line_loop (n : nat) (s s_len fname cnt last line_start : Z) (st : kst) : option (Z * kst) :=
  match n with
  | O => None
  | S n' =>
      let line_end := find_newline (Z.to_nat (last - line_start)) (k_mem st) line_start in
      if negb (load8 (k_mem st) (gr_data d + line_end) =? 10) && negb (cnt =? 0) && negb (line_start =? 0) then
        let m := store8 (k_mem st) (gr_data d + line_end) 0 in
        m ← ece391_strcpy m (gr_data d) (gr_data d + line_start);
        Some (last - line_start, set_k_mem m st)
      else
        st ← search_line s s_len fname line_start line_end st;
        let line_start := line_end + 1 in
        if last <=? line_start then Some (0, st) else line_loop n' s s_len fname cnt last line_start st
  end.

(** The outer loop: 0 when it ends after a read of 0 bytes, -1 when a read fails. *)
Fixpoint read_loop (n : nat) (s s_len fname fd last : Z) (st : kst) : option (Z * kst) :=
  match n with
  | O => None
  | S n' =>
      '(cnt, st) ← ece391_read fd (gr_data d + last) (BUFSIZE - last) st;
      if cnt =? -1 then (st ← ece391_fdputs 1 (gr_no_read d) st; Some (-1, st)) else
      let last := last + cnt in
      '(last, st) ← line_loop (S (Z.to_nat last)) s s_len fname cnt last 0 st;
      if cnt =? 0 then Some (0, st) else read_loop n' s s_len fname fd last st
  end.

Definition do_one_file (n : nat) (s fname : Z) (st : kst) : option (Z * kst) :=
  let s_len := s32 (ece391_strlen (k_mem st) s) in
  '(fd, st) ← ece391_open fname st;
  if fd =? -1 then (st ← ece391_fdputs 1 (gr_no_open d) st; Some (-1, st)) else
  '(r, st) ← read_loop n s s_len fname fd 0 st;
  if r =? -1 then Some (-1, st) else
  '(r, st) ← ece391_close fd st;
  if r =? -1 then (st ← ece391_fdputs 1 (gr_no_close d) st; Some (-1, st)) else
  Some (0, st).

(** The loop over the directory; [turns] for the directory, [n] for a file. *)
Fixpoint grep_loop (turns n : nat) (fd : Z) (st : kst) : option (Z * kst) :=
  match turns with
  | O => None
  | S turns' =>
      '(cnt, st) ← ece391_read fd (gr_buf d) (SBUFSIZE - 1) st;
      if cnt =? 0 then Some (0, st) else
      if cnt =? -1 then (st ← ece391_fdputs 1 (gr_no_entry d) st; Some (3, st)) else
      if load8 (k_mem st) (gr_buf d) =? 46 then grep_loop turns' n fd st else
      let st := upd_mem (fun m => store8 m (gr_buf d + cnt) 0) st in
      '(r, st) ← do_one_file n (gr_search d) (gr_buf d) st;
      if negb (r =? 0) then Some (3, st) else grep_loop turns' n fd st
  end.

Definition grep_main (turns n : nat) (st : kst) : option (Z * kst) :=
  '(r, st) ← ece391_getargs (gr_search d) BUFSIZE st;
  if negb (r =? 0) then (st ← ece391_fdputs 1 (gr_no_args d) st; Some (3, st)) else
  '(fd, st) ← ece391_open (gr_dot d) st;
  if fd =? -1 then (st ← ece391_fdputs 1 (gr_no_dir d) st; Some (2, st)) else
  grep_loop turns n fd st.
End Program.

(** ** The lines that are found *)

(** The text [pat] occurs in [p]; the empty text occurs nowhere. *)
Definition occurs (pat p : list Z) : bool :=
  match pat with
  | [] => false
  | _ => existsb (fun i => bool_decide (take (length pat) (drop i p) = pat)) (seq 0 (length p))
  end.

(** A line in pieces of 1024 characters. *)
Definition piece : nat := Z.to_nat BUFSIZE.
Fixpoint chunks_from (n : nat) (l : list Z) : list (list Z) :=
  match n with
  | O => [l]
  | S n' => take piece l :: chunks_from n' (drop piece l)
  end.
Definition chunks (l : list Z) : list (list Z) := chunks_from (length l / piece) l.

(** What is printed for a piece, and for a text. *)
Definition report (name pat p : list Z) : list Z := if occurs pat p then name ++ 58 :: p ++ [10] else [].
Definition found (name pat text : list Z) : list Z := concat (report name pat <$> concat (chunks <$> lines text)).

Lemma piece_pos : (0 < piece)%nat.
Proof. unfold piece, BUFSIZE. lia. Qed.

Lemma chunks_short l : (length l < piece)%nat -> chunks l = [l].
Proof. intros Hl. unfold chunks. by rewrite Nat.div_small. Qed.

Lemma chunks_long b l : length b = piece -> chunks (b ++ l) = b :: chunks l.
Proof.
  intros Hb. pose proof piece_pos as Hp. unfold chunks.
  rewrite length_app, Hb. replace (piece + length l)%nat with (length l + 1 * piece)%nat by lia.
  rewrite Nat.div_add, Nat.add_1_r by lia. cbn [chunks_from].
  by rewrite take_app_length', drop_app_length'.
Qed.

(** *** One step of a search *)

Lemma cut_line l r : Forall (fun c => c <> 10) l -> cut (l ++ 10 :: r) = (l, Some r).
Proof. induction 1 as [|c l Hc _ IH]; [done|]. cbn [app cut]. by rewrite (proj2 (Z.eqb_neq c 10) Hc), IH. Qed.

Lemma cut_end l : Forall (fun c => c <> 10) l -> cut l = (l, None).
Proof. induction 1 as [|c l Hc _ IH]; [done|]. cbn [cut]. by rewrite (proj2 (Z.eqb_neq c 10) Hc), IH. Qed.

Lemma cut_prefix b f : Forall (fun c => c <> 10) b -> cut (b ++ f) = (b ++ (cut f).1, (cut f).2).
Proof.
  induction 1 as [|c b Hc _ IH]; [apply surjective_pairing|]. cbn [app cut]. by rewrite (proj2 (Z.eqb_neq c 10) Hc), IH.
Qed.

Section Found.
Context (name pat : list Z).

Lemma report_nil : report name pat [] = [].
Proof using Type. unfold report, occurs. by destruct pat. Qed.

(** A line of at most 1024 characters is one piece. *)
Lemma found_chunks l : (length l <= piece)%nat -> concat (report name pat <$> chunks l) = report name pat l.
Proof using Type.
  intros Hl. destruct (decide (length l = piece)) as [E|E].
  - rewrite <- (app_nil_r l) at 1. rewrite chunks_long, chunks_short by (exact E || apply piece_pos). cbn [fmap list_fmap concat].
    by rewrite report_nil, !app_nil_r.
  - rewrite chunks_short by lia. cbn [fmap list_fmap concat]. by rewrite app_nil_r.
Qed.

Lemma found_step f :
  found name pat f =
    concat (report name pat <$> chunks (cut f).1) ++ from_option (found name pat) [] (cut f).2.
Proof using Type.
  unfold found. rewrite lines_cut. destruct (cut f) as [l [r|]]; cbn [fst snd from_option fmap list_fmap concat].
  - by rewrite fmap_app, concat_app.
  - by rewrite !app_nil_r.
Qed.

Lemma found_line l r :
  Forall (fun c => c <> 10) l -> (length l <= piece)%nat -> found name pat (l ++ 10 :: r) = report name pat l ++ found name pat r.
Proof using Type. intros Hl Hn. rewrite found_step, (cut_line l r Hl). cbn [fst snd from_option]. by rewrite found_chunks. Qed.

Lemma found_end l : Forall (fun c => c <> 10) l -> (length l <= piece)%nat -> found name pat l = report name pat l.
Proof using Type. intros Hl Hn. rewrite found_step, (cut_end l Hl). cbn [fst snd from_option]. by rewrite found_chunks, app_nil_r. Qed.

Lemma found_nil : found name pat [] = [].
Proof using Type. rewrite found_end; [apply report_nil|constructor|cbn; lia]. Qed.

(** A full buffer without a newline. *)
Lemma found_full b f :
  Forall (fun c => c <> 10) b -> length b = piece -> found name pat (b ++ f) = report name pat b ++ found name pat f.
Proof using Type.
  intros Hb Hn. rewrite (found_step (b ++ f)), (cut_prefix b f Hb), (found_step f). cbn [fst snd].
  rewrite chunks_long by exact Hn. cbn [fmap list_fmap concat]. by rewrite app_assoc.
Qed.
End Found.

(** ** Strings in memory *)

Lemma text_range m a l i : text_in m a l -> (i < length l)%nat -> l !! i = Some (load8 m (a + Z.of_nat i)).
Proof. intros (_ & Hb & _) Hi. rewrite <- Hb. by rewrite bytes_lookup. Qed.

Lemma text_drop m a l i : text_in m a l -> (i <= length l)%nat -> text_in m (a + Z.of_nat i) (drop i l).
Proof.
  intros (Ha & Hb & Hz) Hi. split; [lia|]. rewrite length_drop. split.
  - rewrite <- Hb at 2. replace (length l) with (i + (length l - i))%nat at 2 by lia.
    rewrite bytes_app, drop_app_length' by (by rewrite length_bytes). done.
  - rewrite <- Hz. f_equal. lia.
Qed.

(** A copy to lower addresses may overlap: every byte is read before it is written. *)
Lemma strcpy_down fuel : forall m dst src n,
  is_cstr m src n -> dst < src -> (Z.to_nat n < fuel)%nat ->
  exists m', ece391_strcpy_loop fuel m dst src = Some m' /\ unchanged (in_range dst (n + 1)) m m' /\
    forall i, 0 <= i <= n -> load8 m' (dst + i) = load8 m (src + i).
Proof.
  induction fuel as [|f IH]; intros m dst src n (Hn & Hz & Hnz) Hd Hf; [lia|]. cbn [ece391_strcpy_loop].
  set (m1 := store8 m dst (load8 m src)).
  assert (U1 : unchanged (in_range dst 1) m m1) by (apply unchanged_store8; unfold in_range; lia).
  assert (L1 : load8 m1 dst = load8 m src) by (unfold m1; rewrite load8_store8_eq; apply u8_small, load8_range).
  assert (O1 : forall a, a <> dst -> load8 m1 a = load8 m a) by (intros a Ha; apply load8_store8_ne; congruence).
  destruct (Z.eqb_spec (load8 m src) 0) as [E|E].
  - assert (n = 0) as ->. { destruct (decide (n = 0)); [done|]. destruct (Hnz 0 ltac:(lia)). by rewrite Z.add_0_r. }
    exists m1. split; [done|]. split; [exact U1|]. intros i Hi. replace i with 0 by lia. by rewrite !Z.add_0_r.
  - assert (n <> 0) by (intros ->; rewrite Z.add_0_r in Hz; done).
    destruct (IH m1 (dst + 1) (src + 1) (n - 1)) as (m2 & E2 & U2 & C2); [|lia|lia|].
    { split; [lia|]. split; [rewrite O1 by lia; by replace (src + 1 + (n - 1)) with (src + n) by lia|].
      intros i Hi. rewrite O1 by lia. replace (src + 1 + i) with (src + (i + 1)) by lia. apply Hnz. lia. }
    exists m2. split; [exact E2|]. split.
    + eapply unchanged_trans; (eapply unchanged_weaken; [|eassumption]); unfold in_range; lia.
    + intros i Hi. destruct (decide (i = 0)) as [->|Hi0].
      * rewrite !Z.add_0_r, (unchanged_load8 _ _ _ _ U2); [exact L1|unfold in_range; lia].
      * replace (dst + i) with (dst + 1 + (i - 1)) by lia. rewrite C2, O1 by lia. f_equal. lia.
Qed.

(** ** Searching a line *)

Section Search.
Context `{Ports} `{Layout} `{Traps} (d : grep_data) (pcb s fname : Z) (pat name : list Z).
Context (Hscr : rdisj screen_region (pcb_region pcb)) (Hlow : pcb + PCB_SIZE <= PROG_LO) (Hdata : PROG_LO <= gr_data d).
Context (Hpat : clean pat) (Hname : clean name).

(** The strings that are printed or compared. *)
Record texts (m : mem) : Prop := {
  tx_pat : text_in m s pat;
  tx_name : text_in m fname name;
  tx_colon : text_in m (gr_colon d) [58];
  tx_newline : text_in m (gr_newline d) [10]
}.

(** They are apart from the buffer. *)
Record texts_apart : Prop := {
  ta_pat : disj (gr_data d) (BUFSIZE + 1) s (Z.of_nat (length pat) + 1);
  ta_name : disj (gr_data d) (BUFSIZE + 1) fname (Z.of_nat (length name) + 1);
  ta_colon : disj (gr_data d) (BUFSIZE + 1) (gr_colon d) 2;
  ta_newline : disj (gr_data d) (BUFSIZE + 1) (gr_newline d) 2
}.
Context (TA : texts_apart).

(** A step that prints [l] and writes at [P]. *)
Record emits (P : Z -> Prop) (l : list Z) (st st' : kst) : Prop := {
  em_proc : same_process st st';
  em_mem : unchanged P (k_mem st) (k_mem st');
  em_out : stdout_ok st';
  em_shown : shown st' ≡ term_print l (shown st)
}.

Lemma emits_refl P st : stdout_ok st -> emits P [] st st.
Proof using Type. intros So. split; [by split|apply unchanged_refl|exact So|done]. Qed.

Lemma emits_trans P l1 l2 s1 s2 s3 : emits P l1 s1 s2 -> emits P l2 s2 s3 -> emits P (l1 ++ l2) s1 s3.
Proof using Type.
  intros [A1 A2 A3 A4] [B1 B2 B3 B4]. split; [by eapply same_process_trans|by eapply unchanged_trans|exact B3|].
  by rewrite B4, A4, term_print_app.
Qed.

Lemma emits_weaken (P Q : Z -> Prop) l s1 s2 : (forall a, P a -> Q a) -> emits P l s1 s2 -> emits Q l s1 s2.
Proof using Type. intros HP [A1 A2 A3 A4]. split; [exact A1|by eapply unchanged_weaken|exact A3|exact A4]. Qed.

Lemma emits_text a l st :
  stdout_ok st -> cur_pcb st = pcb -> text_in (k_mem st) a l -> clean l ->
  exists st', ece391_fdputs 1 a st = Some st' /\ emits screen_bytes l st st'.
Proof using Hscr.
  intros So Ep Ht Hc. destruct (put_text a l st So ltac:(by rewrite Ep) Ht Hc) as (st' & E & Sh & U & P & So').
  exists st'. by split.
Qed.

(** The buffer and the screen. *)
Definition search_frame (a : Z) : Prop := in_range (gr_data d) (BUFSIZE + 1) a \/ screen_bytes a.

Lemma texts_kept (P : Z -> Prop) m m' :
  unchanged P m m' -> (forall a, P a -> search_frame a \/ a < PROG_LO) -> texts m -> texts m'.
Proof using TA.
  intros U HP [T1 T2 T3 T4]. destruct TA as [A1 A2 A3 A4].
  assert (O : forall a (l : list Z), PROG_LO <= a -> disj (gr_data d) (BUFSIZE + 1) a (Z.of_nat (length l) + 1) ->
    forall b, in_range a (Z.of_nat (length l) + 1) b -> ~ P b).
  { intros a l Ha Hd b Hb Hp. unfold search_frame, screen_bytes, disj, in_range, VIDEO, NUM_ROWS, NUM_COLS, PROG_LO in *.
    destruct (HP b Hp) as [[?|?]|?]; lia. }
  split; (eapply text_in_off; [exact U| |eassumption]); apply O; first [by apply T1|by apply T2|by apply T3|by apply T4|assumption].
Qed.

Lemma texts_screen st st' l : emits screen_bytes l st st' -> texts (k_mem st) -> texts (k_mem st').
Proof using TA. intros [_ U _ _]. apply (texts_kept screen_bytes); [exact U|]. intros a Ha. left. by right. Qed.

Lemma text_screen st st' l a t :
  emits screen_bytes l st st' -> text_in (k_mem st) a t -> text_in (k_mem st') a t.
Proof using Type.
  intros [_ U _ _]. apply (text_in_unchanged screen_bytes); [exact U|].
  unfold screen_bytes, in_range, VIDEO, NUM_ROWS, NUM_COLS, PROG_LO. lia.
Qed.

(** A change of the program page prints nothing. *)
Lemma emits_buffer (P : Z -> Prop) m st :
  stdout_ok st -> cur_pcb st = pcb -> unchanged P (k_mem st) m -> (forall a, P a -> PROG_LO <= a) -> emits P [] st (set_k_mem m st).
Proof using Hlow.
  intros So Ep U HP. split; [by split|exact U| |].
  - eapply (stdout_ok_unchanged _ st); [exact So|done|exact U|apply So|]. intros a Ha Hp. apply HP in Hp. rewrite Ep in Ha.
    unfold in_region, in_range, fd_region, PCB_SIZE in *. cbn [fst snd] in *. lia.
  - eapply shown_off_screen; [reflexivity|exact U|]. intros a Hp Hs. apply HP in Hp.
    unfold screen_bytes, in_range, VIDEO, NUM_ROWS, NUM_COLS, PROG_LO in *. lia.
Qed.

Lemma print_line_spec st line_start p :
  stdout_ok st -> cur_pcb st = pcb -> texts (k_mem st) -> text_in (k_mem st) (gr_data d + line_start) p -> clean p ->
  exists st', print_line d fname line_start st = Some st' /\ emits screen_bytes (name ++ 58 :: p ++ [10]) st st'.
Proof using Hscr Hname TA.
  intros So Ep T Hp Hc. unfold print_line.
  destruct (emits_text _ _ st So Ep (tx_name _ T) Hname) as (s1 & -> & M1). cbn [mbind option_bind].
  pose proof (texts_screen _ _ _ M1 T) as T1. destruct (em_proc _ _ _ _ M1) as [P1 _].
  destruct (emits_text _ _ s1 (em_out _ _ _ _ M1) ltac:(congruence) (tx_colon _ T1)) as (s2 & -> & M2).
  { split; [repeat constructor; lia|done]. }
  pose proof (texts_screen _ _ _ M2 T1) as T2. destruct (em_proc _ _ _ _ M2) as [P2 _]. cbn [mbind option_bind].
  destruct (emits_text _ _ s2 (em_out _ _ _ _ M2) ltac:(congruence)
    (text_screen _ _ _ _ _ M2 (text_screen _ _ _ _ _ M1 Hp)) Hc) as (s3 & -> & M3).
  pose proof (texts_screen _ _ _ M3 T2) as T3. destruct (em_proc _ _ _ _ M3) as [P3 _]. cbn [mbind option_bind].
  destruct (emits_text _ _ s3 (em_out _ _ _ _ M3) ltac:(congruence) (tx_newline _ T3)) as (s4 & -> & M4).
  { split; [repeat constructor; lia|done]. }
  exists s4. split; [done|]. change (name ++ 58 :: p ++ [10]) with (name ++ [58] ++ p ++ [10]).
  eapply emits_trans; [exact M1|]. eapply emits_trans; [exact M2|]. by eapply emits_trans.
Qed.

(** The test at a position of the line. *)
Lemma check_hit m a p i :
  text_in m s pat -> text_in m a p -> clean p -> (i < length p)%nat ->
  (load8 m s =? load8 m (a + Z.of_nat i)) && (ece391_strncmp m (a + Z.of_nat i) s (Z.of_nat (length pat)) =? 0) =
  match pat with [] => false | _ => bool_decide (take (length pat) (drop i p) = pat) end.
Proof using Hpat.
  intros Tp Ta Hc Hi. pose proof (clean_nonzero _ Hpat) as Np. pose proof (clean_nonzero _ Hc) as Nc.
  pose proof (text_drop m a p i Ta ltac:(lia)) as Td. pose proof (text_range m a p i Ta Hi) as Hx.
  assert (Nd : Forall (fun c => c <> 0) (drop i p)) by (by apply Forall_drop).
  assert (Heq : ece391_strncmp m (a + Z.of_nat i) s (Z.of_nat (length pat)) = 0 <-> take (length pat) (drop i p) = pat).
  { rewrite ece391_strncmp_zero by (destruct Hpat; lia). rewrite Nat2Z.id.
    by rewrite (text_cname _ _ _ _ Td Nd), (text_cname _ _ _ _ Tp Np), (take_ge pat) by lia. }
  destruct pat as [|c pat'] eqn:E.
  - destruct Tp as (_ & _ & Hz). rewrite Z.add_0_r in Hz. rewrite Hz.
    assert (load8 m (a + Z.of_nat i) <> 0) by (by eapply (proj1 (Forall_lookup _ _) Nc)).
    by replace (0 =? load8 m (a + Z.of_nat i)) with false by lia.
  - destruct (Z.eqb_spec (ece391_strncmp m (a + Z.of_nat i) s (Z.of_nat (length (c :: pat')))) 0) as [Ez|Ez].
    + apply Heq in Ez. rewrite (bool_decide_eq_true_2 _ Ez), andb_true_r. apply Z.eqb_eq.
      pose proof (text_range m s (c :: pat') 0 Tp ltac:(cbn; lia)) as Hs. rewrite Z.add_0_r in Hs.
      rewrite (drop_S p _ i Hx) in Ez. cbn [take length] in Ez. cbn in Hs. congruence.
    + rewrite andb_false_r. symmetry. apply bool_decide_eq_false_2. intros Et. by apply Ez, Heq.
Qed.

Lemma check_loop_spec m line_start p n : forall i,
  text_in m s pat -> text_in m (gr_data d + line_start) p -> clean p -> (i + n = length p)%nat ->
  check_loop d n m s (Z.of_nat (length pat)) (line_start + Z.of_nat i) =
  match pat with [] => false | _ => existsb (fun i => bool_decide (take (length pat) (drop i p) = pat)) (seq i n) end.
Proof using Hpat.
  induction n as [|n IH]; intros i Tp Ta Hc Hi; cbn [check_loop seq existsb]; [by destruct pat|].
  rewrite Z.add_assoc, (check_hit m _ p i Tp Ta Hc) by lia.
  replace (line_start + Z.of_nat i + 1) with (line_start + Z.of_nat (S i)) by lia. rewrite (IH (S i) Tp Ta Hc) by lia.
  destruct pat; [done|]. by destruct (bool_decide _).
Qed.

(** The line of [p] from [line_start] on, searched and printed. *)
Lemma search_line_spec st line_start p :
  stdout_ok st -> cur_pcb st = pcb -> texts (k_mem st) -> 0 <= line_start -> line_start + Z.of_nat (length p) <= BUFSIZE ->
  bytes (k_mem st) (gr_data d + line_start) (length p) = p -> clean p ->
  exists st', search_line d s (Z.of_nat (length pat)) fname line_start (line_start + Z.of_nat (length p)) st = Some st' /\
    emits (fun a => a = gr_data d + (line_start + Z.of_nat (length p)) \/ screen_bytes a) (report name pat p) st st' /\
    load8 (k_mem st') (gr_data d + (line_start + Z.of_nat (length p))) = 0.
Proof using Hscr Hlow Hdata Hpat Hname TA.
  intros So Ep T Hl Hn Hb Hc. unfold search_line. set (e := gr_data d + (line_start + Z.of_nat (length p))).
  change (upd_mem _ st) with (set_k_mem (store8 (k_mem st) e 0) st). set (st1 := set_k_mem _ st).
  assert (U : unchanged (fun a => a = e) (k_mem st) (k_mem st1)) by (apply unchanged_store8; done).
  assert (He : PROG_LO <= e) by (unfold e; lia).
  assert (M0 : emits (fun a => a = e \/ screen_bytes a) [] st st1).
  { eapply emits_weaken; [|by apply (emits_buffer (fun a => a = e)); [..|intros a ->]]. by left. }
  pose proof (em_out _ _ _ _ M0) as So1.
  assert (T1 : texts (k_mem st1)).
  { eapply texts_kept; [exact U| |exact T]. intros a ->. left. left. unfold in_range, e. lia. }
  assert (Tp : text_in (k_mem st1) (gr_data d + line_start) p).
  { split; [lia|]. split.
    - rewrite <- Hb at 2. eapply unchanged_bytes; [exact U|]. intros a Ha ->. unfold in_range, e in Ha. lia.
    - rewrite <- Z.add_assoc. apply load8_store8_eq. }
  replace (Z.to_nat _) with (length p) by lia.
  pose proof (check_loop_spec (k_mem st1) line_start p (length p) 0 (tx_pat _ T1) Tp Hc ltac:(lia)) as K.
  rewrite Z.add_0_r in K. rewrite K. fold (occurs pat p). unfold report. destruct (occurs pat p).
  - destruct (print_line_spec st1 line_start p So1 Ep T1 Tp Hc) as (st2 & E2 & M2). exists st2. split; [exact E2|].
    split; [|rewrite (unchanged_load8 _ _ _ _ (em_mem _ _ _ _ M2)); [apply load8_store8_eq|];
      unfold screen_bytes, in_range, VIDEO, NUM_ROWS, NUM_COLS, PROG_LO in *; lia].
    change (name ++ 58 :: p ++ [10]) with ([] ++ (name ++ 58 :: p ++ [10])). eapply emits_trans; [exact M0|].
    eapply emits_weaken; [|exact M2]. by right.
  - exists st1. split; [done|]. split; [exact M0|apply load8_store8_eq].
Qed.

(** ** The lines of a buffer *)

Lemma find_newline_spec m n : forall line_start b,
  length b = n -> bytes m (gr_data d + line_start) n = b ->
  find_newline d n m line_start = line_start + Z.of_nat (length (cut b).1) /\
  match (cut b).2 with
  | Some r => b = (cut b).1 ++ 10 :: r /\ load8 m (gr_data d + (line_start + Z.of_nat (length (cut b).1))) = 10
  | None => (cut b).1 = b
  end.
Proof using Type.
  induction n as [|n IH]; intros line_start b Hn Hb.
  { destruct b; [|done]. cbn. split; [lia|done]. }
  destruct b as [|c b]; [done|]. rewrite bytes_S in Hb. injection Hb as Hc Hb. injection Hn as Hn. cbn [find_newline cut].
  rewrite Hc. destruct (Z.eqb_spec c 10) as [->|Hne]; cbn [fst snd length].
  { split; [lia|]. split; [done|]. by rewrite Z.add_0_r. }
  replace (gr_data d + line_start + 1) with (gr_data d + (line_start + 1)) in Hb by lia.
  destruct (IH (line_start + 1) b Hn Hb) as [E R]. rewrite E. destruct (cut b) as [l [r|]]; cbn [fst snd length] in *.
  - destruct R as [R1 R2]. split; [lia|]. split; [by rewrite R1 at 1|]. rewrite <- R2. f_equal. lia.
  - split; [lia|]. by rewrite R.
Qed.

(** What the inner loop does to the text [b] that the buffer holds from [line_start] on,
    when [rest] follows in the file: it prints [l] and leaves [carry] at the start. *)
Record line_result (cnt last : Z) (b l carry : list Z) (st st' : kst) : Prop := {
  lr_emits : emits search_frame l st st';
  lr_carry : bytes (k_mem st') (gr_data d) (length carry) = carry;
  lr_clean : clean carry;
  lr_line : Forall (fun c => c <> 10) carry;
  lr_length : Z.of_nat (length carry) < BUFSIZE;
  lr_end : load8 (k_mem st) (gr_data d + BUFSIZE) <> 10 -> load8 (k_mem st') (gr_data d + BUFSIZE) <> 10;
  lr_done : cnt = 0 -> carry = [];
  lr_found : forall rest,
    rest = [] \/ (last = BUFSIZE /\ load8 (k_mem st) (gr_data d + BUFSIZE) <> 10 /\ cnt <> 0) ->
    found name pat (b ++ rest) = l ++ found name pat (carry ++ rest)
}.

Lemma clean_part b l r : clean b -> b = l ++ r -> clean l /\ clean r.
Proof using Type.
  intros [Hc Hn] ->. apply Forall_app in Hc as [Hl Hr]. rewrite length_app in Hn. split; (split; [assumption|lia]).
Qed.

Lemma cut_line_chars b : Forall (fun c => c <> 10) (cut b).1.
Proof using Type.
  induction b as [|c b IH]; cbn [cut]; [constructor|]. destruct (Z.eqb_spec c 10); [constructor|]. by destruct (cut b); constructor.
Qed.

(** The unfinished line is moved to the start. *)
Lemma carry_spec cnt last line_start b st :
  stdout_ok st -> cur_pcb st = pcb -> 0 < line_start -> line_start + Z.of_nat (length b) = last -> last <= BUFSIZE ->
  bytes (k_mem st) (gr_data d + line_start) (length b) = b -> clean b -> Forall (fun c => c <> 10) b -> cnt <> 0 ->
  exists st', (let m := store8 (k_mem st) (gr_data d + last) 0 in
    m ← ece391_strcpy m (gr_data d) (gr_data d + line_start); Some (last - line_start, set_k_mem m st)) =
      Some (Z.of_nat (length b), st') /\ line_result cnt last b [] b st st'.
Proof using Hlow Hdata.
  intros So Ep Hl Hn Hlast Hb Hc Hline Hcnt. cbn zeta. set (m := store8 (k_mem st) (gr_data d + last) 0).
  assert (Hb1 : bytes m (gr_data d + line_start) (length b) = b).
  { rewrite <- Hb at 2. eapply unchanged_bytes; [apply (unchanged_store8 (fun a => a = gr_data d + last)); done|]. unfold in_range. lia. }
  assert (Hstr : is_cstr m (gr_data d + line_start) (Z.of_nat (length b))).
  { apply is_cstr_of_bytes; [exact Hb1| |by apply clean_nonzero]. rewrite <- Z.add_assoc, Hn. apply load8_store8_eq. }
  destruct (strcpy_down (S (mem_size m)) m (gr_data d) (gr_data d + line_start) _ Hstr) as (m2 & E & U & C); [lia|
    rewrite <- (strlen_eq _ _ _ Hstr); apply strlen_fuel|].
  unfold ece391_strcpy. rewrite E. cbn [mbind option_bind]. exists (set_k_mem m2 st).
  assert (U2 : unchanged (in_range (gr_data d) (BUFSIZE + 1)) (k_mem st) m2).
  { apply (unchanged_trans _ _ m); [apply unchanged_store8; unfold in_range; lia|]. eapply unchanged_weaken; [|exact U]. unfold in_range. lia. }
  split; [do 2 f_equal; lia|]. split; try done.
  - eapply emits_weaken; [|by apply (emits_buffer _ m2 st So Ep U2); unfold in_range; lia]. by left.
  - cbn [k_mem set_k_mem]. rewrite <- Hb1 at 2. rewrite <- (Nat2Z.id (length b)). apply bytes_pointwise; [lia|]. intros i Hi. apply C. lia.
  - lia.
  - intros Hz. cbn [k_mem set_k_mem]. rewrite (unchanged_load8 _ _ _ _ U) by (unfold in_range; lia).
    unfold m. rewrite load8_store8. by destruct (_ =? _).
Qed.

(** A line that ends in the buffer, or that is searched as it is. *)
Lemma line_spec st line_start l :
  stdout_ok st -> cur_pcb st = pcb -> texts (k_mem st) -> 0 <= line_start -> line_start + Z.of_nat (length l) <= BUFSIZE ->
  bytes (k_mem st) (gr_data d + line_start) (length l) = l -> clean l ->
  exists st', search_line d s (Z.of_nat (length pat)) fname line_start (line_start + Z.of_nat (length l)) st = Some st' /\
    emits search_frame (report name pat l) st st' /\ texts (k_mem st') /\
    (forall a, PROG_LO <= a -> a <> gr_data d + (line_start + Z.of_nat (length l)) -> load8 (k_mem st') a = load8 (k_mem st) a) /\
    (load8 (k_mem st) (gr_data d + BUFSIZE) <> 10 -> load8 (k_mem st') (gr_data d + BUFSIZE) <> 10).
Proof using Hscr Hlow Hdata Hpat Hname TA.
  intros So Ep T Hl Hn Hb Hc. destruct (search_line_spec st line_start l So Ep T Hl Hn Hb Hc) as (st' & E & M & Z0).
  assert (Hsub : forall a, a = gr_data d + (line_start + Z.of_nat (length l)) \/ screen_bytes a -> search_frame a).
  { intros a [->|Ha]; [left; unfold in_range; lia|by right]. }
  assert (Hk : forall a, PROG_LO <= a -> a <> gr_data d + (line_start + Z.of_nat (length l)) -> load8 (k_mem st') a = load8 (k_mem st) a).
  { intros a Ha Hne. apply (unchanged_load8 _ _ _ _ (em_mem _ _ _ _ M)). intros [?|Hs]; [done|].
    unfold screen_bytes, in_range, VIDEO, NUM_ROWS, NUM_COLS, PROG_LO in *. lia. }
  exists st'. split; [exact E|]. split; [eapply emits_weaken; [exact Hsub|exact M]|]. split; [|split; [exact Hk|]].
  - eapply texts_kept; [exact (em_mem _ _ _ _ M)| |exact T]. intros a Ha. left. by apply Hsub.
  - intros Hz. destruct (decide (line_start + Z.of_nat (length l) = BUFSIZE)) as [<-|]; [by rewrite Z0|].
    rewrite Hk by (unfold BUFSIZE in *; lia). exact Hz.
Qed.

Lemma line_loop_spec cnt last n : forall line_start b st,
  stdout_ok st -> cur_pcb st = pcb -> texts (k_mem st) -> 0 <= line_start ->
  line_start + Z.of_nat (length b) = last -> last <= BUFSIZE ->
  bytes (k_mem st) (gr_data d + line_start) (length b) = b -> clean b -> (length b < n)%nat ->
  exists l carry st', line_loop d n s (Z.of_nat (length pat)) fname cnt last line_start st = Some (Z.of_nat (length carry), st') /\
    line_result cnt last b l carry st st'.
Proof using Hscr Hlow Hdata Hpat Hname TA.
  induction n as [|n IH]; intros line_start b st So Ep T Hl Hn Hlast Hb Hc Hf; [lia|]. cbn [line_loop].
  replace (Z.to_nat (last - line_start)) with (length b) by lia.
  destruct (find_newline_spec (k_mem st) (length b) line_start b eq_refl Hb) as [Ef R]. rewrite Ef.
  pose proof (cut_line_chars b) as Hline. destruct (cut b) as [l [r|]]; cbn [fst snd] in *.
  - destruct R as [Eb Hz]. rewrite Hz. cbn [Z.eqb Pos.eqb negb andb].
    destruct (clean_part b l (10 :: r) Hc Eb) as [Hcl Hcr]. assert (Hlen : length b = (length l + S (length r))%nat)
      by (rewrite Eb, length_app; done).
    assert (Hbl : bytes (k_mem st) (gr_data d + line_start) (length l) = l).
    { rewrite Hlen, bytes_app, Eb in Hb. apply app_inj_1 in Hb as [Hb _]; [exact Hb|apply length_bytes]. }
    assert (Hbr : bytes (k_mem st) (gr_data d + (line_start + Z.of_nat (length l) + 1)) (length r) = r).
    { rewrite Hlen, bytes_app, Eb in Hb. apply app_inj_1 in Hb as [_ Hb]; [|apply length_bytes]. rewrite bytes_S in Hb.
      injection Hb as _ Hb. rewrite <- Hb at 2. f_equal. lia. }
    destruct (line_spec st line_start l So Ep T Hl ltac:(lia) Hbl Hcl) as (s1 & E1 & M1 & T1 & K1 & Z1).
    rewrite E1. cbn [mbind option_bind].
    assert (Hfl : forall f, found name pat (l ++ 10 :: f) = report name pat l ++ found name pat f).
    { intros f. apply found_line; [exact Hline|unfold piece, BUFSIZE in *; lia]. }
    destruct (Z.leb_spec last (line_start + Z.of_nat (length l) + 1)) as [Hle|Hle].
    + assert (r = []) as -> by (destruct r; [done|cbn in Hlen; lia]). exists (report name pat l), [], s1. split; [done|].
      split; try done. intros rest _. rewrite Eb. rewrite <- app_assoc. apply Hfl.
    + destruct Hcr as [Hcr Hnr]. inversion_clear Hcr as [|? ? _ Hcr']. cbn [length] in Hnr.
      destruct (IH (line_start + Z.of_nat (length l) + 1) r s1) as (l' & carry & s2 & E2 & [R1 R2 R3 R4 R5 R6 R7 R8]);
        [apply M1|destruct M1 as [[? _] _ _ _]; congruence|exact T1|lia|lia|lia| |split; [exact Hcr'|lia]|lia|].
      { rewrite <- Hbr at 2. unfold bytes. apply list_fmap_ext. intros i a Ha. apply K1; apply list_elem_of_lookup_2, elem_of_zseq in Ha; lia. }
      exists (report name pat l ++ l'), carry, s2. split; [exact E2|].
      split; try done; [by eapply emits_trans|by intros Hz'; apply R6, Z1|].
      intros rest Hrest. rewrite Eb, <- app_assoc. cbn [app]. rewrite Hfl, R8, app_assoc; [done|].
      destruct Hrest as [Hr|(? & Hr & ?)]; [by left|right]. split; [done|]. split; [by apply Z1|done].
  - rewrite R in *. rewrite Hn. destruct (negb _ && negb _ && negb _) eqn:Ec.
    + apply andb_true_iff in Ec as [Ec E3]. apply andb_true_iff in Ec as [E1 E2].
      destruct (carry_spec cnt last line_start b st) as (st' & E & LR); [assumption..|lia|exact Hn|exact Hlast|exact Hb|exact Hc|exact Hline|lia|].
      cbv zeta in E. exists [], b, st'. split; [exact E|exact LR].
    + destruct (line_spec st line_start b So Ep T Hl ltac:(lia) Hb Hc) as (s1 & E1 & M1 & T1 & K1 & Z1). rewrite Hn in E1.
      rewrite E1. cbn [mbind option_bind]. replace (last <=? last + 1) with true by lia.
      exists (report name pat b), [], s1. split; [done|]. split; try done.
      intros rest [->|(Hb' & Hz & Hcnt)].
      * rewrite !app_nil_r. cbn [app]. rewrite found_end; [|exact Hline|unfold piece, BUFSIZE in *; lia].
        by rewrite found_nil, app_nil_r.
      * cbn [app]. apply found_full; [exact Hline|]. assert (Hz0 : line_start = 0); [|unfold piece; lia].
        rewrite Hb' in Ec. clear - Ec Hz Hcnt. lia.
Qed.

(** ** Reading the file *)

Context (fs : filesys) (UL : user_layout fs pcb open_local) (fd inode : Z) (Hfd : 2 <= fd < 8).

Definition file_frame (a : Z) : Prop := search_frame a \/ in_region (fd_region pcb fd) a.

Lemma search_frame_apart :
  (forall a, search_frame a -> ~ in_region (image fs) a) /\
  (forall j a, 0 <= j < 8 -> in_region (fd_region pcb j) a -> ~ search_frame a).
Proof using UL Hdata.
  destruct (user_bounds fs pcb UL) as ((Lp & _) & (Li & _) & _). split.
  - intros a [Ha|Ha]; [|by apply (screen_off_image fs pcb UL)]. unfold in_region, in_range in *. lia.
  - intros j a Hj Hr [Ha|Ha]; [|by apply (screen_off_fd fs pcb UL j a Hj Hr)].
    unfold in_region, in_range, fd_region, PCB_SIZE in *. cbn [fst snd] in *. lia.
Qed.

(** A read behind what was carried over. *)
Lemma refill_spec carry text pos st :
  stdout_ok st -> reading fs pcb fd inode pos st -> drop (Z.to_nat pos) (file_bytes fs (k_mem st) inode) = text ->
  texts (k_mem st) -> bytes (k_mem st) (gr_data d) (length carry) = carry -> Z.of_nat (length carry) < BUFSIZE ->
  let cnt := Z.min (BUFSIZE - Z.of_nat (length carry)) (Z.of_nat (length text)) in
  let b := carry ++ take (Z.to_nat cnt) text in
  exists st', ece391_read fd (gr_data d + Z.of_nat (length carry)) (BUFSIZE - Z.of_nat (length carry)) st = Some (cnt, st') /\
    emits file_frame [] st st' /\ texts (k_mem st') /\ bytes (k_mem st') (gr_data d) (length b) = b /\
    load8 (k_mem st') (gr_data d + BUFSIZE) = load8 (k_mem st) (gr_data d + BUFSIZE) /\
    reading fs pcb fd inode (pos + cnt) st' /\
    drop (Z.to_nat (pos + cnt)) (file_bytes fs (k_mem st') inode) = drop (Z.to_nat cnt) text.
Proof using UL Hfd Hlow Hdata TA.
  intros So R Et T Hc Hlen cnt b. destruct (user_bounds fs pcb UL) as ((Lp & _) & (Li & _) & Dpi). unfold PCB_SIZE in Lp.
  pose proof R as (Ef & Ep & _ & (_ & _ & Hpos & _) & _). set (p := gr_data d + Z.of_nat (length carry)) in *.
  set (k := BUFSIZE - Z.of_nat (length carry)) in *.
  assert (D1 : rdisj (p, k) (image fs)) by (unfold rdisj, disj; cbn [fst snd]; lia).
  assert (D2 : rdisj (p, k) (fd_region pcb fd)) by (unfold rdisj, disj, fd_region; cbn [fst snd]; lia).
  assert (D3 : rdisj (fd_region pcb fd) (image fs))
    by (unfold rdisj, disj, fd_region, pcb_region, PCB_SIZE in *; cbn [fst snd] in *; lia).
  destruct (sys_read_file fs pcb fd inode p k ltac:(lia) ltac:(unfold PROG_LO in *; lia)
    ltac:(unfold BUFSIZE in *; lia) D1 D2 D3 (arrivals st) pos st R) as (m' & E & Bs & U & Es & Eb & R').
  assert (Hsz : file_size fs (k_mem st) inode - pos = Z.of_nat (length text)).
  { rewrite <- Et, length_drop. unfold file_bytes. rewrite length_file_slice. lia. }
  rewrite Hsz in *. fold cnt in E, Bs, R'.
  exists (set_k_mem m' st). rewrite ece391_read_eq, E. split; [done|].
  assert (Uf : forall a, read_frame pcb fd p k a -> in_range p k a \/ in_region (fd_region pcb fd) a) by (intros a Ha; exact Ha).
  assert (U' : unchanged file_frame (k_mem st) m').
  { eapply unchanged_weaken; [|exact U]. intros a Ha. destruct (Uf a Ha) as [Hb|Hb]; [left; left|by right].
    unfold in_range, p, k in *. lia. }
  assert (Hsl : file_slice fs (k_mem st) inode pos (Z.to_nat cnt) = take (Z.to_nat cnt) text)
    by (rewrite file_slice_take_drop by lia; by rewrite Et).
  split; [|split; [|split; [|split; [|split; [exact R'|]]]]].
  - split; [by split|exact U'| |].
    + eapply (stdout_ok_unchanged _ st); [exact So|done|exact U'|apply So|]. rewrite Ep. intros a Ha [Hs|Hs].
      * exact (proj2 search_frame_apart 1 a ltac:(lia) Ha Hs).
      * unfold in_region, in_range, fd_region in *. cbn [fst snd] in *. lia.
    + eapply shown_off_screen; [reflexivity|exact U|]. intros a Ha Hs. destruct (Uf a Ha) as [Hb|Hb].
      * unfold screen_bytes, in_range, p, VIDEO, NUM_ROWS, NUM_COLS, PROG_LO in *. lia.
      * exact (screen_off_fd fs pcb UL fd a ltac:(lia) Hb Hs).
  - eapply texts_kept; [exact U'| |exact T]. intros a [Ha|Ha]; [by left|right].
    unfold in_region, in_range, fd_region in *. cbn [fst snd] in *. lia.
  - cbn [k_mem set_k_mem]. unfold b. rewrite length_app, bytes_app. f_equal.
    + rewrite <- Hc at 2. eapply unchanged_bytes; [exact U|]. intros a Ha Hf. destruct (Uf a Hf) as [Hb|Hb];
        unfold in_region, in_range, fd_region, p in *; cbn [fst snd] in *; lia.
    + rewrite length_take, Nat.min_l by lia. rewrite <- Hsl. exact Bs.
  - cbn [k_mem set_k_mem]. apply (unchanged_load8 _ _ _ _ U). intros Hf. destruct (Uf _ Hf) as [Hb|Hb];
      unfold in_region, in_range, fd_region, p, k in *; cbn [fst snd] in *; lia.
  - cbn [k_mem set_k_mem]. rewrite Eb, <- Et, drop_drop. f_equal. lia.
Qed.

Lemma read_loop_spec n : forall carry text pos st,
  stdout_ok st -> reading fs pcb fd inode pos st -> drop (Z.to_nat pos) (file_bytes fs (k_mem st) inode) = text ->
  texts (k_mem st) -> bytes (k_mem st) (gr_data d) (length carry) = carry -> Z.of_nat (length carry) < BUFSIZE ->
  clean carry -> clean text -> load8 (k_mem st) (gr_data d + BUFSIZE) <> 10 -> (length text < n)%nat ->
  exists st' pos', read_loop d n s (Z.of_nat (length pat)) fname fd (Z.of_nat (length carry)) st = Some (0, st') /\
    emits file_frame (found name pat (carry ++ text)) st st' /\ reading fs pcb fd inode pos' st' /\ texts (k_mem st') /\
    load8 (k_mem st') (gr_data d + BUFSIZE) <> 10.
Proof using UL Hfd Hscr Hlow Hdata Hpat Hname TA.
  induction n as [|n IH]; intros carry text pos st So R Et T Hc Hlen Cc Ct Hz Hn; [lia|]. cbn [read_loop].
  destruct (refill_spec carry text pos st So R Et T Hc Hlen) as (s1 & E1 & M1 & T1 & B1 & Z1 & R1 & Et1).
  set (cnt := Z.min _ _) in *. set (b := carry ++ take (Z.to_nat cnt) text) in *.
  rewrite E1. cbn [mbind option_bind]. replace (cnt =? -1) with false by lia.
  assert (Hb : Z.of_nat (length carry) + cnt = Z.of_nat (length b)) by (unfold b; rewrite length_app, length_take; lia).
  assert (Cb : clean b).
  { destruct Cc as [C1 _], Ct as [C2 _]. split; [apply Forall_app; split; [exact C1|by apply Forall_take]|].
    unfold BUFSIZE in *. lia. }
  rewrite Hb, Nat2Z.id. pose proof R1 as (_ & Ep1 & _).
  destruct (line_loop_spec cnt (Z.of_nat (length b)) (S (length b)) 0 b s1) as (l & carry' & s2 & E2 & LR);
    [apply M1|exact Ep1|exact T1|lia|lia|lia|by rewrite Z.add_0_r|exact Cb|lia|].
  rewrite E2. cbn [mbind option_bind]. destruct LR as [L1 L2 L3 L4 L5 L6 L7 L8]. rewrite Z1 in L6, L8.
  pose proof (emits_weaken _ file_frame _ _ _ (fun a Ha => or_introl Ha) L1) as M2.
  destruct search_frame_apart as [A1 A2]. destruct (reading_unchanged _ fs pcb fd inode _ s1 s2 R1 (em_mem _ _ _ _ L1)) as (R2 & _ & Eb2);
    [apply L1|exact A1|intros a; apply A2; lia|].
  assert (T2 : texts (k_mem s2)) by (eapply texts_kept; [exact (em_mem _ _ _ _ L1)|by left|exact T1]).
  pose proof (emits_trans _ _ _ _ _ _ M1 M2) as M. cbn [app] in M.
  assert (Hfound : found name pat (carry ++ text) = l ++ found name pat (carry' ++ drop (Z.to_nat cnt) text)).
  { rewrite <- (take_drop (Z.to_nat cnt) text) at 1. rewrite app_assoc. apply L8.
    destruct (decide (cnt = Z.of_nat (length text))) as [Ec|Ec]; [left; apply drop_ge; lia|right].
    unfold cnt, BUFSIZE in *. split; [lia|]. split; [exact Hz|lia]. }
  rewrite Hfound. destruct (Z.eqb_spec cnt 0) as [Hc0|Hc0].
  - exists s2, (pos + cnt). assert (text = []) as -> by (apply length_zero_iff_nil; unfold BUFSIZE in *; lia).
    rewrite (L7 Hc0), drop_nil, app_nil_r, found_nil, app_nil_r. split; [done|]. split; [exact M|]. split; [exact R2|].
    split; [exact T2|by apply L6].
  - destruct (IH carry' (drop (Z.to_nat cnt) text) (pos + cnt) s2) as (s3 & pos' & E3 & M3 & R3 & T3 & Z3);
      [apply L1|exact R2|by rewrite Eb2|exact T2|exact L2|exact L5|exact L3| |by apply L6|rewrite length_drop; lia|].
    { destruct Ct as [C1 C2]. split; [by apply Forall_drop|]. rewrite length_drop. lia. }
    exists s3, pos'. split; [exact E3|]. split; [by eapply emits_trans|]. by split.
Qed.
End Search.

(** ** One file *)

Section File.
Context `{Ports} `{Layout} `{Traps} (d : grep_data) (fs : filesys) (pcb : Z).
Context (UL : user_layout fs pcb open_local) (HT : tables_ok) (Hdata : PROG_LO <= gr_data d).

(** What open and close of a file write. *)
Definition kernel_writes (fd a : Z) : Prop :=
  lookup_frame open_local a \/ in_region (dentry_region read_dentry) a \/ in_region (fd_region pcb fd) a.

Lemma kernel_writes_apart fd a :
  2 <= fd < 8 -> kernel_writes fd a ->
  ~ in_region (image fs) a /\ ~ screen_bytes a /\ a < PROG_LO /\
  forall j, 0 <= j < 8 -> j <> fd -> ~ in_region (fd_region pcb j) a.
Proof using UL.
  intros Hfd Ha. pose proof UL as [[_ _ F1 F2 _ F3 F4 F5] _ D1 D2 _ D3 D4 HL HS].
  unfold kernel_objects in HL, HS. rewrite !Forall_cons in HL, HS.
  destruct HL as (L1 & L2 & L3 & L4 & L5 & L6 & _), HS as (S1 & S2 & S3 & S4 & S5 & S6 & _).
  assert (K : forall r, in_region r a -> rdisj r (image fs) -> rdisj screen_region r -> r.1 + r.2 <= PROG_LO ->
    ~ in_region (image fs) a /\ ~ screen_bytes a /\ a < PROG_LO).
  { clear. intros r. unfold rdisj, disj, in_region, in_range, screen_bytes, in_range, screen_region, NUM_ROWS, NUM_COLS. cbn [fst snd]. lia. }
  assert (J : forall r, in_region r a -> rdisj (pcb_region pcb) r -> forall j, 0 <= j < 8 -> j <> fd -> ~ in_region (fd_region pcb j) a).
  { clear. intros r. unfold rdisj, disj, in_region, in_range, fd_region, pcb_region, PCB_SIZE. cbn [fst snd]. lia. }
  destruct Ha as [[Ha|[Ha|Ha]]|[Ha|Ha]].
  - destruct (K _ Ha F1 S1 L1) as (? & ? & ?). by eauto.
  - destruct (K _ Ha F2 S2 L2) as (? & ? & ?). by eauto.
  - destruct (K _ Ha D1 S3 L3) as (? & ? & ?). by eauto.
  - destruct (K _ Ha D3 S6 L6) as (? & ? & ?). by eauto.
  - assert (Hp : in_region (pcb_region pcb) a)
      by (clear - Hfd Ha; unfold in_region, in_range, fd_region, pcb_region, PCB_SIZE in *; cbn [fst snd] in *; lia).
    destruct (K _ Hp F3 S4 L4) as (? & ? & ?). split; [done|]. split; [done|]. split; [done|]. intros j Hj Hne.
    clear - Ha Hj Hne. unfold in_region, in_range, fd_region in *. cbn [fst snd] in *. lia.
Qed.

Definition call_frame (fd a : Z) : Prop := search_frame d a \/ kernel_writes fd a.

Lemma call_frame_apart fd a :
  2 <= fd < 8 -> call_frame fd a -> ~ in_region (image fs) a /\ forall j, 0 <= j < 8 -> j <> fd -> ~ in_region (fd_region pcb j) a.
Proof using UL Hdata.
  intros Hfd [Ha|Ha].
  - destruct (search_frame_apart d pcb Hdata fs UL) as [A1 A2]. split; [by apply A1|]. intros j Hj _ Hr. by apply (A2 j a).
  - destruct (kernel_writes_apart fd a Hfd Ha) as (A1 & _ & _ & A2). by split.
Qed.

(** A step of the kernel that prints nothing. *)
Lemma emits_kernel fd st st' :
  2 <= fd < 8 -> cur_pcb st = pcb -> same_process st st' -> stdout_ok st -> k_con st' = k_con st ->
  unchanged (kernel_writes fd) (k_mem st) (k_mem st') -> emits (call_frame fd) [] st st'.
Proof using UL.
  intros Hfd Ep P So Ec U. split; [exact P|eapply unchanged_weaken; [|exact U]; by right| |].
  - eapply (stdout_ok_unchanged _ st); [exact So|apply P|exact U|rewrite Ec; apply So|]. rewrite Ep. intros a Ha Hk.
    destruct (kernel_writes_apart fd a Hfd Hk) as (_ & _ & _ & A). by apply (A 1); [lia|lia|].
  - transitivity (shown (set_k_mem (k_mem st') st)).
    + split; [cbn; by rewrite Ec|]. split; [cbn; by rewrite Ec|]. done.
    + eapply shown_off_screen; [reflexivity|exact U|]. intros a Ha. by apply (kernel_writes_apart fd a Hfd).
Qed.

Lemma kernel_step_texts fd m m' s fname pat name :
  2 <= fd < 8 -> unchanged (kernel_writes fd) m m' -> texts_apart d s fname pat name -> texts d s fname pat name m ->
  load8 m (gr_data d + BUFSIZE) <> 10 -> texts d s fname pat name m' /\ load8 m' (gr_data d + BUFSIZE) <> 10.
Proof using UL Hdata.
  intros Hfd U TA T Hz. split.
  - eapply texts_kept; [exact TA|exact U| |exact T]. intros a Ha. right. by apply (kernel_writes_apart fd a Hfd).
  - rewrite (unchanged_load8 _ _ _ _ U); [exact Hz|]. intros Ha. apply (kernel_writes_apart fd _ Hfd) in Ha. unfold BUFSIZE in Ha. lia.
Qed.

(** The process in front of [do_one_file]. *)
Record searching (s fname : Z) (pat name : list Z) (st : kst) : Prop := {
  se_proc : k_fs st = fs /\ cur_pcb st = pcb;
  se_dir : dir_ok fs (k_mem st);
  se_out : stdout_ok st;
  se_texts : texts d s fname pat name (k_mem st);
  se_end : load8 (k_mem st) (gr_data d + BUFSIZE) <> 10
}.

(** A regular file of the directory, with its text. *)
Record text_file (m : mem) (name : list Z) (inode : Z) (text : list Z) : Prop := {
  tf_entry : exists i x, list_find (eq name) (dir_names fs m) = Some (i, x) /\
    entry_type fs m (1 + Z.of_nat i) = REG_FILE /\ entry_inode fs m (1 + Z.of_nat i) = inode;
  tf_file : file_ok fs m inode;
  tf_text : file_bytes fs m inode = text
}.

Lemma do_one_file_spec n s fname pat name inode text st :
  searching s fname pat name st -> texts_apart d s fname pat name -> clean pat -> clean name -> (length name <= 32)%nat ->
  text_file (k_mem st) name inode text -> clean text -> (length text < n)%nat ->
  let fd := find_fd (k_mem st) pcb in
  fd < 8 ->
  exists st', do_one_file d n s fname st = Some (0, st') /\ 2 <= fd /\ emits (call_frame fd) (found name pat text) st st' /\
    searching s fname pat name st' /\ forall j, 2 <= j < 8 -> fd_used (k_mem st') pcb j = fd_used (k_mem st) pcb j.
Proof using UL HT Hdata.
  intros [[Ef Ep] Hd So T Hz] TA Cp Cn Hnl [(i & x & Hf & Hty & Hin) Hok Htx] Ct Hn fd Hfd.
  destruct (user_bounds fs pcb UL) as ((Lp & Hscr) & _ & _). pose proof T as [Tp Tn _ _].
  assert (UL1 : user_layout (k_fs st) (cur_pcb st) open_local) by (by rewrite Ef, Ep).
  pose proof (text_strlen _ _ _ Tn (clean_nonzero _ Cn)) as El. pose proof (text_strlen _ _ _ Tp (clean_nonzero _ Cp)) as Elp.
  destruct (user_open st fname UL1 HT ltac:(by rewrite Ef) So (proj1 Tn) ltac:(lia) i x) as (s1 & E1 & Hr & Hop & So1 & Sh1).
  { rewrite (text_cname _ _ _ _ Tn (clean_nonzero _ Cn)), take_ge, Ef by lia. exact Hf. }
  { by rewrite Ep. }
  rewrite Ep in E1, Hr, Hop. rewrite Ef, Hty, Hin in Hop. fold fd in E1, Hr, Hop.
  destruct (opened_reading st open_local fname fd inode s1) as (R1 & Fb & _);
    [exact (user_open_layout st fname UL1 (proj1 Tn))|exact Hr|by rewrite Ef|exact Hop|]. rewrite Ef in Fb. rewrite Ef, Ep in R1.
  destruct Hop as (P1 & P2 & U1 & _).
  assert (U1' : unchanged (kernel_writes fd) (k_mem st) (k_mem s1)).
  { eapply unchanged_weaken; [|exact U1]. intros a Ha. unfold open_call_frame in Ha. rewrite Ep in Ha. unfold kernel_writes. tauto. }
  assert (M1 : emits (call_frame fd) [] st s1).
  { split; [by split|eapply unchanged_weaken; [|exact U1']; by right|exact So1|exact Sh1]. }
  destruct (kernel_step_texts fd _ _ s fname pat name Hr U1' TA T Hz) as [T1 Z1].
  unfold do_one_file. rewrite ece391_strlen_eq, Elp, s32_small by (destruct Cp; lia). rewrite E1. cbn [mbind option_bind].
  replace (fd =? -1) with false by lia.
  destruct (read_loop_spec d pcb s fname pat name Hscr Lp Hdata Cp Cn TA fs UL fd inode Hr n [] text 0 s1)
    as (s2 & pos & E2 & M2 & R2 & T2 & Z2); [exact So1|exact R1|by rewrite Fb|exact T1|done|done|by split|exact Ct|exact Z1|exact Hn|].
  change (Z.of_nat (length [])) with 0 in E2. rewrite E2. cbn [mbind option_bind Z.eqb app] in *.
  pose proof R2 as (Ef2 & Ep2 & _). destruct UL as [[_ _ _ _ _ _ _ I2] _ _ _ _ _ I4 _ _].
  destruct (sys_close_file_kept fd inode pos s2) as (m3 & E3 & Rel & U3); [lia|by rewrite Ef2, Ep2|by rewrite Ep2|by rewrite Ep2|].
  rewrite ece391_close_eq, E3. cbn [mbind option_bind Z.eqb]. rewrite Ep2 in Rel, U3.
  assert (U3' : unchanged (kernel_writes fd) (k_mem s2) m3).
  { eapply unchanged_weaken; [|exact U3]. unfold file_close_writes, kernel_writes, lookup_frame. tauto. }
  pose proof (emits_kernel fd s2 (set_k_mem m3 s2) Hr Ep2 ltac:(by split) (em_out _ _ _ _ M2) eq_refl U3') as M3.
  destruct (kernel_step_texts fd _ _ s fname pat name Hr U3' TA T2 Z2) as [T3 Z3].
  assert (M : emits (call_frame fd) (found name pat text) st (set_k_mem m3 s2)).
  { rewrite <- (app_nil_r (found name pat text)). change (found name pat text) with ([] ++ found name pat text).
    eapply emits_trans; [|exact M3]. eapply emits_trans; [exact M1|]. eapply emits_weaken; [|exact M2].
    intros a [Ha|Ha]; [by left|right; right; by right]. }
  exists (set_k_mem m3 s2). split; [done|]. split; [lia|]. split; [exact M|]. split; [split|].
  - split; [exact Ef2|exact Ep2].
  - eapply dir_ok_unchanged; [exact Hd|exact (em_mem _ _ _ _ M)|]. intros a Ha Hb. apply (call_frame_apart fd a Hr Ha).
    eapply boot_in_image; [exact UL|exact Hb].
  - apply M.
  - exact T3.
  - exact Z3.
  - intros j Hj. destruct (decide (j = fd)) as [->|Hne].
    + specialize (Rel fd ltac:(lia)). rewrite Z.eqb_refl in Rel. cbn [k_mem set_k_mem]. rewrite Rel.
      destruct (find_fd_spec (k_mem st) pcb) as (_ & Hfree & _). symmetry. by apply Hfree.
    + unfold fd_used. rewrite (fd_get_unchanged _ _ _ pcb j FD_FLAGS (em_mem _ _ _ _ M)); [done|unfold FD_FLAGS; lia..|].
      intros a Ha Hc. exact (proj2 (call_frame_apart fd a Hr Hc) j ltac:(lia) Hne Ha).
Qed.
End File.

(** ** The directory *)

(** A descriptor table with the same descriptors in use has the same free one. *)
Lemma find_fd_used m m' pcb :
  (forall j, 2 <= j < 8 -> fd_used m' pcb j = fd_used m pcb j) -> find_fd m' pcb = find_fd m pcb.
Proof.
  intros Hu. destruct (find_fd_spec m pcb) as (R1 & F1 & U1), (find_fd_spec m' pcb) as (R2 & F2 & U2).
  destruct (Z.lt_trichotomy (find_fd m' pcb) (find_fd m pcb)) as [Hl|[Hl|Hl]]; [|exact Hl|].
  - specialize (U1 (find_fd m' pcb) ltac:(lia)). rewrite <- Hu, F2 in U1 by lia. done.
  - specialize (U2 (find_fd m pcb) ltac:(lia)). rewrite Hu, F1 in U2 by lia. done.
Qed.

Section Directory.
Context `{Ports} `{Layout} `{Traps} (d : grep_data) (fs : filesys) (pcb : Z) (m0 : mem) (pat : list Z).
Context (UL : user_layout fs pcb open_local) (HT : tables_ok).
Context (Hdata : PROG_LO <= gr_data d) (Hbuf : PROG_LO <= gr_buf d) (Cp : clean pat).

(** The arrays and strings of the program are apart. *)
Record grep_apart : Prop := {
  ga_buf : disj (gr_data d) (BUFSIZE + 1) (gr_buf d) SBUFSIZE;
  ga_search : disj (gr_data d) (BUFSIZE + 1) (gr_search d) (Z.of_nat (length pat) + 1);
  ga_colon : disj (gr_data d) (BUFSIZE + 1) (gr_colon d) 2;
  ga_newline : disj (gr_data d) (BUFSIZE + 1) (gr_newline d) 2;
  ga_buf_search : disj (gr_buf d) SBUFSIZE (gr_search d) (Z.of_nat (length pat) + 1);
  ga_buf_colon : disj (gr_buf d) SBUFSIZE (gr_colon d) 2;
  ga_buf_newline : disj (gr_buf d) SBUFSIZE (gr_newline d) 2
}.
Context (GA : grep_apart) (dfd ffd : Z) (Hdfd : 2 <= dfd < 8) (Hffd : 2 <= ffd < 8) (Hne : ffd <> dfd).

(** The state in front of a read of the directory: the image is that of [m0]. *)
Record hunting (pos : Z) (st : kst) : Prop := {
  hu_list : listing fs pcb dfd pos st;
  hu_out : stdout_ok st;
  hu_image : unchanged (fun a => ~ in_region (image fs) a) m0 (k_mem st);
  hu_pat : text_in (k_mem st) (gr_search d) pat;
  hu_colon : text_in (k_mem st) (gr_colon d) [58];
  hu_newline : text_in (k_mem st) (gr_newline d) [10];
  hu_end : load8 (k_mem st) (gr_data d + BUFSIZE) <> 10;
  hu_free : find_fd (k_mem st) pcb = ffd
}.

(** A step that writes only in [buf] and in the kernel's objects for the directory. *)
Definition entry_frame (a : Z) : Prop :=
  in_range (gr_buf d) SBUFSIZE a \/ in_region (dentry_region read_dentry) a \/ in_region (fd_region pcb dfd) a.

Lemma entry_frame_facts a :
  entry_frame a -> ~ in_region (image fs) a /\ (in_range (gr_buf d) SBUFSIZE a \/ a < PROG_LO) /\
  forall j, 0 <= j < 8 -> j <> dfd -> ~ in_region (fd_region pcb j) a.
Proof using UL Hbuf Hdfd.
  intros [Ha|Ha].
  - destruct (user_bounds fs pcb UL) as ((Lp & _) & (Li & _) & _). split; [|split; [by left|]].
    + clear - Ha Li Hbuf. unfold in_region, in_range in *. lia.
    + intros j Hj _. clear - Ha Lp Hj Hbuf. unfold in_region, in_range, fd_region, PCB_SIZE in *. cbn [fst snd] in *. lia.
  - destruct (kernel_writes_apart fs pcb UL dfd a Hdfd) as (A1 & _ & A2 & A3); [right; exact Ha|]. split; [exact A1|]. split; [by right|exact A3].
Qed.

Lemma hunting_moved pos pos' st st' :
  hunting pos st -> listing fs pcb dfd pos' st' -> stdout_ok st' -> unchanged entry_frame (k_mem st) (k_mem st') -> hunting pos' st'.
Proof using UL Hdata Hbuf GA Hdfd.
  intros [h1 h2 h3 h4 h5 h6 h7 h8] L So U. destruct GA as [G1 G2 G3 G4 G5 G6 G7].
  assert (K : forall a l, disj (gr_buf d) SBUFSIZE a (Z.of_nat (length l) + 1) -> text_in (k_mem st) a l -> text_in (k_mem st') a l).
  { intros a l Hd Ht. eapply text_in_off; [exact U| |exact Ht]. intros b Hb Hf. apply entry_frame_facts in Hf as (_ & Hf & _).
    destruct Ht as [Hl _]. clear - Hd Hf Hl Hb. unfold disj, in_range in *. lia. }
  split; [exact L|exact So| |by apply K|by apply K|by apply K| |].
  - eapply unchanged_trans; [exact h3|]. eapply unchanged_weaken; [|exact U]. intros a Ha. by apply entry_frame_facts.
  - rewrite (unchanged_load8 _ _ _ _ U); [exact h7|]. intros Hf. apply entry_frame_facts in Hf as (_ & Hf & _).
    clear - G1 Hf Hdata. unfold disj, in_range, BUFSIZE, SBUFSIZE in *. lia.
  - rewrite <- h8. apply find_fd_used. intros j Hj. destruct (decide (j = dfd)) as [->|Hj'].
    + destruct h1 as (_ & _ & _ & (Hu1 & _) & _), L as (_ & _ & _ & (Hu2 & _) & _). unfold fd_used.
      apply used_bit in Hu1, Hu2. by rewrite Hu1, Hu2.
    + unfold fd_used. rewrite (fd_get_unchanged _ _ _ pcb j FD_FLAGS U); [done|unfold FD_FLAGS; lia..|].
      intros a Ha Hf. apply entry_frame_facts in Hf as (_ & _ & Hf). by apply (Hf j); [lia|..].
Qed.

(** ** All files *)

Context (Hdir : dir_ok fs m0) (n : nat) (files : list Z -> list Z).

(** Names that start with a dot are left out. *)
Definition dotted (name : list Z) : bool := bool_decide (head name = Some 46).

Definition grep_output (names : list (list Z)) : list Z :=
  concat ((fun name => if dotted name then [] else found name pat (files name)) <$> names).

(** Every other name is that of a regular file, with its text. *)
Definition readable (name : list Z) : Prop :=
  name <> [] /\ printable name /\
  (dotted name = true \/ exists inode, text_file fs m0 name inode (files name) /\ clean (files name) /\ (length (files name) < n)%nat).

Lemma boot_kept m : unchanged (fun a => ~ in_region (image fs) a) m0 m ->
  unchanged (fun a => ~ in_region (boot_region fs) a) m0 m.
Proof using UL. apply unchanged_weaken. intros a Ha Hb. apply Ha. eapply boot_in_image; [exact UL|exact Hb]. Qed.

Lemma names_kept m pos : 0 <= pos <= n_dir_entries fs ->
  unchanged (fun a => ~ in_region (image fs) a) m0 m -> names_left fs pos m = names_left fs pos m0.
Proof using UL Hdir.
  intros Hp U. pose proof Hdir as (_ & Hn & _). eapply names_from_unchanged; [exact Hdir|exact (boot_kept _ U)|by intros a Ha|lia|lia].
Qed.

Lemma text_file_kept m name inode text :
  unchanged (fun a => ~ in_region (image fs) a) m0 m -> text_file fs m0 name inode text -> text_file fs m name inode text.
Proof using UL Hdir.
  intros U [(i & x & F1 & F2 & F3) F4 F5]. pose proof F4 as (Him & Hin & _). pose proof (boot_kept _ U) as Ub. pose proof Hdir as (_ & Hnd & _).
  assert (Es : file_size fs m inode = file_size fs m0 inode) by (eapply file_size_unchanged; [exact U|by intros a Ha|exact Him|exact Hin]).
  assert (0 <= file_size fs m0 inode) by apply load32_range. pose proof (found_entry _ _ _ _ _ F1) as Hr. split.
  - exists i, x. unfold dir_names. rewrite (names_from_unchanged fs _ m0 m Hdir Ub) by (first [by intros a Ha|lia]). split; [exact F1|].
    unfold entry_inode, entry_type in *.
    rewrite !(entry_load32_unchanged fs _ m0 m Hdir Ub) by (first [by intros a Ha|exact Hr|unfold DE_FILETYPE, DE_INODE; lia]). done.
  - eapply file_ok_unchanged; [exact U|by intros a Ha|exact Him|exact F4].
  - rewrite <- F5. unfold file_bytes. rewrite Es. eapply file_slice_unchanged; [exact U|by intros a Ha|exact Him|exact F4|lia|lia].
Qed.

(** The next entry, with its name as a string in [buf]. *)
Lemma next_entry pos st :
  hunting pos st -> pos < n_dir_entries fs ->
  let name := entry_name fs (k_mem st) (pos + 1) in
  exists st1, ece391_read dfd (gr_buf d) (SBUFSIZE - 1) st = Some (Z.of_nat (length name), st1) /\
    hunting (pos + 1) st1 /\ shown st1 ≡ shown st /\ bytes (k_mem st1) (gr_buf d) (length name) = name.
Proof using UL Hdata Hbuf GA Hdfd.
  intros Hu Hlt name. pose proof Hu as [L So _ _ _ _ _ _].
  destruct (ls_read fs pcb (mkLs (gr_buf d) 0 0 0) UL Hbuf dfd Hdfd pos st L So Hlt) as (s1 & E1 & B1 & L1 & So1 & Sh1 & _ & U1).
  exists s1. split; [exact E1|]. split; [|by split]. eapply hunting_moved; [exact Hu|exact L1|exact So1|].
  eapply unchanged_weaken; [|exact U1]. intros a [Ha|Ha]; [left; exact Ha|right; exact Ha].
Qed.

Lemma end_name pos st name :
  hunting pos st -> bytes (k_mem st) (gr_buf d) (length name) = name -> (length name <= 32)%nat ->
  let st' := upd_mem (fun m => store8 m (gr_buf d + Z.of_nat (length name)) 0) st in
  hunting pos st' /\ shown st' ≡ shown st /\ text_in (k_mem st') (gr_buf d) name.
Proof using UL Hdata Hbuf GA Hdfd Hffd Hne.
  intros Hu B Hlen st'. set (e := gr_buf d + Z.of_nat (length name)). destruct (user_bounds fs pcb UL) as ((Lp & _) & (Li & _) & _).
  pose proof Hu as [L So _ _ _ _ _ _]. pose proof L as (_ & Ep & _).
  assert (U : unchanged (fun a => a = e) (k_mem st) (k_mem st')) by (by apply unchanged_store8).
  destruct (emits_buffer pcb Lp (fun a => a = e) (k_mem st') st So Ep U) as [_ _ So' Sh']; [intros a ->; lia|].
  assert (He : entry_frame e) by (left; unfold in_range, e, SBUFSIZE; lia). pose proof (entry_frame_facts e He) as (E1 & _ & E2).
  split; [|split; [exact Sh'|]].
  - eapply hunting_moved; [exact Hu| |exact So'|eapply unchanged_weaken; [|exact U]; by intros a ->].
    destruct (listing_unchanged fs pcb UL _ dfd pos st st' L U) as [L' _]; [by split|by intros a ->|intros a Ha ->|exact L'].
    unfold in_region, in_range, fd_region, PCB_SIZE, e in *. cbn [fst snd] in *. lia.
  - split; [exact Hbuf|]. split; [|apply load8_store8_eq]. rewrite <- B at 2. eapply unchanged_bytes; [exact U|].
    intros a Ha ->. unfold in_range, e in Ha. lia.
Qed.

(** [do_one_file] on the name in [buf]. *)
Lemma search_file pos st name inode :
  hunting pos st -> text_in (k_mem st) (gr_buf d) name -> clean name -> (length name <= 32)%nat ->
  text_file fs m0 name inode (files name) -> clean (files name) -> (length (files name) < n)%nat ->
  exists st', do_one_file d n (gr_search d) (gr_buf d) st = Some (0, st') /\ hunting pos st' /\
    shown st' ≡ term_print (found name pat (files name)) (shown st).
Proof using All.
  intros [L So U Tp Tc Tn Te Tf] Ht Cn Hlen TF Ct Hn. pose proof L as (Ef & Ep & Hd & _). pose proof GA as [G1 G2 G3 G4 G5 G6 G7].
  assert (TA : texts_apart d (gr_search d) (gr_buf d) pat name).
  { split; [exact G2| |exact G3|exact G4]. clear - G1 Hlen. unfold disj, SBUFSIZE in *. lia. }
  assert (S : searching d fs pcb (gr_search d) (gr_buf d) pat name st) by (by split; [split|..]).
  destruct (do_one_file_spec d fs pcb UL HT Hdata n (gr_search d) (gr_buf d) pat name inode (files name) st S TA Cp Cn Hlen
    (text_file_kept _ _ _ _ U TF) Ct Hn) as (st' & E & _ & M & [_ Hd' So' [T1 _ T3 T4] Te'] & Hus); [lia|].
  rewrite Tf in M. exists st'. split; [exact E|]. split; [|apply M].
  destruct M as [P U' _ _]. split; try assumption.
  - destruct (listing_unchanged fs pcb UL _ dfd pos st st' L U' P) as [L' _]; [|intros a Ha Hc|exact L'].
    + intros a Ha. by apply (call_frame_apart d fs pcb UL Hdata ffd a Hffd).
    + exact (proj2 (call_frame_apart d fs pcb UL Hdata ffd a Hffd Hc) dfd ltac:(lia) ltac:(congruence) Ha).
  - eapply unchanged_trans; [exact U|]. eapply unchanged_weaken; [|exact U'].
    intros a Ha. by apply (call_frame_apart d fs pcb UL Hdata ffd a Hffd).
  - rewrite <- Tf. by apply find_fd_used.
Qed.

Lemma grep_loop_spec turns : forall pos st,
  hunting pos st -> Forall readable (names_left fs pos m0) -> n_dir_entries fs - pos < Z.of_nat turns ->
  exists st', grep_loop d turns n dfd st = Some (0, st') /\
    shown st' ≡ term_print (grep_output (names_left fs pos m0)) (shown st).
Proof using All.
  induction turns as [|turns IH]; intros pos st Hu Hn Hf; pose proof Hu as [L So U _ _ _ _ _]; pose proof L as (_ & _ & _ & (_ & _ & _ & Hpos) & _); [lia|].
  cbn [grep_loop]. destruct (decide (pos = n_dir_entries fs)) as [->|Hlt].
  { change (SBUFSIZE - 1) with 32. rewrite (ls_read_end fs pcb (mkLs (gr_buf d) 0 0 0) UL Hbuf dfd Hdfd st L). exists st.
    split; [done|]. unfold names_left. by replace (Z.to_nat _) with O by lia. }
  destruct (next_entry pos st Hu ltac:(lia)) as (s1 & E1 & Hu1 & Sh1 & B1).
  set (name := entry_name fs (k_mem st) (pos + 1)) in *.
  assert (En : names_left fs pos m0 = name :: names_left fs (pos + 1) m0).
  { rewrite <- (names_kept (k_mem st) pos ltac:(lia) U), <- (names_kept (k_mem st) (pos + 1) ltac:(lia) U). unfold names_left.
    replace (Z.to_nat (n_dir_entries fs - pos)) with (S (Z.to_nat (n_dir_entries fs - (pos + 1)))) by lia.
    unfold names_from. by rewrite zseq_S. }
  rewrite En in Hn |- *. inversion_clear Hn as [|? ? (Hne' & Hpr & Hread) Hn2].
  assert (Hlen : (length name <= 32)%nat) by apply cname_length_le.
  assert (Hpos1 : length name <> 0%nat) by (intros Hz; apply Hne', length_zero_iff_nil, Hz).
  rewrite E1. cbn [mbind option_bind]. replace (Z.of_nat (length name) =? 0) with false by lia.
  replace (Z.of_nat (length name) =? -1) with false by lia.
  assert (Hhead : load8 (k_mem s1) (gr_buf d) = default 0 (head name)).
  { destruct name as [|c r]; [done|]. cbn [length] in B1. rewrite bytes_S in B1. by injection B1. }
  change (grep_output (name :: ?l)) with ((if dotted name then [] else found name pat (files name)) ++ grep_output l).
  rewrite Hhead. replace (default 0 (head name) =? 46) with (dotted name)
    by (unfold dotted; destruct name as [|c r]; [done|]; cbn; destruct (Z.eqb_spec c 46) as [->|]; case_bool_decide; congruence).
  destruct (dotted name) eqn:Ed.
  - destruct (IH (pos + 1) s1 Hu1 Hn2 ltac:(lia)) as (s2 & E2 & Sh2). exists s2. split; [exact E2|]. cbn [app]. by rewrite Sh2, Sh1.
  - destruct Hread as [|(inode & TF & Ct & Hln)]; [done|].
    destruct (end_name (pos + 1) s1 name Hu1 B1 Hlen) as (Hu2 & Sh2 & T2). set (s2 := upd_mem _ s1) in *.
    assert (Cn : clean name).
    { split; [|lia]. pose proof (cname_range (k_mem st) 32 (entry fs (pos + 1))) as Hcr.
      change (cname _ _ _) with name in Hcr. apply Forall_forall. intros c Hc.
      unfold printable in Hpr. rewrite Forall_forall in Hpr, Hcr. specialize (Hpr c Hc). specialize (Hcr c Hc). lia. }
    destruct (search_file (pos + 1) s2 name inode Hu2 T2 Cn Hlen TF Ct Hln) as (s3 & E3 & Hu3 & Sh3).
    rewrite E3. cbn [mbind option_bind Z.eqb negb].
    destruct (IH (pos + 1) s3 Hu3 Hn2 ltac:(lia)) as (s4 & E4 & Sh4). exists s4. split; [exact E4|].
    by rewrite Sh4, Sh3, Sh2, Sh1, <- term_print_app.
Qed.
End Directory.

(** ** Theorem *)

(** The strings of the program at the start: they are apart from the buffers. *)
Record grep_texts (d : grep_data) (L : Z) (m : mem) : Prop := {
  gt_dot : text_in m (gr_dot d) [46] /\ disj (gr_search d) (L + 1) (gr_dot d) 2;
  gt_colon : text_in m (gr_colon d) [58] /\ disj (gr_search d) (L + 1) (gr_colon d) 2;
  gt_newline : text_in m (gr_newline d) [10] /\ disj (gr_search d) (L + 1) (gr_newline d) 2;
  gt_end : load8 m (gr_data d + BUFSIZE) <> 10
}.

(** The directory opened by the program, behind [getargs]. *)
Lemma grep_start `{Ports} `{Layout} `{Traps} d s m1 L pat i x :
  let fs := k_fs s in
  let pcb := cur_pcb s in
  let m := k_mem s in
  user_layout fs pcb open_local -> tables_ok -> dir_ok fs m -> stdout_ok s ->
  PROG_LO <= gr_data d -> grep_apart d pat -> grep_texts d L m -> L = Z.of_nat (length pat) ->
  unchanged (in_range (gr_search d) (L + 1)) m m1 -> text_in m1 (gr_search d) pat ->
  kernel_kept m1 (set_k_mem m1 s) s ->
  list_find (eq [46]) (dir_names fs m) = Some (i, x) -> entry_type fs m (1 + Z.of_nat i) = DIR_FILE ->
  (exists j, find_fd m pcb < j < 8 /\ fd_used m pcb j = false) ->
  let dfd := find_fd m pcb in
  exists s2, ece391_open (gr_dot d) (set_k_mem m1 s) = Some (dfd, s2) /\ 2 <= dfd < 8 /\ shown s2 ≡ shown s /\
    let ffd := find_fd (k_mem s2) pcb in
    2 <= ffd < 8 /\ ffd <> dfd /\ hunting d fs pcb m pat dfd ffd 0 s2.
Proof.
  intros fs pcb m UL HT Hdir So Hdata GA [[Td Ad] [Tc Ac] [Tn An] He] EL U Tp [Kd Kf Kfd Kso Ksh] Hfind Hty (j & Hj & Hfree) dfd.
  destruct (Kd Hdir) as (Hdir1 & En1 & Ke). destruct (Ke _ (found_entry fs m _ i x Hfind)) as [Et1 _].
  destruct (user_bounds fs pcb UL) as ((Lp & _) & (Li & _) & _). pose proof (proj1 Tp) as Hsearch.
  assert (K : forall a l, disj (gr_search d) (L + 1) a (Z.of_nat (length l) + 1) -> text_in m a l -> text_in m1 a l).
  { intros a l Hd Ht. eapply text_in_off; [exact U| |exact Ht]. intros b Hb Hs. clear - Hd Hb Hs. unfold disj, in_range in *. lia. }
  pose proof (K _ [46] Ad Td) as Td1. assert (Nd : Forall (fun c => c <> 0) [46]) by (repeat constructor; lia).
  destruct (user_opendir (set_k_mem m1 s) (gr_dot d) i x UL HT Hdir1 (Kso So) (proj1 Td)) as (s2 & E2 & Hr & L2 & N2 & So2 & Sh2 & U2).
  { cbn [k_mem set_k_mem]. by rewrite (text_strlen _ _ _ Td1 Nd). }
  { cbn [k_mem k_fs set_k_mem]. rewrite (text_cname _ _ _ _ Td1 Nd), En1. exact Hfind. }
  { exact (eq_trans Et1 Hty). }
  { cbn [k_mem cur_pcb set_k_mem]. rewrite Kfd. fold m pcb. lia. }
  cbn [k_mem k_fs cur_pcb set_k_mem] in E2, Hr, L2, U2. rewrite Kfd in E2, Hr, L2, U2. fold m pcb in E2, Hr, L2, U2. fold fs in L2.
  fold dfd in E2, Hr, L2, U2.
  assert (U2' : unchanged (kernel_writes pcb dfd) m1 (k_mem s2)).
  { eapply unchanged_weaken; [|exact U2]. intros a Ha. unfold open_call_frame in Ha. cbn [cur_pcb set_k_mem] in Ha. unfold kernel_writes. tauto. }
  pose proof (fun a => kernel_writes_apart fs pcb UL dfd a Hr) as KW.
  assert (K2 : forall a l, text_in m1 a l -> text_in (k_mem s2) a l)
    by (intros a l; eapply text_in_unchanged; [exact U2'|]; intros b Hb; by apply KW).
  assert (Hu2 : fd_used (k_mem s2) pcb dfd = true).
  { destruct L2 as (_ & _ & _ & (Hu & _) & _). unfold fd_used. by rewrite (used_bit _ Hu). }
  assert (Huj : fd_used (k_mem s2) pcb j = false).
  { rewrite <- Hfree. unfold fd_used. rewrite (fd_get_unchanged _ m1 _ pcb j FD_FLAGS U2') by
      (first [unfold FD_FLAGS; lia | intros a Ha Hk; apply KW in Hk as (_ & _ & _ & Hk); by apply (Hk j); [lia|unfold dfd; lia|]]).
    rewrite (fd_get_unchanged _ m m1 pcb j FD_FLAGS U); [done|unfold FD_FLAGS; lia..|].
    intros a Ha Hs. unfold in_region, in_range, fd_region, PCB_SIZE in *. cbn [fst snd] in *. lia. }
  exists s2. split; [exact E2|]. split; [exact Hr|]. split; [by rewrite Sh2, Ksh|]. cbn zeta.
  destruct (find_fd_spec (k_mem s2) pcb) as (Rf & Ff & Uf).
  assert (Hlt : find_fd (k_mem s2) pcb < 8).
  { destruct (decide (find_fd (k_mem s2) pcb < 8)); [done|]. rewrite Uf in Huj by lia. done. }
  split; [lia|]. split; [intros E; specialize (Ff Hlt); rewrite E in Ff; congruence|].
  split; [exact L2|exact So2| |exact (K2 _ _ Tp)|exact (K2 _ _ (K _ [58] Ac Tc))|exact (K2 _ _ (K _ [10] An Tn))| |reflexivity].
  - eapply unchanged_trans; (eapply unchanged_weaken; [|eassumption]).
    + intros a Ha Hi. unfold in_region, in_range in *. lia.
    + intros a Ha. by apply KW.
  - rewrite (unchanged_load8 _ _ _ _ U2') by (intros Hk; apply KW in Hk as (_ & _ & Hk & _); unfold BUFSIZE in Hk; lia).
    rewrite (unchanged_load8 _ _ _ _ U); [exact He|]. pose proof (ga_search _ _ GA) as Hd. unfold disj, in_range, BUFSIZE in *. lia.
Qed.


(** ** A concrete run

    The directory of FilesysDir.v, with a text of three lines in "frame", and the command
    line "grep ell". *)
Definition hello_world : list Z := [72; 101; 108; 108; 111; 10; 87; 111; 114; 108; 100; 10; 89; 101; 108; 108; 111; 119].

Definition grep_mem : mem :=
  let m := store32 test_image 0x401000 18 in
  let m := store_list m 0x405000 hello_world in
  let m := fd_set m 0x1000 1 FD_OPS 0x3430 in
  let m := fd_set m 0x1000 1 FD_FLAGS TERMINAL_FILE_FLAGS in
  let m := store_list m (0x1000 + PCB_INPUT) [103; 114; 101; 112; 32; 101; 108; 108] in
  store8 (store8 (store8 m 0x8052000 46) 0x8052010 58) 0x8052020 10.

Definition grep_state : kst :=
  mkKst grep_mem (mkConsole 0 3) (mkPic 0xFF 0xFF) 0 (mkKeyboard 0 0 0 0 0 0 0) test_fs 0x1000 1
    (mkCpu true 0x800000 0 0 0) [].

Definition test_grep : grep_data :=
  mkGrep 0x8050000 0x8050800 0x8051000 0x8052010 0x8052020 0x8052000 0x8053000 0x8053100 0x8053200 0x8053300 0x8053400 0x8053500.

#[local] Existing Instance test_layout.
#[local] Instance grep_ports : Ports := fun _ _ => 0.
#[local] Instance grep_traps : Traps :=
  {| arrivals := fun _ => mkSched [] []; open_local := 0x3500;
     exec_locals := mkLocals 0x7FD000 0x7FD040 0x7FD080 0x7FD100 0x3500 0x7FDFF0; args_fuel := 1025 |}.

Lemma grep_state_layout : user_layout test_fs 0x1000 open_local.
Proof.
  split; [exact test_fs_layout|cbn; lia|test_sep|test_sep|cbn; lia|test_sep|test_sep| |].
  - unfold kernel_objects. repeat (constructor; [vm_compute; congruence|]). constructor.
  - unfold kernel_objects. repeat (constructor; [test_sep|]). constructor.
Qed.

Lemma grep_state_dir : dir_ok test_fs grep_mem.
Proof.
  split; [vm_compute; congruence|]. split; [vm_compute; intuition congruence|].
  intros i Hi. cbn in Hi. assert (i = 1 \/ i = 2) as [-> | ->] by lia; vm_compute; reflexivity.
Qed.

Lemma grep_state_out : stdout_ok grep_state.
Proof.
  split; [vm_compute; reflexivity|]. split; [vm_compute; reflexivity|].
  unfold on_screen, NUM_ROWS, NUM_COLS. cbn. lia.
Qed.

Lemma grep_state_names : dir_names test_fs grep_mem = [name_dot; name_frame].
Proof. vm_compute. reflexivity. Qed.

Lemma grep_state_args :
  first_space grep_mem (0x1000 + PCB_INPUT) 4 /\ is_cstr grep_mem (0x1000 + PCB_INPUT + (4 + 1)) 3 /\
  bytes grep_mem (0x1000 + PCB_INPUT + (4 + 1)) (Z.to_nat 3) = [101; 108; 108].
Proof.
  split; [|split; [|vm_compute; reflexivity]]; (split; [lia|]; split; [vm_compute; reflexivity|]); intros j Hj.
  - assert (j = 0 \/ j = 1 \/ j = 2 \/ j = 3) as [->|[->|[->| ->]]] by lia; vm_compute; congruence.
  - assert (j = 0 \/ j = 1 \/ j = 2) as [->|[->| ->]] by lia; vm_compute; congruence.
Qed.

Lemma grep_state_file : text_file test_fs grep_mem name_frame 0 hello_world.
Proof.
  split; [exists 1%nat, name_frame; repeat split; vm_compute; reflexivity| |vm_compute; reflexivity].
  assert (Es : file_size test_fs grep_mem 0 = 18) by (vm_compute; reflexivity).
  split; [vm_compute; intuition congruence|]. split; [cbn; lia|]. rewrite Es. split; [unfold FOUR_KB; lia|].
  intros o Ho. replace (o / FOUR_KB) with 0 by (unfold FOUR_KB; zdm). vm_compute. reflexivity.
Qed.

Lemma grep_state_texts : grep_texts test_grep 3 grep_mem.
Proof. split; [split; test_sep|split; test_sep|split; test_sep|vm_compute; congruence]. Qed.

