(* ===== verification/Blink.v ===== *)
(** * The blinking characters of fish, src/fish

    fish.c and blink.S keep a linked list of characters that blink at places of the
    screen.  The nodes are the elements of the array [blink_array]; one is free when its
    location is 0.  The code works on the program page; the screen is the page vidmap
    gives, which the processor translates to the video memory.

    The second half relates the memory to a list of abstract nodes and a screen: every
    request leads from one to the next as the abstract operations say, and the loops end. *)

From S2P Require Import Prelude Mem CString MemOps State Console Filesys Paging Syscalls UserCalls.

(** ** 16-bit accesses *)

Definition load16 (m : mem) (a : Z) : Z := load8 m a + 256 * load8 m (a + 1).
Definition s16 (x : Z) : Z := (x + 32768) mod 65536 - 32768.

Lemma load16_range m a : 0 <= load16 m a < 65536.
Proof. unfold load16. pose proof (load8_range m a). pose proof (load8_range m (a + 1)). lia. Qed.

Lemma load16_store16_eq m a v : load16 (store16 m a v) a = u16 v.
Proof.
  unfold load16, store16. rewrite load8_store8_ne by lia. rewrite !load8_store8_eq. unfold u8, u16. zdm.
Qed.

Lemma load16_unchanged P m m' a :
  unchanged P m m' -> (forall b, in_range a 2 b -> ~ P b) -> load16 m' a = load16 m a.
Proof.
  intros U Ha. unfold load16. rewrite !(unchanged_load8 P m m') by (auto; apply Ha; unfold in_range; lia). done.
Qed.

Lemma unchanged_store16 (P : Z -> Prop) m a v : (forall b, in_range a 2 b -> P b) -> unchanged P m (store16 m a v).
Proof.
  intros HP. unfold store16. eapply unchanged_trans; apply unchanged_store8, HP; unfold in_range; lia.
Qed.

Lemma load16_store16_ne m a v b : a + 2 <= b \/ b + 2 <= a -> load16 (store16 m a v) b = load16 m b.
Proof. intros Hd. unfold load16, store16. now rewrite !load8_store8_ne by lia. Qed.

Lemma load8_store16_ne m a v b : b < a \/ a + 2 <= b -> load8 (store16 m a v) b = load8 m b.
Proof. intros Hd. unfold store16. now rewrite !load8_store8_ne by lia. Qed.

Lemma load32_store16_ne m a v b : a + 2 <= b \/ b + 4 <= a -> load32 (store16 m a v) b = load32 m b.
Proof. intros Hd. unfold load32. now rewrite !load8_store16_ne by lia. Qed.

Lemma load16_store32_ne m a v b : a + 4 <= b \/ b + 2 <= a -> load16 (store32 m a v) b = load16 m b.
Proof. intros Hd. unfold load16. now rewrite !load8_store32_ne by lia. Qed.

(** ** The code *)

(** Offsets in a node. *)
Definition LOCATION : Z := 0.
Definition ON_CHAR : Z := 2.
Definition OFF_CHAR : Z := 3.
Definition ON_LENGTH : Z := 4.
Definition OFF_LENGTH : Z := 6.
Definition COUNTDOWN : Z := 8.
Definition STATUS : Z := 10.
Definition NEXT : Z := 12.
Definition STRUCT_SIZE : Z := 16.

Definition RTC_ADD : Z := 0.
Definition RTC_REMOVE : Z := 1.
Definition RTC_FIND : Z := 2.
Definition RTC_SYNC : Z := 3.

Definition NODES : Z := 80 * 25.

(** The addresses of the program's variables. *)
Record fish_data := mkFish {
  blink_array : Z;
  mp1_list_head : Z;
  vmem_base_addr : Z;
  fi_tmp : Z;            (* the structure on the stack of mp1_ioctl_add *)
  fi_key : Z             (* the two bytes on the stack of mp1_ioctl_find *)
}.

Definition ece391_memset (memory c n : Z) (m : mem) : mem :=
  for_range 0 n (fun i m => store8 m (memory + i) c) m.

Definition ece391_memcpy (dest src n : Z) (m : mem) : mem :=
  for_range 0 n (fun i m => store8 m (dest + i) (load8 m (src + i))) m.

Section Code.
Context (d : fish_data) (dir : Z).

(** A byte stored by the program: into its page, or where the page tables lead. *)
Definition user_store8 (va v : Z) (m : mem) : option mem :=
  if in_window va then Some (store8 m va v) else
  match translate m dir va with
  | Some (pa, true) => Some (store8 m pa v)
  | _ => None
  end.

Definition mp1_poke (off c : Z) (m : mem) : option mem :=
  user_store8 (load32 m (vmem_base_addr d) + off) c m.

(** *** fish.c *)

Fixpoint malloc_loop (n : nat) (i : Z) (m : mem) : Z :=
  match n with
  | O => 0
  | S n' => if load16 m (blink_array d + STRUCT_SIZE * i + LOCATION) =? 0 then blink_array d + STRUCT_SIZE * i
            else malloc_loop n' (i + 1) m
  end.

Definition mp1_malloc (m : mem) : Z := malloc_loop (Z.to_nat NODES) 0 m.

Definition mp1_free (memory : Z) (m : mem) : mem := ece391_memset memory 0 STRUCT_SIZE m.

(** *** blink.S *)

(** From the end of the countdown to [next_loop]. *)
Definition tasklet_blink (ebx : Z) (m : mem) : option mem :=
  let eax := Z.shiftl (load16 m (ebx + LOCATION)) 1 in
  let on := Z.testbit (load16 m (ebx + STATUS)) 0 in
  m ← mp1_poke eax (load8 m (ebx + if on then OFF_CHAR else ON_CHAR)) m;
  let dx := load16 m (ebx + if on then OFF_LENGTH else ON_LENGTH) in
  let m := store16 m (ebx + COUNTDOWN) dx in
  Some (store16 m (ebx + STATUS) (Z.lxor (load16 m (ebx + STATUS)) 1)).

Fixpoint tasklet_loop (fuel : nat) (ebx : Z) (m : mem) : option mem :=
  match fuel with
  | O => None
  | S f =>
      if ebx =? 0 then Some m else
      let m := store16 m (ebx + COUNTDOWN) (load16 m (ebx + COUNTDOWN) - 1) in
      m ← (if 0 <? s16 (load16 m (ebx + COUNTDOWN)) then Some m else tasklet_blink ebx m);
      tasklet_loop f (load32 m (ebx + NEXT)) m
  end.

Definition mp1_rtc_tasklet (fuel : nat) (m : mem) : option mem :=
  tasklet_loop fuel (load32 m (mp1_list_head d)) m.

(** The loop of [mp1_find_helper]; 0 when there is no such node. *)
Fixpoint find_loop (fuel : nat) (ax ebx : Z) (m : mem) : option Z :=
  match fuel with
  | O => None
  | S f =>
      if ebx =? 0 then Some 0 else
      if load16 m (ebx + LOCATION) =? ax then Some ebx else
      find_loop f ax (load32 m (ebx + NEXT)) m
  end.

Definition mp1_find_helper (fuel : nat) (loc : Z) (m : mem) : option Z :=
  find_loop fuel (u16 loc) (load32 m (mp1_list_head d)) m.

Definition mp1_ioctl_add (arg : Z) (m : mem) : option (Z * mem) :=
  let ebx := fi_tmp d in
  let m := ece391_memcpy ebx arg STRUCT_SIZE m in
  if NODES <=? load16 m (ebx + LOCATION) then Some (-1, m) else
  let m := store16 m (ebx + STATUS) 1 in
  let m := store16 m (ebx + COUNTDOWN) (load16 m (ebx + ON_LENGTH)) in
  let edx := mp1_malloc m in
  if edx =? 0 then Some (-1, m) else
  let m := ece391_memcpy edx ebx STRUCT_SIZE m in
  let m := store32 m (edx + NEXT) (load32 m (mp1_list_head d)) in
  let m := store32 m (mp1_list_head d) edx in
  m ← mp1_poke (Z.shiftl (load16 m (edx + LOCATION)) 1) (load8 m (edx + ON_CHAR)) m;
  Some (0, m).

(** [remove_find_prev]: the word that points to [eax]. *)
Fixpoint prev_loop (fuel : nat) (eax edx : Z) (m : mem) : option Z :=
  match fuel with
  | O => None
  | S f => if load32 m edx =? eax then Some edx else prev_loop f eax (load32 m edx + NEXT) m
  end.

Definition mp1_ioctl_remove (fuel : nat) (arg : Z) (m : mem) : option (Z * mem) :=
  eax ← mp1_find_helper fuel arg m;
  if eax =? 0 then Some (-1, m) else
  edx ← prev_loop fuel eax (mp1_list_head d) m;
  let m := store32 m edx (load32 m (eax + NEXT)) in
  Some (0, mp1_free eax m).

(** [testb $1, STATUS] leaves the sign and the overflow flag clear when bit 7 of the
    result is; [cmovl] moves when they differ. *)
Definition sync_char (m : mem) (edi : Z) : Z :=
  let sf := Z.testbit (Z.land (load8 m (edi + STATUS)) 1) 7 in
  if xorb sf false then load8 m (edi + ON_CHAR) else load8 m (edi + OFF_CHAR).

Definition sync_copy (esi edi : Z) (m : mem) : mem :=
  let m := store16 m (edi + ON_LENGTH) (load16 m (esi + ON_LENGTH)) in
  let m := store16 m (edi + OFF_LENGTH) (load16 m (esi + OFF_LENGTH)) in
  let m := store16 m (edi + COUNTDOWN) (load16 m (esi + COUNTDOWN)) in
  store16 m (edi + STATUS) (load16 m (esi + STATUS)).

Definition mp1_ioctl_sync (fuel : nat) (arg : Z) (m : mem) : option (Z * mem) :=
  esi ← mp1_find_helper fuel (Z.shiftr (u32 arg) 16) m;
  if esi =? 0 then Some (-1, m) else
  edi ← mp1_find_helper fuel (Z.land arg 0xFFFF) m;
  if edi =? 0 then Some (-1, m) else
  let m := sync_copy esi edi m in
  m ← mp1_poke (Z.shiftl (load16 m (edi + LOCATION)) 1) (sync_char m edi) m;
  Some (0, m).

Definition mp1_ioctl_find (fuel : nat) (arg : Z) (m : mem) : option (Z * mem) :=
  let m := ece391_memcpy (fi_key d) arg 2 m in
  eax ← mp1_find_helper fuel (load16 m (fi_key d)) m;
  if eax =? 0 then Some (-1, m) else
  Some (0, ece391_memcpy arg eax STRUCT_SIZE m).

(** The jump through [call_table]; a command outside the table jumps anywhere. *)
Definition mp1_ioctl (fuel : nat) (arg cmd : Z) (m : mem) : option (Z * mem) :=
  if cmd =? RTC_ADD then mp1_ioctl_add arg m
  else if cmd =? RTC_REMOVE then mp1_ioctl_remove fuel arg m
  else if cmd =? RTC_FIND then mp1_ioctl_find fuel arg m
  else if cmd =? RTC_SYNC then mp1_ioctl_sync fuel arg m
  else None.
End Code.

(** ** The abstract board *)

Record blink := mkBlink {
  b_loc : Z;
  b_on : Z;
  b_off : Z;
  b_on_length : Z;
  b_off_length : Z;
  b_countdown : Z;
  b_status : Z
}.

(** The nodes from the head of the list on, and the characters of the screen. *)
Record board := mkBoard { nodes : list blink; screen : Z -> Z }.

Definition draw (loc c : Z) (scr : Z -> Z) : Z -> Z := fun k => if k =? loc then c else scr k.

(** A clock tick of one node: the countdown, or the other character and its length. *)
Definition tick1 (b : blink) (scr : Z -> Z) : blink * (Z -> Z) :=
  let c := u16 (b_countdown b - 1) in
  if 0 <? s16 c then
    (mkBlink (b_loc b) (b_on b) (b_off b) (b_on_length b) (b_off_length b) c (b_status b), scr)
  else
    let on := Z.testbit (b_status b) 0 in
    (mkBlink (b_loc b) (b_on b) (b_off b) (b_on_length b) (b_off_length b)
       (if on then b_off_length b else b_on_length b) (Z.lxor (b_status b) 1),
     draw (b_loc b) (if on then b_off b else b_on b) scr).

Fixpoint tick_all (l : list blink) (scr : Z -> Z) : list blink * (Z -> Z) :=
  match l with
  | [] => ([], scr)
  | b :: l' =>
      let '(b, scr) := tick1 b scr in
      let '(l', scr) := tick_all l' scr in (b :: l', scr)
  end.

Definition at_loc (loc : Z) (b : blink) : Prop := b_loc b = loc.
#[export] Instance at_loc_dec loc b : Decision (at_loc loc b).
Proof. unfold at_loc. apply _. Defined.

(** [b] with the times and the state of [a]. *)
Definition in_step (a b : blink) : blink :=
  mkBlink (b_loc b) (b_on b) (b_off b) (b_on_length a) (b_off_length a) (b_countdown a) (b_status a).

Inductive request :=
| Add (loc on off on_length off_length : Z)
| Remove (loc : Z)
| Sync (from to : Z)
| Tick.

Definition board_serve (r : request) (B : board) : Z * board :=
  match r with
  | Add loc on off onl offl =>
      if decide (loc < NODES /\ Z.of_nat (length (nodes B)) < NODES)
      then (0, mkBoard (mkBlink loc on off onl offl onl 1 :: nodes B) (draw loc on (screen B)))
      else (-1, B)
  | Remove loc =>
      match list_find (at_loc loc) (nodes B) with
      | Some (i, _) => (0, mkBoard (delete i (nodes B)) (screen B))
      | None => (-1, B)
      end
  | Sync from to =>
      match list_find (at_loc from) (nodes B), list_find (at_loc to) (nodes B) with
      | Some (_, a), Some (j, b) =>
          (0, mkBoard (<[j := in_step a b]> (nodes B)) (draw to (b_off b) (screen B)))
      | _, _ => (-1, B)
      end
  | Tick => (0, let '(l, scr) := tick_all (nodes B) (screen B) in mkBoard l scr)
  end.

Fixpoint board_run (rs : list request) (B : board) : list Z * board :=
  match rs with
  | [] => ([], B)
  | r :: rs' =>
      let '(v, B) := board_serve r B in
      let '(vs, B) := board_run rs' B in (v :: vs, B)
  end.

(** ** The requests of a program *)

Section Requests.
Context (d : fish_data) (dir arg : Z) (fuel : nat).

(** The structure a program fills in before RTC_ADD. *)
Definition fill_struct (loc on off onl offl : Z) (m : mem) : mem :=
  let m := store8 m (arg + ON_CHAR) on in
  let m := store8 m (arg + OFF_CHAR) off in
  let m := store16 m (arg + ON_LENGTH) onl in
  let m := store16 m (arg + OFF_LENGTH) offl in
  store16 m (arg + LOCATION) loc.

Definition serve (r : request) (m : mem) : option (Z * mem) :=
  match r with
  | Add loc on off onl offl => mp1_ioctl d dir fuel arg RTC_ADD (fill_struct loc on off onl offl m)
  | Remove loc => mp1_ioctl d dir fuel loc RTC_REMOVE m
  | Sync from to => mp1_ioctl d dir fuel (Z.lor (Z.shiftl from 16) to) RTC_SYNC m
  | Tick => m ← mp1_rtc_tasklet d dir fuel m; Some (0, m)
  end.

Fixpoint run (rs : list request) (m : mem) : option (list Z * mem) :=
  match rs with
  | [] => Some ([], m)
  | r :: rs' =>
      '(v, m) ← serve r m;
      '(vs, m) ← run rs' m;
      Some (v :: vs, m)
  end.
End Requests.

(** ** The list in memory *)

Definition node (m : mem) (p : Z) : blink :=
  mkBlink (load16 m (p + LOCATION)) (load8 m (p + ON_CHAR)) (load8 m (p + OFF_CHAR)) (load16 m (p + ON_LENGTH))
    (load16 m (p + OFF_LENGTH)) (load16 m (p + COUNTDOWN)) (load16 m (p + STATUS)).

Definition next (m : mem) (p : Z) : Z := load32 m (p + NEXT).

(** The pointer [a] leads through the nodes [ps] to the end. *)
Fixpoint chain (m : mem) (a : Z) (ps : list Z) : Prop :=
  match ps with
  | [] => a = 0
  | p :: ps' => a = p /\ chain m (next m p) ps'
  end.

Lemma node_unchanged P m m' p :
  unchanged P m m' -> (forall b, in_range p 16 b -> ~ P b) -> node m' p = node m p /\ next m' p = next m p.
Proof.
  intros U HP. unfold node, next, LOCATION, ON_CHAR, OFF_CHAR, ON_LENGTH, OFF_LENGTH, COUNTDOWN, STATUS, NEXT.
  rewrite !(load16_unchanged P m m'), !(unchanged_load8 P m m'), !(unchanged_load32 P m m') by
    (first [exact U|intros b Hb; apply HP; unfold in_range in *; lia|apply HP; unfold in_range in *; lia]). done.
Qed.

Lemma chain_frame m m' ps : forall a,
  (forall p, p ∈ ps -> next m' p = next m p) -> chain m a ps -> chain m' a ps.
Proof.
  induction ps as [|p ps IH]; intros a Hn; [done|]. cbn [chain]. intros [-> Hc]. split; [done|].
  rewrite Hn by left. apply IH; [intros q Hq; apply Hn; by right|exact Hc].
Qed.

(** The search for a location. *)
Lemma find_loop_spec m x ps : forall fuel a,
  chain m a ps -> (forall p, p ∈ ps -> p <> 0) -> (length ps < fuel)%nat ->
  find_loop fuel x a m = Some (from_option snd 0 (list_find (fun p => b_loc (node m p) = x) ps)).
Proof.
  induction ps as [|p ps IH]; intros [|f] a Hc H0 Hf; cbn [length chain] in *; [lia| |lia|]; cbn [find_loop].
  - by subst a.
  - destruct Hc as [-> Hc]. rewrite (proj2 (Z.eqb_neq p 0)) by (apply H0; left).
    cbn [list_find]. change (load16 m (p + LOCATION)) with (b_loc (node m p)).
    destruct (Z.eqb_spec (b_loc (node m p)) x) as [E|E].
    + by rewrite decide_True.
    + rewrite decide_False by exact E. change (load32 m (p + NEXT)) with (next m p).
      rewrite (IH f _ Hc) by (first [lia|intros q Hq; apply H0; by right]).
      by destruct (list_find _ ps) as [[? ?]|].
Qed.

(** The word that points to the node behind [pre]. *)
Fixpoint link (a : Z) (pre : list Z) : Z :=
  match pre with
  | [] => a
  | q :: pre' => link (q + NEXT) pre'
  end.

Lemma prev_loop_spec m p post pre : forall fuel a,
  chain m (load32 m a) (pre ++ p :: post) -> p ∉ pre -> (length pre < fuel)%nat ->
  prev_loop fuel p a m = Some (link a pre).
Proof.
  induction pre as [|q pre IH]; intros [|f] a Hc Hn Hf; cbn [length chain app] in *; try lia; cbn [prev_loop link];
    destruct Hc as [E Hc]; rewrite E.
  - by rewrite Z.eqb_refl.
  - rewrite (proj2 (Z.eqb_neq q p)) by (intros ->; apply Hn; left).
    apply IH; [exact Hc|intros Hp; apply Hn; by right|lia].
Qed.

(** Words that do not overlap. *)
Definition apart (x y : Z) : Prop := x + 4 <= y \/ y + 4 <= x.

Lemma link_in a pre : link a pre = a \/ exists q, q ∈ pre /\ link a pre = q + NEXT.
Proof.
  revert a. induction pre as [|q pre IH]; intros a; cbn [link]; [by left|].
  destruct (IH (q + NEXT)) as [E|(q' & Hq & E)]; right; [exists q|exists q']; (split; [|exact E]); [left|by right].
Qed.

(** Storing the successor of [p] into the word that points to it takes it out. *)
Lemma unlink_spec m p post pre : forall a,
  chain m (load32 m a) (pre ++ p :: post) ->
  (forall q, q ∈ pre ++ post -> apart a (q + NEXT)) ->
  (forall q r, q ∈ pre -> r ∈ pre ++ post -> q <> r -> apart (q + NEXT) (r + NEXT)) ->
  NoDup (pre ++ p :: post) ->
  let m' := store32 m (link a pre) (next m p) in
  chain m' (load32 m' a) (pre ++ post).
Proof.
  induction pre as [|q pre IH]; intros a Hc Ha Hq Hnd m'; cbn [link app chain] in *; destruct Hc as [E Hc].
  - unfold m'. rewrite load32_store32_eq, u32_small by apply load32_range.
    eapply chain_frame; [|exact Hc]. intros r Hr. unfold next. apply load32_store32_ne. destruct (Ha r Hr); lia.
  - inversion_clear Hnd as [|? ? Hnq Hnd'].
    assert (Ea : load32 m' a = q).
    { unfold m'. rewrite load32_store32_ne; [exact E|]. destruct (link_in (q + NEXT) pre) as [->|(q' & Hq' & ->)].
      - destruct (Ha q ltac:(left)); lia.
      - destruct (Ha q'); [right; apply elem_of_app; by left|lia..]. }
    split; [exact Ea|]. apply (IH (q + NEXT)); [exact Hc| | |exact Hnd'].
    + intros r Hr. apply Hq; [left|by right|]. intros ->. apply Hnq. apply elem_of_app in Hr as [Hr|Hr]; apply elem_of_app;
        [by left|right; by right].
    + intros r r' Hr Hr' Hne. apply Hq; [by right|by right|exact Hne].
Qed.

(** ** The representation *)

(** The variables of the program and the structure it passes are apart in its page; the
    page tables are below it and apart from the video memory. *)
Record fish_layout (d : fish_data) (dir t arg : Z) : Prop := {
  fl_array : PROG_LO <= blink_array d /\ blink_array d + STRUCT_SIZE * NODES <= PROG_HI;
  fl_head : PROG_LO <= mp1_list_head d /\ mp1_list_head d + 4 <= PROG_HI;
  fl_vmem : PROG_LO <= vmem_base_addr d /\ vmem_base_addr d + 4 <= PROG_HI;
  fl_tmp : PROG_LO <= fi_tmp d /\ fi_tmp d + STRUCT_SIZE <= PROG_HI;
  fl_arg : PROG_LO <= arg /\ arg + STRUCT_SIZE <= PROG_HI;
  fl_array_head : disj (blink_array d) (STRUCT_SIZE * NODES) (mp1_list_head d) 4;
  fl_array_vmem : disj (blink_array d) (STRUCT_SIZE * NODES) (vmem_base_addr d) 4;
  fl_array_tmp : disj (blink_array d) (STRUCT_SIZE * NODES) (fi_tmp d) STRUCT_SIZE;
  fl_array_arg : disj (blink_array d) (STRUCT_SIZE * NODES) arg STRUCT_SIZE;
  fl_head_vmem : disj (mp1_list_head d) 4 (vmem_base_addr d) 4;
  fl_head_tmp : disj (mp1_list_head d) 4 (fi_tmp d) STRUCT_SIZE;
  fl_head_arg : disj (mp1_list_head d) 4 arg STRUCT_SIZE;
  fl_vmem_tmp : disj (vmem_base_addr d) 4 (fi_tmp d) STRUCT_SIZE;
  fl_vmem_arg : disj (vmem_base_addr d) 4 arg STRUCT_SIZE;
  fl_tmp_arg : disj (fi_tmp d) STRUCT_SIZE arg STRUCT_SIZE;
  fl_dir : dir + 4 * USER_VMEM + 4 <= PROG_LO /\ disj (dir + 4 * USER_VMEM) 4 VIDEO (2 * NODES);
  fl_table : disj (4096 * t + 4 * 0xB8) 4 VIDEO (2 * NODES)
}.

Section Board.
Context (d : fish_data) (dir t arg : Z) (FL : fish_layout d dir t arg).

Definition is_slot (p : Z) : Prop := exists i, 0 <= i < NODES /\ p = blink_array d + STRUCT_SIZE * i.

Record board_at (ps : list Z) (m : mem) (B : board) : Prop := {
  ba_chain : chain m (load32 m (mp1_list_head d)) ps;
  ba_nodup : NoDup ps;
  ba_slots : forall p, p ∈ ps -> is_slot p;
  ba_free : forall p, is_slot p -> p ∉ ps -> b_loc (node m p) = 0;
  ba_used : forall p, p ∈ ps -> 0 < b_loc (node m p) < NODES;
  ba_nodes : node m <$> ps = nodes B;
  ba_screen : forall k, 0 <= k < NODES -> load8 m (VIDEO + 2 * k) = screen B k;
  ba_vmem : load32 m (vmem_base_addr d) = 0x84B8000;
  ba_map : vidmap_ready dir t m
}.

(** Arithmetic over ranges. *)
Ltac rlia :=
  unfold disj, in_range, apart, STRUCT_SIZE, NODES, NEXT, PROG_LO, PROG_HI, VIDEO, USER_VMEM in *; lia.

Lemma slot_range p : is_slot p ->
  PROG_LO <= p /\ blink_array d <= p /\ p + 16 <= blink_array d + STRUCT_SIZE * NODES.
Proof using FL. intros (i & Hi & ->). pose proof (fl_array _ _ _ _ FL). rlia. Qed.

Lemma slots_apart p q : is_slot p -> is_slot q -> p <> q -> p + 16 <= q \/ q + 16 <= p.
Proof using Type. intros (i & Hi & ->) (j & Hj & ->) Hne. unfold STRUCT_SIZE in *. lia. Qed.

(** A step that leaves the array, the head, the variable and the tables alone. *)
Definition off_board (P : Z -> Prop) : Prop :=
  (forall a, in_range (blink_array d) (STRUCT_SIZE * NODES) a -> ~ P a) /\
  (forall a, in_range (mp1_list_head d) 4 a -> ~ P a) /\
  (forall a, in_range (vmem_base_addr d) 4 a -> ~ P a) /\
  (forall a, in_range (dir + 4 * USER_VMEM) 4 a -> ~ P a) /\
  (forall a, in_range (4096 * t + 4 * 0xB8) 4 a -> ~ P a).

Lemma board_off P ps m m' B scr :
  board_at ps m B -> unchanged P m m' -> off_board P ->
  (forall k, 0 <= k < NODES -> load8 m' (VIDEO + 2 * k) = scr k) ->
  board_at ps m' (mkBoard (nodes B) scr).
Proof using FL.
  intros [B1 B2 B3 B4 B5 B6 B7 B8 B9] U (O1 & O2 & O3 & O4 & O5) Hs.
  assert (N : forall p, is_slot p -> node m' p = node m p /\ next m' p = next m p).
  { intros p Hp. eapply node_unchanged; [exact U|]. intros b Hb. apply O1. apply slot_range in Hp. unfold in_range in *. lia. }
  split; try assumption.
  - rewrite (unchanged_load32 P m m') by assumption. eapply chain_frame; [|exact B1]. intros p Hp. by apply N, B3.
  - intros p Hp Hn. destruct (N p Hp) as [-> _]. by apply B4.
  - intros p Hp. destruct (N p (B3 p Hp)) as [-> _]. by apply B5.
  - cbn [nodes]. rewrite <- B6. apply list_fmap_ext. intros i p Hi. apply N, B3. by eapply list_elem_of_lookup_2.
  - rewrite (unchanged_load32 P m m') by assumption. exact B8.
  - destruct B9 as (T1 & T2 & T3). split; [exact T1|]. by rewrite !(unchanged_load32 P m m') by assumption.
Qed.

(** Writes to the program page outside the board's variables. *)
Lemma board_program a n ps m m' B :
  board_at ps m B -> unchanged (in_range a n) m m' -> PROG_LO <= a ->
  disj (blink_array d) (STRUCT_SIZE * NODES) a n -> disj (mp1_list_head d) 4 a n -> disj (vmem_base_addr d) 4 a n ->
  board_at ps m' B.
Proof using FL.
  intros HB U Ha D1 D2 D3. pose proof (ba_map _ _ _ HB) as (Ht & _). pose proof (ba_screen _ _ _ HB) as Hs. destruct B as [l scr].
  apply (board_off (in_range a n) ps m m' (mkBoard l scr)); [exact HB|exact U| |].
  - destruct (fl_dir _ _ _ _ FL) as [Hd _].
    split; [|split; [|split; [|split]]]; intros b Hb Hc; [clear - D1 Hb Hc|clear - D2 Hb Hc|clear - D3 Hb Hc|clear - Hd Ha Hb Hc|
      clear - Ht Ha Hb Hc]; rlia.
  - intros k Hk. rewrite (unchanged_load8 _ _ _ _ U); [by apply Hs|]. intros Hc. clear - Hk Ha Hc. rlia.
Qed.

(** ** Drawing *)

(** The page the program was given is the video page. *)
Definition mapped (m : mem) : Prop := load32 m (vmem_base_addr d) = 0x84B8000 /\ vidmap_ready dir t m.

Lemma poke_eq m loc c :
  mapped m -> 0 <= loc < NODES -> mp1_poke d dir (Z.shiftl loc 1) c m = Some (store8 m (VIDEO + 2 * loc) c).
Proof using Type.
  intros [Hv Hm] Hl. unfold mp1_poke, user_store8. rewrite Hv, Z.shiftl_mul_pow2 by lia. change (2 ^ 1) with 2.
  replace (in_window (0x84B8000 + loc * 2)) with false by (unfold in_window, PROG_LO, PROG_HI; lia).
  rewrite (translate_vidmap m dir t) by (first [exact Hm|unfold NODES in Hl; lia]).
  f_equal. f_equal. unfold VIDEO. lia.
Qed.

Lemma poke_spec ps m B loc c :
  board_at ps m B -> 0 <= loc < NODES -> 0 <= c < 256 ->
  mp1_poke d dir (Z.shiftl loc 1) c m = Some (store8 m (VIDEO + 2 * loc) c) /\
  board_at ps (store8 m (VIDEO + 2 * loc) c) (mkBoard (nodes B) (draw loc c (screen B))).
Proof using FL.
  intros HB Hl Hc. split; [apply poke_eq; [split; apply HB|exact Hl]|].
  - apply (board_off (in_range (VIDEO + 2 * loc) 1) ps m); [exact HB|apply unchanged_store8; unfold in_range; lia| |].
    + pose proof (fl_array _ _ _ _ FL) as [La _]. pose proof (fl_head _ _ _ _ FL) as [Lh _].
      pose proof (fl_vmem _ _ _ _ FL) as [Lv _]. pose proof (fl_dir _ _ _ _ FL) as [_ Ld]. pose proof (fl_table _ _ _ _ FL) as Lt.
      split; [|split; [|split; [|split]]]; intros b Hb Hp; [clear - La Hl Hb Hp|clear - Lh Hl Hb Hp|clear - Lv Hl Hb Hp|
        clear - Ld Hl Hb Hp|clear - Lt Hl Hb Hp]; rlia.
    + intros k Hk. rewrite load8_store8. unfold draw. destruct (Z.eqb_spec k loc) as [->|Hne].
      * rewrite Z.eqb_refl. by apply u8_small.
      * replace (VIDEO + 2 * loc =? VIDEO + 2 * k) with false by lia. by apply (ba_screen _ _ _ HB).
Qed.

(** ** Writing a node *)

Lemma board_node ps i p m m' B :
  board_at ps m B -> ps !! i = Some p -> unchanged (in_range p 16) m m' ->
  b_loc (node m' p) = b_loc (node m p) -> next m' p = next m p ->
  board_at ps m' (mkBoard (<[i := node m' p]> (nodes B)) (screen B)).
Proof using FL.
  intros [B1 B2 B3 B4 B5 B6 B7 B8 B9] Hi U El En. assert (Hp : p ∈ ps) by (by eapply list_elem_of_lookup_2).
  pose proof (B3 p Hp) as Sp. pose proof (slot_range p Sp) as Rp.
  assert (N : forall q, is_slot q -> q <> p -> node m' q = node m q /\ next m' q = next m q).
  { intros q Sq Hne. eapply node_unchanged; [exact U|]. intros b Hb Hc. pose proof (slots_apart p q Sp Sq ltac:(done)).
    unfold in_range in *. lia. }
  assert (Nx : forall q, q ∈ ps -> next m' q = next m q) by (intros q Hq; destruct (decide (q = p)) as [->|]; [done|apply N; [by apply B3|done]]).
  assert (W : forall a, disj (blink_array d) (STRUCT_SIZE * NODES) a 4 \/ a + 4 <= PROG_LO -> load32 m' a = load32 m a).
  { intros a Ha. eapply unchanged_load32; [exact U|]. intros b Hb Hc. clear - Ha Hb Hc Rp. rlia. }
  split; try assumption.
  - rewrite W by (left; apply FL). eapply chain_frame; [exact Nx|exact B1].
  - intros q Sq Hq. destruct (N q Sq) as [-> _]; [intros ->; done|by apply B4].
  - intros q Hq. destruct (decide (q = p)) as [->|Hne]; [rewrite El; by apply B5|].
    destruct (N q (B3 q Hq) Hne) as [-> _]. by apply B5.
  - cbn [nodes]. rewrite <- B6. apply list_eq. intros j. destruct (decide (j = i)) as [->|Hne].
    + rewrite list_lookup_fmap, Hi, list_lookup_insert_eq by (rewrite length_fmap; by eapply lookup_lt_Some). done.
    + rewrite list_lookup_insert_ne, !list_lookup_fmap by done. destruct (ps !! j) as [q|] eqn:Ej; [|done]. cbn. f_equal.
      apply N; [apply B3; by eapply list_elem_of_lookup_2|]. intros ->. apply Hne. by eapply NoDup_lookup.
  - intros k Hk. rewrite (unchanged_load8 _ _ _ _ U); [by apply B7|]. intros Hc. clear - Hc Hk Rp. rlia.
  - rewrite W by (left; apply FL). exact B8.
  - destruct B9 as (T1 & T2 & T3). split; [exact T1|].
    rewrite !W by (right; first [apply FL|clear - T1; rlia]). done.
Qed.

(** ** A tick *)

Lemma lxor_1_range x : 0 <= x < 65536 -> 0 <= Z.lxor x 1 < 65536.
Proof using Type.
  intros Hx. split; [apply Z.lxor_nonneg; lia|]. destruct (Z.eq_dec (Z.lxor x 1) 0) as [->|Hn]; [lia|].
  assert (H0 : 0 < Z.lxor x 1) by (assert (0 <= Z.lxor x 1) by (apply Z.lxor_nonneg; lia); lia).
  change 65536 with (2 ^ 16). apply Z.log2_lt_pow2; [exact H0|].
  pose proof (Z.log2_lxor x 1 ltac:(lia) ltac:(lia)) as Hl. change (Z.log2 1) with 0 in Hl.
  destruct (Z.eq_dec x 0) as [->|Hx0]; [cbn in Hl; lia|].
  assert (Z.log2 x < 16) by (apply Z.log2_lt_pow2; lia). lia.
Qed.

Lemma u16_small x : 0 <= x < 65536 -> u16 x = x.
Proof using Type. intros Hx. unfold u16. zdm. Qed.

(** Reads the fields of a node behind 16-bit stores. *)
Ltac fields :=
  unfold node, next, LOCATION, ON_CHAR, OFF_CHAR, ON_LENGTH, OFF_LENGTH, COUNTDOWN, STATUS, NEXT in *;
  repeat first [rewrite load16_store16_eq | rewrite load16_store16_ne by lia | rewrite load8_store16_ne by lia
               | rewrite load32_store16_ne by lia].

(** The countdown of the node at [p]. *)
Lemma count_node ps i p m B :
  board_at ps m B -> ps !! i = Some p ->
  let m1 := store16 m (p + COUNTDOWN) (load16 m (p + COUNTDOWN) - 1) in
  let b := node m p in
  let b1 := mkBlink (b_loc b) (b_on b) (b_off b) (b_on_length b) (b_off_length b) (u16 (b_countdown b - 1)) (b_status b) in
  node m1 p = b1 /\ board_at ps m1 (mkBoard (<[i := b1]> (nodes B)) (screen B)).
Proof using FL.
  intros HB Hi m1 b b1.
  assert (E : node m1 p = b1 /\ next m1 p = next m p) by (unfold m1, b1, b; fields; done).
  destruct E as [E En]. split; [exact E|]. rewrite <- E.
  eapply board_node; [exact HB|exact Hi| |rewrite E; done|exact En].
  apply unchanged_store16. unfold in_range, COUNTDOWN. lia.
Qed.

(** The change of its character. *)
Lemma blink_node ps i p m B :
  board_at ps m B -> ps !! i = Some p ->
  let b := node m p in
  let on := Z.testbit (b_status b) 0 in
  exists m', tasklet_blink d dir p m = Some m' /\
    board_at ps m' (mkBoard
      (<[i := mkBlink (b_loc b) (b_on b) (b_off b) (b_on_length b) (b_off_length b)
                (if on then b_off_length b else b_on_length b) (Z.lxor (b_status b) 1)]> (nodes B))
      (draw (b_loc b) (if on then b_off b else b_on b) (screen B))).
Proof using FL.
  intros HB Hi b on. assert (Hp : p ∈ ps) by (by eapply list_elem_of_lookup_2).
  pose proof (ba_used _ _ _ HB p Hp) as Hl. pose proof (ba_slots _ _ _ HB p Hp) as Sp. apply slot_range in Sp.
  destruct (poke_spec ps m B (b_loc b) (if on then b_off b else b_on b) HB) as [E B1];
    [unfold b in *; lia|destruct on; apply load8_range|].
  set (m1 := store8 m (VIDEO + 2 * b_loc b) _) in *.
  assert (N1 : node m1 p = b).
  { eapply (node_unchanged (in_range (VIDEO + 2 * b_loc b) 1) m); [apply unchanged_store8; unfold in_range; lia|].
    intros a Ha Hv. clear - Ha Hv Hl Sp. subst b. rlia. }
  set (dx := if on then b_off_length b else b_on_length b).
  exists (store16 (store16 m1 (p + COUNTDOWN) dx) (p + STATUS) (Z.lxor (b_status b) 1)). split.
  - unfold tasklet_blink. change (load16 m (p + LOCATION)) with (b_loc b).
    change (load16 m (p + STATUS)) with (b_status b). fold on.
    replace (load8 m (p + if on then OFF_CHAR else ON_CHAR)) with (if on then b_off b else b_on b) by (by destruct on).
    rewrite E. cbn [mbind option_bind].
    assert (Ed : load16 m1 (p + if on then OFF_LENGTH else ON_LENGTH) = dx)
      by (unfold dx; rewrite <- N1; by destruct on).
    assert (Es : load16 (store16 m1 (p + COUNTDOWN) dx) (p + STATUS) = b_status b)
      by (rewrite load16_store16_ne by (unfold COUNTDOWN, STATUS; lia); by rewrite <- N1).
    by rewrite Ed, Es.
  - set (m2 := store16 _ (p + STATUS) _).
    assert (Hdx : 0 <= dx < 65536) by (unfold dx, b; destruct on; apply load16_range).
    assert (Hst : 0 <= Z.lxor (b_status b) 1 < 65536) by (apply lxor_1_range, load16_range).
    assert (N2 : node m2 p = mkBlink (b_loc b) (b_on b) (b_off b) (b_on_length b) (b_off_length b) dx (Z.lxor (b_status b) 1) /\
      next m2 p = next m1 p).
    { revert N1. unfold m2. clearbody b. destruct b as [b1 b2 b3 b4 b5 b6 b7]. cbn [b_loc b_on b_off b_on_length b_off_length b_status] in *.
      fields. intros [= -> -> -> -> -> _ _]. by rewrite !u16_small. }
    destruct N2 as [N2 N3]. rewrite <- N2.
    apply (board_node ps i p m1 m2 (mkBoard (nodes B) (draw (b_loc b) (if on then b_off b else b_on b) (screen B))));
      [exact B1|exact Hi| |rewrite N1, N2; done|exact N3].
    unfold m2. eapply unchanged_trans; apply unchanged_store16; unfold in_range, COUNTDOWN, STATUS; lia.
Qed.

(** A turn of the loop. *)
Lemma tick_node ps i p m B b :
  board_at ps m B -> ps !! i = Some p -> nodes B !! i = Some b ->
  let m1 := store16 m (p + COUNTDOWN) (load16 m (p + COUNTDOWN) - 1) in
  exists m', (if 0 <? s16 (load16 m1 (p + COUNTDOWN)) then Some m1 else tasklet_blink d dir p m1) = Some m' /\
    board_at ps m' (mkBoard (<[i := (tick1 b (screen B)).1]> (nodes B)) (tick1 b (screen B)).2).
Proof using FL.
  intros HB Hi Hb m1. assert (Eb : node m p = b).
  { rewrite <- (ba_nodes _ _ _ HB), list_lookup_fmap, Hi in Hb. by injection Hb. }
  destruct (count_node ps i p m B HB Hi) as [N1 B1]. fold m1 in N1, B1. rewrite Eb in N1, B1.
  change (load16 m1 (p + COUNTDOWN)) with (b_countdown (node m1 p)). rewrite N1. cbn [b_countdown]. unfold tick1.
  destruct (0 <? s16 (u16 (b_countdown b - 1))); [by exists m1|].
  destruct (blink_node ps i p m1 _ B1 Hi) as (m' & E & B2). rewrite N1 in B2. cbn [b_loc b_on b_off b_on_length b_off_length b_status nodes screen] in B2.
  exists m'. split; [exact E|]. cbn [fst snd]. by rewrite list_insert_insert_eq in B2.
Qed.

Lemma board_nodes_length ps m B : board_at ps m B -> length (nodes B) = length ps.
Proof using Type. intros HB. rewrite <- (ba_nodes _ _ _ HB). by rewrite length_fmap. Qed.

(** The pointer to the rest of the list stays the pointer to the rest of the list. *)
Lemma chain_suffix m pre p post : forall a, chain m a (pre ++ p :: post) -> chain m (next m p) post.
Proof using Type. induction pre as [|q pre IH]; intros a; cbn [app chain]; [tauto|]. intros [_ Hc]. by eapply IH. Qed.

Lemma tasklet_loop_spec ps post : forall fuel pre a m L1 L2 scr,
  ps = pre ++ post -> board_at ps m (mkBoard (L1 ++ L2) scr) -> length L1 = length pre -> chain m a post ->
  (length post < fuel)%nat ->
  exists m', tasklet_loop d dir fuel a m = Some m' /\
    board_at ps m' (mkBoard (L1 ++ (tick_all L2 scr).1) (tick_all L2 scr).2).
Proof using FL.
  induction post as [|p post IH]; intros [|f] pre a m L1 L2 scr Eps HB HL Hc Hf; cbn [length chain] in *; try lia; cbn [tasklet_loop].
  - subst a. pose proof (board_nodes_length _ _ _ HB) as E. subst ps. cbn [nodes] in E. rewrite !length_app in E. cbn [length] in E.
    destruct L2 as [|b L2]; [|cbn in E; lia]. by exists m.
  - destruct Hc as [-> Hc]. assert (Hi : ps !! length pre = Some p) by (subst ps; by apply list_lookup_middle).
    assert (Hp : p ∈ ps) by (by eapply list_elem_of_lookup_2).
    pose proof (slot_range p (ba_slots _ _ _ HB p Hp)) as Rp.
    replace (p =? 0) with false by (unfold PROG_LO in Rp; lia).
    pose proof (board_nodes_length _ _ _ HB) as E. subst ps. cbn [nodes] in E. rewrite !length_app in E. cbn [length] in E.
    destruct L2 as [|b L2]; [cbn in E; lia|].
    destruct (tick_node _ (length pre) p m _ b HB Hi) as (m1 & E1 & B1); [cbn [nodes]; by rewrite <- HL, list_lookup_middle|].
    rewrite E1. cbn [mbind option_bind nodes screen] in B1 |- *. change (load32 m1 (p + NEXT)) with (next m1 p).
    rewrite <- HL in B1. replace (length L1) with (length L1 + 0)%nat in B1 by lia. rewrite insert_app_r in B1. cbn [insert list_insert] in B1.
    cbn [tick_all]. destruct (tick1 b scr) as [b' scr']. cbn [fst snd] in B1.
    replace (L1 ++ b' :: L2) with ((L1 ++ [b']) ++ L2) in B1 by (by rewrite <- app_assoc).
    destruct (IH f (pre ++ [p]) (next m1 p) m1 (L1 ++ [b']) L2 scr') as (m2 & E2 & B2);
      [by rewrite <- app_assoc|exact B1|rewrite !length_app; cbn; lia|by eapply chain_suffix, (ba_chain _ _ _ B1)|lia|].
    exists m2. split; [exact E2|]. destruct (tick_all L2 scr') as [l s]. cbn [fst snd] in *. by rewrite <- app_assoc in B2.
Qed.

(** ** Finding a node *)

Lemma find_spec fuel ps m B loc :
  board_at ps m B -> 0 <= loc < 65536 -> (length ps < fuel)%nat ->
  match list_find (at_loc loc) (nodes B) with
  | Some (i, b) => exists p, ps !! i = Some p /\ node m p = b /\ p <> 0 /\ mp1_find_helper d fuel loc m = Some p
  | None => mp1_find_helper d fuel loc m = Some 0
  end.
Proof using FL.
  intros HB Hl Hf. unfold mp1_find_helper. rewrite (u16_small loc Hl).
  assert (H0 : forall p, p ∈ ps -> p <> 0).
  { intros p Hp ->. pose proof (slot_range 0 (ba_slots _ _ _ HB 0 Hp)). rlia. }
  rewrite (find_loop_spec m loc ps fuel _ (ba_chain _ _ _ HB) H0 Hf).
  rewrite <- (ba_nodes _ _ _ HB), list_find_fmap. unfold compose, at_loc.
  destruct (list_find (fun p => b_loc (node m p) = loc) ps) as [[i p]|] eqn:E; cbn; [|done].
  apply list_find_Some in E as (Hi & _). exists p. repeat split; try done. apply H0. by eapply list_elem_of_lookup_2.
Qed.

(** ** Removing a node *)

Lemma node_store_next m a v q : a + 4 <= q \/ q + 12 <= a -> node (store32 m a v) q = node m q.
Proof using Type.
  intros Ha. fields. rewrite !load16_store32_ne, !load8_store32_ne by lia. done.
Qed.

Lemma memset_zero a n m :
  0 <= n -> let m' := ece391_memset a 0 n m in
  unchanged (in_range a n) m m' /\ forall i, 0 <= i < n -> load8 m' (a + i) = 0.
Proof using Type.
  intros Hn m'. apply (for_range_ind (fun k z => unchanged (in_range a n) m z /\ forall i, 0 <= i < k -> load8 z (a + i) = 0));
    [exact Hn|split; [apply unchanged_refl|lia]|].
  intros j z Hj [U C]. split.
  - eapply unchanged_trans; [exact U|]. apply unchanged_store8. unfold in_range. lia.
  - intros i Hi. rewrite load8_store8. destruct (a + j =? a + i) eqn:E; [done|]. apply C. lia.
Qed.

Lemma free_spec p m :
  unchanged (in_range p 16) m (mp1_free p m) /\ b_loc (node (mp1_free p m) p) = 0.
Proof using Type.
  destruct (memset_zero p 16 m ltac:(lia)) as [U C]. split; [exact U|]. unfold node, b_loc, load16, LOCATION.
  pose proof (C 0 ltac:(lia)) as C0. pose proof (C 1 ltac:(lia)) as C1. rewrite !Z.add_0_r in *.
  change (ece391_memset p 0 16 m) with (mp1_free p m) in C0, C1. by rewrite C0, C1.
Qed.

(** The word that points to a node is the head or the link of a node before it. *)
Lemma link_place pre : (forall q, q ∈ pre -> is_slot q) ->
  link (mp1_list_head d) pre = mp1_list_head d \/ exists q, is_slot q /\ link (mp1_list_head d) pre = q + NEXT.
Proof using Type. intros Hs. destruct (link_in (mp1_list_head d) pre) as [->|(q & Hq & ->)]; [by left|right; eauto]. Qed.

Section Unlink.
Context (ps pre post : list Z) (p : Z) (m : mem) (B : board).
Context (HB : board_at ps m B) (Eps : ps = pre ++ p :: post).

Let m1 := store32 m (link (mp1_list_head d) pre) (next m p).

Lemma unlink_slots q : q ∈ pre ++ post -> is_slot q /\ q <> p /\ q ∈ ps.
Proof using HB Eps.
  intros Hq. assert (Hin : q ∈ ps) by (subst ps; apply elem_of_app; apply elem_of_app in Hq as [Hq|Hq]; [by left|right; by right]).
  split; [by apply (ba_slots _ _ _ HB)|]. split; [|exact Hin]. intros ->. pose proof (ba_nodup _ _ _ HB) as Hnd. subst ps.
  apply NoDup_app in Hnd as (_ & Hd & Hnd). inversion_clear Hnd as [|? ? Hn _].
  apply elem_of_app in Hq as [Hq|Hq]; [by apply (Hd p Hq); left|done].
Qed.

Lemma unlink_p : is_slot p.
Proof using HB Eps. apply (ba_slots _ _ _ HB). subst ps. apply elem_of_app. right. left. Qed.

Lemma unlink_chain : chain m1 (load32 m1 (mp1_list_head d)) (pre ++ post).
Proof using HB Eps FL.
  apply unlink_spec.
  - rewrite <- Eps. apply HB.
  - intros q Hq. destruct (unlink_slots q Hq) as (Sq & _). apply slot_range in Sq. pose proof (fl_array_head _ _ _ _ FL) as D.
    clear - D Sq. rlia.
  - intros q r Hq Hr Hne. destruct (unlink_slots q) as (Sq & _); [apply elem_of_app; by left|].
    destruct (unlink_slots r Hr) as (Sr & _). pose proof (slots_apart q r Sq Sr Hne). clear - H. rlia.
  - rewrite <- Eps. apply HB.
Qed.

Lemma unlink_node q : is_slot q -> node m1 q = node m q.
Proof using HB Eps FL.
  intros Sq. pose proof (slot_range q Sq) as Rq. apply node_store_next.
  destruct (link_place pre) as [->|(r & Sr & ->)].
  - intros r Hr. apply unlink_slots, elem_of_app. by left.
  - pose proof (fl_array_head _ _ _ _ FL) as D. clear - D Rq. rlia.
  - destruct (decide (r = q)) as [->|Hne]; [unfold NEXT; lia|].
    pose proof (slots_apart r q Sr Sq Hne). clear - H. rlia.
Qed.

(** The word with the link is off everything else. *)
Lemma unlink_else a : disj (blink_array d) (STRUCT_SIZE * NODES) a 4 -> disj (mp1_list_head d) 4 a 4 ->
  load32 m1 a = load32 m a.
Proof using HB Eps FL.
  intros D1 D2. apply load32_store32_ne. destruct (link_place pre) as [->|(r & Sr & ->)].
  - intros r Hr. apply unlink_slots, elem_of_app. by left.
  - clear - D2. rlia.
  - apply slot_range in Sr. clear - Sr D1. rlia.
Qed.

Lemma unlink_low a : a < PROG_LO -> load8 m1 a = load8 m a.
Proof using HB Eps FL.
  intros Ha. apply load8_store32_ne. destruct (link_place pre) as [->|(r & Sr & ->)].
  - intros r Hr. apply unlink_slots, elem_of_app. by left.
  - pose proof (fl_head _ _ _ _ FL) as [D _]. lia.
  - apply slot_range in Sr. unfold NEXT. lia.
Qed.

Lemma unlink_board : board_at (pre ++ post) (mp1_free p m1) (mkBoard (delete (length pre) (nodes B)) (screen B)).
Proof using HB Eps FL.
  destruct (free_spec p m1) as [U Z0]. set (m2 := mp1_free p m1) in *. pose proof unlink_p as Sp.
  pose proof (slot_range p Sp) as Rp. pose proof HB as [B1 B2 B3 B4 B5 B6 B7 B8 B9].
  assert (N : forall q, is_slot q -> q <> p -> node m2 q = node m q /\ next m2 q = next m1 q).
  { intros q Sq Hne. rewrite <- (unlink_node q Sq). eapply node_unchanged; [exact U|]. intros b Hb Hc.
    pose proof (slots_apart p q Sp Sq ltac:(done)). clear - H Hb Hc. rlia. }
  assert (L : forall a, a + 4 <= PROG_LO -> load32 m2 a = load32 m a).
  { intros a Ha. rewrite (unchanged_load32 _ m1 m2 a U) by (intros b Hb Hc; clear - Ha Rp Hb Hc; rlia).
    unfold load32. rewrite !unlink_low by lia. done. }
  split.
  - rewrite (unchanged_load32 _ m1 m2 _ U).
    + eapply chain_frame; [|exact unlink_chain]. intros q Hq. destruct (unlink_slots q Hq) as (Sq & Hne & _). by apply N.
    + pose proof (fl_array_head _ _ _ _ FL) as D. intros b Hb Hc. clear - D Rp Hb Hc. rlia.
  - rewrite Eps in B2. apply NoDup_app in B2 as (N1 & N2 & N3). inversion_clear N3 as [|? ? _ N4].
    apply NoDup_app. split; [exact N1|]. split; [|exact N4]. intros q Hq Hq'. apply (N2 q Hq). by right.
  - intros q Hq. by apply unlink_slots.
  - intros q Sq Hq. destruct (decide (q = p)) as [->|Hne]; [exact Z0|]. destruct (N q Sq Hne) as [-> _]. apply B4; [exact Sq|].
    rewrite Eps. intros Hin. apply Hq. apply elem_of_app in Hin as [Hin|Hin]; apply elem_of_app; [by left|right].
    apply elem_of_cons in Hin as [->|Hin]; done.
  - intros q Hq. destruct (unlink_slots q Hq) as (Sq & Hne & Hin). destruct (N q Sq Hne) as [-> _]. by apply B5.
  - cbn [nodes]. rewrite <- B6, Eps, (fmap_app (node m) pre (p :: post)), fmap_cons.
    assert (El : length pre = length (node m <$> pre)) by (by rewrite length_fmap). rewrite El.
    rewrite delete_middle, <- fmap_app. apply list_fmap_ext. intros i q Hi.
    assert (Hq : q ∈ pre ++ post) by (by eapply list_elem_of_lookup_2).
    destruct (unlink_slots q Hq) as (Sq & Hne & _). by apply N.
  - intros k Hk. rewrite (unchanged_load8 _ m1 m2 _ U) by (intros Hc; clear - Hk Rp Hc; rlia).
    rewrite unlink_low by (clear - Hk; rlia). by apply B7.
  - rewrite (unchanged_load32 _ m1 m2 _ U).
    + rewrite unlink_else by apply FL. exact B8.
    + pose proof (fl_array_vmem _ _ _ _ FL) as D. intros b Hb Hc. clear - D Rp Hb Hc. rlia.
  - destruct B9 as (T1 & T2 & T3). split; [exact T1|].
    rewrite !L by (first [apply FL|clear - T1; rlia]). done.
Qed.
End Unlink.

Lemma remove_spec fuel ps m B loc :
  board_at ps m B -> 0 <= loc < 65536 -> (length ps < fuel)%nat ->
  let '(v, B') := board_serve (Remove loc) B in
  exists ps' m', mp1_ioctl_remove d fuel loc m = Some (v, m') /\ board_at ps' m' B'.
Proof using FL.
  intros HB Hl Hf. cbn [board_serve]. pose proof (find_spec fuel ps m B loc HB Hl Hf) as F. unfold mp1_ioctl_remove.
  destruct (list_find (at_loc loc) (nodes B)) as [[i b]|]; [|rewrite F; by exists ps, m].
  destruct F as (p & Hi & _ & Hp0 & ->). cbn [mbind option_bind]. rewrite (proj2 (Z.eqb_neq _ _) Hp0).
  pose proof (take_drop_middle ps i p Hi) as E. symmetry in E.
  assert (Hlen : length (take i ps) = i) by (rewrite length_take; apply lookup_lt_Some in Hi; lia).
  rewrite (prev_loop_spec m p (drop (S i) ps) (take i ps) fuel (mp1_list_head d)).
  - cbn [mbind option_bind]. do 2 eexists. split; [done|]. rewrite <- Hlen at 2. by apply (unlink_board ps).
  - rewrite <- E. apply HB.
  - pose proof (ba_nodup _ _ _ HB) as Hnd. rewrite E in Hnd. apply NoDup_app in Hnd as (_ & Hd & _).
    intros Hin. apply (Hd p Hin). left.
  - apply lookup_lt_Some in Hi. lia.
Qed.

(** ** Bringing a node in step with another *)

Lemma sync_copy_spec p q m :
  p = q \/ p + 16 <= q \/ q + 16 <= p ->
  node (sync_copy p q m) q = in_step (node m p) (node m q) /\ next (sync_copy p q m) q = next m q /\
  unchanged (in_range q 16) m (sync_copy p q m).
Proof using Type.
  intros Hd. unfold sync_copy, in_step. split; [|split].
  - assert (F : forall x o, load16 m (x + o) = u16 (load16 m (x + o)))
      by (intros x o; symmetry; apply u16_small, load16_range).
    destruct Hd as [->|Hd]; fields; cbn [b_loc b_on b_off b_on_length b_off_length b_countdown b_status]; rewrite <- ?F; done.
  - by fields.
  - unfold ON_LENGTH, OFF_LENGTH, COUNTDOWN, STATUS.
    do 3 (eapply unchanged_trans; [|apply unchanged_store16; unfold in_range; lia]).
    apply unchanged_store16. unfold in_range. lia.
Qed.

(** The conditional move never moves. *)
Lemma sync_char_off m q : sync_char m q = b_off (node m q).
Proof using Type.
  unfold sync_char. assert (E : Z.testbit (Z.land (load8 m (q + STATUS)) 1) 7 = false).
  { rewrite Z.land_spec. change (Z.testbit 1 7) with false. apply andb_false_r. }
  by rewrite E.
Qed.

Lemma sync_spec fuel ps m B from to :
  board_at ps m B -> 0 <= from < 65536 -> 0 <= to < 65536 -> (length ps < fuel)%nat ->
  let '(v, B') := board_serve (Sync from to) B in
  exists m', mp1_ioctl_sync d dir fuel (Z.lor (Z.shiftl from 16) to) m = Some (v, m') /\ board_at ps m' B'.
Proof using FL.
  intros HB Hfrom Hto Hf. cbn [board_serve]. unfold mp1_ioctl_sync.
  assert (Ea : Z.lor (Z.shiftl from 16) to = 65536 * from + to).
  { rewrite lor_shiftl_add by (change (2 ^ 16) with 65536; lia). change (2 ^ 16) with 65536. lia. }
  rewrite Ea. rewrite u32_small by lia.
  replace (Z.shiftr (65536 * from + to) 16) with from by (rewrite Z.shiftr_div_pow2 by lia; change (2 ^ 16) with 65536; zdm).
  replace (Z.land (65536 * from + to) 0xFFFF) with to by (change 0xFFFF with (Z.ones 16); rewrite Z.land_ones by lia; change (2 ^ 16) with 65536; zdm).
  pose proof (find_spec fuel ps m B from HB Hfrom Hf) as F1. pose proof (find_spec fuel ps m B to HB Hto Hf) as F2.
  destruct (list_find (at_loc from) (nodes B)) as [[i a]|]; [|rewrite F1; by exists m].
  destruct F1 as (p & Hi & Na & Hp0 & ->). cbn [mbind option_bind]. rewrite (proj2 (Z.eqb_neq _ _) Hp0).
  destruct (list_find (at_loc to) (nodes B)) as [[j b]|] eqn:El; [|rewrite F2; by exists m].
  destruct F2 as (q & Hj & Nb & Hq0 & ->). cbn [mbind option_bind]. rewrite (proj2 (Z.eqb_neq _ _) Hq0).
  assert (Sp : is_slot p) by (apply (ba_slots _ _ _ HB); by eapply list_elem_of_lookup_2).
  assert (Hq : q ∈ ps) by (by eapply list_elem_of_lookup_2). pose proof (ba_slots _ _ _ HB q Hq) as Sq.
  destruct (sync_copy_spec p q m) as (N1 & N2 & U); [destruct (decide (p = q)); [by left|right; by apply slots_apart]|].
  set (m1 := sync_copy p q m) in *. rewrite Na, Nb in N1.
  assert (B1 : board_at ps m1 (mkBoard (<[j := in_step a b]> (nodes B)) (screen B))).
  { rewrite <- N1. eapply board_node; [exact HB|exact Hj|exact U|rewrite N1, Nb; done|exact N2]. }
  assert (Eto : b_loc b = to) by (by apply list_find_Some in El as (_ & El & _)).
  pose proof (ba_used _ _ _ HB q Hq) as Hu. rewrite Nb, Eto in Hu.
  change (load16 m1 (q + LOCATION)) with (b_loc (node m1 q)). rewrite sync_char_off, N1. cbn [in_step b_loc b_off]. rewrite Eto.
  destruct (poke_spec ps m1 _ to (b_off b) B1) as [-> B2]; [lia|rewrite <- Nb; apply load8_range|].
  cbn [mbind option_bind]. eexists. split; [done|exact B2].
Qed.

(** ** Adding a node *)

Lemma malloc_spec n : forall i m, 0 <= i -> i + Z.of_nat n <= NODES ->
  let p := malloc_loop d n i m in
  (p = 0 /\ forall j, i <= j < i + Z.of_nat n -> load16 m (blink_array d + STRUCT_SIZE * j + LOCATION) <> 0) \/
  (is_slot p /\ b_loc (node m p) = 0).
Proof using Type.
  induction n as [|n IH]; intros i m Hi Hn; cbn [malloc_loop]; [left; split; [done|lia]|].
  destruct (Z.eqb_spec (load16 m (blink_array d + STRUCT_SIZE * i + LOCATION)) 0) as [E|E].
  - right. split; [exists i; split; [lia|done]|exact E].
  - destruct (IH (i + 1) m ltac:(lia) ltac:(lia)) as [[-> Hj]|Hp]; [left; split; [done|]|by right].
    intros j Hj'. destruct (decide (j = i)) as [->|]; [exact E|]. apply Hj. lia.
Qed.

Definition slots : list Z := (fun i => blink_array d + STRUCT_SIZE * i) <$> zseq 0 (Z.to_nat NODES).

Lemma elem_of_slots p : p ∈ slots <-> is_slot p.
Proof using Type.
  unfold slots, is_slot. rewrite list_elem_of_fmap. split.
  - intros (i & -> & Hi). exists i. split; [|done]. apply elem_of_zseq in Hi. unfold NODES in *. lia.
  - intros (i & Hi & ->). exists i. split; [done|]. apply elem_of_zseq. unfold NODES in *. lia.
Qed.

Lemma slots_nodup : NoDup slots /\ Z.of_nat (length slots) = NODES.
Proof using Type.
  split; [|unfold slots; rewrite length_fmap, length_zseq; unfold NODES; lia].
  apply NoDup_fmap_2_strong; [unfold STRUCT_SIZE; intros x y _ _ E; lia|].
  unfold zseq. apply NoDup_fmap_2; [intros x y E; lia|apply NoDup_seq].
Qed.

(** There is a free node exactly when the list is shorter than the array. *)
Lemma malloc_board ps m B :
  board_at ps m B ->
  if decide (Z.of_nat (length (nodes B)) < NODES)
  then is_slot (mp1_malloc d m) /\ mp1_malloc d m ∉ ps
  else mp1_malloc d m = 0.
Proof using FL.
  intros HB. destruct slots_nodup as [Hnd Hlen]. rewrite (board_nodes_length ps m B HB).
  assert (Hsub : ps ⊆+ slots) by (apply NoDup_submseteq; [apply HB|intros p Hp; by apply elem_of_slots, (ba_slots _ _ _ HB)]).
  assert (Hin : Z.of_nat (length ps) < NODES \/ forall p, is_slot p -> p ∈ ps).
  { destruct (decide (Z.of_nat (length ps) < NODES)); [by left|right]. intros p Sp. apply elem_of_slots in Sp.
    assert (Hperm : slots ≡ₚ ps) by (symmetry; apply submseteq_length_Permutation; [exact Hsub|lia]). by rewrite <- Hperm. }
  destruct (malloc_spec (Z.to_nat NODES) 0 m ltac:(lia) ltac:(unfold NODES; lia)) as [[E0 Hall]|[Sp Hp]];
    fold (mp1_malloc d m) in *.
  - destruct (decide _) as [Hlt|]; [|exact E0]. exfalso.
    assert (slots ⊆+ ps); [|apply submseteq_length in H; lia]. apply NoDup_submseteq; [exact Hnd|].
    intros p Hp. apply elem_of_slots in Hp. destruct (decide (p ∈ ps)) as [|Hn]; [done|]. exfalso.
    pose proof (ba_free _ _ _ HB p Hp Hn) as Hz. destruct Hp as (i & Hi & ->). apply (Hall i); [unfold NODES in *; lia|exact Hz].
  - assert (Hn : mp1_malloc d m ∉ ps).
    { intros Hin'. pose proof (ba_used _ _ _ HB _ Hin') as Hu. lia. }
    destruct (decide _) as [|Hge]; [by split|]. destruct Hin as [|Hin]; [done|]. by specialize (Hin _ Sp).
Qed.

(** A copied structure. *)
Lemma memcpy_node dest src m :
  disj dest 16 src 16 ->
  let m' := ece391_memcpy dest src STRUCT_SIZE m in
  unchanged (in_range dest 16) m m' /\ node m' dest = node m src.
Proof using Type.
  intros Hd m'. destruct (copy_bytes_spec dest src 16 m ltac:(lia) Hd) as [U C]. split; [exact U|].
  unfold node, load16, LOCATION, ON_CHAR, OFF_CHAR, ON_LENGTH, OFF_LENGTH, COUNTDOWN, STATUS.
  rewrite <- !Z.add_assoc. change (ece391_memcpy dest src STRUCT_SIZE m) with m' in C.
  assert (K : forall i, 0 <= i < 16 -> load8 m' (dest + i) = load8 m (src + i)) by exact C. by rewrite !K by lia.
Qed.

(** A node that is free becomes the head. *)
Lemma push_spec ps m m' B p :
  board_at ps m B -> is_slot p -> p ∉ ps -> unchanged (in_range p 16) m m' -> 0 < b_loc (node m' p) < NODES ->
  let m1 := store32 m' (p + NEXT) (load32 m' (mp1_list_head d)) in
  let m2 := store32 m1 (mp1_list_head d) p in
  node m2 p = node m' p /\ board_at (p :: ps) m2 (mkBoard (node m' p :: nodes B) (screen B)).
Proof using FL.
  intros HB Sp Hn U Hloc m1 m2. pose proof (slot_range p Sp) as Rp. pose proof HB as [B1 B2 B3 B4 B5 B6 B7 B8 B9].
  pose proof (fl_array_head _ _ _ _ FL) as D. pose proof (fl_array _ _ _ _ FL) as [_ La]. pose proof (fl_head _ _ _ _ FL) as [Lh _].
  assert (Ep : node m2 p = node m' p).
  { unfold m2, m1. rewrite !node_store_next by (clear - D Rp; rlia). done. }
  assert (N : forall q, is_slot q -> q <> p -> node m2 q = node m q /\ next m2 q = next m q).
  { intros q Sq Hne. pose proof (slots_apart p q Sp Sq ltac:(done)) as Ha. pose proof (slot_range q Sq) as Rq.
    destruct (node_unchanged _ m m' q U) as [E1 E2]; [intros b Hb Hc; clear - Ha Hb Hc; rlia|].
    unfold m2, m1. rewrite !node_store_next by (clear - D Ha Rp Rq; rlia).
    split; [exact E1|]. rewrite <- E2. unfold next. rewrite !load32_store32_ne by (clear - D Ha Rp Rq; rlia). done. }
  assert (W : forall a, disj (blink_array d) (STRUCT_SIZE * NODES) a 4 -> load32 m' a = load32 m a).
  { intros a Ha. eapply unchanged_load32; [exact U|]. intros b Hb Hc. clear - Ha Hb Hc Rp. rlia. }
  assert (L8 : forall a, a < PROG_LO -> load8 m2 a = load8 m a).
  { intros a Ha. unfold m2, m1. rewrite !load8_store32_ne by (clear - Ha Rp Lh; rlia).
    eapply unchanged_load8; [exact U|]. clear - Ha Rp. rlia. }
  split; [exact Ep|]. split.
  - unfold m2 at 2. rewrite load32_store32_eq, u32_small by (clear - Rp La; rlia). cbn [chain]. split; [done|].
    assert (En : next m2 p = load32 m (mp1_list_head d)).
    { unfold next, m2. rewrite load32_store32_ne by (clear - D Rp; rlia). unfold m1.
      rewrite load32_store32_eq, u32_small by apply load32_range. apply W, D. }
    rewrite En. eapply chain_frame; [|exact B1]. intros q Hq. apply N; [by apply B3|]. by intros ->.
  - by constructor.
  - intros q Hq. apply elem_of_cons in Hq as [->|Hq]; [exact Sp|by apply B3].
  - intros q Sq Hq. apply not_elem_of_cons in Hq as [Hne Hq]. destruct (N q Sq Hne) as [-> _]. by apply B4.
  - intros q Hq. apply elem_of_cons in Hq as [->|Hq]; [by rewrite Ep|].
    destruct (N q (B3 q Hq)) as [-> _]; [by intros ->|by apply B5].
  - rewrite fmap_cons, Ep. cbn [nodes]. f_equal. rewrite <- B6. apply list_fmap_ext. intros i q Hi.
    assert (Hq : q ∈ ps) by (by eapply list_elem_of_lookup_2). apply N; [by apply B3|]. by intros ->.
  - intros k Hk. rewrite L8 by (clear - Hk; rlia). by apply B7.
  - rewrite <- B8. unfold m2, m1. pose proof (fl_array_vmem _ _ _ _ FL) as D2. pose proof (fl_head_vmem _ _ _ _ FL) as D3.
    rewrite !load32_store32_ne by (clear - Rp D2 D3; rlia). apply W, D2.
  - destruct B9 as (T1 & T2 & T3). pose proof (fl_dir _ _ _ _ FL) as [Hd _]. split; [exact T1|].
    unfold load32 in *. rewrite !L8 by (clear - T1 Hd; rlia). done.
Qed.

(** The fields a program fills in. *)
Lemma fill_spec loc on off onl offl m :
  0 <= loc < 65536 -> 0 <= on < 256 -> 0 <= off < 256 -> 0 <= onl < 65536 -> 0 <= offl < 65536 ->
  let m' := fill_struct arg loc on off onl offl m in
  unchanged (in_range arg 16) m m' /\
  exists c s, node m' arg = mkBlink loc on off onl offl c s.
Proof using Type.
  intros H1 H2 H3 H4 H5 m'. unfold m', fill_struct. split.
  - unfold ON_CHAR, OFF_CHAR, ON_LENGTH, OFF_LENGTH, LOCATION.
    do 3 (eapply unchanged_trans; [|apply unchanged_store16; unfold in_range; lia]).
    eapply unchanged_trans; apply unchanged_store8; unfold in_range; lia.
  - do 2 eexists. fields. rewrite (load8_store8_ne _ (arg + 3) off (arg + 2)), !load8_store8_eq by lia.
    rewrite !u16_small, !u8_small by assumption. reflexivity.
Qed.

(** What an add may write. *)
Definition add_frame (a : Z) : Prop :=
  in_range (blink_array d) (STRUCT_SIZE * NODES) a \/ in_range (mp1_list_head d) 4 a \/ in_range (fi_tmp d) 16 a \/
  in_range VIDEO (2 * NODES) a.

(** An add of the structure at [arg]. *)
Lemma add_struct_spec ps m0 B loc on off onl offl c s :
  board_at ps m0 B -> node m0 arg = mkBlink loc on off onl offl c s -> 0 < loc < 65536 -> 0 <= on < 256 -> 0 <= onl < 65536 ->
  let '(v, B') := board_serve (Add loc on off onl offl) B in
  exists ps' m', mp1_ioctl_add d dir arg m0 = Some (v, m') /\ board_at ps' m' B' /\ unchanged add_frame m0 m'.
Proof using FL.
  intros B0 N0 H1 H2 H4. cbn [board_serve].
  destruct (memcpy_node (fi_tmp d) arg m0) as [U1 N1]; [apply FL|]. rewrite N0 in N1.
  unfold mp1_ioctl_add. set (m1 := ece391_memcpy (fi_tmp d) arg STRUCT_SIZE m0) in *. clearbody m1.
  assert (B1 : board_at ps m1 B) by (eapply board_program; [exact B0|exact U1|apply FL..]).
  assert (W : forall m m', unchanged (in_range (fi_tmp d) 16) m m' -> unchanged add_frame m m')
    by (intros m m'; apply unchanged_weaken; unfold add_frame; tauto).
  apply W in U1. change (load16 m1 (fi_tmp d + LOCATION)) with (b_loc (node m1 (fi_tmp d))). rewrite N1. cbn [b_loc].
  destruct (Z.leb_spec NODES loc) as [Hge|Hlt]; [rewrite decide_False by lia; by exists ps, m1|].
  set (m2 := store16 (store16 m1 (fi_tmp d + STATUS) 1) (fi_tmp d + COUNTDOWN) _).
  assert (N2 : node m2 (fi_tmp d) = mkBlink loc on off onl offl onl 1).
  { revert N1. unfold m2. fields. intros [= -> -> -> -> -> _ _]. by rewrite !u16_small by lia. }
  assert (U2 : unchanged (in_range (fi_tmp d) 16) m1 m2).
  { unfold m2. eapply unchanged_trans; apply unchanged_store16; unfold in_range, STATUS, COUNTDOWN; lia. }
  clearbody m2. assert (B2 : board_at ps m2 B) by (eapply board_program; [exact B1|exact U2|apply FL..]).
  apply W in U2. pose proof (unchanged_trans _ _ _ _ U1 U2) as U12.
  pose proof (malloc_board ps m2 B B2) as M. destruct (decide (Z.of_nat (length (nodes B)) < NODES)) as [Hlen|Hlen].
  2: { rewrite M. rewrite decide_False by lia. by exists ps, m2. }
  destruct M as [Sp Hn]. set (p := mp1_malloc d m2) in *. clearbody p. pose proof (slot_range p Sp) as Rp.
  rewrite decide_True by lia. replace (p =? 0) with false by (unfold PROG_LO in Rp; lia).
  destruct (memcpy_node p (fi_tmp d) m2) as [U3 N3]; [pose proof (fl_array_tmp _ _ _ _ FL) as D; clear - D Rp; rlia|].
  rewrite N2 in N3. set (m3 := ece391_memcpy p (fi_tmp d) STRUCT_SIZE m2) in *. clearbody m3.
  destruct (push_spec ps m2 m3 B p B2 Sp Hn U3) as [N4 B4]; [rewrite N3; cbn; lia|].
  assert (U4 : unchanged add_frame m2 (store32 (store32 m3 (p + NEXT) (load32 m3 (mp1_list_head d))) (mp1_list_head d) p)).
  { eapply unchanged_trans; [eapply unchanged_weaken; [|exact U3]; intros a Ha; left; clear - Ha Rp; rlia|].
    eapply unchanged_trans; apply unchanged_store32; intros a Ha; [left|right; by left]. clear - Ha Rp. rlia. }
  set (m4 := store32 _ (mp1_list_head d) p) in *. rewrite N3 in N4, B4.
  change (load16 m4 (p + LOCATION)) with (b_loc (node m4 p)). change (load8 m4 (p + ON_CHAR)) with (b_on (node m4 p)). rewrite N4.
  cbn [b_loc b_on]. destruct (poke_spec _ m4 _ loc on B4 ltac:(lia) H2) as [-> B5]. cbn [mbind option_bind].
  do 2 eexists. split; [done|]. split; [exact B5|]. eapply unchanged_trans; [exact U12|]. eapply unchanged_trans; [exact U4|].
  apply unchanged_store8. right. right. right. clear - H1 Hlt. rlia.
Qed.

Lemma add_spec ps m B loc on off onl offl :
  board_at ps m B -> 0 < loc < 65536 -> 0 <= on < 256 -> 0 <= off < 256 -> 0 <= onl < 65536 -> 0 <= offl < 65536 ->
  let '(v, B') := board_serve (Add loc on off onl offl) B in
  exists ps' m', mp1_ioctl_add d dir arg (fill_struct arg loc on off onl offl m) = Some (v, m') /\ board_at ps' m' B'.
Proof using FL.
  intros HB H1 H2 H3 H4 H5.
  destruct (fill_spec loc on off onl offl m ltac:(lia) H2 H3 H4 H5) as (U0 & c & s & N0).
  assert (B0 : board_at ps (fill_struct arg loc on off onl offl m) B) by (eapply board_program; [exact HB|exact U0|apply FL..]).
  pose proof (add_struct_spec ps _ B loc on off onl offl c s B0 N0 H1 H2 H4) as K.
  destruct (board_serve _ B) as [v B']. destruct K as (ps' & m' & E & K & _). eauto.
Qed.

(** ** Sequences of requests *)

Definition request_ok (r : request) : Prop :=
  match r with
  | Add loc on off onl offl =>
      0 < loc < 65536 /\ 0 <= on < 256 /\ 0 <= off < 256 /\ 0 <= onl < 65536 /\ 0 <= offl < 65536
  | Remove loc => 0 <= loc < 65536
  | Sync from to => 0 <= from < 65536 /\ 0 <= to < 65536
  | Tick => True
  end.

(** Memory and board agree for some arrangement of the nodes. *)
Definition shows_board (m : mem) (B : board) : Prop := exists ps, board_at ps m B.

Lemma board_short ps m B : board_at ps m B -> Z.of_nat (length ps) <= NODES.
Proof using Type.
  intros HB. destruct slots_nodup as [_ <-]. apply inj_le, submseteq_length, NoDup_submseteq; [apply HB|].
  intros p Hp. by apply elem_of_slots, (ba_slots _ _ _ HB).
Qed.

Lemma serve_spec fuel r m B :
  (2000 < fuel)%nat -> shows_board m B -> request_ok r ->
  let '(v, B') := board_serve r B in
  exists m', serve d dir arg fuel r m = Some (v, m') /\ shows_board m' B'.
Proof using FL.
  intros Hf [ps HB] Hr. pose proof (board_short ps m B HB) as Hs. unfold NODES in Hs.
  assert (Hlen : (length ps < fuel)%nat) by lia. destruct r as [loc on off onl offl|loc|from to|].
  - destruct Hr as (R1 & R2 & R3 & R4 & R5). pose proof (add_spec ps m B loc on off onl offl HB R1 R2 R3 R4 R5) as K.
    destruct (board_serve _ B) as [v B']. destruct K as (ps' & m' & E & K). exists m'. split; [exact E|by exists ps'].
  - pose proof (remove_spec fuel ps m B loc HB Hr Hlen) as K. destruct (board_serve _ B) as [v B'].
    destruct K as (ps' & m' & E & K). exists m'. split; [exact E|by exists ps'].
  - destruct Hr as [R1 R2]. pose proof (sync_spec fuel ps m B from to HB R1 R2 Hlen) as K. destruct (board_serve _ B) as [v B'].
    destruct K as (m' & E & K). exists m'. split; [exact E|by exists ps].
  - cbn [board_serve]. destruct B as [L scr].
    destruct (tasklet_loop_spec ps ps fuel [] (load32 m (mp1_list_head d)) m [] L scr eq_refl HB eq_refl
      (ba_chain _ _ _ HB) Hlen) as (m' & E & K).
    cbn [nodes screen]. cbn [app] in K. destruct (tick_all L scr) as [l scr']. exists m'. unfold serve, mp1_rtc_tasklet. rewrite E.
    split; [done|by exists ps].
Qed.

Lemma run_spec fuel rs : forall m B,
  (2000 < fuel)%nat -> shows_board m B -> Forall request_ok rs ->
  let '(vs, B') := board_run rs B in
  exists m', run d dir arg fuel rs m = Some (vs, m') /\ shows_board m' B'.
Proof using FL.
  induction rs as [|r rs IH]; intros m B Hf HB Hr; cbn [board_run run]; [by exists m|].
  inversion_clear Hr as [|? ? Hr1 Hrs]. pose proof (serve_spec fuel r m B Hf HB Hr1) as K.
  destruct (board_serve r B) as [v B1]. destruct K as (m1 & E1 & K1). specialize (IH m1 B1 Hf K1 Hrs).
  destruct (board_run rs B1) as [vs B2]. destruct IH as (m2 & E2 & K2). exists m2. split; [|exact K2].
  rewrite E1. cbn [mbind option_bind]. by rewrite E2.
Qed.

(** ** The start *)

(** The array cleared, the head null, the video page mapped. *)
Lemma start_board m :
  load32 m (mp1_list_head d) = 0 -> load32 m (vmem_base_addr d) = 0x84B8000 -> vidmap_ready dir t m ->
  board_at [] (ece391_memset (blink_array d) 0 (STRUCT_SIZE * NODES) m)
    (mkBoard [] (fun k => load8 m (VIDEO + 2 * k))).
Proof using FL.
  intros Hh Hv (T1 & T2 & T3). destruct (memset_zero (blink_array d) (STRUCT_SIZE * NODES) m) as [U C]; [rlia|].
  set (m' := ece391_memset _ _ _ m) in *. clearbody m'. pose proof (fl_array _ _ _ _ FL) as [La _].
  assert (W : forall a, disj (blink_array d) (STRUCT_SIZE * NODES) a 4 \/ a + 4 <= PROG_LO -> load32 m' a = load32 m a).
  { intros a Ha. eapply unchanged_load32; [exact U|]. intros b Hb Hc. clear - Ha Hb Hc La. rlia. }
  split; cbn [nodes screen].
  - rewrite W by (left; apply FL). exact Hh.
  - constructor.
  - intros p Hp. by apply elem_of_nil in Hp.
  - intros p (i & Hi & ->) _. unfold node, b_loc, load16, LOCATION.
    pose proof (C (STRUCT_SIZE * i) ltac:(rlia)) as C0. pose proof (C (STRUCT_SIZE * i + 1) ltac:(rlia)) as C1.
    rewrite Z.add_0_r. rewrite C0. replace (blink_array d + STRUCT_SIZE * i + 1) with (blink_array d + (STRUCT_SIZE * i + 1)) by lia.
    by rewrite C1.
  - intros p Hp. by apply elem_of_nil in Hp.
  - done.
  - intros k Hk. eapply unchanged_load8; [exact U|]. intros Hc. clear - La Hk Hc. rlia.
  - rewrite W by (left; apply FL). exact Hv.
  - pose proof (fl_dir _ _ _ _ FL) as [Hd _]. split; [exact T1|]. rewrite !W by (right; first [exact Hd|clear - T1; rlia]). done.
Qed.

(** ** A node at the first place

    The array has the same mark for a free node and for one at place 0. *)

(** Writes off the variable and the tables keep the mapping. *)
Lemma mapped_unchanged P m m' :
  mapped m -> unchanged P m m' -> (forall a, in_range (vmem_base_addr d) 4 a -> ~ P a) ->
  (forall a, a < PROG_LO -> P a -> in_range VIDEO (2 * NODES) a) -> mapped m'.
Proof using FL.
  intros [Hv (T1 & T2 & T3)] U O1 O2. pose proof (fl_dir _ _ _ _ FL) as [Hd Hd2]. pose proof (fl_table _ _ _ _ FL) as Ht.
  split; [by rewrite (unchanged_load32 P m m')|]. split; [exact T1|].
  rewrite !(unchanged_load32 P m m') by (first [exact U|intros b Hb Hp; apply O2 in Hp; clear - Hb Hp Hd Hd2 Ht T1; rlia]). done.
Qed.

(** The first node of the array. *)
Let A := blink_array d.

Lemma first_slot : is_slot A.
Proof using Type. exists 0. split; [unfold NODES; lia|unfold A, STRUCT_SIZE; lia]. Qed.

Lemma mapped_first m m' : mapped m -> unchanged (in_range A 16) m m' -> mapped m'.
Proof using FL.
  intros Hm U. pose proof (slot_range A first_slot) as RA. pose proof (fl_array_vmem _ _ _ _ FL) as D.
  eapply mapped_unchanged; [exact Hm|exact U| |]; [intros a Ha Hp|intros a Ha Hp]; clear - D RA Ha Hp; rlia.
Qed.

Lemma poke_mapped m loc c : mapped m -> 0 <= loc < NODES -> mapped (store8 m (VIDEO + 2 * loc) c) /\
  node (store8 m (VIDEO + 2 * loc) c) A = node m A /\ next (store8 m (VIDEO + 2 * loc) c) A = next m A.
Proof using FL.
  intros Hm Hl. assert (U : unchanged (in_range (VIDEO + 2 * loc) 1) m (store8 m (VIDEO + 2 * loc) c))
    by (apply unchanged_store8; unfold in_range; lia).
  pose proof (fl_vmem _ _ _ _ FL) as [D _]. pose proof (slot_range A first_slot) as RA. split.
  - eapply mapped_unchanged; [exact Hm|exact U| |]; intros a Ha Hp; clear - D Ha Hp Hl; rlia.
  - eapply node_unchanged; [exact U|]. intros b Hb Hp. clear - RA Hl Hb Hp. rlia.
Qed.

(** A node that is its own successor: the tasklet never leaves it. *)
Lemma tasklet_forever fuel : forall m,
  mapped m -> next m A = A -> b_loc (node m A) < NODES -> tasklet_loop d dir fuel A m = None.
Proof using FL.
  induction fuel as [|f IH]; intros m Hm Hn Hl; [done|]. cbn [tasklet_loop]. pose proof (slot_range A first_slot) as RA.
  replace (A =? 0) with false by (clear - RA; unfold PROG_LO in RA; lia).
  set (m1 := store16 m (A + COUNTDOWN) _).
  assert (U1 : unchanged (in_range A 16) m m1) by (apply unchanged_store16; unfold in_range, COUNTDOWN; lia).
  assert (E1 : next m1 A = A /\ b_loc (node m1 A) < NODES).
  { split; [rewrite <- Hn at 2|revert Hl]; unfold m1; fields; done. }
  apply (mapped_first _ _ Hm) in U1. destruct E1 as [E1 E2]. clearbody m1. clear m Hm Hn Hl.
  destruct (0 <? _); cbn [mbind option_bind]; [change (load32 m1 (A + NEXT)) with (next m1 A); rewrite E1; by apply IH|].
  unfold tasklet_blink. change (load16 m1 (A + LOCATION)) with (b_loc (node m1 A)).
  assert (Hl : 0 <= b_loc (node m1 A) < NODES) by (split; [apply load16_range|exact E2]).
  rewrite (poke_eq m1 _ _ U1 Hl). cbn [mbind option_bind].
  match goal with |- context [store8 m1 (VIDEO + 2 * b_loc (node m1 A)) ?c] =>
    destruct (poke_mapped m1 _ c U1 Hl) as (M2 & N2 & X2); set (m2 := store8 m1 (VIDEO + 2 * b_loc (node m1 A)) c) in * end.
  set (m3 := store16 (store16 m2 (A + COUNTDOWN) _) (A + STATUS) _).
  assert (U3 : unchanged (in_range A 16) m2 m3)
    by (unfold m3; eapply unchanged_trans; apply unchanged_store16; unfold in_range, COUNTDOWN, STATUS; lia).
  assert (E3 : next m3 A = next m2 A /\ b_loc (node m3 A) = b_loc (node m2 A)) by (unfold m3; fields; done).
  destruct E3 as [E3 E4]. change (load32 m3 (A + NEXT)) with (next m3 A). rewrite E3, X2, E1.
  apply IH; [by eapply mapped_first|congruence|rewrite E4, N2; exact E2].
Qed.

Lemma malloc_first n m : b_loc (node m A) = 0 -> malloc_loop d (S n) 0 m = A.
Proof using Type.
  intros H0. cbn [malloc_loop]. replace (blink_array d + STRUCT_SIZE * 0) with A by (unfold A; lia).
  change (load16 m (A + LOCATION)) with (b_loc (node m A)). by rewrite H0.
Qed.

(** An add while the first node looks free puts it at the head. *)
Lemma add_first loc on off onl offl m :
  mapped m -> b_loc (node m A) = 0 -> 0 <= loc < NODES -> 0 <= on < 256 -> 0 <= off < 256 -> 0 <= onl < 65536 -> 0 <= offl < 65536 ->
  exists m', mp1_ioctl_add d dir arg (fill_struct arg loc on off onl offl m) = Some (0, m') /\
    b_loc (node m' A) = loc /\ next m' A = load32 m (mp1_list_head d) /\ load32 m' (mp1_list_head d) = A /\ mapped m'.
Proof using FL.
  intros Hm H0 H1 H2 H3 H4 H5. pose proof (slot_range A first_slot) as RA. pose proof (fl_array _ _ _ _ FL) as [_ La].
  pose proof (fl_array_tmp _ _ _ _ FL) as Dt. pose proof (fl_array_arg _ _ _ _ FL) as Da. pose proof (fl_array_head _ _ _ _ FL) as Dh.
  assert (Hloc : 0 <= loc < 65536) by (unfold NODES in H1; lia).
  destruct (fill_spec loc on off onl offl m Hloc H2 H3 H4 H5) as (U0 & c & s & N0). set (m0 := fill_struct _ _ _ _ _ _ m) in *.
  clearbody m0. destruct (memcpy_node (fi_tmp d) arg m0) as [U1 N1]; [apply FL|]. rewrite N0 in N1.
  unfold mp1_ioctl_add. set (m1 := ece391_memcpy (fi_tmp d) arg STRUCT_SIZE m0) in *. clearbody m1.
  change (load16 m1 (fi_tmp d + LOCATION)) with (b_loc (node m1 (fi_tmp d))). rewrite N1. cbn [b_loc].
  replace (NODES <=? loc) with false by lia.
  set (m2 := store16 (store16 m1 (fi_tmp d + STATUS) 1) (fi_tmp d + COUNTDOWN) _).
  assert (N2 : b_loc (node m2 (fi_tmp d)) = loc).
  { transitivity (b_loc (node m1 (fi_tmp d))); [|by rewrite N1]. unfold m2. fields. done. }
  assert (U2 : unchanged (in_range (fi_tmp d) 16) m1 m2).
  { unfold m2. eapply unchanged_trans; apply unchanged_store16; unfold in_range, STATUS, COUNTDOWN; lia. }
  clearbody m2. set (Q := fun a => in_range arg 16 a \/ in_range (fi_tmp d) 16 a).
  assert (U : unchanged Q m m2).
  { eapply unchanged_trans; [eapply unchanged_weaken; [|exact U0]; by left|].
    eapply unchanged_trans; (eapply unchanged_weaken; [|eassumption]); by right. }
  assert (Hm2 : mapped m2).
  { pose proof (fl_vmem_arg _ _ _ _ FL). pose proof (fl_vmem_tmp _ _ _ _ FL). pose proof (fl_arg _ _ _ _ FL). pose proof (fl_tmp _ _ _ _ FL).
    eapply (mapped_unchanged Q); [exact Hm|exact U| |]; intros a Ha [Hp|Hp]; rlia. }
  destruct (node_unchanged Q m m2 A U) as [NA _]; [intros b Hb [Hp|Hp]; clear - RA Dt Da Hb Hp; rlia|].
  assert (EM : mp1_malloc d m2 = A).
  { unfold mp1_malloc. change (Z.to_nat NODES) with (S 1999). apply malloc_first. by rewrite NA. }
  rewrite EM. replace (A =? 0) with false by (clear - RA; unfold PROG_LO in RA; lia).
  destruct (memcpy_node A (fi_tmp d) m2) as [U3 N3]; [clear - Dt RA; rlia|].
  set (m3 := ece391_memcpy A (fi_tmp d) STRUCT_SIZE m2) in *. clearbody m3.
  assert (Eh : load32 m3 (mp1_list_head d) = load32 m (mp1_list_head d)).
  { rewrite (unchanged_load32 _ m2 m3 _ U3) by (intros b Hb Hp; clear - Dh RA Hb Hp; rlia).
    pose proof (fl_head_arg _ _ _ _ FL). pose proof (fl_head_tmp _ _ _ _ FL).
    apply (unchanged_load32 Q m m2 _ U). intros b Hb [Hp|Hp]; rlia. }
  rewrite Eh. set (m4 := store32 m3 (A + NEXT) _). set (m5 := store32 m4 (mp1_list_head d) A).
  assert (N5 : b_loc (node m5 A) = loc /\ next m5 A = load32 m (mp1_list_head d) /\ load32 m5 (mp1_list_head d) = A).
  { split; [|split].
    - unfold m5, m4. rewrite !node_store_next by (clear - Dh RA; rlia). by rewrite N3.
    - unfold next, m5, m4. rewrite load32_store32_ne by (clear - Dh RA; rlia).
      rewrite load32_store32_eq. apply u32_small, load32_range.
    - unfold m5. rewrite load32_store32_eq. apply u32_small. clear - RA La. rlia. }
  assert (M5 : mapped m5).
  { apply (mapped_first _ _ Hm2) in U3. pose proof (fl_head_vmem _ _ _ _ FL). pose proof (fl_head _ _ _ _ FL).
    pose proof (fl_array_vmem _ _ _ _ FL).
    apply (mapped_unchanged (in_range (mp1_list_head d) 4) m4); [|by apply unchanged_store32|intros a Ha Hp; rlia..].
    eapply mapped_first; [exact U3|]. apply unchanged_store32. unfold in_range, NEXT. lia. }
  clearbody m5. destruct N5 as (L5 & X5 & H5'). change (load16 m5 (A + LOCATION)) with (b_loc (node m5 A)). rewrite L5.
  rewrite (poke_eq m5 _ _ M5 H1). cbn [mbind option_bind].
  match goal with |- context [store8 m5 _ ?c] => destruct (poke_mapped m5 loc c M5 H1) as (M6 & N6 & X6);
    set (m6 := store8 m5 (VIDEO + 2 * loc) c) in * end.
  exists m6. split; [done|]. split; [congruence|]. split; [congruence|]. split; [|exact M6]. rewrite <- H5'.
  pose proof (fl_head _ _ _ _ FL) as [Lh _]. unfold load32, m6. rewrite !load8_store8_ne by (clear - Lh H1; rlia). done.
Qed.
End Board.

(** ** Theorems *)

(** C12 The list of blinking characters in memory is a refinement of a list of nodes and a
    screen.  From the cleared array on, whatever requests a program makes (add, at a place
    other than the first; remove; bring in step; clock ticks), every request ends, returns
    what the abstract operation returns (-1 for a place off the screen, a full array or a
    node that is not there), and leaves the chain through the array, the free nodes and the
    video memory as the abstract board says: nothing is lost, no node is used twice, and only
    the cells of the nodes change on the screen. *)
Theorem blink_refines d dir t arg fuel rs m :
  fish_layout d dir t arg -> load32 m (mp1_list_head d) = 0 -> load32 m (vmem_base_addr d) = 0x84B8000 ->
  vidmap_ready dir t m -> Forall request_ok rs -> (2000 < fuel)%nat ->
  let m0 := ece391_memset (blink_array d) 0 (STRUCT_SIZE * NODES) m in
  let '(vs, B) := board_run rs (mkBoard [] (fun k => load8 m (VIDEO + 2 * k))) in
  exists m', run d dir arg fuel rs m0 = Some (vs, m') /\ shows_board d dir t m' B.
Proof.
  intros FL Hh Hv Hm Hr Hf m0. apply (run_spec d dir t arg FL); [exact Hf| |exact Hr].
  exists []. by apply (start_board d dir t arg FL).
Qed.

(** Program variables in the page, the page tables of [init_paging] at 1 MB. *)
Definition test_fish : fish_data := mkFish 0x8050000 0x8060000 0x8060010 0x8060020 0x8060040.
Definition test_fish_mem : mem :=
  store32 (store32 (store32 (Mem ∅ ∅ 0) (0x100000 + 4 * USER_VMEM) (4096 * 0x102 + 7)) (4096 * 0x102 + 4 * 0xB8) 0xB8007)
    0x8060010 0x84B8000.

Lemma test_fish_layout : fish_layout test_fish 0x100000 0x102 0x8060060.
Proof.
  split; unfold disj, STRUCT_SIZE, NODES, PROG_LO, PROG_HI, USER_VMEM, VIDEO;
    cbn [blink_array mp1_list_head vmem_base_addr fi_tmp fi_key test_fish]; lia.
Qed.

(** Two characters, one brought in step with the other, a tick, and the other removed. *)
Definition test_requests : list request := [Add 500 73 77 7 6; Add 40 47 92 2 3; Sync 500 40; Tick; Remove 500; Remove 500].

Lemma blink_refines_witness :
  exists m', run test_fish 0x100000 0x8060060 2001 test_requests
    (ece391_memset (blink_array test_fish) 0 (STRUCT_SIZE * NODES) test_fish_mem) = Some ([0; 0; 0; 0; 0; -1], m') /\
  exists scr, shows_board test_fish 0x100000 0x102 m' (mkBoard [mkBlink 40 47 92 7 6 6 1] scr) /\ scr 40 = 92.
Proof.
  pose proof (blink_refines test_fish 0x100000 0x102 0x8060060 2001 test_requests test_fish_mem test_fish_layout
    ltac:(vm_compute; reflexivity) ltac:(vm_compute; reflexivity)
    ltac:(split; [lia|split; vm_compute; reflexivity]) ltac:(repeat constructor; cbn; lia) ltac:(lia)) as R.
  cbn zeta in R.
  assert (E : exists scr, board_run test_requests (mkBoard [] (fun k => load8 test_fish_mem (VIDEO + 2 * k))) =
    ([0; 0; 0; 0; 0; -1], mkBoard [mkBlink 40 47 92 7 6 6 1] scr) /\ scr 40 = 92).
  { eexists. split; [cbn; reflexivity|vm_compute; reflexivity]. }
  destruct E as (scr & E & E40). rewrite E in R. destruct R as (m' & E' & S').
  exists m'. split; [exact E'|]. exists scr. split; [exact S'|exact E40].
Defined.

(** A node added at place 0, which passes the check of the place, is taken for a free
    node: the next add uses it again and makes it its own successor, and from then on the
    clock tasklet of the program never ends. *)
Theorem blink_place_zero_loops d dir t arg on off onl offl loc m :
  fish_layout d dir t arg -> load32 m (vmem_base_addr d) = 0x84B8000 -> vidmap_ready dir t m ->
  0 <= loc < NODES -> 0 <= on < 256 -> 0 <= off < 256 -> 0 <= onl < 65536 -> 0 <= offl < 65536 ->
  let m0 := ece391_memset (blink_array d) 0 (STRUCT_SIZE * NODES) m in
  exists m', run d dir arg 1 [Add 0 on off onl offl; Add loc on off onl offl] m0 = Some ([0; 0], m') /\
    forall fuel, mp1_rtc_tasklet d dir fuel m' = None.
Proof.
  intros FL Hv Hm Hl H1 H2 H3 H4 m0. destruct (memset_zero (blink_array d) (STRUCT_SIZE * NODES) m) as [U C]; [done|].
  fold m0 in U, C. assert (M0 : mapped d dir t m0).
  { pose proof (fl_array _ _ _ _ FL) as [La _]. pose proof (fl_array_vmem _ _ _ _ FL) as D.
    eapply (mapped_unchanged d dir t arg FL); [by split|exact U| |]; unfold disj, in_range, PROG_LO, VIDEO in *; intros a Ha; lia. }
  assert (Z0 : b_loc (node m0 (blink_array d)) = 0).
  { unfold node, b_loc, load16, LOCATION. pose proof (C 0 ltac:(unfold STRUCT_SIZE, NODES; lia)) as C0.
    pose proof (C 1 ltac:(unfold STRUCT_SIZE, NODES; lia)) as C1. rewrite !Z.add_0_r in *. by rewrite C0, C1. }
  clearbody m0.
  destruct (add_first d dir t arg FL 0 on off onl offl m0 M0 Z0 ltac:(unfold NODES; lia) H1 H2 H3 H4) as (m1 & E1 & L1 & X1 & T1 & M1).
  destruct (add_first d dir t arg FL loc on off onl offl m1 M1 L1 Hl H1 H2 H3 H4) as (m2 & E2 & L2 & X2 & T2 & M2).
  exists m2. split.
  - cbn [run serve]. change (mp1_ioctl d dir 1 arg RTC_ADD) with (mp1_ioctl_add d dir arg). rewrite E1. cbn [mbind option_bind].
    by rewrite E2.
  - intros fuel. unfold mp1_rtc_tasklet. rewrite T2. apply (tasklet_forever d dir t arg FL); [exact M2|congruence|lia].
Qed.

Lemma blink_place_zero_loops_witness :
  exists m', run test_fish 0x100000 0x8060060 1 [Add 0 73 77 7 6; Add 40 73 77 7 6]
    (ece391_memset (blink_array test_fish) 0 (STRUCT_SIZE * NODES) test_fish_mem) = Some ([0; 0], m') /\
    mp1_rtc_tasklet test_fish 0x100000 5000 m' = None.
Proof.
  destruct (blink_place_zero_loops test_fish 0x100000 0x102 0x8060060 73 77 7 6 40 test_fish_mem test_fish_layout
    ltac:(vm_compute; reflexivity) ltac:(split; [lia|split; vm_compute; reflexivity]) ltac:(unfold NODES; lia)
    ltac:(lia) ltac:(lia) ltac:(lia) ltac:(lia)) as (m' & E & Hn).
  exists m'. split; [exact E|apply Hn].
Defined.
