(* ===== verification/Pingpong.v ===== *)
(** * The program pingpong, src/syscalls/ece391pingpong.c

    A letter runs from one wall to the other and back, a picture of one row per tick of the
    clock, and the next letter follows.  The loop of [main] never ends: the theorem is about
    every number of rounds of it. *)

From S2P Require Import Prelude Mem CString MemOps State Console I8259 Pcb Rtc Filesys FilesysRead FilesysDir Keyboard Terminal Paging Syscalls Process Exec Trap Support FileCalls UserCalls Programs Output Typing.

(** ** The program *)

Definition SCREENWIDTH : Z := 79.
Definition ENDING : Z := 2.
Definition BUFMAX : Z := SCREENWIDTH + ENDING.
Definition START : Z := 1.
Definition STARTLOOP : Z := START + 1.
Definition LOOPMAX : Z := BUFMAX - ENDING - 1.
Definition STARTCHAR : Z := 65.
Definition ENDCHAR : Z := 90.

(** The addresses of the literal and of the variables whose address is taken. *)
Record pong_data := mkPong {
  pp_buf : Z;            (* uint8_t buf[BUFMAX] *)
  pp_rtc : Z;            (* rtc *)
  pp_ret : Z;            (* int ret_val *)
  pp_garbage : Z         (* int garbage *)
}.

Section Program.
Context `{Ports} `{Layout} `{Traps} (d : pong_data).

(** [for (i = lo; i < hi; i++) buf[i] = ' ';] *)
Definition clear_buf (lo hi : Z) (m : mem) : mem := for_range lo hi (fun i m => store8 m (pp_buf d + i) 32) m.

Definition walls (m : mem) : mem :=
  let m := store8 m (pp_buf d + (BUFMAX - 1)) 0 in
  let m := store8 m (pp_buf d + (BUFMAX - 2)) 10 in
  let m := store8 m (pp_buf d + (BUFMAX - 3)) 124 in
  store8 m (pp_buf d + START) 124.

(** The body of both loops. *)
Definition draw_row (rtc_fd curchar j : Z) (s : kst) : option kst :=
  let s := upd_mem (clear_buf STARTLOOP LOOPMAX) s in
  let s := upd_mem (fun m => store8 m (pp_buf d + j) curchar) s in
  s ← ece391_fdputs 1 (pp_buf d) s;
  '(_, s) ← ece391_read rtc_fd (pp_garbage d) 4 s;
  Some s.

Fixpoint move_out (n : nat) (rtc_fd curchar j : Z) (s : kst) : option kst :=
  match n with
  | O => None
  | S n' =>
      if j <? LOOPMAX then (s ← draw_row rtc_fd curchar j s; move_out n' rtc_fd curchar (j + 1) s) else Some s
  end.

Fixpoint bounce_back (n : nat) (rtc_fd curchar j : Z) (s : kst) : option kst :=
  match n with
  | O => None
  | S n' =>
      if STARTLOOP <=? j then (s ← draw_row rtc_fd curchar j s; bounce_back n' rtc_fd curchar (j - 1) s) else Some s
  end.

(** [curchar] is a [uint8_t], [update] is 1. *)
Definition next_letter (curchar : Z) : Z := if curchar =? ENDCHAR then STARTCHAR else u8 (curchar + 1).

(** [k] turns of the endless loop; both inner loops end within [BUFMAX] turns. *)
Fixpoint rounds (k : nat) (rtc_fd curchar : Z) (s : kst) : option kst :=
  match k with
  | O => Some s
  | S k' =>
      s ← move_out (Z.to_nat BUFMAX) rtc_fd curchar STARTLOOP s;
      s ← bounce_back (Z.to_nat BUFMAX) rtc_fd curchar (LOOPMAX - 1) s;
      rounds k' rtc_fd (next_letter curchar) s
  end.

(** [main] up to the end of round [k]. *)
Definition pingpong_main (k : nat) (s : kst) : option kst :=
  let s := upd_mem (clear_buf 0 BUFMAX) s in
  let s := upd_mem walls s in
  '(rtc_fd, s) ← ece391_open (pp_rtc d) s;
  let s := upd_mem (fun m => store32 m (pp_ret d) 32) s in
  '(ret_val, s) ← ece391_write rtc_fd (pp_ret d) 4 s;
  let s := upd_mem (fun m => store32 m (pp_ret d) ret_val) s in
  rounds k rtc_fd STARTCHAR s.
End Program.

(** ** The pictures *)

(** Column [i] of the row with the letter [c] in column [j]. *)
Definition column (c j i : Z) : Z :=
  if i =? j then c else if (i =? 1) || (i =? 78) then 124 else if i =? 79 then 10 else 32.

Definition court (c j : Z) : list Z := column c j <$> zseq 0 80.

(** The columns a letter runs through: 2 to 77 and back. *)
Definition path : list Z := zseq 2 76 ++ reverse (zseq 2 76).

Definition letter (i : nat) : Z := 65 + Z.of_nat i mod 26.

Definition game (k : nat) : list Z := concat ((fun i => concat (court (letter i) <$> path)) <$> seq 0 k).

Lemma court_clean c j : 0 < c < 256 -> c <> 9 -> clean (court c j).
Proof.
  intros Hc H9. split; [|unfold court; rewrite length_fmap, length_zseq; lia].
  apply Forall_fmap, Forall_forall. intros i _. cbn. unfold column. repeat split_if; lia.
Qed.

Lemma next_letter_step i : next_letter (letter i) = letter (S i).
Proof.
  unfold next_letter, letter, ENDCHAR, STARTCHAR, u8. pose proof (Z.mod_pos_bound (Z.of_nat i) 26 ltac:(lia)).
  destruct (Z.eqb_spec (65 + Z.of_nat i mod 26) 90); [|rewrite Z.mod_small by lia]; zdm.
Qed.

Lemma letter_range i : 65 <= letter i <= 90.
Proof. unfold letter. pose proof (Z.mod_pos_bound (Z.of_nat i) 26 ltac:(lia)). lia. Qed.

(** ** The buffer *)

Section Buffer.
Context (d : pong_data).

(** What the loops leave alone: the two walls and what is outside. *)
Definition border (m : mem) : Prop :=
  (forall i, 0 <= i < 2 \/ 78 <= i < 80 -> load8 m (pp_buf d + i) = column 32 2 i) /\ load8 m (pp_buf d + 80) = 0.

Lemma clear_buf_spec lo hi m :
  lo <= hi -> (forall i, lo <= i < hi -> load8 (clear_buf d lo hi m) (pp_buf d + i) = 32) /\
    unchanged (fun a => pp_buf d + lo <= a < pp_buf d + hi) m (clear_buf d lo hi m).
Proof.
  intros Hle. split.
  - unfold clear_buf. apply (for_range_ind (fun j m' => forall i, lo <= i < j -> load8 m' (pp_buf d + i) = 32)); [exact Hle|lia|].
    intros j m' Hj IH i Hi. rewrite load8_store8. destruct (Z.eqb_spec (pp_buf d + j) (pp_buf d + i)); [done|]. apply IH. lia.
  - apply unchanged_for_range. intros i m' Hi. apply unchanged_store8. lia.
Qed.

(** Before the loops. *)
Lemma walls_spec m :
  let m' := walls d (clear_buf d 0 BUFMAX m) in border m' /\ unchanged (in_range (pp_buf d) BUFMAX) m m'.
Proof.
  destruct (clear_buf_spec 0 BUFMAX m) as [Hb U]; [unfold BUFMAX, SCREENWIDTH, ENDING; lia|].
  unfold walls, BUFMAX, SCREENWIDTH, ENDING, START in *. cbv zeta. split; [split|].
  - intros i Hi. rewrite !load8_store8. unfold column.
    rewrite Hb by lia. repeat split_if; try done; lia.
  - by rewrite !load8_store8_ne, load8_store8_eq by lia.
  - do 4 (eapply unchanged_trans; [|apply unchanged_store8; unfold in_range; lia]).
    eapply unchanged_weaken; [|exact U]. unfold in_range. lia.
Qed.

(** A picture in the buffer. *)
Lemma picture_spec m c j :
  border m -> 2 <= j < 78 -> 0 <= c < 256 -> PROG_LO <= pp_buf d ->
  let m' := store8 (clear_buf d STARTLOOP LOOPMAX m) (pp_buf d + j) c in
  text_in m' (pp_buf d) (court c j) /\ border m' /\ unchanged (in_range (pp_buf d) BUFMAX) m m'.
Proof.
  intros [B B0] Hj Hc Hb. destruct (clear_buf_spec STARTLOOP LOOPMAX m) as [Hs U]; [by vm_compute|].
  unfold STARTLOOP, LOOPMAX, START, BUFMAX, SCREENWIDTH, ENDING in *. cbv zeta. set (m1 := clear_buf _ _ _ _) in *.
  assert (K : forall i, 0 <= i < 2 \/ 78 <= i -> load8 m1 (pp_buf d + i) = load8 m (pp_buf d + i)).
  { intros i Hi. eapply unchanged_load8; [exact U|]. cbn. lia. }
  split; [|split; [split|]].
  - split; [exact Hb|]. split; [|unfold court; rewrite length_fmap, length_zseq, load8_store8_ne by lia; by rewrite K by lia].
    unfold court, bytes. rewrite length_fmap, length_zseq. apply list_eq. intros k. destruct (decide (k < 80)%nat) as [Hk|Hk].
    + rewrite !list_lookup_fmap, !zseq_lookup by exact Hk. cbn. f_equal. rewrite load8_store8, Z.add_0_l. set (i := Z.of_nat k) in *.
      unfold column. destruct (Z.eqb_spec (pp_buf d + j) (pp_buf d + i)); [replace (i =? j) with true by lia; unfold u8; by rewrite Z.mod_small|].
      replace (i =? j) with false by lia. destruct (decide (2 <= i < 78)).
      * rewrite Hs by lia. zdecide. done.
      * rewrite K, B by lia. unfold column. repeat split_if; try done; lia.
    + rewrite !lookup_ge_None_2; [done|rewrite length_fmap, length_zseq; lia..].
  - intros i Hi. rewrite load8_store8_ne, K by lia. by apply B.
  - rewrite load8_store8_ne, K by lia. exact B0.
  - eapply unchanged_trans; [eapply unchanged_weaken; [|exact U]; unfold in_range; cbn; lia|].
    apply unchanged_store8. unfold in_range. lia.
Qed.
End Buffer.

(** ** Playing *)

Section Play.
Context `{Ports} `{Layout} `{Traps}.

(** A read of the clock returns when a tick arrives. *)
Lemma rtc_read_returns sched : forall s, true ∈ sched ->
  exists s', rtc_read sched s = Some (0, s') /\ same_process s s' /\ k_mem s' = k_mem s /\ k_con s' = k_con s.
Proof using Type.
  induction sched as [|t sched IH]; intros s Hin; [by apply not_elem_of_nil in Hin|]. cbn [rtc_read].
  destruct (negb _); [eexists; done|]. destruct t.
  - destruct sched; cbn [rtc_read]; (eexists; done).
  - apply elem_of_cons in Hin as [Hin|Hin]; [done|]. apply (IH (sti (cli s))), Hin.
Qed.

Context (d : pong_data) (pcb fd : Z).
Context (Hfd : 2 <= fd < 8) (Hbuf : PROG_LO <= pp_buf d) (Hpcb : pcb + PCB_SIZE <= PROG_LO).
Context (Hscr : rdisj screen_region (pcb_region pcb)) (Htick : forall s, true ∈ sc_ticks (arrivals s)).
Context (Hgar : pp_garbage d <> 0).

Record playing (s : kst) : Prop := {
  pl_pcb : cur_pcb s = pcb;
  pl_out : stdout_ok s;
  pl_open : fd_open fd s = true;
  pl_ops : fd_ops fd s = Some RtcOps;
  pl_border : border d (k_mem s)
}.

(** Memory that changes outside the control block. *)
Lemma clock_kept P s s' :
  cur_pcb s' = cur_pcb s -> unchanged P (k_mem s) (k_mem s') -> (forall a, in_region (fd_region (cur_pcb s) fd) a -> ~ P a) ->
  fd_open fd s' = fd_open fd s /\ fd_ops fd s' = fd_ops fd s.
Proof using Type.
  intros E U HP. unfold fd_open, fd_used, fd_ops. rewrite E.
  rewrite !(fd_get_unchanged P (k_mem s) (k_mem s')) by (first [exact U|exact HP|unfold FD_OPS, FD_FLAGS; lia]). done.
Qed.

Lemma read_clock s :
  fd_open fd s = true -> fd_ops fd s = Some RtcOps ->
  exists s', ece391_read fd (pp_garbage d) 4 s = Some (0, s') /\ same_process s s' /\ k_mem s' = k_mem s /\ k_con s' = k_con s.
Proof using Hfd Hgar Htick.
  intros Ho Hop. rewrite ece391_read_eq. unfold sys_read_c, FD_SIZE. zdecide.
  rewrite Ho, Hop. cbn [negb read_ptr]. apply rtc_read_returns, Htick.
Qed.

(** One picture. *)
Lemma draw_row_spec c j s :
  playing s -> 2 <= j < 78 -> 65 <= c <= 90 ->
  exists s', draw_row d fd c j s = Some s' /\ shown s' ≡ term_print (court c j) (shown s) /\ playing s'.
Proof using Hfd Hbuf Hpcb Hscr Hgar Htick.
  intros [P1 P2 P3 P4 P5] Hj Hc. unfold draw_row.
  destruct (picture_spec d (k_mem s) c j P5 Hj ltac:(lia) Hbuf) as (T & B & U). cbv zeta in T, B, U.
  change (upd_mem (fun m => store8 m (pp_buf d + j) c) (upd_mem (clear_buf d STARTLOOP LOOPMAX) s))
    with (set_k_mem (store8 (clear_buf d STARTLOOP LOOPMAX (k_mem s)) (pp_buf d + j) c) s).
  set (m1 := store8 _ _ _) in *.
  assert (Hoff : forall a, in_range (pp_buf d) BUFMAX a -> ~ screen_bytes a /\ forall k, 0 <= k < 8 -> ~ in_region (fd_region pcb k) a).
  { intros a Ha. unfold screen_bytes, in_region, in_range, fd_region, PCB_SIZE, VIDEO, NUM_ROWS, NUM_COLS, PROG_LO in *.
    cbn [fst snd] in *. split; [|intros k Hk]; lia. }
  set (s1 := set_k_mem m1 s).
  assert (So1 : stdout_ok s1).
  { eapply (stdout_ok_unchanged _ s); [exact P2|reflexivity|exact U|apply P2|]. rewrite P1. intros a Ha Hb.
    by apply (proj2 (Hoff a Hb) 1); [lia|]. }
  destruct (clock_kept _ s s1 eq_refl U) as [K1 K2].
  { rewrite P1. intros a Ha Hb. by apply (proj2 (Hoff a Hb) fd); [lia|]. }
  destruct (put_text (pp_buf d) (court c j) s1 So1) as (s2 & E2 & Sh2 & U2 & [Q1 Q2] & So2);
    [cbn; by rewrite P1|exact T|apply court_clean; lia|].
  rewrite E2. cbn [mbind option_bind]. destruct (clock_kept _ s1 s2 Q1 U2) as [K3 K4].
  { cbn. rewrite P1. intros a Ha Hb. unfold rdisj, disj, screen_region, screen_bytes, in_region, in_range, fd_region, pcb_region,
      PCB_SIZE, NUM_ROWS, NUM_COLS in *. cbn [fst snd] in *. lia. }
  destruct (read_clock s2) as (s3 & E3 & [R1 R2] & Em & Ec); [by rewrite K3, K1|by rewrite K4, K2|].
  rewrite E3. cbn [mbind option_bind]. exists s3. split; [done|].
  assert (U3 : unchanged (fun _ => False) (k_mem s2) (k_mem s3)) by (rewrite Em; apply unchanged_refl).
  destruct (clock_kept _ s2 s3 R1 U3) as [K5 K6]; [tauto|].
  split; [|split; [by rewrite R1, Q1| |by rewrite K5, K3, K1|by rewrite K6, K4, K2|]].
  - transitivity (shown s2); [split; [cbn; by rewrite Ec|]; split; [cbn; by rewrite Ec|cbn; by rewrite Em]|].
    rewrite Sh2. apply term_print_proper. eapply shown_off_screen; [reflexivity|exact U|]. intros a Ha. apply (Hoff a Ha).
  - eapply (stdout_ok_unchanged _ s2); [exact So2|exact R1|exact U3|rewrite Ec; apply So2|tauto].
  - rewrite Em. destruct B as [B B0].
    assert (K : forall i, 0 <= i -> load8 (k_mem s2) (pp_buf d + i) = load8 m1 (pp_buf d + i)).
    { intros i Hi. eapply (unchanged_load8 screen_bytes); [exact U2|].
      unfold screen_bytes, in_range, VIDEO, NUM_ROWS, NUM_COLS, PROG_LO in *. lia. }
    split; [intros i Hi|]; rewrite K by lia; [by apply B|exact B0].
Qed.

Lemma move_out_spec c n : forall j s,
  playing s -> 65 <= c <= 90 -> 2 <= j <= 78 -> 78 - j < Z.of_nat n ->
  exists s', move_out d n fd c j s = Some s' /\
    shown s' ≡ term_print (concat (court c <$> zseq j (Z.to_nat (78 - j)))) (shown s) /\ playing s'.
Proof using Hfd Hbuf Hpcb Hscr Hgar Htick.
  induction n as [|n IH]; intros j s Hp Hc Hj Hn; [lia|]. cbn [move_out]. change LOOPMAX with 78. destruct (Z.ltb_spec j 78) as [Hlt|Hge].
  - destruct (draw_row_spec c j s Hp ltac:(lia) Hc) as (s1 & E1 & Sh1 & Hp1). rewrite E1. cbn [mbind option_bind].
    destruct (IH (j + 1) s1 Hp1 Hc ltac:(lia) ltac:(lia)) as (s2 & E2 & Sh2 & Hp2). exists s2. split; [exact E2|]. split; [|exact Hp2].
    replace (Z.to_nat (78 - j)) with (S (Z.to_nat (78 - (j + 1)))) by lia. rewrite zseq_S, fmap_cons. cbn [concat].
    by rewrite term_print_app, Sh2, Sh1.
  - exists s. replace (Z.to_nat (78 - j)) with O by lia. done.
Qed.

Lemma bounce_back_spec c n : forall j s,
  playing s -> 65 <= c <= 90 -> 1 <= j < 78 -> j - 1 < Z.of_nat n ->
  exists s', bounce_back d n fd c j s = Some s' /\
    shown s' ≡ term_print (concat (court c <$> reverse (zseq 2 (Z.to_nat (j - 1))))) (shown s) /\ playing s'.
Proof using Hfd Hbuf Hpcb Hscr Hgar Htick.
  induction n as [|n IH]; intros j s Hp Hc Hj Hn; [lia|]. cbn [bounce_back]. change STARTLOOP with 2. destruct (Z.leb_spec 2 j) as [Hle|Hgt].
  - destruct (draw_row_spec c j s Hp ltac:(lia) Hc) as (s1 & E1 & Sh1 & Hp1). rewrite E1. cbn [mbind option_bind].
    destruct (IH (j - 1) s1 Hp1 Hc ltac:(lia) ltac:(lia)) as (s2 & E2 & Sh2 & Hp2). exists s2. split; [exact E2|]. split; [|exact Hp2].
    replace (Z.to_nat (j - 1)) with (Z.to_nat (j - 1 - 1) + 1)%nat by lia.
    rewrite zseq_app, reverse_app, fmap_app, concat_app, term_print_app. cbn [zseq seq fmap list_fmap].
    replace (2 + Z.of_nat (Z.to_nat (j - 1 - 1)) + Z.of_nat 0) with j by lia. rewrite reverse_singleton. cbn [fmap list_fmap concat].
    by rewrite app_nil_r, Sh2, Sh1.
  - exists s. replace (Z.to_nat (j - 1)) with O by lia. done.
Qed.

Lemma rounds_spec k : forall i s,
  playing s ->
  exists s', rounds d k fd (letter i) s = Some s' /\
    shown s' ≡ term_print (concat ((fun i => concat (court (letter i) <$> path)) <$> seq i k)) (shown s) /\ playing s'.
Proof using Hfd Hbuf Hpcb Hscr Hgar Htick.
  induction k as [|k IH]; intros i s Hp; cbn [rounds]; [by exists s|].
  destruct (move_out_spec (letter i) (Z.to_nat BUFMAX) STARTLOOP s Hp (letter_range i)) as (s1 & E1 & Sh1 & Hp1); [by vm_compute..|].
  rewrite E1. cbn [mbind option_bind].
  destruct (bounce_back_spec (letter i) (Z.to_nat BUFMAX) (LOOPMAX - 1) s1 Hp1 (letter_range i)) as (s2 & E2 & Sh2 & Hp2); [by vm_compute..|].
  rewrite E2. cbn [mbind option_bind]. rewrite next_letter_step.
  destruct (IH (S i) s2 Hp2) as (s3 & E3 & Sh3 & Hp3). exists s3. split; [exact E3|]. split; [|exact Hp3].
  cbn [seq fmap list_fmap concat]. unfold path at 1. by rewrite term_print_app, fmap_app, concat_app, term_print_app, Sh3, Sh2, Sh1.
Qed.
End Play.

(** ** From the start *)

Lemma write_clock `{Ports} `{Layout} `{Traps} fd buf s :
  2 <= fd < 8 -> buf <> 0 -> fd_open fd s = true -> fd_ops fd s = Some RtcOps ->
  exists v s', ece391_write fd buf 4 s = Some (v, s') /\ same_process s s' /\ k_mem s' = k_mem s /\ k_con s' = k_con s.
Proof.
  intros Hfd Hb Ho Hop. rewrite ece391_write_eq. unfold sys_write_c, FD_SIZE. zdecide. rewrite Ho, Hop. cbn [negb write_ptr].
  destruct (rtc_write fd buf 4 s) as [v s'] eqn:E. exists v, s'. split; [done|].
  assert (Es : s' = (rtc_write fd buf 4 s).2) by (by rewrite E). rewrite Es. unfold rtc_write. repeat split_if; done.
Qed.

(** The kernel changes its own memory when it opens a file. *)
Lemma open_frame_low `{Layout} s dentry fd a :
  user_layout (k_fs s) (cur_pcb s) dentry -> 0 <= fd < 8 -> open_call_frame s dentry fd a -> a < PROG_LO.
Proof.
  intros UL Hfd Ha. pose proof (ul_low _ _ _ UL) as HL. unfold kernel_objects in HL. rewrite !Forall_cons in HL.
  unfold open_call_frame, lookup_frame, in_region, in_range, fd_region, pcb_region, PCB_SIZE in *. cbn [fst snd] in *. lia.
Qed.

(** The memory from the call of open on: the variables of [main] beside the buffer. *)
Lemma playing_from `{Ports} `{Layout} `{Traps} d pcb fd m s :
  playing d pcb fd s -> pcb + PCB_SIZE <= PROG_LO -> 2 <= fd < 8 ->
  unchanged (in_range (pp_ret d) 4) (k_mem s) m -> PROG_LO <= pp_ret d -> disj (pp_buf d) BUFMAX (pp_ret d) 4 ->
  playing d pcb fd (set_k_mem m s) /\ shown (set_k_mem m s) ≡ shown s.
Proof.
  intros [P1 P2 P3 P4 [B B0]] Hp Hfd U Hret Hdis. unfold disj, BUFMAX, SCREENWIDTH, ENDING in Hdis.
  assert (Hoff : forall k, 0 <= k < 8 -> forall a, in_region (fd_region (cur_pcb s) k) a -> ~ in_range (pp_ret d) 4 a).
  { intros k Hk a Ha Hr. rewrite P1 in Ha. unfold in_region, in_range, fd_region, PCB_SIZE in *. cbn [fst snd] in *. lia. }
  destruct (clock_kept fd _ s (set_k_mem m s) eq_refl U (Hoff fd ltac:(lia))) as [K1 K2].
  split; [split; [exact P1| |by rewrite K1|by rewrite K2|]|].
  - eapply (stdout_ok_unchanged _ s); [exact P2|reflexivity|exact U|apply P2|apply Hoff; lia].
  - split; [intros i Hi|]; cbn; rewrite (unchanged_load8 _ _ _ _ U) by (unfold in_range; lia); [by apply B|exact B0].
  - eapply shown_off_screen; [reflexivity|exact U|]. intros a Ha Hs.
    unfold screen_bytes, in_range, VIDEO, NUM_ROWS, NUM_COLS, PROG_LO in *. lia.
Qed.

(** [main] in front of the endless loop: the court is drawn and the clock is open. *)
Lemma pingpong_start `{Ports} `{Layout} `{Traps} d s i x :
  let fs := k_fs s in
  let m := k_mem s in
  user_layout fs (cur_pcb s) open_local -> tables_ok -> dir_ok fs m -> stdout_ok s ->
  PROG_LO <= pp_buf d -> PROG_LO <= pp_ret d -> disj (pp_buf d) BUFMAX (pp_ret d) 4 ->
  text_in m (pp_rtc d) [114; 116; 99] -> disj (pp_buf d) BUFMAX (pp_rtc d) 4 ->
  list_find (eq [114; 116; 99]) (dir_names fs m) = Some (i, x) -> entry_type fs m (1 + Z.of_nat i) = RTC_FILE ->
  let fd := find_fd m (cur_pcb s) in
  fd < 8 -> 2 <= fd /\
  exists s', shown s' ≡ shown s /\ playing d (cur_pcb s) fd s' /\ forall k, pingpong_main d k s = rounds d k fd STARTCHAR s'.
Proof.
  intros fs m UL HT Hdir So Hbuf Hret Hbr Hrtc Hbt Hfind Hty fd Hfd.
  destruct (user_bounds _ _ UL) as ((Lp & Hscr) & _).
  destruct (walls_spec d m) as [B U]. cbv zeta in B, U. set (m1 := walls d (clear_buf d 0 BUFMAX m)) in *.
  assert (Nr : Forall (fun c => c <> 0) [114; 116; 99]) by (repeat constructor; lia).
  destruct (user_change_kept open_local s _ m1 UL U) as [Kd _ Kfd Kso Ksh]; [unfold in_range; lia|].
  destruct (Kd Hdir) as (Hdir1 & En1 & Ke). destruct (Ke _ (found_entry fs m _ i x Hfind)) as [Et1 _].
  assert (T1 : text_in m1 (pp_rtc d) [114; 116; 99]).
  { eapply text_in_off; [exact U| |exact Hrtc]. intros b Hb Hs. clear - Hbt Hb Hs. unfold disj, in_range in *. cbn in *. lia. }
  destruct (user_open (set_k_mem m1 s) (pp_rtc d) UL HT Hdir1 (Kso So) (proj1 Hrtc)) with (i := i) (x := x) as (s2 & E2 & Hr & Hop & So2 & Sh2).
  { cbn [k_mem set_k_mem]. by rewrite (text_strlen _ _ _ T1 Nr). }
  { cbn [k_mem k_fs set_k_mem]. rewrite (text_cname _ _ _ _ T1 Nr), En1. exact Hfind. }
  { cbn [k_mem cur_pcb set_k_mem]. by rewrite Kfd. }
  cbn [k_mem k_fs cur_pcb set_k_mem] in E2, Hr, Hop. rewrite Kfd in E2, Hr, Hop. fold m in E2, Hr, Hop. fold fd in E2, Hr, Hop.
  rewrite Et1 in Hop. fold fs m in Hop. rewrite Hty in Hop. destruct Hop as (Ep & Ef & U2 & Ho & F & _). cbn [cur_pcb set_k_mem] in Ep, F.
  split; [lia|]. assert (P2 : playing d (cur_pcb s) fd s2).
  { split; [exact Ep|exact So2| |exact Ho|].
    - unfold fd_open, fd_used. rewrite Ep, F. done.
    - assert (K : forall j, 0 <= j -> load8 (k_mem s2) (pp_buf d + j) = load8 m1 (pp_buf d + j)).
      { intros j Hj. eapply unchanged_load8; [exact U2|]. intros Ha.
        apply (open_frame_low (set_k_mem m1 s)) in Ha; [lia|exact UL|lia]. }
      destruct B as [B B0]. split; [intros j Hj|]; rewrite K by lia; [by apply B|exact B0]. }
  destruct (playing_from d (cur_pcb s) fd (store32 (k_mem s2) (pp_ret d) 32) s2 P2 Lp Hr) as [P3 Sh3];
    [by apply unchanged_store32|exact Hret|exact Hbr|].
  set (s3 := set_k_mem _ s2) in *.
  destruct (write_clock fd (pp_ret d) s3 Hr ltac:(unfold PROG_LO in Hret; lia) (pl_open _ _ _ _ P3) (pl_ops _ _ _ _ P3)) as (v & s4 & E4 & [Q1 Q2] & Em & Ec).
  assert (U4 : unchanged (in_range (pp_ret d) 4) (k_mem s3) (store32 (k_mem s4) (pp_ret d) v)) by (rewrite Em; by apply unchanged_store32).
  destruct (playing_from d (cur_pcb s) fd _ s3 P3 Lp Hr U4 Hret Hbr) as [P4 Sh4].
  exists (set_k_mem (store32 (k_mem s4) (pp_ret d) v) s4). split; [|split].
  - transitivity (shown (set_k_mem (store32 (k_mem s4) (pp_ret d) v) s3)); [split; [cbn; by rewrite Ec|]; split; [cbn; by rewrite Ec|done]|].
    by rewrite Sh4, Sh3, Sh2, Ksh.
  - destruct P4 as [A1 A2 A3 A4 A5]. cbn [cur_pcb k_mem set_k_mem] in A1, A5. split; [cbn; by rewrite Q1| | | |exact A5].
    + unfold stdout_ok, fd_open, fd_ops in *. cbn [cur_pcb k_mem k_con set_k_mem] in *. by rewrite Q1, Ec.
    + unfold fd_open in *. cbn [cur_pcb k_mem set_k_mem] in *. by rewrite Q1.
    + unfold fd_ops in *. cbn [cur_pcb k_mem set_k_mem] in *. by rewrite Q1.
  - intros k. unfold pingpong_main.
    change (upd_mem (walls d) (upd_mem (clear_buf d 0 BUFMAX) s)) with (set_k_mem m1 s). rewrite E2. cbn [mbind option_bind].
    change (upd_mem (fun m0 => store32 m0 (pp_ret d) 32) s2) with s3. rewrite E4. cbn [mbind option_bind]. done.
Qed.


(** ** A concrete game: the entry "rtc" in the directory and a clock that ticks at every second look. *)

Definition pong_mem : mem :=
  let m := store_list test_image 0x400080 [114; 116; 99; 0; 0] in
  let m := store32 m 0x4000A0 RTC_FILE in
  let m := fd_set m 0x1000 1 FD_OPS 0x3430 in
  let m := fd_set m 0x1000 1 FD_FLAGS TERMINAL_FILE_FLAGS in
  store_list m 0x8052000 [114; 116; 99].

Definition pong_state : kst :=
  mkKst pong_mem (mkConsole 0 3) (mkPic 0xFF 0xFF) 0 (mkKeyboard 0 0 0 0 0 0 0) test_fs 0x1000 1
    (mkCpu true 0x800000 0 0 0) [].

Definition test_pong : pong_data := mkPong 0x8050000 0x8052000 0x8051000 0x8051010.

#[local] Existing Instance test_layout.
#[local] Instance pong_ports : Ports := fun _ _ => 0.
#[local] Instance pong_traps : Traps :=
  {| arrivals := fun _ => mkSched [] [false; true]; open_local := 0x3500;
     exec_locals := mkLocals 0x7FD000 0x7FD040 0x7FD080 0x7FD100 0x3500 0x7FDFF0; args_fuel := 1025 |}.

Lemma pong_state_layout : user_layout test_fs 0x1000 open_local.
Proof.
  split; [exact test_fs_layout|cbn; lia|test_sep|test_sep|cbn; lia|test_sep|test_sep| |].
  - unfold kernel_objects. repeat (constructor; [vm_compute; congruence|]). constructor.
  - unfold kernel_objects. repeat (constructor; [test_sep|]). constructor.
Qed.

Lemma pong_state_dir : dir_ok test_fs pong_mem.
Proof.
  split; [vm_compute; congruence|]. split; [vm_compute; intuition congruence|].
  intros i Hi. cbn in Hi. assert (i = 1 \/ i = 2) as [-> | ->] by lia; vm_compute; reflexivity.
Qed.

Lemma pong_state_out : stdout_ok pong_state.
Proof.
  split; [vm_compute; reflexivity|]. split; [vm_compute; reflexivity|].
  unfold on_screen, NUM_ROWS, NUM_COLS. cbn. lia.
Qed.

Lemma pong_state_name : text_in pong_mem 0x8052000 [114; 116; 99].
Proof. repeat split; vm_compute; congruence. Qed.

