(* ===== verification/Sigtest.v ===== *)
(** * The program sigtest, src/syscalls/ece391sigtest.c

    It stores through a null pointer and expects a handler it has installed to repair the
    pointer.  The kernel implements no signals: the store raises a page fault, whose linkage
    halts the process.  A store of the program goes through the page tables; the accesses of
    the kernel do not (set_handler reaches getargs with the signal number as the address of
    the buffer). *)

From S2P Require Import Prelude Mem CString MemOps State Console I8259 Pcb Rtc Filesys FilesysRead FilesysDir Keyboard Terminal Paging Syscalls Process Exec Trap Support FileCalls UserCalls Programs Output Syserr Shell Command Grep Blink.

(** ** The program *)

Definition DIV_ZERO : Z := 0.
Definition SEGFAULT : Z := 1.
Definition INTERRUPT : Z := 2.
Definition ALARM : Z := 3.
Definition USER1 : Z := 4.

(** The addresses of the variables, of the functions and of the literals. *)
Record sig_data := mkSig {
  sg_buf : Z;            (* uint8_t buf[BUFSIZE] of main *)
  sg_charbuf : Z;        (* charbuf *)
  sg_badbuf : Z;         (* badbuf *)
  sg_segfault : Z;       (* segfault_sighandler *)
  sg_alarm : Z;          (* alarm_sighandler *)
  sg_key : Z;            (* buf of segfault_sighandler *)
  sg_signum : Z;         (* the argument of segfault_sighandler on its stack *)
  sg_no_args : Z;        (* could not read argument *)
  sg_install : Z;        (* Installing signal handlers *)
  sg_ask : Z;            (* Hi, what's your name? *)
  sg_no_read : Z;        (* Can't read name from keyboard. *)
  sg_hello : Z;          (* Hello, *)
  sg_success : Z;        (* success *)
  sg_failure : Z;        (* failure *)
  sg_called : Z;         (* Segfault signal handler called, signum: *)
  sg_alarm_called : Z;   (* Alarm signal handler called, signum: *)
  sg_number : Z -> Z;    (* 0, 1, 2, 3 *)
  sg_invalid : Z;        (* invalid *)
  sg_press : Z;          (* Press enter to continue... *)
  sg_return : Z          (* Signal handler returning *)
}.

(** How the program ends: a return from main, or a page fault. *)
Inductive sig_result :=
| SigReturn (v : Z) (s : kst)
| SigFault (s : kst).

Section Program.
Context `{Ports} `{Layout} `{Traps} (d : sig_data).

(** From the store through [badbuf] to the end of main. *)
Definition sig_store (cnt : Z) (s : kst) : option sig_result :=
  match user_store8 (ret_dir_ptr s) (load32 (k_mem s) (sg_badbuf d)) 1 (k_mem s) with
  | None => Some (SigFault s)
  | Some m =>
      let s := upd_mem (fun m => store8 m (sg_buf d + cnt) 0) (set_k_mem m s) in
      s ← ece391_fdputs 1 (sg_hello d) s;
      s ← ece391_fdputs 1 (sg_buf d) s;
      s ← (if load8 (k_mem s) (sg_charbuf d) =? 1 then ece391_fdputs 1 (sg_success d) s else ece391_fdputs 1 (sg_failure d) s);
      Some (SigReturn 0 s)
  end.

Definition sigtest_main (s : kst) : option sig_result :=
  '(r, s) ← ece391_getargs (sg_buf d) BUFSIZE s;
  if negb (r =? 0) then (s ← ece391_fdputs 1 (sg_no_args d) s; Some (SigReturn 3 s)) else
  s ← (if load8 (k_mem s) (sg_buf d) =? 49 then
         s ← ece391_fdputs 1 (sg_install d) s;
         '(_, s) ← ece391_set_handler SEGFAULT (sg_segfault d) s;
         '(_, s) ← ece391_set_handler ALARM (sg_alarm d) s;
         Some s
       else Some s);
  s ← ece391_fdputs 1 (sg_ask d) s;
  '(cnt, s) ← ece391_read 0 (sg_buf d) (BUFSIZE - 1) s;
  if cnt =? -1 then (s ← ece391_fdputs 1 (sg_no_read d) s; Some (SigReturn 3 s)) else
  sig_store cnt s.

(** The [switch] of both handlers. *)
Definition put_signum (signum : Z) (s : kst) : option kst :=
  if (0 <=? signum) && (signum <=? 3) then ece391_fdputs 1 (sg_number d signum) s else ece391_fdputs 1 (sg_invalid d) s.

Definition segfault_sighandler (signum : Z) (s : kst) : option kst :=
  s ← ece391_fdputs 1 (sg_called d) s;
  s ← put_signum signum s;
  s ← ece391_fdputs 1 (sg_press d) s;
  '(_, s) ← ece391_read 0 (sg_key d) 1 s;
  let s := upd_mem (fun m => store32 m (sg_badbuf d) (sg_charbuf d)) s in
  let s := upd_mem (fun m => store32 m (sg_signum d + 4 * 7) (sg_charbuf d)) s in
  ece391_fdputs 1 (sg_return d) s.

Definition alarm_sighandler (signum : Z) (s : kst) : option kst :=
  s ← ece391_fdputs 1 (sg_alarm_called d) s;
  put_signum signum s.
End Program.

(** ** The page fault *)

(** The part of the page tables that decides about address 0 is out of reach of the keys, of
    the screen and of the program. *)
Record zero_apart `{Layout} (m : mem) (dir : Z) : Prop := {
  za_unmapped : translate m dir 0 = None;
  za_low : dir + 4 <= EIGHT_MB /\ Z.land (load32 m dir) 0xFFFFF000 + 4 <= EIGHT_MB;
  za_line : rdisj line_region (dir, 4) /\ rdisj line_region (Z.land (load32 m dir) 0xFFFFF000, 4);
  za_screen : rdisj screen_region (dir, 4) /\ rdisj screen_region (Z.land (load32 m dir) 0xFFFFF000, 4)
}.

Lemma translate_zero m dir :
  translate m dir 0 =
    let pde := load32 m dir in
    if negb (Z.testbit pde 0) then None else
    if Z.testbit pde 7 then Some (Z.land pde 0xFFC00000, Z.testbit pde 2) else
    let pte := load32 m (Z.land pde 0xFFFFF000) in
    if negb (Z.testbit pte 0) then None else Some (Z.land pte 0xFFFFF000, Z.testbit pde 2 && Z.testbit pte 2).
Proof.
  unfold translate. change (Z.shiftr 0 22) with 0. change (Z.shiftr 0 12 mod 1024) with 0.
  change (0 mod 0x400000) with 0. change (0 mod 4096) with 0. by rewrite Z.mul_0_r, !Z.add_0_r.
Qed.

Lemma zero_kept `{Layout} m m' dir (P : Z -> Prop) :
  zero_apart m dir -> unchanged P m m' -> (forall a, P a -> kbd_frame a \/ PROG_LO <= a) -> translate m' dir 0 = None.
Proof.
  intros [Hu [L1 L2] [K1 K2] [S1 S2]] U HP. rewrite translate_zero in *.
  assert (K : forall r, rdisj line_region r -> rdisj screen_region r -> r.1 + r.2 <= EIGHT_MB -> forall a, in_region r a -> ~ P a).
  { intros r Hk Hs Hl a Ha Hp. apply HP in Hp. revert Hp Ha Hk Hs Hl. clear.
    unfold rdisj, disj, kbd_frame, screen_bytes, in_region, in_range, screen_region, line_region, EIGHT_MB, PROG_LO, NUM_ROWS, NUM_COLS.
    cbn [fst snd]. lia. }
  cbv zeta in *. rewrite (unchanged_load32 P m m' dir U) by (exact (K (dir, 4) K1 S1 L1)).
  by rewrite (unchanged_load32 P m m' _ U) by (exact (K (_, 4) K2 S2 L2)).
Qed.

(** ** Theorem *)

(** C28 Started with an argument that does not begin with 1, sigtest asks for the name and reads
    the edited line, and then its store through the null pointer faults, since address 0 is
    not mapped: it is stopped there, before it greets anybody or reports a result, with
    nothing on the screen behind the question but what was typed. *)
Theorem sigtest_faults `{Ports} `{Layout} `{Traps} d e s p L keys e' :
  let m := k_mem s in
  let name := cur_pcb s + PCB_INPUT + (p + 1) in
  user_layout (k_fs s) (cur_pcb s) open_local -> keys_layout (cur_pcb s) -> session (cur_pcb s) e s -> (1024 < args_fuel)%nat ->
  first_space m (cur_pcb s + PCB_INPUT) p -> is_cstr m name L -> 1 <= L -> p + 2 * (L + 1) <= 1024 -> load8 m name <> 49 ->
  PROG_LO <= sg_buf d -> PROG_LO <= sg_badbuf d -> disj (sg_buf d) 1024 (sg_badbuf d) 4 -> load32 m (sg_badbuf d) = 0 ->
  text_in m (sg_ask d) ask_text -> disj (sg_buf d) 1024 (sg_ask d) 23 -> zero_apart m (ret_dir_ptr s) ->
  (forall s, sc_keys (arrivals s) = keys) -> Forall (Forall plain) keys ->
  await keys (mkEd (ed_shift e) (ed_caps e) [] (ed_entered e)) = Some e' ->
  exists s1 s2, ece391_read 0 (sg_buf d) (BUFSIZE - 1) s1 = Some (Z.of_nat (length (ed_line e')), s2) /\
    shown s1 ≡ term_print ask_text (shown s) /\ bytes (k_mem s2) (sg_buf d) (length (ed_line e')) = ed_line e' /\
    sigtest_main d s = Some (SigFault s2).
Proof.
  intros m name UL KL S0 Hfuel Hsp HL HL1 Hp Hone Hbuf Hbad Hdis Hnull Hask Hdask Hz Hkeys Hplain Ha.
  destruct (user_getargs (sg_buf d) p L s UL Hbuf Hfuel Hsp HL HL1 Hp) as (m1 & Eg & U & (_ & Tb & _) & _).
  fold m name in Tb. rewrite length_bytes in Tb. fold m in U.
  assert (HU : forall a, in_range (sg_buf d) (L + 1) a -> PROG_LO <= a) by (unfold in_range; lia).
  pose proof (session_program _ KL _ e m1 s S0 U HU) as S1.
  pose proof (shown_off_screen _ m m1 s eq_refl U (fun a Ha Hs => ltac:(apply HU in Ha; unfold screen_bytes, in_range, VIDEO, NUM_ROWS, NUM_COLS, PROG_LO in *; lia))) as Sh1.
  assert (T1 : text_in m1 (sg_ask d) ask_text).
  { eapply text_in_off; [exact U| |exact Hask]. intros b Hb Hr. destruct Hsp as [Hp0 _]. unfold disj, in_range in *. cbn in Hb. lia. }
  assert (Cq : clean ask_text) by (split; [repeat constructor; discriminate|cbn; lia]).
  destruct (session_put _ KL e (sg_ask d) ask_text _ S1 T1 Cq) as (s2 & E2 & Sh2 & U2 & S2).
  destruct (put_tables _ _ _ _ (sn_out _ _ _ S1) T1 Cq E2) as [_ [_ C2]]. clear Cq T1.
  pose proof (session_read _ KL e (sg_buf d) (BUFSIZE - 1) s2 S2 Hbuf ltac:(unfold BUFSIZE; lia)) as R. rewrite Hkeys, Ha in R.
  destruct (R Hplain) as (s3 & E3 & B3 & U3 & S3). destruct (read_tables _ _ _ _ _ _ _ S2 Hbuf E3) as [_ [_ C3]].
  exists s2, s3. split; [exact E3|]. split; [etransitivity; [exact Sh2|apply term_print_proper; exact Sh1]|]. split; [exact B3|].
  unfold sigtest_main. change (ece391_getargs (sg_buf d) BUFSIZE s) with (ece391_getargs (sg_buf d) 1024 s). rewrite Eg.
  cbn [mbind option_bind Z.eqb negb].
  assert (E49 : load8 m1 (sg_buf d) = load8 m name).
  { replace (Z.to_nat L) with (S (Z.to_nat (L - 1))) in Tb by lia. rewrite !bytes_S in Tb. by injection Tb. }
  cbn [k_mem set_k_mem]. rewrite E49, (proj2 (Z.eqb_neq _ _) Hone). cbn [mbind option_bind]. rewrite E2. cbn [mbind option_bind].
  rewrite E3. cbn [mbind option_bind]. rewrite (proj2 (Z.eqb_neq _ _)) by (clear; lia). unfold sig_store.
  assert (UA : unchanged (fun a => kbd_frame a \/ in_range (sg_buf d) 1024 a) m (k_mem s3)).
  { eapply unchanged_trans; [eapply unchanged_weaken; [|exact U]|eapply unchanged_trans; [eapply unchanged_weaken; [|exact U2]|eapply unchanged_weaken; [|exact U3]]].
    - intros a Hr. right. destruct Hsp. unfold in_range in *. lia.
    - intros a Hr. left. by right.
    - intros a [Hr|Hr]; [by left|right]. unfold in_range in *. lia. }
  rewrite (unchanged_load32 _ _ _ _ UA), Hnull.
  2: { intros b Hb [[Hr|Hr]|Hr]; pose proof (kl_line_low _ KL); unfold disj, in_region, line_region, screen_bytes, in_range, VIDEO, NUM_ROWS,
         NUM_COLS, PROG_LO in *; cbn [fst snd] in *; lia. }
  unfold user_store8. change (in_window 0) with false. cbv iota.
  assert (Ed : ret_dir_ptr s3 = ret_dir_ptr s) by (unfold ret_dir_ptr; by rewrite C3, C2).
  rewrite Ed, (zero_kept m (k_mem s3) _ _ Hz UA); [done|]. intros a [Hr|Hr]; [by left|right]. unfold in_range in Hr. lia.
Qed.

(** ** A concrete run: "sigtest 0" and the keys l, s and Enter. *)
#[local] Existing Instance test_layout.
#[local] Instance sig_ports : Ports := fun _ _ => 0.
#[local] Instance sig_traps : Traps :=
  {| arrivals := fun _ => mkSched [[0x26; 0xA6; 0x1F]; [0x9F; 0x1C]] []; open_local := 0x3500;
     exec_locals := mkLocals 0x7FD000 0x7FD040 0x7FD080 0x7FD100 0x3500 0x7FDFF0; args_fuel := 1025 |}.

Definition sig_mem : mem :=
  let m := fd_set (fd_set (Mem ∅ ∅ 0) 0x1000 0 FD_OPS 0x3430) 0x1000 0 FD_FLAGS TERMINAL_FILE_FLAGS in
  let m := fd_set (fd_set m 0x1000 1 FD_OPS 0x3430) 0x1000 1 FD_FLAGS TERMINAL_FILE_FLAGS in
  let m := store_list m (0x1000 + PCB_INPUT) [115; 32; 48] in
  let m := store32 m 0x10000 0x11003 in
  store_list m 0x8052000 ask_text.

Definition sig_state : kst :=
  mkKst sig_mem (mkConsole 0 3) (mkPic 0xFF 0xFF) 0 (mkKeyboard 0 0 0 0 0 0 0) test_fs 0x1000 1
    (mkCpu true 0x800000 0 0x10000 0) [].

Definition test_sig : sig_data :=
  mkSig 0x8050000 0x8054000 0x8054004 0 0 0x8054008 0x8055000 0 0 0x8052000 0 0 0 0 0 0 (fun _ => 0) 0 0 0.

Lemma sig_layout : user_layout test_fs 0x1000 open_local.
Proof.
  split; [exact test_fs_layout|cbn; lia|test_sep|test_sep|cbn; lia|test_sep|test_sep| |].
  - unfold kernel_objects. repeat (constructor; [vm_compute; congruence|]). constructor.
  - unfold kernel_objects. repeat (constructor; [test_sep|]). constructor.
Qed.

Lemma sig_session : session 0x1000 no_keys sig_state.
Proof.
  assert (O : on_screen (mkConsole 0 3)) by (unfold on_screen, NUM_ROWS, NUM_COLS; cbn; lia).
  split; [reflexivity|split; vm_compute; reflexivity|split; [vm_compute; reflexivity|split; [vm_compute; reflexivity|exact O]]|].
  split; cbn [ed_line no_keys length]; [by repeat split|reflexivity|lia|reflexivity|constructor|exact O|].
  unfold cursor_pos, NUM_COLS. cbn. lia.
Qed.

Lemma sig_args : first_space sig_mem (0x1000 + PCB_INPUT) 1 /\ is_cstr sig_mem (0x1000 + PCB_INPUT + (1 + 1)) 1.
Proof.
  split; (split; [lia|]; split; [vm_compute; reflexivity|]); intros j Hj; replace j with 0 by lia; vm_compute; congruence.
Qed.

Lemma sig_zero : zero_apart sig_mem 0x10000.
Proof. split; [vm_compute; reflexivity|vm_compute; split; congruence|split; sep_solve|split; sep_solve]. Qed.

Lemma sig_text : text_in sig_mem 0x8052000 ask_text.
Proof. repeat split; vm_compute; congruence. Qed.

Lemma sigtest_faults_witness : exists s2, sigtest_main test_sig sig_state = Some (SigFault s2).
Proof.
  destruct sig_args as [A1 A2].
  destruct (sigtest_faults test_sig no_keys sig_state 1 1 [[0x26; 0xA6; 0x1F]; [0x9F; 0x1C]] (mkEd false false [108; 115; 10] true))
    as (s1 & s2 & _ & _ & _ & E).
  - exact sig_layout.
  - exact shell_state_layout.
  - exact sig_session.
  - cbn. lia.
  - exact A1.
  - exact A2.
  - lia.
  - lia.
  - vm_compute. congruence.
  - unfold PROG_LO. cbn. lia.
  - unfold PROG_LO. cbn. lia.
  - unfold disj. cbn. lia.
  - vm_compute. reflexivity.
  - exact sig_text.
  - unfold disj. cbn. lia.
  - exact sig_zero.
  - reflexivity.
  - exact typed_plain.
  - exact typed.
  - exists s2. exact E.
Defined.
