(* ===== verification/Fish.v ===== *)
(** * The program fish, src/fish/fish.c

    [main] opens the clock, reads the two pictures frame0.txt and frame1.txt side by side
    ([add_frames]) and lets every character that is not blank in one of them blink; then it
    waits for the clock and runs the tasklet of Blink.v.

    The theorem describes [add_frames] by the lines of the two files. *)

From S2P Require Import Prelude Mem CString MemOps State Console I8259 Pcb Rtc Filesys FilesysRead FilesysDir Keyboard Terminal Paging Syscalls Process Exec Trap Support FileCalls UserCalls Programs Output Syserr Typing Lines Blink.

(** ** The program *)

Definition WAIT : nat := 100.

(** The addresses of the literals and of the variables whose address is taken. *)
Record fish_vars := mkVars {
  fv_data : fish_data;
  fv_rtc : Z;            (* rtc *)
  fv_file0 : Z;          (* frame0.txt *)
  fv_file1 : Z;          (* frame1.txt *)
  fv_ret : Z;            (* ret_val of main *)
  fv_garbage : Z;        (* garbage of main *)
  fv_main_struct : Z;    (* blink_struct of main *)
  fv_struct : Z;         (* blink_struct of add_frames *)
  fv_c0 : Z;             (* c0 of add_frames *)
  fv_c1 : Z              (* c1 of add_frames *)
}.

Section Program.
Context `{Ports} `{Layout} `{Traps} (v : fish_vars) (fuel : nat).

(** A function of blink.S, with the page tables in use. *)
Definition ioctl (arg cmd : Z) (s : kst) : option (Z * kst) :=
  '(r, m) ← mp1_ioctl (fv_data v) (ret_dir_ptr s) fuel arg cmd (k_mem s); Some (r, set_k_mem m s).

Definition tasklet (s : kst) : option kst :=
  m ← mp1_rtc_tasklet (fv_data v) (ret_dir_ptr s) fuel (k_mem s); Some (set_k_mem m s).

(** One of the two reads of the inner loop; the new value of the flag. *)
Definition next_char (fd c eof : Z) (s : kst) : option (Z * kst) :=
  if load8 (k_mem s) c =? 10 then Some (eof, s) else
  '(num_bytes, s) ← ece391_read fd c 1 s;
  if num_bytes =? 0 then Some (1, upd_mem (fun m => store8 m c 10) s) else Some (eof, s).

(** The character of a place: a line that has ended counts as blank. *)
Definition shown_char (c : Z) : Z := if c =? 10 then 32 else c.

(** The structure of [add_frames] for a place; the lengths were filled in before. *)
Definition fill_place (row col : Z) (s : kst) : kst :=
  let c0 := load8 (k_mem s) (fv_c0 v) in
  let c1 := load8 (k_mem s) (fv_c1 v) in
  let s := upd_mem (fun m => store8 m (fv_struct v + ON_CHAR) (shown_char c0)) s in
  let s := upd_mem (fun m => store8 m (fv_struct v + OFF_CHAR) (shown_char c1)) s in
  upd_mem (fun m => store16 m (fv_struct v + LOCATION) (row * 80 + col + 40)) s.

(** The inner loop: one line of both pictures; the flags after it. *)
Fixpoint frame_row (n : nat) (fd0 fd1 row col eof0 eof1 : Z) (s : kst) : option (Z * Z * kst) :=
  match n with
  | O => None
  | S n' =>
      '(eof0, s) ← next_char fd0 (fv_c0 v) eof0 s;
      '(eof1, s) ← next_char fd1 (fv_c1 v) eof1 s;
      let c0 := load8 (k_mem s) (fv_c0 v) in
      let c1 := load8 (k_mem s) (fv_c1 v) in
      if (c0 =? 10) && (c1 =? 10) then Some (eof0, eof1, s) else
      s ← (if (negb (c0 =? 32) && negb (c0 =? 10)) || (negb (c1 =? 32) && negb (c1 =? 10))
           then ('(_, s) ← ioctl (fv_struct v) RTC_ADD (fill_place row col s); Some s) else Some s);
      frame_row n' fd0 fd1 row (col + 1) eof0 eof1 s
  end.

(** What follows the inner loop for one file. *)
Definition end_row (fd c eof : Z) (s : kst) : option kst :=
  if negb (eof =? 0) then
    let s := upd_mem (fun m => store8 m c 10) s in
    '(_, s) ← ece391_close fd s; Some s
  else Some (upd_mem (fun m => store8 m c 48) s).

Fixpoint frame_rows (n : nat) (fd0 fd1 row eof0 eof1 : Z) (s : kst) : option kst :=
  match n with
  | O => None
  | S n' =>
      if (eof0 =? 0) || (eof1 =? 0) then
        '(eof0, eof1, s) ← frame_row n fd0 fd1 row 0 eof0 eof1 s;
        s ← end_row fd0 (fv_c0 v) eof0 s;
        s ← end_row fd1 (fv_c1 v) eof1 s;
        frame_rows n' fd0 fd1 (row + 1) eof0 eof1 s
      else Some s
  end.

(** [None] also where the program halts because a file is missing. *)
Definition add_frames (n : nat) (f0 f1 : Z) (s : kst) : option kst :=
  let s := upd_mem (fun m => store8 m (fv_c0 v) 48) s in
  let s := upd_mem (fun m => store8 m (fv_c1 v) 48) s in
  let s := upd_mem (fun m => store16 m (fv_struct v + ON_LENGTH) 15) s in
  let s := upd_mem (fun m => store16 m (fv_struct v + OFF_LENGTH) 15) s in
  '(fd0, s) ← ece391_open f0 s;
  if fd0 <? 0 then None else
  '(fd1, s) ← ece391_open f1 s;
  if fd1 <? 0 then None else
  frame_rows n fd0 fd1 0 0 0 s.

Fixpoint wait_ticks (n : nat) (rtc_fd : Z) (s : kst) : option kst :=
  match n with
  | O => Some s
  | S n' =>
      '(_, s) ← ece391_read rtc_fd (fv_garbage v) 4 s;
      s ← tasklet s;
      wait_ticks n' rtc_fd s
  end.

(** [mp1_set_video_mode]: the address, 0 when vidmap fails. *)
Definition mp1_set_video_mode (s : kst) : option (Z * kst) :=
  '(r, s) ← ece391_vidmap (vmem_base_addr (fv_data v)) s;
  if r =? -1 then Some (0, s) else Some (load32 (k_mem s) (vmem_base_addr (fv_data v)), s).

Definition fish_main (n : nat) (s : kst) : option (Z * kst) :=
  let s := upd_mem (ece391_memset (blink_array (fv_data v)) 0 (STRUCT_SIZE * NODES)) s in
  '(video, s) ← mp1_set_video_mode s;
  if video =? 0 then Some (-1, s) else
  '(rtc_fd, s) ← ece391_open (fv_rtc v) s;
  s ← add_frames n (fv_file0 v) (fv_file1 v) s;
  let s := upd_mem (fun m => store32 m (fv_ret v) 32) s in
  '(ret_val, s) ← ece391_write rtc_fd (fv_ret v) 4 s;
  let s := upd_mem (fun m => store32 m (fv_ret v) ret_val) s in
  s ← wait_ticks WAIT rtc_fd s;
  let s := upd_mem (fill_struct (fv_main_struct v) (6 * 80 + 60) 73 77 7 6) s in
  '(_, s) ← ioctl (fv_main_struct v) RTC_ADD s;
  s ← wait_ticks WAIT rtc_fd s;
  '(_, s) ← ioctl (Z.lor (Z.shiftl 40 16) (6 * 80 + 60)) RTC_SYNC s;
  s ← wait_ticks WAIT rtc_fd s;
  '(_, s) ← ioctl (6 * 80 + 60) RTC_REMOVE s;
  s ← wait_ticks WAIT rtc_fd s;
  '(_, s) ← ece391_close rtc_fd s;
  Some (0, s).
End Program.

(** ** The pictures *)

(** The request for the place in row [i] and column [j], when one of the two pictures has
    a character there that is not blank. *)
Definition place (i j : Z) (a b : option Z) : list request :=
  if (default 32 a =? 32) && (default 32 b =? 32) then []
  else [Add (i * 80 + j + 40) (default 32 a) (default 32 b) 15 15].

Fixpoint row_from (n : nat) (i j : Z) (l0 l1 : list Z) : list request :=
  match n with
  | O => []
  | S n' => place i j (head l0) (head l1) ++ row_from n' i (j + 1) (tail l0) (tail l1)
  end.

(** The places of a row, from column [j] on. *)
Definition row_places (i j : Z) (l0 l1 : list Z) : list request :=
  row_from (Nat.max (length l0) (length l1)) i j l0 l1.

Fixpoint picture_from (n : nat) (i : Z) (p0 p1 : list (list Z)) : list request :=
  match n with
  | O => []
  | S n' => row_places i 0 (default [] (head p0)) (default [] (head p1)) ++ picture_from n' (i + 1) (tail p0) (tail p1)
  end.

(** The places of both pictures, from row [i] on. *)
Definition picture (i : Z) (p0 p1 : list (list Z)) : list request :=
  picture_from (Nat.max (length p0) (length p1)) i p0 p1.

(** *** Reading line by line *)

(** What is left of a file: a text, or its end has been seen. *)
Inductive remains := Rest (f : list Z) | Ended.

(** The last character and what is left, after [next_char]. *)
Definition step_char (c : Z) (r : remains) : Z * remains :=
  if c =? 10 then (c, r) else
  match r with
  | Rest (x :: f) => (x, Rest f)
  | Rest [] => (10, Ended)
  | Ended => (c, r)
  end.

(** What is to come of the line, and what is left behind it. *)
Definition line_of (c : Z) (r : remains) : list Z :=
  if c =? 10 then [] else match r with Rest f => (cut f).1 | Ended => [] end.
Definition behind (c : Z) (r : remains) : remains :=
  if c =? 10 then r else match r with Rest f => from_option Rest Ended (cut f).2 | Ended => Ended end.

(** The file whose end has been seen gives newlines. *)
Definition left_ok (c : Z) (r : remains) : Prop := r = Ended -> c = 10.

Lemma step_char_line c r x l :
  line_of c r = x :: l ->
  (step_char c r).1 = x /\ x <> 10 /\ line_of x (step_char c r).2 = l /\ behind x (step_char c r).2 = behind c r /\
  left_ok x (step_char c r).2.
Proof.
  unfold line_of, behind, step_char. destruct (c =? 10); [done|]. destruct r as [[|y f]|]; [done| |done]. cbn [cut].
  destruct (Z.eqb_spec y 10) as [|Hy]; [done|]. destruct (cut f) as [l' r'] eqn:E. cbn [fst snd]. intros [= -> ->].
  rewrite (proj2 (Z.eqb_neq _ _) Hy), E. done.
Qed.

Lemma step_char_end c r :
  left_ok c r -> line_of c r = [] ->
  (step_char c r).1 = 10 /\ (step_char c r).2 = behind c r.
Proof.
  unfold left_ok, line_of, behind, step_char. destruct (Z.eqb_spec c 10) as [->|Hc]; [done|]. intros Hok.
  destruct r as [[|y f]|]; [done| |by specialize (Hok eq_refl)]. cbn [cut].
  destruct (Z.eqb_spec y 10) as [->|Hy]; [done|]. by destruct (cut f).
Qed.

Definition eof_of (r : remains) : Z := match r with Rest _ => 0 | Ended => 1 end.

(** The lines to come at the start of a row. *)
Definition lines_of (r : remains) : list (list Z) := match r with Rest f => lines f | Ended => [] end.

Definition start_char (r : remains) : Z := match r with Rest _ => 48 | Ended => 10 end.

Definition size_of (r : remains) : nat := match r with Rest f => S (length f) | Ended => O end.

Lemma lines_start r :
  default [] (head (lines_of r)) = line_of (start_char r) r /\ tail (lines_of r) = lines_of (behind (start_char r) r) /\
  (lines_of r <> [] -> size_of (behind (start_char r) r) < size_of r)%nat /\
  (length (line_of (start_char r) r) <= size_of r)%nat.
Proof.
  destruct r as [f|]; cbn [lines_of start_char line_of behind size_of Z.eqb Pos.eqb]; [|split; [done|]; split; [done|]; split; [done|cbn; lia]].
  rewrite lines_cut. destruct (cut_length f) as [C1 C2]. unfold line_of, behind. cbn [Z.eqb Pos.eqb].
  destruct (cut f) as [l [r|]]; cbn [fst snd from_option] in *.
  - specialize (C2 r eq_refl). split; [done|]. split; [done|]. split; [cbn; lia|]. lia.
  - split; [done|]. split; [done|]. split; [cbn; lia|]. lia.
Qed.

(** The next character is the first one of the line, a newline when there is none. *)
Lemma step_char_cases c r :
  left_ok c r -> let '(c', r') := step_char c r in
  c' = default 10 (head (line_of c r)) /\ line_of c' r' = tail (line_of c r) /\ behind c' r' = behind c r /\ left_ok c' r'.
Proof.
  intros Hok. pose proof (step_char_line c r) as L. pose proof (step_char_end c r Hok) as E.
  destruct (step_char c r) as [c' r']. cbn [fst snd] in *. destruct (line_of c r) as [|x l].
  - destruct (E eq_refl) as [-> ->]. done.
  - destruct (L x l eq_refl) as (-> & _ & <- & <- & K). done.
Qed.

Lemma line_of_chars c r : Forall (fun x => x <> 10) (line_of c r).
Proof.
  unfold line_of. destruct (c =? 10); [constructor|]. destruct r as [f|]; [|constructor].
  induction f as [|x f IH]; cbn [cut]; [constructor|]. destruct (Z.eqb_spec x 10); [constructor|]. by destruct (cut f); constructor.
Qed.

Lemma row_places_step i j l0 l1 :
  (l0 = [] -> l1 <> []) ->
  row_places i j l0 l1 = place i j (head l0) (head l1) ++ row_places i (j + 1) (tail l0) (tail l1).
Proof.
  intros Hn. unfold row_places. destruct l0 as [|x l0], l1 as [|y l1]; cbn [length Nat.max row_from head tail];
    [by specialize (Hn eq_refl)|done|by rewrite Nat.max_0_r|done].
Qed.

Lemma picture_step i p0 p1 :
  p0 <> [] \/ p1 <> [] ->
  picture i p0 p1 = row_places i 0 (default [] (head p0)) (default [] (head p1)) ++ picture (i + 1) (tail p0) (tail p1).
Proof.
  intros Hn. unfold picture. destruct p0 as [|x p0], p1 as [|y p1]; cbn [length Nat.max picture_from head tail];
    [by destruct Hn|done|by rewrite Nat.max_0_r|done].
Qed.

Lemma board_run_app l1 l2 B : (board_run (l1 ++ l2) B).2 = (board_run l2 (board_run l1 B).2).2.
Proof.
  revert B. induction l1 as [|r l1 IH]; intros B; [done|]. cbn [app board_run]. destruct (board_serve r B) as [v B1].
  specialize (IH B1). destruct (board_run (l1 ++ l2) B1) as [vs B2]. destruct (board_run l1 B1) as [vs' B3]. exact IH.
Qed.

(** ** The state between two calls *)

(** A file that is being read: its descriptor, its inode and the address of its character. *)
Record source := mkSource { so_fd : Z; so_inode : Z; so_char : Z }.

Section World.
Context `{Ports} `{Layout} `{Traps} (v : fish_vars).
Context (fs : filesys) (pcb dir t : Z) (UL : user_layout fs pcb open_local).
Context (FL : fish_layout (fv_data v) dir t (fv_struct v)).

(** The entries of the page tables that lead to the screen are apart from the objects of the
    kernel. *)
Context (HD : Forall (rdisj (dir + 4 * USER_VMEM, 4)) (kernel_objects fs pcb open_local)).
Context (HP : Forall (rdisj (4096 * t + 4 * 0xB8, 4)) (kernel_objects fs pcb open_local)).

(** The character of a source is apart from the variables of the board. *)
Definition char_ok (c : Z) : Prop :=
  PROG_LO <= c /\ disj (blink_array (fv_data v)) (STRUCT_SIZE * NODES) c 1 /\ disj (mp1_list_head (fv_data v)) 4 c 1 /\
  disj (vmem_base_addr (fv_data v)) 4 c 1 /\ disj (fi_tmp (fv_data v)) STRUCT_SIZE c 1 /\ disj (fv_struct v) STRUCT_SIZE c 1.

Definition source_at (a : source) (r : remains) (s : kst) : Prop :=
  match r with
  | Rest f => exists pos, reading fs pcb (so_fd a) (so_inode a) pos s /\
      drop (Z.to_nat pos) (file_bytes fs (k_mem s) (so_inode a)) = f
  | Ended => (exists pos, reading fs pcb (so_fd a) (so_inode a) pos s) \/ fd_open (so_fd a) s = false
  end.

Record sources_ok (a b : source) : Prop := {
  sk_fds : 2 <= so_fd a < 8 /\ 2 <= so_fd b < 8 /\ so_fd a <> so_fd b;
  sk_chars : char_ok (so_char a) /\ char_ok (so_char b) /\ so_char a <> so_char b
}.

Record world (a b : source) (ca cb : Z) (ra rb : remains) (B : board) (s : kst) : Prop := {
  w_proc : k_fs s = fs /\ cur_pcb s = pcb /\ ret_dir_ptr s = dir;
  w_a : source_at a ra s /\ load8 (k_mem s) (so_char a) = ca;
  w_b : source_at b rb s /\ load8 (k_mem s) (so_char b) = cb;
  w_board : shows_board (fv_data v) dir t (k_mem s) B;
  w_struct : load16 (k_mem s) (fv_struct v + ON_LENGTH) = 15 /\ load16 (k_mem s) (fv_struct v + OFF_LENGTH) = 15
}.

Lemma sources_swap a b : sources_ok a b -> sources_ok b a.
Proof using Type. intros [(F1 & F2 & F3) (C1 & C2 & C3)]. split; [split; [|split]|split; [|split]]; done. Qed.

Lemma world_swap a b ca cb ra rb B s : world a b ca cb ra rb B s -> world b a cb ca rb ra B s.
Proof using Type. intros [W1 W2 W3 W4 W5]. by split. Qed.

(** A step that leaves a source alone. *)
Lemma source_moved P a r s s' :
  source_at a r s -> unchanged P (k_mem s) (k_mem s') -> same_process s s' -> cur_pcb s = pcb ->
  (forall x, P x -> ~ in_region (image fs) x) -> (forall x, in_region (fd_region pcb (so_fd a)) x -> ~ P x) ->
  source_at a r s'.
Proof using Type.
  intros Ha U PR Ep Hi Hf. destruct r as [f|]; cbn [source_at] in *.
  - destruct Ha as (pos & R & Ef). destruct (reading_unchanged P fs pcb _ _ _ s s' R U PR Hi Hf) as (R' & _ & Eb).
    exists pos. split; [exact R'|]. by rewrite Eb.
  - destruct Ha as [(pos & R)|Ho].
    + left. exists pos. by apply (reading_unchanged P fs pcb _ _ _ s s' R U PR Hi Hf).
    + right. destruct PR as [P1 _]. rewrite <- Ho. unfold fd_open, fd_used. rewrite P1, Ep.
      by rewrite (fd_get_unchanged P (k_mem s) (k_mem s')) by (first [exact U|exact Hf|unfold FD_FLAGS; lia]).
Qed.

(** The objects of the kernel are off the board. *)
Lemma kernel_off_board r : r ∈ kernel_objects fs pcb open_local ->
  off_board (fv_data v) dir t (in_region r) /\
  (forall k, 0 <= k < NODES -> ~ in_region r (VIDEO + 2 * k)).
Proof using UL FL HD HP.
  intros Hr. pose proof (proj1 (Forall_forall _ _) (ul_low _ _ _ UL) r Hr) as L.
  pose proof (proj1 (Forall_forall _ _) (ul_screen _ _ _ UL) r Hr) as S.
  pose proof (proj1 (Forall_forall _ _) HD r Hr) as D. pose proof (proj1 (Forall_forall _ _) HP r Hr) as T.
  pose proof (fl_array _ _ _ _ FL) as [La _]. pose proof (fl_head _ _ _ _ FL) as [Lh _]. pose proof (fl_vmem _ _ _ _ FL) as [Lv _].
  cbn [fst snd] in *. unfold rdisj, disj, screen_region, NUM_ROWS, NUM_COLS in *. cbn [fst snd] in *.
  split; [split; [|split; [|split; [|split]]]|]; unfold in_region, in_range, NODES in *; intros x Hx; lia.
Qed.

Lemma pcb_object : pcb_region pcb ∈ kernel_objects fs pcb open_local.
Proof using Type. unfold kernel_objects. repeat first [left | right]. Qed.

(** Writes to objects of the kernel. *)
Lemma kernel_frame (P : Z -> Prop) :
  (forall x, P x -> exists r, r ∈ kernel_objects fs pcb open_local /\ in_region r x) ->
  off_board (fv_data v) dir t P /\ (forall k, 0 <= k < NODES -> ~ P (VIDEO + 2 * k)) /\ (forall x, P x -> x < PROG_LO).
Proof using UL FL HD HP.
  intros HK. split; [split; [|split; [|split; [|split]]]|split].
  1-5: intros x Hx Hp; destruct (HK x Hp) as (r & Hr & Hin); destruct (kernel_off_board r Hr) as [(O1 & O2 & O3 & O4 & O5) _]; naive_solver.
  - intros k Hk Hp. destruct (HK _ Hp) as (r & Hr & Hin). destruct (kernel_off_board r Hr) as [_ Hs]. by apply (Hs k).
  - intros x Hp. destruct (HK x Hp) as (r & Hr & Hin). pose proof (proj1 (Forall_forall _ _) (ul_low _ _ _ UL) r Hr) as L.
    unfold in_region, in_range in Hin. cbn in L. lia.
Qed.

Lemma board_kept P m m' B :
  shows_board (fv_data v) dir t m B -> unchanged P m m' -> off_board (fv_data v) dir t P ->
  (forall k, 0 <= k < NODES -> ~ P (VIDEO + 2 * k)) -> shows_board (fv_data v) dir t m' B.
Proof using FL.
  intros [ps HB] U O Hs. exists ps. destruct B as [l scr]. eapply (board_off _ _ _ _ FL P ps m m' (mkBoard l scr)); [exact HB|exact U|exact O|].
  intros k Hk. rewrite (unchanged_load8 P m m') by (first [exact U|by apply Hs]). by apply (ba_screen _ _ _ _ _ _ HB).
Qed.

(** What the calls for one source write. *)
Definition side_frame (a : source) (x : Z) : Prop :=
  in_range (so_char a) 1 x \/ in_region (fd_region pcb (so_fd a)) x \/
  in_region (dentry_region open_dentry) x \/ in_region (dentry_region read_dentry) x.

Lemma side_frame_facts a b m B :
  sources_ok a b -> shows_board (fv_data v) dir t m B ->
  (forall x, side_frame a x -> ~ in_region (image fs) x) /\
  (forall x, in_region (fd_region pcb (so_fd b)) x -> ~ side_frame a x) /\
  (~ side_frame a (so_char b)) /\
  (forall x, in_range (fv_struct v) STRUCT_SIZE x -> ~ side_frame a x) /\
  off_board (fv_data v) dir t (side_frame a) /\ (forall k, 0 <= k < NODES -> ~ side_frame a (VIDEO + 2 * k)).
Proof using UL FL HD HP.
  intros [(Fa & Fb & Fne) ((Ca & C1 & C2 & C3 & C4 & C5) & (Cb & _) & Cne)] [ps HB].
  destruct (user_bounds fs pcb UL) as ((Lp & _) & (Li & _) & Dpi). pose proof (ba_map _ _ _ _ _ _ HB) as (Ht & _). clear HB.
  pose proof UL as [[_ _ _ I1 _ _ _ I2] _ _ _ _ I3 I4 L _].
  unfold kernel_objects in L. rewrite !Forall_cons in L. destruct L as (_ & L1 & _ & _ & _ & L2 & _).
  pose proof (fl_arg _ _ _ _ FL) as [Ls _].
  split; [|split; [|split; [|split; [|split]]]].
  - unfold side_frame, rdisj, disj, in_region, in_range, fd_region, pcb_region, PCB_SIZE in *. cbn [fst snd] in *.
    clear - Ca Fa Li Dpi I1 I3. lia.
  - unfold side_frame, rdisj, disj, in_region, in_range, fd_region, pcb_region, PCB_SIZE in *. cbn [fst snd] in *.
    clear - Ca Fa Fb Fne Lp I2 I4. lia.
  - unfold side_frame, in_region, in_range, fd_region, PCB_SIZE in *. cbn [fst snd] in *. clear - Cb Cne Fa Lp L1 L2. lia.
  - unfold side_frame, disj, in_region, in_range, fd_region, PCB_SIZE in *. cbn [fst snd] in *. clear - C5 Ls Fa Lp L1 L2. lia.
  - destruct (kernel_off_board (pcb_region pcb) pcb_object) as [(A1 & A2 & A3 & A4 & A5) _].
    assert (O2 : dentry_region open_dentry ∈ kernel_objects fs pcb open_local) by (unfold kernel_objects; repeat first [left | right]).
    assert (O3 : dentry_region read_dentry ∈ kernel_objects fs pcb open_local) by (unfold kernel_objects; repeat first [left | right]).
    destruct (kernel_off_board _ O2) as [(B1 & B2 & B3 & B4 & B5) _]. destruct (kernel_off_board _ O3) as [(E1 & E2 & E3 & E4 & E5) _].
    pose proof (fl_dir _ _ _ _ FL) as [Ld _].
    assert (Fp : forall x, in_region (fd_region pcb (so_fd a)) x -> in_region (pcb_region pcb) x).
    { clear - Fa. unfold in_region, in_range, fd_region, pcb_region, PCB_SIZE. cbn [fst snd]. lia. }
    split; [|split; [|split; [|split]]]; intros x Hx [Hc|[Hc|[Hc|Hc]]];
      try (apply Fp in Hc; first [by eapply A1|by eapply A2|by eapply A3|by eapply A4|by eapply A5]);
      try (first [by eapply B1|by eapply B2|by eapply B3|by eapply B4|by eapply B5]);
      try (first [by eapply E1|by eapply E2|by eapply E3|by eapply E4|by eapply E5]);
      unfold disj, in_range, PROG_LO, USER_VMEM in *; [clear - C1 Hx Hc|clear - C2 Hx Hc|clear - C3 Hx Hc|clear - Ca Ld Hx Hc|clear - Ca Ht Hx Hc]; lia.
  - intros k Hk Hc. destruct (user_bounds fs pcb UL) as ((_ & Sp) & _). pose proof (ul_screen _ _ _ UL) as S.
    unfold kernel_objects in S. rewrite !Forall_cons in S. destruct S as (_ & S1 & _ & _ & _ & S2 & _).
    unfold side_frame, rdisj, disj, in_region, in_range, fd_region, pcb_region, screen_region, PCB_SIZE, NODES, NUM_ROWS, NUM_COLS,
      PROG_LO, VIDEO in *. cbn [fst snd] in *. clear - Sp S1 S2 Hc Hk Fa Ca. lia.
Qed.

(** A step inside the frame of the first source. *)
Lemma side_step a b ca cb ra rb B s ca' ra' m' :
  sources_ok a b -> world a b ca cb ra rb B s -> unchanged (side_frame a) (k_mem s) m' ->
  source_at a ra' (set_k_mem m' s) -> load8 m' (so_char a) = ca' ->
  world a b ca' cb ra' rb B (set_k_mem m' s).
Proof using UL FL HD HP.
  intros SK W U Sa Ea. pose proof W as [(W1 & W2 & W3) _ [Wb Wcb] W4 [W5 W6]].
  destruct (side_frame_facts a b (k_mem s) B SK W4) as (O1 & O2 & O3 & O4 & O5 & O6). split.
  - done.
  - by split.
  - split; [|cbn [k_mem set_k_mem]; by rewrite (unchanged_load8 _ _ _ _ U)].
    eapply source_moved; [exact Wb|exact U|by split|exact W2|exact O1|exact O2].
  - by eapply board_kept.
  - cbn [k_mem set_k_mem]. rewrite !(load16_unchanged _ _ _ _ U); [done|intros x Hx; apply O4..];
      unfold in_range, ON_LENGTH, OFF_LENGTH, STRUCT_SIZE in *; lia.
Qed.

(** The length of what is left. *)
Lemma reading_rest fd inode pos s f :
  reading fs pcb fd inode pos s -> drop (Z.to_nat pos) (file_bytes fs (k_mem s) inode) = f ->
  0 <= pos /\ file_size fs (k_mem s) inode - pos = Z.of_nat (length f).
Proof using Type.
  intros (_ & _ & _ & (_ & _ & Hp & _) & _) Hf. split; [lia|]. rewrite <- Hf, length_drop. unfold file_bytes.
  rewrite length_file_slice. lia.
Qed.

Lemma next_char_spec a b ca cb ra rb B s :
  sources_ok a b -> world a b ca cb ra rb B s -> left_ok ca ra ->
  let '(ca', ra') := step_char ca ra in
  exists s', next_char (so_fd a) (so_char a) (eof_of ra) s = Some (eof_of ra', s') /\ world a b ca' cb ra' rb B s'.
Proof using UL FL HD HP.
  intros SK W Hok. pose proof W as [(W1 & W2 & W3) [Wa Wc] _ _ _]. unfold step_char, next_char. rewrite Wc.
  destruct (ca =? 10) eqn:E10; [by exists s|]. destruct ra as [f|]; [|by rewrite (Hok eq_refl) in E10].
  destruct Wa as (pos & R & Ef). destruct (reading_rest _ _ _ _ _ R Ef) as [Hp Hsz].
  pose proof SK as [(Fa & _) ((Ca & _) & _)]. destruct (user_bounds fs pcb UL) as ((Lp & _) & (Li & _) & Dpi). unfold PCB_SIZE in Lp.
  assert (D1 : rdisj (so_char a, 1) (image fs)) by (unfold rdisj, disj; cbn [fst snd]; lia).
  assert (D2 : rdisj (so_char a, 1) (fd_region pcb (so_fd a))) by (unfold rdisj, disj, fd_region; cbn [fst snd]; lia).
  assert (D3 : rdisj (fd_region pcb (so_fd a)) (image fs))
    by (unfold rdisj, disj, fd_region, pcb_region, PCB_SIZE in *; cbn [fst snd] in *; lia).
  destruct (sys_read_file fs pcb (so_fd a) (so_inode a) (so_char a) 1 ltac:(lia) ltac:(unfold PROG_LO in *; lia)
    ltac:(lia) D1 D2 D3 (arrivals s) pos s R) as (m' & E & Bs & U & Es & Eb & R').
  rewrite Hsz in *. assert (U' : unchanged (side_frame a) (k_mem s) m').
  { eapply unchanged_weaken; [|exact U]. intros x [Hx|Hx]; [by left|right; by left]. }
  rewrite ece391_read_eq, E. cbn [mbind option_bind]. destruct f as [|x f]; cbn [length] in *.
  - replace (Z.min 1 (Z.of_nat 0)) with 0 in * by lia. cbn [Z.eqb].
    exists (set_k_mem (store8 m' (so_char a) 10) s). split; [done|].
    assert (U2 : unchanged (side_frame a) m' (store8 m' (so_char a) 10)) by (apply unchanged_store8; left; unfold in_range; lia).
    eapply side_step; [exact SK|exact W|by eapply unchanged_trans| |by rewrite load8_store8_eq].
    left. exists (pos + 0).
    apply (reading_unchanged (in_range (so_char a) 1) fs pcb _ _ _ (set_k_mem m' s) _ R');
      [apply unchanged_store8; unfold in_range; lia|by split|clear - D1|clear - D2];
      unfold rdisj, disj, in_region, in_range in *; cbn [fst snd] in *; lia.
  - replace (Z.min 1 (Z.of_nat (S (length f)))) with 1 in * by lia. cbn [Z.eqb].
    exists (set_k_mem m' s). split; [done|].
    change (Z.to_nat 1) with 1%nat in Bs. rewrite bytes_S in Bs.
    assert (Hsl : file_slice fs (k_mem s) (so_inode a) pos 1 = [x]).
    { change 1%nat with (Z.to_nat 1). rewrite file_slice_take_drop by lia. by rewrite Ef. }
    rewrite Hsl in Bs. eapply side_step; [exact SK|exact W|exact U'| |by injection Bs].
    exists (pos + 1). split; [exact R'|]. cbn [k_mem set_k_mem]. rewrite Eb.
    replace (Z.to_nat (pos + 1)) with (Z.to_nat pos + 1)%nat by lia. by rewrite <- drop_drop, Ef.
Qed.

(** ** One place *)

Context (a b : source) (SK : sources_ok a b) (Ea : so_char a = fv_c0 v) (Eb : so_char b = fv_c1 v).
Context (fuel : nat).

(** What a request writes. *)
Definition place_frame (x : Z) : Prop := in_range (fv_struct v) STRUCT_SIZE x \/ add_frame (fv_data v) x.

Lemma place_frame_facts :
  (forall x, place_frame x -> ~ in_region (image fs) x) /\
  (forall c, c = a \/ c = b -> (forall x, in_region (fd_region pcb (so_fd c)) x -> ~ place_frame x) /\ ~ place_frame (so_char c)) /\
  (forall x, in_range (fv_struct v) STRUCT_SIZE x -> ~ add_frame (fv_data v) x).
Proof using UL FL SK.
  destruct (user_bounds fs pcb UL) as ((Lp & Sp) & (Li & Si) & _). destruct SK as [(Fa & Fb & _) (Ca & Cb & _)].
  pose proof (fl_array _ _ _ _ FL) as [La _]. pose proof (fl_head _ _ _ _ FL) as [Lh _]. pose proof (fl_tmp _ _ _ _ FL) as [Lt _].
  pose proof (fl_arg _ _ _ _ FL) as [Ls _]. split; [|split].
  - intros x Hx Hi. unfold place_frame, add_frame, rdisj, disj, in_region, in_range, screen_region, NUM_ROWS, NUM_COLS, NODES in *.
    cbn [fst snd] in *. clear - Hx Hi Li Si La Lh Lt Ls. lia.
  - intros c Hc. assert (Fc : 2 <= so_fd c < 8) by (destruct Hc as [-> | ->]; assumption).
    assert (Cc : char_ok (so_char c)) by (destruct Hc as [-> | ->]; assumption). clear Fa Fb Ca Cb Hc.
    destruct Cc as (Cp & C1 & C2 & _ & C4 & C5). split.
    + intros x Hf Hx. unfold place_frame, add_frame, rdisj, disj, in_region, in_range, screen_region, pcb_region, fd_region, PCB_SIZE, NUM_ROWS,
        NUM_COLS, NODES in *. cbn [fst snd] in *. clear - Hx Hf Fc Lp Sp La Lh Lt Ls. lia.
    + unfold place_frame, add_frame, disj, in_range, STRUCT_SIZE, NODES, VIDEO, PROG_LO in *. clear - Cp C1 C2 C4 C5. lia.
  - pose proof (fl_array_arg _ _ _ _ FL) as D1. pose proof (fl_head_arg _ _ _ _ FL) as D2. pose proof (fl_tmp_arg _ _ _ _ FL) as D3.
    intros x Hx Hf. unfold add_frame, disj, in_range, STRUCT_SIZE, NODES, VIDEO, PROG_LO in *. clear - Hx Hf Ls D1 D2 D3. lia.
Qed.

(** The structure [fill_place] leaves. *)
Lemma fill_place_spec ca cb ra rb B s row col :
  world a b ca cb ra rb B s -> 0 < row * 80 + col + 40 < 65536 ->
  let s1 := fill_place v row col s in
  s1 = set_k_mem (k_mem s1) s /\ unchanged (in_range (fv_struct v) STRUCT_SIZE) (k_mem s) (k_mem s1) /\
  exists c st, node (k_mem s1) (fv_struct v) =
    mkBlink (row * 80 + col + 40) (shown_char ca) (shown_char cb) 15 15 c st.
Proof using Ea Eb.
  intros [_ [_ Wa] [_ Wb] _ [W5 W6]] Hl. rewrite Ea in Wa. rewrite Eb in Wb.
  assert (Ra : 0 <= shown_char ca < 256) by (unfold shown_char; destruct (ca =? 10); [lia|rewrite <- Wa; apply load8_range]).
  assert (Rb : 0 <= shown_char cb < 256) by (unfold shown_char; destruct (cb =? 10); [lia|rewrite <- Wb; apply load8_range]).
  unfold fill_place. rewrite Wa, Wb. cbn [k_mem upd_mem set_k_mem]. split; [done|].
  unfold ON_CHAR, OFF_CHAR, LOCATION, STRUCT_SIZE, ON_LENGTH, OFF_LENGTH in *. split.
  - eapply unchanged_trans; [|apply unchanged_store16; unfold in_range; lia].
    eapply unchanged_trans; apply unchanged_store8; unfold in_range; lia.
  - do 2 eexists. unfold node, LOCATION, ON_CHAR, OFF_CHAR, ON_LENGTH, OFF_LENGTH.
    rewrite load16_store16_eq, !load8_store16_ne, !load16_store16_ne by lia.
    rewrite (load8_store8_ne _ (fv_struct v + 3) _ (fv_struct v + 2)), !load8_store8_eq by lia.
    assert (L : forall o, 4 <= o -> load16 (store8 (store8 (k_mem s) (fv_struct v + 2) (shown_char ca)) (fv_struct v + 3) (shown_char cb))
      (fv_struct v + o) = load16 (k_mem s) (fv_struct v + o)) by (intros o Ho; unfold load16; by rewrite !load8_store8_ne by lia).
    rewrite !L, W5, W6, u16_small, !u8_small by lia. reflexivity.
Qed.

Definition place_requests (row col ca cb : Z) : list request :=
  if (negb (ca =? 32) && negb (ca =? 10)) || (negb (cb =? 32) && negb (cb =? 10))
  then [Add (row * 80 + col + 40) (shown_char ca) (shown_char cb) 15 15] else [].

Lemma place_step ca cb ra rb B s row col :
  world a b ca cb ra rb B s -> Forall request_ok (place_requests row col ca cb) ->
  exists s', (if (negb (ca =? 32) && negb (ca =? 10)) || (negb (cb =? 32) && negb (cb =? 10))
     then ('(_, s) ← ioctl v fuel (fv_struct v) RTC_ADD (fill_place v row col s); Some s) else Some s) = Some s' /\
    world a b ca cb ra rb (board_run (place_requests row col ca cb) B).2 s'.
Proof using UL FL HD HP SK Ea Eb.
  intros W Hr. unfold place_requests in *. destruct (_ || _); [|by exists s].
  apply Forall_cons in Hr as [Hr _]. unfold request_ok in Hr. destruct Hr as (R1 & R2 & R3 & R4 & R5).
  pose proof W as [(W1 & W2 & W3) [Wa Wca] [Wb Wcb] Wbd [W5 W6]].
  destruct (fill_place_spec ca cb ra rb B s row col W R1) as (Es & U1 & c & st & N1). set (s1 := fill_place v row col s) in *.
  assert (B1 : shows_board (fv_data v) dir t (k_mem s1) B).
  { destruct Wbd as [ps HB]. exists ps. eapply (board_program _ _ _ _ FL); [exact HB|exact U1|apply FL..]. }
  destruct B1 as [ps HB]. pose proof (add_struct_spec _ _ _ _ FL ps (k_mem s1) B _ _ _ _ _ c st HB N1 R1 R2 R4) as K.
  cbn [board_run]. destruct (board_serve _ B) as [r B']. destruct K as (ps' & m' & E & K & U2). cbn [snd].
  exists (set_k_mem m' s). unfold ioctl.
  assert (Ed : ret_dir_ptr s1 = dir) by (rewrite Es, <- W3; reflexivity). rewrite Ed.
  change (mp1_ioctl (fv_data v) dir fuel (fv_struct v) RTC_ADD (k_mem s1)) with (mp1_ioctl_add (fv_data v) dir (fv_struct v) (k_mem s1)).
  rewrite E. cbn [mbind option_bind]. split; [by rewrite Es|].
  assert (U : unchanged place_frame (k_mem s) m').
  { eapply unchanged_trans; (eapply unchanged_weaken; [|eassumption]); [by left|by right]. }
  destruct place_frame_facts as (F1 & F2 & F3). destruct (F2 a ltac:(by left)) as [Fa Ca]. destruct (F2 b ltac:(by right)) as [Fb Cb].
  split.
  - done.
  - split; [|cbn [k_mem set_k_mem]; by rewrite (unchanged_load8 _ _ _ _ U)].
    eapply source_moved; [exact Wa|exact U|by split|exact W2|exact F1|exact Fa].
  - split; [|cbn [k_mem set_k_mem]; by rewrite (unchanged_load8 _ _ _ _ U)].
    eapply source_moved; [exact Wb|exact U|by split|exact W2|exact F1|exact Fb].
  - by exists ps'.
  - pose proof (f_equal b_on_length N1) as L1. pose proof (f_equal b_off_length N1) as L2. cbn [b_on_length b_off_length node] in L1, L2.
    cbn [k_mem set_k_mem]. rewrite !(load16_unchanged _ _ _ _ U2); [done|intros x Hx; apply F3..];
      unfold in_range, ON_LENGTH, OFF_LENGTH, STRUCT_SIZE in *; lia.
Qed.

(** ** One row *)

(** The test of the program, on what is left of the lines. *)
Lemma place_requests_eq row col (x y : option Z) :
  x <> Some 10 -> y <> Some 10 ->
  place_requests row col (default 10 x) (default 10 y) = place row col x y.
Proof using Type.
  intros Hx Hy. unfold place_requests, place, shown_char.
  destruct x as [x|], y as [y|]; cbn [default from_option id]; rewrite ?(proj2 (Z.eqb_neq x 10)), ?(proj2 (Z.eqb_neq y 10)) by congruence;
    cbn [Z.eqb Pos.eqb negb andb orb]; rewrite ?andb_true_r, ?andb_false_r, ?orb_false_r;
    repeat match goal with |- context [?z =? 32] => destruct (z =? 32) end; done.
Qed.

Lemma frame_row_spec row n : forall col ca cb ra rb B s,
  world a b ca cb ra rb B s -> left_ok ca ra -> left_ok cb rb ->
  (Nat.max (length (line_of ca ra)) (length (line_of cb rb)) < n)%nat ->
  Forall request_ok (row_places row col (line_of ca ra) (line_of cb rb)) ->
  exists s', frame_row v fuel n (so_fd a) (so_fd b) row col (eof_of ra) (eof_of rb) s =
      Some (eof_of (behind ca ra), eof_of (behind cb rb), s') /\
    world a b 10 10 (behind ca ra) (behind cb rb) (board_run (row_places row col (line_of ca ra) (line_of cb rb)) B).2 s'.
Proof using UL FL HD HP SK Ea Eb.
  induction n as [|n IH]; intros col ca cb ra rb B s W Ka Kb Hn Hr; [lia|]. cbn [frame_row]. rewrite <- Ea, <- Eb.
  pose proof (next_char_spec a b ca cb ra rb B s SK W Ka) as N1. pose proof (step_char_cases ca ra Ka) as C1.
  destruct (step_char ca ra) as [ca' ra']. destruct N1 as (s1 & -> & W1). destruct C1 as (Ca & La & Ba & Ka').
  cbn [mbind option_bind].
  pose proof (next_char_spec b a cb ca' rb ra' B s1 (sources_swap _ _ SK) (world_swap _ _ _ _ _ _ _ _ W1) Kb) as N2.
  pose proof (step_char_cases cb rb Kb) as C2. destruct (step_char cb rb) as [cb' rb'].
  destruct N2 as (s2 & -> & W2). destruct C2 as (Cb & Lb & Bb & Kb'). apply world_swap in W2. cbn [mbind option_bind].
  pose proof W2 as [_ [_ Va] [_ Vb] _ _]. rewrite Va, Vb.
  pose proof (line_of_chars ca ra) as Fa. pose proof (line_of_chars cb rb) as Fb.
  set (la := line_of ca ra) in *. set (lb := line_of cb rb) in *. clearbody la lb.
  destruct ((ca' =? 10) && (cb' =? 10)) eqn:E10.
  - assert (la = [] /\ lb = []) as [-> ->].
    { apply andb_true_iff in E10 as [E1 E2]. apply Z.eqb_eq in E1, E2. rewrite E1 in Ca. rewrite E2 in Cb.
      split; [destruct la as [|x l]; [done|]|destruct lb as [|x l]; [done|]]; [inversion_clear Fa|inversion_clear Fb]; cbn in *; congruence. }
    cbn [row_places row_from length Nat.max board_run snd]. exists s2. cbn in Ca, Cb. subst ca' cb'.
    change (behind 10 ra') with ra' in Ba. change (behind 10 rb') with rb' in Bb.
    rewrite <- Ba, <- Bb. split; [done|exact W2].
  - rewrite row_places_step in Hr |- * by (intros -> ->; cbn in Ca, Cb; subst; done). rewrite <- La, <- Lb in *.
    assert (Ep : place row col (head la) (head lb) = place_requests row col ca' cb').
    { rewrite Ca, Cb. symmetry. apply place_requests_eq; [destruct la|destruct lb]; cbn; try done; [inversion_clear Fa|inversion_clear Fb]; congruence. }
    rewrite Ep in *. apply Forall_app in Hr as [Hr1 Hr2].
    destruct (place_step ca' cb' ra' rb' B s2 row col W2 Hr1) as (s3 & E3 & W3). rewrite E3. cbn [mbind option_bind].
    destruct (IH (col + 1) ca' cb' ra' rb' _ s3 W3 Ka' Kb') as (s4 & E4 & W4); [|exact Hr2|].
    + rewrite La, Lb. destruct la, lb; cbn in *; lia.
    + exists s4. rewrite board_run_app, <- Ba, <- Bb. by split.
Qed.

(** ** Between two rows *)

Lemma end_row_spec c d cc cd rc rd B s :
  sources_ok c d -> world c d 10 cd rc rd B s -> cc = start_char rc ->
  exists s', end_row (so_fd c) (so_char c) (eof_of rc) s = Some s' /\ world c d cc cd rc rd B s'.
Proof using UL FL HD HP.
  intros SC W ->. pose proof W as [(W1 & W2 & W3) [Wc Wcc] _ _ _]. unfold end_row.
  set (x := start_char rc). set (m1 := store8 (k_mem s) (so_char c) x).
  assert (U1 : unchanged (in_range (so_char c) 1) (k_mem s) m1) by (apply unchanged_store8; unfold in_range; lia).
  assert (U1' : unchanged (side_frame c) (k_mem s) m1) by (eapply unchanged_weaken; [|exact U1]; by left).
  assert (L1 : load8 m1 (so_char c) = x) by (unfold m1; rewrite load8_store8_eq; apply u8_small; unfold x; destruct rc; cbn; lia).
  pose proof SC as [(Fc & _) ((Cp & _) & _)]. destruct (user_bounds fs pcb UL) as ((Lp & _) & (Li & _) & _). unfold PCB_SIZE in Lp.
  assert (Sc : source_at c rc (set_k_mem m1 s)).
  { eapply source_moved; [exact Wc|exact U1|by split|exact W2| |]; intros y Hy Hz;
      unfold in_region, in_range, fd_region in *; cbn [fst snd] in *; lia. }
  pose proof (side_step c d 10 cd rc rd B s x rc m1 SC W U1' Sc L1) as V.
  destruct rc as [f|]; cbn [eof_of start_char] in *; cbn [Z.eqb negb].
  { by exists (set_k_mem m1 s). }
  change (upd_mem (fun m => store8 m (so_char c) 10) s) with (set_k_mem m1 s). rewrite ece391_close_eq.
  destruct Sc as [(pos & R)|Ho].
  - pose proof R as (R1 & R2 & R3 & R4 & R5). destruct UL as [[_ _ _ _ _ _ _ I2] _ _ _ _ _ I4 _ _].
    destruct (sys_close_file_kept (so_fd c) (so_inode c) pos (set_k_mem m1 s) Fc) as (m2 & E & Rel & U2);
      [by rewrite R1, R2|by rewrite R2|by rewrite R2|].
    rewrite E. cbn [mbind option_bind]. eexists. split; [done|]. rewrite R2 in Rel, U2.
    eapply side_step; [exact SC|exact V| | |].
    + cbn [k_mem set_k_mem]. eapply unchanged_weaken; [|exact U2]. intros y Hy. right. exact Hy.
    + right. specialize (Rel (so_fd c) ltac:(lia)). rewrite Z.eqb_refl in Rel. unfold fd_open. cbn [k_mem cur_pcb set_k_mem]. by rewrite W2.
    + rewrite (unchanged_load8 _ _ _ _ U2); [exact L1|].
      pose proof (ul_low _ _ _ UL) as L. unfold kernel_objects in L. rewrite !Forall_cons in L. destruct L as (_ & L2 & _ & _ & _ & L3 & _).
      unfold file_close_writes, in_region, in_range, fd_region in *. cbn [fst snd] in *. lia.
  - exists (set_k_mem m1 s). split; [|exact V]. unfold sys_close_c.
    replace ((so_fd c <? 2) || (FD_SIZE <? so_fd c)) with false by (unfold FD_SIZE; lia). by rewrite Ho.
Qed.

(** ** All rows *)

Lemma frame_rows_spec n : forall row ra rb B s,
  world a b (start_char ra) (start_char rb) ra rb B s -> (size_of ra + size_of rb < n)%nat ->
  Forall request_ok (picture row (lines_of ra) (lines_of rb)) ->
  exists s', frame_rows v fuel n (so_fd a) (so_fd b) row (eof_of ra) (eof_of rb) s = Some s' /\
    world a b 10 10 Ended Ended (board_run (picture row (lines_of ra) (lines_of rb)) B).2 s'.
Proof using UL FL HD HP SK Ea Eb.
  induction n as [|n IH]; intros row ra rb B s W Hn Hr; [lia|]. cbn [frame_rows].
  destruct ((eof_of ra =? 0) || (eof_of rb =? 0)) eqn:Ee.
  2: { destruct ra, rb; try done. by exists s. }
  destruct (lines_start ra) as (Ha & Ta & Sa & Na). destruct (lines_start rb) as (Hb & Tb & Sb & Nb).
  rewrite picture_step in Hr |- * by (destruct ra, rb; [left; apply lines_nonempty|left; apply lines_nonempty|right; apply lines_nonempty|done]).
  rewrite Ha, Hb, Ta, Tb in *. apply Forall_app in Hr as [Hr1 Hr2].
  assert (Ka : left_ok (start_char ra) ra) by (intros ->; done). assert (Kb : left_ok (start_char rb) rb) by (intros ->; done).
  destruct (frame_row_spec row (S n) 0 _ _ _ _ B s W Ka Kb) as (s1 & E1 & W1); [lia|exact Hr1|].
  rewrite E1. cbn [mbind option_bind]. set (ra' := behind _ ra) in *. set (rb' := behind _ rb) in *.
  destruct (end_row_spec a b (start_char ra') 10 ra' rb' _ s1 SK W1 eq_refl) as (s2 & E2 & W2).
  rewrite <- Ea, <- Eb, E2. cbn [mbind option_bind].
  destruct (end_row_spec b a (start_char rb') (start_char ra') rb' ra' _ s2 (sources_swap _ _ SK) (world_swap _ _ _ _ _ _ _ _ W2) eq_refl)
    as (s3 & E3 & W3). rewrite E3. cbn [mbind option_bind]. apply world_swap in W3.
  destruct (IH (row + 1) ra' rb' _ s3 W3) as (s4 & E4 & W4); [|exact Hr2|].
  - assert (size_of ra' <= size_of ra /\ size_of rb' <= size_of rb)%nat as [].
    { split; [destruct ra|destruct rb]; try done; [specialize (Sa (lines_nonempty _))|specialize (Sb (lines_nonempty _))]; lia. }
    destruct ra, rb; try done; first [specialize (Sa (lines_nonempty _))|specialize (Sb (lines_nonempty _))]; lia.
  - exists s4. rewrite board_run_app. by split.
Qed.
End World.

(** ** Opening the pictures *)

Section Opening.
Context `{Ports} `{Layout} `{Traps} (fs : filesys) (pcb : Z) (UL : user_layout fs pcb open_local) (HT : tables_ok).

Lemma open_ptr_cr3 o fname s : cr3 (k_cpu (open_ptr o fname s).2) = cr3 (k_cpu s).
Proof using Type.
  destruct o; cbn [open_ptr].
  - unfold rtc_open. cbn [inb fst snd].
    match goal with |- context [enable_irq 8 (enable_irq 2 ?x)] => set (s0 := x) end.
    assert (E : cr3 (k_cpu (enable_irq 8 (enable_irq 2 s0))) = cr3 (k_cpu s)) by (unfold enable_irq; reflexivity).
    revert E. generalize (enable_irq 8 (enable_irq 2 s0)). intros s1 E.
    destruct (find_fd _ _ <? 8); cbn -[find_fd rtc_fd_init]; [|exact E].
    destruct (find_fd _ _ =? -1); exact E.
  - unfold on_mem. destruct (dir_open _ _ _ _); reflexivity.
  - unfold on_mem. destruct (file_open _ _ _ _); reflexivity.
  - reflexivity.
Qed.

Lemma sys_open_dir dentry fname s : ret_dir_ptr (sys_open_c dentry fname s).2 = ret_dir_ptr s.
Proof using Type.
  apply ret_dir_ptr_cr3. unfold sys_open_c. destruct (fname =? 0); [done|]. unfold on_mem.
  destruct (read_dentry_by_name _ _ _ _) as [r m]. destruct (r =? -1); [done|].
  destruct (8 <=? _); [done|]. destruct (ops_of_type _) as [o table].
  destruct (open_ptr o fname _) as [x s1] eqn:E. cbn [snd].
  change s1 with (x, s1).2. rewrite <- E, open_ptr_cr3. reflexivity.
Qed.

(** The string at [f] is the name of a regular file with the text [text]. *)
Record picture_file (m : mem) (f inode : Z) (text : list Z) : Prop := {
  pf_page : PROG_LO <= f;
  pf_length : strlen m f <= 32;
  pf_entry : exists i x, list_find (eq (cname m f 32)) (dir_names fs m) = Some (i, x) /\
    entry_type fs m (1 + Z.of_nat i) = REG_FILE /\ entry_inode fs m (1 + Z.of_nat i) = inode;
  pf_file : file_ok fs m inode;
  pf_text : file_bytes fs m inode = text
}.

Lemma picture_file_moved P m m' f inode text :
  dir_ok fs m -> picture_file m f inode text -> unchanged P m m' -> (forall x, P x -> ~ in_region (image fs) x) ->
  (forall x, in_range f (strlen m f + 1) x -> ~ P x) -> picture_file m' f inode text.
Proof using UL.
  intros Hd [F1 F2 (i & x & F3 & F4 & F5) F6 F7] U Hi Hn. pose proof F6 as (Him & Hin & _).
  assert (Hb : forall y, P y -> ~ in_region (boot_region fs) y)
    by (intros y Hy Hr; apply (Hi y Hy); eapply boot_in_image; [exact UL|exact Hr]).
  assert (Es : file_size fs m' inode = file_size fs m inode) by (eapply file_size_unchanged; [exact U|exact Hi|exact Him|exact Hin]).
  assert (0 <= file_size fs m inode) by apply load32_range. pose proof (found_entry _ _ _ _ _ F3) as Hr. pose proof Hd as (_ & Hnd & _).
  split; [exact F1|by rewrite (strlen_unchanged P m m')| | |].
  - exists i, x. rewrite (cname_unchanged_strlen P m m') by assumption.
    unfold dir_names. rewrite (names_from_unchanged fs P m m' Hd U Hb) by lia. split; [exact F3|].
    unfold entry_inode, entry_type in *.
    rewrite !(entry_load32_unchanged fs P m m' Hd U Hb) by (first [exact Hr|unfold DE_FILETYPE, DE_INODE; lia]). done.
  - eapply file_ok_unchanged; [exact U|exact Hi|exact Him|exact F6].
  - rewrite <- F7. unfold file_bytes. rewrite Es. eapply file_slice_unchanged; [exact U|exact Hi|exact Him|exact F6|lia|lia].
Qed.

Lemma open_picture s f inode text :
  k_fs s = fs -> cur_pcb s = pcb -> dir_ok fs (k_mem s) -> picture_file (k_mem s) f inode text ->
  let fd := find_fd (k_mem s) pcb in fd < 8 ->
  exists s1, ece391_open f s = Some (fd, s1) /\ 2 <= fd /\ k_fs s1 = fs /\ cur_pcb s1 = pcb /\ ret_dir_ptr s1 = ret_dir_ptr s /\
    reading fs pcb fd inode 0 s1 /\ file_bytes fs (k_mem s1) inode = text /\ fd_used (k_mem s1) pcb fd = true /\
    unchanged (fun x => lookup_frame open_local x \/ in_region (fd_region pcb fd) x) (k_mem s) (k_mem s1).
Proof using UL HT.
  intros Ef Ep Hd [F1 F2 (i & x & F3 & F4 & F5) F6 F7] fd Hfd. assert (H0' : f <> 0) by (unfold PROG_LO in F1; lia).
  assert (HL : open_layout (k_fs s) (cur_pcb s) open_local f (k_mem s)) by (apply user_open_layout; [by rewrite Ef, Ep|exact F1]).
  pose proof (sys_open_spec s open_local f HL HT ltac:(by rewrite Ef) H0' F2) as Ho.
  rewrite <- Ef in F3. apply sys_open_found with (k := i) (x := x) in Ho; [|exact F3|by rewrite Ep].
  destruct Ho as (s1 & E & Hop). rewrite Ef, Ep, F4, F5 in *. fold fd in E, Hop.
  assert (Hr : 2 <= fd) by (destruct (find_fd_spec (k_mem s) pcb) as (Hr & _); unfold fd; lia).
  pose proof (opened_reading s open_local f fd inode s1) as R. rewrite Ef, Ep in R.
  destruct (R HL ltac:(lia) F6 Hop) as (R1 & R2 & _). pose proof (sys_open_dir open_local f s) as Dr. rewrite E in Dr.
  exists s1. rewrite ece391_open_eq, E. destruct Hop as (P1 & P2 & U & _ & F & _). rewrite Ep in *.
  split; [done|]. split; [exact Hr|]. split; [congruence|]. split; [congruence|]. split; [exact Dr|]. split; [exact R1|].
  split; [congruence|]. split; [unfold fd_used; by rewrite F|]. unfold open_call_frame in U. by rewrite Ep in U.
Qed.

Lemma open_pic_objects fd x :
  2 <= fd < 8 -> lookup_frame open_local x \/ in_region (fd_region pcb fd) x ->
  exists r, r ∈ kernel_objects fs pcb open_local /\ in_region r x.
Proof using Type.
  intros Hfd Hx. unfold kernel_objects. destruct Hx as [[Hx|[Hx|Hx]]|Hx]; [exists scratch|exists (dentry_region open_dentry)|
    exists (dentry_region open_local)|exists (pcb_region pcb)]; (split; [repeat first [left | right]|]); try exact Hx.
  unfold in_region, in_range, fd_region, pcb_region, PCB_SIZE in *. cbn [fst snd] in *. lia.
Qed.

Lemma open_pic_off_image fd x :
  2 <= fd < 8 -> lookup_frame open_local x \/ in_region (fd_region pcb fd) x -> ~ in_region (image fs) x.
Proof using UL.
  intros Hfd [Hx|Hx]; [by apply (lookup_low fs pcb UL)|]. destruct (user_bounds fs pcb UL) as (_ & _ & Dpi).
  unfold rdisj, disj, in_region, in_range, fd_region, pcb_region, PCB_SIZE in *. cbn [fst snd] in *. lia.
Qed.

Lemma open_pic_off_fd fd k :
  2 <= fd < 8 -> 2 <= k < 8 -> k <> fd ->
  forall x, in_region (fd_region pcb k) x -> ~ (lookup_frame open_local x \/ in_region (fd_region pcb fd) x).
Proof using UL.
  intros Hfd Hk Hne x Hx [Hl|Hf].
  - apply (lookup_apart fs pcb UL) in Hl as [_ Hl]. unfold in_region, in_range, fd_region in *. cbn [fst snd] in *. lia.
  - unfold in_region, in_range, fd_region in *. cbn [fst snd] in *. lia.
Qed.
End Opening.

(** The assignments in front of the loop. *)
Section Start.
Context (v : fish_vars) (dir t : Z) (FL : fish_layout (fv_data v) dir t (fv_struct v)).
Context (C0 : char_ok v (fv_c0 v)) (C1 : char_ok v (fv_c1 v)).

Definition start_frames (s : kst) : kst :=
  let s := upd_mem (fun m => store8 m (fv_c0 v) 48) s in
  let s := upd_mem (fun m => store8 m (fv_c1 v) 48) s in
  let s := upd_mem (fun m => store16 m (fv_struct v + ON_LENGTH) 15) s in
  upd_mem (fun m => store16 m (fv_struct v + OFF_LENGTH) 15) s.

Lemma start_frames_board ps s B :
  board_at (fv_data v) dir t ps (k_mem s) B -> board_at (fv_data v) dir t ps (k_mem (start_frames s)) B.
Proof using FL C0 C1.
  intros HB. destruct C0 as (L0 & A1 & A2 & A3 & _), C1 as (L1 & B1 & B2 & B3 & _). pose proof (fl_arg _ _ _ _ FL) as [Ls _].
  pose proof (fl_array_arg _ _ _ _ FL) as S1. pose proof (fl_head_arg _ _ _ _ FL) as S2. pose proof (fl_vmem_arg _ _ _ _ FL) as S3.
  unfold start_frames. cbn [k_mem upd_mem set_k_mem].
  assert (S : forall m o, 0 <= o <= 14 -> unchanged (in_range (fv_struct v) STRUCT_SIZE) m (store16 m (fv_struct v + o) 15))
    by (intros m o Ho; apply unchanged_store16; unfold in_range, STRUCT_SIZE; lia).
  do 2 (eapply (board_program _ _ _ _ FL (fv_struct v) STRUCT_SIZE); [|apply S; unfold ON_LENGTH, OFF_LENGTH; lia|assumption..]).
  eapply (board_program _ _ _ _ FL (fv_c1 v) 1); [|apply unchanged_store8; unfold in_range; lia|assumption..].
  eapply (board_program _ _ _ _ FL (fv_c0 v) 1); [exact HB|apply unchanged_store8; unfold in_range; lia|assumption..].
Qed.

Lemma start_frames_values s :
  fv_c0 v <> fv_c1 v ->
  let m := k_mem (start_frames s) in
  load8 m (fv_c0 v) = 48 /\ load8 m (fv_c1 v) = 48 /\
  load16 m (fv_struct v + ON_LENGTH) = 15 /\ load16 m (fv_struct v + OFF_LENGTH) = 15.
Proof using C0 C1.
  intros Hne m. unfold m, start_frames. cbn [k_mem upd_mem set_k_mem].
  destruct C0 as (_ & _ & _ & _ & _ & D0), C1 as (_ & _ & _ & _ & _ & D1). unfold disj, STRUCT_SIZE, ON_LENGTH, OFF_LENGTH in *.
  rewrite !load8_store16_ne, load16_store16_ne, !load16_store16_eq by lia.
  rewrite load8_store8_ne, !load8_store8_eq by congruence. done.
Qed.
End Start.

(** ** The two files opened *)

Section Both.
Context `{Ports} `{Layout} `{Traps} (v : fish_vars) (fs : filesys) (pcb dir t : Z).
Context (UL : user_layout fs pcb open_local) (HT : tables_ok) (FL : fish_layout (fv_data v) dir t (fv_struct v)).
Context (HD : Forall (rdisj (dir + 4 * USER_VMEM, 4)) (kernel_objects fs pcb open_local)).
Context (HP : Forall (rdisj (4096 * t + 4 * 0xB8, 4)) (kernel_objects fs pcb open_local)).
Context (C0 : char_ok v (fv_c0 v)) (C1 : char_ok v (fv_c1 v)) (Cne : fv_c0 v <> fv_c1 v).

(** The process in front of an [ece391_open], with a board. *)
Record at_open (B : board) (s : kst) : Prop := {
  ao_proc : k_fs s = fs /\ cur_pcb s = pcb /\ ret_dir_ptr s = dir;
  ao_dir : dir_ok fs (k_mem s);
  ao_board : shows_board (fv_data v) dir t (k_mem s) B
}.

(** The assignments in front of the loop keep the files, the descriptors and the board. *)
Lemma start_frames_spec f inode text B s :
  at_open B s -> picture_file fs (k_mem s) f inode text ->
  (forall x, in_range f (strlen (k_mem s) f + 1) x -> x <> fv_c0 v /\ x <> fv_c1 v /\ ~ in_range (fv_struct v) STRUCT_SIZE x) ->
  let s' := start_frames v s in
  at_open B s' /\ picture_file fs (k_mem s') f inode text /\
  forall k, 0 <= k < 8 -> fd_get (k_mem s') pcb k FD_FLAGS = fd_get (k_mem s) pcb k FD_FLAGS.
Proof using UL FL C0 C1.
  intros [Hpr Hdir [ps HB]] PF Hapart s'. set (Q := fun x => x = fv_c0 v \/ x = fv_c1 v \/ in_range (fv_struct v) STRUCT_SIZE x).
  pose proof (fl_arg _ _ _ _ FL) as [Ls _]. pose proof C0 as (L0 & _). pose proof C1 as (L1 & _).
  destruct (user_bounds fs pcb UL) as ((Lp & _) & (Li & _) & _).
  assert (U : unchanged Q (k_mem s) (k_mem s')).
  { unfold s', start_frames. cbn [k_mem upd_mem set_k_mem]. unfold Q, ON_LENGTH, OFF_LENGTH, STRUCT_SIZE.
    do 2 (eapply unchanged_trans; [|apply unchanged_store16; intros x Hx; right; right; unfold in_range in *; lia]).
    eapply unchanged_trans; apply unchanged_store8; tauto. }
  assert (QA : forall x, Q x -> PROG_LO <= x) by (intros x [->|[->|Hx]]; unfold in_range in *; lia).
  assert (Qi : forall x, Q x -> ~ in_region (image fs) x) by (intros x Hx Hr; apply QA in Hx; unfold in_region, in_range in Hr; lia).
  split; [split; [exact Hpr| |exists ps; by apply (start_frames_board v dir t FL C0 C1)]|split].
  - eapply dir_ok_unchanged; [exact Hdir|exact U|]. intros x Hx Hr. apply (Qi x Hx). eapply boot_in_image; [exact UL|exact Hr].
  - eapply (picture_file_moved fs pcb UL Q); [exact Hdir|exact PF|exact U|exact Qi|].
    intros x Hx Hq. destruct (Hapart x Hx) as (N1 & N2 & N3). unfold Q in Hq. tauto.
  - intros k Hk. rewrite (fd_get_unchanged Q (k_mem s) (k_mem s')); [done|exact U|unfold FD_FLAGS; lia..|].
    intros x Hx Hq. apply QA in Hq. unfold in_region, in_range, fd_region, PCB_SIZE in *. cbn [fst snd] in *. lia.
Qed.

(** What an [ece391_open] of a picture does for the other things in memory. *)
Lemma open_kept f inode text B s :
  at_open B s -> picture_file fs (k_mem s) f inode text -> let fd := find_fd (k_mem s) pcb in fd < 8 ->
  exists s1, ece391_open f s = Some (fd, s1) /\ 2 <= fd /\ at_open B s1 /\
    reading fs pcb fd inode 0 s1 /\ file_bytes fs (k_mem s1) inode = text /\ fd_used (k_mem s1) pcb fd = true /\
    unchanged (fun x => lookup_frame open_local x \/ in_region (fd_region pcb fd) x) (k_mem s) (k_mem s1) /\
    (forall x, PROG_LO <= x -> load8 (k_mem s1) x = load8 (k_mem s) x) /\
    (forall f' i' t', picture_file fs (k_mem s) f' i' t' -> picture_file fs (k_mem s1) f' i' t') /\
    (forall k, 2 <= k < 8 -> k <> fd -> fd_used (k_mem s1) pcb k = fd_used (k_mem s) pcb k).
Proof using UL HT FL HD HP.
  intros [(Ef & Ep & Ed) Hd HB] PF fd Hfd.
  destruct (open_picture fs pcb UL HT s f inode text Ef Ep Hd PF Hfd) as (s1 & E & Hr & Ef1 & Ep1 & D1 & R & T & Us & U).
  subst fd. set (fd := find_fd (k_mem s) pcb) in *. set (F := fun x => lookup_frame open_local x \/ in_region (fd_region pcb fd) x) in U.
  destruct (kernel_frame v fs pcb dir t UL FL HD HP F) as (O & V & L);
    [intros x; apply (open_pic_objects fs pcb fd); lia|].
  assert (Fi : forall x, F x -> ~ in_region (image fs) x) by (intros x; apply (open_pic_off_image fs pcb UL fd); lia).
  exists s1. split; [exact E|]. split; [exact Hr|]. split; [split; [split; [exact Ef1|split; congruence]|..]|].
  { eapply dir_ok_unchanged; [exact Hd|exact U|]. intros x Hx Hb. apply (Fi x Hx). eapply boot_in_image; [exact UL|exact Hb]. }
  { eapply board_kept; [exact FL|exact HB|exact U|exact O|exact V]. }
  split; [exact R|]. split; [exact T|]. split; [exact Us|]. split; [exact U|]. split; [|split].
  - intros x Hx. apply (unchanged_load8 F _ _ x U). intros Hf. apply L in Hf. lia.
  - intros f' i' t' P'. eapply (picture_file_moved fs pcb UL F); [exact Hd|exact P'|exact U|exact Fi|].
    intros x Hx Hf. apply L in Hf. pose proof (pf_page _ _ _ _ _ P'). unfold in_range in Hx. lia.
  - intros k Hk Hne. unfold fd_used. rewrite (fd_get_unchanged F (k_mem s) (k_mem s1)); [done|exact U|unfold FD_FLAGS; lia..|].
    apply (open_pic_off_fd fs pcb UL fd); lia.
Qed.

(** Both files opened: the state in front of the first row. *)
Lemma open_both f0 f1 i0 i1 text0 text1 B s :
  at_open B s -> picture_file fs (k_mem s) f0 i0 text0 -> picture_file fs (k_mem s) f1 i1 text1 ->
  (exists j, find_fd (k_mem s) pcb < j < 8 /\ fd_used (k_mem s) pcb j = false) ->
  load8 (k_mem s) (fv_c0 v) = 48 -> load8 (k_mem s) (fv_c1 v) = 48 ->
  load16 (k_mem s) (fv_struct v + ON_LENGTH) = 15 -> load16 (k_mem s) (fv_struct v + OFF_LENGTH) = 15 ->
  exists fd0 fd1 s1 s2, let a := mkSource fd0 i0 (fv_c0 v) in let b := mkSource fd1 i1 (fv_c1 v) in
    ece391_open f0 s = Some (fd0, s1) /\ ece391_open f1 s1 = Some (fd1, s2) /\
    sources_ok v a b /\ world v fs pcb dir t a b 48 48 (Rest text0) (Rest text1) B s2.
Proof using UL HT FL HD HP C0 C1 Cne.
  intros A P0 P1 (j & Hj & Hfree) V0 V1 V2 V3. pose proof (fl_arg _ _ _ _ FL) as [Ls _]. pose proof C0 as (L0 & _). pose proof C1 as (L1 & _).
  destruct (open_kept f0 i0 text0 B s A P0 ltac:(lia)) as (s1 & E1 & Hr0 & A1 & R1 & T1 & Us & _ & Lo1 & K1 & Fd1).
  set (fd0 := find_fd (k_mem s) pcb) in *. destruct (find_fd_spec (k_mem s1) pcb) as (Hr & Hfr & Hus).
  assert (Hlt : find_fd (k_mem s1) pcb < 8).
  { destruct (decide (find_fd (k_mem s1) pcb < 8)); [done|]. specialize (Hus j ltac:(lia)). rewrite Fd1 in Hus by lia. congruence. }
  assert (Hne : find_fd (k_mem s1) pcb <> fd0) by (intros E; specialize (Hfr Hlt); rewrite E in Hfr; congruence).
  destruct (open_kept f1 i1 text1 B s1 A1 (K1 _ _ _ P1) Hlt) as (s2 & E2 & Hr1 & A2 & R2 & T2 & _ & U2 & Lo2 & _ & _).
  set (fd1 := find_fd (k_mem s1) pcb) in *. destruct A1 as [(Ef1 & Ep1 & _) _ _]. pose proof A2 as [(Ef2 & Ep2 & Ed2) _ HB2].
  destruct (reading_unchanged _ fs pcb fd0 i0 0 s1 s2 R1 U2) as (R1' & _ & T1');
    [split; congruence|intros x; apply (open_pic_off_image fs pcb UL fd1); lia|apply (open_pic_off_fd fs pcb UL fd1); lia|].
  assert (Low : forall x, PROG_LO <= x -> load8 (k_mem s2) x = load8 (k_mem s) x) by (intros x Hx; by rewrite Lo2, Lo1).
  exists fd0, fd1, s1, s2. cbn zeta. split; [exact E1|]. split; [exact E2|]. split; [split; cbn [so_fd so_char]; [lia|done]|].
  split; [done|..|exact HB2|].
  - split; [exists 0; split; [exact R1'|cbn [so_inode]; by rewrite T1', T1]|]. cbn [so_char]. by rewrite Low.
  - split; [exists 0; split; [exact R2|cbn [so_inode]; by rewrite T2]|]. cbn [so_char]. by rewrite Low.
  - unfold load16, ON_LENGTH, OFF_LENGTH in *. by rewrite !Low by lia.
Qed.
End Both.

(** ** Theorem *)

(** C13 fish puts the two pictures on its board: add_frames opens both files and, going
    through their lines side by side, asks for exactly the places where one of the pictures
    has a character that is not blank, row by row and from left to right, with the
    character of the first file as the one shown first, the character of the second as the
    other (blank behind the end of a line) and 15 ticks for each; places below the screen
    are refused.  It returns. *)
Theorem add_frames_correct `{Ports} `{Layout} `{Traps} v fuel fs pcb dir t n f0 f1 i0 i1 text0 text1 B s :
  user_layout fs pcb open_local -> tables_ok -> fish_layout (fv_data v) dir t (fv_struct v) ->
  Forall (rdisj (dir + 4 * USER_VMEM, 4)) (kernel_objects fs pcb open_local) ->
  Forall (rdisj (4096 * t + 4 * 0xB8, 4)) (kernel_objects fs pcb open_local) ->
  char_ok v (fv_c0 v) -> char_ok v (fv_c1 v) -> fv_c0 v <> fv_c1 v ->
  k_fs s = fs -> cur_pcb s = pcb -> ret_dir_ptr s = dir -> dir_ok fs (k_mem s) ->
  shows_board (fv_data v) dir t (k_mem s) B ->
  picture_file fs (k_mem s) f0 i0 text0 -> picture_file fs (k_mem s) f1 i1 text1 ->
  (forall x, in_range f0 (strlen (k_mem s) f0 + 1) x \/ in_range f1 (strlen (k_mem s) f1 + 1) x ->
     x <> fv_c0 v /\ x <> fv_c1 v /\ ~ in_range (fv_struct v) STRUCT_SIZE x) ->
  (exists j, find_fd (k_mem s) pcb < j < 8 /\ fd_used (k_mem s) pcb j = false) ->
  let requests := picture 0 (lines text0) (lines text1) in
  Forall request_ok requests -> (length text0 + length text1 + 2 < n)%nat ->
  exists s', add_frames v fuel n f0 f1 s = Some s' /\
    shows_board (fv_data v) dir t (k_mem s') (board_run requests B).2.
Proof.
  intros UL HT FL HD HP C0 C1 Cne Ef Ep Edir Hdir HB P0 P1 Hapart (j & Hj & Hfree) requests Hreq Hn.
  change (add_frames v fuel n f0 f1 s) with ('(fd0, s) ← ece391_open f0 (start_frames v s);
    if fd0 <? 0 then None else '(fd1, s) ← ece391_open f1 s; if fd1 <? 0 then None else frame_rows v fuel n fd0 fd1 0 0 0 s).
  assert (A : at_open v fs pcb dir t B s) by (by split).
  destruct (start_frames_spec v fs pcb dir t UL FL C0 C1 f0 i0 text0 B s A P0 ltac:(intros x Hx; apply Hapart; by left)) as (A' & P0' & Fd).
  destruct (start_frames_spec v fs pcb dir t UL FL C0 C1 f1 i1 text1 B s A P1 ltac:(intros x Hx; apply Hapart; by right)) as (_ & P1' & _).
  destruct (start_frames_values v C0 C1 s Cne) as (V0 & V1 & V2 & V3).
  destruct (open_both v fs pcb dir t UL HT FL HD HP C0 C1 Cne f0 f1 i0 i1 text0 text1 B (start_frames v s) A' P0' P1')
    as (fd0 & fd1 & s1 & s2 & E1 & E2 & SK & W); [|assumption..|].
  { destruct (find_fd_spec (k_mem s) pcb) as (Hr & _). exists j. rewrite (find_fd_ext (k_mem s)) by (intros k Hk; apply Fd; lia). split; [exact Hj|]. unfold fd_used. rewrite Fd by lia. exact Hfree. }
  pose proof SK as [(F0 & F1 & _) _]. cbn [so_fd] in F0, F1.
  rewrite E1. cbn [mbind option_bind]. replace (fd0 <? 0) with false by lia.
  rewrite E2. cbn [mbind option_bind]. replace (fd1 <? 0) with false by lia.
  destruct (frame_rows_spec v fs pcb dir t UL FL HD HP _ _ SK eq_refl eq_refl fuel n 0 (Rest text0) (Rest text1) B s2 W)
    as (s' & E' & W'); [cbn; lia|exact Hreq|].
  exists s'. split; [exact E'|apply W'].
Qed.

(** ** A concrete run

    The directory of FilesysDir.v; both pictures are the file "frame" with the text "Hello". *)
#[local] Existing Instance test_layout.
#[local] Instance fish_ports : Ports := fun _ _ => 0.
#[local] Instance fish_traps : Traps :=
  {| arrivals := fun _ => mkSched [] []; open_local := 0x3500;
     exec_locals := mkLocals 0x7FD000 0x7FD040 0x7FD080 0x7FD100 0x3500 0x7FDFF0; args_fuel := 1025 |}.

Definition test_vars : fish_vars :=
  mkVars test_fish 0x8061100 0x8062000 0x8062000 0x8061020 0x8061024 0x8061030 0x8060060 0x8061000 0x8061001.

Definition pictures_mem : mem :=
  let m := store_list test_image 0x8062000 name_frame in
  let m := store32 m (0x100000 + 4 * USER_VMEM) (4096 * 0x102 + 7) in
  let m := store32 m (4096 * 0x102 + 4 * 0xB8) 0xB8007 in
  store32 m 0x8060010 0x84B8000.

Definition pictures_state : kst :=
  mkKst pictures_mem (mkConsole 0 3) (mkPic 0xFF 0xFF) 0 (mkKeyboard 0 0 0 0 0 0 0) test_fs 0x1000 1
    (mkCpu true 0x800000 0 0x100000 0) [].

Lemma pictures_layout : user_layout test_fs 0x1000 open_local.
Proof.
  split; [exact test_fs_layout|cbn; lia|test_sep|test_sep|cbn; lia|test_sep|test_sep| |].
  - unfold kernel_objects. repeat (constructor; [vm_compute; congruence|]). constructor.
  - unfold kernel_objects. repeat (constructor; [test_sep|]). constructor.
Qed.

Lemma pictures_tables : tables_ok.
Proof.
  split; [repeat constructor; vm_compute; intuition congruence|].
  apply (bool_decide_unpack _). vm_compute. exact I.
Qed.

Lemma pictures_dir_ok : dir_ok test_fs pictures_mem.
Proof.
  split; [vm_compute; congruence|]. split; [vm_compute; intuition congruence|].
  intros i Hi. cbn in Hi. assert (i = 1 \/ i = 2) as [-> | ->] by lia; vm_compute; reflexivity.
Qed.

(** No node is in use. *)
Lemma pictures_free p : is_slot test_fish p -> b_loc (node pictures_mem p) = 0.
Proof.
  intros (i & Hi & ->).
  assert (F : forallb (fun i => b_loc (node pictures_mem (blink_array test_fish + STRUCT_SIZE * Z.of_nat i)) =? 0) (seq 0 2000) = true)
    by (vm_compute; reflexivity).
  rewrite forallb_forall in F. specialize (F (Z.to_nat i)). rewrite Z2Nat.id in F by lia. apply Z.eqb_eq, F.
  apply in_seq. unfold NODES in Hi. lia.
Qed.

Lemma pictures_board :
  shows_board test_fish 0x100000 0x102 pictures_mem (mkBoard [] (fun k => load8 pictures_mem (VIDEO + 2 * k))).
Proof.
  exists []. split; [vm_compute; reflexivity|constructor|by intros p ?%elem_of_nil| |by intros p ?%elem_of_nil|done|done|
    vm_compute; reflexivity|].
  - intros p Hp _. by apply pictures_free.
  - split; [lia|]. split; vm_compute; reflexivity.
Qed.

Lemma pictures_file : picture_file test_fs pictures_mem 0x8062000 0 [72; 101; 108; 108; 111].
Proof.
  split; [unfold PROG_LO; lia|vm_compute; congruence| | |vm_compute; reflexivity].
  - exists 1%nat, name_frame. repeat split; vm_compute; reflexivity.
  - assert (Es : file_size test_fs pictures_mem 0 = 5) by (vm_compute; reflexivity).
    split; [vm_compute; intuition congruence|]. split; [cbn; lia|]. rewrite Es. split; [unfold FOUR_KB; lia|].
    intros o Ho. replace (o / FOUR_KB) with 0 by (unfold FOUR_KB; zdm). vm_compute. reflexivity.
Qed.

Lemma add_frames_correct_witness :
  exists s', add_frames test_vars 1 13 0x8062000 0x8062000 pictures_state = Some s' /\
    shows_board test_fish 0x100000 0x102 (k_mem s')
      (board_run [Add 40 72 72 15 15; Add 41 101 101 15 15; Add 42 108 108 15 15; Add 43 108 108 15 15; Add 44 111 111 15 15]
        (mkBoard [] (fun k => load8 pictures_mem (VIDEO + 2 * k)))).2.
Proof.
  apply (add_frames_correct test_vars 1 test_fs 0x1000 0x100000 0x102 13 0x8062000 0x8062000 0 0 [72; 101; 108; 108; 111] [72; 101; 108; 108; 111]
    (mkBoard [] (fun k => load8 pictures_mem (VIDEO + 2 * k))) pictures_state pictures_layout pictures_tables test_fish_layout).
  - unfold kernel_objects. repeat (constructor; [test_sep|]). constructor.
  - unfold kernel_objects. repeat (constructor; [test_sep|]). constructor.
  - test_sep.
  - test_sep.
  - cbn. lia.
  - reflexivity.
  - reflexivity.
  - reflexivity.
  - exact pictures_dir_ok.
  - exact pictures_board.
  - exact pictures_file.
  - exact pictures_file.
  - assert (El : strlen (k_mem pictures_state) 0x8062000 = 5) by (vm_compute; reflexivity). rewrite El.
    intros x Hx. unfold in_range, STRUCT_SIZE in *. cbn [fv_c0 fv_c1 fv_struct test_vars]. lia.
  - exists 3. split; [|vm_compute; reflexivity].
    assert (Ef : find_fd (k_mem pictures_state) 0x1000 = 2) by (vm_compute; reflexivity). rewrite Ef. lia.
  - repeat constructor; cbn; lia.
  - cbn. lia.
Defined.
